(* ===== verification/_CoqProject ===== *)
-Q . S2P
Prelude.v
RustStd.v
Traits.v
Mmap.v
Bytes.v
Protocol.v
Io.v
V4l2r.v
Ioctl.v
Runner.v
Vmm.v
MemFd.v
SimpleDevice.v
VideoDecoder.v
DecoderFrame.v
DecoderBehaviour.v
DecoderContract.v
DecoderOffsets.v
HostDevice.v
V4l2Proxy.v
ProxyContract.v
ProxyBehaviour.v
ProxyAllocation.v
EventQueue.v
Avcodec.v
FfmpegDecoder.v
FfmpegMachine.v
FfmpegBehaviour.v
FfmpegDevice.v
FfmpegGuest.v
FfmpegVmm.v
