(* ===== verification/Prelude.v ===== *)
(** * A model of the virtio-media crates

    virtio-media exposes V4L2 devices of a host to a guest over virtio.  The crate
    under [device/] is the host side: a VMM gives it the two halves of a
    descriptor chain per guest command, and it parses the command, runs it on a
    device and writes the response.  The crate under [extras/ffmpeg-decoder/] is a
    backend for its video decoder, on FFmpeg.  This library is a shallow embedding of
    both: each function of the source is a Rocq function with the same name and the
    same branches, over explicit state.

    ** Parts of the program, and the files that model them

    - [device/src/lib.rs], [device/src/poll.rs]: the traits that a VMM and a device
      implement, and [VirtioMediaDeviceRunner], which owns the sessions and turns
      commands into calls to the device.  [Traits.v] has the VMM's traits as
      classes, [Runner.v] the runner ([handle_command], one definition per command),
      and [Vmm.v] a VMM around it, which also runs the sessions whose descriptors
      are ready.
    - [device/src/protocol.rs]: commands, responses, events, ioctl codes.
      [Protocol.v], on the codecs of [Bytes.v].
    - [device/src/io.rs], [device/src/io/le.rs]: reading and writing objects of the
      protocol.  [Io.v]; the readable half of a chain is the list of the bytes
      left, the writable half the bytes written and the room left.
    - [device/src/ioctl.rs]: parsing, validation and dispatch of ioctls.  [Ioctl.v]:
      [Call.ioctl_call] is the signature of the trait [VirtioMediaIoctlHandler], and
      [virtio_media_dispatch_ioctl] has one branch per ioctl of the source.
    - [device/src/mmap.rs]: the manager of the MMAP range.  [Mmap.v], with the
      standard library's binary search in [RustStd.v].
    - [device/src/memfd.rs]: memory files.  [MemFd.v], over a parameter for the
      system calls, with the buffered writer of the standard library.
    - [device/src/devices/simple_device.rs]: a capture device that generates a
      pattern.  [SimpleDevice.v].
    - [device/src/devices/video_decoder.rs]: a stateful decoder over a backend.
      [VideoDecoder.v] has its operations over the traits of the backend,
      [DecoderFrame.v] what a backend promises and what every operation keeps,
      [DecoderBehaviour.v] what the operations do, [DecoderContract.v] the decoder
      under a runner, and [DecoderOffsets.v] its planes in the MMAP manager.
    - [device/src/devices/v4l2_device_proxy.rs]: a device that passes ioctls on to a
      V4L2 device of the host.  [HostDevice.v] is the interface of the host device,
      [V4l2Proxy.v] the proxy, [ProxyContract.v] the proxy under a runner,
      [ProxyBehaviour.v] what its operations do, and [ProxyAllocation.v] when it can
      allocate buffers.
    - [extras/ffmpeg-decoder/src/event_queue.rs]: the queue of the events of the
      backend, which can be polled.  [EventQueue.v].
    - [extras/ffmpeg-decoder/src/ffmpeg/]: wrappers of libavcodec, libavutil and
      libswscale.  [Avcodec.v].
    - [extras/ffmpeg-decoder/src/lib.rs]: the backend.  [FfmpegDecoder.v] has its
      operations, [FfmpegMachine.v] the machine it refines, [FfmpegBehaviour.v] what
      it does on a codec that keeps its documented promises.  [FfmpegDevice.v] makes
      it an instance of the traits of the decoder device, [FfmpegGuest.v] says what
      the guest sees of the two together, and [FfmpegVmm.v] puts the runner on top.
    - The crate [v4l2r] is not part of the repository: [V4l2r.v] is its interface, a
      class of types and functions ([V4l2r]) and the documented facts that proofs
      use ([V4l2rLaws]).  Its module [Sample] is an instance of both, on which the
      witnesses evaluate.  In the same way [HostV4l2] and [HostV4l2Laws] stand for
      the ioctls and the poller of [v4l2r], [Kernel] and [EventFd] for system calls,
      and [Avutil], [Libav], [CodecLaws], [SizeLaws] and [IterateLaws] for the FFmpeg
      libraries.  [OnePlane] says of the descriptions that a device makes that they
      have one plane.  Every call to the host may fail; [disable_failed] is a view of
      a poller that records whether it has refused to stop watching an event.

    ** How code is represented

    A Rust function returns or panics ([outcome]), returns [Result] as [result], and
    threads the state it borrows ([M S E A]).  A w-bit integer is a [Z] in its range;
    operators go through [unsigned_op], which panics or wraps on an overflow
    according to the build ([BuildMode]).  [usize] has 64 bits.  Traits are classes
    over the type of the implementor; the interfaces between components are the
    classes [HandlerSpec] and its special case [HandlerInvariant] (what a handler
    promises to the dispatcher), [GuardedContract] and its special case
    [DeviceContract] (what a device promises to the runner: on which ioctls and
    sessions, and on which OPEN, it may panic, and what it keeps), against which the
    theorems of the dispatcher and of the runner are proved, and which
    [SimpleDevice.v], [DecoderContract.v] and [ProxyContract.v] discharge.
    [EventContract] is the same for the events of a device in a VMM.  The decoder's
    theorems are proved against [BackendLaws] and [MappableStorage] (what a backend
    promises to the device), which [FfmpegDevice.v] discharges for FFmpeg;
    [SessionFrame] are the invariants of a session that its operations keep.

    ** What the theorems show

    - The MMAP manager refines a specification on finite maps; its vector stays
      sorted and well formed; mappings are counted and outlive unregistration; it
      panics only when the 32-bit range is exhausted ([Mmap.v]).
    - Commands, responses and error events have the wire format of their structures,
      field by field, and are read back from it; ioctl codes are those of the enumeration ([Io.v], [Protocol.v]).
    - The dispatcher does not panic on guest input, [SUBSCRIBE_EVENT] apart, keeps
      every invariant of the handler, and answers in the format of the protocol;
      the regions it reads for a guest buffer are the shortest prefix of the entries
      in the input that covers the buffer ([Ioctl.v]).
    - The runner keeps the contract of any device under any sequence of commands;
      rejected commands change nothing; OPEN and CLOSE do what they say
      ([Runner.v]).
    - The capture device keeps its invariant under any sequence of commands and
      delivers its frames in order ([SimpleDevice.v]).
    - The decoder's streaming state is two switches; its events are those of an
      abstract specification; REQBUFS resizes the queue; the crop rectangle of the
      stream is final; a session is safe between two REQBUFS, and a REQBUFS that
      removes a waiting buffer makes the next STREAMON panic ([DecoderBehaviour.v]).
      Under a runner, no guest panics it that calls REQBUFS only while no CAPTURE buffer
      waits for the backend ([DecoderContract.v]); the buffers of every session
      describe themselves and can be mapped, at registered offsets that no other
      plane has ([DecoderOffsets.v]).  All this holds for any backend that keeps its
      laws.
    - Under any sequence of guest commands and host events, the buffers that the
      proxy lets the guest map are those of its open sessions, it watches the host
      only for sessions that stream or whose poller refused to stop watching, and it
      panics only in the ioctls that allocate buffers, set ext controls or subscribe
      to events, when the host grants a new session no poller ([poller_granted]), or,
      in builds with overflow checks, when a poller has refused to stop watching
      ([host_keeps_up]; [ProxyContract.v]).  User pointers are replaced by mappings on
      the way to the host and restored on the way back, ext controls keep the guest's
      pointers, events are forwarded in order, mapping needs the host's permission;
      and a guest that allocates over a mapped buffer panics the host
      ([ProxyBehaviour.v]).  REQBUFS panics exactly when the offsets of the host
      cannot be registered, which another session can bring about
      ([ProxyAllocation.v]).
    - The event queue is a list, readable exactly when it is not empty
      ([EventQueue.v]); frames are built exactly over planes that are inside
      their buffers, whose rows fit the stride and that do not overlap ([Avcodec.v]).
    - The decode loop of the backend refines a machine of single steps, in which
      every input and output buffer is accounted for ([FfmpegMachine.v]).  On a codec
      that keeps its promises every operation returns; a drained codec takes no more
      input; a frame of another size than the buffers is lost; the codec of a
      session always decodes its format; S_FMT does what TRY_FMT promised, except
      for formats without a codec ([FfmpegBehaviour.v]).
    - The decoder device on the FFmpeg backend keeps its invariant in a VMM, and a
      session answers every sequence of ioctls and events between two REQBUFS
      ([FfmpegDevice.v]).  The buffers that the guest queues are accounted for from
      its ioctls to the messages it gets, and after a drain it gets no input buffer
      back, both between two REQBUFS ([FfmpegGuest.v]).  No guest panics or hangs the whole stack, from the bytes
      of its commands to the codec, that subscribes to no event and calls REQBUFS only
      while no CAPTURE buffer waits ([FfmpegVmm.v]).

    Theorems have a witness that applies them to concrete inputs: in the modules
    [IoctlWitness], [RunnerWitness], [SimpleWitness], [DecoderWitness],
    [ContractWitness], [OffsetsWitness], [ProxyWitness], [BehaviourWitness], [SampleEventFd],
    [AllocationWitness], [SampleAvutil], [MachineWitness], [FfmpegWitness],
    [DeviceWitness], [GuestWitness] and [VmmWitness], or next to the theorem.

    ** Fuel and bounds

    Some loops of the source are not structural and run on fuel.  For most, the
    definitions themselves provide it.  The binary search gets the length of the
    vector, of which each round removes at least half.  [get_userptr_regions] gets
    one more than the number of unread bytes: each round consumes a non-empty
    entry or fails.  [process_queued_buffers] gets the length of the queue, which
    each round shortens; flushing the buffered writer gets the number of buffered
    bytes, of which each round writes some or fails; reading a file gets the number
    of bytes asked for.  The loops of the proxy that dequeue events and buffers get
    one more than the number that the host has ready, which each round lowers.  In
    each case the equivalence or termination theorem shows that the fuel suffices.
    The number of rounds of [try_decode] and [try_receive_frame] depends on the codec,
    so their fuel is a parameter; [FfmpegBehaviour.v] shows that some fuel, and any
    larger one, is enough for a codec that keeps its promises, and [FfmpegDevice.v]
    the same for whole sequences of ioctls and events of the device over it, and
    [FfmpegVmm.v] for sequences of commands.  The loop over the codecs of FFmpeg gets
    one more than the number of codecs left, which each round lowers.  Bounds
    of 2^64 calls and 2^32 sessions in some theorems come from the counters
    [num_mappings] and [session_id_counter].

    ** What is not modelled

    The guest driver ([driver/], in C); big-endian hosts; logging; closing of file
    descriptors and freeing of FFmpeg's objects on drop (guest memory that the proxy
    has mapped is dropped where the code drops it); the
    texts of [Display]; build scripts and unit tests; the VMM's own implementations of the
    traits, which are parameters.  Backends, mappers, pollers and the FFmpeg
    libraries return: they do not diverge, and panic only where their class allows
    it.

    This file holds what all the others share: outcomes, results and the state and
    error monad, machine integers, error codes, the automation, and the laws of
    preservation and of weakest preconditions. *)

From Stdlib Require Export Lia ZifyNat ZifyBool.
From stdpp Require Export sorting base decidable numbers option gmap.
From stdpp Require Export tactics.
From stdpp Require Export list.

#[global] Open Scope Z_scope.

(** ** Outcomes of Rust code

    A Rust function returns or panics.  [outcome] is the value a call can have;
    [result] is [core::result::Result]. *)

Inductive outcome (A : Type) : Type :=
| Ret (a : A)
| Panic.
Arguments Ret {A} a.
Arguments Panic {A}.

Inductive result (A E : Type) : Type :=
| Ok (a : A)
| Err (e : E).
Arguments Ok {A E} a.
Arguments Err {A E} e.

#[global] Instance outcome_ret : MRet outcome := λ A a, Ret a.
#[global] Instance outcome_bind : MBind outcome := λ A B f o,
  match o with Ret a => f a | Panic => Panic end.

#[global] Instance result_eq_dec {A E} `{EqDecision A, EqDecision E} :
  EqDecision (result A E).
Proof. solve_decision. Defined.
#[global] Instance outcome_eq_dec {A} `{EqDecision A} : EqDecision (outcome A).
Proof. solve_decision. Defined.

Definition is_ok {A E} (r : result A E) : bool :=
  match r with Ok _ => true | Err _ => false end.

Definition map_ok {A B E} (f : A → B) (r : result A E) : result B E :=
  match r with Ok a => Ok (f a) | Err e => Err e end.

(** ** The monad of mutating, fallible, possibly panicking code

    [M S E A] is the type of a Rust function that borrows a state [S] mutably
    and returns [Result<A, E>].  An [Err] keeps the mutations made before it,
    as [?] does on a [&mut] borrow; a panic loses the state. *)

Definition M (S E A : Type) : Type := S → outcome (S * result A E).

#[global] Instance M_ret {S E} : MRet (M S E) := λ A a s, Ret (s, Ok a).
#[global] Instance M_bind {S E} : MBind (M S E) := λ A B f m s,
  match m s with
  | Panic => Panic
  | Ret (s', Err e) => Ret (s', Err e)
  | Ret (s', Ok a) => f a s'
  end.

Section MonadOps.
Context {S E : Type}.

Definition throw {A} (e : E) : M S E A := λ s, Ret (s, Err e).
Definition panic {A} : M S E A := λ _, Panic.
Definition get_st : M S E S := λ s, Ret (s, Ok s).
Definition gets {A} (f : S → A) : M S E A := λ s, Ret (s, Ok (f s)).
Definition modify (f : S → S) : M S E unit := λ s, Ret (f s, Ok tt).
Definition guard_err (b : bool) (e : E) : M S E unit :=
  if b then throw e else mret tt.
Definition ok_or {A} (o : option A) (e : E) : M S E A :=
  match o with Some a => mret a | None => throw e end.
Definition unwrap {A} (o : option A) : M S E A :=
  match o with Some a => mret a | None => panic end.
Definition lift_outcome {A} (o : outcome A) : M S E A :=
  match o with Ret a => mret a | Panic => panic end.
Definition lift_result {A} (r : result A E) : M S E A :=
  match r with Ok a => mret a | Err e => throw e end.
Definition map_err {E' A} (f : E' → E) (m : M S E' A) : M S E A := λ s,
  match m s with
  | Panic => Panic
  | Ret (s', Ok a) => Ret (s', Ok a)
  | Ret (s', Err e) => Ret (s', Err (f e))
  end.
(** [match m { Ok(a) => .., Err(e) => .. }]: the result becomes a value. *)
Definition try_m {E' A} (m : M S E' A) : M S E (result A E') := λ s,
  match m s with
  | Panic => Panic
  | Ret (s', r) => Ret (s', Ok r)
  end.
(** [let _ = m;] and [if let Err(e) = m { log }]: the error is dropped. *)
Definition ignore_err {E' A} (m : M S E' A) : M S E unit := λ s,
  match m s with
  | Panic => Panic
  | Ret (s', _) => Ret (s', Ok tt)
  end.
End MonadOps.

(** Runs an operation on a field of the state. *)
Definition zoom {S T E A} (get : S → T) (set : T → S → S) (m : M T E A) : M S E A :=
  λ s, match m (get s) with
       | Panic => Panic
       | Ret (t, r) => Ret (set t s, r)
       end.

(** [(iter).map(f).collect::<Result<Vec<_>, _>>()]: stops at the first error. *)
Fixpoint mapM_m {S E A B} (f : A → M S E B) (l : list A) : M S E (list B) :=
  match l with
  | [] => mret []
  | a :: l' => b ← f a; bs ← mapM_m f l'; mret (b :: bs)
  end.

(** [for x in l { f(x)?; }] *)
Fixpoint forM_ {S E A} (f : A → M S E unit) (l : list A) : M S E unit :=
  match l with
  | [] => mret tt
  | a :: l' => f a ;; forM_ f l'
  end.

(** ** Machine integers

    A w-bit integer is a [Z] in its range.  The arithmetic operators of Rust
    panic on overflow when the build has overflow checks (debug builds) and wrap
    otherwise; [overflow_checks] is the build's setting. *)

Class BuildMode := overflow_checks : bool.

Definition u8_max : Z := 0xff.
Definition u32_max : Z := 0xffffffff.
Definition u64_max : Z := 0xffffffffffffffff.

Definition is_u8 (z : Z) : Prop := 0 ≤ z ≤ u8_max.
Definition is_u32 (z : Z) : Prop := 0 ≤ z ≤ u32_max.
Definition is_u64 (z : Z) : Prop := 0 ≤ z ≤ u64_max.
Definition is_i32 (z : Z) : Prop := -0x80000000 ≤ z ≤ 0x7fffffff.

(** The result of an unsigned w-bit operator whose exact value is [z]. *)
Definition unsigned_op `{BuildMode} (max z : Z) : outcome Z :=
  if (0 <=? z) && (z <=? max) then Ret z
  else if overflow_checks then Panic else Ret (z `mod` (max + 1)).

Definition u8_mul `{BuildMode} (a b : Z) : outcome Z := unsigned_op u8_max (a * b).
Definition u32_add `{BuildMode} (a b : Z) : outcome Z := unsigned_op u32_max (a + b).
Definition u32_sub `{BuildMode} (a b : Z) : outcome Z := unsigned_op u32_max (a - b).
Definition u64_add `{BuildMode} (a b : Z) : outcome Z := unsigned_op u64_max (a + b).
Definition u64_sub `{BuildMode} (a b : Z) : outcome Z := unsigned_op u64_max (a - b).

(** [u32::checked_add]. *)
Definition u32_checked_add (a b : Z) : option Z :=
  if a + b <=? u32_max then Some (a + b) else None.

(** [as u32], [as u8] and [as i32] casts. *)
Definition as_u32 (z : Z) : Z := z `mod` 0x100000000.
Definition as_u8 (z : Z) : Z := z `mod` 0x100.
Definition as_i32 (z : Z) : Z :=
  let u := z `mod` 0x100000000 in if u <=? 0x7fffffff then u else u - 0x100000000.

(** ** Error codes of [libc] used by the crate *)

Definition EPERM : Z := 1.
Definition EIO : Z := 5.
Definition ENOMEM : Z := 12.
Definition EBUSY : Z := 16.
Definition ENODEV : Z := 19.
Definition EINVAL : Z := 22.
Definition ENOTTY : Z := 25.

(** ** Automation *)

Create HintDb vmedia discriminated.

Ltac unfold_ranges := unfold is_u8, is_u32, is_u64, is_i32, u8_max, u32_max, u64_max in *.

(** Linear arithmetic over machine integers. *)
Ltac mlia := unfold_ranges; lia.

(** Linear arithmetic with division and modulo by constants. *)
Ltac divlia := unfold_ranges; zify; Z.to_euclidean_division_equations; lia.

(** ** Laws shared by the components *)

Section Ints.
Context `{BuildMode}.

Lemma unsigned_op_ok max z : 0 ≤ z ≤ max → unsigned_op max z = Ret z.
Proof.
  intros. unfold unsigned_op.
  by rewrite (proj2 (Z.leb_le 0 z)), (proj2 (Z.leb_le z max)) by lia.
Qed.

Lemma unsigned_op_over max z :
  0 ≤ max → ¬ 0 ≤ z ≤ max →
  unsigned_op max z = if overflow_checks then Panic else Ret (z `mod` (max + 1)).
Proof.
  intros. unfold unsigned_op.
  destruct (Z.leb_spec 0 z), (Z.leb_spec z max); [lia|done..].
Qed.

Lemma unsigned_op_range max z v :
  0 ≤ max → unsigned_op max z = Ret v → 0 ≤ v ≤ max.
Proof.
  unfold unsigned_op. intros Hm.
  destruct (Z.leb_spec 0 z), (Z.leb_spec z max), overflow_checks; simpl;
    intros [= <-]; try lia;
    pose proof (Z.mod_pos_bound z (max + 1)); lia.
Qed.
End Ints.

Lemma as_u32_id z : is_u32 z → as_u32 z = z.
Proof. intros. unfold as_u32. apply Z.mod_small. mlia. Qed.

Lemma as_u32_range z : is_u32 (as_u32 z).
Proof. unfold as_u32. pose proof (Z.mod_pos_bound z 0x100000000). mlia. Qed.

#[export] Hint Resolve as_u32_range : vmedia.

(** A monadic computation on [S] preserves [P] when it cannot leave [P],
    whether it succeeds or fails. *)
Definition preserves {S E A} (P : S → Prop) (m : M S E A) : Prop :=
  ∀ s s' r, P s → m s = Ret (s', r) → P s'.

(** It never panics from [P]. *)
Definition no_panic {S E A} (P : S → Prop) (m : M S E A) : Prop :=
  ∀ s, P s → m s ≠ Panic.

Section Preserves.
Context {S E : Type} (P : S → Prop).

Lemma preserves_ret {A} (a : A) : preserves P (mret a : M S E A).
Proof. intros s s' r HP [= <- <-]. done. Qed.

Lemma preserves_throw {A} (e : E) : preserves P (throw e : M S E A).
Proof. intros s s' r HP [= <- <-]. done. Qed.

Lemma preserves_panic {A} : preserves P (panic : M S E A).
Proof. intros s s' r HP [=]. Qed.

Lemma preserves_gets {A} (f : S → A) : preserves P (gets f : M S E A).
Proof. intros s s' r HP [= <- <-]. done. Qed.

Lemma preserves_get_st : preserves P (get_st : M S E S).
Proof. intros s s' r HP [= <- <-]. done. Qed.

Lemma preserves_bind {A B} (m : M S E A) (f : A → M S E B) :
  preserves P m → (∀ a, preserves P (f a)) → preserves P (m ≫= f).
Proof.
  intros Hm Hf s s' r HP. unfold mbind, M_bind.
  destruct (m s) as [[s1 [a|e]]|] eqn:Em; intros Heq.
  - eapply Hf; [|done]. by eapply Hm.
  - inv Heq. by eapply Hm.
  - done.
Qed.

Lemma preserves_map_err {E' A} (g : E' → E) (m : M S E' A) :
  preserves P m → preserves P (map_err g m).
Proof.
  intros Hm s s' r HP. unfold map_err.
  destruct (m s) as [[s1 [a|e]]|] eqn:Em; intros Heq; inv Heq; by eapply Hm.
Qed.

Lemma preserves_ok_or {A} (o : option A) (e : E) : preserves P (ok_or o e : M S E A).
Proof. destruct o; [apply preserves_ret|apply preserves_throw]. Qed.

Lemma preserves_guard (b : bool) (e : E) : preserves P (guard_err b e : M S E unit).
Proof. destruct b; [apply preserves_throw|apply preserves_ret]. Qed.

(** The continuation of a validation may use that it succeeded. *)
Lemma preserves_bind_ok_or {A B} (o : option A) (e : E) (f : A → M S E B) :
  (∀ a, o = Some a → preserves P (f a)) → preserves P (ok_or o e ≫= f).
Proof. intros Hf. destruct o as [a|]; [by apply (Hf a)|apply preserves_throw]. Qed.

Lemma preserves_bind_guard {B} (b : bool) (e : E) (f : unit → M S E B) :
  (b = false → preserves P (f tt)) → preserves P (guard_err b e ≫= f).
Proof. intros Hf. destruct b; [apply preserves_throw|by apply Hf]. Qed.

Lemma preserves_unwrap {A} (o : option A) : preserves P (unwrap o : M S E A).
Proof. destruct o; [apply preserves_ret|apply preserves_panic]. Qed.

Lemma preserves_modify (f : S → S) :
  (∀ s, P s → P (f s)) → preserves P (modify f : M S E unit).
Proof. intros Hf s s' r HP [= <- <-]. auto. Qed.

Lemma preserves_ignore_err {E' A} (m : M S E' A) :
  preserves P m → preserves P (ignore_err m : M S E unit).
Proof.
  intros Hm s s' r HP. unfold ignore_err.
  destruct (m s) as [[s1 r1]|] eqn:Em; intros Heq; inv Heq. by eapply Hm.
Qed.

Lemma preserves_try {E' A} (m : M S E' A) :
  preserves P m → preserves P (try_m m : M S E (result A E')).
Proof.
  intros Hm s s' r HP. unfold try_m.
  destruct (m s) as [[s1 r1]|] eqn:Em; intros Heq; inv Heq. by eapply Hm.
Qed.

Lemma preserves_lift_outcome {A} (o : outcome A) : preserves P (lift_outcome o : M S E A).
Proof. destruct o; [apply preserves_ret|apply preserves_panic]. Qed.

Lemma preserves_lift_result {A} (r : result A E) : preserves P (lift_result r : M S E A).
Proof. destruct r; [apply preserves_ret|apply preserves_throw]. Qed.

Lemma preserves_mapM {A B} (f : A → M S E B) (l : list A) :
  (∀ a, preserves P (f a)) → preserves P (mapM_m f l).
Proof.
  intros Hf. induction l as [|a l IH]; [apply preserves_ret|]. simpl.
  apply preserves_bind; [done|]. intros b.
  apply preserves_bind; [done|]. intros bs. apply preserves_ret.
Qed.

Lemma preserves_forM {A} (f : A → M S E unit) (l : list A) :
  (∀ a, preserves P (f a)) → preserves P (forM_ f l).
Proof.
  intros Hf. induction l as [|a l IH]; [apply preserves_ret|]. simpl.
  apply preserves_bind; [done|]. intros _. done.
Qed.
End Preserves.

Lemma preserves_zoom {S T E A} (P : S → Prop) (get : S → T) (set : T → S → S)
    (m : M T E A) :
  (∀ s t r, P s → m (get s) = Ret (t, r) → P (set t s)) →
  preserves P (zoom get set m).
Proof.
  intros H s s' r HP. unfold zoom.
  destruct (m (get s)) as [[t r1]|] eqn:Em; intros Heq; inv Heq. by eapply H.
Qed.

#[export] Hint Resolve preserves_ret preserves_throw preserves_panic preserves_gets preserves_get_st
  preserves_bind preserves_map_err preserves_ok_or preserves_guard preserves_unwrap
  preserves_modify preserves_ignore_err preserves_try preserves_lift_outcome
  preserves_lift_result preserves_mapM preserves_forM : vmedia.

(** *** Weakest preconditions

    [wp pn m Q s]: run from [s], [m] ends in a state and with a result that
    satisfy [Q]; it may panic only when [pn] allows it. *)
Definition wp {S E A} (pn : bool) (m : M S E A) (Q : result A E → S → Prop) (s : S) : Prop :=
  match m s with Panic => pn = true | Ret (s', r) => Q r s' end.

Section WP.
Context {S E : Type} (pn : bool).

Lemma wp_mono {A} (m : M S E A) (Q Q' : result A E → S → Prop) s :
  (∀ r s', Q r s' → Q' r s') → wp pn m Q s → wp pn m Q' s.
Proof. unfold wp. intros HQ. destruct (m s) as [[s' r]|]; auto. Qed.

Lemma wp_panic_mono {A} (pn' : bool) (m : M S E A) (Q : result A E → S → Prop) s :
  (pn = true → pn' = true) → wp pn m Q s → wp pn' m Q s.
Proof. unfold wp. destruct (m s) as [[s' r]|]; auto. Qed.

Lemma wp_ret {A} (a : A) (Q : result A E → S → Prop) s :
  Q (Ok a) s → wp pn (mret a : M S E A) Q s.
Proof. done. Qed.

Lemma wp_throw {A} (e : E) (Q : result A E → S → Prop) s :
  Q (Err e) s → wp pn (throw e) Q s.
Proof. done. Qed.

Lemma wp_bind {A B} (m : M S E A) (f : A → M S E B) (Q : result B E → S → Prop) s :
  wp pn m (λ r s', match r with Ok a => wp pn (f a) Q s' | Err e => Q (Err e) s' end) s →
  wp pn (m ≫= f) Q s.
Proof. unfold wp, mbind, M_bind. destruct (m s) as [[s' [a|e]]|]; auto. Qed.

Lemma wp_try {E' A} (m : M S E' A) (Q : result (result A E') E → S → Prop) s :
  wp pn m (λ r s', Q (Ok r) s') s → wp pn (try_m m : M S E _) Q s.
Proof. unfold wp, try_m. destruct (m s) as [[s' r]|]; auto. Qed.

Lemma wp_map_err {E' A} (f : E' → E) (m : M S E' A) (Q : result A E → S → Prop) s :
  wp pn m (λ r s', Q (match r with Ok a => Ok a | Err e => Err (f e) end) s') s →
  wp pn (map_err f m) Q s.
Proof. unfold wp, map_err. destruct (m s) as [[s' [a|e]]|]; auto. Qed.

Lemma wp_ok_or {A} (o : option A) (e : E) (Q : result A E → S → Prop) s :
  (∀ a, o = Some a → Q (Ok a) s) → (o = None → Q (Err e) s) → wp pn (ok_or o e) Q s.
Proof. destruct o; unfold wp; simpl; auto. Qed.

Lemma wp_guard (b : bool) (e : E) (Q : result unit E → S → Prop) s :
  (b = false → Q (Ok tt) s) → (b = true → Q (Err e) s) → wp pn (guard_err b e) Q s.
Proof. destruct b; unfold wp; simpl; auto. Qed.

Lemma wp_unwrap {A} (o : option A) (Q : result A E → S → Prop) s :
  pn = true → (∀ a, o = Some a → Q (Ok a) s) → wp pn (unwrap o : M S E A) Q s.
Proof. destruct o; unfold wp; simpl; auto. Qed.

Lemma wp_gets {A} (f : S → A) (Q : result A E → S → Prop) s :
  Q (Ok (f s)) s → wp pn (gets f) Q s.
Proof. done. Qed.

Lemma wp_get_st (Q : result S E → S → Prop) s : Q (Ok s) s → wp pn get_st Q s.
Proof. done. Qed.

Lemma wp_modify (f : S → S) (Q : result unit E → S → Prop) s :
  Q (Ok tt) (f s) → wp pn (modify f) Q s.
Proof. done. Qed.

Lemma wp_lift_outcome {A} (o : outcome A) (a : A) (Q : result A E → S → Prop) s :
  o = Ret a → Q (Ok a) s → wp pn (lift_outcome o) Q s.
Proof. by intros ->. Qed.

Lemma wp_ignore_err {E' A} (m : M S E' A) (Q : result unit E → S → Prop) s :
  wp pn m (λ _ s', Q (Ok tt) s') s → wp pn (ignore_err m) Q s.
Proof. unfold wp, ignore_err. destruct (m s) as [[s' r]|]; auto. Qed.

Lemma wp_zoom {T A} (get : S → T) (set : T → S → S) (m : M T E A)
    (Q : result A E → S → Prop) s :
  wp pn m (λ r t, Q r (set t s)) (get s) → wp pn (zoom get set m) Q s.
Proof. unfold wp, zoom. destruct (m (get s)) as [[t r]|]; auto. Qed.
End WP.

Lemma wp_preserves {S E A} (P : S → Prop) (m : M S E A) s :
  preserves P m → P s → wp true m (λ _ s', P s') s.
Proof. intros Hm HP. unfold wp. destruct (m s) as [[s' r]|] eqn:E1; [|done]. by eapply Hm. Qed.

Lemma wp_any {S E A} (m : M S E A) (Q : result A E → S → Prop) s :
  (∀ r s', Q r s') → wp true m Q s.
Proof. intros HQ. unfold wp. by destruct (m s) as [[s' r]|]. Qed.

Lemma wp_and {S E A} (m : M S E A) (Q Q' : result A E → S → Prop) s :
  wp true m Q s → wp true m Q' s → wp true m (λ r s', Q r s' ∧ Q' r s') s.
Proof. unfold wp. destruct (m s) as [[]|]; auto. Qed.

Lemma wp_conj {S E A} pn (m : M S E A) (Q Q' : result A E → S → Prop) s :
  wp pn m Q s → wp true m Q' s → wp pn m (λ r s', Q r s' ∧ Q' r s') s.
Proof. unfold wp. destruct (m s) as [[]|]; auto. Qed.

Lemma wp_and_no_panic {S E A} (m : M S E A) (Q Q' : result A E → S → Prop) s :
  wp true m Q s → wp false m Q' s → wp false m (λ r s', Q r s' ∧ Q' r s') s.
Proof. unfold wp. destruct (m s) as [[]|]; [by split|done]. Qed.

(** A loop over a list, with an invariant [I] and a relation between the
    elements and the results. *)
Lemma wp_mapM {S E A B} pn (I : S → Prop) (R : A → B → Prop) (f : A → M S E B) l s :
  I s →
  (∀ a s, a ∈ l → I s →
     wp pn (f a) (λ r s', I s' ∧ match r with Ok b => R a b | Err _ => True end) s) →
  wp pn (mapM_m f l) (λ r s', I s' ∧ match r with Ok bs => Forall2 R l bs | Err _ => True end) s.
Proof.
  intros HI Hf. revert s HI. induction l as [|a l IH]; intros s HI; simpl.
  { apply wp_ret. auto. }
  apply wp_bind. eapply wp_mono, Hf; [|set_solver|done].
  intros [b|e] s1 [HI1 Hb]; [|auto]. apply wp_bind.
  eapply wp_mono, (IH ltac:(intros; apply Hf; set_solver)); [|done].
  intros [bs|e] s2 [HI2 Hbs]; [|auto]. apply wp_ret. auto.
Qed.

Lemma mapM_no_err {S E A B} (f : A → M S E B) l s s' e :
  (∀ a s s' e, f a s ≠ Ret (s', Err e)) → mapM_m f l s ≠ Ret (s', Err e).
Proof.
  intros Hf. revert s. induction l as [|a l IH]; intros s; simpl; [done|]. unfold mbind, M_bind.
  destruct (f a s) as [[s1 [b|e1]]|] eqn:Ef; [|by destruct (Hf a s s1 e1)|done].
  specialize (IH s1). by destruct (mapM_m f l s1) as [[s2 [bs|e2]]|].
Qed.

Lemma forM_no_err {S E A} (f : A → M S E unit) l s s' e :
  (∀ a s s' e, f a s ≠ Ret (s', Err e)) → forM_ f l s ≠ Ret (s', Err e).
Proof.
  intros Hf. revert s. induction l as [|a l IH]; intros s; simpl; [done|]. unfold mbind, M_bind.
  destruct (f a s) as [[s1 [b|e1]]|] eqn:Ef; [apply IH|by destruct (Hf a s s1 e1)|done].
Qed.

(** [m] keeps [P], and panics only when [pn] allows it. *)
Definition keeps {S E A} (pn : bool) (P : S → Prop) (m : M S E A) : Prop :=
  ∀ s, P s → wp pn m (λ _ s', P s') s.

Section Keeps.
Context {S E : Type} (pn : bool) (P : S → Prop).

Lemma keeps_ret {A} (a : A) : keeps pn P (mret a : M S E A).
Proof. by intros s HP. Qed.

Lemma keeps_throw {A} (e : E) : keeps pn P (throw e : M S E A).
Proof. by intros s HP. Qed.

Lemma keeps_panic {A} : pn = true → keeps pn P (panic : M S E A).
Proof. by intros -> s HP. Qed.

Lemma keeps_bind {A B} (m : M S E A) (f : A → M S E B) :
  keeps pn P m → (∀ a, keeps pn P (f a)) → keeps pn P (m ≫= f).
Proof.
  intros Hm Hf s HP. apply wp_bind. eapply wp_mono, Hm; [|done].
  intros [a|e] s' HP'; [by apply Hf|done].
Qed.

Lemma keeps_gets {A} (f : S → A) : keeps pn P (gets f : M S E A).
Proof. by intros s HP. Qed.

Lemma keeps_get_st : keeps pn P (get_st : M S E S).
Proof. by intros s HP. Qed.

Lemma keeps_modify (f : S → S) : (∀ s, P s → P (f s)) → keeps pn P (modify f : M S E unit).
Proof. intros Hf s HP. by apply Hf. Qed.

Lemma keeps_ok_or {A} (o : option A) (e : E) : keeps pn P (ok_or o e : M S E A).
Proof. intros s HP. by apply wp_ok_or. Qed.

Lemma keeps_lift {A} (o : outcome A) : pn = true → keeps pn P (lift_outcome o : M S E A).
Proof. intros. destruct o; [apply keeps_ret|by apply keeps_panic]. Qed.

Lemma keeps_lift_result {A} (r : result A E) : keeps pn P (lift_result r : M S E A).
Proof. destruct r; [apply keeps_ret|apply keeps_throw]. Qed.

Lemma keeps_guard (b : bool) (e : E) : keeps pn P (guard_err b e : M S E unit).
Proof. destruct b; [apply keeps_throw|apply keeps_ret]. Qed.

Lemma keeps_unwrap {A} (o : option A) : pn = true → keeps pn P (unwrap o : M S E A).
Proof. intros. destruct o; [apply keeps_ret|by apply keeps_panic]. Qed.

Lemma keeps_try {E' A} (m : M S E' A) :
  keeps pn P m → keeps pn P (try_m m : M S E (result A E')).
Proof. intros Hm s HP. by apply wp_try, Hm. Qed.

Lemma keeps_ignore_err {E' A} (m : M S E' A) :
  keeps pn P m → keeps pn P (ignore_err m : M S E unit).
Proof. intros Hm s HP. by apply wp_ignore_err, Hm. Qed.

Lemma keeps_map_err {E' A} (f : E' → E) (m : M S E' A) :
  keeps pn P m → keeps pn P (map_err f m).
Proof. intros Hm s HP. by apply wp_map_err, Hm. Qed.

Lemma keeps_forM {A} (f : A → M S E unit) (l : list A) :
  (∀ a, a ∈ l → keeps pn P (f a)) → keeps pn P (forM_ f l).
Proof.
  induction l as [|a l IH]; intros Hf; simpl; [apply keeps_ret|].
  apply keeps_bind; [apply Hf; set_solver|]. intros _. apply IH. intros; apply Hf; set_solver.
Qed.

Lemma keeps_mapM {A B} (f : A → M S E B) (l : list A) :
  (∀ a, keeps pn P (f a)) → keeps pn P (mapM_m f l).
Proof.
  intros Hf. induction l as [|a l IH]; simpl; [apply keeps_ret|].
  apply keeps_bind; [done|]. intros b. apply keeps_bind; [done|]. intros bs. apply keeps_ret.
Qed.
End Keeps.

Lemma keeps_panic_mono {S E A} (pn : bool) (P : S → Prop) (m : M S E A) :
  keeps false P m → keeps pn P m.
Proof. intros Hm s HP. eapply wp_panic_mono, Hm; done. Qed.

#[export] Hint Resolve keeps_ret keeps_throw keeps_gets keeps_get_st keeps_ok_or keeps_try
  keeps_lift keeps_lift_result keeps_guard keeps_unwrap keeps_ignore_err keeps_map_err keeps_modify : vmedia.

(** Walks through a computation that keeps an invariant. *)
Ltac keeps_walk :=
  repeat first
    [ solve [eauto with vmedia]
    | apply keeps_bind; [solve [keeps_walk]|intros]
    | apply keeps_map_err
    | apply keeps_try
    | case_match ].

(** Unfolds the monad so that a computation on a concrete state reduces. *)
Ltac unfold_M :=
  unfold ok_or, unwrap, lift_outcome, lift_result, guard_err, ignore_err, map_err,
    try_m, throw, panic, gets, get_st, modify, mbind, M_bind, mret, M_ret in *.

(** ** Lists *)

Lemma elem_of_take_inv {A} (x : A) n l : x ∈ take n l → x ∈ l.
Proof. intros Hx. rewrite <-(take_drop n l). apply elem_of_app. by left. Qed.

Lemma elem_of_drop_inv {A} (x : A) n l : x ∈ drop n l → x ∈ l.
Proof. intros Hx. rewrite <-(take_drop n l). apply elem_of_app. by right. Qed.

Lemma elem_of_insert_inv {A} (x y : A) (i : nat) (l : list A) :
  x ∈ <[i := y]> l → x = y ∨ x ∈ l.
Proof.
  intros [j Hj]%list_elem_of_lookup.
  apply list_lookup_insert_Some in Hj as [(_&?&_)|[_ Hj]]; [by left|].
  right. by eapply list_elem_of_lookup_2.
Qed.
