(* ===== verification/RustStd.v ===== *)
(** * The parts of Rust's standard library the crate computes with

    [slice::binary_search_by_key], [Vec::insert], [Vec::remove], and
    [u32::next_multiple_of].  The binary search is the loop of [core::slice]
    (it halves a window and never returns early); [binary_search_found] and
    [binary_search_missing] show that on strictly sorted keys it is the
    reference search. *)

From S2P Require Import Prelude.

(** ** Binary search *)

Section BinarySearch.
Context {A : Type} (key : A → Z).
Local Abbreviation sorted l := (StronglySorted Z.lt (key <$> l)).  

(** [while size > 1 { half = size/2; mid = base+half; base = if key[mid] > k
    { base } else { mid }; size -= half }] *)
Fixpoint bsearch_loop (fuel : nat) (l : list A) (k : Z) (base size : nat) : nat :=
  match fuel with
  | O => base
  | S fuel' =>
      if (size <=? 1)%nat then base
      else
        let half := (size `div` 2)%nat in
        let mid := (base + half)%nat in
        let base' := match l !! mid with
                     | Some a => if k <? key a then base else mid
                     | None => base
                     end in
        bsearch_loop fuel' l k base' (size - half)%nat
  end.

(** [Ok i] when the element at [i] has key [k], [Err i] with the insertion
    point otherwise. *)
Definition binary_search_by_key (l : list A) (k : Z) : result nat nat :=
  match l with
  | [] => Err O
  | _ =>
      let base := bsearch_loop (length l) l k O (length l) in
      match l !! base with
      | Some a =>
          if key a =? k then Ok base
          else Err (if key a <? k then S base else base)
      | None => Err base
      end
  end.

Lemma sorted_lookup_lt l i j a b :
  sorted l → l !! i = Some a → l !! j = Some b → (i < j)%nat → key a < key b.
Proof.
  revert i j. induction l as [|x l IH]; intros i j Hs Hi Hj Hij; [done|].
  rewrite fmap_cons in Hs. apply StronglySorted_cons in Hs as [Hall Hs].
  destruct j as [|j]; [lia|]. simpl in Hj. destruct i as [|i]; simpl in Hi.
  - simplify_eq. rewrite Forall_fmap, Forall_lookup in Hall. by apply (Hall j).
  - eapply (IH i j); [done..|lia].
Qed.

(** The invariant of the loop: elements before the window are at most [k] at
    its base (unless the base is the start), those after it are larger. *)
Definition window (l : list A) (k : Z) (base size : nat) : Prop :=
  (1 ≤ size)%nat ∧ (base + size ≤ length l)%nat ∧
  (base = O ∨ ∃ a, l !! base = Some a ∧ key a ≤ k) ∧
  (∀ j a, l !! j = Some a → (base + size ≤ j)%nat → k < key a).

Lemma bsearch_loop_window l k fuel base size :
  sorted l → window l k base size → (size ≤ fuel)%nat →
  window l k (bsearch_loop fuel l k base size) 1.
Proof.
  intros Hs. revert base size.
  induction fuel as [|fuel IH]; intros base size Hw Hf; cbn [bsearch_loop].
  { destruct Hw; lia. }
  destruct (Nat.leb_spec size 1) as [Hle|Hgt].
  { destruct Hw as (?&?&?&?). assert (size = 1%nat) as -> by lia. done. }
  destruct Hw as (H1&H2&H3&H4).
  assert (1 ≤ size `div` 2 < size)%nat by divlia.
  destruct (lookup_lt_is_Some_2 l (base + size `div` 2)) as [a Ha]; [lia|].
  rewrite Ha. apply IH; [|lia].
  destruct (Z.ltb_spec k (key a)) as [Hk|Hk].
  - split_and!; [lia|lia|done|]. intros j b Hj Hge.
    destruct (decide (j = base + size `div` 2)%nat) as [->|Hne]; [by simplify_eq|].
    destruct (decide (j < base + size)%nat).
    + pose proof (sorted_lookup_lt l (base + size `div` 2) j a b) as Hlt'.
      assert (base + size `div` 2 < j ∨ j < base + size `div` 2)%nat as [?|?] by lia.
      * specialize (Hlt' Hs Ha Hj ltac:(lia)). lia.
      * divlia.
    + eapply H4; [done|lia].
  - split_and!; [lia|lia|right; eauto|]. intros j b Hj Hge. eapply H4; [done|lia].
Qed.

Lemma window_init l k : l ≠ [] → window l k O (length l).
Proof.
  intros Hne. split_and!; [destruct l; simpl; [done|lia]|lia|by left|].
  intros j a Hj Hge. apply lookup_lt_Some in Hj. lia.
Qed.

Lemma binary_search_spec l k :
  sorted l →
  match binary_search_by_key l k with
  | Ok i => ∃ a, l !! i = Some a ∧ key a = k
  | Err i => (i ≤ length l)%nat ∧
             (∀ j a, l !! j = Some a → (j < i)%nat → key a < k) ∧
             (∀ j a, l !! j = Some a → (i ≤ j)%nat → k < key a)
  end.
Proof.
  intros Hs. unfold binary_search_by_key.
  destruct l as [|x l']; [split_and!; [done|..]; by intros []|].
  set (l := x :: l') in *.
  pose proof (bsearch_loop_window l k (length l) O (length l) Hs) as Hw.
  specialize (Hw (window_init l k ltac:(done)) (Nat.le_refl _)).
  set (base := bsearch_loop _ _ _ _ _) in *.
  destruct Hw as (_&Hb&Hlow&Hhigh).
  destruct (lookup_lt_is_Some_2 l base) as [a Ha]; [lia|]. rewrite Ha.
  destruct (Z.eqb_spec (key a) k) as [Heq|Hne]; [by eauto|].
  assert (∀ j b, l !! j = Some b → (j < base)%nat → key b < key a) as Hbelow.
  { intros j b Hj Hlt. by eapply (sorted_lookup_lt l j base). }
  destruct (Z.ltb_spec (key a) k) as [Hlt|Hge]; split_and!; [lia|..].
  - intros j b Hj Hj'. destruct (decide (j = base)) as [->|]; [by simplify_eq|].
    specialize (Hbelow j b Hj ltac:(lia)). lia.
  - intros j b Hj Hj'. eapply Hhigh; [done|lia].
  - lia.
  - intros j b Hj Hj'. destruct Hlow as [->|(c&Hc&?)]; [lia|]. simplify_eq. lia.
  - intros j b Hj Hj'. destruct (decide (j = base)) as [->|]; [simplify_eq; lia|].
    eapply Hhigh; [done|lia].
Qed.

Lemma sorted_key_inj l i j a b :
  sorted l → l !! i = Some a → l !! j = Some b → key a = key b → i = j.
Proof.
  intros Hs Hi Hj Hk. destruct (lt_eq_lt_dec i j) as [[Hlt|]|Hlt]; [|done|].
  - pose proof (sorted_lookup_lt l i j a b Hs Hi Hj Hlt). lia.
  - pose proof (sorted_lookup_lt l j i b a Hs Hj Hi Hlt). lia.
Qed.

Lemma binary_search_found l k i a :
  sorted l → l !! i = Some a → key a = k → binary_search_by_key l k = Ok i.
Proof.
  intros Hs Hi Hk. pose proof (binary_search_spec l k Hs) as Hsp.
  destruct (binary_search_by_key l k) as [j|j].
  - destruct Hsp as (b&Hj&Hb). f_equal. apply (sorted_key_inj l j i b a); [done..|congruence].
  - destruct Hsp as (_&H1&H2). destruct (decide (i < j)%nat).
    + specialize (H1 i a Hi). lia.
    + specialize (H2 i a Hi). lia.
Qed.

Lemma binary_search_missing l k i :
  sorted l → binary_search_by_key l k = Err i → ∀ a, a ∈ l → key a ≠ k.
Proof.
  intros Hs He a [j Ha]%list_elem_of_lookup Hk.
  by rewrite (binary_search_found l k j a) in He.
Qed.

(** Inserting at the insertion point keeps the keys strictly sorted. *)
Lemma sorted_insert_at l k i x :
  sorted l → key x = k → binary_search_by_key l k = Err i →
  sorted (take i l ++ x :: drop i l).
Proof.
  intros Hs Hk He. pose proof (binary_search_spec l k Hs) as Hsp.
  rewrite He in Hsp. destruct Hsp as (Hi&Hlt&Hgt).
  rewrite fmap_app, fmap_cons, fmap_take, fmap_drop.
  assert (Forall (λ z, z < k) (take i (key <$> l))) as Hlt'.
  { rewrite <-fmap_take. apply Forall_fmap, Forall_lookup. intros j a Hj. simpl.
    apply lookup_take_Some in Hj as [Hj ?]. by eapply Hlt. }
  assert (Forall (λ z, k < z) (drop i (key <$> l))) as Hgt'.
  { rewrite <-fmap_drop. apply Forall_fmap, Forall_lookup. intros j a Hj. simpl.
    rewrite lookup_drop in Hj. eapply Hgt; [done|lia]. }
  rewrite <-(take_drop i (key <$> l)) in Hs.
  apply StronglySorted_app in Hs as (Hc&Hs1&Hs2).
  apply StronglySorted_app_2; [|done|by constructor; rewrite ?Hk].
  intros z1 z2 Hz1 Hz2. rewrite Forall_forall in Hlt', Hgt'.
  apply elem_of_cons in Hz2 as [->|Hz2]; [rewrite Hk; auto|].
  specialize (Hlt' _ Hz1). specialize (Hgt' _ Hz2). lia.
Qed.

Lemma sorted_remove_at l i : sorted l → sorted (take i l ++ drop (S i) l).
Proof.
  revert i. induction l as [|x l IH]; intros i Hs; [by destruct i|].
  rewrite fmap_cons in Hs. apply StronglySorted_cons in Hs as [Hall Hs].
  destruct i as [|i]; [done|].
  change (sorted (x :: (take i l ++ drop (S i) l))). rewrite fmap_cons.
  apply StronglySorted_cons. split; [|by apply IH].
  rewrite Forall_fmap in Hall |- *. apply Forall_app.
  split; [by apply Forall_take|by apply Forall_drop].
Qed.
End BinarySearch.

(** ** [Vec::insert] and [Vec::remove]

    Both panic out of range; the model's callers pass indices in range, which
    [None] makes visible. *)

Definition vec_insert {A} (l : list A) (i : nat) (x : A) : outcome (list A) :=
  if (i <=? length l)%nat then Ret (take i l ++ x :: drop i l) else Panic.

Definition vec_remove {A} (l : list A) (i : nat) : outcome (list A) :=
  if (i <? length l)%nat then Ret (take i l ++ drop (S i) l) else Panic.

(** ** [u32::next_multiple_of] *)

Definition u32_next_multiple_of `{BuildMode} (a b : Z) : outcome Z :=
  match a `mod` b with
  | 0 => Ret a
  | r => u32_add a (b - r)
  end.

Lemma next_multiple_of_spec `{BuildMode} a b :
  0 < b → 0 ≤ a → b * ((a + b - 1) `div` b) ≤ u32_max →
  u32_next_multiple_of a b = Ret (b * ((a + b - 1) `div` b)).
Proof.
  intros Hb Ha Hm. unfold u32_next_multiple_of, u32_add.
  pose proof (Z.div_mod a b ltac:(lia)) as Hdm.
  pose proof (Z.mod_pos_bound a b Hb) as Hr.
  destruct (a `mod` b) as [|r|r] eqn:Er; [| |lia].
  - f_equal. assert ((a + b - 1) `div` b = a `div` b) as ->; [|lia].
    replace (a + b - 1) with ((b - 1) + (a `div` b) * b) by lia.
    rewrite Z.div_add by lia. rewrite Z.div_small by lia. lia.
  - assert ((a + b - 1) `div` b = a `div` b + 1) as Hq.
    { replace (a + b - 1) with ((Z.pos r - 1) + (a `div` b + 1) * b) by lia.
      rewrite Z.div_add by lia. rewrite Z.div_small by lia. lia. }
    rewrite Hq in Hm |- *. rewrite unsigned_op_ok by (split; lia). f_equal. lia.
Qed.
