(* ===== verification/Traits.v ===== *)
(** * The traits a VMM implements ([device/src/lib.rs], [device/src/poll.rs])

    Each trait is a class over the type of its implementor, whose operations
    thread the implementor's state.  The no-op implementations the crate gives
    for [()] are the instances at [unit]. *)

From S2P Require Import Prelude.

(** A file descriptor, by its number. *)
Definition Fd : Type := Z.

(** ** [VirtioMediaHostMemoryMapper] *)

Class VirtioMediaHostMemoryMapper (HM : Type) := {
  (** [add_mapping(&mut self, buffer, length, offset, rw)]: the offset of the
      mapping in the guest's shared memory region, or a [libc] error. *)
  add_mapping : HM → Fd → Z → Z → bool → HM * result Z Z;
  (** [remove_mapping(&mut self, shm_offset)] *)
  hm_remove_mapping : HM → Z → HM * result unit Z;
}.

(** [impl VirtioMediaHostMemoryMapper for ()] *)
#[global] Instance unit_host_mapper : VirtioMediaHostMemoryMapper unit := {|
  add_mapping _ _ _ _ _ := (tt, Err ENOTTY);
  hm_remove_mapping _ _ := (tt, Err ENOTTY);
|}.

(** ** [SessionPoller] *)

Class SessionPoller (P : Type) := {
  (** [add_session(&self, session, session_id)] *)
  add_session : P → Fd → Z → outcome (P * result unit Z);
  (** [remove_session(&self, session)] *)
  remove_session : P → Fd → outcome P;
}.

(** [impl SessionPoller for ()]: both methods panic. *)
#[global] Instance unit_poller : SessionPoller unit := {|
  add_session _ _ _ := Panic;
  remove_session _ _ := Panic;
|}.
