(* ===== verification/Mmap.v ===== *)
(** * MMAP range manager ([device/src/mmap.rs])

    The manager keeps the MMAP buffers of a device sorted by offset, finds them
    by binary search, and counts the guest mappings of each.  Its abstract
    state is a finite map from offsets to buffers ([abs]); the refinement
    theorems show that every operation on the sorted vector is the obvious one
    on that map. *)

From S2P Require Import Prelude RustStd Traits.

(** ** Data *)

Record MmapBufferMapping := mkMapping {
  num_mappings : Z;      (* usize *)
  guest_addr : Z;        (* u64 *)
  m_rw : bool;
}.

Record MmapBuffer := mkBuffer {
  b_offset : Z;          (* u32 *)
  b_size : Z;            (* u32 *)
  b_registered : bool;
  b_mapping : option MmapBufferMapping;
}.

#[global] Instance MmapBufferMapping_eq_dec : EqDecision MmapBufferMapping.
Proof. solve_decision. Defined.
#[global] Instance MmapBuffer_eq_dec : EqDecision MmapBuffer.
Proof. solve_decision. Defined.

(** [MmapBuffer::new] *)
Definition MmapBuffer_new (offset size : Z) : MmapBuffer :=
  mkBuffer offset size true None.

Definition set_registered (r : bool) (b : MmapBuffer) : MmapBuffer :=
  mkBuffer (b_offset b) (b_size b) r (b_mapping b).
Definition set_mapping (m : option MmapBufferMapping) (b : MmapBuffer) : MmapBuffer :=
  mkBuffer (b_offset b) (b_size b) (b_registered b) m.

Record MmapMappingManager (HM : Type) := mkManager {
  buffers : list MmapBuffer;
  mapper : HM;
}.
Arguments mkManager {HM} _ _.
Arguments buffers {HM} _.
Arguments mapper {HM} _.

(** [impl From<M> for MmapMappingManager<M>] *)
Definition manager_from {HM} (m : HM) : MmapMappingManager HM := mkManager [] m.

(** [into_mapper] *)
Definition into_mapper {HM} (mm : MmapMappingManager HM) : HM := mapper mm.

Inductive RegisterBufferError :=
| NoFreeSpace | OffsetOccupied | EmptyBuffer | UnalignedOffset.

Inductive CreateMappingError :=
| CM_InvalidOffset | UnregisteredBuffer | SizeOutOfBounds
| FdCloneFailure (kind : Z) | MappingFailure (errno : Z) | NonMatchingPermissions.

Inductive RemoveMappingError := RM_InvalidOffset.

Definition PAGE_SIZE : Z := 0x1000.
(** [!(PAGE_SIZE - 1)] on [u32] *)
Definition PAGE_MASK : Z := Z.lxor u32_max (PAGE_SIZE - 1).

(** ** Operations *)

Section Manager.
Context {HM : Type} `{!VirtioMediaHostMemoryMapper HM} `{!BuildMode}.
Local Abbreviation Mgr := (MmapMappingManager HM).

Definition set_buffers (l : list MmapBuffer) (mm : Mgr) : Mgr := mkManager l (mapper mm).
Definition set_mapper (m : HM) (mm : Mgr) : Mgr := mkManager (buffers mm) m.

Definition search (mm : Mgr) (offset : Z) : result nat nat :=
  binary_search_by_key b_offset (buffers mm) offset.

(** [register_buffer_by_offset] *)
Definition register_buffer_by_offset (offset size : Z) : M Mgr RegisterBufferError unit :=
  guard_err (size =? 0) EmptyBuffer ;;
  guard_err (negb (Z.land offset PAGE_MASK =? offset)) UnalignedOffset ;;
  found ← gets (λ mm, search mm offset);
  match found with
  | Ok _ => throw OffsetOccupied
  | Err index =>
      l ← gets buffers;
      l' ← lift_outcome (vec_insert l index (MmapBuffer_new offset size));
      modify (set_buffers l')
  end.

(** The offset [register_buffer] picks when none is given. *)
Definition next_offset (l : list MmapBuffer) : outcome Z :=
  match last l with
  | Some b => a ← u32_add (b_offset b) 1; u32_next_multiple_of a PAGE_SIZE
  | None => Ret 0
  end.

(** [register_buffer] *)
Definition register_buffer (offset : option Z) (size : Z) : M Mgr RegisterBufferError Z :=
  l ← gets buffers;
  offset ← match offset with
           | Some o => mret o
           | None => lift_outcome (next_offset l)
           end;
  register_buffer_by_offset offset size ;;
  mret offset.

(** [unregister_buffer] never fails: it returns whether a buffer was found. *)
Definition unregister_buffer {E} (offset : Z) : M Mgr E bool :=
  found ← gets (λ mm, search mm offset);
  match found with
  | Err _ => mret false
  | Ok index =>
      l ← gets buffers;
      b ← unwrap (l !! index);
      modify (set_buffers (<[index := set_registered false b]> l)) ;;
      (if b_mapping b is None then
         l ← gets buffers;
         l' ← lift_outcome (vec_remove l index);
         modify (set_buffers l')
       else mret tt) ;;
      mret true
  end.

(** [create_mapping] *)
Definition create_mapping (offset : Z) (fd : Fd) (rw : bool)
  : M Mgr CreateMappingError (Z * Z) :=
  found ← gets (λ mm, search mm offset);
  match found with
  | Err _ => throw CM_InvalidOffset
  | Ok i =>
      l ← gets buffers;
      buffer ← unwrap (l !! i);
      last ← lift_outcome (u32_sub (b_size buffer) 1);
      last_buffer_address ← ok_or (u32_checked_add (b_offset buffer) last) CM_InvalidOffset;
      guard_err (negb (b_registered buffer)) UnregisteredBuffer ;;
      last' ← lift_outcome (u32_sub (b_size buffer) 1);
      end_ ← lift_outcome (u32_add (b_offset buffer) last');
      guard_err (end_ <? last_buffer_address) SizeOutOfBounds ;;
      guest_addr ←
        match b_mapping buffer with
        | None =>
            hm ← gets mapper;
            let '(hm', res) := add_mapping hm fd (b_size buffer) (b_offset buffer) rw in
            modify (set_mapper hm') ;;
            match res with
            | Err e => throw (MappingFailure e)
            | Ok addr =>
                modify (λ mm, set_buffers
                  (<[i := set_mapping (Some (mkMapping 1 addr rw)) buffer]> (buffers mm)) mm) ;;
                mret addr
            end
        | Some mapping =>
            guard_err (negb (eqb (m_rw mapping) rw)) NonMatchingPermissions ;;
            n ← lift_outcome (u64_add (num_mappings mapping) 1);
            modify (λ mm, set_buffers
              (<[i := set_mapping
                   (Some (mkMapping n (guest_addr mapping) (m_rw mapping))) buffer]>
                 (buffers mm)) mm) ;;
            mret (guest_addr mapping)
        end;
      mret (guest_addr, b_size buffer)
  end.

(** The loop of [remove_mapping] from index [i], [todo] being [buffers[i..]]. *)
Fixpoint remove_mapping_loop (addr : Z) (i : nat) (todo : list MmapBuffer)
  : M Mgr RemoveMappingError bool :=
  match todo with
  | [] => throw RM_InvalidOffset
  | b :: todo' =>
      match b_mapping b with
      | Some mapping =>
          if guest_addr mapping =? addr then
            n ← lift_outcome (u64_sub (num_mappings mapping) 1);
            if n =? 0 then
              (* An error of the mapper is only logged. *)
              modify (λ mm, set_mapper (hm_remove_mapping (mapper mm) addr).1 mm) ;;
              modify (λ mm, set_buffers (<[i := set_mapping None b]> (buffers mm)) mm) ;;
              (if b_registered b then mret tt
               else
                 l ← gets buffers;
                 l' ← lift_outcome (vec_remove l i);
                 modify (set_buffers l')) ;;
              mret false
            else
              modify (λ mm, set_buffers
                (<[i := set_mapping
                     (Some (mkMapping n (guest_addr mapping) (m_rw mapping))) b]>
                   (buffers mm)) mm) ;;
              mret true
          else remove_mapping_loop addr (S i) todo'
      | None => remove_mapping_loop addr (S i) todo'
      end
  end.

(** [remove_mapping] *)
Definition remove_mapping (addr : Z) : M Mgr RemoveMappingError bool :=
  l ← gets buffers; remove_mapping_loop addr O l.

(** [is_mapped] *)
Definition is_mapped (mm : Mgr) (offset : Z) : bool :=
  if (0 <=? offset) && (offset <=? u32_max) then
    match search mm offset with
    | Err _ => false
    | Ok index =>
        match buffers mm !! index with
        | Some b => bool_decide (is_Some (b_mapping b))
        | None => false
        end
    end
  else false.
End Manager.

(** ** The abstract state and the invariant *)

(** The MMAP range as a finite map from offset to buffer. *)
Definition abs (l : list MmapBuffer) : gmap Z MmapBuffer :=
  list_to_map ((λ b, (b_offset b, b)) <$> l).

Definition sorted_offsets (l : list MmapBuffer) : Prop :=
  StronglySorted Z.lt (b_offset <$> l).

Record wf_buffer (b : MmapBuffer) : Prop := {
  wf_offset : is_u32 (b_offset b);
  wf_aligned : Z.land (b_offset b) PAGE_MASK = b_offset b;
  wf_size : 1 ≤ b_size b ≤ u32_max;
  (** A mapping is counted at least once, in a [usize]. *)
  wf_count : ∀ m, b_mapping b = Some m → 1 ≤ num_mappings m ≤ u64_max;
  (** An unregistered buffer is only kept for its mappings. *)
  wf_alive : b_registered b = false → is_Some (b_mapping b);
}.

Definition wf_buffers (l : list MmapBuffer) : Prop :=
  sorted_offsets l ∧ Forall wf_buffer l.

Definition wf {HM} (mm : MmapMappingManager HM) : Prop := wf_buffers (buffers mm).

(** The guest addresses of the live mappings, in buffer order. *)
Definition live_addrs (l : list MmapBuffer) : list Z :=
  omap (λ b, guest_addr <$> b_mapping b) l.

Definition unique_addrs {HM} (mm : MmapMappingManager HM) : Prop :=
  NoDup (live_addrs (buffers mm)).

(** Offsets of the buffers whose mapping is at [addr]. *)
Definition mapped_at (addr : Z) (b : MmapBuffer) : Prop :=
  guest_addr <$> b_mapping b = Some addr.
#[global] Instance mapped_at_dec addr b : Decision (mapped_at addr b).
Proof. unfold mapped_at. apply _. Defined.

(** ** Lemmas on the abstraction *)

Lemma abs_cons b l : abs (b :: l) = <[b_offset b := b]> (abs l).
Proof. done. Qed.

Lemma sorted_NoDup l : StronglySorted Z.lt l → NoDup l.
Proof.
  induction 1 as [|x l _ IH Hall]; constructor; [|done].
  rewrite Forall_forall in Hall. intros Hx. specialize (Hall x Hx). lia.
Qed.

Lemma abs_keys l : ((λ b, (b_offset b, b)) <$> l).*1 = b_offset <$> l.
Proof. by rewrite <-list_fmap_compose. Qed.

Lemma abs_perm l1 l2 : sorted_offsets l1 → l1 ≡ₚ l2 → abs l1 = abs l2.
Proof.
  intros Hs Hp. apply list_to_map_proper.
  - rewrite abs_keys. by apply sorted_NoDup.
  - by apply fmap_Permutation.
Qed.

Lemma abs_lookup l k b :
  sorted_offsets l → abs l !! k = Some b ↔ b ∈ l ∧ b_offset b = k.
Proof.
  intros Hs. unfold abs. rewrite <-elem_of_list_to_map.
  - rewrite list_elem_of_fmap. split.
    + intros (b'&[= -> ->]&?). done.
    + intros [? <-]. eauto.
  - rewrite abs_keys. by apply sorted_NoDup.
Qed.

Lemma abs_lookup_None l k :
  sorted_offsets l → abs l !! k = None ↔ ∀ b, b ∈ l → b_offset b ≠ k.
Proof.
  intros Hs. rewrite eq_None_not_Some. split.
  - intros Hn b Hb Hk. apply Hn. exists b. by apply abs_lookup.
  - intros Hn [b [Hb Hk]%abs_lookup]; [by eapply Hn|done].
Qed.

(** The vector without its [i]-th element. *)
Definition rm_at {A} (i : nat) (l : list A) : list A := take i l ++ drop (S i) l.

Lemma rm_at_perm {A} (l : list A) i b : l !! i = Some b → l ≡ₚ b :: rm_at i l.
Proof.
  intros Hi. rewrite <-(take_drop_middle l i b Hi) at 1. unfold rm_at. solve_Permutation.
Qed.

Lemma insert_perm {A} (l : list A) i b b' :
  l !! i = Some b → <[i := b']> l ≡ₚ b' :: rm_at i l.
Proof.
  intros Hi. rewrite insert_take_drop by by eapply lookup_lt_Some.
  unfold rm_at. solve_Permutation.
Qed.

Lemma rm_at_insert {A} (l : list A) i b' : rm_at i (<[i := b']> l) = rm_at i l.
Proof. unfold rm_at. by rewrite take_insert_ge, drop_insert_lt by lia. Qed.

Lemma fmap_insert_same (l : list MmapBuffer) (i : nat) b b' :
  l !! i = Some b → b_offset b' = b_offset b → b_offset <$> <[i := b']> l = b_offset <$> l.
Proof.
  intros Hi Ho. rewrite list_fmap_insert, Ho. apply list_insert_id.
  by rewrite list_lookup_fmap, Hi.
Qed.

Section Abs.
Context (l : list MmapBuffer) (Hs : sorted_offsets l).

Lemma sorted_rm i : sorted_offsets (rm_at i l).
Proof. by apply sorted_remove_at. Qed.

Lemma sorted_upd i b b' :
  l !! i = Some b → b_offset b' = b_offset b → sorted_offsets (<[i := b']> l).
Proof. intros. unfold sorted_offsets. by erewrite fmap_insert_same. Qed.

Lemma abs_rm_None i b : l !! i = Some b → abs (rm_at i l) !! b_offset b = None.
Proof.
  intros Hi. apply abs_lookup_None; [apply sorted_rm|]. intros b' Hb' Ho.
  assert (NoDup (b_offset <$> (b :: rm_at i l))) as Hnd.
  { rewrite <-(rm_at_perm l i b Hi). by apply sorted_NoDup. }
  apply NoDup_cons in Hnd as [Hnot _]. apply Hnot. rewrite <-Ho.
  by apply list_elem_of_fmap_2.
Qed.

Lemma abs_rm i b : l !! i = Some b → abs (rm_at i l) = delete (b_offset b) (abs l).
Proof.
  intros Hi. rewrite (abs_perm l (b :: rm_at i l)) by (done || by apply rm_at_perm).
  rewrite abs_cons, delete_insert_id; [done|by apply abs_rm_None].
Qed.

Lemma abs_upd i b b' :
  l !! i = Some b → b_offset b' = b_offset b →
  abs (<[i := b']> l) = <[b_offset b := b']> (abs l).
Proof.
  intros Hi Ho.
  rewrite (abs_perm _ (b' :: rm_at i l)); [|by eapply sorted_upd|by eapply insert_perm].
  rewrite abs_cons, Ho, (abs_rm i b Hi). by rewrite insert_delete_eq.
Qed.

Lemma search_Ok k i :
  binary_search_by_key b_offset l k = Ok i →
  ∃ b, l !! i = Some b ∧ b_offset b = k ∧ abs l !! k = Some b.
Proof.
  intros He. pose proof (binary_search_spec b_offset l k Hs) as Hsp.
  rewrite He in Hsp. destruct Hsp as (b&Hb&Hk). exists b. split_and!; [done..|].
  apply abs_lookup; [done|]. split; [by eapply list_elem_of_lookup_2|done].
Qed.

Lemma search_Err k i :
  binary_search_by_key b_offset l k = Err i → (i ≤ length l)%nat ∧ abs l !! k = None.
Proof.
  intros He. pose proof (binary_search_spec b_offset l k Hs) as Hsp.
  rewrite He in Hsp. destruct Hsp as (Hi&_&_). split; [done|].
  apply abs_lookup_None; [done|]. by eapply binary_search_missing.
Qed.

Lemma abs_insert_at k i x :
  b_offset x = k → binary_search_by_key b_offset l k = Err i →
  abs (take i l ++ x :: drop i l) = <[k := x]> (abs l).
Proof.
  intros Ho He. rewrite (abs_perm _ (x :: l)).
  - by rewrite abs_cons, Ho.
  - by eapply sorted_insert_at.
  - rewrite <-(take_drop i l) at 3. solve_Permutation.
Qed.
End Abs.

(** ** What each operation computes on a well-formed manager *)

Section Runs.
Context {HM : Type} `{!VirtioMediaHostMemoryMapper HM} `{!BuildMode}.
Local Abbreviation Mgr := (MmapMappingManager HM).
Implicit Types mm : Mgr.

Definition aligned (offset : Z) : bool := Z.land offset PAGE_MASK =? offset.

Lemma register_by_offset_run mm offset size :
  wf mm →
  register_buffer_by_offset offset size mm =
    if size =? 0 then Ret (mm, Err EmptyBuffer)
    else if negb (aligned offset) then Ret (mm, Err UnalignedOffset)
    else match search mm offset with
         | Ok _ => Ret (mm, Err OffsetOccupied)
         | Err i => Ret (set_buffers (take i (buffers mm) ++
                           MmapBuffer_new offset size :: drop i (buffers mm)) mm, Ok tt)
         end.
Proof.
  intros [Hs _]. unfold register_buffer_by_offset, aligned. unfold_M.
  destruct (size =? 0), (Z.land offset PAGE_MASK =? offset); simpl; try done.
  destruct (search mm offset) as [i|i] eqn:Es; [done|].
  destruct (search_Err _ Hs _ _ Es) as [Hi _]. unfold vec_insert.
  by rewrite (proj2 (Nat.leb_le _ _) Hi).
Qed.

Lemma unregister_run {E} mm offset :
  wf mm →
  unregister_buffer (E := E) offset mm =
    match search mm offset with
    | Err _ => Ret (mm, Ok false)
    | Ok i =>
        match buffers mm !! i with
        | Some b =>
            Ret (set_buffers (match b_mapping b with
                              | None => rm_at i (buffers mm)
                              | Some _ => <[i := set_registered false b]> (buffers mm)
                              end) mm, Ok true)
        | None => Panic
        end
    end.
Proof.
  intros [Hs _]. unfold unregister_buffer. unfold_M.
  destruct (search mm offset) as [i|i] eqn:Es; simpl; [|done].
  destruct (search_Ok _ Hs _ _ Es) as (b&Hi&_&_). rewrite Hi.
  destruct (b_mapping b); simpl; [done|].
  unfold vec_remove. rewrite length_insert.
  rewrite (proj2 (Nat.ltb_lt _ _)) by by eapply lookup_lt_Some. simpl.
  by rewrite <-(rm_at_insert (buffers mm) i (set_registered false b)).
Qed.

(** The end of the buffer overflows the 32-bit MMAP range. *)
Definition overflows (b : MmapBuffer) : bool := u32_max <? b_offset b + (b_size b - 1).

Lemma create_run mm offset fd rw i b :
  wf mm → search mm offset = Ok i → buffers mm !! i = Some b →
  create_mapping offset fd rw mm =
    if overflows b then Ret (mm, Err CM_InvalidOffset)
    else if negb (b_registered b) then Ret (mm, Err UnregisteredBuffer)
    else match b_mapping b with
         | None =>
             let '(hm', res) := add_mapping (mapper mm) fd (b_size b) (b_offset b) rw in
             match res with
             | Err e => Ret (set_mapper hm' mm, Err (MappingFailure e))
             | Ok addr =>
                 Ret (mkManager (<[i := set_mapping (Some (mkMapping 1 addr rw)) b]>
                                   (buffers mm)) hm', Ok (addr, b_size b))
             end
         | Some m =>
             if negb (eqb (m_rw m) rw) then Ret (mm, Err NonMatchingPermissions)
             else match u64_add (num_mappings m) 1 with
                  | Panic => Panic
                  | Ret n =>
                      Ret (set_buffers
                             (<[i := set_mapping (Some (mkMapping n (guest_addr m) (m_rw m))) b]>
                                (buffers mm)) mm, Ok (guest_addr m, b_size b))
                  end
         end.
Proof.
  intros [Hs Hall] Es Hi. unfold create_mapping. unfold_M. rewrite Es. simpl. rewrite Hi.
  destruct (Forall_lookup_1 _ _ _ _ Hall Hi) as [Ho _ Hsz _ _].
  unfold u32_sub. rewrite unsigned_op_ok by mlia. simpl.
  unfold u32_checked_add, overflows.
  destruct (Z.leb_spec (b_offset b + (b_size b - 1)) u32_max) as [Hle|Hgt];
    [rewrite (proj2 (Z.ltb_ge _ _)) by lia|by rewrite (proj2 (Z.ltb_lt _ _)) by lia].
  destruct (b_registered b); simpl; [|done].
  unfold u32_add. rewrite unsigned_op_ok by mlia. rewrite Z.ltb_irrefl. simpl.
  destruct (b_mapping b) as [m|]; simpl.
  - destruct (eqb (m_rw m) rw); simpl; [|done].
    destruct (u64_add (num_mappings m) 1); done.
  - destruct (add_mapping _ _ _ _ _) as [hm' [addr|e]]; done.
Qed.

Lemma create_run_missing mm offset fd rw i :
  search mm offset = Err i → create_mapping offset fd rw mm = Ret (mm, Err CM_InvalidOffset).
Proof. intros Es. unfold create_mapping. unfold_M. by rewrite Es. Qed.

(** One mapping of buffer [b], at index [i], is given back. *)
Definition drop_mapping mm (addr : Z) (i : nat) (b : MmapBuffer)
  : outcome (Mgr * result bool RemoveMappingError) :=
  match b_mapping b with
  | None => Panic
  | Some m =>
      if num_mappings m =? 1 then
        Ret (mkManager (if b_registered b
                        then <[i := set_mapping None b]> (buffers mm)
                        else rm_at i (buffers mm))
               (hm_remove_mapping (mapper mm) addr).1, Ok false)
      else
        Ret (set_buffers (<[i :=
               set_mapping (Some (mkMapping (num_mappings m - 1) addr (m_rw m))) b]>
               (buffers mm)) mm, Ok true)
  end.

(** [remove_mapping] acts on the first buffer mapped at the address. *)
Lemma remove_loop_run mm addr i todo :
  buffers mm = take i (buffers mm) ++ todo →
  (i ≤ length (buffers mm))%nat →
  Forall wf_buffer todo →
  remove_mapping_loop addr i todo mm =
    match list_find (mapped_at addr) todo with
    | None => Ret (mm, Err RM_InvalidOffset)
    | Some (j, b) => drop_mapping mm addr (i + j) b
    end.
Proof.
  revert i. induction todo as [|b todo IH]; intros i Hsplit Hi Hwf; [done|].
  apply Forall_cons in Hwf as [Hb Hwf].
  assert (i < length (buffers mm))%nat as Hlt.
  { rewrite Hsplit, length_app, length_take. simpl. lia. }
  specialize (IH (S i)). rewrite <-Nat.add_1_r in IH at 1.
  assert (buffers mm = take (i + 1) (buffers mm) ++ todo) as Hsplit'.
  { rewrite Hsplit at 1. rewrite Hsplit at 2.
    rewrite take_app_add' by (rewrite length_take; lia). simpl.
    by rewrite <-app_assoc. }
  specialize (IH Hsplit' Hlt Hwf).
  simpl. destruct (b_mapping b) as [m|] eqn:Em; simpl.
  2: { rewrite decide_False by (unfold mapped_at; by rewrite Em). simpl.
       rewrite IH. destruct (list_find _ todo) as [[j b']|]; simpl; [|done].
       by rewrite Nat.add_succ_r. }
  destruct (Z.eqb_spec (guest_addr m) addr) as [Ha|Ha].
  2: { rewrite decide_False by (unfold mapped_at; rewrite Em; simpl; congruence). simpl.
       rewrite IH. destruct (list_find _ todo) as [[j b']|]; simpl; [|done].
       by rewrite Nat.add_succ_r. }
  rewrite decide_True by (unfold mapped_at; rewrite Em; simpl; congruence). simpl.
  unfold drop_mapping. rewrite Em. destruct (wf_count _ Hb m Em) as [Hn1 Hn2].
  rewrite Nat.add_0_r. unfold_M. unfold u64_sub. rewrite unsigned_op_ok by mlia. rewrite Ha.
  destruct (Z.eqb_spec (num_mappings m) 1) as [E1|E1];
    [rewrite E1; simpl|rewrite (proj2 (Z.eqb_neq _ _)) by lia; done].
  destruct (b_registered b); simpl; [done|].
  unfold vec_remove. rewrite length_insert, (proj2 (Nat.ltb_lt _ _) Hlt). simpl.
  by rewrite <-(rm_at_insert (buffers mm) i (set_mapping None b)).
Qed.

Lemma remove_run mm addr :
  wf mm →
  remove_mapping addr mm =
    match list_find (mapped_at addr) (buffers mm) with
    | None => Ret (mm, Err RM_InvalidOffset)
    | Some (i, b) => drop_mapping mm addr i b
    end.
Proof.
  intros [_ Hall]. unfold remove_mapping. unfold_M.
  by rewrite (remove_loop_run mm addr 0 (buffers mm)) by (done || lia).
Qed.
End Runs.

(** ** The manager as a state machine *)

Inductive mm_op :=
| ORegister (offset : option Z) (size : Z)
| OUnregister (offset : Z)
| OCreate (offset : Z) (fd : Fd) (rw : bool)
| ORemove (addr : Z).

Inductive mm_resp :=
| RRegister (r : result Z RegisterBufferError)
| RUnregister (found : bool)
| RCreate (r : result (Z * Z) CreateMappingError)
| RRemove (r : result bool RemoveMappingError).

(** Arguments are values of their Rust types. *)
Definition op_ok (op : mm_op) : Prop :=
  match op with
  | ORegister (Some o) s => is_u32 o ∧ is_u32 s
  | ORegister None s => is_u32 s
  | OUnregister o => is_u32 o
  | OCreate o _ _ => is_u32 o
  | ORemove a => is_u64 a
  end.

Section Machine.
Context {HM : Type} `{!VirtioMediaHostMemoryMapper HM} `{!BuildMode}.
Local Abbreviation Mgr := (MmapMappingManager HM).
Implicit Types mm : Mgr.

(** [unregister_buffer] returns a [bool], not a [Result]. *)
Definition ok_bool (r : result bool Empty_set) : bool :=
  match r with Ok b => b | Err e => match e with end end.

Definition mm_run (op : mm_op) (mm : Mgr) : outcome (Mgr * mm_resp) :=
  match op with
  | ORegister o s =>
      '(mm', r) ← register_buffer o s mm; Ret (mm', RRegister r)
  | OUnregister o =>
      '(mm', r) ← unregister_buffer (E := Empty_set) o mm;
      Ret (mm', RUnregister (ok_bool r))
  | OCreate o fd rw =>
      '(mm', r) ← create_mapping o fd rw mm; Ret (mm', RCreate r)
  | ORemove a =>
      '(mm', r) ← remove_mapping a mm; Ret (mm', RRemove r)
  end.

(** Runs a list of calls, collecting the responses. *)
Fixpoint run_ops (ops : list mm_op) (mm : Mgr) : outcome (Mgr * list mm_resp) :=
  match ops with
  | [] => Ret (mm, [])
  | op :: ops' =>
      '(mm', r) ← mm_run op mm; '(mm'', rs) ← run_ops ops' mm'; Ret (mm'', r :: rs)
  end.

(** Managers reachable from a fresh one by [n] calls that return. *)
Inductive mm_reachable (hm0 : HM) : Z → Mgr → Prop :=
| reach_init : mm_reachable hm0 0 (manager_from hm0)
| reach_step n mm op mm' r :
    mm_reachable hm0 n mm → op_ok op → mm_run op mm = Ret (mm', r) →
    mm_reachable hm0 (n + 1) mm'.

Lemma run_ops_reachable hm0 ops n mm mm' rs :
  mm_reachable hm0 n mm → Forall op_ok ops → run_ops ops mm = Ret (mm', rs) →
  mm_reachable hm0 (n + Z.of_nat (length ops)) mm'.
Proof.
  revert n mm rs. induction ops as [|op ops IH]; intros n mm rs Hr Hok; simpl.
  - intros [= <- _]. by rewrite Z.add_0_r.
  - apply Forall_cons in Hok as [Hop Hok]. unfold mbind, outcome_bind.
    destruct (mm_run op mm) as [[mm1 r1]|] eqn:E1; [|done].
    destruct (run_ops ops mm1) as [[mm2 rs2]|] eqn:E2; intros [= <- _].
    replace (n + Z.of_nat (S (length ops))) with (n + 1 + Z.of_nat (length ops)) by lia.
    eapply IH; [|done|done]. by econstructor.
Qed.

(** No buffer is mapped more than [n] times. *)
Definition counts_le (n : Z) mm : Prop :=
  ∀ b m, b ∈ buffers mm → b_mapping b = Some m → num_mappings m ≤ n.

(** *** Preservation of the invariant *)

Lemma wf_set_buffer mm i b b' (hm : HM) :
  wf mm → buffers mm !! i = Some b → b_offset b' = b_offset b → wf_buffer b' →
  wf (mkManager (<[i := b']> (buffers mm)) hm).
Proof.
  intros [Hs Hall] Hi Ho Hb'. split; simpl.
  - by eapply sorted_upd.
  - by apply Forall_insert.
Qed.

Lemma wf_rm_at mm i (hm : HM) : wf mm → wf (mkManager (rm_at i (buffers mm)) hm).
Proof.
  intros [Hs Hall]. split; simpl; [by apply sorted_rm|].
  apply Forall_app. split; [by apply Forall_take|by apply Forall_drop].
Qed.

Lemma wf_set_mapper mm (hm : HM) : wf mm → wf (set_mapper hm mm).
Proof. done. Qed.

Lemma register_by_offset_wf offset size :
  is_u32 offset → is_u32 size → preserves wf (register_buffer_by_offset (HM := HM) offset size).
Proof.
  intros Ho Hsz mm mm' r Hwf. rewrite register_by_offset_run by done.
  destruct (Z.eqb_spec size 0); [by intros [= <- <-]|]. unfold aligned.
  destruct (Z.eqb_spec (Z.land offset PAGE_MASK) offset); simpl; [|by intros [= <- <-]].
  destruct (search mm offset) as [i|i] eqn:Es; intros [= <- <-]; [done|].
  destruct Hwf as [Hs Hall]. split; simpl.
  - by apply (sorted_insert_at b_offset _ offset).
  - apply Forall_app. split; [by apply Forall_take|].
    apply Forall_cons. split; [|by apply Forall_drop].
    split; simpl; [done|done|mlia|done|done].
Qed.

Lemma next_offset_u32 l o : next_offset l = Ret o → is_u32 o.
Proof.
  unfold next_offset, mbind, outcome_bind, u32_next_multiple_of, u32_add.
  destruct (last l) as [b|]; [|intros [= <-]; mlia].
  destruct (unsigned_op _ _) as [a|] eqn:Ea; [|done].
  apply unsigned_op_range in Ea; [|mlia].
  destruct (a `mod` PAGE_SIZE); [intros [= <-]; mlia|..];
    intros ?%unsigned_op_range; mlia.
Qed.

Lemma register_wf offset size :
  op_ok (ORegister offset size) → preserves wf (register_buffer (HM := HM) offset size).
Proof.
  intros Hop mm mm' r Hwf. unfold register_buffer. unfold_M.
  destruct offset as [o|].
  - destruct Hop as [Ho Hsz].
    destruct (register_buffer_by_offset o size mm) as [[mm1 r1]|] eqn:Er; [|done].
    pose proof (register_by_offset_wf o size Ho Hsz mm _ _ Hwf Er).
    by destruct r1; intros [= <- <-].
  - destruct (next_offset (buffers mm)) as [o|] eqn:Eo; [|done].
    apply next_offset_u32 in Eo.
    destruct (register_buffer_by_offset o size mm) as [[mm1 r1]|] eqn:Er; [|done].
    pose proof (register_by_offset_wf o size Eo Hop mm _ _ Hwf Er).
    by destruct r1; intros [= <- <-].
Qed.

Lemma unregister_wf {E} offset : preserves wf (unregister_buffer (HM := HM) (E := E) offset).
Proof.
  intros mm mm' r Hwf. rewrite unregister_run by done.
  destruct (search mm offset) as [i|i] eqn:Es; [|by intros [= <- <-]].
  destruct (buffers mm !! i) as [b|] eqn:Hi; [|done]. intros [= <- <-].
  pose proof (Forall_lookup_1 _ _ _ _ (proj2 Hwf) Hi) as [].
  destruct (b_mapping b) as [m|] eqn:Em; [|by apply wf_rm_at].
  eapply wf_set_buffer; [done|done|done|].
  split; simpl; [done|done|done|by rewrite Em|by rewrite Em].
Qed.

Lemma create_wf offset fd rw mm mm' r :
  wf mm → counts_le (u64_max - 1) mm →
  create_mapping offset fd rw mm = Ret (mm', r) → wf mm'.
Proof.
  intros Hwf Hc.
  destruct (search mm offset) as [i|i] eqn:Es;
    [|erewrite create_run_missing by done; by intros [= <- <-]].
  destruct (search_Ok _ (proj1 Hwf) _ _ Es) as (b&Hi&_&_).
  erewrite create_run by done.
  pose proof (Forall_lookup_1 _ _ _ _ (proj2 Hwf) Hi) as [].
  destruct (overflows b); [by intros [= <- <-]|].
  destruct (b_registered b) eqn:Er; simpl; [|by intros [= <- <-]].
  destruct (b_mapping b) as [m|] eqn:Em.
  - destruct (eqb _ _); simpl; [|by intros [= <- <-]].
    specialize (wf_count0 m eq_refl).
    specialize (Hc b m (list_elem_of_lookup_2 _ _ _ Hi) Em).
    unfold u64_add. rewrite unsigned_op_ok by mlia. intros [= <- <-].
    eapply wf_set_buffer; [done|done|done|].
    split; simpl; [done..| |by rewrite Er]. intros m' [= <-]. simpl. mlia.
  - destruct (add_mapping _ _ _ _ _) as [hm' [addr|e]]; intros [= <- <-]; [|done].
    eapply wf_set_buffer; [done|done|done|].
    split; simpl; [done..| |by rewrite Er]. intros m' [= <-]. simpl. mlia.
Qed.

Lemma remove_wf addr : preserves wf (remove_mapping (HM := HM) addr).
Proof.
  intros mm mm' r Hwf. rewrite remove_run by done.
  destruct (list_find _ _) as [[i b]|] eqn:Ef; [|by intros [= <- <-]].
  apply list_find_Some in Ef as (Hi&_&_).
  pose proof (Forall_lookup_1 _ _ _ _ (proj2 Hwf) Hi) as [].
  unfold drop_mapping. destruct (b_mapping b) as [m|] eqn:Em; [|done].
  specialize (wf_count0 m eq_refl).
  destruct (Z.eqb_spec (num_mappings m) 1); intros [= <- <-].
  - destruct (b_registered b) eqn:Er; [|by apply wf_rm_at].
    eapply wf_set_buffer; [done..|]. split; simpl; [done..|by rewrite Er].
  - eapply wf_set_buffer; [done..|]. split; simpl; [done..| |done].
    intros m' [= <-]. simpl. mlia.
Qed.

Lemma elem_of_rm_at {A} (x : A) i l : x ∈ rm_at i l → x ∈ l.
Proof. intros [?%elem_of_take_inv|?%elem_of_drop_inv]%elem_of_app; done. Qed.

Lemma counts_upd n n' mm i b' (hm : HM) :
  counts_le n mm → n ≤ n' →
  (∀ m, b_mapping b' = Some m → num_mappings m ≤ n') →
  counts_le n' (mkManager (<[i := b']> (buffers mm)) hm).
Proof.
  intros Hc Hn Hb b m [->|Hin]%elem_of_insert_inv Hm; [by apply Hb|].
  specialize (Hc b m Hin Hm). lia.
Qed.

Lemma counts_rm n n' mm i (hm : HM) :
  counts_le n mm → n ≤ n' → counts_le n' (mkManager (rm_at i (buffers mm)) hm).
Proof. intros Hc Hn b m Hin%elem_of_rm_at Hm. specialize (Hc b m Hin Hm). lia. Qed.

Lemma counts_mono n n' mm : counts_le n mm → n ≤ n' → counts_le n' mm.
Proof. intros Hc Hn b m Hb Hm. specialize (Hc b m Hb Hm). lia. Qed.

Lemma register_counts n offset size mm mm' r :
  wf mm → counts_le n mm → register_buffer offset size mm = Ret (mm', r) →
  counts_le n mm'.
Proof.
  intros Hwf Hc. unfold register_buffer. unfold_M.
  assert (∀ o mm1 r1, register_buffer_by_offset o size mm = Ret (mm1, r1) →
    counts_le n mm1) as Hby.
  { intros o mm1 r1. rewrite register_by_offset_run by done.
    destruct (size =? 0), (aligned o); simpl; try by intros [= <- _].
    destruct (search mm o) as [i|i]; intros [= <- _]; [done|].
    intros b m Hb Hm. apply (Hc b m); [|done]. simpl in Hb.
    rewrite elem_of_app, elem_of_cons in Hb.
    by destruct Hb as [?%elem_of_take_inv|[->|?%elem_of_drop_inv]]. }
  destruct offset as [o|]; [|destruct (next_offset (buffers mm)) as [o|]; [|done]].
  all: destruct (register_buffer_by_offset o size mm) as [[mm1 r1]|] eqn:Er; [|done];
    apply Hby in Er; by destruct r1; intros [= <- _].
Qed.

Lemma create_counts n offset fd rw mm mm' r :
  wf mm → 0 ≤ n < u64_max → counts_le n mm →
  create_mapping offset fd rw mm = Ret (mm', r) → counts_le (n + 1) mm'.
Proof.
  intros Hwf Hn Hc. pose proof (counts_mono n (n + 1) mm Hc ltac:(lia)) as Hc'.
  destruct (search mm offset) as [i|i] eqn:Es;
    [|erewrite create_run_missing by done; by intros [= <- _]].
  destruct (search_Ok _ (proj1 Hwf) _ _ Es) as (b&Hi&_&_).
  pose proof (Forall_lookup_1 _ _ _ _ (proj2 Hwf) Hi) as Hb.
  erewrite create_run by done.
  destruct (overflows b); [by intros [= <- _]|].
  destruct (b_registered b); simpl; [|by intros [= <- _]].
  destruct (b_mapping b) as [m|] eqn:Em.
  - destruct (eqb _ _); simpl; [|by intros [= <- _]].
    pose proof (wf_count _ Hb m Em) as Hm.
    specialize (Hc b m (list_elem_of_lookup_2 _ _ _ Hi) Em).
    unfold u64_add. rewrite unsigned_op_ok by mlia. intros [= <- _].
    eapply counts_upd; [exact Hc'|lia|]. intros m' [= <-]. simpl. lia.
  - destruct (add_mapping _ _ _ _ _) as [hm' [addr|e]]; intros [= <- _]; [|done].
    eapply counts_upd; [exact Hc'|lia|]. intros m' [= <-]. simpl. lia.
Qed.

Lemma unregister_counts {E} n offset mm mm' (r : result bool E) :
  wf mm → counts_le n mm → unregister_buffer offset mm = Ret (mm', r) → counts_le n mm'.
Proof.
  intros Hwf Hc. rewrite unregister_run by done.
  destruct (search mm offset) as [i|i]; [|by intros [= <- _]].
  destruct (buffers mm !! i) as [b|] eqn:Hi; [|done]. intros [= <- _].
  destruct (b_mapping b) as [m|] eqn:Em; [|eapply counts_rm; [done|lia]].
  eapply counts_upd; [done|lia|]. simpl. rewrite Em. intros m' [= <-].
  by apply (Hc b m (list_elem_of_lookup_2 _ _ _ Hi)).
Qed.

Lemma remove_counts n addr mm mm' r :
  wf mm → counts_le n mm → remove_mapping addr mm = Ret (mm', r) → counts_le n mm'.
Proof.
  intros Hwf Hc. rewrite remove_run by done.
  destruct (list_find _ _) as [[i b]|] eqn:Ef; [|by intros [= <- _]].
  apply list_find_Some in Ef as (Hi&_&_). unfold drop_mapping.
  destruct (b_mapping b) as [m|] eqn:Em; [|done].
  specialize (Hc b m (list_elem_of_lookup_2 _ _ _ Hi) Em) as Hm.
  destruct (num_mappings m =? 1); intros [= <- _].
  - destruct (b_registered b); [|eapply counts_rm; [done|lia]].
    eapply counts_upd; [done|lia|done].
  - eapply counts_upd; [done|lia|]. intros m' [= <-]. simpl. lia.
Qed.

Lemma step_inv n op mm mm' r :
  wf mm → 0 ≤ n < u64_max → counts_le n mm → op_ok op → mm_run op mm = Ret (mm', r) →
  wf mm' ∧ counts_le (n + 1) mm'.
Proof.
  intros Hwf Hn Hc Hop. destruct op; simpl; unfold mbind, outcome_bind.
  - destruct (register_buffer _ _ _) as [[mm1 r1]|] eqn:E; intros [= <- _]; split.
    + by eapply register_wf.
    + eapply counts_mono; [by eapply register_counts|lia].
  - destruct (unregister_buffer _ _) as [[mm1 r1]|] eqn:E; intros [= <- _]; split.
    + by eapply unregister_wf.
    + eapply counts_mono; [by eapply unregister_counts|lia].
  - destruct (create_mapping _ _ _ _) as [[mm1 r1]|] eqn:E; intros [= <- _]; split.
    + eapply create_wf; [done| |done]. eapply counts_mono; [done|lia].
    + by eapply create_counts.
  - destruct (remove_mapping _ _) as [[mm1 r1]|] eqn:E; intros [= <- _]; split.
    + by eapply remove_wf.
    + eapply counts_mono; [by eapply remove_counts|lia].
Qed.

Lemma reachable_inv hm0 n mm :
  mm_reachable hm0 n mm → n ≤ u64_max → 0 ≤ n ∧ wf mm ∧ counts_le n mm.
Proof.
  induction 1 as [|n mm op mm' r _ IH Hop Hrun]; intros Hn.
  - split_and!; [lia| |by intros ?? ?%elem_of_nil]. split; constructor.
  - destruct IH as (H0&Hwf&Hc); [lia|]. split; [lia|].
    eapply step_inv; [done| |done..]. lia.
Qed.
End Machine.

(** ** Offset allocation *)

Lemma aligned_spec x : is_u32 x → aligned x = true ↔ x `mod` PAGE_SIZE = 0.
Proof.
  intros Hx. unfold aligned. rewrite Z.eqb_eq.
  assert (Z.land x PAGE_MASK = PAGE_SIZE * (x `div` PAGE_SIZE)) as ->.
  { replace PAGE_MASK with (Z.ldiff (Z.ones 32) (Z.ones 12)) by done.
    replace (Z.land x (Z.ldiff (Z.ones 32) (Z.ones 12)))
      with (Z.ldiff (Z.land x (Z.ones 32)) (Z.ones 12))
      by (by rewrite !Z.ldiff_land, Z.land_assoc).
    rewrite Z.land_ones, Z.mod_small by (unfold is_u32, u32_max in Hx; lia).
    rewrite Z.ldiff_ones_r, Z.shiftl_mul_pow2, Z.shiftr_div_pow2 by lia.
    unfold PAGE_SIZE. change (2 ^ 12) with 0x1000. lia. }
  unfold PAGE_SIZE. pose proof (Z.div_mod x 0x1000 ltac:(lia)). lia.
Qed.

Section Allocation.
Context {HM : Type} `{!VirtioMediaHostMemoryMapper HM} `{!BuildMode}.
Local Abbreviation Mgr := (MmapMappingManager HM).
Implicit Types mm : Mgr.

(** The last page of the 32-bit range. *)
Definition LAST_PAGE : Z := 0xfffff000.

Lemma next_offset_last l b :
  wf_buffer b → last l = Some b →
  next_offset l =
    if b_offset b =? LAST_PAGE
    then (if overflow_checks then Panic else Ret 0)
    else Ret (b_offset b + PAGE_SIZE).
Proof.
  intros Hb Hl. unfold next_offset. rewrite Hl. unfold mbind, outcome_bind.
  pose proof (wf_offset _ Hb) as Ho.
  assert (b_offset b `mod` PAGE_SIZE = 0) as Hal.
  { apply aligned_spec; [done|]. unfold aligned. by rewrite (wf_aligned _ Hb), Z.eqb_refl. }
  unfold PAGE_SIZE in Hal.
  unfold u32_add at 1. rewrite unsigned_op_ok by divlia.
  unfold u32_next_multiple_of, PAGE_SIZE.
  assert ((b_offset b + 1) `mod` 0x1000 = 1) as -> by divlia.
  unfold u32_add, LAST_PAGE. destruct (Z.eqb_spec (b_offset b) 0xfffff000) as [->|Hne].
  - by rewrite unsigned_op_over by mlia.
  - rewrite unsigned_op_ok by divlia. f_equal. lia.
Qed.

(** All the offsets of a sorted vector are at most its last one. *)
Lemma sorted_last_max l b b' :
  sorted_offsets l → last l = Some b → b' ∈ l → b_offset b' ≤ b_offset b.
Proof.
  intros Hs Hl [i Hi]%list_elem_of_lookup. rewrite last_lookup in Hl.
  pose proof (lookup_lt_Some _ _ _ Hi).
  destruct (decide (i = pred (length l))) as [->|]; [simplify_eq; lia|].
  pose proof (sorted_lookup_lt b_offset l i (pred (length l)) b' b Hs Hi Hl). lia.
Qed.
End Allocation.

(** ** The abstract specification

    A labelled transition system on finite maps: what the documentation of each
    method promises, with no vector, no index and no search. *)

Section Spec.
Context {HM : Type} `{!VirtioMediaHostMemoryMapper HM}.
Local Abbreviation St := (gmap Z MmapBuffer * HM)%type.

Definition remapped (b : MmapBuffer) (n addr : Z) (rw : bool) : MmapBuffer :=
  set_mapping (Some (mkMapping n addr rw)) b.

Inductive spec_step : St → mm_op → St → mm_resp → Prop :=
| sp_register m hm req off size :
    size ≠ 0 → aligned off = true → m !! off = None →
    (∀ o, req = Some o → o = off) →
    spec_step (m, hm) (ORegister req size)
      (<[off := MmapBuffer_new off size]> m, hm) (RRegister (Ok off))
| sp_register_empty m hm req :
    spec_step (m, hm) (ORegister req 0) (m, hm) (RRegister (Err EmptyBuffer))
| sp_register_unaligned m hm off size :
    size ≠ 0 → aligned off = false →
    spec_step (m, hm) (ORegister (Some off) size) (m, hm) (RRegister (Err UnalignedOffset))
| sp_register_occupied m hm req off size b :
    size ≠ 0 → m !! off = Some b → (∀ o, req = Some o → o = off) →
    spec_step (m, hm) (ORegister req size) (m, hm) (RRegister (Err OffsetOccupied))
| sp_unregister_missing m hm off :
    m !! off = None → spec_step (m, hm) (OUnregister off) (m, hm) (RUnregister false)
| sp_unregister_free m hm off b :
    m !! off = Some b → b_mapping b = None →
    spec_step (m, hm) (OUnregister off) (delete off m, hm) (RUnregister true)
| sp_unregister_mapped m hm off b :
    m !! off = Some b → is_Some (b_mapping b) →
    spec_step (m, hm) (OUnregister off)
      (<[off := set_registered false b]> m, hm) (RUnregister true)
| sp_create_missing m hm off fd rw :
    m !! off = None →
    spec_step (m, hm) (OCreate off fd rw) (m, hm) (RCreate (Err CM_InvalidOffset))
| sp_create_overflow m hm off fd rw b :
    m !! off = Some b → overflows b = true →
    spec_step (m, hm) (OCreate off fd rw) (m, hm) (RCreate (Err CM_InvalidOffset))
| sp_create_unregistered m hm off fd rw b :
    m !! off = Some b → b_registered b = false →
    spec_step (m, hm) (OCreate off fd rw) (m, hm) (RCreate (Err UnregisteredBuffer))
| sp_create_failed m hm hm' off fd rw b e :
    m !! off = Some b → b_registered b = true → b_mapping b = None →
    add_mapping hm fd (b_size b) off rw = (hm', Err e) →
    spec_step (m, hm) (OCreate off fd rw) (m, hm') (RCreate (Err (MappingFailure e)))
| sp_create_first m hm hm' off fd rw b addr :
    m !! off = Some b → b_registered b = true → b_mapping b = None →
    add_mapping hm fd (b_size b) off rw = (hm', Ok addr) →
    spec_step (m, hm) (OCreate off fd rw)
      (<[off := remapped b 1 addr rw]> m, hm') (RCreate (Ok (addr, b_size b)))
| sp_create_perm m hm off fd rw b mp :
    m !! off = Some b → b_mapping b = Some mp → m_rw mp ≠ rw →
    spec_step (m, hm) (OCreate off fd rw) (m, hm) (RCreate (Err NonMatchingPermissions))
| sp_create_again m hm off fd rw b mp :
    m !! off = Some b → b_registered b = true → b_mapping b = Some mp → m_rw mp = rw →
    spec_step (m, hm) (OCreate off fd rw)
      (<[off := remapped b (num_mappings mp + 1) (guest_addr mp) rw]> m, hm)
      (RCreate (Ok (guest_addr mp, b_size b)))
| sp_remove_missing m hm addr :
    (∀ off b, m !! off = Some b → ¬ mapped_at addr b) →
    spec_step (m, hm) (ORemove addr) (m, hm) (RRemove (Err RM_InvalidOffset))
| sp_remove_more m hm addr off b mp :
    m !! off = Some b → b_mapping b = Some mp → guest_addr mp = addr →
    1 < num_mappings mp →
    spec_step (m, hm) (ORemove addr)
      (<[off := remapped b (num_mappings mp - 1) addr (m_rw mp)]> m, hm) (RRemove (Ok true))
| sp_remove_last m hm addr off b mp :
    m !! off = Some b → b_mapping b = Some mp → guest_addr mp = addr →
    num_mappings mp = 1 →
    spec_step (m, hm) (ORemove addr)
      (if b_registered b then <[off := set_mapping None b]> m else delete off m,
       (hm_remove_mapping hm addr).1) (RRemove (Ok false)).

Definition abs_state (mm : MmapMappingManager HM) : St := (abs (buffers mm), mapper mm).
End Spec.

(** ** Refinement, operation by operation *)

Section Refinement.
Context {HM : Type} `{!VirtioMediaHostMemoryMapper HM} `{!BuildMode}.
Local Abbreviation Mgr := (MmapMappingManager HM).
Implicit Types mm : Mgr.

Lemma register_by_offset_refines req off size mm mm' r :
  wf mm → (∀ o, req = Some o → o = off) → (req = None → aligned off = true) →
  register_buffer_by_offset off size mm = Ret (mm', r) →
  spec_step (abs_state mm) (ORegister req size) (abs_state mm')
    (RRegister (map_ok (λ _, off) r)).
Proof.
  intros Hwf Hreq Hal. rewrite register_by_offset_run by done. unfold abs_state.
  destruct (Z.eqb_spec size 0) as [->|Hsz]; [intros [= <- <-]; constructor|].
  destruct (aligned off) eqn:Ea; simpl.
  2: { intros [= <- <-]. destruct req as [o|]; [|by specialize (Hal eq_refl)].
       rewrite (Hreq o eq_refl). by constructor. }
  destruct (search mm off) as [i|i] eqn:Es; intros [= <- <-].
  - destruct (search_Ok _ (proj1 Hwf) _ _ Es) as (b&_&_&Hb).
    by eapply sp_register_occupied.
  - destruct (search_Err _ (proj1 Hwf) _ _ Es) as [_ Hn]. simpl.
    rewrite (abs_insert_at _ (proj1 Hwf) off) by done. by constructor.
Qed.

Lemma register_refines req size mm mm' r :
  wf mm → register_buffer req size mm = Ret (mm', r) →
  spec_step (abs_state mm) (ORegister req size) (abs_state mm') (RRegister r).
Proof.
  intros Hwf. unfold register_buffer. unfold_M.
  assert (∀ off, (∀ o, req = Some o → o = off) → (req = None → aligned off = true) →
    match register_buffer_by_offset off size mm with
    | Panic => Panic
    | Ret (s', Ok _) => Ret (s', Ok off)
    | Ret (s', Err e) => Ret (s', Err e)
    end = Ret (mm', r) →
    spec_step (abs_state mm) (ORegister req size) (abs_state mm') (RRegister r)) as Hby.
  { intros off H1 H2.
    destruct (register_buffer_by_offset off size mm) as [[mm1 r1]|] eqn:Er; [|done].
    pose proof (register_by_offset_refines req off size mm mm1 r1 Hwf H1 H2 Er).
    by destruct r1; intros [= <- <-]. }
  destruct req as [o|]; [apply Hby; [by intros ? [= ->]|done]|].
  destruct (next_offset (buffers mm)) as [o|] eqn:Eo; [|done]. apply Hby; [done|intros _].
  apply aligned_spec; [by eapply next_offset_u32|].
  destruct (last (buffers mm)) as [b|] eqn:El;
    [|unfold next_offset in Eo; rewrite El in Eo; by simplify_eq].
  assert (wf_buffer b) as Hb.
  { eapply Forall_forall; [exact (proj2 Hwf)|]. by apply last_Some_elem_of. }
  rewrite (next_offset_last _ b) in Eo by done.
  pose proof (wf_offset _ Hb) as Ho. pose proof (wf_aligned _ Hb) as Hal.
  assert (b_offset b `mod` PAGE_SIZE = 0).
  { apply aligned_spec; [done|]. unfold aligned. by rewrite Hal, Z.eqb_refl. }
  unfold PAGE_SIZE in *. repeat case_match; simplify_eq; [done|divlia].
Qed.

Lemma unregister_refines off mm mm' r :
  wf mm → unregister_buffer (E := Empty_set) off mm = Ret (mm', r) →
  spec_step (abs_state mm) (OUnregister off) (abs_state mm') (RUnregister (ok_bool r)).
Proof.
  intros Hwf. rewrite unregister_run by done.
  destruct (search mm off) as [i|i] eqn:Es.
  2: { intros [= <- <-]. destruct (search_Err _ (proj1 Hwf) _ _ Es). by constructor. }
  destruct (search_Ok _ (proj1 Hwf) _ _ Es) as (b&Hi&Ho&Hb). rewrite Hi.
  intros [= <- <-]. unfold abs_state. simpl.
  destruct (b_mapping b) as [mp|] eqn:Em.
  - rewrite (abs_upd _ (proj1 Hwf) i b), Ho by done.
    eapply sp_unregister_mapped; [done|by rewrite Em].
  - rewrite (abs_rm _ (proj1 Hwf) i b), Ho by done. by eapply sp_unregister_free.
Qed.

Lemma create_refines off fd rw mm mm' r :
  wf mm → counts_le (u64_max - 1) mm →
  create_mapping off fd rw mm = Ret (mm', r) →
  spec_step (abs_state mm) (OCreate off fd rw) (abs_state mm') (RCreate r).
Proof.
  intros Hwf Hc. destruct (search mm off) as [i|i] eqn:Es.
  2: { erewrite create_run_missing by done. intros [= <- <-].
       destruct (search_Err _ (proj1 Hwf) _ _ Es). by apply sp_create_missing. }
  destruct (search_Ok _ (proj1 Hwf) _ _ Es) as (b&Hi&Ho&Hb).
  erewrite create_run by done. unfold abs_state.
  destruct (overflows b) eqn:Eo; [intros [= <- <-]; by eapply sp_create_overflow|].
  destruct (b_registered b) eqn:Er; simpl;
    [|intros [= <- <-]; by eapply sp_create_unregistered].
  destruct (b_mapping b) as [mp|] eqn:Em.
  - destruct (Bool.eqb_spec (m_rw mp) rw) as [Hrw|Hrw]; simpl;
      [|intros [= <- <-]; by eapply sp_create_perm].
    pose proof (wf_count _ (Forall_lookup_1 _ _ _ _ (proj2 Hwf) Hi) mp Em).
    specialize (Hc b mp (list_elem_of_lookup_2 _ _ _ Hi) Em).
    unfold u64_add. rewrite unsigned_op_ok by mlia. intros [= <- <-]. simpl.
    rewrite (abs_upd _ (proj1 Hwf) i b), Ho, Hrw by done. by eapply sp_create_again.
  - destruct (add_mapping _ _ _ _ _) as [hm' [addr|e]] eqn:Eadd; rewrite Ho in Eadd;
      intros [= <- <-]; simpl; [|by eapply sp_create_failed].
    rewrite (abs_upd _ (proj1 Hwf) i b), Ho by done. by eapply sp_create_first.
Qed.

Lemma remove_refines addr mm mm' r :
  wf mm → remove_mapping addr mm = Ret (mm', r) →
  spec_step (abs_state mm) (ORemove addr) (abs_state mm') (RRemove r).
Proof.
  intros Hwf. rewrite remove_run by done. unfold abs_state.
  destruct (list_find _ _) as [[i b]|] eqn:Ef.
  2: { intros [= <- <-]. apply list_find_None in Ef. apply sp_remove_missing.
       intros off b [Hb _]%abs_lookup; [|exact (proj1 Hwf)].
       by eapply Forall_forall in Ef. }
  apply list_find_Some in Ef as (Hi&Hm&_).
  assert (abs (buffers mm) !! b_offset b = Some b) as Hb.
  { apply abs_lookup; [exact (proj1 Hwf)|]. by split; [eapply list_elem_of_lookup_2|]. }
  unfold drop_mapping. unfold mapped_at in Hm.
  destruct (b_mapping b) as [mp|] eqn:Em; [|done]. simplify_eq/=.
  pose proof (wf_count _ (Forall_lookup_1 _ _ _ _ (proj2 Hwf) Hi) mp Em).
  destruct (Z.eqb_spec (num_mappings mp) 1); intros [= <- <-]; simpl.
  - pose proof (sp_remove_last (abs (buffers mm)) (mapper mm) (guest_addr mp)
      (b_offset b) b mp Hb Em eq_refl ltac:(done)) as Hsp.
    destruct (b_registered b).
    + by rewrite (abs_upd _ (proj1 Hwf) i b) by done.
    + by rewrite (abs_rm _ (proj1 Hwf) i b) by done.
  - rewrite (abs_upd _ (proj1 Hwf) i b) by done.
    eapply sp_remove_more; [done..|lia].
Qed.
End Refinement.

(** ** The mapper of the crate's unit tests, for concrete runs *)

Module DummyMapper.
(** [DummyHostMemoryMapper]: maps at [offset | 0x8000_0000]. *)
Inductive DummyHostMemoryMapper := Dummy.
#[global] Instance dummy_mapper : VirtioMediaHostMemoryMapper DummyHostMemoryMapper := {|
  add_mapping _ _ _ offset _ := (Dummy, Ok (Z.lor offset 0x80000000));
  hm_remove_mapping _ _ := (Dummy, Ok tt);
|}.

#[global] Instance debug_build : BuildMode := true.

Definition Mgr := MmapMappingManager DummyHostMemoryMapper.

Definition two_buffers : Mgr :=
  mkManager [MmapBuffer_new 0 0x1000; MmapBuffer_new 0x1000 0x5000] Dummy.

Lemma two_buffers_reachable : mm_reachable Dummy 2 two_buffers.
Proof.
  apply (run_ops_reachable Dummy [ORegister None 0x1000; ORegister None 0x5000] 0
    (manager_from Dummy) two_buffers [RRegister (Ok 0); RRegister (Ok 0x1000)]);
    [constructor| |reflexivity].
  repeat constructor; discriminate.
Qed.

(** The unit test [mmap_manager_mapping]. *)
Example mmap_manager_mapping :
  (λ p, snd p) <$> (match run_ops
    [ OCreate 0x1000 0 false; ORemove 0x80001000; ORemove 0x80001000;
      OCreate 0x1000 0 false; OCreate 0x1000 0 false; ORemove 0x80001000;
      ORemove 0x80001000; ORemove 0x80001000; OCreate 0x2000 0 false;
      OCreate 0x1000 0 false; OCreate 0x1000 0 true; ORemove 0x80001000;
      OCreate 0x1000 0 false; OUnregister 0x1000; ORemove 0x80001000 ] two_buffers
    with Ret p => Some p | Panic => None end)
  = Some
    [ RCreate (Ok (0x80001000, 0x5000)); RRemove (Ok false);
      RRemove (Err RM_InvalidOffset);
      RCreate (Ok (0x80001000, 0x5000)); RCreate (Ok (0x80001000, 0x5000));
      RRemove (Ok true); RRemove (Ok false); RRemove (Err RM_InvalidOffset);
      RCreate (Err CM_InvalidOffset); RCreate (Ok (0x80001000, 0x5000));
      RCreate (Err NonMatchingPermissions); RRemove (Ok false);
      RCreate (Ok (0x80001000, 0x5000)); RUnregister true; RRemove (Ok false) ].
Proof. vm_compute. reflexivity. Qed.
End DummyMapper.

(** ** Correctness of the manager *)

Section Correctness.
Context {HM : Type} `{!VirtioMediaHostMemoryMapper HM} `{!BuildMode}.
Local Abbreviation Mgr := (MmapMappingManager HM).
Implicit Types mm : Mgr.

(** C21: every manager reached from a fresh one by fewer than 2^64 calls keeps
    its buffers strictly sorted by page-aligned offset, with non-empty sizes,
    mapping counts of at least one, and unregistered buffers only while they
    are mapped. *)
Theorem mmap_reachable_wf hm0 n mm :
  mm_reachable hm0 n mm → n ≤ u64_max → wf mm.
Proof. intros Hr Hn. by destruct (reachable_inv hm0 n mm Hr Hn) as (_&?&_). Qed.

(** C1: every call on a reachable manager is a step of the abstract
    specification on finite maps: same response, same mapper, and the map of
    the new vector is the new map. *)
Theorem mmap_refines_spec hm0 n mm op mm' r :
  mm_reachable hm0 n mm → n < u64_max → op_ok op → mm_run op mm = Ret (mm', r) →
  spec_step (abs_state mm) op (abs_state mm') r.
Proof.
  intros Hr Hn Hop. destruct (reachable_inv hm0 n mm Hr) as (H0&Hwf&Hc); [lia|].
  destruct op; simpl; unfold mbind, outcome_bind.
  - destruct (register_buffer _ _ _) as [[mm1 r1]|] eqn:E; intros [= <- <-].
    by apply register_refines.
  - destruct (unregister_buffer _ _) as [[mm1 r1]|] eqn:E; intros [= <- <-].
    by apply unregister_refines.
  - destruct (create_mapping _ _ _ _) as [[mm1 r1]|] eqn:E; intros [= <- <-].
    apply create_refines; [done| |done]. eapply counts_mono; [done|lia].
  - destruct (remove_mapping _ _) as [[mm1 r1]|] eqn:E; intros [= <- <-].
    by apply remove_refines.
Qed.

Lemma register_by_offset_total o size mm :
  wf mm → ∃ mm' r, register_buffer_by_offset o size mm = Ret (mm', r).
Proof.
  intros Hwf. rewrite register_by_offset_run by done.
  destruct (size =? 0), (aligned o), (search mm o); simpl; eauto.
Qed.

Lemma register_total o size mm :
  wf mm → ∃ mm' r, register_buffer (Some o) size mm = Ret (mm', r).
Proof.
  intros Hwf. unfold register_buffer. unfold_M.
  destruct (register_by_offset_total o size mm Hwf) as (mm1&[]&->); eauto.
Qed.

Lemma unregister_total {E} o mm :
  wf mm → ∃ mm' b, unregister_buffer (E := E) o mm = Ret (mm', Ok b).
Proof.
  intros Hwf. rewrite unregister_run by done.
  destruct (search mm o) as [i|i] eqn:Es; [|eauto].
  destruct (search_Ok _ (proj1 Hwf) _ _ Es) as (b&->&_&_). eauto.
Qed.

Lemma create_total o fd rw mm :
  wf mm → counts_le (u64_max - 1) mm →
  ∃ mm' r, create_mapping o fd rw mm = Ret (mm', r).
Proof.
  intros Hwf Hc. destruct (search mm o) as [i|i] eqn:Es;
    [|erewrite create_run_missing by done; eauto].
  destruct (search_Ok _ (proj1 Hwf) _ _ Es) as (b&Hi&_&_).
  erewrite create_run by done.
  destruct (overflows b), (b_registered b); simpl; eauto.
  destruct (b_mapping b) as [m|] eqn:Em.
  - destruct (eqb _ _); simpl; [|eauto].
    pose proof (wf_count _ (Forall_lookup_1 _ _ _ _ (proj2 Hwf) Hi) m Em).
    specialize (Hc b m (list_elem_of_lookup_2 _ _ _ Hi) Em).
    unfold u64_add. rewrite unsigned_op_ok by mlia. eauto.
  - destruct (add_mapping _ _ _ _ _) as [hm' []]; eauto.
Qed.

Lemma remove_total addr mm : wf mm → ∃ mm' r, remove_mapping addr mm = Ret (mm', r).
Proof.
  intros Hwf. rewrite remove_run by done.
  destruct (list_find _ _) as [[i b]|] eqn:Ef; [|eauto].
  apply list_find_Some in Ef as (_&Hm&_). unfold mapped_at in Hm. unfold drop_mapping.
  destruct (b_mapping b) as [m|]; [|done]. destruct (num_mappings m =? 1); eauto.
Qed.

Ltac not_panic := split; [done|intros (?&[??]&?&?&?); congruence].

(** C28: the only call that can panic on a reachable manager is the automatic
    allocation of an offset when the last page of the 32-bit range is taken,
    in a build with overflow checks. *)
Theorem mmap_panics_only_when_range_is_full hm0 n mm op :
  mm_reachable hm0 n mm → n < u64_max → op_ok op →
  mm_run op mm = Panic ↔
    overflow_checks = true ∧ (∃ size, op = ORegister None size) ∧
    ∃ b, last (buffers mm) = Some b ∧ b_offset b = LAST_PAGE.
Proof.
  intros Hr Hn Hop. destruct (reachable_inv hm0 n mm Hr) as (H0&Hwf&Hc); [lia|].
  destruct op as [[o|] size|o|o fd rw|a]; simpl; unfold mbind, outcome_bind.
  - destruct (register_total o size mm Hwf) as (?&?&->). not_panic.
  - unfold register_buffer. unfold_M. destruct (last (buffers mm)) as [b|] eqn:El.
    + assert (wf_buffer b) as Hb.
      { eapply Forall_forall; [exact (proj2 Hwf)|]. by apply last_Some_elem_of. }
      rewrite (next_offset_last _ b Hb El).
      destruct (Z.eqb_spec (b_offset b) LAST_PAGE) as [He|He]; [destruct overflow_checks|].
      1: split; [by eauto 10|done].
      all: edestruct register_by_offset_total as (?&[]&->); [done|..]; not_panic.
    + assert (next_offset (buffers mm) = Ret 0) as ->.
      { unfold next_offset. by rewrite El. }
      destruct (register_by_offset_total 0 size mm Hwf) as (?&[]&->); not_panic.
  - destruct (unregister_total (E := Empty_set) o mm Hwf) as (?&?&->). not_panic.
  - destruct (create_total o fd rw mm Hwf) as (?&?&->); [|not_panic].
    eapply counts_mono; [done|lia].
  - destruct (remove_total a mm Hwf) as (?&?&->). not_panic.
Qed.

(** An offset allocated by [register_buffer None] is a fresh multiple of
    the page size above every offset in use, unless the range is full. *)
Theorem register_allocates_fresh_offset hm0 n mm mm' off size :
  mm_reachable hm0 n mm → n < u64_max → is_u32 size →
  (∀ b, last (buffers mm) = Some b → b_offset b ≠ LAST_PAGE) →
  register_buffer None size mm = Ret (mm', Ok off) →
  off `mod` PAGE_SIZE = 0 ∧ is_u32 off ∧
  (∀ b, b ∈ buffers mm → b_offset b < off) ∧
  abs (buffers mm') = <[off := MmapBuffer_new off size]> (abs (buffers mm)).
Proof.
  intros Hr Hn Hsz Hfull Hreg.
  destruct (reachable_inv hm0 n mm Hr) as (H0&Hwf&Hc); [lia|].
  pose proof (register_refines None size mm mm' _ Hwf Hreg) as Hsp.
  inversion Hsp as [??? off' ? Hne Hal Hnone _| | | | | | | | | | | | | | | |].
  subst. revert Hreg. unfold register_buffer. unfold_M.
  destruct (next_offset (buffers mm)) as [o|] eqn:Eo; [|done].
  pose proof (next_offset_u32 _ _ Eo) as Hu.
  destruct (register_buffer_by_offset o size mm) as [[? []]|]; [|done..].
  intros [= <- <-]. split_and!; [by apply aligned_spec|done| |done].
  intros b Hb. destruct (last (buffers mm)) as [bl|] eqn:El.
  - pose proof (sorted_last_max _ bl b (proj1 Hwf) El Hb).
    assert (wf_buffer bl) as Hbl.
    { eapply Forall_forall; [exact (proj2 Hwf)|]. by apply last_Some_elem_of. }
    rewrite (next_offset_last _ bl Hbl El) in Eo.
    rewrite (proj2 (Z.eqb_neq _ _) (Hfull bl eq_refl)) in Eo.
    simplify_eq. unfold PAGE_SIZE. lia.
  - apply last_None in El. rewrite El in Hb. by apply elem_of_nil in Hb.
Qed.

Lemma run_ops_app ops1 ops2 mm :
  run_ops (ops1 ++ ops2) mm =
    '(mm1, rs1) ← run_ops ops1 mm; '(mm2, rs2) ← run_ops ops2 mm1; Ret (mm2, rs1 ++ rs2).
Proof.
  revert mm. induction ops1 as [|op ops1 IH]; intros mm; simpl.
  - unfold mbind, outcome_bind. by destruct (run_ops ops2 mm) as [[]|].
  - unfold mbind, outcome_bind in *. destruct (mm_run op mm) as [[mm1 r1]|]; [|done].
    rewrite IH. destruct (run_ops ops1 mm1) as [[mm2 rs2]|]; [|done].
    by destruct (run_ops ops2 mm2) as [[]|].
Qed.

(** A manager that differs from [mm] by [k] mappings of the buffer at [i]. *)
Definition mapped_times mm (i : nat) (b : MmapBuffer) (hm : HM) (k addr : Z) (rw : bool)
  : Mgr := mkManager (<[i := remapped b k addr rw]> (buffers mm)) hm.

Section Refcount.
Context (mm : Mgr) (i : nat) (b : MmapBuffer) (hm' : HM) (addr : Z) (rw : bool) (fd : Fd).
Context (Hwf : wf mm) (Hi : buffers mm !! i = Some b) (Hreg : b_registered b = true)
  (Hnone : b_mapping b = None) (Hov : overflows b = false)
  (Hfresh : ∀ b', b' ∈ buffers mm → ¬ mapped_at addr b').
Local Abbreviation off := (b_offset b).
Local Abbreviation st k := (mapped_times mm i b hm' k addr rw).

Lemma mapped_times_wf k : 1 ≤ k ≤ u64_max → wf (st k).
Proof.
  intros Hk. eapply wf_set_buffer; [done..|].
  destruct (Forall_lookup_1 _ _ _ _ (proj2 Hwf) Hi).
  split; simpl; [done..| |by rewrite Hreg]. by intros m [= <-].
Qed.

Lemma mapped_times_lookup k : buffers (st k) !! i = Some (remapped b k addr rw).
Proof. apply list_lookup_insert_eq. by eapply lookup_lt_Some. Qed.

Lemma mapped_times_search k : 1 ≤ k ≤ u64_max → search (st k) off = Ok i.
Proof.
  intros Hk. apply (binary_search_found b_offset _ _ _ (remapped b k addr rw));
    [exact (proj1 (mapped_times_wf k Hk))|apply mapped_times_lookup|done].
Qed.

Lemma mapped_times_find k : list_find (mapped_at addr) (buffers (st k)) =
  Some (i, remapped b k addr rw).
Proof.
  apply list_find_Some. split_and!; [apply mapped_times_lookup|done|].
  intros j y Hj Hlt. apply Hfresh. simpl in Hj.
  rewrite list_lookup_insert_ne in Hj by lia. by eapply list_elem_of_lookup_2.
Qed.

Lemma create_first_time :
  add_mapping (mapper mm) fd (b_size b) off rw = (hm', Ok addr) →
  mm_run (OCreate off fd rw) mm = Ret (st 1, RCreate (Ok (addr, b_size b))).
Proof.
  intros Hadd. simpl. unfold mbind, outcome_bind.
  erewrite create_run; [|done|by eapply binary_search_found; [exact (proj1 Hwf)|..]|done].
  by rewrite Hov, Hreg, Hnone, Hadd.
Qed.

Lemma create_once_more k :
  1 ≤ k < u64_max →
  mm_run (OCreate off fd rw) (st k) = Ret (st (k + 1), RCreate (Ok (addr, b_size b))).
Proof.
  intros Hk. simpl. unfold mbind, outcome_bind.
  erewrite create_run; [|apply mapped_times_wf; lia|apply mapped_times_search; lia
    |apply mapped_times_lookup].
  change (overflows (remapped b k addr rw)) with (overflows b). rewrite Hov.
  simpl. rewrite Hreg, Bool.eqb_reflx. simpl.
  unfold u64_add. rewrite unsigned_op_ok by mlia.
  unfold set_buffers, mapped_times. simpl. by rewrite list_insert_insert_eq.
Qed.

Lemma remove_once_more k :
  1 < k ≤ u64_max → mm_run (ORemove addr) (st k) = Ret (st (k - 1), RRemove (Ok true)).
Proof.
  intros Hk. simpl. unfold mbind, outcome_bind.
  rewrite remove_run by (apply mapped_times_wf; lia). rewrite mapped_times_find.
  unfold drop_mapping. simpl. rewrite (proj2 (Z.eqb_neq _ _)) by lia.
  unfold set_buffers, mapped_times. simpl. by rewrite list_insert_insert_eq.
Qed.

Lemma remove_last_time :
  mm_run (ORemove addr) (st 1) =
    Ret (mkManager (buffers mm) (hm_remove_mapping hm' addr).1, RRemove (Ok false)).
Proof.
  simpl. unfold mbind, outcome_bind.
  rewrite remove_run by (apply mapped_times_wf; mlia). rewrite mapped_times_find.
  unfold drop_mapping. simpl. rewrite Hreg. unfold mapped_times. simpl.
  rewrite list_insert_insert_eq, list_insert_id; [done|].
  rewrite Hi. f_equal. destruct b; unfold set_mapping. simpl in *. by rewrite Hnone.
Qed.

Lemma create_many n k :
  1 ≤ k → k + Z.of_nat n ≤ u64_max →
  run_ops (replicate n (OCreate off fd rw)) (st k) =
    Ret (st (k + Z.of_nat n), replicate n (RCreate (Ok (addr, b_size b)))).
Proof.
  revert k. induction n as [|n IH]; intros k Hk Hn.
  - simpl. by rewrite Z.add_0_r.
  - cbn [replicate run_ops]. unfold mbind, outcome_bind.
    rewrite create_once_more, IH by lia. do 3 f_equal. lia.
Qed.

Lemma remove_many n k :
  Z.of_nat n < k ≤ u64_max →
  run_ops (replicate n (ORemove addr)) (st k) =
    Ret (st (k - Z.of_nat n), replicate n (RRemove (Ok true))).
Proof.
  revert k. induction n as [|n IH]; intros k Hk.
  - simpl. by rewrite Z.sub_0_r.
  - cbn [replicate run_ops]. unfold mbind, outcome_bind.
    rewrite remove_once_more, IH by lia. do 3 f_equal. lia.
Qed.
End Refcount.

(** A buffer can be mapped any number of times at the address of its first
    mapping, and stays mapped until as many calls to [remove_mapping]: all but
    the last report remaining mappings, and the last one gives the manager
    back its buffers and releases the mapping once. *)
Theorem mappings_are_counted hm0 k mm off fd rw b hm' addr (n : nat) :
  mm_reachable hm0 k mm → k ≤ u64_max → Z.of_nat n < u64_max →
  abs (buffers mm) !! off = Some b → b_registered b = true → b_mapping b = None →
  overflows b = false →
  add_mapping (mapper mm) fd (b_size b) off rw = (hm', Ok addr) →
  (∀ b', b' ∈ buffers mm → ¬ mapped_at addr b') →
  run_ops (replicate (S n) (OCreate off fd rw) ++ replicate (S n) (ORemove addr)) mm =
    Ret (mkManager (buffers mm) (hm_remove_mapping hm' addr).1,
         replicate (S n) (RCreate (Ok (addr, b_size b))) ++
         replicate n (RRemove (Ok true)) ++ [RRemove (Ok false)]).
Proof.
  intros Hr Hk Hn Hb Hreg Hnone Hov Hadd Hfresh.
  destruct (reachable_inv hm0 k mm Hr Hk) as (_&Hwf&_).
  apply abs_lookup in Hb as [[i Hi]%list_elem_of_lookup Ho]; [|exact (proj1 Hwf)].
  subst off. rewrite run_ops_app. rewrite (replicate_S n (OCreate _ _ _)).
  replace (replicate (S n) (ORemove addr)) with (replicate n (ORemove addr) ++ [ORemove addr])
    by by rewrite <-replicate_cons_app.
  cbn [run_ops]. unfold mbind, outcome_bind.
  rewrite (create_first_time mm i b hm' addr rw fd) by done.
  rewrite create_many by (done || lia). rewrite run_ops_app. unfold mbind, outcome_bind.
  rewrite remove_many by (done || lia).
  replace (1 + Z.of_nat n - Z.of_nat n) with 1 by lia.
  cbn [run_ops]. unfold mbind, outcome_bind.
  by rewrite (remove_last_time mm i b hm' addr rw) by done.
Qed.

(** Unregistering a mapped buffer keeps its mappings but refuses new ones,
    and the buffer goes away with its last mapping. *)
Theorem mappings_survive_unregistration hm0 k mm off b m fd rw :
  mm_reachable hm0 k mm → k ≤ u64_max →
  abs (buffers mm) !! off = Some b → b_mapping b = Some m → overflows b = false →
  num_mappings m = 1 → NoDup (live_addrs (buffers mm)) →
  ∃ mm1 mm2,
    unregister_buffer (E := Empty_set) off mm = Ret (mm1, Ok true) ∧
    abs (buffers mm1) = <[off := set_registered false b]> (abs (buffers mm)) ∧
    create_mapping off fd rw mm1 = Ret (mm1, Err UnregisteredBuffer) ∧
    remove_mapping (guest_addr m) mm1 = Ret (mm2, Ok false) ∧
    abs (buffers mm2) = delete off (abs (buffers mm)).
Proof.
  intros Hr Hk Hb Hm Hov Hone Hnd.
  destruct (reachable_inv hm0 k mm Hr Hk) as (_&Hwf&_).
  apply abs_lookup in Hb as [[i Hi]%list_elem_of_lookup <-]; [|exact (proj1 Hwf)].
  assert (search mm (b_offset b) = Ok i) as Hs.
  { eapply binary_search_found; [exact (proj1 Hwf)|done..]. }
  set (b1 := set_registered false b).
  set (mm1 := mkManager (<[i := b1]> (buffers mm)) (mapper mm)).
  assert (unregister_buffer (E := Empty_set) (b_offset b) mm = Ret (mm1, Ok true)) as Hun.
  { rewrite unregister_run by done. by rewrite Hs, Hi, Hm. }
  assert (wf mm1) as Hwf1 by by eapply unregister_wf.
  assert (buffers mm1 !! i = Some b1) as Hi1.
  { apply list_lookup_insert_eq. by eapply lookup_lt_Some. }
  assert (list_find (mapped_at (guest_addr m)) (buffers mm1) = Some (i, b1)) as Hf.
  { apply list_find_Some. split_and!; [done|unfold mapped_at; simpl; by rewrite Hm|].
    intros j y Hj Hlt Hy. simpl in Hj. rewrite list_lookup_insert_ne in Hj by lia.
    unfold mapped_at in Hy.
    rewrite <-(take_drop_middle _ _ _ Hi) in Hnd. unfold live_addrs in Hnd.
    rewrite omap_app in Hnd. simpl in Hnd. rewrite Hm in Hnd. simpl in Hnd.
    apply NoDup_app in Hnd as (_&Hdis&_). apply (Hdis (guest_addr m)); [|by left].
    apply list_elem_of_omap. exists y. split; [|done].
    eapply elem_of_take. eauto. }
  exists mm1, (mkManager (rm_at i (buffers mm1)) (hm_remove_mapping (mapper mm) (guest_addr m)).1).
  split_and!; [done|by apply abs_upd; [exact (proj1 Hwf)|..]| | |].
  - erewrite create_run; [|done| |exact Hi1].
    + change (overflows b1) with (overflows b). by rewrite Hov.
    + by eapply (binary_search_found b_offset _ _ i b1); [exact (proj1 Hwf1)|..].
  - rewrite remove_run by done. rewrite Hf. unfold drop_mapping. simpl.
    by rewrite Hm, Hone.
  - simpl. rewrite rm_at_insert. apply abs_rm; [exact (proj1 Hwf)|done].
Qed.

(** A buffer that is unregistered but still mapped keeps its offset
    occupied, and [unregister_buffer] reports it as registered again. *)
Theorem unregistered_mapped_offset_stays_taken hm0 k mm off b size :
  mm_reachable hm0 k mm → k ≤ u64_max →
  abs (buffers mm) !! off = Some b → b_registered b = false →
  size ≠ 0 →
  register_buffer (Some off) size mm = Ret (mm, Err OffsetOccupied) ∧
  ∃ mm', unregister_buffer (E := Empty_set) off mm = Ret (mm', Ok true) ∧
         abs (buffers mm') = abs (buffers mm).
Proof.
  intros Hr Hk Hb Hreg Hsz. destruct (reachable_inv hm0 k mm Hr Hk) as (_&Hwf&_).
  apply abs_lookup in Hb as [[i Hi]%list_elem_of_lookup <-]; [|exact (proj1 Hwf)].
  pose proof (Forall_lookup_1 _ _ _ _ (proj2 Hwf) Hi) as Hwb.
  destruct (wf_alive _ Hwb Hreg) as [m Hm].
  assert (search mm (b_offset b) = Ok i) as Hs.
  { eapply binary_search_found; [exact (proj1 Hwf)|done..]. }
  split.
  - unfold register_buffer. unfold_M. rewrite register_by_offset_run by done.
    rewrite (proj2 (Z.eqb_neq _ _) Hsz), Hs. unfold aligned.
    by rewrite (wf_aligned _ Hwb), Z.eqb_refl.
  - rewrite unregister_run by done. rewrite Hs, Hi, Hm. eexists. split; [done|]. simpl.
    rewrite list_insert_id; [done|]. rewrite Hi. f_equal. destruct b. simpl in *. by subst.
Qed.
End Correctness.

(** ** Witnesses: the theorems at the managers of the unit tests *)

Section Witnesses.
Import DummyMapper.

Lemma mmap_reachable_wf_witness : wf two_buffers.
Proof. apply (mmap_reachable_wf Dummy 2 two_buffers two_buffers_reachable). done. Defined.

Lemma mmap_refines_spec_witness :
  spec_step (abs_state two_buffers) (OUnregister 0x1000)
    (abs_state (mkManager [MmapBuffer_new 0 0x1000] Dummy)) (RUnregister true).
Proof.
  apply (mmap_refines_spec Dummy 2 two_buffers (OUnregister 0x1000) _ _
    two_buffers_reachable); [done|by split|vm_compute; reflexivity].
Defined.

Lemma mmap_panics_only_when_range_is_full_witness :
  mm_run (ORegister None 0x1000) two_buffers ≠ Panic.
Proof.
  intros H. apply (mmap_panics_only_when_range_is_full Dummy 2 two_buffers _
    two_buffers_reachable) in H; [|done|by split].
  destruct H as (_&_&b&Hb&Hoff). vm_compute in Hb. injection Hb as <-. discriminate.
Defined.

Lemma register_allocates_fresh_offset_witness : ∃ mm',
  register_buffer None 0x1000 two_buffers = Ret (mm', Ok 0x2000) ∧
  abs (buffers mm') = <[0x2000 := MmapBuffer_new 0x2000 0x1000]> (abs (buffers two_buffers)).
Proof.
  eexists. split; [vm_compute; reflexivity|].
  refine (proj2 (proj2 (proj2 (register_allocates_fresh_offset Dummy 2 two_buffers
    (mkManager [MmapBuffer_new 0 0x1000; MmapBuffer_new 0x1000 0x5000;
                MmapBuffer_new 0x2000 0x1000] Dummy) 0x2000 0x1000
    two_buffers_reachable _ _ _ _)))); [done|by split| |vm_compute; reflexivity].
  intros b Hb. vm_compute in Hb. injection Hb as <-. discriminate.
Defined.

Lemma mappings_are_counted_witness :
  run_ops (replicate 3 (OCreate 0x1000 0 false) ++ replicate 3 (ORemove 0x80001000))
    two_buffers =
    Ret (two_buffers, replicate 3 (RCreate (Ok (0x80001000, 0x5000))) ++
                      replicate 2 (RRemove (Ok true)) ++ [RRemove (Ok false)]).
Proof.
  apply (mappings_are_counted Dummy 2 two_buffers 0x1000 0 false (MmapBuffer_new 0x1000 0x5000)
    Dummy 0x80001000 2 two_buffers_reachable); [done|done|reflexivity..|].
  intros b' Hb'. unfold two_buffers in Hb'. simpl in Hb'.
  rewrite !elem_of_cons, elem_of_nil in Hb'. destruct Hb' as [->|[->|[]]]; done.
Defined.

(** The second buffer mapped once. *)
Definition one_mapped : Mgr :=
  mkManager [MmapBuffer_new 0 0x1000;
             mkBuffer 0x1000 0x5000 true (Some (mkMapping 1 0x80001000 false))] Dummy.
(** The same, unregistered. *)
Definition orphan : Mgr :=
  mkManager [MmapBuffer_new 0 0x1000;
             mkBuffer 0x1000 0x5000 false (Some (mkMapping 1 0x80001000 false))] Dummy.

Lemma one_mapped_reachable : mm_reachable Dummy 3 one_mapped.
Proof.
  apply (reach_step Dummy 2 two_buffers (OCreate 0x1000 0 false) _
    (RCreate (Ok (0x80001000, 0x5000))) two_buffers_reachable); [by split|].
  vm_compute. reflexivity.
Qed.

Lemma orphan_reachable : mm_reachable Dummy 4 orphan.
Proof.
  apply (reach_step Dummy 3 one_mapped (OUnregister 0x1000) _ (RUnregister true)
    one_mapped_reachable); [by split|]. vm_compute. reflexivity.
Qed.

Lemma mappings_survive_unregistration_witness : ∃ mm1 mm2,
  unregister_buffer (E := Empty_set) 0x1000 one_mapped = Ret (mm1, Ok true) ∧
  create_mapping 0x1000 0 false mm1 = Ret (mm1, Err UnregisteredBuffer) ∧
  remove_mapping 0x80001000 mm1 = Ret (mm2, Ok false).
Proof.
  destruct (mappings_survive_unregistration Dummy 3 one_mapped 0x1000
    (mkBuffer 0x1000 0x5000 true (Some (mkMapping 1 0x80001000 false)))
    (mkMapping 1 0x80001000 false) 0 false one_mapped_reachable)
    as (mm1&mm2&?&_&?&?&_); [done|reflexivity..|apply NoDup_singleton|eauto].
Defined.

Lemma unregistered_mapped_offset_stays_taken_witness :
  register_buffer (Some 0x1000) 0x1000 orphan = Ret (orphan, Err OffsetOccupied).
Proof.
  refine (proj1 (unregistered_mapped_offset_stays_taken Dummy 4 orphan 0x1000
    (mkBuffer 0x1000 0x5000 false (Some (mkMapping 1 0x80001000 false))) 0x1000
    orphan_reachable _ _ _ _)); done || reflexivity.
Defined.
End Witnesses.

(** ** What the manager promises to the devices *)

Section Interface.
Context {HM : Type} `{!VirtioMediaHostMemoryMapper HM} `{!BuildMode}.
Local Abbreviation Mgr := (MmapMappingManager HM).
Implicit Types mm : Mgr.

(** A well-formed manager whose buffers were mapped at most [n] times. *)
Definition manager_ok (n : Z) mm : Prop := wf mm ∧ counts_le n mm.

Lemma manager_ok_from n (hm : HM) : manager_ok n (manager_from hm).
Proof. split; [split; constructor|by intros ?? ?%elem_of_nil]. Qed.

Lemma manager_ok_mono n n' mm : n ≤ n' → manager_ok n mm → manager_ok n' mm.
Proof. intros Hn [Hwf Hc]. split; [done|]. by eapply counts_mono. Qed.

Lemma unsigned_op_panics max z : unsigned_op max z = Panic → overflow_checks = true.
Proof. unfold unsigned_op. by destruct ((0 <=? z) && (z <=? max)), overflow_checks. Qed.

Lemma next_offset_panics l : next_offset l = Panic → overflow_checks = true.
Proof.
  unfold next_offset, mbind, outcome_bind, u32_next_multiple_of, u32_add.
  destruct (last l) as [b|]; [|done].
  destruct (unsigned_op _ _) as [a|] eqn:Ea; [|intros _; by eapply unsigned_op_panics].
  destruct (a `mod` PAGE_SIZE); [done|..]; apply unsigned_op_panics.
Qed.

(** Registering a buffer at a new offset can only panic on an overflow. *)
Lemma wp_register n size mm :
  is_u32 size → manager_ok n mm →
  wp overflow_checks (register_buffer None size)
    (λ r mm', manager_ok n mm' ∧ match r with Ok o => is_u32 o | Err _ => True end) mm.
Proof.
  intros Hs [Hwf Hc]. unfold wp.
  destruct (register_buffer None size mm) as [[mm' r]|] eqn:E.
  - split; [split; [exact (register_wf None size Hs mm mm' r Hwf E)|by eapply register_counts]|].
    destruct r as [o|]; [|done]. revert E. unfold register_buffer. unfold_M.
    destruct (next_offset (buffers mm)) as [o1|] eqn:Eo; [|done].
    destruct (register_buffer_by_offset o1 size mm) as [[mm1 []]|]; [|done..].
    intros [= _ <-]. by eapply next_offset_u32.
  - revert E. unfold register_buffer. unfold_M.
    destruct (next_offset (buffers mm)) as [o1|] eqn:Eo;
      [|intros _; by eapply next_offset_panics].
    destruct (register_by_offset_total o1 size mm Hwf) as (mm1&r1&->). by destruct r1.
Qed.

Lemma wp_unregister {E} n o mm :
  manager_ok n mm →
  wp (E := E) false (unregister_buffer o)
    (λ r mm', manager_ok n mm' ∧ match r with Ok _ => True | Err _ => False end) mm.
Proof.
  intros [Hwf Hc]. unfold wp.
  destruct (unregister_total (E := E) o mm Hwf) as (mm'&b&Hu). rewrite Hu.
  split; [|done]. split; [by eapply unregister_wf|by eapply unregister_counts].
Qed.

Lemma wp_create n o fd rw mm :
  0 ≤ n < u64_max → manager_ok n mm →
  wp false (create_mapping o fd rw) (λ _ mm', manager_ok (n + 1) mm') mm.
Proof.
  intros Hn [Hwf Hc]. assert (counts_le (u64_max - 1) mm) as Hc'
    by (eapply counts_mono; [done|lia]).
  unfold wp. destruct (create_total o fd rw mm Hwf Hc') as (mm'&r&Hu). rewrite Hu.
  split; [by eapply create_wf|by eapply create_counts].
Qed.

Lemma wp_remove n addr mm :
  manager_ok n mm → wp false (remove_mapping addr) (λ _ mm', manager_ok n mm') mm.
Proof.
  intros [Hwf Hc]. unfold wp. destruct (remove_total addr mm Hwf) as (mm'&r&Hu). rewrite Hu.
  split; [by eapply remove_wf|by eapply remove_counts].
Qed.

(** *** Registered offsets

    The offsets a mapping can be created for; a buffer that was unregistered while
    it is mapped is not one of them. *)
Definition reg_at (m : gmap Z MmapBuffer) (o : Z) : bool :=
  match m !! o with Some b => b_registered b | None => false end.

Definition registered mm (o : Z) : bool := reg_at (abs (buffers mm)) o.

Lemma registered_from (hm : HM) o : registered (manager_from hm) o = false.
Proof. done. Qed.

Lemma reg_at_insert m o b o' :
  reg_at (<[o := b]> m) o' = if decide (o' = o) then b_registered b else reg_at m o'.
Proof.
  unfold reg_at. destruct (decide (o' = o)) as [->|]; [by rewrite lookup_insert_eq|].
  by rewrite lookup_insert_ne.
Qed.

Lemma reg_at_delete m o o' :
  reg_at (delete o m) o' = if decide (o' = o) then false else reg_at m o'.
Proof.
  unfold reg_at. destruct (decide (o' = o)) as [->|]; [by rewrite lookup_delete_eq|].
  by rewrite lookup_delete_ne.
Qed.

(** An entry that keeps its flag keeps the registered offsets. *)
Lemma reg_at_insert_same m o b b' o' :
  m !! o = Some b → b_registered b' = b_registered b → reg_at (<[o := b']> m) o' = reg_at m o'.
Proof.
  intros Hb Hr. rewrite reg_at_insert. destruct (decide (o' = o)) as [->|]; [|done].
  unfold reg_at. by rewrite Hb.
Qed.

Lemma register_registered o size mm mm' r :
  wf mm → register_buffer (Some o) size mm = Ret (mm', r) →
  ∀ o', registered mm' o' = if is_ok r && bool_decide (o' = o) then true else registered mm o'.
Proof.
  intros Hwf Hr o'. pose proof (register_refines _ _ _ _ _ Hwf Hr) as Hs. unfold registered.
  inversion Hs as [? ? ? ? ? ? ? ? Hreq| | | | | | | | | | | | | | | | ]; subst; [|simpl; congruence..].
  rewrite reg_at_insert. specialize (Hreq o eq_refl) as <-. cbn. by repeat case_decide || case_bool_decide.
Qed.

(** An offset that the manager chooses was not registered. *)
Lemma register_fresh size mm mm' r :
  wf mm → register_buffer None size mm = Ret (mm', r) →
  match r with
  | Ok o => registered mm o = false ∧
      ∀ o', registered mm' o' = if decide (o' = o) then true else registered mm o'
  | Err _ => ∀ o', registered mm' o' = registered mm o'
  end.
Proof.
  intros Hwf Hr. pose proof (register_refines _ _ _ _ _ Hwf Hr) as Hs. unfold registered.
  inversion Hs as [? ? ? ? ? ? ? Hfree| | | | | | | | | | | | | | | | ]; subst; [|simpl; congruence..].
  split; [unfold reg_at; by rewrite Hfree|]. intros o'. by rewrite reg_at_insert.
Qed.

Lemma unregister_registered {E} o mm mm' (r : result bool E) :
  wf mm → unregister_buffer o mm = Ret (mm', r) →
  ∀ o', registered mm' o' = if bool_decide (o' = o) then false else registered mm o'.
Proof.
  intros Hwf Hr o'.
  assert (∃ b, unregister_buffer (E := Empty_set) o mm = Ret (mm', Ok b)) as [b Hb].
  { revert Hr. rewrite !unregister_run by done. repeat case_match; intros [= <- <-]; eauto. }
  pose proof (unregister_refines _ _ _ _ Hwf Hb) as Hs. unfold registered.
  inversion Hs as [| | | |? ? ? Hm|? ? ? ? Hm|? ? ? ? Hm| | | | | | | | | | ]; subst.
  - case_bool_decide; [|done]. subst o'. unfold reg_at. by rewrite Hm.
  - rewrite reg_at_delete. by repeat case_decide || case_bool_decide.
  - rewrite reg_at_insert. by repeat case_decide || case_bool_decide.
Qed.

Lemma create_registered o fd rw mm mm' r :
  wf mm → counts_le (u64_max - 1) mm → create_mapping o fd rw mm = Ret (mm', r) →
  ∀ o', registered mm' o' = registered mm o'.
Proof.
  intros Hwf Hc Hr o'. pose proof (create_refines _ _ _ _ _ _ Hwf Hc Hr) as Hs. unfold registered.
  inversion Hs; subst; try congruence; by eapply reg_at_insert_same.
Qed.

Lemma remove_registered addr mm mm' r :
  wf mm → remove_mapping addr mm = Ret (mm', r) → ∀ o', registered mm' o' = registered mm o'.
Proof.
  intros Hwf Hr o'. pose proof (remove_refines _ _ _ _ Hwf Hr) as Hs. unfold registered.
  inversion Hs as [| | | | | | | | | | | | | | |? ? ? ? b ? Hb|? ? ? off b ? Hb]; subst; try congruence.
  - by eapply reg_at_insert_same.
  - destruct (b_registered b) eqn:Eb; [by eapply reg_at_insert_same|].
    rewrite reg_at_delete. destruct (decide (o' = off)) as [->|]; [|done].
    unfold reg_at. by rewrite Hb.
Qed.
End Interface.
