(* ===== verification/Bytes.v ===== *)
(** * Little-endian bytes and codecs

    A [codec] is the in-memory representation of a [repr(C)] type whose fields
    follow each other without implicit padding, as [zerocopy] requires of the
    types sent to the guest: its size, its bytes, and the value read from bytes.
    Codecs of structures are built from those of their fields. *)

From Stdlib Require Import Strings.Byte.
From S2P Require Import Prelude.

(** ** Bytes *)

Definition byte_to_Z (b : byte) : Z := Z.of_N (Byte.to_N b).
Definition byte_of_Z (z : Z) : byte :=
  match Byte.of_N (Z.to_N (z `mod` 0x100)) with Some b => b | None => x00 end.

#[global] Instance byte_eq_dec : EqDecision byte := Byte.byte_eq_dec.

Lemma byte_to_Z_range b : 0 ≤ byte_to_Z b < 0x100.
Proof. unfold byte_to_Z. pose proof (Byte.to_N_bounded b). lia. Qed.

Lemma byte_of_to b : byte_of_Z (byte_to_Z b) = b.
Proof.
  unfold byte_of_Z. rewrite Z.mod_small by apply byte_to_Z_range.
  unfold byte_to_Z. by rewrite N2Z.id, Byte.of_to_N.
Qed.

Lemma byte_to_of z : byte_to_Z (byte_of_Z z) = z `mod` 0x100.
Proof.
  unfold byte_of_Z. pose proof (Z.mod_pos_bound z 0x100 ltac:(lia)) as Hz.
  destruct (Byte.of_N (Z.to_N (z `mod` 0x100))) as [b|] eqn:Eb.
  - apply Byte.to_of_N in Eb. unfold byte_to_Z. rewrite Eb. lia.
  - apply Byte.of_N_None_iff in Eb. lia.
Qed.

(** The [n] low bytes of [z], least significant first. *)
Fixpoint le_bytes (n : nat) (z : Z) : list byte :=
  match n with
  | O => []
  | S n' => byte_of_Z z :: le_bytes n' (z `div` 0x100)
  end.

(** The unsigned integer whose little-endian bytes are [bs]. *)
Fixpoint le_value (bs : list byte) : Z :=
  match bs with
  | [] => 0
  | b :: bs' => byte_to_Z b + 0x100 * le_value bs'
  end.

Lemma length_le_bytes n z : length (le_bytes n z) = n.
Proof. revert z. induction n; intros z; simpl; auto. Qed.

Lemma pow256_S n : 0x100 ^ Z.of_nat (S n) = 0x100 * 0x100 ^ Z.of_nat n.
Proof. rewrite Nat2Z.inj_succ, Z.pow_succ_r; lia. Qed.

Lemma le_value_range bs : 0 ≤ le_value bs < 0x100 ^ Z.of_nat (length bs).
Proof.
  induction bs as [|b bs IH]; [simpl; lia|]. cbn [le_value length].
  rewrite pow256_S. pose proof (byte_to_Z_range b). lia.
Qed.

Lemma le_value_bytes n z : le_value (le_bytes n z) = z `mod` (0x100 ^ Z.of_nat n).
Proof.
  revert z. induction n as [|n IH]; intros z; [simpl; by rewrite Z.mod_1_r|].
  cbn [le_value le_bytes]. rewrite IH, byte_to_of, pow256_S.
  rewrite Z.rem_mul_r; lia.
Qed.

Lemma le_bytes_value bs : le_bytes (length bs) (le_value bs) = bs.
Proof.
  induction bs as [|b bs IH]; [done|]. cbn [le_value le_bytes length].
  pose proof (byte_to_Z_range b). f_equal.
  - rewrite <-(byte_of_to b) at 2. unfold byte_of_Z. do 2 f_equal.
    by rewrite Z.mul_comm, Z.mod_add by lia.
  - replace ((byte_to_Z b + 0x100 * le_value bs) `div` 0x100) with (le_value bs); [done|].
    rewrite Z.mul_comm, Z.div_add, Z.div_small by lia. done.
Qed.

(** ** Codecs *)

Record codec (T : Type) := mkCodec {
  c_size : nat;
  c_enc : T → list byte;
  c_dec : list byte → T;
  (** Values of the Rust type (a [u32] field holds a [u32], ...). *)
  c_valid : T → Prop;
}.
Arguments mkCodec {T} _ _ _ _.
Arguments c_size {T} _.
Arguments c_enc {T} _ _.
Arguments c_dec {T} _ _.
Arguments c_valid {T} _ _.

Record codec_ok {T} (c : codec T) : Prop := {
  enc_length : ∀ x, length (c_enc c x) = c_size c;
  dec_enc : ∀ x, c_valid c x → c_dec c (c_enc c x) = x;
  enc_dec : ∀ bs, length bs = c_size c → c_enc c (c_dec c bs) = bs;
  dec_valid : ∀ bs, length bs = c_size c → c_valid c (c_dec c bs);
}.

(** An unsigned integer of [n] bytes. *)
Definition c_uint (n : nat) : codec Z :=
  mkCodec n (le_bytes n) le_value (λ z, 0 ≤ z < 0x100 ^ Z.of_nat n).

Definition c_u8 : codec Z := c_uint 1.
Definition c_u32 : codec Z := c_uint 4.
Definition c_u64 : codec Z := c_uint 8.

(** An [i32], in two's complement. *)
Definition c_i32 : codec Z :=
  mkCodec 4 (le_bytes 4) (λ bs, as_i32 (le_value bs)) is_i32.

Definition c_unit : codec unit := mkCodec 0 (λ _, []) (λ _, tt) (λ _, True).

(** Two fields in a row. *)
Definition c_pair {A B} (ca : codec A) (cb : codec B) : codec (A * B) :=
  mkCodec (c_size ca + c_size cb)
    (λ p, c_enc ca p.1 ++ c_enc cb p.2)
    (λ bs, (c_dec ca (take (c_size ca) bs), c_dec cb (drop (c_size ca) bs)))
    (λ p, c_valid ca p.1 ∧ c_valid cb p.2).

(** A structure, as its fields. *)
Definition c_struct {A B} (c : codec A) (mk : A → B) (fields : B → A) : codec B :=
  mkCodec (c_size c) (λ x, c_enc c (fields x)) (λ bs, mk (c_dec c bs))
    (λ x, c_valid c (fields x)).

(** An array of [n] elements. *)
Fixpoint c_array {A} (c : codec A) (n : nat) : codec (list A) :=
  match n with
  | O => mkCodec 0 (λ _, []) (λ _, []) (λ l, l = [])
  | S n' =>
      let c' := c_array c n' in
      mkCodec (c_size c + c_size c')
        (λ l, match l with [] => replicate (c_size c + c_size c') x00
              | x :: l' => c_enc c x ++ c_enc c' l' end)
        (λ bs, c_dec c (take (c_size c) bs) :: c_dec c' (drop (c_size c) bs))
        (λ l, match l with [] => False | x :: l' => c_valid c x ∧ c_valid c' l' end)
  end.

Lemma c_uint_ok n : codec_ok (c_uint n).
Proof.
  split; simpl.
  - apply length_le_bytes.
  - intros z Hz. by rewrite le_value_bytes, Z.mod_small.
  - intros bs <-. apply le_bytes_value.
  - intros bs <-. apply le_value_range.
Qed.

Lemma as_i32_mod z : as_i32 z `mod` 0x100000000 = z `mod` 0x100000000.
Proof. unfold as_i32. case_match; divlia. Qed.

Lemma c_i32_ok : codec_ok c_i32.
Proof.
  assert (0x100 ^ Z.of_nat 4 = 0x100000000) as Hp by done.
  split; cbn [c_i32 c_enc c_dec c_size c_valid].
  - intros z. apply length_le_bytes.
  - intros z Hz. rewrite le_value_bytes, Hp. unfold as_i32, is_i32 in *.
    rewrite Z.mod_mod by lia. case_match; divlia.
  - intros bs Hbs. rewrite <-(le_bytes_value bs) at 2. rewrite Hbs.
    set (v := le_value bs). assert (∀ n a b, a `mod` (0x100 ^ Z.of_nat n) =
      b `mod` (0x100 ^ Z.of_nat n) → le_bytes n a = le_bytes n b) as Hcong.
    { intros n a b Hab. rewrite <-(le_bytes_value (le_bytes n a)),
        <-(le_bytes_value (le_bytes n b)), !length_le_bytes, !le_value_bytes. by f_equal. }
    apply Hcong. rewrite Hp. apply as_i32_mod.
  - intros bs Hbs. unfold as_i32, is_i32. case_match; divlia.
Qed.

Lemma c_unit_ok : codec_ok c_unit.
Proof. split; simpl; [done|by intros []|by intros []|done]. Qed.

Lemma c_pair_ok {A B} (ca : codec A) (cb : codec B) :
  codec_ok ca → codec_ok cb → codec_ok (c_pair ca cb).
Proof.
  intros [L1 D1 E1 V1] [L2 D2 E2 V2]. split; simpl.
  - intros [x y]. by rewrite length_app, L1, L2.
  - intros [x y] [Hx Hy]. simpl in *.
    by rewrite take_app_length', drop_app_length', D1, D2 by auto.
  - intros bs Hbs. rewrite E1, E2; [apply take_drop|rewrite length_drop; lia|].
    rewrite length_take; lia.
  - intros bs Hbs. split; [apply V1; rewrite length_take; lia|].
    apply V2. rewrite length_drop. lia.
Qed.

Lemma c_struct_ok {A B} (c : codec A) (mk : A → B) (fields : B → A) :
  codec_ok c → (∀ x, mk (fields x) = x) → (∀ y, fields (mk y) = y) →
  codec_ok (c_struct c mk fields).
Proof.
  intros [L D E V] H1 H2. split; simpl; intros.
  - apply L.
  - by rewrite D.
  - by rewrite H2, E.
  - rewrite H2. by apply V.
Qed.

Lemma c_array_ok {A} (c : codec A) n : codec_ok c → codec_ok (c_array c n).
Proof.
  intros [L D E V]. induction n as [|n [L' D' E' V']].
  - split; simpl; [done|by intros ? ->|by intros []|done].
  - split; cbn [c_array c_enc c_dec c_size c_valid].
    + intros [|x l]; [by rewrite length_replicate|]. by rewrite length_app, L, L'.
    + intros [|x l]; [done|]. intros [Hx Hl].
      by rewrite take_app_length', drop_app_length', D, D' by auto.
    + intros bs Hbs. rewrite E, E'; [apply take_drop|rewrite length_drop; lia|].
      rewrite length_take; lia.
    + intros bs Hbs. split; [apply V; rewrite length_take; lia|].
      apply V'. rewrite length_drop. lia.
Qed.

#[export] Hint Resolve c_uint_ok c_i32_ok c_unit_ok c_pair_ok c_array_ok : vmedia.

(** Proves that a structure's codec is lawful from those of its fields. *)
Ltac solve_codec :=
  apply c_struct_ok; [eauto 20 with vmedia|by intros []|intros y; destruct_and?;
    repeat match goal with p : (_ * _)%type |- _ => destruct p
                         | p : unit |- _ => destruct p end; done].
