(* ===== verification/Protocol.v ===== *)
(** * The virtio-media protocol ([device/src/protocol.rs])

    The commands, responses and events exchanged with the driver, as records
    with the fields of the source, and their [repr(C)] codecs.  The ioctl codes
    are the [V4l2Ioctl] enumeration with its derived [n]. *)

From S2P Require Import Prelude Bytes.

(** ** Constants *)

Definition VIRTIO_ID_MEDIA : Z := 48.
Definition VIRTIO_MEDIA_CARD_NAME_LEN : nat := 32.

Definition VIRTIO_MEDIA_CMD_OPEN : Z := 1.
Definition VIRTIO_MEDIA_CMD_CLOSE : Z := 2.
Definition VIRTIO_MEDIA_CMD_IOCTL : Z := 3.
Definition VIRTIO_MEDIA_CMD_MMAP : Z := 4.
Definition VIRTIO_MEDIA_CMD_MUNMAP : Z := 5.

(** [1 << 0] *)
Definition VIRTIO_MEDIA_MMAP_FLAG_RW : Z := Z.shiftl 1 0.

Definition VIRTIO_MEDIA_EVENT_ERROR : Z := 0.
Definition VIRTIO_MEDIA_EVENT_DQBUF : Z := 1.
Definition VIRTIO_MEDIA_EVENT_EVENT : Z := 2.

(** ** Ioctl codes *)

Inductive V4l2Ioctl :=
| VIDIOC_QUERYCAP | VIDIOC_ENUM_FMT | VIDIOC_G_FMT | VIDIOC_S_FMT | VIDIOC_REQBUFS
| VIDIOC_QUERYBUF | VIDIOC_G_FBUF | VIDIOC_S_FBUF | VIDIOC_OVERLAY | VIDIOC_QBUF
| VIDIOC_EXPBUF | VIDIOC_DQBUF | VIDIOC_STREAMON | VIDIOC_STREAMOFF | VIDIOC_G_PARM
| VIDIOC_S_PARM | VIDIOC_G_STD | VIDIOC_S_STD | VIDIOC_ENUMSTD | VIDIOC_ENUMINPUT
| VIDIOC_G_CTRL | VIDIOC_S_CTRL | VIDIOC_G_TUNER | VIDIOC_S_TUNER | VIDIOC_G_AUDIO
| VIDIOC_S_AUDIO | VIDIOC_QUERYCTRL | VIDIOC_QUERYMENU | VIDIOC_G_INPUT
| VIDIOC_S_INPUT | VIDIOC_G_EDID | VIDIOC_S_EDID | VIDIOC_G_OUTPUT | VIDIOC_S_OUTPUT
| VIDIOC_ENUMOUTPUT | VIDIOC_G_AUDOUT | VIDIOC_S_AUDOUT | VIDIOC_G_MODULATOR
| VIDIOC_S_MODULATOR | VIDIOC_G_FREQUENCY | VIDIOC_S_FREQUENCY | VIDIOC_CROPCAP
| VIDIOC_G_CROP | VIDIOC_S_CROP | VIDIOC_G_JPEGCOMP | VIDIOC_S_JPEGCOMP
| VIDIOC_QUERYSTD | VIDIOC_TRY_FMT | VIDIOC_ENUMAUDIO | VIDIOC_ENUMAUDOUT
| VIDIOC_G_PRIORITY | VIDIOC_S_PRIORITY | VIDIOC_G_SLICED_VBI_CAP | VIDIOC_LOG_STATUS
| VIDIOC_G_EXT_CTRLS | VIDIOC_S_EXT_CTRLS | VIDIOC_TRY_EXT_CTRLS
| VIDIOC_ENUM_FRAMESIZES | VIDIOC_ENUM_FRAMEINTERVALS | VIDIOC_G_ENC_INDEX
| VIDIOC_ENCODER_CMD | VIDIOC_TRY_ENCODER_CMD | VIDIOC_DBG_S_REGISTER
| VIDIOC_DBG_G_REGISTER | VIDIOC_S_HW_FREQ_SEEK | VIDIOC_S_DV_TIMINGS
| VIDIOC_G_DV_TIMINGS | VIDIOC_DQEVENT | VIDIOC_SUBSCRIBE_EVENT
| VIDIOC_UNSUBSCRIBE_EVENT | VIDIOC_CREATE_BUFS | VIDIOC_PREPARE_BUF
| VIDIOC_G_SELECTION | VIDIOC_S_SELECTION | VIDIOC_DECODER_CMD | VIDIOC_TRY_DECODER_CMD
| VIDIOC_ENUM_DV_TIMINGS | VIDIOC_QUERY_DV_TIMINGS | VIDIOC_DV_TIMINGS_CAP
| VIDIOC_ENUM_FREQ_BANDS | VIDIOC_DBG_G_CHIP_INFO | VIDIOC_QUERY_EXT_CTRL.

#[global] Instance V4l2Ioctl_eq_dec : EqDecision V4l2Ioctl.
Proof. solve_decision. Defined.

(** The discriminants. *)
Definition ioctl_code (i : V4l2Ioctl) : Z :=
  match i with
  | VIDIOC_QUERYCAP => 0 | VIDIOC_ENUM_FMT => 2 | VIDIOC_G_FMT => 4 | VIDIOC_S_FMT => 5
  | VIDIOC_REQBUFS => 8 | VIDIOC_QUERYBUF => 9 | VIDIOC_G_FBUF => 10
  | VIDIOC_S_FBUF => 11 | VIDIOC_OVERLAY => 14 | VIDIOC_QBUF => 15 | VIDIOC_EXPBUF => 16
  | VIDIOC_DQBUF => 17 | VIDIOC_STREAMON => 18 | VIDIOC_STREAMOFF => 19
  | VIDIOC_G_PARM => 21 | VIDIOC_S_PARM => 22 | VIDIOC_G_STD => 23 | VIDIOC_S_STD => 24
  | VIDIOC_ENUMSTD => 25 | VIDIOC_ENUMINPUT => 26 | VIDIOC_G_CTRL => 27
  | VIDIOC_S_CTRL => 28 | VIDIOC_G_TUNER => 29 | VIDIOC_S_TUNER => 30
  | VIDIOC_G_AUDIO => 33 | VIDIOC_S_AUDIO => 34 | VIDIOC_QUERYCTRL => 36
  | VIDIOC_QUERYMENU => 37 | VIDIOC_G_INPUT => 38 | VIDIOC_S_INPUT => 39
  | VIDIOC_G_EDID => 40 | VIDIOC_S_EDID => 41 | VIDIOC_G_OUTPUT => 46
  | VIDIOC_S_OUTPUT => 47 | VIDIOC_ENUMOUTPUT => 48 | VIDIOC_G_AUDOUT => 49
  | VIDIOC_S_AUDOUT => 50 | VIDIOC_G_MODULATOR => 54 | VIDIOC_S_MODULATOR => 55
  | VIDIOC_G_FREQUENCY => 56 | VIDIOC_S_FREQUENCY => 57 | VIDIOC_CROPCAP => 58
  | VIDIOC_G_CROP => 59 | VIDIOC_S_CROP => 60 | VIDIOC_G_JPEGCOMP => 61
  | VIDIOC_S_JPEGCOMP => 62 | VIDIOC_QUERYSTD => 63 | VIDIOC_TRY_FMT => 64
  | VIDIOC_ENUMAUDIO => 65 | VIDIOC_ENUMAUDOUT => 66 | VIDIOC_G_PRIORITY => 67
  | VIDIOC_S_PRIORITY => 68 | VIDIOC_G_SLICED_VBI_CAP => 69 | VIDIOC_LOG_STATUS => 70
  | VIDIOC_G_EXT_CTRLS => 71 | VIDIOC_S_EXT_CTRLS => 72 | VIDIOC_TRY_EXT_CTRLS => 73
  | VIDIOC_ENUM_FRAMESIZES => 74 | VIDIOC_ENUM_FRAMEINTERVALS => 75
  | VIDIOC_G_ENC_INDEX => 76 | VIDIOC_ENCODER_CMD => 77 | VIDIOC_TRY_ENCODER_CMD => 78
  | VIDIOC_DBG_S_REGISTER => 79 | VIDIOC_DBG_G_REGISTER => 80
  | VIDIOC_S_HW_FREQ_SEEK => 82 | VIDIOC_S_DV_TIMINGS => 87 | VIDIOC_G_DV_TIMINGS => 88
  | VIDIOC_DQEVENT => 89 | VIDIOC_SUBSCRIBE_EVENT => 90 | VIDIOC_UNSUBSCRIBE_EVENT => 91
  | VIDIOC_CREATE_BUFS => 92 | VIDIOC_PREPARE_BUF => 93 | VIDIOC_G_SELECTION => 94
  | VIDIOC_S_SELECTION => 95 | VIDIOC_DECODER_CMD => 96 | VIDIOC_TRY_DECODER_CMD => 97
  | VIDIOC_ENUM_DV_TIMINGS => 98 | VIDIOC_QUERY_DV_TIMINGS => 99
  | VIDIOC_DV_TIMINGS_CAP => 100 | VIDIOC_ENUM_FREQ_BANDS => 101
  | VIDIOC_DBG_G_CHIP_INFO => 102 | VIDIOC_QUERY_EXT_CTRL => 103
  end.

Definition all_ioctls : list V4l2Ioctl :=
  [ VIDIOC_QUERYCAP; VIDIOC_ENUM_FMT; VIDIOC_G_FMT; VIDIOC_S_FMT; VIDIOC_REQBUFS;
    VIDIOC_QUERYBUF; VIDIOC_G_FBUF; VIDIOC_S_FBUF; VIDIOC_OVERLAY; VIDIOC_QBUF;
    VIDIOC_EXPBUF; VIDIOC_DQBUF; VIDIOC_STREAMON; VIDIOC_STREAMOFF; VIDIOC_G_PARM;
    VIDIOC_S_PARM; VIDIOC_G_STD; VIDIOC_S_STD; VIDIOC_ENUMSTD; VIDIOC_ENUMINPUT;
    VIDIOC_G_CTRL; VIDIOC_S_CTRL; VIDIOC_G_TUNER; VIDIOC_S_TUNER; VIDIOC_G_AUDIO;
    VIDIOC_S_AUDIO; VIDIOC_QUERYCTRL; VIDIOC_QUERYMENU; VIDIOC_G_INPUT; VIDIOC_S_INPUT;
    VIDIOC_G_EDID; VIDIOC_S_EDID; VIDIOC_G_OUTPUT; VIDIOC_S_OUTPUT; VIDIOC_ENUMOUTPUT;
    VIDIOC_G_AUDOUT; VIDIOC_S_AUDOUT; VIDIOC_G_MODULATOR; VIDIOC_S_MODULATOR;
    VIDIOC_G_FREQUENCY; VIDIOC_S_FREQUENCY; VIDIOC_CROPCAP; VIDIOC_G_CROP;
    VIDIOC_S_CROP; VIDIOC_G_JPEGCOMP; VIDIOC_S_JPEGCOMP; VIDIOC_QUERYSTD;
    VIDIOC_TRY_FMT; VIDIOC_ENUMAUDIO; VIDIOC_ENUMAUDOUT; VIDIOC_G_PRIORITY;
    VIDIOC_S_PRIORITY; VIDIOC_G_SLICED_VBI_CAP; VIDIOC_LOG_STATUS; VIDIOC_G_EXT_CTRLS;
    VIDIOC_S_EXT_CTRLS; VIDIOC_TRY_EXT_CTRLS; VIDIOC_ENUM_FRAMESIZES;
    VIDIOC_ENUM_FRAMEINTERVALS; VIDIOC_G_ENC_INDEX; VIDIOC_ENCODER_CMD;
    VIDIOC_TRY_ENCODER_CMD; VIDIOC_DBG_S_REGISTER; VIDIOC_DBG_G_REGISTER;
    VIDIOC_S_HW_FREQ_SEEK; VIDIOC_S_DV_TIMINGS; VIDIOC_G_DV_TIMINGS; VIDIOC_DQEVENT;
    VIDIOC_SUBSCRIBE_EVENT; VIDIOC_UNSUBSCRIBE_EVENT; VIDIOC_CREATE_BUFS;
    VIDIOC_PREPARE_BUF; VIDIOC_G_SELECTION; VIDIOC_S_SELECTION; VIDIOC_DECODER_CMD;
    VIDIOC_TRY_DECODER_CMD; VIDIOC_ENUM_DV_TIMINGS; VIDIOC_QUERY_DV_TIMINGS;
    VIDIOC_DV_TIMINGS_CAP; VIDIOC_ENUM_FREQ_BANDS; VIDIOC_DBG_G_CHIP_INFO;
    VIDIOC_QUERY_EXT_CTRL ].

(** [V4l2Ioctl::n], derived by [enumn::N]: the variant with this discriminant. *)
Definition V4l2Ioctl_n (code : Z) : option V4l2Ioctl :=
  List.find (λ i, ioctl_code i =? code) all_ioctls.

Lemma all_ioctls_complete i : i ∈ all_ioctls.
Proof. destruct i; repeat (left || right). Qed.

Lemma ioctl_code_inj i j : ioctl_code i = ioctl_code j → i = j.
Proof. destruct i, j; first [reflexivity | discriminate]. Qed.

(** ** Structures *)

Record VirtioMediaDeviceConfig := {
  device_caps : Z; device_type : Z; card : list Z }.
Record SgEntry := mkSgEntry { sg_start : Z; sg_len : Z; sg_padding : Z }.
Record CmdHeader := mkCmdHeader { cmd : Z; ch_padding : Z }.
Record RespHeader := mkRespHeader { errno : Z; rh_padding : Z }.
Record OpenCmd := mkOpenCmd { }.
Record OpenResp := mkOpenResp { or_hdr : RespHeader; or_session_id : Z; or_padding : Z }.
Record CloseCmd := mkCloseCmd { cc_session_id : Z; cc_padding : Z }.
Record IoctlCmd := mkIoctlCmd { ic_session_id : Z; ic_code : Z }.
Record MmapCmd := mkMmapCmd { mc_session_id : Z; mc_flags : Z; mc_offset : Z }.
Record MmapResp := mkMmapResp { mr_hdr : RespHeader; mr_driver_addr : Z; mr_len : Z }.
Record MunmapCmd := mkMunmapCmd { mu_driver_addr : Z }.
Record MunmapResp := mkMunmapResp { mur_hdr : RespHeader }.
Record EventHeader := mkEventHeader { eh_event : Z; eh_session_id : Z }.
Record ErrorEvent := mkErrorEvent { ee_hdr : EventHeader; ee_errno : Z; ee_padding : Z }.

(** The payloads of the two other events are types of [v4l2r]. *)
Record DequeueBufferEvent (B : Type) := mkDequeueBufferEvent {
  dq_hdr : EventHeader; dq_v4l2_buffer : B }.
Record SessionEvent (V : Type) := mkSessionEvent {
  se_hdr : EventHeader; se_v4l2_event : V }.
Arguments mkDequeueBufferEvent {B} _ _.
Arguments dq_hdr {B} _.
Arguments dq_v4l2_buffer {B} _.
Arguments mkSessionEvent {V} _ _.
Arguments se_hdr {V} _.
Arguments se_v4l2_event {V} _.

Inductive V4l2Event (B V : Type) :=
| EvError (e : ErrorEvent)
| EvDequeueBuffer (e : DequeueBufferEvent B)
| EvEvent (e : SessionEvent V).
Arguments EvError {B V} _.
Arguments EvDequeueBuffer {B V} _.
Arguments EvEvent {B V} _.

(** ** Constructors of the source *)

Definition RespHeader_ok : RespHeader := mkRespHeader 0 0.
Definition RespHeader_err (e : Z) : RespHeader := mkRespHeader e 0.
Definition OpenResp_ok (session_id : Z) : OpenResp := mkOpenResp RespHeader_ok session_id 0.
Definition MmapResp_ok (addr len : Z) : MmapResp := mkMmapResp RespHeader_ok addr len.
Definition MunmapResp_ok : MunmapResp := mkMunmapResp RespHeader_ok.
Definition EventHeader_new (event session_id : Z) : EventHeader :=
  mkEventHeader event session_id.
Definition ErrorEvent_new (session_id e : Z) : ErrorEvent :=
  mkErrorEvent (EventHeader_new VIRTIO_MEDIA_EVENT_ERROR session_id) e 0.
Definition DequeueBufferEvent_new {B} (session_id : Z) (b : B) : DequeueBufferEvent B :=
  mkDequeueBufferEvent (EventHeader_new VIRTIO_MEDIA_EVENT_DQBUF session_id) b.
Definition SessionEvent_new {V} (session_id : Z) (v : V) : SessionEvent V :=
  mkSessionEvent (EventHeader_new VIRTIO_MEDIA_EVENT_EVENT session_id) v.

(** The header every event starts with. *)
Definition event_header {B V} (e : V4l2Event B V) : EventHeader :=
  match e with
  | EvError e => ee_hdr e
  | EvDequeueBuffer e => dq_hdr e
  | EvEvent e => se_hdr e
  end.

(** ** Layouts *)

Definition c_VirtioMediaDeviceConfig : codec VirtioMediaDeviceConfig :=
  c_struct (c_pair c_u32 (c_pair c_u32 (c_array c_u8 VIRTIO_MEDIA_CARD_NAME_LEN)))
    (λ p, {| device_caps := p.1; device_type := p.2.1; card := p.2.2 |})
    (λ x, (device_caps x, (device_type x, card x))).
Definition c_SgEntry : codec SgEntry :=
  c_struct (c_pair c_u64 (c_pair c_u32 c_u32))
    (λ p, mkSgEntry p.1 p.2.1 p.2.2) (λ x, (sg_start x, (sg_len x, sg_padding x))).
Definition c_CmdHeader : codec CmdHeader :=
  c_struct (c_pair c_u32 c_u32) (λ p, mkCmdHeader p.1 p.2) (λ x, (cmd x, ch_padding x)).
Definition c_RespHeader : codec RespHeader :=
  c_struct (c_pair c_i32 c_u32) (λ p, mkRespHeader p.1 p.2) (λ x, (errno x, rh_padding x)).
Definition c_OpenCmd : codec OpenCmd := c_struct c_unit (λ _, mkOpenCmd) (λ _, tt).
Definition c_OpenResp : codec OpenResp :=
  c_struct (c_pair c_RespHeader (c_pair c_u32 c_u32))
    (λ p, mkOpenResp p.1 p.2.1 p.2.2) (λ x, (or_hdr x, (or_session_id x, or_padding x))).
Definition c_CloseCmd : codec CloseCmd :=
  c_struct (c_pair c_u32 c_u32) (λ p, mkCloseCmd p.1 p.2)
    (λ x, (cc_session_id x, cc_padding x)).
Definition c_IoctlCmd : codec IoctlCmd :=
  c_struct (c_pair c_u32 c_u32) (λ p, mkIoctlCmd p.1 p.2)
    (λ x, (ic_session_id x, ic_code x)).
Definition c_MmapCmd : codec MmapCmd :=
  c_struct (c_pair c_u32 (c_pair c_u32 c_u32))
    (λ p, mkMmapCmd p.1 p.2.1 p.2.2) (λ x, (mc_session_id x, (mc_flags x, mc_offset x))).
Definition c_MmapResp : codec MmapResp :=
  c_struct (c_pair c_RespHeader (c_pair c_u64 c_u64))
    (λ p, mkMmapResp p.1 p.2.1 p.2.2) (λ x, (mr_hdr x, (mr_driver_addr x, mr_len x))).
Definition c_MunmapCmd : codec MunmapCmd := c_struct c_u64 mkMunmapCmd mu_driver_addr.
Definition c_MunmapResp : codec MunmapResp := c_struct c_RespHeader mkMunmapResp mur_hdr.
Definition c_EventHeader : codec EventHeader :=
  c_struct (c_pair c_u32 c_u32) (λ p, mkEventHeader p.1 p.2)
    (λ x, (eh_event x, eh_session_id x)).
Definition c_ErrorEvent : codec ErrorEvent :=
  c_struct (c_pair c_EventHeader (c_pair c_i32 c_u32))
    (λ p, mkErrorEvent p.1 p.2.1 p.2.2) (λ x, (ee_hdr x, (ee_errno x, ee_padding x))).

Lemma c_VirtioMediaDeviceConfig_ok : codec_ok c_VirtioMediaDeviceConfig.
Proof. solve_codec. Qed.
Lemma c_SgEntry_ok : codec_ok c_SgEntry.
Proof. solve_codec. Qed.
Lemma c_CmdHeader_ok : codec_ok c_CmdHeader.
Proof. solve_codec. Qed.
Lemma c_RespHeader_ok : codec_ok c_RespHeader.
Proof. solve_codec. Qed.
#[export] Hint Resolve c_RespHeader_ok : vmedia.
Lemma c_OpenCmd_ok : codec_ok c_OpenCmd.
Proof. solve_codec. Qed.
Lemma c_OpenResp_ok : codec_ok c_OpenResp.
Proof. solve_codec. Qed.
Lemma c_CloseCmd_ok : codec_ok c_CloseCmd.
Proof. solve_codec. Qed.
Lemma c_IoctlCmd_ok : codec_ok c_IoctlCmd.
Proof. solve_codec. Qed.
Lemma c_MmapCmd_ok : codec_ok c_MmapCmd.
Proof. solve_codec. Qed.
Lemma c_MmapResp_ok : codec_ok c_MmapResp.
Proof. solve_codec. Qed.
Lemma c_MunmapCmd_ok : codec_ok c_MunmapCmd.
Proof. solve_codec. Qed.
Lemma c_MunmapResp_ok : codec_ok c_MunmapResp.
Proof. solve_codec. Qed.
Lemma c_EventHeader_ok : codec_ok c_EventHeader.
Proof. solve_codec. Qed.
#[export] Hint Resolve c_EventHeader_ok : vmedia.
Lemma c_ErrorEvent_ok : codec_ok c_ErrorEvent.
Proof. solve_codec. Qed.

#[export] Hint Resolve c_SgEntry_ok c_CmdHeader_ok c_OpenCmd_ok c_OpenResp_ok
  c_CloseCmd_ok c_IoctlCmd_ok c_MmapCmd_ok c_MmapResp_ok c_MunmapCmd_ok c_MunmapResp_ok
  c_ErrorEvent_ok c_VirtioMediaDeviceConfig_ok : vmedia.

(** An ioctl code is accepted exactly when it is the discriminant of a
    variant, and the variant found is that one. *)
Theorem ioctl_codes_roundtrip code i : V4l2Ioctl_n code = Some i ↔ ioctl_code i = code.
Proof.
  unfold V4l2Ioctl_n. split.
  - intros H. apply List.find_some in H as [_ H]. lia.
  - intros <-. destruct (List.find _ _) as [j|] eqn:E.
    + apply List.find_some in E as [_ Hj]. f_equal. apply ioctl_code_inj. lia.
    + eapply (List.find_none _ _) in E; [|apply list_elem_of_In, (all_ioctls_complete i)].
      lia.
Qed.
