(* ===== verification/Io.v ===== *)
(** * Reading commands and writing responses ([device/src/io.rs], [device/src/io/le.rs])

    The device-readable part of a descriptor chain is the list of the bytes
    left to read; the device-writable part is the bytes written so far and the
    room left.  They behave as the standard library's [Read] and [Write] on byte
    slices: [read_exact] fails when fewer bytes are left, [write_all] writes
    what fits and then fails. *)

From Stdlib Require Import Strings.Byte.
From S2P Require Import Prelude Bytes Protocol.

(** The kinds of [std::io::Error] the crate can meet. *)
Inductive IoError := UnexpectedEof | WriteZero | InvalidData.

Definition Reader : Type := list byte.

Record Writer := mkWriter { written : list byte; room : nat }.

(** [Read::read_exact] into a slice of [n] bytes. *)
Definition read_exact (n : nat) : M Reader IoError (list byte) := λ r,
  if (n <=? length r)%nat then Ret (drop n r, Ok (take n r)) else Ret ([], Err UnexpectedEof).

(** [Write::write_all] *)
Definition write_all (bs : list byte) : M Writer IoError unit := λ w,
  if (length bs <=? room w)%nat
  then Ret (mkWriter (written w ++ bs) (room w - length bs), Ok tt)
  else Ret (mkWriter (written w ++ take (room w) bs) 0, Err WriteZero).

(** ** [VmediaType]

    A type that can be sent to or received from the driver has a layout.  The
    wire is little-endian and so is the host: [to_le] and [from_le] only wrap
    and unwrap. *)

Class VmediaType (T : Type) := vmedia : codec T.

Inductive LeWrapper (T : Type) := mkLeWrapper (inner : T).
Arguments mkLeWrapper {T} _.

Definition to_le {T} (x : T) : LeWrapper T := mkLeWrapper x.
Definition from_le {T} (le : LeWrapper T) : T := match le with mkLeWrapper x => x end.
(** [LeWrapper::into_native] *)
Definition into_native {T} (le : LeWrapper T) : T := from_le le.

#[global] Instance vm_unit : VmediaType unit := c_unit.
(** [u32] and [i32] are distinct Rust types over the same [Z]. *)
Record u32 := mkU32 { u32_val : Z }.
Record i32 := mkI32 { i32_val : Z }.
#[global] Instance vm_u32 : VmediaType u32 := c_struct c_u32 mkU32 u32_val.
#[global] Instance vm_i32 : VmediaType i32 := c_struct c_i32 mkI32 i32_val.
#[global] Instance vm_CmdHeader : VmediaType CmdHeader := c_CmdHeader.
#[global] Instance vm_RespHeader : VmediaType RespHeader := c_RespHeader.
#[global] Instance vm_OpenCmd : VmediaType OpenCmd := c_OpenCmd.
#[global] Instance vm_OpenResp : VmediaType OpenResp := c_OpenResp.
#[global] Instance vm_CloseCmd : VmediaType CloseCmd := c_CloseCmd.
#[global] Instance vm_IoctlCmd : VmediaType IoctlCmd := c_IoctlCmd.
#[global] Instance vm_SgEntry : VmediaType SgEntry := c_SgEntry.
#[global] Instance vm_MmapCmd : VmediaType MmapCmd := c_MmapCmd.
#[global] Instance vm_MmapResp : VmediaType MmapResp := c_MmapResp.
#[global] Instance vm_MunmapCmd : VmediaType MunmapCmd := c_MunmapCmd.
#[global] Instance vm_MunmapResp : VmediaType MunmapResp := c_MunmapResp.
#[global] Instance vm_ErrorEvent : VmediaType ErrorEvent := c_ErrorEvent.

(** [size_of::<T>()] *)
Definition size_of (T : Type) `{VmediaType T} : nat := c_size vmedia.

(** ** [ReadFromDescriptorChain] and [WriteToDescriptorChain] *)

(** [read_obj::<T>] *)
Definition read_obj {T} `{VmediaType T} : M Reader IoError T :=
  bs ← read_exact (size_of T);
  mret (into_native (mkLeWrapper (c_dec vmedia bs))).

(** [write_obj] *)
Definition write_obj {T} `{VmediaType T} (obj : T) : M Writer IoError unit :=
  write_all (c_enc vmedia (from_le (to_le obj))).

(** [write_response] *)
Definition write_response {T} `{VmediaType T} (response : T) : M Writer IoError unit :=
  write_obj response.

(** [write_err_response] *)
Definition write_err_response (code : Z) : M Writer IoError unit :=
  write_response (RespHeader_err code).

(** ** Lemmas *)

Lemma write_all_room w bs :
  (length bs ≤ room w)%nat →
  write_all bs w = Ret (mkWriter (written w ++ bs) (room w - length bs), Ok tt).
Proof. intros H. unfold write_all. by rewrite (proj2 (Nat.leb_le _ _) H). Qed.

Lemma write_all_total bs w : ∃ w' r, write_all bs w = Ret (w', r).
Proof. unfold write_all. case_match; eauto. Qed.

(** Writing never erases what was written before. *)
Lemma write_all_appends bs w w' r :
  write_all bs w = Ret (w', r) → written w `prefix_of` written w'.
Proof. unfold write_all. case_match; intros [= <- _]; simpl; by apply prefix_app_r. Qed.

(** Two writes in a row are one write of their concatenation. *)
Lemma write_all_app bs1 bs2 w :
  (write_all bs1 ;; write_all bs2) w = write_all (bs1 ++ bs2) w.
Proof.
  unfold write_all. unfold_M. rewrite length_app.
  destruct (Nat.leb_spec (length bs1) (room w)) as [H1|H1]; simpl.
  - destruct (Nat.leb_spec (length bs2) (room w - length bs1)) as [H2|H2].
    + rewrite (proj2 (Nat.leb_le _ _)) by lia. rewrite (assoc_L (++)). do 3 f_equal. lia.
    + rewrite (proj2 (Nat.leb_gt _ _)) by lia. rewrite take_app_ge by lia.
      by rewrite (assoc_L (++)).
  - rewrite (proj2 (Nat.leb_gt _ _)) by lia. by rewrite take_app_le by lia.
Qed.

Lemma write_all_nil w : write_all [] w = Ret (w, Ok tt).
Proof. destruct w. unfold write_all. simpl. by rewrite app_nil_r, Nat.sub_0_r. Qed.

(** Writing a sequence of objects is one write of their bytes. *)
Lemma write_objs_bytes {T} `{VmediaType T} (l : list T) w :
  forM_ write_obj l w = write_all (mjoin (c_enc vmedia <$> l)) w.
Proof.
  revert w. induction l as [|x l IH]; intros w; [by rewrite write_all_nil|].
  cbn [fmap list_fmap mjoin list_join forM_]. rewrite <-write_all_app. unfold_M.
  unfold write_obj. simpl. destruct (write_all _ w) as [[w' [[]|e]]|]; [apply IH|done..].
Qed.

Lemma read_exact_app n bs rest :
  length bs = n → read_exact n (bs ++ rest) = Ret (rest, Ok bs).
Proof.
  intros <-. unfold read_exact. rewrite length_app.
  rewrite (proj2 (Nat.leb_le _ _)) by lia. by rewrite drop_app_length, take_app_length.
Qed.

Section ReadWrite.
Context {T : Type} `{VmediaType T} (Hok : codec_ok (vmedia (T := T))).

Lemma read_obj_short r :
  (length r < size_of T)%nat → read_obj (T := T) r = Ret ([], Err UnexpectedEof).
Proof.
  intros Hlt. unfold read_obj, read_exact. unfold_M.
  by rewrite (proj2 (Nat.leb_gt _ _)) by lia.
Qed.

Lemma read_obj_enough r :
  (size_of T ≤ length r)%nat →
  read_obj (T := T) r = Ret (drop (size_of T) r, Ok (c_dec vmedia (take (size_of T) r))).
Proof.
  intros Hle. unfold read_obj, read_exact. unfold_M. by rewrite (proj2 (Nat.leb_le _ _) Hle).
Qed.

Lemma read_obj_total r : ∃ r' res, read_obj (T := T) r = Ret (r', res).
Proof.
  destruct (decide (size_of T ≤ length r)%nat);
    [rewrite read_obj_enough by done|rewrite read_obj_short by lia]; eauto.
Qed.

Lemma read_obj_enc x rest :
  c_valid vmedia x → read_obj (T := T) (c_enc vmedia x ++ rest) = Ret (rest, Ok x).
Proof.
  intros Hx. pose proof (enc_length _ Hok x) as Hl.
  rewrite read_obj_enough by (unfold size_of; rewrite length_app; lia).
  unfold size_of. rewrite <-Hl, drop_app_length, take_app_length. by rewrite (dec_enc _ Hok).
Qed.
End ReadWrite.

(** What [read_obj] reads, as a function of the bytes. *)
Definition parse {T} `{VmediaType T} (r : Reader) : option T :=
  if (size_of T <=? length r)%nat then Some (c_dec vmedia (take (size_of T) r)) else None.

Lemma read_obj_parse {T} `{VmediaType T} r :
  read_obj (T := T) r =
  match parse r with
  | Some x => Ret (drop (size_of T) r, Ok x)
  | None => Ret ([], Err UnexpectedEof)
  end.
Proof.
  unfold parse. destruct (Nat.leb_spec (size_of T) (length r)).
  - by apply read_obj_enough.
  - by apply read_obj_short.
Qed.

Lemma parse_valid {T} `{VmediaType T} r (x : T) :
  codec_ok (vmedia (T := T)) → parse r = Some x → c_valid vmedia x.
Proof.
  intros Hok. unfold parse. destruct (Nat.leb_spec (size_of T) (length r)); [|done].
  intros [= <-]. apply (dec_valid _ Hok). by rewrite length_take_le.
Qed.

(** ** The wire format

    The messages of the protocol as the sequence of their fields, each with its
    width in bytes and whether it is signed, written down field by field from
    [protocol.rs] and independently of the codecs. *)

Inductive message :=
| MsgCmdHeader (x : CmdHeader) | MsgRespHeader (x : RespHeader) | MsgOpenCmd (x : OpenCmd)
| MsgOpenResp (x : OpenResp) | MsgCloseCmd (x : CloseCmd) | MsgIoctlCmd (x : IoctlCmd)
| MsgSgEntry (x : SgEntry) | MsgMmapCmd (x : MmapCmd) | MsgMmapResp (x : MmapResp)
| MsgMunmapCmd (x : MunmapCmd) | MsgMunmapResp (x : MunmapResp) | MsgErrorEvent (x : ErrorEvent).

Inductive wire_field := U32 (v : Z) | U64 (v : Z) | I32 (v : Z).

Definition field_bytes (f : wire_field) : list byte :=
  match f with
  | U32 v | I32 v => [byte_of_Z v; byte_of_Z (Z.shiftr v 8); byte_of_Z (Z.shiftr v 16);
                      byte_of_Z (Z.shiftr v 24)]
  | U64 v => (λ i, byte_of_Z (Z.shiftr v (8 * i))) <$> [0; 1; 2; 3; 4; 5; 6; 7]
  end.

Definition field_in_range (f : wire_field) : Prop :=
  match f with U32 v => is_u32 v | U64 v => 0 ≤ v ≤ u64_max | I32 v => is_i32 v end.

Definition header_fields (h : RespHeader) : list wire_field := [I32 (errno h); U32 (rh_padding h)].

Definition message_fields (m : message) : list wire_field :=
  match m with
  | MsgCmdHeader x => [U32 (cmd x); U32 (ch_padding x)]
  | MsgRespHeader x => header_fields x
  | MsgOpenCmd _ => []
  | MsgOpenResp x => header_fields (or_hdr x) ++ [U32 (or_session_id x); U32 (or_padding x)]
  | MsgCloseCmd x => [U32 (cc_session_id x); U32 (cc_padding x)]
  | MsgIoctlCmd x => [U32 (ic_session_id x); U32 (ic_code x)]
  | MsgSgEntry x => [U64 (sg_start x); U32 (sg_len x); U32 (sg_padding x)]
  | MsgMmapCmd x => [U32 (mc_session_id x); U32 (mc_flags x); U32 (mc_offset x)]
  | MsgMmapResp x => header_fields (mr_hdr x) ++ [U64 (mr_driver_addr x); U64 (mr_len x)]
  | MsgMunmapCmd x => [U64 (mu_driver_addr x)]
  | MsgMunmapResp x => header_fields (mur_hdr x)
  | MsgErrorEvent x => [U32 (eh_event (ee_hdr x)); U32 (eh_session_id (ee_hdr x));
                        I32 (ee_errno x); U32 (ee_padding x)]
  end.

Definition wire_bytes (m : message) : list byte := mjoin (field_bytes <$> message_fields m).

(** [write_obj] and [read_obj] at the type of the message. *)
Definition write_message (m : message) : M Writer IoError unit :=
  match m with
  | MsgCmdHeader x => write_obj x | MsgRespHeader x => write_obj x | MsgOpenCmd x => write_obj x
  | MsgOpenResp x => write_obj x | MsgCloseCmd x => write_obj x | MsgIoctlCmd x => write_obj x
  | MsgSgEntry x => write_obj x | MsgMmapCmd x => write_obj x | MsgMmapResp x => write_obj x
  | MsgMunmapCmd x => write_obj x | MsgMunmapResp x => write_obj x | MsgErrorEvent x => write_obj x
  end.

Definition read_as {T} `{VmediaType T} (msg : T → message) : M Reader IoError message :=
  x ← read_obj; mret (msg x).

Definition read_message (like : message) : M Reader IoError message :=
  match like with
  | MsgCmdHeader _ => read_as MsgCmdHeader | MsgRespHeader _ => read_as MsgRespHeader
  | MsgOpenCmd _ => read_as MsgOpenCmd | MsgOpenResp _ => read_as MsgOpenResp
  | MsgCloseCmd _ => read_as MsgCloseCmd | MsgIoctlCmd _ => read_as MsgIoctlCmd
  | MsgSgEntry _ => read_as MsgSgEntry | MsgMmapCmd _ => read_as MsgMmapCmd
  | MsgMmapResp _ => read_as MsgMmapResp | MsgMunmapCmd _ => read_as MsgMunmapCmd
  | MsgMunmapResp _ => read_as MsgMunmapResp | MsgErrorEvent _ => read_as MsgErrorEvent
  end.

Lemma le_bytes_shiftr n z :
  le_bytes n z = (λ i, byte_of_Z (Z.shiftr z (8 * Z.of_nat i))) <$> seq 0 n.
Proof.
  revert z. induction n as [|n IH]; intros z; [done|]. cbn [le_bytes seq fmap list_fmap].
  f_equal. rewrite IH, <-fmap_S_seq, <-list_fmap_compose.
  apply list_fmap_ext. intros _ i _. cbn [compose]. f_equal.
  rewrite Nat2Z.inj_succ, !Z.shiftr_div_pow2, Z.div_div by lia. f_equal.
  replace (8 * Z.succ (Z.of_nat i)) with (8 + 8 * Z.of_nat i) by lia. by rewrite Z.pow_add_r by lia.
Qed.

Lemma field_bytes_le f :
  field_bytes f = match f with U32 v | I32 v => le_bytes 4 v | U64 v => le_bytes 8 v end.
Proof. destruct f; rewrite le_bytes_shiftr; cbn; by rewrite ?Z.shiftr_0_r. Qed.

(** The codec of a lawful type writes and reads the bytes it encodes to. *)
Lemma object_roundtrip {T} `{VmediaType T} (msg : T → message) (x : T) bs w rest :
  codec_ok (vmedia (T := T)) → c_valid vmedia x → bs = c_enc vmedia x → (length bs ≤ room w)%nat →
  write_obj x w = Ret (mkWriter (written w ++ bs) (room w - length bs), Ok tt) ∧
  read_as msg (bs ++ rest) = Ret (rest, Ok (msg x)).
Proof.
  intros Hok Hx Hbs Hroom. subst bs. split; [by apply write_all_room|].
  unfold read_as. unfold_M. by rewrite read_obj_enc.
Qed.

(** C34: every command, response, scatter-gather entry and error event of the protocol
    whose fields are in range has the wire format of its structure: if it fits in the
    writer, [write_obj] writes its fields in their order, each in little-endian two's
    complement at its width and with nothing in between, and [read_obj] of these
    bytes, whatever follows them, returns the message and consumes exactly them. *)
Theorem messages_have_wire_format (m : message) (w : Writer) (rest : list byte) :
  Forall field_in_range (message_fields m) → (length (wire_bytes m) ≤ room w)%nat →
  write_message m w =
    Ret (mkWriter (written w ++ wire_bytes m) (room w - length (wire_bytes m)), Ok tt) ∧
  read_message m (wire_bytes m ++ rest) = Ret (rest, Ok m).
Proof.
  intros Hr Hroom. destruct m; cbn [write_message read_message];
    (apply object_roundtrip; [exact _||eauto with vmedia| | |exact Hroom]).
  all: try (unfold wire_bytes; cbn [message_fields header_fields app fmap list_fmap mjoin list_join];
    rewrite !field_bytes_le; reflexivity).
  all: unfold message_fields, header_fields in Hr; cbn [app] in Hr; rewrite ?Forall_cons in Hr;
    cbn [field_in_range] in Hr; destruct_and?; cbn -[Z.pow]; change (0x100 ^ Z.of_nat 4) with 0x100000000;
    change (0x100 ^ Z.of_nat 8) with 0x10000000000000000; repeat split; mlia.
Qed.

Lemma messages_have_wire_format_witness :
  let m := MsgMmapResp (MmapResp_ok 0x80001000 0x5000) in
  wire_bytes m = [x00; x00; x00; x00; x00; x00; x00; x00;
                  x00; x10; x00; x80; x00; x00; x00; x00;
                  x00; x50; x00; x00; x00; x00; x00; x00] ∧
  write_message m (mkWriter [] 64) = Ret (mkWriter (wire_bytes m) 40, Ok tt) ∧
  read_message m (wire_bytes m ++ [x01]) = Ret ([x01], Ok m).
Proof.
  split; [vm_compute; reflexivity|].
  apply (messages_have_wire_format (MsgMmapResp (MmapResp_ok 0x80001000 0x5000)) (mkWriter [] 64) [x01]).
  - repeat constructor; cbn; mlia.
  - vm_compute. lia.
Defined.
