(* ===== verification/V4l2r.v ===== *)
(** * The interface of the [v4l2r] crate

    [v4l2r] and the kernel structures it binds are not part of the repository:
    they are parameters of the model.  [V4l2r] collects the types, constants and
    functions the sources use; nothing is assumed of them here.  The laws a
    theorem needs are stated in [V4l2rLaws].

    Only enumerations that the sources match exhaustively are inductive types
    here; the others are abstract, with the variants the sources name. *)

From stdpp Require Export strings.
From S2P Require Import Prelude Bytes.
#[global] Open Scope Z_scope.

(** The bound structures; those up to [v4l2_streamparm] implement [VmediaType]
    ([io/le.rs], lines 55-87). *)
Inductive vname :=
| v4l2_buffer | v4l2_standard | v4l2_input | v4l2_control | v4l2_std_id | v4l2_tuner
| v4l2_audio | v4l2_plane | v4l2_format | v4l2_enc_idx | v4l2_output | v4l2_audioout
| v4l2_modulator | v4l2_frequency | v4l2_frmsizeenum | v4l2_frmivalenum
| v4l2_encoder_cmd | v4l2_decoder_cmd | v4l2_dv_timings | v4l2_event_subscription
| v4l2_create_buffers | v4l2_selection | v4l2_enum_dv_timings | v4l2_dv_timings_cap
| v4l2_frequency_band | v4l2_query_ext_ctrl | v4l2_queryctrl | v4l2_querymenu
| v4l2_ext_control | v4l2_ext_controls | v4l2_fmtdesc | v4l2_requestbuffers
| v4l2_streamparm
| v4l2_event | v4l2_pix_format_mplane | v4l2_frmsize_stepwise.

(** [v4l2r::QueueDirection], matched exhaustively by the sources. *)
Inductive QueueDirection := Output | Capture.
#[global] Instance QueueDirection_eq_dec : EqDecision QueueDirection.
Proof. solve_decision. Defined.

(** [v4l2r::ioctl::DecoderCmd], matched exhaustively by the sources, which
    ignore the parameters of the first three commands. *)
Inductive DecoderCmd := CmdStop | CmdStart | CmdPause | CmdResume.

(** [bindings::v4l2_rect] and [v4l2r::Rect], built and read field by field. *)
Record v4l2_rect := mkRect { left : Z; top : Z; width : Z; height : Z }.

(** [bindings::timeval] *)
Record timeval := mkTimeval { tv_sec : Z; tv_usec : Z }.

(** A plane of a [V4l2Buffer], as its iterators show it. *)
Record Plane := mkPlane {
  p_length : Z;
  p_bytesused : Z;
  p_data_offset : option Z;
  (** [mem_offset()] of a MMAP plane, [userptr()] of a USERPTR plane. *)
  p_backing : Z;
}.

(** [V4l2PlanesWithBacking], with the variants the sources name. *)
Inductive PlanesWithBacking :=
| BMmap (planes : list Plane)
| BUserPtr (planes : list Plane)
| BOther.

Class V4l2r := {
  (** *** Structures, with their integer fields by path *)
  vstruct : vname → Type;
  vstruct_codec : ∀ s, codec (vstruct s);
  (** [Default::default()], all zeroes *)
  vzero : ∀ s, vstruct s;
  fld : ∀ {s}, vstruct s → string → Z;
  set_fld : ∀ {s}, string → Z → vstruct s → vstruct s;
  (** A field that is an array of bytes. *)
  set_str : ∀ {s}, string → string → vstruct s → vstruct s;
  create_buffers_format : vstruct v4l2_create_buffers → vstruct v4l2_format;
  selection_r : vstruct v4l2_selection → v4l2_rect;
  selection_set_r : v4l2_rect → vstruct v4l2_selection → vstruct v4l2_selection;
  enum_dv_timings_set : vstruct v4l2_dv_timings →
    vstruct v4l2_enum_dv_timings → vstruct v4l2_enum_dv_timings;
  frmsizeenum_set_stepwise : vstruct v4l2_frmsize_stepwise →
    vstruct v4l2_frmsizeenum → vstruct v4l2_frmsizeenum;
  format_pix_mp : vstruct v4l2_format → vstruct v4l2_pix_format_mplane;
  (** A constant of the bindings, or the bits of a named flag. *)
  vconst : string → Z;
  (** [PixelFormat::from_fourcc(..).to_u32()] *)
  fourcc_u32 : string → Z;
  VIDEO_MAX_PLANES : nat;

  (** *** Validated enumerations and flags, with [n], [from_bits], [try_from] *)
  QueueType : Type;
  QueueType_eq_dec :: EqDecision QueueType;
  QueueType_n : Z → option QueueType;
  QueueType_u32 : QueueType → Z;
  VideoCapture : QueueType;
  VideoOutput : QueueType;
  VideoCaptureMplane : QueueType;
  VideoOutputMplane : QueueType;
  direction : QueueType → QueueDirection;
  is_multiplanar : QueueType → bool;
  (** [QueueType::from_dir_and_class(direction, QueueClass::VideoMplane)] *)
  mplane_queue : QueueDirection → QueueType;
  (** [queue.class() == QueueClass::VideoMplane] *)
  is_video_mplane : QueueType → bool;
  MemoryType : Type;
  MemoryType_eq_dec :: EqDecision MemoryType;
  MemoryType_n : Z → option MemoryType;
  MemoryType_u32 : MemoryType → Z;
  Mmap : MemoryType;
  UserPtr : MemoryType;
  MemoryConsistency : Type;
  MemoryConsistency_from_bits : Z → option MemoryConsistency;
  MemoryConsistency_bits : MemoryConsistency → Z;
  TunerMode : Type;
  TunerMode_n : Z → option TunerMode;
  AudioMode : Type;
  AudioMode_n : Z → option AudioMode;
  TunerTransmissionFlags : Type;
  TunerTransmissionFlags_from_bits : Z → option TunerTransmissionFlags;
  TunerType : Type;
  TunerType_n : Z → option TunerType;
  CtrlId : Type;
  QueryCtrlFlags : Type;
  parse_ctrl_id_and_flags : Z → CtrlId * QueryCtrlFlags;
  CtrlWhich : Type;
  CtrlWhich_try_from : vstruct v4l2_ext_controls → option CtrlWhich;
  SelectionType : Type;
  SelectionType_eq_dec :: EqDecision SelectionType;
  SelectionType_n : Z → option SelectionType;
  SelCapture : SelectionType;
  SelectionTarget : Type;
  SelectionTarget_eq_dec :: EqDecision SelectionTarget;
  SelectionTarget_n : Z → option SelectionTarget;
  TgtCropBounds : SelectionTarget;
  TgtCrop : SelectionTarget;
  TgtCropDefault : SelectionTarget;
  TgtComposeDefault : SelectionTarget;
  TgtComposeBounds : SelectionTarget;
  TgtCompose : SelectionTarget;
  SelectionFlags : Type;
  SelectionFlags_from_bits : Z → option SelectionFlags;
  EventType : Type;
  EventType_eq_dec :: EqDecision EventType;
  EventType_try_from : vstruct v4l2_event_subscription → option EventType;
  SourceChange : Z → EventType;
  Eos : EventType;
  SubscribeEventFlags : Type;
  SubscribeEventFlags_from_bits : Z → option SubscribeEventFlags;
  (** [flags.contains(SubscribeEventFlags::SEND_INITIAL)] *)
  contains_SEND_INITIAL : SubscribeEventFlags → bool;
  DecoderCmd_try_from : vstruct v4l2_decoder_cmd → option DecoderCmd;
  DecoderCmd_into : DecoderCmd → vstruct v4l2_decoder_cmd;

  (** *** [V4l2MplaneFormat] *)
  Colorspace : Type;
  Colorspace_n : Z → option Colorspace;
  Colorspace_u32 : Colorspace → Z;
  Rec709 : Colorspace;
  XferFunc : Type;
  XferFunc_n : Z → option XferFunc;
  XferFunc_u32 : XferFunc → Z;
  XferNone : XferFunc;
  YCbCrEncoding : Type;
  YCbCrEncoding_n : Z → option YCbCrEncoding;
  YCbCrEncoding_u32 : YCbCrEncoding → Z;
  E709 : YCbCrEncoding;
  Quantization : Type;
  Quantization_n : Z → option Quantization;
  Quantization_u32 : Quantization → Z;
  LimRange : Quantization;
  V4l2MplaneFormat : Type;
  mp_from : QueueDirection → vstruct v4l2_pix_format_mplane → V4l2MplaneFormat;
  mp_pix : V4l2MplaneFormat → vstruct v4l2_pix_format_mplane;
  mp_format : V4l2MplaneFormat → vstruct v4l2_format;
  mp_size : V4l2MplaneFormat → Z * Z;
  (** [sizeimage] of each of [planes()] *)
  mp_sizeimages : V4l2MplaneFormat → list Z;
  mp_colorspace : V4l2MplaneFormat → Colorspace;
  mp_xfer_func : V4l2MplaneFormat → XferFunc;
  mp_ycbcr_enc : V4l2MplaneFormat → YCbCrEncoding;
  mp_quantization : V4l2MplaneFormat → Quantization;

  (** *** [V4l2Buffer] *)
  V4l2Buffer : Type;
  buf_new : QueueType → Z → MemoryType → V4l2Buffer;
  (** [V4l2Buffer::try_from(UncheckedV4l2Buffer(buffer, planes))] *)
  buf_try_from : vstruct v4l2_buffer → option (list (vstruct v4l2_plane)) → option V4l2Buffer;
  buf_as_v4l2_buffer : V4l2Buffer → vstruct v4l2_buffer;
  buf_as_v4l2_planes : V4l2Buffer → list (vstruct v4l2_plane);
  buf_num_planes : V4l2Buffer → nat;
  buf_queue : V4l2Buffer → QueueType;
  buf_index : V4l2Buffer → Z;
  buf_memory : V4l2Buffer → MemoryType;
  buf_timestamp : V4l2Buffer → timeval;
  buf_set_timestamp : timeval → V4l2Buffer → V4l2Buffer;
  buf_sequence : V4l2Buffer → Z;
  buf_set_sequence : Z → V4l2Buffer → V4l2Buffer;
  (** [set_field(BufferField::None)] *)
  buf_set_field_none : V4l2Buffer → V4l2Buffer;
  (** [planes_with_backing_iter], and the effect of writing the planes back
      through [planes_with_backing_iter_mut]. *)
  buf_planes : V4l2Buffer → PlanesWithBacking;
  buf_set_planes : list Plane → V4l2Buffer → V4l2Buffer;
  (** [get_first_plane], and the effect of writing through [get_first_plane_mut]. *)
  buf_first_plane : V4l2Buffer → Plane;
  buf_set_first_plane : Plane → V4l2Buffer → V4l2Buffer;
  (** [BufferFlags], as bits. *)
  buf_flags : V4l2Buffer → Z;
  buf_set_flags : Z → V4l2Buffer → V4l2Buffer;
  buf_add_flags : Z → V4l2Buffer → V4l2Buffer;
  buf_clear_flags : Z → V4l2Buffer → V4l2Buffer;
  FLAG_QUEUED : Z;
  FLAG_LAST : Z;
  FLAG_ERROR : Z;
  FLAG_TIMESTAMP_MONOTONIC : Z;
  FLAG_TIMESTAMP_COPY : Z;
}.

(** A structure literal: the given fields, the others zero. *)
Definition vmk `{V4l2r} (s : vname) (fields : list (string * Z)) : vstruct s :=
  foldr (λ f x, set_fld f.1 f.2 x) (vzero s) fields.

(** [V4l2Buffer::new] gives a buffer one plane. *)
Class OnePlane `{V4l2r} : Prop :=
  new_one_plane : ∀ queue i ps, buf_planes (buf_new queue i Mmap) = BMmap ps → length ps = 1%nat.

(** *** Laws of the interface

    Integer fields hold values of their types, and the accessors of a
    [V4l2Buffer] are independent: a setter changes what its getter returns and
    nothing else. *)
Class V4l2rLaws `{V4l2r} := {
  userptr_length_u32 : ∀ b planes, buf_planes b = BUserPtr planes →
    Forall (λ p, is_u32 (p_length p)) planes;
  ext_control_size_u32 : ∀ c : vstruct v4l2_ext_control, is_u32 (fld c "size");
  ext_controls_count_u32 : ∀ c : vstruct v4l2_ext_controls, is_u32 (fld c "count");
  reqbufs_count_u32 : ∀ r : vstruct v4l2_requestbuffers, is_u32 (fld r "count");
  sizeimages_u32 : ∀ f, Forall is_u32 (mp_sizeimages f);
  direction_output_mplane : direction VideoOutputMplane = Output;
  direction_capture_mplane : direction VideoCaptureMplane = Capture;
  compose_not_bounds : TgtCompose ≠ TgtCropBounds;
  (** A new MMAP buffer has its index, its queue and at least one plane. *)
  new_index : ∀ q i m, buf_index (buf_new q i m) = i;
  new_queue : ∀ q i m, buf_queue (buf_new q i m) = q;
  new_planes : ∀ q i, ∃ p ps, buf_planes (buf_new q i Mmap) = BMmap (p :: ps);
  (** Planes *)
  planes_set_planes : ∀ b ps ps', buf_planes b = BMmap ps →
    buf_planes (buf_set_planes ps' b) = BMmap ps';
  first_plane_mmap : ∀ b p ps, buf_planes b = BMmap (p :: ps) → buf_first_plane b = p;
  planes_set_first : ∀ b p p' ps, buf_planes b = BMmap (p :: ps) →
    buf_planes (buf_set_first_plane p' b) = BMmap (p' :: ps);
  planes_set_flags : ∀ f b, buf_planes (buf_set_flags f b) = buf_planes b;
  planes_add_flags : ∀ f b, buf_planes (buf_add_flags f b) = buf_planes b;
  planes_clear_flags : ∀ f b, buf_planes (buf_clear_flags f b) = buf_planes b;
  planes_set_sequence : ∀ n b, buf_planes (buf_set_sequence n b) = buf_planes b;
  planes_set_timestamp : ∀ t b, buf_planes (buf_set_timestamp t b) = buf_planes b;
  planes_set_field : ∀ b, buf_planes (buf_set_field_none b) = buf_planes b;
  (** Flags *)
  flags_set_flags : ∀ f b, buf_flags (buf_set_flags f b) = f;
  flags_set_first : ∀ p b, buf_flags (buf_set_first_plane p b) = buf_flags b;
  flags_set_sequence : ∀ n b, buf_flags (buf_set_sequence n b) = buf_flags b;
  flags_set_timestamp : ∀ t b, buf_flags (buf_set_timestamp t b) = buf_flags b;
  monotonic_not_queued : Z.land FLAG_TIMESTAMP_MONOTONIC FLAG_QUEUED = 0;
  (** Sequence *)
  sequence_set_sequence : ∀ n b, buf_sequence (buf_set_sequence n b) = n;
  sequence_set_flags : ∀ f b, buf_sequence (buf_set_flags f b) = buf_sequence b;
  sequence_set_timestamp : ∀ t b, buf_sequence (buf_set_timestamp t b) = buf_sequence b;
  sequence_set_first : ∀ p b, buf_sequence (buf_set_first_plane p b) = buf_sequence b;
  (** Timestamp *)
  timestamp_set_timestamp : ∀ t b, buf_timestamp (buf_set_timestamp t b) = t;
  timestamp_set_first : ∀ p b, buf_timestamp (buf_set_first_plane p b) = buf_timestamp b;
  (** Index *)
  index_set_planes : ∀ ps b, buf_index (buf_set_planes ps b) = buf_index b;
  index_set_first : ∀ p b, buf_index (buf_set_first_plane p b) = buf_index b;
  index_set_flags : ∀ f b, buf_index (buf_set_flags f b) = buf_index b;
  index_add_flags : ∀ f b, buf_index (buf_add_flags f b) = buf_index b;
  index_clear_flags : ∀ f b, buf_index (buf_clear_flags f b) = buf_index b;
  index_set_sequence : ∀ n b, buf_index (buf_set_sequence n b) = buf_index b;
  index_set_timestamp : ∀ t b, buf_index (buf_set_timestamp t b) = buf_index b;
  index_set_field : ∀ b, buf_index (buf_set_field_none b) = buf_index b;
  (** Queue *)
  queue_set_planes : ∀ ps b, buf_queue (buf_set_planes ps b) = buf_queue b;
  queue_set_first : ∀ p b, buf_queue (buf_set_first_plane p b) = buf_queue b;
  queue_set_flags : ∀ f b, buf_queue (buf_set_flags f b) = buf_queue b;
  queue_add_flags : ∀ f b, buf_queue (buf_add_flags f b) = buf_queue b;
  queue_clear_flags : ∀ f b, buf_queue (buf_clear_flags f b) = buf_queue b;
  queue_set_sequence : ∀ n b, buf_queue (buf_set_sequence n b) = buf_queue b;
  queue_set_timestamp : ∀ t b, buf_queue (buf_set_timestamp t b) = buf_queue b;
  queue_set_field : ∀ b, buf_queue (buf_set_field_none b) = buf_queue b;
  (** USERPTR planes whose pointers are rewritten *)
  planes_set_userptrs : ∀ b ps ps', buf_planes b = BUserPtr ps →
    p_length <$> ps' = p_length <$> ps → buf_planes (buf_set_planes ps' b) = BUserPtr ps';
  set_planes_set_planes : ∀ ps ps' b,
    buf_set_planes ps (buf_set_planes ps' b) = buf_set_planes ps b;
  capabilities_count : ∀ (r : vstruct v4l2_requestbuffers) v,
    fld (set_fld "capabilities" v r) "count" = fld r "count";
  (** A field copied from a structure has the same value in the other. *)
  fld_copy : ∀ s (x y : vstruct s) name, fld (set_fld name (fld y name) x) name = fld y name;
}.

Create Rewrite HintDb v4l2r.
#[export] Hint Rewrite @new_index @planes_set_flags @planes_add_flags @planes_clear_flags
  @planes_set_sequence @planes_set_timestamp @planes_set_field @flags_set_flags @flags_set_first
  @flags_set_sequence @flags_set_timestamp @sequence_set_first @timestamp_set_timestamp
  @timestamp_set_first
  @sequence_set_sequence @sequence_set_flags @sequence_set_timestamp @index_set_planes
  @index_set_first @index_set_flags @index_add_flags @index_clear_flags @index_set_sequence
  @index_set_timestamp @index_set_field @new_queue @queue_set_planes @queue_set_first
  @queue_set_flags @queue_add_flags @queue_clear_flags @queue_set_sequence @queue_set_timestamp
  @queue_set_field @set_planes_set_planes @fld_copy
  using apply _ : v4l2r.

(** ** A sample instance

    A small implementation of the interface, on which the witnesses evaluate:
    structures are four [u32]s, and the paths of their fields select one. *)
Module Sample.

Definition st : Type := (Z * Z) * (Z * Z).
Definition c_st : codec st := c_pair (c_pair c_u32 c_u32) (c_pair c_u32 c_u32).

Lemma c_st_ok : codec_ok c_st.
Proof. repeat apply c_pair_ok; apply c_uint_ok. Qed.

(** The word of a field. *)
Definition slot (name : string) : nat :=
  if bool_decide (name ∈ ["type_"; "which"; "id"; "sizeimage"; "plane_fmt[0].sizeimage"]) then 0
  else if bool_decide (name ∈ ["length"; "count"; "size"; "width"]) then 1
  else if bool_decide (name ∈ ["index"; "pixelformat"; "flags"; "m.planes"; "controls"]) then 2
  else 3.

Definition get (x : st) (name : string) : Z :=
  as_u32 match slot name with
         | 0 => x.1.1 | 1 => x.1.2 | 2 => x.2.1 | _ => x.2.2
         end%nat.

Definition set (name : string) (v : Z) (x : st) : st :=
  let '((a, b), (c, d)) := x in
  match slot name with
  | 0 => ((v, b), (c, d)) | 1 => ((a, v), (c, d))
  | 2 => ((a, b), (v, d)) | _ => ((a, b), (c, v))
  end%nat.

Record buf := mkBuf {
  queue : Z; index : Z; memory : Z; sequence : Z; timestamp : timeval; flags : Z;
  planes : list Plane }.

Definition clamp (p : Plane) : Plane :=
  mkPlane (as_u32 (p_length p)) (p_bytesused p) (p_data_offset p) (p_backing p).

Definition planes_of (b : buf) : PlanesWithBacking :=
  if memory b =? 1 then BMmap (planes b)
  else if memory b =? 2 then BUserPtr (map clamp (planes b)) else BOther.

Definition plane0 : Plane := mkPlane 0 0 None 0.

Definition set_first (p : Plane) (l : list Plane) : list Plane :=
  match l with [] => [] | _ :: l' => p :: l' end.

(** Queue types 1, 2 (single-planar) and 9, 10 (multi-planar), as in V4L2. *)
Definition enum (valid : list Z) (z : Z) : option Z :=
  if bool_decide (z ∈ valid) then Some z else None.

Fixpoint little_endian (s : string) : Z :=
  match s with
  | EmptyString => 0
  | String c s' => Z.of_N (Ascii.N_of_ascii c) + 256 * little_endian s'
  end.

#[export] Instance sample_v4l2r : V4l2r := {|
  vstruct _ := st; vstruct_codec _ := c_st; vzero _ := ((0, 0), (0, 0));
  fld _ := get; set_fld _ := set; set_str _ _ _ x := x;
  create_buffers_format x := x; selection_r _ := mkRect 0 0 0 0; selection_set_r _ x := x;
  enum_dv_timings_set _ x := x; frmsizeenum_set_stepwise _ x := x; format_pix_mp x := x;
  vconst _ := 1; fourcc_u32 := little_endian; VIDEO_MAX_PLANES := 8%nat;
  QueueType := Z; QueueType_n := enum [1; 2; 9; 10]; QueueType_u32 z := z;
  VideoCapture := 1; VideoOutput := 2; VideoCaptureMplane := 9; VideoOutputMplane := 10;
  direction z := if bool_decide (z ∈ [2; 10]) then Output else Capture;
  mplane_queue d := match d with Output => 10 | Capture => 9 end;
  is_multiplanar z := 8 <? z; is_video_mplane z := 8 <? z;
  MemoryType := Z; MemoryType_n := enum [1; 2; 4]; MemoryType_u32 z := z; Mmap := 1; UserPtr := 2;
  MemoryConsistency := Z; MemoryConsistency_from_bits := enum [0; 1]; MemoryConsistency_bits z := z;
  TunerMode := Z; TunerMode_n := enum [0]; AudioMode := Z; AudioMode_n := enum [0];
  TunerTransmissionFlags := Z; TunerTransmissionFlags_from_bits := enum [0];
  TunerType := Z; TunerType_n := enum [1]; CtrlId := Z; QueryCtrlFlags := Z;
  parse_ctrl_id_and_flags z := (z, 0); CtrlWhich := Z;
  CtrlWhich_try_from x := Some (get x "which");
  SelectionType := Z; SelectionType_n := enum [1]; SelCapture := 1;
  SelectionTarget := Z; SelectionTarget_n := enum [0; 1; 2; 256; 257; 258];
  TgtCrop := 0; TgtCropDefault := 1; TgtCropBounds := 2;
  TgtCompose := 256; TgtComposeDefault := 257; TgtComposeBounds := 258;
  SelectionFlags := Z; SelectionFlags_from_bits := enum [0];
  EventType := Z; EventType_try_from x := enum [2; 5] (get x "type_");
  SourceChange z := 5 + z; Eos := 2;
  SubscribeEventFlags := Z; SubscribeEventFlags_from_bits := enum [0; 1];
  contains_SEND_INITIAL z := z =? 1;
  DecoderCmd_try_from x := Some (if get x "id" =? 0 then CmdStart else CmdStop);
  DecoderCmd_into _ := ((0, 0), (0, 0));
  Colorspace := Z; Colorspace_n := enum [3]; Colorspace_u32 z := z; Rec709 := 3;
  XferFunc := Z; XferFunc_n := enum [5]; XferFunc_u32 z := z; XferNone := 5;
  YCbCrEncoding := Z; YCbCrEncoding_n := enum [2]; YCbCrEncoding_u32 z := z; E709 := 2;
  Quantization := Z; Quantization_n := enum [2]; Quantization_u32 z := z; LimRange := 2;
  V4l2MplaneFormat := st; mp_from _ x := x; mp_pix x := x; mp_format x := x;
  mp_size x := (get x "width", get x "height"); mp_sizeimages x := [get x "sizeimage"];
  mp_colorspace _ := 3; mp_xfer_func _ := 5; mp_ycbcr_enc _ := 2; mp_quantization _ := 2;
  V4l2Buffer := buf;
  buf_new q i m := mkBuf q i m 0 (mkTimeval 0 0) 0 [plane0];
  buf_try_from x ps := Some (mkBuf (get x "type_") (get x "index") (get x "memory") 0
    (mkTimeval 0 0) 0
    match ps with
    | Some ps => map (λ p, mkPlane (get p "length") 0 None 0) (take (Z.to_nat (get x "length")) ps)
    | None => [mkPlane (get x "length") 0 None 0]
    end);
  buf_as_v4l2_buffer b := ((queue b, Z.of_nat (length (planes b))), (index b, memory b));
  buf_as_v4l2_planes b :=
    if 8 <? queue b then map (λ p, ((0, p_length p), (p_bytesused p, p_backing p))) (planes b)
    else [];
  buf_num_planes b := length (planes b);
  buf_queue := queue; buf_index := index; buf_memory := memory;
  buf_timestamp := timestamp;
  buf_set_timestamp t b :=
    mkBuf (queue b) (index b) (memory b) (sequence b) t (flags b) (planes b);
  buf_sequence := sequence;
  buf_set_sequence n b :=
    mkBuf (queue b) (index b) (memory b) n (timestamp b) (flags b) (planes b);
  buf_set_field_none b := b;
  buf_planes := planes_of;
  buf_set_planes ps b :=
    mkBuf (queue b) (index b) (memory b) (sequence b) (timestamp b) (flags b) ps;
  buf_first_plane b := default plane0 (head (planes b));
  buf_set_first_plane p b :=
    mkBuf (queue b) (index b) (memory b) (sequence b) (timestamp b) (flags b)
      (set_first p (planes b));
  buf_flags := flags;
  buf_set_flags f b :=
    mkBuf (queue b) (index b) (memory b) (sequence b) (timestamp b) f (planes b);
  buf_add_flags f b :=
    mkBuf (queue b) (index b) (memory b) (sequence b) (timestamp b) (Z.lor (flags b) f) (planes b);
  buf_clear_flags f b :=
    mkBuf (queue b) (index b) (memory b) (sequence b) (timestamp b) (Z.ldiff (flags b) f)
      (planes b);
  FLAG_QUEUED := 2; FLAG_ERROR := 0x40; FLAG_LAST := 0x100000;
  FLAG_TIMESTAMP_MONOTONIC := 0x2000; FLAG_TIMESTAMP_COPY := 0x4000;
|}.

Lemma planes_of_mmap b ps : planes_of b = BMmap ps → memory b = 1 ∧ planes b = ps.
Proof.
  unfold planes_of. destruct (Z.eqb_spec (memory b) 1), (Z.eqb_spec (memory b) 2); naive_solver.
Qed.

Lemma clamp_clamped ps : Forall (λ p, ∃ n, p_length p = as_u32 n) ps → map clamp ps = ps.
Proof.
  induction 1 as [|p ps [n Hn] _ IH]; [done|]. simpl. rewrite IH. f_equal.
  destruct p as [len used off bk]. unfold clamp. cbn in *. subst len.
  by rewrite (as_u32_id (as_u32 n)) by apply as_u32_range.
Qed.

#[export] Instance sample_laws : V4l2rLaws.
Proof.
  split; try done.
  - intros b ps. cbn. unfold planes_of. destruct (memory b =? 1); [done|].
    destruct (memory b =? 2); [|done]. intros [= <-]. apply Forall_forall.
    intros p (p0&->&_)%list_elem_of_fmap. apply as_u32_range.
  - intros c. apply as_u32_range.
  - intros c. apply as_u32_range.
  - intros c. apply as_u32_range.
  - intros f. constructor; [apply as_u32_range|constructor].
  - intros q i. by exists plane0, [].
  - intros b ps ps' [Hm _]%planes_of_mmap. cbn. unfold planes_of. cbn. by rewrite Hm.
  - intros b p ps [_ Hp]%planes_of_mmap. cbn. by rewrite Hp.
  - intros b p p' ps [Hm Hp]%planes_of_mmap. cbn. unfold planes_of. cbn. by rewrite Hm, Hp.
  - intros b ps ps'. cbn. unfold planes_of. cbn. destruct (memory b =? 1); [done|].
    destruct (memory b =? 2); [|done]. intros [= <-] Hl. f_equal. apply clamp_clamped.
    rewrite <-list_fmap_compose in Hl. revert Hl. generalize (planes b) as qs.
    induction ps' as [|p ps' IH]; intros [|q qs]; intros [=]; constructor; [|by eapply IH].
    by exists (p_length q).
  - by intros [[x1 x2] [x3 x4]] v.
  - intros s [[x1 x2] [x3 x4]] [[y1 y2] [y3 y4]] name. cbn. unfold get, set.
    destruct (slot name) as [|[|[|]]]; cbn; apply as_u32_id, as_u32_range.
Qed.
End Sample.
