(* ===== verification/Ioctl.v ===== *)
(** * The ioctl dispatcher ([device/src/ioctl.rs])

    [Call.ioctl_call] is the signature of the trait [VirtioMediaIoctlHandler]:
    one constructor per method, with the method's arguments, the way it borrows
    the handler and the session, its error type and its return type.  A handler
    gives a body to each of them; a method it does not override is
    [unhandled_ioctl].  [virtio_media_dispatch_ioctl] reads and validates the
    input of an ioctl, calls the method and writes the response. *)

From Stdlib Require Import Strings.Byte.
From S2P Require Import Prelude Bytes Protocol Io V4l2r.
#[local] Open Scope Z_scope.

#[global] Instance vm_vstruct `{V4l2r} (s : vname) : VmediaType (vstruct s) := vstruct_codec s.

(** ** Reading inputs *)

(** The loop of [get_userptr_regions]; [fuel] bounds its iterations, and running
    out of it is a panic, which never happens (lemmas below). *)
Fixpoint get_userptr_regions_loop `{BuildMode} (fuel : nat) (size bytes_taken : Z)
    (res : list SgEntry) : M Reader IoError (list SgEntry) :=
  if bytes_taken <? size then
    match fuel with
    | O => panic
    | S fuel' =>
        sg_entry ← read_obj (T := SgEntry);
        bytes_taken' ← lift_outcome (u64_add bytes_taken (sg_len sg_entry));
        get_userptr_regions_loop fuel' size bytes_taken' (res ++ [sg_entry])
    end
  else mret res.

(** Every iteration consumes bytes of the reader, or fails. *)
Definition get_userptr_regions `{BuildMode} (size : Z) : M Reader IoError (list SgEntry) :=
  λ r, get_userptr_regions_loop (S (length r)) size 0 [] r.

(** [trait FromDescriptorChain] *)
Class FromDescriptorChain (I : Type) := read_from_chain : M Reader IoError I.

#[global] Instance from_vmedia {T} `{VmediaType T} : FromDescriptorChain T := read_obj.

(** [impl FromDescriptorChain for (V4l2Buffer, Vec<Vec<SgEntry>>)] *)
Definition read_buffer_from_chain `{BuildMode} `{V4l2r} :
    M Reader IoError (V4l2Buffer * list (list SgEntry)) :=
  buffer ← read_obj (T := vstruct v4l2_buffer);
  queue ← ok_or (QueueType_n (fld buffer "type_")) InvalidData;
  v4l2_planes ←
    (if is_multiplanar queue && (0 <? fld buffer "length") then
       guard_err (Z.of_nat VIDEO_MAX_PLANES <? fld buffer "length") InvalidData ;;
       planes ← mapM_m (λ _, read_obj (T := vstruct v4l2_plane)) (seqZ 0 (fld buffer "length"));
       mret (Some (take VIDEO_MAX_PLANES (planes ++ replicate VIDEO_MAX_PLANES (vzero v4l2_plane))))
     else mret None);
  buffer ← ok_or (buf_try_from buffer v4l2_planes) InvalidData;
  guest_regions ←
    match buf_planes buffer with
    | BUserPtr planes =>
        mapM_m (λ p, map_err (λ _, InvalidData) (get_userptr_regions (p_length p)))
          (filter (λ p, 0 < p_length p) planes)
    | _ => mret []
    end;
  mret (buffer, guest_regions).
#[global] Instance from_buffer `{BuildMode} `{V4l2r} :
  FromDescriptorChain (V4l2Buffer * list (list SgEntry)) := read_buffer_from_chain.

(** [impl FromDescriptorChain for (v4l2_ext_controls, Vec<v4l2_ext_control>, Vec<Vec<SgEntry>>)] *)
Definition read_ext_controls_from_chain `{BuildMode} `{V4l2r} :
    M Reader IoError (vstruct v4l2_ext_controls * list (vstruct v4l2_ext_control) *
                      list (list SgEntry)) :=
  ctrls ← read_obj (T := vstruct v4l2_ext_controls);
  ctrl_array ← mapM_m (λ _, read_obj (T := vstruct v4l2_ext_control)) (seqZ 0 (fld ctrls "count"));
  mem_regions ←
    mapM_m (λ ctrl, map_err (λ _, InvalidData) (get_userptr_regions (fld ctrl "size")))
      (filter (λ ctrl, 0 < fld ctrl "size") ctrl_array);
  mret (ctrls, ctrl_array, mem_regions).
#[global] Instance from_ext_controls `{BuildMode} `{V4l2r} :
  FromDescriptorChain (vstruct v4l2_ext_controls * list (vstruct v4l2_ext_control) *
                       list (list SgEntry)) := read_ext_controls_from_chain.

(** ** Writing outputs *)

(** [trait ToDescriptorChain] *)
Class ToDescriptorChain (O : Type) := write_to_chain : O → M Writer IoError unit.

#[global] Instance to_vmedia {T} `{VmediaType T} : ToDescriptorChain T := write_obj.

(** [impl ToDescriptorChain for (V4l2Buffer, usize)] *)
Definition write_buffer_to_chain `{V4l2r} (self : V4l2Buffer * Z) : M Writer IoError unit :=
  let buffer := buf_as_v4l2_buffer self.1 in
  let buffer := if is_multiplanar (buf_queue self.1) then set_fld "m.planes" 0 buffer else buffer in
  write_obj buffer ;;
  forM_ write_obj (take (Z.to_nat self.2) (buf_as_v4l2_planes self.1)).
#[global] Instance to_buffer `{V4l2r} : ToDescriptorChain (V4l2Buffer * Z) :=
  write_buffer_to_chain.

(** [impl ToDescriptorChain for (v4l2_ext_controls, Vec<v4l2_ext_control>)] *)
Definition write_ext_controls_to_chain `{V4l2r}
    (self : vstruct v4l2_ext_controls * list (vstruct v4l2_ext_control)) :
    M Writer IoError unit :=
  let '(ctrls, ctrl_array) := self in
  write_obj (set_fld "controls" 0 ctrls) ;;
  forM_ write_obj ctrl_array.
#[global] Instance to_ext_controls `{V4l2r} :
  ToDescriptorChain (vstruct v4l2_ext_controls * list (vstruct v4l2_ext_control)) :=
  write_ext_controls_to_chain.

(** ** [VirtioMediaIoctlHandler] *)

(** How a method borrows the handler and the session: [(&mut self, &mut Session)],
    [(&mut self, &Session)] or [(&self, &Session)]. *)
Inductive access := ByMut | ByRef | Const.

Module Call.
Section Signature.
Context `{V4l2r}.

(** The arguments that the ext control ioctls modify in place. *)
Definition ext_args : Type := vstruct v4l2_ext_controls * list (vstruct v4l2_ext_control).

(** [ioctl_call a E T]: a call to a method that borrows as [a] says and returns
    [Result<T, E>].  The ext control methods return their in-place arguments
    with either result. *)
Inductive ioctl_call : access → Type → Type → Type :=
| enum_fmt (queue : QueueType) (index : Z) : ioctl_call ByRef Z (vstruct v4l2_fmtdesc)
| g_fmt (queue : QueueType) : ioctl_call ByRef Z (vstruct v4l2_format)
| s_fmt (queue : QueueType) (format : vstruct v4l2_format) :
    ioctl_call ByMut Z (vstruct v4l2_format)
| reqbufs (queue : QueueType) (memory : MemoryType) (count : Z) (flags : MemoryConsistency) :
    ioctl_call ByMut Z (vstruct v4l2_requestbuffers)
| querybuf (queue : QueueType) (index : Z) : ioctl_call ByRef Z V4l2Buffer
| qbuf (buffer : V4l2Buffer) (guest_regions : list (list SgEntry)) :
    ioctl_call ByMut Z V4l2Buffer
| streamon (queue : QueueType) : ioctl_call ByMut Z unit
| streamoff (queue : QueueType) : ioctl_call ByMut Z unit
| g_parm (queue : QueueType) : ioctl_call ByRef Z (vstruct v4l2_streamparm)
| s_parm (parm : vstruct v4l2_streamparm) : ioctl_call ByMut Z (vstruct v4l2_streamparm)
| g_std : ioctl_call ByRef Z (vstruct v4l2_std_id)
| s_std (std : vstruct v4l2_std_id) : ioctl_call ByMut Z unit
| enumstd (index : Z) : ioctl_call ByRef Z (vstruct v4l2_standard)
| enuminput (index : Z) : ioctl_call ByRef Z (vstruct v4l2_input)
| g_ctrl (id : Z) : ioctl_call ByRef Z (vstruct v4l2_control)
| s_ctrl (id value : Z) : ioctl_call ByMut Z (vstruct v4l2_control)
| g_tuner (index : Z) : ioctl_call ByRef Z (vstruct v4l2_tuner)
| s_tuner (index : Z) (mode : TunerMode) : ioctl_call ByMut Z unit
| g_audio : ioctl_call ByRef Z (vstruct v4l2_audio)
| s_audio (index : Z) (mode : option AudioMode) : ioctl_call ByMut Z unit
| queryctrl (id : CtrlId) (flags : QueryCtrlFlags) : ioctl_call ByRef Z (vstruct v4l2_queryctrl)
| querymenu (id index : Z) : ioctl_call ByRef Z (vstruct v4l2_querymenu)
| g_input : ioctl_call ByRef Z i32
| s_input (input : i32) : ioctl_call ByMut Z i32
| g_output : ioctl_call ByRef Z i32
| s_output (output : i32) : ioctl_call ByMut Z i32
| enumoutput (index : Z) : ioctl_call ByRef Z (vstruct v4l2_output)
| g_audout : ioctl_call ByRef Z (vstruct v4l2_audioout)
| s_audout (index : Z) : ioctl_call ByMut Z unit
| g_modulator (index : Z) : ioctl_call ByRef Z (vstruct v4l2_modulator)
| s_modulator (index : Z) (flags : TunerTransmissionFlags) : ioctl_call ByMut Z unit
| g_frequency (tuner : Z) : ioctl_call ByRef Z (vstruct v4l2_frequency)
| s_frequency (tuner : Z) (type_ : TunerType) (frequency : Z) : ioctl_call ByMut Z unit
| querystd : ioctl_call ByRef Z (vstruct v4l2_std_id)
| try_fmt (queue : QueueType) (format : vstruct v4l2_format) :
    ioctl_call ByRef Z (vstruct v4l2_format)
| enumaudio (index : Z) : ioctl_call ByRef Z (vstruct v4l2_audio)
| enumaudout (index : Z) : ioctl_call ByRef Z (vstruct v4l2_audioout)
| g_ext_ctrls (which : CtrlWhich) (args : ext_args) (user_regions : list (list SgEntry)) :
    ioctl_call ByRef (Z * ext_args) ext_args
| s_ext_ctrls (which : CtrlWhich) (args : ext_args) (user_regions : list (list SgEntry)) :
    ioctl_call ByMut (Z * ext_args) ext_args
| try_ext_ctrls (which : CtrlWhich) (args : ext_args) (user_regions : list (list SgEntry)) :
    ioctl_call ByRef (Z * ext_args) ext_args
| enum_framesizes (index pixel_format : Z) : ioctl_call ByRef Z (vstruct v4l2_frmsizeenum)
| enum_frameintervals (index pixel_format width height : Z) :
    ioctl_call ByRef Z (vstruct v4l2_frmivalenum)
| g_enc_index : ioctl_call ByRef Z (vstruct v4l2_enc_idx)
| encoder_cmd (cmd : vstruct v4l2_encoder_cmd) : ioctl_call ByMut Z (vstruct v4l2_encoder_cmd)
| try_encoder_cmd (cmd : vstruct v4l2_encoder_cmd) :
    ioctl_call ByRef Z (vstruct v4l2_encoder_cmd)
| s_dv_timings (timings : vstruct v4l2_dv_timings) :
    ioctl_call ByMut Z (vstruct v4l2_dv_timings)
| g_dv_timings : ioctl_call ByRef Z (vstruct v4l2_dv_timings)
| subscribe_event (event : EventType) (flags : SubscribeEventFlags) : ioctl_call ByMut Z unit
| unsubscribe_event (event : vstruct v4l2_event_subscription) : ioctl_call ByMut Z unit
| create_bufs (count : Z) (queue : QueueType) (memory : MemoryType)
    (format : vstruct v4l2_format) : ioctl_call ByMut Z (vstruct v4l2_create_buffers)
| prepare_buf (buffer : V4l2Buffer) (guest_regions : list (list SgEntry)) :
    ioctl_call ByMut Z V4l2Buffer
| g_selection (sel_type : SelectionType) (sel_target : SelectionTarget) :
    ioctl_call ByRef Z v4l2_rect
| s_selection (sel_type : SelectionType) (sel_target : SelectionTarget) (sel_rect : v4l2_rect)
    (sel_flags : SelectionFlags) : ioctl_call ByMut Z v4l2_rect
| decoder_cmd (cmd : vstruct v4l2_decoder_cmd) : ioctl_call ByMut Z (vstruct v4l2_decoder_cmd)
| try_decoder_cmd (cmd : vstruct v4l2_decoder_cmd) :
    ioctl_call ByRef Z (vstruct v4l2_decoder_cmd)
| enum_dv_timings (index : Z) : ioctl_call ByRef Z (vstruct v4l2_dv_timings)
| query_dv_timings : ioctl_call ByRef Z (vstruct v4l2_dv_timings)
| dv_timings_cap : ioctl_call Const Z (vstruct v4l2_dv_timings_cap)
| enum_freq_bands (tuner : Z) (type_ : TunerType) (index : Z) :
    ioctl_call Const Z (vstruct v4l2_frequency_band)
| query_ext_ctrl (id : CtrlId) (flags : QueryCtrlFlags) :
    ioctl_call ByRef Z (vstruct v4l2_query_ext_ctrl).
(** The ioctl in whose processing a method is called. *)
Definition call_ioctl {a E T} (c : ioctl_call a E T) : V4l2Ioctl :=
  match c with
  | enum_fmt _ _ => VIDIOC_ENUM_FMT
  | g_fmt _ => VIDIOC_G_FMT
  | s_fmt _ _ => VIDIOC_S_FMT
  | reqbufs _ _ _ _ => VIDIOC_REQBUFS
  | querybuf _ _ => VIDIOC_QUERYBUF
  | qbuf _ _ => VIDIOC_QBUF
  | streamon _ => VIDIOC_STREAMON
  | streamoff _ => VIDIOC_STREAMOFF
  | g_parm _ => VIDIOC_G_PARM
  | s_parm _ => VIDIOC_S_PARM
  | g_std => VIDIOC_G_STD
  | s_std _ => VIDIOC_S_STD
  | enumstd _ => VIDIOC_ENUMSTD
  | enuminput _ => VIDIOC_ENUMINPUT
  | g_ctrl _ => VIDIOC_G_CTRL
  | s_ctrl _ _ => VIDIOC_S_CTRL
  | g_tuner _ => VIDIOC_G_TUNER
  | s_tuner _ _ => VIDIOC_S_TUNER
  | g_audio => VIDIOC_G_AUDIO
  | s_audio _ _ => VIDIOC_S_AUDIO
  | queryctrl _ _ => VIDIOC_QUERYCTRL
  | querymenu _ _ => VIDIOC_QUERYMENU
  | g_input => VIDIOC_G_INPUT
  | s_input _ => VIDIOC_S_INPUT
  | g_output => VIDIOC_G_OUTPUT
  | s_output _ => VIDIOC_S_OUTPUT
  | enumoutput _ => VIDIOC_ENUMOUTPUT
  | g_audout => VIDIOC_G_AUDOUT
  | s_audout _ => VIDIOC_S_AUDOUT
  | g_modulator _ => VIDIOC_G_MODULATOR
  | s_modulator _ _ => VIDIOC_S_MODULATOR
  | g_frequency _ => VIDIOC_G_FREQUENCY
  | s_frequency _ _ _ => VIDIOC_S_FREQUENCY
  | querystd => VIDIOC_QUERYSTD
  | try_fmt _ _ => VIDIOC_TRY_FMT
  | enumaudio _ => VIDIOC_ENUMAUDIO
  | enumaudout _ => VIDIOC_ENUMAUDOUT
  | g_ext_ctrls _ _ _ => VIDIOC_G_EXT_CTRLS
  | s_ext_ctrls _ _ _ => VIDIOC_S_EXT_CTRLS
  | try_ext_ctrls _ _ _ => VIDIOC_TRY_EXT_CTRLS
  | enum_framesizes _ _ => VIDIOC_ENUM_FRAMESIZES
  | enum_frameintervals _ _ _ _ => VIDIOC_ENUM_FRAMEINTERVALS
  | g_enc_index => VIDIOC_G_ENC_INDEX
  | encoder_cmd _ => VIDIOC_ENCODER_CMD
  | try_encoder_cmd _ => VIDIOC_TRY_ENCODER_CMD
  | s_dv_timings _ => VIDIOC_S_DV_TIMINGS
  | g_dv_timings => VIDIOC_G_DV_TIMINGS
  | subscribe_event _ _ => VIDIOC_SUBSCRIBE_EVENT
  | unsubscribe_event _ => VIDIOC_UNSUBSCRIBE_EVENT
  | create_bufs _ _ _ _ => VIDIOC_CREATE_BUFS
  | prepare_buf _ _ => VIDIOC_PREPARE_BUF
  | g_selection _ _ => VIDIOC_G_SELECTION
  | s_selection _ _ _ _ => VIDIOC_S_SELECTION
  | decoder_cmd _ => VIDIOC_DECODER_CMD
  | try_decoder_cmd _ => VIDIOC_TRY_DECODER_CMD
  | enum_dv_timings _ => VIDIOC_ENUM_DV_TIMINGS
  | query_dv_timings => VIDIOC_QUERY_DV_TIMINGS
  | dv_timings_cap => VIDIOC_DV_TIMINGS_CAP
  | enum_freq_bands _ _ _ => VIDIOC_ENUM_FREQ_BANDS
  | query_ext_ctrl _ _ => VIDIOC_QUERY_EXT_CTRL
  end.
End Signature.
End Call.
Import Call (ioctl_call, ext_args, call_ioctl).

(** The type of the body of a method. *)
Definition method (H S : Type) (a : access) (E T : Type) : Type :=
  match a with
  | ByMut => M (H * S) E T
  | ByRef => S → M H E T
  | Const => H → S → outcome (result T E)
  end.

Definition method_throw {H S E T} (a : access) (e : E) : method H S a E T :=
  match a with
  | ByMut => throw e
  | ByRef => λ _, throw e
  | Const => λ _ _, Ret (Err e)
  end.

(** The default body of every method, [unhandled_ioctl!()]: [ENOTTY]. *)
Definition unhandled_ioctl `{V4l2r} {H S a E T} (c : ioctl_call a E T) : method H S a E T :=
  match c in ioctl_call a E T return method H S a E T with
  | Call.g_ext_ctrls _ args _ => method_throw ByRef (ENOTTY, args)
  | Call.s_ext_ctrls _ args _ => method_throw ByMut (ENOTTY, args)
  | Call.try_ext_ctrls _ args _ => method_throw ByRef (ENOTTY, args)
  | _ => method_throw _ ENOTTY
  end.

(** A handler: its state [H], its sessions' state [S] and a body per method. *)
Class VirtioMediaIoctlHandler `{V4l2r} (H S : Type) :=
  ioctl_method : ∀ {a E T}, ioctl_call a E T → method H S a E T.

(** A method call on the handler and the session. *)
Definition run_method {H S E T} (a : access) : method H S a E T → M (H * S) E T :=
  match a with
  | ByMut => λ m, m
  | ByRef => λ m hs, match m hs.2 hs.1 with
                     | Panic => Panic
                     | Ret (h, r) => Ret ((h, hs.2), r)
                     end
  | Const => λ m hs, match m hs.1 hs.2 with
                     | Panic => Panic
                     | Ret r => Ret (hs, r)
                     end
  end.

Definition call `{V4l2r} {H Ses} `{!VirtioMediaIoctlHandler H Ses} {a E T}
    (c : ioctl_call a E T) : M (H * Ses) E T :=
  run_method a (ioctl_method c).

(** ** The four shapes of ioctls *)

(** The state of a dispatch: the handler and the session, the reader and the
    writer. *)
Definition on_reader {HS E A} (m : M Reader E A) : M (HS * Reader * Writer) E A :=
  zoom (λ st, st.1.2) (λ r st, (st.1.1, r, st.2)) m.
Definition on_writer {HS E A} (m : M Writer E A) : M (HS * Reader * Writer) E A :=
  zoom snd (λ w st, (st.1, w)) m.
Definition on_handler {HS E A} (m : M HS E A) : M (HS * Reader * Writer) E A :=
  zoom (λ st, st.1.1) (λ hs st, (hs, st.1.2, st.2)) m.

Section Shapes.
Context {HS : Type}.
Abbreviation D := (M (HS * Reader * Writer) IoError unit).

Definition invalid_ioctl (code : V4l2Ioctl) : D := on_writer (write_err_response ENOTTY).

Definition wr_ioctl_with_err_payload {I O} `{FromDescriptorChain I} `{ToDescriptorChain O}
    (ioctl : V4l2Ioctl) (process : I → M HS (Z * option O) O) : D :=
  input ← try_m (on_reader read_from_chain);
  match input with
  | Err e => on_writer (write_err_response EINVAL)
  | Ok input =>
      processed ← try_m (on_handler (process input));
      let '(resp_header, output) :=
        match processed with
        | Ok output => (RespHeader_ok, Some output)
        | Err (errno, output) => (RespHeader_err errno, output)
        end in
      on_writer (write_response resp_header) ;;
      match output with
      | Some output => on_writer (write_to_chain output)
      | None => mret tt
      end
  end.

Definition wr_ioctl {I O} `{FromDescriptorChain I} `{ToDescriptorChain O}
    (ioctl : V4l2Ioctl) (process : I → M HS Z O) : D :=
  wr_ioctl_with_err_payload ioctl (λ input, map_err (λ err, (err, None)) (process input)).

Definition w_ioctl {I} `{FromDescriptorChain I}
    (ioctl : V4l2Ioctl) (process : I → M HS Z unit) : D :=
  wr_ioctl ioctl process.

(** The reader of an [R] ioctl is [std::io::empty()]. *)
Definition r_ioctl {O} `{ToDescriptorChain O} (ioctl : V4l2Ioctl) (process : M HS Z O) : D :=
  λ st, match wr_ioctl ioctl (λ _ : unit, process) (st.1.1, [], st.2) with
        | Panic => Panic
        | Ret ((hs, _, w), r) => Ret ((hs, st.1.2, w), r)
        end.
End Shapes.

Definition patch_streamparm `{V4l2r} (parm : vstruct v4l2_streamparm) : vstruct v4l2_streamparm :=
  match direction (default VideoCapture (QueueType_n (fld parm "type_"))) with
  | Output => set_fld "parm.output.writebuffers" 0 parm
  | Capture => set_fld "parm.capture.readbuffers" 0 parm
  end.

(** ** [virtio_media_dispatch_ioctl] *)

Section Dispatch.
Context `{BM : BuildMode} `{V : V4l2r} {H Ses : Type} `{!VirtioMediaIoctlHandler H Ses}.

(** The closure shared by the ext control ioctls: the arguments, as the method
    left them, are written back on success and on error. *)
Definition ext_ctrls_process {a}
    (m : CtrlWhich → ext_args → list (list SgEntry) → ioctl_call a (Z * ext_args) ext_args)
    (input : vstruct v4l2_ext_controls * list (vstruct v4l2_ext_control) * list (list SgEntry)) :
    M (H * Ses) (Z * option ext_args) ext_args :=
  let '(ctrls, ctrl_array, user_regions) := input in
  which ← ok_or (CtrlWhich_try_from ctrls) (EINVAL, None);
  map_err (λ '(e, args), (e, Some args)) (call (m which (ctrls, ctrl_array) user_regions)).

(** The closures of the other ioctls that validate or adapt their input, from
    S_MODULATOR on. *)
Definition s_modulator_process (modulator : vstruct v4l2_modulator) : M (H * Ses) Z unit :=
  flags ← ok_or (TunerTransmissionFlags_from_bits (fld modulator "txsubchans")) EINVAL;
  call (Call.s_modulator (fld modulator "index") flags).

Definition s_frequency_process (freq : vstruct v4l2_frequency) : M (H * Ses) Z unit :=
  type_ ← ok_or (TunerType_n (fld freq "type_")) EINVAL;
  call (Call.s_frequency (fld freq "tuner") type_ (fld freq "frequency")).

Definition try_fmt_process (format : vstruct v4l2_format) : M (H * Ses) Z (vstruct v4l2_format) :=
  queue ← ok_or (QueueType_n (fld format "type_")) EINVAL;
  call (Call.try_fmt queue format).

Definition enum_frameintervals_process (frmivalenum : vstruct v4l2_frmivalenum) :
    M (H * Ses) Z (vstruct v4l2_frmivalenum) :=
  call (Call.enum_frameintervals (fld frmivalenum "index") (fld frmivalenum "pixel_format")
    (fld frmivalenum "width") (fld frmivalenum "height")).

Definition subscribe_event_process (input : vstruct v4l2_event_subscription) : M (H * Ses) Z unit :=
  event ← unwrap (EventType_try_from input);
  flags ← unwrap (SubscribeEventFlags_from_bits (fld input "flags"));
  call (Call.subscribe_event event flags).

Definition create_bufs_process (input : vstruct v4l2_create_buffers) :
    M (H * Ses) Z (vstruct v4l2_create_buffers) :=
  queue ← ok_or (QueueType_n (fld (create_buffers_format input) "type_")) EINVAL;
  memory ← ok_or (MemoryType_n (fld input "memory")) EINVAL;
  call (Call.create_bufs (fld input "count") queue memory (create_buffers_format input)).

Definition prepare_buf_process (input : V4l2Buffer * list (list SgEntry)) :
    M (H * Ses) Z (V4l2Buffer * Z) :=
  let '(guest_buffer, guest_regions) := input in
  let num_planes := Z.of_nat (buf_num_planes guest_buffer) in
  out_buffer ← call (Call.prepare_buf guest_buffer guest_regions);
  mret (out_buffer, num_planes).

Definition g_selection_process (selection : vstruct v4l2_selection) :
    M (H * Ses) Z (vstruct v4l2_selection) :=
  sel_type ← ok_or (SelectionType_n (fld selection "type_")) EINVAL;
  sel_target ← ok_or (SelectionTarget_n (fld selection "target")) EINVAL;
  rect ← call (Call.g_selection sel_type sel_target);
  mret (selection_set_r rect selection).

Definition s_selection_process (selection : vstruct v4l2_selection) :
    M (H * Ses) Z (vstruct v4l2_selection) :=
  sel_type ← ok_or (SelectionType_n (fld selection "type_")) EINVAL;
  sel_target ← ok_or (SelectionTarget_n (fld selection "target")) EINVAL;
  sel_flags ← ok_or (SelectionFlags_from_bits (fld selection "flags")) EINVAL;
  rect ← call (Call.s_selection sel_type sel_target (selection_r selection) sel_flags);
  mret (selection_set_r rect selection).

Definition enum_dv_timings_process (enum_timings : vstruct v4l2_enum_dv_timings) :
    M (H * Ses) Z (vstruct v4l2_enum_dv_timings) :=
  timings ← call (Call.enum_dv_timings (fld enum_timings "index"));
  mret (enum_dv_timings_set timings enum_timings).

Definition enum_freq_bands_process (freq_band : vstruct v4l2_frequency_band) :
    M (H * Ses) Z (vstruct v4l2_frequency_band) :=
  type_ ← ok_or (TunerType_n (fld freq_band "type_")) EINVAL;
  call (Call.enum_freq_bands (fld freq_band "tuner") type_ (fld freq_band "index")).

Definition query_ext_ctrl_process (ctrl : vstruct v4l2_query_ext_ctrl) :
    M (H * Ses) Z (vstruct v4l2_query_ext_ctrl) :=
  let '(id, flags) := parse_ctrl_id_and_flags (fld ctrl "id") in
  call (Call.query_ext_ctrl id flags).

Definition virtio_media_dispatch_ioctl (ioctl : V4l2Ioctl) :
    M (H * Ses * Reader * Writer) IoError unit :=
  match ioctl with
  | VIDIOC_QUERYCAP => invalid_ioctl ioctl
  | VIDIOC_ENUM_FMT => wr_ioctl ioctl (λ format : vstruct v4l2_fmtdesc,
      queue ← ok_or (QueueType_n (fld format "type_")) EINVAL;
      call (Call.enum_fmt queue (fld format "index")))
  | VIDIOC_G_FMT => wr_ioctl ioctl (λ format : vstruct v4l2_format,
      queue ← ok_or (QueueType_n (fld format "type_")) EINVAL;
      call (Call.g_fmt queue))
  | VIDIOC_S_FMT => wr_ioctl ioctl (λ format : vstruct v4l2_format,
      queue ← ok_or (QueueType_n (fld format "type_")) EINVAL;
      call (Call.s_fmt queue format))
  | VIDIOC_REQBUFS => wr_ioctl ioctl (λ reqbufs : vstruct v4l2_requestbuffers,
      queue ← ok_or (QueueType_n (fld reqbufs "type_")) EINVAL;
      memory ← ok_or (MemoryType_n (fld reqbufs "memory")) EINVAL;
      flags ← ok_or (MemoryConsistency_from_bits (fld reqbufs "flags")) EINVAL;
      guard_err (negb (bool_decide (memory = Mmap) || bool_decide (memory = UserPtr))) EINVAL ;;
      call (Call.reqbufs queue memory (fld reqbufs "count") flags))
  | VIDIOC_QUERYBUF => wr_ioctl ioctl (λ buffer : vstruct v4l2_buffer,
      queue ← ok_or (QueueType_n (fld buffer "type_")) EINVAL;
      let num_planes := if is_multiplanar queue then fld buffer "length" else 0 in
      guest_buffer ← call (Call.querybuf queue (fld buffer "index"));
      mret (guest_buffer, num_planes))
  | VIDIOC_G_FBUF => invalid_ioctl ioctl
  | VIDIOC_S_FBUF => invalid_ioctl ioctl
  | VIDIOC_OVERLAY => invalid_ioctl ioctl
  | VIDIOC_QBUF => wr_ioctl ioctl (λ '(guest_buffer, guest_regions),
      let num_planes := Z.of_nat (buf_num_planes guest_buffer) in
      guest_buffer ← call (Call.qbuf guest_buffer guest_regions);
      mret (guest_buffer, num_planes))
  | VIDIOC_EXPBUF => invalid_ioctl ioctl
  | VIDIOC_DQBUF => invalid_ioctl ioctl
  | VIDIOC_STREAMON => w_ioctl ioctl (λ input : u32,
      queue ← ok_or (QueueType_n (u32_val input)) EINVAL;
      call (Call.streamon queue))
  | VIDIOC_STREAMOFF => w_ioctl ioctl (λ input : u32,
      queue ← ok_or (QueueType_n (u32_val input)) EINVAL;
      call (Call.streamoff queue))
  | VIDIOC_G_PARM => wr_ioctl ioctl (λ parm : vstruct v4l2_streamparm,
      queue ← ok_or (QueueType_n (fld parm "type_")) EINVAL;
      parm ← call (Call.g_parm queue);
      mret (patch_streamparm parm))
  | VIDIOC_S_PARM => wr_ioctl ioctl (λ parm : vstruct v4l2_streamparm,
      parm ← call (Call.s_parm (patch_streamparm parm));
      mret (patch_streamparm parm))
  | VIDIOC_G_STD => r_ioctl ioctl (call Call.g_std)
  | VIDIOC_S_STD => w_ioctl ioctl (λ id : vstruct v4l2_std_id, call (Call.s_std id))
  | VIDIOC_ENUMSTD => wr_ioctl ioctl (λ std : vstruct v4l2_standard,
      call (Call.enumstd (fld std "index")))
  | VIDIOC_ENUMINPUT => wr_ioctl ioctl (λ input : vstruct v4l2_input,
      call (Call.enuminput (fld input "index")))
  | VIDIOC_G_CTRL => wr_ioctl ioctl (λ ctrl : vstruct v4l2_control,
      call (Call.g_ctrl (fld ctrl "id")))
  | VIDIOC_S_CTRL => wr_ioctl ioctl (λ ctrl : vstruct v4l2_control,
      call (Call.s_ctrl (fld ctrl "id") (fld ctrl "value")))
  | VIDIOC_G_TUNER => wr_ioctl ioctl (λ tuner : vstruct v4l2_tuner,
      call (Call.g_tuner (fld tuner "index")))
  | VIDIOC_S_TUNER => w_ioctl ioctl (λ tuner : vstruct v4l2_tuner,
      mode ← ok_or (TunerMode_n (fld tuner "audmode")) EINVAL;
      call (Call.s_tuner (fld tuner "index") mode))
  | VIDIOC_G_AUDIO => r_ioctl ioctl (call Call.g_audio)
  | VIDIOC_S_AUDIO => w_ioctl ioctl (λ input : vstruct v4l2_audio,
      call (Call.s_audio (fld input "index") (AudioMode_n (fld input "mode"))))
  | VIDIOC_QUERYCTRL => wr_ioctl ioctl (λ input : vstruct v4l2_queryctrl,
      let '(id, flags) := parse_ctrl_id_and_flags (fld input "id") in
      call (Call.queryctrl id flags))
  | VIDIOC_QUERYMENU => wr_ioctl ioctl (λ input : vstruct v4l2_querymenu,
      call (Call.querymenu (fld input "id") (fld input "index")))
  | VIDIOC_G_INPUT => r_ioctl ioctl (call Call.g_input)
  | VIDIOC_S_INPUT => wr_ioctl ioctl (λ input : i32, call (Call.s_input input))
  | VIDIOC_G_EDID => invalid_ioctl ioctl
  | VIDIOC_S_EDID => invalid_ioctl ioctl
  | VIDIOC_G_OUTPUT => r_ioctl ioctl (call Call.g_output)
  | VIDIOC_S_OUTPUT => wr_ioctl ioctl (λ output : i32, call (Call.s_output output))
  | VIDIOC_ENUMOUTPUT => wr_ioctl ioctl (λ output : vstruct v4l2_output,
      call (Call.enumoutput (fld output "index")))
  | VIDIOC_G_AUDOUT => r_ioctl ioctl (call Call.g_audout)
  | VIDIOC_S_AUDOUT => w_ioctl ioctl (λ audout : vstruct v4l2_audioout,
      call (Call.s_audout (fld audout "index")))
  | VIDIOC_G_MODULATOR => wr_ioctl ioctl (λ modulator : vstruct v4l2_modulator,
      call (Call.g_modulator (fld modulator "index")))
  | VIDIOC_S_MODULATOR => w_ioctl ioctl s_modulator_process
  | VIDIOC_G_FREQUENCY => wr_ioctl ioctl (λ freq : vstruct v4l2_frequency,
      call (Call.g_frequency (fld freq "tuner")))
  | VIDIOC_S_FREQUENCY => w_ioctl ioctl s_frequency_process
  | VIDIOC_CROPCAP => invalid_ioctl ioctl
  | VIDIOC_G_CROP => invalid_ioctl ioctl
  | VIDIOC_S_CROP => invalid_ioctl ioctl
  | VIDIOC_G_JPEGCOMP => invalid_ioctl ioctl
  | VIDIOC_S_JPEGCOMP => invalid_ioctl ioctl
  | VIDIOC_QUERYSTD => r_ioctl ioctl (call Call.querystd)
  | VIDIOC_TRY_FMT => wr_ioctl ioctl try_fmt_process
  | VIDIOC_ENUMAUDIO => wr_ioctl ioctl (λ audio : vstruct v4l2_audio,
      call (Call.enumaudio (fld audio "index")))
  | VIDIOC_ENUMAUDOUT => wr_ioctl ioctl (λ audio : vstruct v4l2_audioout,
      call (Call.enumaudout (fld audio "index")))
  | VIDIOC_G_PRIORITY => invalid_ioctl ioctl
  | VIDIOC_S_PRIORITY => invalid_ioctl ioctl
  | VIDIOC_G_SLICED_VBI_CAP => invalid_ioctl ioctl
  | VIDIOC_LOG_STATUS => invalid_ioctl ioctl
  | VIDIOC_G_EXT_CTRLS => wr_ioctl_with_err_payload ioctl (ext_ctrls_process Call.g_ext_ctrls)
  | VIDIOC_S_EXT_CTRLS => wr_ioctl_with_err_payload ioctl (ext_ctrls_process Call.s_ext_ctrls)
  | VIDIOC_TRY_EXT_CTRLS => wr_ioctl_with_err_payload ioctl (ext_ctrls_process Call.try_ext_ctrls)
  | VIDIOC_ENUM_FRAMESIZES => wr_ioctl ioctl (λ frmsizeenum : vstruct v4l2_frmsizeenum,
      call (Call.enum_framesizes (fld frmsizeenum "index") (fld frmsizeenum "pixel_format")))
  | VIDIOC_ENUM_FRAMEINTERVALS => wr_ioctl ioctl enum_frameintervals_process
  | VIDIOC_G_ENC_INDEX => r_ioctl ioctl (call Call.g_enc_index)
  | VIDIOC_ENCODER_CMD => wr_ioctl ioctl (λ cmd : vstruct v4l2_encoder_cmd,
      call (Call.encoder_cmd cmd))
  | VIDIOC_TRY_ENCODER_CMD => wr_ioctl ioctl (λ cmd : vstruct v4l2_encoder_cmd,
      call (Call.try_encoder_cmd cmd))
  | VIDIOC_DBG_G_REGISTER => invalid_ioctl ioctl
  | VIDIOC_DBG_S_REGISTER => invalid_ioctl ioctl
  | VIDIOC_S_HW_FREQ_SEEK => invalid_ioctl ioctl
  | VIDIOC_S_DV_TIMINGS => wr_ioctl ioctl (λ timings : vstruct v4l2_dv_timings,
      call (Call.s_dv_timings timings))
  | VIDIOC_G_DV_TIMINGS => wr_ioctl ioctl (λ _ : vstruct v4l2_dv_timings,
      call Call.g_dv_timings)
  | VIDIOC_DQEVENT => invalid_ioctl ioctl
  | VIDIOC_SUBSCRIBE_EVENT => w_ioctl ioctl subscribe_event_process
  | VIDIOC_UNSUBSCRIBE_EVENT => w_ioctl ioctl (λ event : vstruct v4l2_event_subscription,
      call (Call.unsubscribe_event event))
  | VIDIOC_CREATE_BUFS => wr_ioctl ioctl create_bufs_process
  | VIDIOC_PREPARE_BUF => wr_ioctl ioctl prepare_buf_process
  | VIDIOC_G_SELECTION => wr_ioctl ioctl g_selection_process
  | VIDIOC_S_SELECTION => wr_ioctl ioctl s_selection_process
  | VIDIOC_DECODER_CMD => wr_ioctl ioctl (λ cmd : vstruct v4l2_decoder_cmd,
      call (Call.decoder_cmd cmd))
  | VIDIOC_TRY_DECODER_CMD => wr_ioctl ioctl (λ cmd : vstruct v4l2_decoder_cmd,
      call (Call.try_decoder_cmd cmd))
  | VIDIOC_ENUM_DV_TIMINGS => wr_ioctl ioctl enum_dv_timings_process
  | VIDIOC_QUERY_DV_TIMINGS => r_ioctl ioctl (call Call.query_dv_timings)
  | VIDIOC_DV_TIMINGS_CAP => wr_ioctl ioctl (λ _ : vstruct v4l2_dv_timings_cap,
      call Call.dv_timings_cap)
  | VIDIOC_ENUM_FREQ_BANDS => wr_ioctl ioctl enum_freq_bands_process
  | VIDIOC_DBG_G_CHIP_INFO => invalid_ioctl ioctl
  | VIDIOC_QUERY_EXT_CTRL => wr_ioctl ioctl query_ext_ctrl_process
  end.
End Dispatch.

(** ** Lemmas: reading guest memory regions *)

(** The bytes covered by a list of guest memory regions. *)
Definition sg_total (l : list SgEntry) : Z := foldr (λ e acc, sg_len e + acc) 0 l.

(** The regions cover [size] bytes, and no shorter prefix of them does. *)
Definition covers (size : Z) (l : list SgEntry) : Prop :=
  size ≤ sg_total l ∧ ∀ k, (k < length l)%nat → sg_total (take k l) < size.

Lemma sg_total_app l1 l2 : sg_total (l1 ++ l2) = sg_total l1 + sg_total l2.
Proof. induction l1 as [|e l1 IH]; simpl; [done|]. rewrite IH. lia. Qed.

Lemma SgEntry_valid_len e : c_valid c_SgEntry e → is_u32 (sg_len e).
Proof. intros (_&Hl&_). cbn in Hl. mlia. Qed.

Lemma covers_extend size l e :
  sg_total l < size → (∀ k, (k < length l)%nat → sg_total (take k l) < size) →
  ∀ k, (k < length (l ++ [e]))%nat → sg_total (take k (l ++ [e])) < size.
Proof.
  intros Hl Hpre k Hk. rewrite length_app in Hk. simpl in Hk.
  destruct (decide (k < length l)%nat).
  - rewrite take_app_le by lia. by apply Hpre.
  - assert (k = length l) as -> by lia. by rewrite take_app_length.
Qed.

(** The regions that an input describes: its complete entries of 16 bytes. *)
Definition sg_entries (r : Reader) : list SgEntry :=
  (λ i, c_dec c_SgEntry (take 16 (drop (16 * i) r))) <$> seq 0 (length r / 16).

Lemma sg_entries_short r : (length r < 16)%nat → sg_entries r = [].
Proof. intros Hr. unfold sg_entries. by rewrite Nat.div_small. Qed.

Lemma sg_entries_cons r :
  (16 ≤ length r)%nat → sg_entries r = c_dec c_SgEntry (take 16 r) :: sg_entries (drop 16 r).
Proof.
  intros Hr. unfold sg_entries. rewrite length_drop.
  replace (length r) with (1 * 16 + (length r - 16))%nat at 1 by lia.
  rewrite Nat.div_add_l by lia. cbn [Nat.add seq fmap list_fmap]. rewrite Nat.mul_0_r, drop_0. f_equal.
  rewrite <-fmap_S_seq, <-list_fmap_compose. apply list_fmap_ext. intros i j _. cbn [compose].
  rewrite drop_drop. do 3 f_equal. lia.
Qed.

Section Regions.
Context `{BuildMode}.

(** The loop returns, whatever the guest wrote: it takes entries of the input until
    they cover the requested size, or the input has too few of them. *)
Lemma get_userptr_regions_loop_spec fuel size res r :
  is_u32 size → (length r < fuel)%nat → 0 ≤ sg_total res ≤ 2 * u32_max →
  (∀ k, (k < length res)%nat → sg_total (take k res) < size) →
  (∃ k, (k ≤ length (sg_entries r))%nat ∧
     get_userptr_regions_loop fuel size (sg_total res) res r =
       Ret (drop (16 * k) r, Ok (res ++ take k (sg_entries r))) ∧
     covers size (res ++ take k (sg_entries r))) ∨
  sg_total (res ++ sg_entries r) < size ∧
  get_userptr_regions_loop fuel size (sg_total res) res r = Ret ([], Err UnexpectedEof).
Proof.
  intros Hsize. revert res r.
  induction fuel as [|fuel IH]; intros res r Hfuel Htot Hpre; [lia|].
  cbn [get_userptr_regions_loop]. destruct (Z.ltb_spec (sg_total res) size) as [Hlt|Hge];
    [|left; exists 0%nat; cbn [Nat.mul take]; rewrite drop_0, app_nil_r; split_and!; [lia|done..]].
  unfold_M. destruct (decide (size_of SgEntry ≤ length r)%nat) as [Hle|Hgt].
  - rewrite read_obj_enough by done. assert (size_of SgEntry = 16)%nat as Hsz by done.
    rewrite Hsz in Hle |- *. rewrite sg_entries_cons by done.
    change (c_dec vmedia (take 16 r)) with (c_dec c_SgEntry (take 16 r)).
    set (e := c_dec c_SgEntry (take 16 r)).
    assert (is_u32 (sg_len e)) as He.
    { apply SgEntry_valid_len, (dec_valid _ c_SgEntry_ok). by rewrite length_take_le. }
    unfold u64_add. rewrite unsigned_op_ok by mlia.
    replace (sg_total res + sg_len e) with (sg_total (res ++ [e]))
      by (rewrite sg_total_app; simpl; lia).
    destruct (IH (res ++ [e]) (drop 16 r)) as [(k&Hk&Hr&Hc)|[Hs Hr]].
    + rewrite length_drop. lia.
    + rewrite sg_total_app. cbn [sg_total foldr]. clear -He Htot Hlt Hsize. mlia.
    + by apply covers_extend.
    + left. exists (S k). rewrite <-app_assoc in Hr, Hc. split; [simpl; lia|]. split; [|done].
      rewrite Hr, drop_drop. do 3 f_equal. lia.
    + right. rewrite <-app_assoc in Hs. done.
  - right. rewrite read_obj_short by lia. assert (size_of SgEntry = 16)%nat as Hsz by done.
    rewrite sg_entries_short, app_nil_r by lia. done.
Qed.

Lemma get_userptr_regions_spec size r :
  is_u32 size →
  (∃ k, (k ≤ length (sg_entries r))%nat ∧
     get_userptr_regions size r = Ret (drop (16 * k) r, Ok (take k (sg_entries r))) ∧
     covers size (take k (sg_entries r))) ∨
  sg_total (sg_entries r) < size ∧ get_userptr_regions size r = Ret ([], Err UnexpectedEof).
Proof.
  intros Hs. unfold get_userptr_regions. change 0 with (sg_total []).
  apply (get_userptr_regions_loop_spec _ size [] r); [done|lia|simpl; mlia|simpl; lia].
Qed.

Lemma get_userptr_regions_cases size r :
  is_u32 size →
  (∃ l r', get_userptr_regions size r = Ret (r', Ok l) ∧ covers size l) ∨
  get_userptr_regions size r = Ret ([], Err UnexpectedEof).
Proof.
  intros Hs. destruct (get_userptr_regions_spec size r Hs) as [(k&_&Hr&Hc)|[_ Hr]]; eauto.
Qed.
End Regions.

(** ** What the dispatcher guarantees to a handler *)

Section Validated.
Context `{BM : BuildMode} `{V : V4l2r}.

(** The regions read for the [USERPTR] planes of a buffer: one list per plane of
    non-zero length, covering it. *)
Definition buffer_regions (buffer : V4l2Buffer) (regions : list (list SgEntry)) : Prop :=
  match buf_planes buffer with
  | BUserPtr planes =>
      Forall2 (λ p l, covers (p_length p) l) (filter (λ p, 0 < p_length p) planes) regions
  | _ => regions = []
  end.

(** The array of an ext control ioctl has [count] elements, and each control with
    a payload has regions that cover it. *)
Definition ext_ctrls_regions (args : ext_args) (regions : list (list SgEntry)) : Prop :=
  Z.of_nat (length args.2) = fld args.1 "count" ∧
  Forall2 (λ c l, covers (fld c "size") l) (filter (λ c, 0 < fld c "size") args.2) regions.

(** The validated calls, the only ones a handler sees. *)
Definition call_valid {a E T} (c : ioctl_call a E T) : Prop :=
  match c with
  | Call.s_fmt queue format | Call.try_fmt queue format =>
      QueueType_n (fld format "type_") = Some queue
  | Call.reqbufs _ memory count _ => (memory = Mmap ∨ memory = UserPtr) ∧ is_u32 count
  | Call.qbuf buffer regions | Call.prepare_buf buffer regions => buffer_regions buffer regions
  | Call.s_parm parm => ∃ parm', parm = patch_streamparm parm'
  | Call.create_bufs _ queue _ format => QueueType_n (fld format "type_") = Some queue
  | Call.g_ext_ctrls which args regions | Call.s_ext_ctrls which args regions
  | Call.try_ext_ctrls which args regions =>
      CtrlWhich_try_from args.1 = Some which ∧ ext_ctrls_regions args regions
  | _ => True
  end.

Lemma wp_read_obj {T} `{VmediaType T} (r : Reader) :
  wp false (read_obj (T := T)) (λ _ _, True) r.
Proof. unfold wp. destruct (read_obj_total (T := T) r) as (r'&res&->). done. Qed.

Lemma wp_read_objs {T} `{VmediaType T} (n : Z) (r : Reader) :
  wp false (mapM_m (λ _, read_obj (T := T)) (seqZ 0 n))
    (λ res _, match res with Ok l => length l = Z.to_nat n | Err _ => True end) r.
Proof.
  eapply wp_mono, (wp_mapM false (λ _, True) (λ _ _, True)); [|done|].
  - intros [l|e] r' [_ HF]; [|done]. apply Forall2_length in HF.
    by rewrite length_seqZ in HF.
  - intros. eapply wp_mono, wp_read_obj. by intros [].
Qed.

Lemma wp_regions size (r : Reader) :
  is_u32 size →
  wp false (map_err (λ _, InvalidData) (get_userptr_regions size))
    (λ res _, True ∧ match res with Ok l => covers size l | Err _ => True end) r.
Proof.
  intros Hs. apply wp_map_err. unfold wp.
  by destruct (get_userptr_regions_cases size r Hs) as [(l&r'&->&Hl)| ->].
Qed.

Context {VL : V4l2rLaws}.

Lemma wp_read_buffer (r : Reader) :
  wp false read_buffer_from_chain
    (λ res _, match res with Ok i => buffer_regions i.1 i.2 | Err _ => True end) r.
Proof.
  unfold read_buffer_from_chain. apply wp_bind. eapply wp_mono, wp_read_obj.
  intros [buffer|e] r1 _; [|done]. apply wp_bind, wp_ok_or; [intros queue _|done].
  apply wp_bind. apply (wp_mono _ _ (λ _ _, True)); last first.
  { case_match; [|done]. apply wp_bind, wp_guard; [intros _|done].
    apply wp_bind. eapply wp_mono, wp_read_objs. by intros []. }
  intros [planes|e] r2 _; [|done]. apply wp_bind, wp_ok_or; [intros b _|done].
  unfold buffer_regions. apply wp_bind.
  destruct (buf_planes b) as [|ps|] eqn:Ep; [unfold wp; simpl; by rewrite Ep| |
    unfold wp; simpl; by rewrite Ep].
  eapply wp_mono, (wp_mapM false (λ _, True) (λ p l, covers (p_length p) l)); [|done|].
  - intros [l|e] r3 [_ HF]; [|done]. apply wp_ret. simpl. by rewrite Ep.
  - intros p r3 [_ Hp]%list_elem_of_filter _. apply wp_regions.
    pose proof (userptr_length_u32 b ps Ep) as Hu. rewrite Forall_forall in Hu. auto.
Qed.

Lemma wp_read_ext_controls (r : Reader) :
  wp false read_ext_controls_from_chain
    (λ res _, match res with
              | Ok (ctrls, arr, l) => ext_ctrls_regions (ctrls, arr) l
              | Err _ => True
              end) r.
Proof.
  unfold read_ext_controls_from_chain. apply wp_bind. eapply wp_mono, wp_read_obj.
  intros [ctrls|e] r1 _; [|done]. apply wp_bind. eapply wp_mono, wp_read_objs.
  intros [arr|e] r2 Hlen; [|done]. apply wp_bind.
  eapply wp_mono, (wp_mapM false (λ _, True) (λ c l, covers (fld c "size") l)); [|done|].
  - intros [l|e] r3 [_ HF]; [|done]. split; [|done]. simpl. rewrite Hlen.
    pose proof (ext_controls_count_u32 ctrls). mlia.
  - intros c r3 _ _. apply wp_regions, ext_control_size_u32.
Qed.
End Validated.

(** ** What the dispatcher answers *)

(** The only ioctls whose error responses carry a payload. *)
Definition errors_with_payload (ioctl : V4l2Ioctl) : bool :=
  match ioctl with
  | VIDIOC_G_EXT_CTRLS | VIDIOC_S_EXT_CTRLS | VIDIOC_TRY_EXT_CTRLS => true
  | _ => false
  end.

(** The only ioctl whose validation can panic. *)
Definition validation_panics (ioctl : V4l2Ioctl) : bool :=
  match ioctl with VIDIOC_SUBSCRIBE_EVENT => true | _ => false end.

(** A response: one header, then the payload, and no payload after an error
    unless [ext].  The result is an error only when the response does not fit. *)
Definition response (ext : bool) (w w' : Writer) (res : result unit IoError) : Prop :=
  ∃ status payload,
    write_all (c_enc c_RespHeader (mkRespHeader status 0) ++ payload) w = Ret (w', res) ∧
    (status ≠ 0 → ext = false → payload = []).

(** An output is written as a fixed sequence of bytes. *)
Class ChainBytes (O : Type) `{ToDescriptorChain O} := {
  chain_bytes : O → list byte;
  write_chain_bytes : ∀ o w, write_to_chain o w = write_all (chain_bytes o) w;
}.

#[global] Instance vmedia_bytes {T} `{VmediaType T} : ChainBytes T := {|
  chain_bytes := c_enc vmedia; write_chain_bytes o w := eq_refl |}.

Lemma write_buffer_bytes `{V4l2r} (o : V4l2Buffer * Z) w :
  write_buffer_to_chain o w = write_all
    (c_enc vmedia (if is_multiplanar (buf_queue o.1) then set_fld "m.planes" 0 (buf_as_v4l2_buffer o.1)
                   else buf_as_v4l2_buffer o.1) ++
     mjoin (c_enc vmedia <$> take (Z.to_nat o.2) (buf_as_v4l2_planes o.1))) w.
Proof.
  unfold write_buffer_to_chain. rewrite <-write_all_app. unfold_M. unfold write_obj at 1. simpl.
  destruct (write_all _ w) as [[w' [[]|e]]|]; [apply write_objs_bytes|done..].
Qed.
#[global] Instance buffer_bytes `{V4l2r} : ChainBytes (V4l2Buffer * Z) := {|
  write_chain_bytes := write_buffer_bytes |}.

Lemma write_ext_controls_bytes `{V4l2r} (o : ext_args) w :
  write_ext_controls_to_chain o w = write_all
    (c_enc vmedia (set_fld "controls" 0 o.1) ++ mjoin (c_enc vmedia <$> o.2)) w.
Proof.
  destruct o as [ctrls arr]. unfold write_ext_controls_to_chain.
  rewrite <-write_all_app. unfold_M. unfold write_obj at 1. simpl.
  destruct (write_all _ w) as [[w' [[]|e]]|]; [apply write_objs_bytes|done..].
Qed.
#[global] Instance ext_controls_bytes `{V4l2r} : ChainBytes ext_args := {|
  write_chain_bytes := write_ext_controls_bytes |}.

Section ShapesLemmas.
Context {HS : Type} (pn : bool) (P P' : HS → Prop) (Hweak : ∀ hs, P hs → P' hs).

(** The result of a closure: [P'] holds and only [ext] allows an error payload. *)
Definition processed {O} (ext : bool) (r : result O (Z * option O)) (hs : HS) : Prop :=
  P' hs ∧ match r with Err (_, Some _) => ext = true | _ => True end.

Lemma wp_respond {O} `{ChainBytes O} ext status (output : option O) hs r w :
  P' hs → (status ≠ 0 → ext = false → output = None) →
  wp pn (on_writer (write_response (mkRespHeader status 0)) ;;
         match output with
         | Some output => on_writer (write_to_chain output)
         | None => mret tt
         end) (λ res st, P' st.1.1 ∧ response ext w st.2 res) (hs, r, w).
Proof.
  intros HP Hout.
  set (payload := match output with Some o => chain_bytes o | None => [] end).
  assert (∃ w' res, write_all (c_enc c_RespHeader (mkRespHeader status 0) ++ payload) w
            = Ret (w', res)) as (w'&res&Hw) by apply write_all_total.
  assert (response ext w w' res) as Hresp.
  { exists status, payload. split; [done|]. intros Hs He. unfold payload. by rewrite Hout. }
  rewrite <-write_all_app in Hw. unfold_M. unfold wp, on_writer, zoom, write_response, write_obj.
  simpl. change (c_enc vmedia (mkRespHeader status 0))
    with (c_enc c_RespHeader (mkRespHeader status 0)).
  destruct (write_all _ w) as [[w1 [[]|e]]|]; [|by inv Hw|done].
  subst payload. destruct output as [o|]; simpl in *; [by rewrite write_chain_bytes, Hw|].
  rewrite write_all_nil in Hw. by inv Hw.
Qed.

Lemma wp_err_response ext status hs r w :
  P' hs →
  wp pn (on_writer (write_err_response status))
    (λ res st, P' st.1.1 ∧ response ext w st.2 res) (hs, r, w).
Proof.
  intros HP. pose proof (wp_respond (O := unit) ext status None hs r w HP ltac:(done)) as Hw.
  unfold wp in *. unfold_M. unfold write_err_response, RespHeader_err.
  by destruct (on_writer _ _) as [[st [[]|e]]|].
Qed.

Lemma wp_wr_ioctl_with_err_payload {I O} `{FromDescriptorChain I} `{ChainBytes O}
    (Valid : I → Prop) ext ioctl (process : I → M HS (Z * option O) O) hs r w :
  P hs →
  (∀ r, wp false read_from_chain
     (λ res _, match res with Ok i => Valid i | Err _ => True end) r) →
  (∀ i hs, Valid i → P hs → wp pn (process i) (processed ext) hs) →
  wp pn (wr_ioctl_with_err_payload ioctl process)
    (λ res st, P' st.1.1 ∧ response ext w st.2 res) (hs, r, w).
Proof.
  intros HP Hread Hproc. unfold wr_ioctl_with_err_payload.
  apply wp_bind, wp_try, wp_zoom. simpl. eapply wp_panic_mono, wp_mono, Hread; [done|].
  intros [i|e] r' Hi; [|by apply wp_err_response, Hweak]. apply wp_bind, wp_try, wp_zoom. simpl.
  eapply wp_mono, (Hproc i hs Hi HP). intros [o|[e o]] hs' [HP' Ho]; simpl.
  - by apply (wp_respond ext 0 (Some o)).
  - apply (wp_respond ext e o); [done|]. intros _ He. destruct o; [congruence|done].
Qed.
End ShapesLemmas.

(** The promise of a handler to the dispatcher: on validated calls, its methods
    lead from [P] of their ioctl to [P'], and panic only in the ioctls [pn] allows to. *)
Class HandlerSpec `{V : V4l2r} {H Ses} `{!VirtioMediaIoctlHandler H Ses}
    (pn : V4l2Ioctl → bool) (P : V4l2Ioctl → H * Ses → Prop) (P' : H * Ses → Prop) : Prop := {
  spec_weaken : ∀ ioctl hs, P ioctl hs → P' hs;
  spec_methods : ∀ a E T (c : ioctl_call a E T) hs,
    call_valid c → P (call_ioctl c) hs → wp (pn (call_ioctl c)) (call c) (λ _ hs', P' hs') hs;
}.

(** The same for an invariant, which the methods keep. *)
Class HandlerInvariant `{V : V4l2r} {H Ses} `{!VirtioMediaIoctlHandler H Ses}
    (pn : V4l2Ioctl → bool) (P : H * Ses → Prop) : Prop :=
  methods : ∀ a E T (c : ioctl_call a E T) hs,
    call_valid c → P hs → wp (pn (call_ioctl c)) (call c) (λ _ hs', P hs') hs.

#[export] Instance invariant_spec `{V : V4l2r} {H Ses} `{!VirtioMediaIoctlHandler H Ses} pn
    (P : H * Ses → Prop) `{!HandlerInvariant pn P} : HandlerSpec pn (λ _, P) P.
Proof. split; [done|apply methods]. Qed.

(** A device that overrides no method keeps everything. *)
Definition unhandled_handler `{V : V4l2r} {H Ses} : VirtioMediaIoctlHandler H Ses :=
  λ a E T c, unhandled_ioctl c.

Lemma unhandled_invariant `{V : V4l2r} {H Ses} (P : H * Ses → Prop) :
  @HandlerInvariant _ H Ses unhandled_handler (λ _, false) P.
Proof. intros a E T c [h s] _ HP. by destruct c. Qed.

Section DispatchLemmas.
Context `{BM : BuildMode} `{V : V4l2r} {VL : V4l2rLaws} {H Ses : Type}
  `{!VirtioMediaIoctlHandler H Ses}.
Context (pn : V4l2Ioctl → bool) (P : V4l2Ioctl → H * Ses → Prop) (P' : H * Ses → Prop).
Context `{!HandlerSpec pn P P'}.

Definition after_dispatch (ioctl : V4l2Ioctl) (w : Writer) (res : result unit IoError)
    (st : H * Ses * Reader * Writer) : Prop :=
  P' st.1.1 ∧ response (errors_with_payload ioctl) w st.2 res.

Lemma wp_call_Z pn' {O} a T (c : ioctl_call a Z T) (k : T → M (H * Ses) Z O) hs :
  (pn (call_ioctl c) = true → pn' = true) → call_valid c → P (call_ioctl c) hs →
  (∀ t hs', P' hs' → wp pn' (k t) (λ _ hs'', P' hs'') hs') →
  wp pn' (call c ≫= k) (λ _ hs', P' hs') hs.
Proof.
  intros Hpn Hc HP Hk. apply wp_bind. eapply wp_mono, wp_panic_mono, spec_methods; [|done..].
  intros [t|e] hs'; auto.
Qed.

Lemma wp_wr_ioctl pn' {I O} `{FromDescriptorChain I} `{ChainBytes O}
    (Valid : I → Prop) ext ioctl (process : I → M (H * Ses) Z O) hs r w :
  P ioctl hs →
  (∀ r, wp false read_from_chain
     (λ res _, match res with Ok i => Valid i | Err _ => True end) r) →
  (∀ i hs, Valid i → P ioctl hs → wp pn' (process i) (λ _ hs', P' hs') hs) →
  wp pn' (wr_ioctl ioctl process)
    (λ res st, P' st.1.1 ∧ response ext w st.2 res) (hs, r, w).
Proof.
  intros HP Hread Hproc. unfold wr_ioctl.
  eapply (wp_wr_ioctl_with_err_payload _ (P ioctl) P' (spec_weaken ioctl) Valid); [done..|].
  intros i hs' Hi HP'. apply wp_map_err. eapply wp_mono, Hproc; [|done..].
  by intros [o|e] hs'' HP''; split.
Qed.

Lemma wp_simple pn' {I O} `{VmediaType I} `{ChainBytes O} ext ioctl
    (process : I → M (H * Ses) Z O) hs r w :
  P ioctl hs →
  (∀ i hs, P ioctl hs → wp pn' (process i) (λ _ hs', P' hs') hs) →
  wp pn' (wr_ioctl ioctl process)
    (λ res st, P' st.1.1 ∧ response ext w st.2 res) (hs, r, w).
Proof.
  intros HP Hproc. apply (wp_wr_ioctl _ (λ _, True)); [done| |auto].
  intros r'. eapply wp_mono, wp_read_obj. by intros [].
Qed.

Lemma wp_r_ioctl pn' {O} `{ChainBytes O} ext ioctl (process : M (H * Ses) Z O) hs r w :
  P ioctl hs →
  (∀ hs, P ioctl hs → wp pn' process (λ _ hs', P' hs') hs) →
  wp pn' (r_ioctl ioctl process)
    (λ res st, P' st.1.1 ∧ response ext w st.2 res) (hs, r, w).
Proof.
  intros HP Hproc.
  pose proof (wp_simple pn' (I := unit) ext ioctl (λ _, process) hs [] w HP ltac:(auto)) as Hw.
  unfold wp, r_ioctl in *. simpl in *.
  by destruct (wr_ioctl _ _ _) as [[[[hs' r'] w'] res]|].
Qed.

Lemma wp_ext_ctrls {a} ioctl
    (m : CtrlWhich → ext_args → list (list SgEntry) → ioctl_call a (Z * ext_args) ext_args)
    hs r w :
  errors_with_payload ioctl = true →
  (∀ which args regions, CtrlWhich_try_from args.1 = Some which →
     ext_ctrls_regions args regions → call_valid (m which args regions)) →
  (∀ which args regions, call_ioctl (m which args regions) = ioctl) →
  P ioctl hs →
  wp (pn ioctl) (wr_ioctl_with_err_payload ioctl (ext_ctrls_process m)) (after_dispatch ioctl w) (hs, r, w).
Proof.
  intros He Hm Hioctl HP. unfold after_dispatch. rewrite He.
  eapply (wp_wr_ioctl_with_err_payload _ (P ioctl) P' (spec_weaken ioctl) (λ i, ext_ctrls_regions i.1 i.2)); [done| |].
  - intros r'. eapply wp_mono, wp_read_ext_controls. by intros [[[ctrls arr] l]|e].
  - intros [[ctrls arr] l] hs' Hi HP'. unfold ext_ctrls_process.
    apply wp_bind, wp_ok_or; [intros which Hw|split; [by eapply spec_weaken|done]].
    apply wp_map_err. rewrite <-(Hioctl which (ctrls, arr) l) in HP' |- *. eapply wp_mono, spec_methods; [|auto..]. by intros [o|[e o]] hs'' HP''; split.
Qed.

(** Walks through the validations of an ioctl, up to the call. *)
Ltac solve_process :=
  repeat match goal with
  | |- wp _ (ok_or _ _ ≫= _) _ _ => apply wp_bind, wp_ok_or; [intros ? ?|by intros; eapply spec_weaken]
  | |- wp _ (guard_err ?b _ ≫= _) _ _ => apply wp_bind, wp_guard; [intros ?|by intros; eapply spec_weaken]
  | |- wp _ (unwrap _ ≫= _) _ _ =>
      apply wp_bind, wp_unwrap; [by rewrite orb_true_r|intros ? ?]
  | |- wp _ (let '(_, _) := ?p in _) _ _ => destruct p
  | |- wp _ (call _ ≫= _) _ _ => apply wp_call_Z; [done| |done|by intros]
  | |- wp _ (call _) _ _ => eapply wp_panic_mono, spec_methods; [done| |done]
  | |- call_valid _ => simpl; repeat case_bool_decide; naive_solver eauto using reqbufs_count_u32
  end.

Lemma wp_dispatch ioctl hs r w :
  P ioctl hs →
  wp (pn ioctl || validation_panics ioctl) (virtio_media_dispatch_ioctl ioctl)
    (after_dispatch ioctl w) (hs, r, w).
Proof.
  intros HP. assert (pn ioctl = true → pn ioctl || validation_panics ioctl = true) as Hpn by by intros ->.
  destruct ioctl; unfold after_dispatch; cbn [virtio_media_dispatch_ioctl errors_with_payload];
    unfold w_ioctl, invalid_ioctl, s_modulator_process, s_frequency_process, try_fmt_process, enum_frameintervals_process, subscribe_event_process, create_bufs_process, prepare_buf_process, g_selection_process, s_selection_process, enum_dv_timings_process, enum_freq_bands_process, query_ext_ctrl_process;
    first [ by apply wp_err_response, (spec_weaken _ _ HP)
          | by eapply wp_panic_mono; [|by apply wp_ext_ctrls]
          | apply wp_simple; [apply _|done|]; intros input hs'
          | apply wp_r_ioctl; [apply _|done|]; intros hs'
          | apply (wp_wr_ioctl _ (λ i, buffer_regions i.1 i.2));
              [done|apply wp_read_buffer|intros [b l] hs' Hb] ];
    intros HP'; solve_process.
Qed.
End DispatchLemmas.

(** ** Properties *)

(** The ioctls the dispatcher answers by itself. *)
Definition unsupported : list V4l2Ioctl :=
  [VIDIOC_QUERYCAP; VIDIOC_G_FBUF; VIDIOC_S_FBUF; VIDIOC_OVERLAY; VIDIOC_EXPBUF; VIDIOC_DQBUF;
   VIDIOC_G_EDID; VIDIOC_S_EDID; VIDIOC_CROPCAP; VIDIOC_G_CROP; VIDIOC_S_CROP;
   VIDIOC_G_JPEGCOMP; VIDIOC_S_JPEGCOMP; VIDIOC_G_PRIORITY; VIDIOC_S_PRIORITY;
   VIDIOC_G_SLICED_VBI_CAP; VIDIOC_LOG_STATUS; VIDIOC_DBG_G_REGISTER; VIDIOC_DBG_S_REGISTER;
   VIDIOC_S_HW_FREQ_SEEK; VIDIOC_DQEVENT; VIDIOC_DBG_G_CHIP_INFO].

(** The structure every other ioctl reads first; [R] ioctls read nothing. *)
Definition input_size `{V4l2r} (ioctl : V4l2Ioctl) : nat :=
  match ioctl with
  | VIDIOC_ENUM_FMT => size_of (vstruct v4l2_fmtdesc)
  | VIDIOC_G_FMT | VIDIOC_S_FMT | VIDIOC_TRY_FMT => size_of (vstruct v4l2_format)
  | VIDIOC_REQBUFS => size_of (vstruct v4l2_requestbuffers)
  | VIDIOC_QUERYBUF | VIDIOC_QBUF | VIDIOC_PREPARE_BUF => size_of (vstruct v4l2_buffer)
  | VIDIOC_STREAMON | VIDIOC_STREAMOFF => size_of u32
  | VIDIOC_G_PARM | VIDIOC_S_PARM => size_of (vstruct v4l2_streamparm)
  | VIDIOC_S_STD => size_of (vstruct v4l2_std_id)
  | VIDIOC_ENUMSTD => size_of (vstruct v4l2_standard)
  | VIDIOC_ENUMINPUT => size_of (vstruct v4l2_input)
  | VIDIOC_G_CTRL | VIDIOC_S_CTRL => size_of (vstruct v4l2_control)
  | VIDIOC_G_TUNER | VIDIOC_S_TUNER => size_of (vstruct v4l2_tuner)
  | VIDIOC_S_AUDIO | VIDIOC_ENUMAUDIO => size_of (vstruct v4l2_audio)
  | VIDIOC_QUERYCTRL => size_of (vstruct v4l2_queryctrl)
  | VIDIOC_QUERYMENU => size_of (vstruct v4l2_querymenu)
  | VIDIOC_S_INPUT | VIDIOC_S_OUTPUT => size_of i32
  | VIDIOC_ENUMOUTPUT => size_of (vstruct v4l2_output)
  | VIDIOC_S_AUDOUT | VIDIOC_ENUMAUDOUT => size_of (vstruct v4l2_audioout)
  | VIDIOC_G_MODULATOR | VIDIOC_S_MODULATOR => size_of (vstruct v4l2_modulator)
  | VIDIOC_G_FREQUENCY | VIDIOC_S_FREQUENCY => size_of (vstruct v4l2_frequency)
  | VIDIOC_G_EXT_CTRLS | VIDIOC_S_EXT_CTRLS | VIDIOC_TRY_EXT_CTRLS =>
      size_of (vstruct v4l2_ext_controls)
  | VIDIOC_ENUM_FRAMESIZES => size_of (vstruct v4l2_frmsizeenum)
  | VIDIOC_ENUM_FRAMEINTERVALS => size_of (vstruct v4l2_frmivalenum)
  | VIDIOC_ENCODER_CMD | VIDIOC_TRY_ENCODER_CMD => size_of (vstruct v4l2_encoder_cmd)
  | VIDIOC_S_DV_TIMINGS | VIDIOC_G_DV_TIMINGS => size_of (vstruct v4l2_dv_timings)
  | VIDIOC_SUBSCRIBE_EVENT | VIDIOC_UNSUBSCRIBE_EVENT =>
      size_of (vstruct v4l2_event_subscription)
  | VIDIOC_CREATE_BUFS => size_of (vstruct v4l2_create_buffers)
  | VIDIOC_G_SELECTION | VIDIOC_S_SELECTION => size_of (vstruct v4l2_selection)
  | VIDIOC_DECODER_CMD | VIDIOC_TRY_DECODER_CMD => size_of (vstruct v4l2_decoder_cmd)
  | VIDIOC_ENUM_DV_TIMINGS => size_of (vstruct v4l2_enum_dv_timings)
  | VIDIOC_DV_TIMINGS_CAP => size_of (vstruct v4l2_dv_timings_cap)
  | VIDIOC_ENUM_FREQ_BANDS => size_of (vstruct v4l2_frequency_band)
  | VIDIOC_QUERY_EXT_CTRL => size_of (vstruct v4l2_query_ext_ctrl)
  | _ => 0
  end.

(** The response to a command that is answered by an error and nothing else. *)
Definition err_response (code : Z) (w : Writer) : outcome (Writer * result unit IoError) :=
  write_all (c_enc c_RespHeader (RespHeader_err code)) w.

Section Properties.
Context `{BM : BuildMode} `{V : V4l2r} {H Ses : Type} `{!VirtioMediaIoctlHandler H Ses}.

Lemma wr_ioctl_unreadable {I O} `{FromDescriptorChain I} `{ToDescriptorChain O}
    ioctl (process : I → M (H * Ses) (Z * option O) O) hs r w r' e :
  read_from_chain r = Ret (r', Err e) →
  wr_ioctl_with_err_payload ioctl process (hs, r, w) =
  '(w', res) ← err_response EINVAL w; Ret ((hs, r', w'), res).
Proof.
  intros Hr. unfold wr_ioctl_with_err_payload. unfold_M. unfold on_reader, on_writer, zoom.
  cbn [fst snd]. rewrite Hr. unfold mbind, outcome_bind, err_response. simpl.
  change (write_err_response EINVAL w) with (write_all (c_enc c_RespHeader (RespHeader_err EINVAL)) w).
  by destruct (write_all _ w) as [[w' res]|].
Qed.

Lemma response_failure ext w w' res e :
  response ext w w' res → res = Err e → e = WriteZero ∧ room w' = 0%nat.
Proof.
  intros (status&payload&Hw&_) ->. unfold write_all in Hw. case_match; by inv Hw.
Qed.

(** C11: the dispatcher panics in no ioctl but [SUBSCRIBE_EVENT] and those in
    which the handler's method may; it keeps every invariant that the methods
    keep on validated calls, and answers with one header followed by a payload,
    which errors carry only for the ext control ioctls. *)
Theorem dispatch_is_safe {VL : V4l2rLaws} pn (P : H * Ses → Prop) `{!HandlerInvariant pn P}
    ioctl hs r w :
  pn ioctl = false → validation_panics ioctl = false → P hs →
  ∃ hs' r' w' res,
    virtio_media_dispatch_ioctl ioctl (hs, r, w) = Ret ((hs', r', w'), res) ∧ P hs' ∧
    response (errors_with_payload ioctl) w w' res.
Proof.
  intros Hpn Hv HP. pose proof (wp_dispatch pn (λ _, P) P ioctl hs r w HP) as Hw.
  rewrite Hpn, Hv in Hw. unfold wp, after_dispatch in Hw.
  destruct (virtio_media_dispatch_ioctl ioctl (hs, r, w)) as [[[[hs' r'] w'] res]|]; [|done].
  destruct Hw as [HP' Hresp]. by exists hs', r', w', res.
Qed.

(** C31: the dispatcher returns an error to its caller only when the response
    did not fit in the writer, which is then full. *)
Theorem dispatch_fails_only_when_full {VL : V4l2rLaws} ioctl hs r w st e :
  virtio_media_dispatch_ioctl ioctl (hs, r, w) = Ret (st, Err e) →
  e = WriteZero ∧ room st.2 = 0%nat.
Proof.
  intros Hd. assert (HandlerInvariant (λ _, true) (λ _ : H * Ses, True)).
  { intros a E T c hs' _ _. unfold wp. by destruct (call c hs') as [[? ?]|]. }
  pose proof (wp_dispatch (λ _, true) (λ _ _, True) (λ _, True) ioctl hs r w I) as Hw.
  unfold wp, after_dispatch in Hw. rewrite Hd in Hw. eapply response_failure; [apply Hw|done].
Qed.

(** An ioctl that the dispatcher does not support gets [ENOTTY]; the device,
    the session and the payload are left alone. *)
Theorem unsupported_ioctl_gets_ENOTTY ioctl hs r w :
  ioctl ∈ unsupported →
  virtio_media_dispatch_ioctl ioctl (hs, r, w) =
  '(w', res) ← err_response ENOTTY w; Ret ((hs, r, w'), res).
Proof.
  intros Hin. assert (virtio_media_dispatch_ioctl ioctl = invalid_ioctl ioctl) as ->.
  { unfold unsupported in Hin. repeat (apply elem_of_cons in Hin as [->|Hin]; [done|]).
    by apply not_elem_of_nil in Hin. }
  unfold invalid_ioctl, on_writer, zoom, err_response. simpl.
  change (write_err_response ENOTTY w) with (write_all (c_enc c_RespHeader (RespHeader_err ENOTTY)) w).
  unfold mbind, outcome_bind. by destruct (write_all _ w) as [[w' res]|].
Qed.

Lemma read_bind_short {T A} `{VmediaType T} (f : T → M Reader IoError A) r :
  (length r < size_of T)%nat → (read_obj ≫= f) r = Ret ([], Err UnexpectedEof).
Proof. intros Hr. unfold_M. by rewrite read_obj_short. Qed.

(** When the payload of an ioctl is shorter than its structure, the guest
    gets [EINVAL] and no method of the device is called. *)
Theorem short_input_gets_EINVAL ioctl hs r w :
  (length r < input_size ioctl)%nat →
  virtio_media_dispatch_ioctl ioctl (hs, r, w) =
  '(w', res) ← err_response EINVAL w; Ret ((hs, [], w'), res).
Proof.
  intros Hr. destruct ioctl; cbn [input_size] in Hr; try lia;
    cbn [virtio_media_dispatch_ioctl]; unfold w_ioctl, wr_ioctl;
    eapply wr_ioctl_unreadable;
    first [by apply (read_obj_short (T := vstruct _))|by apply (read_obj_short (T := u32))
          |by apply (read_obj_short (T := i32))
          |by apply (read_bind_short (T := vstruct _))].
Qed.

(** A [SUBSCRIBE_EVENT] for an event the host library does not know panics
    the device, whatever the device and its state. *)
Theorem subscribe_unknown_event_panics input hs r r' w :
  read_obj (T := vstruct v4l2_event_subscription) r = Ret (r', Ok input) →
  EventType_try_from input = None →
  virtio_media_dispatch_ioctl VIDIOC_SUBSCRIBE_EVENT (hs, r, w) = Panic.
Proof.
  intros Hr He. cbn [virtio_media_dispatch_ioctl].
  unfold w_ioctl, wr_ioctl, wr_ioctl_with_err_payload, subscribe_event_process, on_reader, on_handler,
    zoom. unfold_M. cbn [fst snd]. unfold read_from_chain, from_vmedia. rewrite Hr. by rewrite He.
Qed.

(** C32: the answer to a [QBUF] whose input is readable: the header, then on
    success the buffer without its host pointer and at most as many planes as
    the guest's buffer has; an error is a header alone. *)
Theorem qbuf_response hs r w r' buffer regions :
  read_buffer_from_chain r = Ret (r', Ok (buffer, regions)) →
  virtio_media_dispatch_ioctl VIDIOC_QBUF (hs, r, w) =
  match call (Call.qbuf buffer regions) hs with
  | Panic => Panic
  | Ret (hs', Err e) => '(w', res) ← err_response e w; Ret ((hs', r', w'), res)
  | Ret (hs', Ok out) =>
      let b := buf_as_v4l2_buffer out in
      '(w', res) ← write_all
        (c_enc c_RespHeader RespHeader_ok ++
         c_enc vmedia (if is_multiplanar (buf_queue out) then set_fld "m.planes" 0 b else b) ++
         mjoin (c_enc vmedia <$> take (buf_num_planes buffer) (buf_as_v4l2_planes out))) w;
      Ret ((hs', r', w'), res)
  end.
Proof.
  intros Hr. cbn [virtio_media_dispatch_ioctl].
  unfold wr_ioctl, wr_ioctl_with_err_payload, on_reader, on_handler, on_writer, zoom.
  unfold_M. cbn [fst snd]. unfold read_from_chain, from_buffer. rewrite Hr. cbn [fst snd].
  destruct (call (Call.qbuf buffer regions) hs) as [[hs' [out|e]]|]; [| |done];
    cbn [fst snd]; cbv zeta.
  - rewrite <-write_all_app. unfold_M. unfold write_response, write_obj at 1. cbn [from_le to_le].
    change (c_enc vmedia RespHeader_ok) with (c_enc c_RespHeader RespHeader_ok).
    destruct (write_all _ w) as [[w1 [[]|e1]]|]; [|done..].
    unfold write_to_chain, to_buffer. cbn [fst snd]. rewrite write_buffer_bytes. cbn [fst snd].
    rewrite Nat2Z.id. unfold outcome_bind. by destruct (write_all _ w1) as [[w2 res]|].
  - unfold err_response, write_response, write_obj, outcome_bind. cbn [from_le to_le fst snd].
    change (c_enc vmedia (RespHeader_err e)) with (c_enc c_RespHeader (RespHeader_err e)).
    by destruct (write_all _ w) as [[w1 [[]|e1]]|].
Qed.
End Properties.

(** C30: reading the guest memory regions of a buffer terminates without a panic on
    any guest input.  When some prefix of the entries in the input covers the
    requested size, the result is the shortest such prefix and exactly its bytes are
    consumed; when all of them together do not, the result is [UnexpectedEof]. *)
Theorem userptr_regions_cover `{BuildMode} size r :
  is_u32 size →
  (∃ k, (k ≤ length (sg_entries r))%nat ∧
     get_userptr_regions size r = Ret (drop (16 * k) r, Ok (take k (sg_entries r))) ∧
     size ≤ sg_total (take k (sg_entries r)) ∧
     ∀ j, (j < k)%nat → sg_total (take j (sg_entries r)) < size) ∨
  (sg_total (sg_entries r) < size ∧ get_userptr_regions size r = Ret ([], Err UnexpectedEof)).
Proof.
  intros Hs. destruct (get_userptr_regions_spec size r Hs) as [(k&Hk&Hr&Hc&Hpre)|Hr]; [|by right].
  left. exists k. split_and!; [done..|]. intros j Hj.
  specialize (Hpre j). rewrite length_take, take_take in Hpre.
  replace (j `min` k)%nat with j in Hpre by lia. apply Hpre. lia.
Qed.

(** ** Witnesses, on the sample instance and a device without methods *)

Module IoctlWitness.
Import Sample.

#[local] Instance debug_build : BuildMode := true.
#[local] Instance handler : VirtioMediaIoctlHandler nat nat := unhandled_handler.

Definition writer : Writer := mkWriter [] 64.

Lemma dispatch_is_safe_witness :
  ∃ hs' r' w' res,
    virtio_media_dispatch_ioctl VIDIOC_G_FMT ((3, 4)%nat, [], writer) = Ret ((hs', r', w'), res) ∧
    hs' = (3, 4)%nat ∧ response false writer w' res.
Proof.
  exact (@dispatch_is_safe _ _ nat nat _ _ (λ _, false) (λ hs, hs = (3, 4)%nat)
    (unhandled_invariant _) VIDIOC_G_FMT (3, 4)%nat [] writer eq_refl eq_refl eq_refl).
Defined.

Lemma dispatch_fails_only_when_full_witness :
  ∃ st e, virtio_media_dispatch_ioctl VIDIOC_QUERYCAP ((0, 0)%nat, [], mkWriter [] 3)
            = Ret (st, Err e) ∧ room st.2 = 0%nat.
Proof.
  eexists _, _. split; [reflexivity|].
  eapply (dispatch_fails_only_when_full VIDIOC_QUERYCAP (0, 0)%nat [] (mkWriter [] 3)).
  reflexivity.
Defined.

Lemma unsupported_ioctl_gets_ENOTTY_witness :
  virtio_media_dispatch_ioctl VIDIOC_EXPBUF ((0, 0)%nat, [x01], writer) =
  '(w', res) ← err_response ENOTTY writer; Ret (((0, 0)%nat, [x01], w'), res).
Proof. apply unsupported_ioctl_gets_ENOTTY. apply (bool_decide_unpack _). reflexivity. Defined.

Lemma short_input_gets_EINVAL_witness :
  virtio_media_dispatch_ioctl VIDIOC_REQBUFS ((0, 0)%nat, [x01; x02], writer) =
  '(w', res) ← err_response EINVAL writer; Ret (((0, 0)%nat, [], w'), res).
Proof. apply short_input_gets_EINVAL. vm_compute. lia. Defined.

Lemma subscribe_unknown_event_panics_witness :
  virtio_media_dispatch_ioctl VIDIOC_SUBSCRIBE_EVENT ((0, 0)%nat, replicate 16 x01, writer) = Panic.
Proof.
  apply (subscribe_unknown_event_panics (V := sample_v4l2r)
    ((0x01010101, 0x01010101), (0x01010101, 0x01010101)) _ _ []); reflexivity.
Defined.

(** A MMAP buffer of the multi-planar capture queue, with one plane. *)
Definition qbuf_input : list byte := c_enc c_st ((9, 1), (0, 1)) ++ c_enc c_st ((0, 4096), (0, 0)).

Lemma qbuf_response_witness :
    virtio_media_dispatch_ioctl VIDIOC_QBUF ((0, 0)%nat, qbuf_input, writer) =
    '(w', res) ← err_response ENOTTY writer; Ret (((0, 0)%nat, [], w'), res).
Proof.
  etransitivity; [apply (qbuf_response (V := sample_v4l2r) (0, 0)%nat qbuf_input writer []
    (mkBuf 9 0 1 0 (mkTimeval 0 0) 0 [mkPlane 4096 0 None 0]) []); vm_compute|]; reflexivity.
Defined.

(** Three regions in the input, of which the first two cover 4096 bytes, and the
    same input cut in the second one. *)
Definition regions : list SgEntry :=
  [mkSgEntry 0x1000 3000 0; mkSgEntry 0x9000 5000 0; mkSgEntry 0x11000 8 0].
Definition regions_input : Reader := mjoin (c_enc c_SgEntry <$> regions).

Lemma userptr_regions_cover_witness :
  get_userptr_regions 4096 regions_input =
    Ret (c_enc c_SgEntry (mkSgEntry 0x11000 8 0), Ok (take 2 regions)) ∧
  get_userptr_regions 4096 (take 31 regions_input) = Ret ([], Err UnexpectedEof).
Proof.
  assert (sg_entries regions_input = regions) as He by (vm_compute; reflexivity).
  assert (sg_entries (take 31 regions_input) = take 1 regions) as He' by (vm_compute; reflexivity).
  split.
  - destruct (userptr_regions_cover 4096 regions_input) as [(k&Hk&Hr&Hge&Hlt)|[Hlt _]]; [mlia| |].
    + rewrite He in Hk, Hr, Hge, Hlt. assert (k = 2%nat) as ->.
      { pose proof (Hlt 2%nat) as H2. cbn in H2. destruct k as [|[|[|k]]]; cbn in Hge; lia. }
      rewrite Hr. reflexivity.
    + rewrite He in Hlt. cbn in Hlt. lia.
  - destruct (userptr_regions_cover 4096 (take 31 regions_input)) as [(k&Hk&_&Hge&_)|[_ Hr]];
      [mlia| |exact Hr].
    rewrite He' in Hk, Hge. destruct k as [|[|k]]; cbn in Hk, Hge; lia.
Defined.
End IoctlWitness.
