(* ===== verification/Runner.v ===== *)
(** * The device runner ([device/src/lib.rs])

    [VirtioMediaDeviceRunner] owns a device and its sessions, and turns the
    commands of the guest into calls to the device.  [VirtioMediaDevice] is the
    trait of devices; [DeviceContract] is what a device promises to the runner,
    as an invariant over the device and all its open sessions. *)

From Stdlib Require Import Strings.Byte.
From S2P Require Import Prelude Traits Bytes Protocol Io V4l2r Ioctl.
#[local] Open Scope Z_scope.

(** ** The traits *)

(** [VirtioMediaEventQueue]: the queue of events to the guest. *)
Class VirtioMediaEventQueue `{V4l2r} (Q : Type) :=
  send_event : V4l2Event V4l2Buffer (vstruct v4l2_event) → Q → Q.

(** The default method [send_error]. *)
Definition send_error `{VirtioMediaEventQueue Q} (session_id errno : Z) (q : Q) : Q :=
  send_event (EvError (ErrorEvent_new session_id errno)) q.

(** [VirtioMediaDevice] and [VirtioMediaDeviceSession]. *)
Class VirtioMediaDevice (D Ses : Type) := {
  new_session : Z → M D Z Ses;
  close_session : Ses → D → outcome D;
  do_ioctl : V4l2Ioctl → M (D * Ses * Reader * Writer) IoError unit;
  do_mmap : Z → Z → M (D * Ses) Z (Z * Z);
  do_munmap : Z → M D Z unit;
  process_events : M (D * Ses) Z unit;
  poll_fd : Ses → option Fd;
}.

(** The default [process_events]. *)
Definition default_process_events {D Ses} : M (D * Ses) Z unit := panic.

(** ** [VirtioMediaDeviceRunner] *)

Record VirtioMediaDeviceRunner (D Ses P : Type) := mkRunner {
  device : D;
  poller : P;
  sessions : gmap Z Ses;
  session_id_counter : Z;
}.
Arguments mkRunner {D Ses P} _ _ _ _.
Arguments device {D Ses P} _.
Arguments poller {D Ses P} _.
Arguments sessions {D Ses P} _.
Arguments session_id_counter {D Ses P} _.

(** [VirtioMediaDeviceRunner::new] *)
Definition runner_new {D Ses P} (d : D) (p : P) : VirtioMediaDeviceRunner D Ses P :=
  mkRunner d p ∅ 0.

(** [VirtioMediaDeviceRunner::into_device] *)
Definition into_device {D Ses P} (self : VirtioMediaDeviceRunner D Ses P) : D := device self.

Section Runner.
Context `{BM : BuildMode} {D Ses P : Type} `{!VirtioMediaDevice D Ses} `{!SessionPoller P}.
Abbreviation Runner := (VirtioMediaDeviceRunner D Ses P).
Abbreviation State := (Runner * Reader * Writer)%type.

(** *** Views of the runner *)

Definition set_device (d : D) (r : Runner) : Runner :=
  mkRunner d (poller r) (sessions r) (session_id_counter r).
Definition set_sessions (m : gmap Z Ses) (r : Runner) : Runner :=
  mkRunner (device r) (poller r) m (session_id_counter r).

Definition on_device {E A} (m : M D E A) : M State E A := on_handler (zoom device set_device m).

Definition on_poller {E A} (m : P → outcome (P * result A E)) : M State E A :=
  on_handler (zoom poller
    (λ p r, mkRunner (device r) p (sessions r) (session_id_counter r)) m).

(** A [&mut] borrow of the session [id], found as [s], next to the device. *)
Definition on_session {E A} (id : Z) (s : Ses) (m : M (D * Ses) E A) : M State E A :=
  on_handler (λ r, match m (device r, s) with
                   | Panic => Panic
                   | Ret ((d, s'), res) => Ret (set_sessions (<[id := s']> (sessions r)) (set_device d r), res)
                   end).

(** The same, with the reader and the writer. *)
Definition on_session_io {E A} (id : Z) (s : Ses) (m : M (D * Ses * Reader * Writer) E A) :
    M State E A :=
  λ st, match m (device st.1.1, s, st.1.2, st.2) with
        | Panic => Panic
        | Ret ((d, s', r, w), res) =>
            Ret ((set_sessions (<[id := s']> (sessions st.1.1)) (set_device d st.1.1), r, w), res)
        end.

Definition get_session {E} (id : Z) : M State E (option Ses) := gets (λ st, sessions st.1.1 !! id).

(** [self.device.close_session(session)] *)
Definition close {E} (s : Ses) : M State E unit :=
  on_device (λ d, d ← close_session s d; Ret (d, Ok tt)).

(** [self.poller.remove_session(fd)] *)
Definition poller_remove {E} (fd : Fd) : M State E unit :=
  on_poller (λ p, p ← remove_session p fd; Ret (p, Ok tt)).

(** [self.sessions.insert(session_id, session); self.session_id_counter += 1] *)
Definition insert_session {E} (id : Z) (s : Ses) : M State E unit :=
  modify (λ st, (set_sessions (<[id := s]> (sessions st.1.1)) st.1.1, st.1.2, st.2)) ;;
  r ← gets (λ st, st.1.1);
  counter ← lift_outcome (u32_add (session_id_counter r) 1);
  modify (λ st, (mkRunner (device st.1.1) (poller st.1.1) (sessions st.1.1) counter,
                 st.1.2, st.2)).

(** *** The commands, as the branches of [handle_command] *)

Definition cmd_open : M State IoError unit :=
  session_id ← gets (λ st, session_id_counter st.1.1);
  res ← try_m (on_device (new_session session_id));
  match res with
  | Ok session =>
      match poll_fd session with
      | Some fd =>
          res ← try_m (on_poller (λ p, add_session p fd session_id));
          match res with
          | Ok _ =>
              insert_session session_id session ;;
              on_writer (write_response (OpenResp_ok session_id))
          | Err e => close session ;; on_writer (write_err_response e)
          end
      | None =>
          insert_session session_id session ;;
          on_writer (write_response (OpenResp_ok session_id))
      end
  | Err e => on_writer (write_err_response e)
  end.

Definition cmd_close : M State IoError unit :=
  cmd ← on_reader (read_obj (T := CloseCmd));
  session ← get_session (cc_session_id cmd);
  match session with
  | Some session =>
      modify (λ st, (set_sessions (delete (cc_session_id cmd) (sessions st.1.1)) st.1.1,
                     st.1.2, st.2)) ;;
      match poll_fd session with
      | Some fd => poller_remove fd
      | None => mret tt
      end ;;
      close session
  | None => mret tt
  end.

Definition cmd_ioctl : M State IoError unit :=
  cmd ← on_reader (read_obj (T := IoctlCmd));
  session ← get_session (ic_session_id cmd);
  match session with
  | Some session =>
      match V4l2Ioctl_n (ic_code cmd) with
      | Some ioctl => on_session_io (ic_session_id cmd) session (do_ioctl ioctl)
      | None => on_writer (write_err_response ENOTTY)
      end
  | None => on_writer (write_err_response EINVAL)
  end.

Definition cmd_mmap : M State IoError unit :=
  cmd ← on_reader (read_obj (T := MmapCmd));
  session ← get_session (mc_session_id cmd);
  res ← try_m (match session with
               | Some session =>
                   on_session (mc_session_id cmd) session (do_mmap (mc_flags cmd) (mc_offset cmd))
               | None => throw EINVAL
               end);
  match res with
  | Ok (guest_addr, size) => on_writer (write_response (MmapResp_ok guest_addr size))
  | Err e => on_writer (write_err_response e)
  end.

Definition cmd_munmap : M State IoError unit :=
  cmd ← on_reader (read_obj (T := MunmapCmd));
  res ← try_m (on_device (do_munmap (mu_driver_addr cmd)));
  match res with
  | Ok _ => on_writer (write_response MunmapResp_ok)
  | Err e => on_writer (write_err_response e)
  end.

Definition dispatch_cmd (code : Z) : M State IoError unit :=
  if code =? VIRTIO_MEDIA_CMD_OPEN then cmd_open
  else if code =? VIRTIO_MEDIA_CMD_CLOSE then cmd_close
  else if code =? VIRTIO_MEDIA_CMD_IOCTL then cmd_ioctl
  else if code =? VIRTIO_MEDIA_CMD_MMAP then cmd_mmap
  else if code =? VIRTIO_MEDIA_CMD_MUNMAP then cmd_munmap
  else on_writer (write_err_response ENOTTY).

(** [VirtioMediaDeviceRunner::handle_command] *)
Definition handle_command : M State Empty_set unit :=
  hdr ← try_m (on_reader (read_obj (T := CmdHeader)));
  match hdr with
  | Err e => ignore_err (on_writer (write_err_response EINVAL))
  | Ok hdr =>
      res ← try_m (dispatch_cmd (cmd hdr));
      match res with
      | Err e => ignore_err (on_writer (write_err_response EINVAL))
      | Ok _ => mret tt
      end
  end.
End Runner.

(** ** What a device promises to the runner

    [I n d m] is an invariant of the device and its open sessions after at most
    [n] MMAP commands and ioctls (mappings and queued buffers are counted in 64 bits).
    [panics] are the ioctls on which the device may panic, [guard] tells on which
    sessions it expects an ioctl, and [opens] in which states it opens a session
    without a panic. *)
Class GuardedContract {D Ses} `{!VirtioMediaDevice D Ses} (panics : V4l2Ioctl → bool)
    (guard : V4l2Ioctl → Ses → bool) (opens : D → bool) (I : Z → D → gmap Z Ses → Prop) : Prop := {
  contract_mono : ∀ n d m, I n d m → I (n + 1) d m;
  contract_new : ∀ n d m id, I n d m → is_u32 id → m !! id = None →
    wp (negb (opens d)) (new_session id)
      (λ r d', match r with Ok s => I n d' (<[id := s]> m) | Err _ => I n d' m end) d;
  contract_close : ∀ n d m id s, I n d m → m !! id = Some s →
    ∃ d', close_session s d = Ret d' ∧ I n d' (delete id m);
  contract_ioctl : ∀ n d m id s ioctl r w, I n d m → 0 ≤ n < u64_max → m !! id = Some s →
    guard ioctl s = true →
    wp (panics ioctl) (do_ioctl ioctl)
      (λ _ st, I (n + 1) st.1.1.1 (<[id := st.1.1.2]> m)) (d, s, r, w);
  contract_mmap : ∀ n d m id s flags offset, I n d m → 0 ≤ n < u64_max → m !! id = Some s →
    is_u32 offset →
    wp false (do_mmap flags offset) (λ _ ds, I (n + 1) ds.1 (<[id := ds.2]> m)) (d, s);
  contract_munmap : ∀ n d m addr, I n d m → wp false (do_munmap addr) (λ _ d', I n d' m) d;
}.

(** The contract of a device that expects every ioctl on every session, and opens
    sessions in every state. *)
Class DeviceContract {D Ses} `{!VirtioMediaDevice D Ses} (panics : V4l2Ioctl → bool)
    (I : Z → D → gmap Z Ses → Prop) : Prop :=
  device_contract :: GuardedContract panics (λ _ _, true) (λ _, true) I.

(** A poller that serves every session of the device. *)
Class PollerContract {P} `{!SessionPoller P} (Ses : Type) {D} `{!VirtioMediaDevice D Ses} : Prop := {
  poller_adds : ∀ p s fd id, poll_fd s = Some fd → add_session p fd id ≠ Panic;
  poller_removes : ∀ p s fd, poll_fd s = Some fd → remove_session p fd ≠ Panic;
}.

(** The session a command names, and the ioctl it asks for. *)
Definition named_session (r : Reader) : option Z :=
  hdr ← parse (T := CmdHeader) r;
  let r' := drop (size_of CmdHeader) r in
  if cmd hdr =? VIRTIO_MEDIA_CMD_CLOSE then cc_session_id <$> parse r'
  else if cmd hdr =? VIRTIO_MEDIA_CMD_IOCTL then ic_session_id <$> parse r'
  else if cmd hdr =? VIRTIO_MEDIA_CMD_MMAP then mc_session_id <$> parse r'
  else None.

Definition requested_ioctl (r : Reader) : option V4l2Ioctl :=
  hdr ← parse (T := CmdHeader) r;
  if cmd hdr =? VIRTIO_MEDIA_CMD_IOCTL
  then c ← parse (T := IoctlCmd) (drop (size_of CmdHeader) r); V4l2Ioctl_n (ic_code c)
  else None.

Section Lemmas.
Context `{BM : BuildMode} {D Ses P : Type} `{!VirtioMediaDevice D Ses} `{!SessionPoller P}.
Context (panics : V4l2Ioctl → bool) (I : Z → D → gmap Z Ses → Prop).
Context {guard : V4l2Ioctl → Ses → bool} {opens : D → bool}.
Context `{GC : !GuardedContract panics guard opens I}.
Abbreviation Runner := (VirtioMediaDeviceRunner D Ses P).

(** The ids of the open sessions are below the counter. *)
Definition runner_wf (n : Z) (rn : Runner) : Prop :=
  I n (device rn) (sessions rn) ∧ is_u32 (session_id_counter rn) ∧
  ∀ id, is_Some (sessions rn !! id) → 0 ≤ id < session_id_counter rn.

(** The runner after a command that names the session [named]: the invariant
    holds, at most one id was allocated, every other session is untouched, and
    a session can only appear under the id that was allocated. *)
Definition after_command (n : Z) (rn : Runner) (named : option Z) (rn' : Runner) : Prop :=
  runner_wf (n + 1) rn' ∧
  session_id_counter rn ≤ session_id_counter rn' ≤ session_id_counter rn + 1 ∧
  (∀ j, j ≠ session_id_counter rn → named ≠ Some j → sessions rn' !! j = sessions rn !! j) ∧
  (∀ j, sessions rn !! j = None → is_Some (sessions rn' !! j) → j = session_id_counter rn).

Lemma runner_wf_mono n rn : runner_wf n rn → runner_wf (n + 1) rn.
Proof. intros [HI Hid]. split; [by apply contract_mono|done]. Qed.

Lemma after_refl n rn named : runner_wf n rn → after_command n rn named rn.
Proof.
  intros Hwf. split; [by apply runner_wf_mono|]. split; [lia|]. split; [done|]. intros j ->. by intros [].
Qed.

Definition post (n : Z) (rn : Runner) (named : option Z) {A E : Type} (_ : result A E)
    (st : Runner * Reader * Writer) : Prop := after_command n rn named st.1.1.

(** Every response ends with a write, which does not touch the runner. *)
Lemma wp_write {T} `{VmediaType T} pn (x : T) n rn named rn' r w :
  after_command n rn named rn' →
  wp pn (on_writer (write_response x)) (post n rn named) (rn', r, w).
Proof.
  intros HQ. apply wp_zoom. cbn [fst snd]. unfold wp, write_response, write_obj.
  by destruct (write_all_total (c_enc vmedia (from_le (to_le x))) w) as (w'&res&->).
Qed.

Lemma wp_write_err pn code n rn named rn' r w :
  after_command n rn named rn' →
  wp pn (on_writer (write_err_response code)) (post n rn named) (rn', r, w).
Proof. apply wp_write. Qed.

(** Reading a command: the rest of the branch runs on what was parsed. *)
Lemma wp_read {T} `{VmediaType T} pn (k : T → M (Runner * Reader * Writer) IoError unit)
    n rn named r w :
  runner_wf n rn →
  (∀ c, parse r = Some c → wp pn (k c) (post n rn named) (rn, drop (size_of T) r, w)) →
  wp pn (on_reader read_obj ≫= k) (post n rn named) (rn, r, w).
Proof.
  intros Hwf Hk. apply wp_bind, wp_zoom. cbn [fst snd]. unfold wp at 1.
  rewrite read_obj_parse. destruct (parse r) as [c|]; [by apply Hk|by apply after_refl].
Qed.

(** A device method runs next to the sessions. *)
Lemma wp_on_device {E A} pn (m : M D E A) (Q : result A E → Runner * Reader * Writer → Prop) rn r w :
  wp pn m (λ res d, Q res (set_device d rn, r, w)) (device rn) →
  wp pn (on_device m) Q (rn, r, w).
Proof. intros Hm. by apply wp_zoom, wp_zoom. Qed.

Lemma after_device n rn named d :
  runner_wf n rn → I (n + 1) d (sessions rn) → after_command n rn named (set_device d rn).
Proof.
  intros (HI&Hc&Hid) HI'. split; [done|]. split; [simpl; lia|]. split; [done|].
  simpl. intros j ->. by intros [].
Qed.

(** A session is replaced by its new state. *)
Lemma after_session n rn id s s' d :
  runner_wf n rn → sessions rn !! id = Some s → I (n + 1) d (<[id := s']> (sessions rn)) →
  after_command n rn (Some id) (set_sessions (<[id := s']> (sessions rn)) (set_device d rn)).
Proof.
  intros (HI&Hc&Hid) Hs HI'. split; [split; [done|]|split_and!].
  - split; [done|]. intros j Hj. apply Hid. simpl in Hj.
    destruct (decide (id = j)) as [->|]; [done|]. by rewrite lookup_insert_ne in Hj.
  - simpl. lia.
  - simpl. lia.
  - intros j _ Hj. simpl. apply lookup_insert_ne. congruence.
  - simpl. intros j Hj. rewrite lookup_insert_ne by congruence. rewrite Hj. by intros [].
Qed.

Context `{!PollerContract (P := P) Ses}.

Lemma wp_insert_session n rn d id s p r w named :
  runner_wf n rn → session_id_counter rn < u32_max → id = session_id_counter rn →
  I (n + 1) d (<[id := s]> (sessions rn)) →
  wp (E := IoError) false (insert_session id s)
    (λ res st, res = Ok tt ∧ after_command n rn named st.1.1)
    (mkRunner d p (sessions rn) (session_id_counter rn), r, w).
Proof.
  intros (HI&Hc&Hid) Hmax -> HI'. unfold insert_session.
  apply wp_bind, wp_modify, wp_bind, wp_gets, wp_bind.
  eapply wp_lift_outcome; [apply unsigned_op_ok; simpl; mlia|].
  apply wp_modify. simpl. split; [done|]. split; [split; [done|]|split_and!].
  - split; [simpl; mlia|]. simpl. intros j [x Hj].
    apply lookup_insert_Some in Hj as [[<- _]|[_ Hj]]; [mlia|].
    pose proof (Hid j (mk_is_Some _ _ Hj)). lia.
  - simpl. lia.
  - simpl. lia.
  - intros j Hj _. simpl. by apply lookup_insert_ne.
  - simpl. intros j Hj [x Hx]. apply lookup_insert_Some in Hx as [[<- _]|[_ Hx]]; congruence.
Qed.

Lemma wp_cmd_open n rn named r w :
  runner_wf n rn → session_id_counter rn < u32_max →
  wp (negb (opens (device rn))) cmd_open (post n rn named) (rn, r, w).
Proof.
  intros Hwf Hmax. pose proof Hwf as (HI&Hc&Hid). unfold cmd_open.
  assert (sessions rn !! session_id_counter rn = None) as Hnone.
  { apply eq_None_not_Some. intros Hs%Hid. lia. }
  apply wp_bind, wp_gets, wp_bind, wp_try, wp_on_device. cbn [fst snd].
  eapply wp_mono, (contract_new _ _ _ _ HI Hc Hnone).
  intros [s|e] d HI'; [|apply wp_write_err, after_device; [done|by apply contract_mono]].
  pose proof (contract_mono _ _ _ HI') as HI1. apply (wp_panic_mono false); [done|].
  destruct (poll_fd s) as [fd|] eqn:Efd.
  - apply wp_bind, wp_try, wp_zoom, wp_zoom. cbn [fst snd]. unfold wp at 1.
    destruct (add_session _ fd _) as [[p [[]|e]]|] eqn:Eadd;
      [| |by eapply poller_adds in Eadd].
    + apply wp_bind. eapply wp_mono, (wp_insert_session n rn d); [|done..].
      intros res [[rn1 r1] w1] [-> Ha]. by apply wp_write.
    + apply wp_bind. unfold close. apply wp_on_device. unfold wp at 1.
      destruct (contract_close n d _ (session_id_counter rn) s HI') as (d'&Hd'&HI'');
        [apply lookup_insert_eq|].
      simpl. rewrite Hd'. simpl. apply wp_write_err.
      rewrite delete_insert_id in HI'' by done.
      split; [split; [by apply contract_mono|done]|]. split; [simpl; lia|]. split; [done|].
      simpl. intros j ->. by intros [].
  - apply wp_bind. destruct rn as [d0 p0 m0 c0].
    eapply wp_mono, (wp_insert_session n (mkRunner d0 p0 m0 c0) d); [|done..].
    intros res [[rn1 r1] w1] [-> Ha]. by apply wp_write.
Qed.

Lemma wp_cmd_close n rn r w :
  runner_wf n rn →
  wp false cmd_close (post n rn (cc_session_id <$> parse r)) (rn, r, w).
Proof.
  intros Hwf. pose proof Hwf as (HI&Hc&Hid). apply wp_read; [done|]. intros c ->.
  apply wp_bind, wp_gets. cbn [fst snd].
  destruct (sessions rn !! cc_session_id c) as [s|] eqn:Es; [|by apply after_refl].
  destruct (contract_close _ _ _ _ _ HI Es) as (d'&Hd'&HI').
  apply wp_bind, wp_modify, wp_bind. cbn [fst snd].
  apply (wp_mono _ _ (λ res st, res = Ok tt ∧ ∃ p, st.1.1 = mkRunner (device rn) p
    (delete (cc_session_id c) (sessions rn)) (session_id_counter rn))).
  - intros res [[rn1 r1] w1] [-> [p Hp]]. simpl in Hp. subst rn1.
    assert (after_command n rn (Some (cc_session_id c))
      (mkRunner d' p (delete (cc_session_id c) (sessions rn)) (session_id_counter rn))) as Ha.
    { split; [split; [by apply contract_mono|split; [done|]]|split; [simpl; lia|split]].
      - simpl. intros j [x Hj]. apply Hid. apply lookup_delete_Some in Hj as [_ Hj]. by eexists.
      - intros j _ Hj. simpl. apply lookup_delete_ne. congruence.
      - simpl. intros j Hj [x Hx]. apply lookup_delete_Some in Hx as [_ Hx]. congruence. }
    unfold close. apply wp_on_device. unfold wp. simpl. by rewrite Hd'.
  - destruct (poll_fd s) as [fd|] eqn:Efd; [|split; [done|by eexists]].
    apply wp_zoom, wp_zoom. cbn [fst snd]. unfold wp. simpl.
    destruct (remove_session _ fd) as [p|] eqn:Erem; [split; [done|by exists p]|].
    by eapply poller_removes in Erem.
Qed.

Lemma wp_cmd_ioctl n rn r w :
  runner_wf n rn → 0 ≤ n < u64_max →
  (∀ c s ioctl, parse (T := IoctlCmd) r = Some c → sessions rn !! ic_session_id c = Some s →
     V4l2Ioctl_n (ic_code c) = Some ioctl → guard ioctl s = true) →
  wp (match parse (T := IoctlCmd) r with
      | Some c => match V4l2Ioctl_n (ic_code c) with Some ioctl => panics ioctl | None => false end
      | None => false
      end) cmd_ioctl (post n rn (ic_session_id <$> parse r)) (rn, r, w).
Proof.
  intros Hwf Hn Hg. pose proof Hwf as (HI&Hc&Hid). apply wp_read; [done|]. intros c Hp. rewrite Hp.
  apply wp_bind, wp_gets. cbn [fst snd].
  destruct (sessions rn !! ic_session_id c) as [s|] eqn:Es;
    [|by apply wp_write_err, after_refl].
  destruct (V4l2Ioctl_n (ic_code c)) as [ioctl|] eqn:Ei; [|by apply wp_write_err, after_refl].
  pose proof (contract_ioctl _ _ _ _ _ ioctl (drop (size_of IoctlCmd) r) w HI Hn Es
    (Hg c s ioctl Hp Es Ei)) as Hw.
  unfold wp, on_session_io in *. cbn [fst snd].
  destruct (do_ioctl ioctl _) as [[[[[d s'] r'] w'] res]|]; [|done].
  by eapply after_session.
Qed.

Lemma wp_cmd_mmap n rn r w :
  runner_wf n rn → 0 ≤ n < u64_max →
  wp false cmd_mmap (post n rn (mc_session_id <$> parse r)) (rn, r, w).
Proof.
  intros Hwf Hn. pose proof Hwf as (HI&Hc&Hid). apply wp_read; [done|]. intros c Hp. rewrite Hp.
  assert (is_u32 (mc_offset c)) as Hoff.
  { destruct (parse_valid r c c_MmapCmd_ok Hp) as (_&_&Ho). cbn in Ho. mlia. }
  apply wp_bind, wp_gets. cbn [fst snd]. apply wp_bind, wp_try.
  apply (wp_mono _ _ (post n rn (Some (mc_session_id c)))).
  - intros [[addr size]|e] [[rn' r'] w'] Ha; [by apply wp_write|by apply wp_write_err].
  - destruct (sessions rn !! mc_session_id c) as [s|] eqn:Es; [|by apply after_refl].
    pose proof (contract_mmap _ _ _ _ _ (mc_flags c) _ HI Hn Es Hoff) as Hw.
    unfold wp, on_session, on_handler, zoom in *. cbn [fst snd].
    destruct (do_mmap _ _ _) as [[[d s'] res]|]; [|done]. by eapply after_session.
Qed.

Lemma wp_cmd_munmap n rn r w named :
  runner_wf n rn → wp false cmd_munmap (post n rn named) (rn, r, w).
Proof.
  intros Hwf. pose proof Hwf as (HI&Hc&Hid). apply wp_read; [done|]. intros c Hp.
  apply wp_bind, wp_try, wp_on_device.
  eapply wp_mono, (contract_munmap _ _ _ (mu_driver_addr c) HI).
  intros [[]|e] d HI'%contract_mono; [apply wp_write|apply wp_write_err]; by apply after_device.
Qed.

(** The ioctl asked for, if any, is one the device may panic on. *)
Definition may_panic (r : Reader) : bool :=
  match requested_ioctl r with Some ioctl => panics ioctl | None => false end.

(** The session the command names is one on which the device expects its ioctl. *)
Definition guarded (rn : Runner) (r : Reader) : bool :=
  match requested_ioctl r, named_session r ≫= λ id, sessions rn !! id with
  | Some ioctl, Some s => guard ioctl s
  | _, _ => true
  end.

(** The command opens a session where the device may panic on it. *)
Definition refused (rn : Runner) (r : Reader) : bool :=
  match parse (T := CmdHeader) r with
  | Some hdr => (cmd hdr =? VIRTIO_MEDIA_CMD_OPEN) && negb (opens (device rn))
  | None => false
  end.

Lemma wp_dispatch_cmd n rn r w hdr :
  runner_wf n rn → 0 ≤ n < u64_max → session_id_counter rn < u32_max → parse r = Some hdr →
  guarded rn r = true →
  wp (may_panic r || refused rn r) (dispatch_cmd (cmd hdr)) (post n rn (named_session r))
    (rn, drop (size_of CmdHeader) r, w).
Proof.
  intros Hwf Hn Hmax Hh Hg. unfold dispatch_cmd, may_panic, guarded, refused, requested_ioctl, named_session in *.
  rewrite Hh in Hg |- *. cbn [mbind option_bind] in Hg |- *. revert Hg.
  destruct (Z.eqb_spec (cmd hdr) VIRTIO_MEDIA_CMD_OPEN) as [_|].
  { intros Hg. eapply wp_panic_mono, wp_cmd_open; [|done..]. intros ->. apply orb_true_r. }
  rewrite orb_false_r.
  destruct (Z.eqb_spec (cmd hdr) VIRTIO_MEDIA_CMD_CLOSE) as [_|].
  { intros Hg. eapply wp_panic_mono, wp_cmd_close; done. }
  destruct (Z.eqb_spec (cmd hdr) VIRTIO_MEDIA_CMD_IOCTL) as [_|].
  { intros Hg. eapply wp_panic_mono, wp_cmd_ioctl; [by destruct (parse (drop _ r))|done..|].
    intros c s ioctl Hp Hs Hi. rewrite Hp in Hg. cbn [mbind option_bind fmap option_fmap option_map] in Hg.
    by rewrite Hi, Hs in Hg. }
  destruct (Z.eqb_spec (cmd hdr) VIRTIO_MEDIA_CMD_MMAP) as [_|].
  { intros Hg. eapply wp_panic_mono, wp_cmd_mmap; done. }
  case_match; intros Hg.
  { eapply wp_panic_mono, wp_cmd_munmap; done. }
  by apply wp_write_err, after_refl.
Qed.

Lemma wp_handle_command n rn r w :
  runner_wf n rn → 0 ≤ n < u64_max → session_id_counter rn < u32_max → guarded rn r = true →
  wp (may_panic r || refused rn r) handle_command
    (λ _ st, after_command n rn (named_session r) st.1.1) (rn, r, w).
Proof.
  intros Hwf Hn Hmax Hg. unfold handle_command. apply wp_bind, wp_try, wp_zoom. cbn [fst snd].
  unfold wp at 1. rewrite read_obj_parse. destruct (parse r) as [hdr|] eqn:Eh; last first.
  { apply wp_ignore_err. by apply wp_write_err, after_refl. }
  apply wp_bind, wp_try. eapply wp_mono, (wp_dispatch_cmd _ _ _ _ _ Hwf Hn Hmax Eh Hg).
  intros [[]|e] [[rn' r'] w'] Ha; [done|]. apply wp_ignore_err. by apply wp_write_err.
Qed.

Lemma runner_new_wf d p : I 0 d ∅ → runner_wf 0 (runner_new d p).
Proof.
  intros HI. split; [done|]. split; [simpl; mlia|]. intros id [s Hs]. simpl in Hs.
  by apply lookup_empty_Some in Hs.
Qed.
End Lemmas.

Lemma guarded_always {D Ses P} (rn : VirtioMediaDeviceRunner D Ses P) r :
  guarded (guard := λ _ _, true) rn r = true.
Proof. unfold guarded. by repeat case_match. Qed.

Lemma refused_never {D Ses P} (rn : VirtioMediaDeviceRunner D Ses P) r :
  refused (opens := λ _, true) rn r = false.
Proof. unfold refused. case_match; [apply andb_false_r|done]. Qed.

(** ** Properties *)

Section Properties.
Context `{BM : BuildMode} {D Ses P : Type} `{!VirtioMediaDevice D Ses} `{!SessionPoller P}.
Context (panics : V4l2Ioctl → bool) (I : Z → D → gmap Z Ses → Prop).
Context `{DC : !DeviceContract panics I} `{!PollerContract (P := P) Ses}.
Abbreviation Runner := (VirtioMediaDeviceRunner D Ses P).
Abbreviation runner_wf := (runner_wf I).
Abbreviation may_panic := (may_panic panics).

(** C22: a command keeps the invariant of the device and its sessions, allocates
    at most one session id, and changes no session but the one it names or
    opens; it does not panic when it asks for no ioctl that the device may panic
    on, and until the session ids are exhausted. *)
Theorem command_keeps_sessions n rn r w :
  runner_wf n rn → 0 ≤ n < u64_max → session_id_counter rn < u32_max → may_panic r = false →
  ∃ rn' r' w',
    handle_command (rn, r, w) = Ret ((rn', r', w'), Ok tt) ∧ runner_wf (n + 1) rn' ∧
    session_id_counter rn ≤ session_id_counter rn' ≤ session_id_counter rn + 1 ∧
    (∀ j, j ≠ session_id_counter rn → named_session r ≠ Some j →
       sessions rn' !! j = sessions rn !! j) ∧
    (∀ j, sessions rn !! j = None → is_Some (sessions rn' !! j) → j = session_id_counter rn).
Proof.
  intros Hwf Hn Hmax Hp. pose proof (wp_handle_command panics I n rn r w Hwf Hn Hmax (guarded_always rn r)) as Hw.
  rewrite Hp, refused_never in Hw. unfold wp in Hw.
  destruct (handle_command (rn, r, w)) as [[[[rn' r'] w'] [[]|[]]]|]; [|done].
  by exists rn', r', w'.
Qed.

(** The commands taken from the queue, one after the other. *)
Fixpoint run_commands (cmds : list (Reader * Writer)) (rn : Runner) : outcome Runner :=
  match cmds with
  | [] => Ret rn
  | (r, w) :: cmds' =>
      match handle_command (rn, r, w) with
      | Panic => Panic
      | Ret ((rn', _, _), _) => run_commands cmds' rn'
      end
  end.

Lemma run_commands_wf cmds n rn :
  runner_wf n rn → 0 ≤ n → n + Z.of_nat (length cmds) ≤ u64_max →
  session_id_counter rn + Z.of_nat (length cmds) ≤ u32_max →
  Forall (λ c, may_panic c.1 = false) cmds →
  ∃ rn', run_commands cmds rn = Ret rn' ∧ runner_wf (n + Z.of_nat (length cmds)) rn'.
Proof.
  revert n rn. induction cmds as [|[r w] cmds IH]; intros n rn Hwf Hn Hmax Hlen Hall.
  { exists rn. by rewrite Z.add_0_r. }
  apply Forall_cons in Hall as [Hp Hall]. simpl in Hp, Hlen, Hmax.
  pose proof (wp_handle_command panics I n rn r w Hwf ltac:(lia) ltac:(lia) (guarded_always rn r)) as Hw.
  rewrite Hp, refused_never in Hw. unfold wp in Hw. simpl.
  destruct (handle_command (rn, r, w)) as [[[[rn' r'] w'] res]|]; [|done].
  destruct Hw as (Hwf'&Hc&_). simpl in Hc.
  replace (n + Z.of_nat (S (length cmds))) with (n + 1 + Z.of_nat (length cmds)) by lia.
  apply IH; [done|lia..|done].
Qed.

(** Without the assumption on ioctls, the invariant holds as long as nothing
    panicked. *)
Lemma run_commands_inv cmds n rn rn' :
  runner_wf n rn → 0 ≤ n → n + Z.of_nat (length cmds) ≤ u64_max →
  session_id_counter rn + Z.of_nat (length cmds) ≤ u32_max →
  run_commands cmds rn = Ret rn' → runner_wf (n + Z.of_nat (length cmds)) rn'.
Proof.
  revert n rn. induction cmds as [|[r w] cmds IH]; intros n rn Hwf Hn Hmax Hlen; simpl.
  { intros [= <-]. by rewrite Z.add_0_r. }
  simpl in Hlen, Hmax. pose proof (wp_handle_command panics I n rn r w Hwf ltac:(lia) ltac:(lia) (guarded_always rn r)) as Hw.
  unfold wp in Hw. destruct (handle_command (rn, r, w)) as [[[[rn1 r1] w1] res]|]; [|done].
  destruct Hw as (Hwf'&Hc&_). simpl in Hc.
  replace (n + Z.of_nat (S (length cmds))) with (n + 1 + Z.of_nat (length cmds)) by lia.
  apply IH; [done|lia..].
Qed.

(** C2: a runner serves any sequence of up to 2^32 - 1 commands without a panic
    and with its invariant, whatever their bytes, as long as none asks for an
    ioctl that the device may panic on. *)
Theorem runner_serves_all_commands d p cmds :
  I 0 d ∅ → Z.of_nat (length cmds) ≤ u32_max →
  Forall (λ c, may_panic c.1 = false) cmds →
  ∃ rn, run_commands cmds (runner_new d p) = Ret rn ∧ runner_wf (Z.of_nat (length cmds)) rn.
Proof.
  intros HI Hlen Hall.
  apply (run_commands_wf cmds 0); [by apply runner_new_wf|lia|mlia|simpl; lia|done].
Qed.
End Properties.

Section Responses.
Context `{BM : BuildMode} {D Ses P : Type} `{!VirtioMediaDevice D Ses} `{!SessionPoller P}.
Abbreviation Runner := (VirtioMediaDeviceRunner D Ses P).

(** The commands the runner rejects by itself: [Some (Some e)] are those answered
    with the error [e], [Some None] those dropped without a response. *)
Definition rejection (rn : Runner) (r : Reader) : option (option Z) :=
  match parse (T := CmdHeader) r with
  | None => Some (Some EINVAL)
  | Some hdr =>
      let r' := drop (size_of CmdHeader) r in
      if cmd hdr =? VIRTIO_MEDIA_CMD_OPEN then None
      else if cmd hdr =? VIRTIO_MEDIA_CMD_CLOSE then
        match parse (T := CloseCmd) r' with
        | None => Some (Some EINVAL)
        | Some c => match sessions rn !! cc_session_id c with None => Some None | Some _ => None end
        end
      else if cmd hdr =? VIRTIO_MEDIA_CMD_IOCTL then
        match parse (T := IoctlCmd) r' with
        | None => Some (Some EINVAL)
        | Some c =>
            match sessions rn !! ic_session_id c, V4l2Ioctl_n (ic_code c) with
            | None, _ => Some (Some EINVAL)
            | Some _, None => Some (Some ENOTTY)
            | Some _, Some _ => None
            end
        end
      else if cmd hdr =? VIRTIO_MEDIA_CMD_MMAP then
        match parse (T := MmapCmd) r' with
        | None => Some (Some EINVAL)
        | Some c =>
            match sessions rn !! mc_session_id c with
            | None => Some (Some EINVAL)
            | Some _ => None
            end
        end
      else if cmd hdr =? VIRTIO_MEDIA_CMD_MUNMAP then
        match parse (T := MunmapCmd) r' with None => Some (Some EINVAL) | Some _ => None end
      else Some (Some ENOTTY)
  end.

(** An error response is written once: when it does not fit, the writer is full
    and the second attempt of [handle_command] writes nothing. *)
Lemma err_response_once e (rn : Runner) r w :
  ∃ w' res, err_response e w = Ret (w', res) ∧
    on_writer (write_err_response e) (rn, r, w) = Ret ((rn, r, w'), res) ∧
    (∀ e', res = Err e' →
       on_writer (write_err_response EINVAL) (rn, r, w') = Ret ((rn, r, w'), Err WriteZero)).
Proof.
  unfold err_response. destruct (write_all_total (c_enc c_RespHeader (RespHeader_err e)) w)
    as (w'&res&Hw). exists w', res. split; [done|]. split.
  - unfold on_writer, zoom. simpl.
    change (write_err_response e w) with (write_all (c_enc c_RespHeader (RespHeader_err e)) w).
    by rewrite Hw.
  - intros e' ->. assert (room w' = 0%nat) as Hr.
    { unfold write_all in Hw. case_match; by inv Hw. }
    unfold on_writer, zoom. simpl. destruct w' as [ws rm]. simpl in Hr. subst rm.
    cbv [write_err_response write_response write_obj write_all]. simpl. by rewrite app_nil_r.
Qed.

(** What [handle_command] does once the header is parsed. *)
Lemma handle_command_parsed rn r w hdr :
  parse r = Some hdr →
  handle_command (rn, r, w) =
  match dispatch_cmd (cmd hdr) (rn, drop (size_of CmdHeader) r, w) with
  | Panic => Panic
  | Ret (st, Ok _) => Ret (st, Ok tt)
  | Ret (st, Err _) => ignore_err (on_writer (write_err_response EINVAL)) st
  end.
Proof.
  intros Hh. unfold handle_command. unfold_M. unfold on_reader, zoom. cbn [fst snd].
  rewrite read_obj_parse, Hh. cbn [fst snd].
  by destruct (dispatch_cmd _ _) as [[[[rn' r'] w'] [[]|e]]|].
Qed.

Lemma handle_rejects rn r w hdr e r1 :
  parse r = Some hdr →
  (dispatch_cmd (cmd hdr) (rn, drop (size_of CmdHeader) r, w) =
     on_writer (write_err_response e) (rn, r1, w) ∨
   e = EINVAL ∧ ∃ e', dispatch_cmd (cmd hdr) (rn, drop (size_of CmdHeader) r, w) =
     Ret ((rn, r1, w), Err e')) →
  ∃ w' res, err_response e w = Ret (w', res) ∧
    handle_command (rn, r, w) = Ret ((rn, r1, w'), Ok tt).
Proof.
  intros Hh Hd. rewrite (handle_command_parsed _ _ _ _ Hh).
  destruct (err_response_once e rn r1 w) as (w'&res&Hw&Hon&Honce). exists w', res.
  split; [done|]. unfold_M. destruct Hd as [->|[-> [e' ->]]]; rewrite Hon; [|done].
  destruct res as [[]|e']; [done|]. by rewrite (Honce e').
Qed.

Lemma read_short {T} `{VmediaType T} (k : T → M (Runner * Reader * Writer) IoError unit) rn r w :
  parse (T := T) r = None →
  (on_reader read_obj ≫= k) (rn, r, w) = Ret ((rn, [], w), Err UnexpectedEof).
Proof.
  intros Hp. unfold_M. unfold on_reader, zoom. cbn [fst snd]. by rewrite read_obj_parse, Hp.
Qed.

Lemma read_some {T} `{VmediaType T} (k : T → M (Runner * Reader * Writer) IoError unit) rn r w c :
  parse (T := T) r = Some c →
  (on_reader read_obj ≫= k) (rn, r, w) = k c (rn, drop (size_of T) r, w).
Proof.
  intros Hp. unfold_M. unfold on_reader, zoom. cbn [fst snd]. by rewrite read_obj_parse, Hp.
Qed.

(** Once the header is parsed, a rejected command is answered by the branch, or
    fails while its payload is read. *)
Lemma dispatch_rejects rn r w hdr e :
  rejection rn r = Some (Some e) → parse r = Some hdr →
  ∃ r1, dispatch_cmd (cmd hdr) (rn, drop (size_of CmdHeader) r, w) =
          on_writer (write_err_response e) (rn, r1, w) ∨
        e = EINVAL ∧ ∃ e', dispatch_cmd (cmd hdr) (rn, drop (size_of CmdHeader) r, w) =
          Ret ((rn, r1, w), Err e').
Proof.
  unfold rejection, dispatch_cmd. intros Hr Hh. rewrite Hh in Hr.
  destruct (cmd hdr =? VIRTIO_MEDIA_CMD_OPEN); [done|].
  destruct (cmd hdr =? VIRTIO_MEDIA_CMD_CLOSE).
  { unfold cmd_close. destruct (parse (drop _ r)) eqn:Ep; [by case_match|]. inv Hr.
    exists []. right. rewrite read_short by done. eauto. }
  destruct (cmd hdr =? VIRTIO_MEDIA_CMD_IOCTL).
  { unfold cmd_ioctl. destruct (parse (drop _ r)) as [c|] eqn:Ep; last first.
    { inv Hr. exists []. right. rewrite read_short by done. eauto. }
    eexists. left. erewrite read_some by done. unfold get_session. unfold_M. cbn [fst snd].
    destruct (sessions rn !! ic_session_id c); [|by inv Hr].
    destruct (V4l2Ioctl_n (ic_code c)); [done|by inv Hr]. }
  destruct (cmd hdr =? VIRTIO_MEDIA_CMD_MMAP).
  { unfold cmd_mmap. destruct (parse (drop _ r)) as [c|] eqn:Ep; last first.
    { inv Hr. exists []. right. rewrite read_short by done. eauto. }
    eexists. left. erewrite read_some by done. unfold get_session. unfold_M. cbn [fst snd].
    destruct (sessions rn !! mc_session_id c); by inv Hr. }
  destruct (cmd hdr =? VIRTIO_MEDIA_CMD_MUNMAP).
  { unfold cmd_munmap. destruct (parse (drop _ r)) eqn:Ep; [done|]. inv Hr.
    exists []. right. rewrite read_short by done. eauto. }
  inv Hr. eexists. by left.
Qed.

(** The only command dropped without a response is the CLOSE of an unknown session. *)
Lemma handle_drops rn r w :
  rejection rn r = Some None →
  ∃ r', handle_command (rn, r, w) = Ret ((rn, r', w), Ok tt).
Proof.
  unfold rejection. destruct (parse (T := CmdHeader) r) as [hdr|] eqn:Eh; [|done].
  rewrite (handle_command_parsed _ _ _ _ Eh). unfold dispatch_cmd.
  destruct (cmd hdr =? VIRTIO_MEDIA_CMD_OPEN); [done|].
  destruct (cmd hdr =? VIRTIO_MEDIA_CMD_CLOSE); last by repeat case_match.
  unfold cmd_close. destruct (parse (drop _ r)) as [c|] eqn:Ep; [|done].
  destruct (sessions rn !! cc_session_id c) eqn:Es; [done|]. intros _. eexists.
  erewrite read_some by done. unfold get_session. unfold_M. cbn [fst snd]. by rewrite Es.
Qed.

(** C29: a command that is truncated, has an unknown code, or is an IOCTL or MMAP
    that names a session that does not exist is answered with its error, written
    once; a CLOSE that names one gets no response.  None of them changes the
    device, the poller or the sessions. *)
Theorem rejected_command_changes_nothing rn r w answer :
  rejection rn r = Some answer →
  ∃ r' w', handle_command (rn, r, w) = Ret ((rn, r', w'), Ok tt) ∧
    match answer with
    | Some e => ∃ res, err_response e w = Ret (w', res)
    | None => w' = w
    end.
Proof.
  destruct answer as [e|]; intros Hr; [|destruct (handle_drops rn r w Hr) as [r' ?]; by exists r', w].
  destruct (parse (T := CmdHeader) r) as [hdr|] eqn:Eh.
  { destruct (dispatch_rejects _ _ w _ _ Hr Eh) as [r1 H1]. exists r1.
    destruct (handle_rejects _ _ _ _ _ _ Eh H1) as (w'&res&?&?). exists w'. eauto. }
  unfold rejection in Hr. rewrite Eh in Hr. inv Hr. exists [].
  unfold handle_command. unfold_M. unfold on_reader, zoom.
  cbn [fst snd]. rewrite read_obj_parse, Eh. cbn [fst snd].
  destruct (err_response_once EINVAL rn [] w) as (w'&res&Hw&Hon&_).
  exists w'. rewrite Hon. eauto.
Qed.

(** An OPEN that the device accepts registers the session under the next
    id and answers with that id. *)
Theorem open_registers_session rn r w hdr d' s :
  parse r = Some hdr → cmd hdr = VIRTIO_MEDIA_CMD_OPEN →
  new_session (session_id_counter rn) (device rn) = Ret (d', Ok s) → poll_fd s = None →
  is_u32 (session_id_counter rn) → session_id_counter rn < u32_max → (16 ≤ room w)%nat →
  handle_command (rn, r, w) =
  Ret ((mkRunner d' (poller rn) (<[session_id_counter rn := s]> (sessions rn))
          (session_id_counter rn + 1),
        drop (size_of CmdHeader) r,
        mkWriter (written w ++ c_enc c_OpenResp (OpenResp_ok (session_id_counter rn)))
          (room w - 16)), Ok tt).
Proof.
  intros Hh Hc Hn Hfd Hid Hmax Hroom. rewrite (handle_command_parsed _ _ _ _ Hh), Hc.
  change (dispatch_cmd VIRTIO_MEDIA_CMD_OPEN) with (cmd_open (D := D) (Ses := Ses) (P := P)).
  unfold cmd_open, insert_session, on_device, on_handler, zoom. unfold_M. cbn [fst snd].
  rewrite Hn. cbn [fst snd]. rewrite Hfd. cbn [fst snd set_device set_sessions session_id_counter].
  unfold u32_add. rewrite unsigned_op_ok by mlia.
  unfold on_writer, zoom, write_response, write_obj. cbn [fst snd from_le to_le].
  change (c_enc vmedia (OpenResp_ok (session_id_counter rn)))
    with (c_enc c_OpenResp (OpenResp_ok (session_id_counter rn))).
  pose proof (enc_length _ c_OpenResp_ok (OpenResp_ok (session_id_counter rn))) as Hl.
  change (c_size c_OpenResp) with 16%nat in Hl.
  rewrite write_all_room by (rewrite Hl; done). by rewrite Hl.
Qed.

(** A CLOSE forgets the session, hands it back to the device, and writes no
    response. *)
Theorem close_forgets_session rn r w hdr c s d' :
  parse r = Some hdr → cmd hdr = VIRTIO_MEDIA_CMD_CLOSE →
  parse (drop (size_of CmdHeader) r) = Some c →
  sessions rn !! cc_session_id c = Some s → poll_fd s = None →
  close_session s (device rn) = Ret d' →
  handle_command (rn, r, w) =
  Ret ((mkRunner d' (poller rn) (delete (cc_session_id c) (sessions rn)) (session_id_counter rn),
        drop (size_of CloseCmd) (drop (size_of CmdHeader) r), w), Ok tt).
Proof.
  intros Hh Hc Hp Hs Hfd Hd. rewrite (handle_command_parsed _ _ _ _ Hh), Hc.
  change (dispatch_cmd VIRTIO_MEDIA_CMD_CLOSE) with (cmd_close (D := D) (Ses := Ses) (P := P)).
  unfold cmd_close. erewrite read_some by done.
  unfold get_session, close, on_device, on_handler, zoom. unfold_M. cbn [fst snd].
  rewrite Hs. cbn [fst snd]. rewrite Hfd. cbn [fst snd set_sessions device]. rewrite Hd. done.
Qed.
End Responses.

(** ** Witnesses, on a device that counts its sessions *)

Module RunnerWitness.

#[local] Instance debug_build : BuildMode := true.

#[local] Instance counting_device : VirtioMediaDevice nat Z := {|
  new_session id := λ d, Ret (S d, Ok id);
  close_session _ d := Ret (pred d);
  do_ioctl ioctl := on_writer (write_err_response ENOTTY);
  do_mmap _ _ := throw EINVAL;
  do_munmap _ := throw EINVAL;
  process_events := default_process_events;
  poll_fd _ := None;
|}.

(** The device's count is the number of sessions. *)
Definition counts (n : Z) (d : nat) (m : gmap Z Z) : Prop := d = size m.

#[local] Instance counting_contract : DeviceContract (λ _, false) counts.
Proof.
  split.
  - done.
  - intros n d m id -> _ Hm. unfold wp, counts. simpl. by rewrite map_size_insert_None.
  - intros n d m id s -> Hm. eexists. split; [done|]. unfold counts.
    by rewrite map_size_delete_Some.
  - intros n d m id s ioctl r w -> _ Hm _. unfold wp. simpl. unfold on_writer, zoom. simpl.
    destruct (write_all_total (c_enc c_RespHeader (RespHeader_err ENOTTY)) w) as (w'&res&Hw).
    change (write_err_response ENOTTY w)
      with (write_all (c_enc c_RespHeader (RespHeader_err ENOTTY)) w).
    rewrite Hw. unfold counts. simpl. by rewrite map_size_insert_Some.
  - intros n d m id s f o -> _ Hm _. unfold wp, counts. simpl. by rewrite map_size_insert_Some.
  - intros n d m addr ->. done.
Qed.

#[local] Instance unit_poller_contract : PollerContract (P := unit) Z.
Proof. by split. Qed.

Definition open_bytes : list byte := c_enc c_CmdHeader (mkCmdHeader VIRTIO_MEDIA_CMD_OPEN 0).
Definition close_bytes (id : Z) : list byte :=
  c_enc c_CmdHeader (mkCmdHeader VIRTIO_MEDIA_CMD_CLOSE 0) ++ c_enc c_CloseCmd (mkCloseCmd id 0).
Definition writer : Writer := mkWriter [] 32.

Definition runner0 : VirtioMediaDeviceRunner nat Z unit := runner_new 0%nat tt.
Definition runner1 : VirtioMediaDeviceRunner nat Z unit := mkRunner 1%nat tt {[0 := 0]} 1.

Lemma command_keeps_sessions_witness :
  ∃ rn' r' w', handle_command (runner0, open_bytes, writer) = Ret ((rn', r', w'), Ok tt) ∧
    runner_wf counts 1 rn'.
Proof.
  destruct (command_keeps_sessions (λ _, false) counts 0 runner0 open_bytes writer)
    as (rn'&r'&w'&H1&H2&_); [|mlia|done|done|by exists rn', r', w'].
  split; [done|]. split; [vm_compute; split; congruence|]. intros id [s Hs].
  unfold runner0 in Hs. simpl in Hs. by apply lookup_empty_Some in Hs.
Defined.

Lemma runner_serves_all_commands_witness :
  ∃ rn, run_commands [(open_bytes, writer); (close_bytes 0, writer); ([], writer)] runner0 = Ret rn ∧
    runner_wf counts 3 rn.
Proof.
  apply (runner_serves_all_commands (λ _, false) counts); [done|vm_compute; congruence|].
  repeat constructor.
Defined.

Lemma rejected_command_changes_nothing_witness :
  (∃ r' w', handle_command (runner1, c_enc c_CmdHeader (mkCmdHeader 77 0), writer) =
     Ret ((runner1, r', w'), Ok tt) ∧ ∃ res, err_response ENOTTY writer = Ret (w', res)) ∧
  (∃ r' w', handle_command (runner1, close_bytes 5, writer) = Ret ((runner1, r', w'), Ok tt) ∧
     w' = writer).
Proof.
  split.
  - apply (rejected_command_changes_nothing runner1 _ writer (Some ENOTTY)). reflexivity.
  - apply (rejected_command_changes_nothing runner1 _ writer None). reflexivity.
Defined.

Lemma open_registers_session_witness :
  ∃ w', handle_command (runner0, open_bytes, writer) =
    Ret ((mkRunner 1%nat tt {[0 := 0]} 1, [], w'), Ok tt).
Proof.
  eexists. apply (open_registers_session runner0 open_bytes writer
    (mkCmdHeader VIRTIO_MEDIA_CMD_OPEN 0) 1%nat 0); try done; vm_compute; try lia; split; congruence.
Defined.

Lemma close_forgets_session_witness :
  handle_command (runner1, close_bytes 0, writer) = Ret ((mkRunner 0%nat tt ∅ 1, [], writer), Ok tt).
Proof.
  apply (close_forgets_session runner1 (close_bytes 0) writer
    (mkCmdHeader VIRTIO_MEDIA_CMD_CLOSE 0) (mkCloseCmd 0 0) 0 0%nat); reflexivity.
Defined.
End RunnerWitness.
