(* ===== verification/Vmm.v ===== *)
(** * A runner under a VMM

    A VMM gives the commands of the guest to the runner ([Runner.v]) and calls
    [process_events] for a session when the descriptor it polls is readable.
    [EventContract] is what a device promises about these calls, in addition to
    [DeviceContract]. *)

From S2P Require Import Prelude Traits Bytes Protocol Io Ioctl Runner.
#[local] Open Scope Z_scope.

Inductive vmm_step :=
| Command (r : Reader) (w : Writer)
| Ready (id : Z).

Section Run.
Context `{BM : BuildMode} {D Ses P : Type} `{!VirtioMediaDevice D Ses} `{!SessionPoller P}.
Abbreviation Runner := (VirtioMediaDeviceRunner D Ses P).

Definition run_vmm_step (step : vmm_step) (rn : Runner) : outcome Runner :=
  match step with
  | Command r w => '((rn, _, _), _) ← handle_command (rn, r, w); Ret rn
  | Ready id =>
      match sessions rn !! id with
      | None => Ret rn
      | Some s =>
          '((d, s), _) ← process_events (device rn, s);
          Ret (set_sessions (<[id := s]> (sessions rn)) (set_device d rn))
      end
  end.

Fixpoint run_vmm (steps : list vmm_step) (rn : Runner) : outcome Runner :=
  match steps with
  | [] => Ret rn
  | step :: steps' => rn ← run_vmm_step step rn; run_vmm steps' rn
  end.

(** The guest asks for each ioctl on a session on which [guard] expects it, until the
    end of the run or a panic. *)
Fixpoint polite (guard : V4l2Ioctl → Ses → bool) (steps : list vmm_step) (rn : Runner) : bool :=
  match steps with
  | [] => true
  | step :: steps' =>
      match step with Command r _ => guarded (guard := guard) rn r | Ready _ => true end &&
      match run_vmm_step step rn with Ret rn' => polite guard steps' rn' | Panic => true end
  end.

Lemma polite_always steps rn : polite (λ _ _, true) steps rn = true.
Proof.
  revert rn. induction steps as [|step steps IH]; intros rn; [done|]. cbn [polite].
  apply andb_true_intro. split; [destruct step; [apply guarded_always|done]|by case_match].
Qed.
End Run.

(** Processing the events of a session keeps the invariant of a device, and panics
    only if [pe] says so. *)
Class EventContract {D Ses} `{!VirtioMediaDevice D Ses} (pe : bool)
    (I : Z → D → gmap Z Ses → Prop) : Prop :=
  contract_events : ∀ n d m id s, I n d m → 0 ≤ n < u64_max → m !! id = Some s →
    wp pe process_events (λ _ ds, I (n + 1) ds.1 (<[id := ds.2]> m)) (d, s).

Section Contract.
Context `{BM : BuildMode} {D Ses P : Type} `{!VirtioMediaDevice D Ses} `{!SessionPoller P}.
Context (panics : V4l2Ioctl → bool) (pe : bool) (I : Z → D → gmap Z Ses → Prop).
Context {guard : V4l2Ioctl → Ses → bool} `{GC : !GuardedContract panics guard (λ _, true) I} `{!EventContract pe I} `{!PollerContract (P := P) (D := D) Ses}.
Abbreviation Runner := (VirtioMediaDeviceRunner D Ses P).

(** Whether a step may panic. *)
Definition step_may_panic (step : vmm_step) : bool :=
  match step with Command r _ => may_panic panics r | Ready _ => pe end.

Lemma run_vmm_step_wf step n (rn : Runner) :
  runner_wf I n rn → 0 ≤ n < u64_max → session_id_counter rn < u32_max →
  match step with Command r _ => guarded (guard := guard) rn r = true | Ready _ => True end →
  match run_vmm_step step rn with
  | Ret rn' => runner_wf I (n + 1) rn' ∧ session_id_counter rn' ≤ session_id_counter rn + 1
  | Panic => step_may_panic step = true
  end.
Proof.
  intros Hwf Hn Hmax Hg. destruct step as [r w|id]; simpl.
  - pose proof (wp_handle_command panics I n rn r w Hwf Hn Hmax Hg) as Hw.
    rewrite refused_never, orb_false_r in Hw. unfold wp in Hw. unfold mbind, outcome_bind.
    destruct (handle_command (rn, r, w)) as [[[[rn' r'] w'] res]|]; [|done].
    destruct Hw as (Hwf'&Hc&_). split; [done|]. simpl in Hc. lia.
  - destruct (sessions rn !! id) as [s|] eqn:Es.
    2: { split; [by apply (runner_wf_mono panics I)|lia]. }
    destruct Hwf as (HI&Hc&Hid). pose proof (contract_events n _ _ id s HI Hn Es) as Hw.
    unfold wp in Hw. unfold mbind, outcome_bind.
    destruct (process_events (device rn, s)) as [[[d' s'] res]|]; [|done].
    split; [|simpl; lia]. split; [done|]. split; [done|]. simpl. intros j Hj. apply Hid.
    destruct (decide (id = j)) as [->|]; [done|]. by rewrite lookup_insert_ne in Hj.
Qed.

Lemma run_vmm_wf steps n (rn : Runner) :
  runner_wf I n rn → 0 ≤ n → n + Z.of_nat (length steps) ≤ u64_max →
  session_id_counter rn + Z.of_nat (length steps) ≤ u32_max → polite guard steps rn = true →
  match run_vmm steps rn with
  | Ret rn' => ∃ n', runner_wf I n' rn'
  | Panic => existsb step_may_panic steps = true
  end.
Proof.
  revert n rn. induction steps as [|step steps IH]; intros n rn Hwf Hn Hmax Hc Hg; simpl; [eauto|].
  simpl in *. apply andb_true_iff in Hg as [Hg1 Hg].
  pose proof (run_vmm_step_wf step n rn Hwf ltac:(lia) ltac:(lia) ltac:(by destruct step)) as Hs.
  unfold mbind, outcome_bind. destruct (run_vmm_step step rn) as [rn1|]; [|by rewrite Hs].
  destruct Hs as [Hwf1 Hc1]. specialize (IH (n + 1) rn1 Hwf1 ltac:(lia) ltac:(lia) ltac:(lia) Hg).
  destruct (run_vmm steps rn1); [done|]. by rewrite IH, orb_true_r.
Qed.

(** A new device, and a guest that keeps to the guard. *)
Lemma run_vmm_new d p steps :
  I 0 d ∅ → Z.of_nat (length steps) ≤ u32_max → polite guard steps (runner_new d p) = true →
  match run_vmm steps (runner_new d p) with
  | Ret rn' => ∃ n', runner_wf I n' rn'
  | Panic => existsb step_may_panic steps = true
  end.
Proof.
  intros HI Hlen. by apply (run_vmm_wf steps 0 (runner_new d p) (runner_new_wf I _ p HI)); [|mlia|simpl; lia].
Qed.

Lemma run_vmm_serves d p steps :
  I 0 d ∅ → Z.of_nat (length steps) ≤ u32_max → polite guard steps (runner_new d p) = true →
  Forall (λ step, step_may_panic step = false) steps →
  ∃ (rn : Runner) n, run_vmm steps (runner_new d p) = Ret rn ∧ runner_wf I n rn.
Proof.
  intros HI Hlen Hg Hall. pose proof (run_vmm_new d p steps HI Hlen Hg) as Hw.
  destruct (run_vmm _ _) as [rn|]; [destruct Hw as [n Hw]; eauto|].
  apply existsb_exists in Hw as (x&Hx&Hp).
  apply list_elem_of_In in Hx. eapply Forall_forall in Hall; [|done]. congruence.
Qed.
End Contract.

(** The same for a device that expects every ioctl on every session. *)
Section Always.
Context `{BM : BuildMode} {D Ses P : Type} `{!VirtioMediaDevice D Ses} `{!SessionPoller P}.
Context (panics : V4l2Ioctl → bool) (pe : bool) (I : Z → D → gmap Z Ses → Prop).
Context `{DC : !DeviceContract panics I} `{!EventContract pe I} `{!PollerContract (P := P) (D := D) Ses}.
Abbreviation Runner := (VirtioMediaDeviceRunner D Ses P).

(** A new device keeps its invariant, and panics only where a step may. *)
Lemma run_vmm_inv d p steps (rn : Runner) :
  I 0 d ∅ → Z.of_nat (length steps) ≤ u32_max → run_vmm steps (runner_new d p) = Ret rn →
  ∃ n, runner_wf I n rn.
Proof.
  intros HI Hlen Hrun. pose proof (run_vmm_new panics pe I d p steps HI Hlen (polite_always _ _)) as Hw.
  by rewrite Hrun in Hw.
Qed.

Lemma run_vmm_returns d p steps :
  I 0 d ∅ → Z.of_nat (length steps) ≤ u32_max →
  Forall (λ step, step_may_panic panics pe step = false) steps →
  ∃ rn : Runner, run_vmm steps (runner_new d p) = Ret rn.
Proof.
  intros HI Hlen Hall.
  destruct (run_vmm_serves panics pe I d p steps HI Hlen (polite_always _ _) Hall) as (rn&_&?&_). by exists rn.
Qed.
End Always.
