(* ===== verification/MemFd.v ===== *)
(** * Memory files ([device/src/memfd.rs]) and buffered file output

    The operating system behind the file descriptors is a parameter: [Kernel]
    lists the calls the sources make.  [MemFdBuffer] is the crate's allocator on
    top of [memfd_create]; [BufWriter] is the standard library's writer, as the
    capture device uses it. *)

From Stdlib Require Import Strings.Byte.
From S2P Require Import Prelude Traits.

(** ** System calls *)

(** A call changes the state of the system and returns a result or an [errno];
    it does not panic.  The standard library retries on [EINTR]; the retries are
    part of the call. *)
Definition sys (K A : Type) : Type := K → K * result A Z.

Definition syscall {K A} (f : sys K A) : M K Z A := λ k, Ret (f k).

Class Kernel (K : Type) := {
  memfd_create : sys K Fd;
  (** [File::set_len] *)
  file_set_len : Fd → Z → sys K unit;
  (** [fcntl(fd, F_ADD_SEALS, seals)] *)
  add_seals : Fd → Z → sys K unit;
  (** [seek(SeekFrom::Start(0))] *)
  seek_start : Fd → sys K unit;
  (** [write(2)]: the number of bytes written *)
  sys_write : Fd → list byte → sys K nat;
  (** [read(2)] of at most that many bytes *)
  sys_read : Fd → nat → sys K (list byte);
  (** [mmap] of a whole shared file, readable and writable: its address *)
  sys_mmap : Fd → Z → sys K Z;
  sys_munmap : Z → Z → sys K unit;
}.

Definition F_SEAL_SEAL : Z := 1.
Definition F_SEAL_SHRINK : Z := 2.
Definition F_SEAL_GROW : Z := 4.

(** ** [MemFdBuffer] *)

(** [size] is a [NonZeroU64]. *)
Record MemFdBuffer := mkMemFdBuffer { file : Fd; size : Z }.

Inductive NewMemFdBufferError :=
| ZeroSize
| FailedToCreate (e : Z)
| FailedToSetSize (e : Z)
| FailedToSeal (e : Z).

Inductive MemFdMmapError :=
| BufferTooLarge (size : Z)
| MmapError (e : Z).

Section MemFd.
Context `{Kernel K}.

Definition MemFdBuffer_new (size : Z) : M K NewMemFdBufferError MemFdBuffer :=
  guard_err (size =? 0) ZeroSize ;;
  fd ← map_err FailedToCreate (syscall memfd_create);
  map_err FailedToSetSize (syscall (file_set_len fd size)) ;;
  map_err FailedToSeal
    (syscall (add_seals fd (Z.lor (Z.lor F_SEAL_SHRINK F_SEAL_GROW) F_SEAL_SEAL))) ;;
  mret (mkMemFdBuffer fd size).

(** A CPU mapping, as its address and length. *)
Record MemFdMapping := mkMemFdMapping { data : Z; len : Z }.

(** [MemFdBuffer::mmap]; [usize] has 64 bits. *)
Definition MemFdBuffer_mmap (self : MemFdBuffer) : M K MemFdMmapError MemFdMapping :=
  guard_err (u64_max <? size self) (BufferTooLarge (size self)) ;;
  addr ← map_err MmapError (syscall (sys_mmap (file self) (size self)));
  mret (mkMemFdMapping addr (size self)).

(** [MemFdMapping::size] *)
Definition MemFdMapping_size (self : MemFdMapping) : Z := len self.

(** [Drop for MemFdMapping]: an error is logged. *)
Definition MemFdMapping_drop {E} (self : MemFdMapping) : M K E unit :=
  ignore_err (syscall (sys_munmap (data self) (len self))).
End MemFd.

(** ** [Read::read_exact] for a file

    Each round reads something or fails, so as many rounds as bytes are enough. *)

Inductive ReadError := UnexpectedEof | ReadFailed (e : Z).

Fixpoint read_exact_loop `{Kernel K} (fuel : nat) (fd : Fd) (n : nat) (bs : list byte) :
    M K ReadError (list byte) :=
  match n, fuel with
  | O, _ => mret bs
  | _, O => throw UnexpectedEof
  | _, S fuel' =>
      got ← map_err ReadFailed (syscall (sys_read fd n));
      match got with
      | [] => throw UnexpectedEof
      | _ => read_exact_loop fuel' fd (n - length got) (bs ++ got)
      end
  end.

Definition read_exact `{Kernel K} (fd : Fd) (n : nat) : M K ReadError (list byte) :=
  read_exact_loop n fd n [].

(** ** [BufWriter<&File>] *)

(** The buffered chunks, last first, and their total length. *)
Record BufWriter := mkBufWriter { bw_fd : Fd; bw_chunks : list (list byte); bw_len : nat }.

Definition BUF_CAPACITY : nat := Z.to_nat 8192.

Definition BufWriter_new (fd : Fd) : BufWriter := mkBufWriter fd [] 0.

Definition bw_buffered (self : BufWriter) : list byte := mjoin (reverse (bw_chunks self)).

Section BufWriter.
Context `{Kernel K}.

(** [flush_buf]: writes until the buffer is empty; what was written is removed.
    Each round writes something or fails, so [length bs] rounds are enough. *)
Fixpoint flush_loop (fuel : nat) (fd : Fd) (bs : list byte) : M K Z (list byte * bool) :=
  match bs, fuel with
  | [], _ => mret ([], true)
  | _, O => mret (bs, false)
  | _, S fuel' =>
      written ← try_m (syscall (sys_write fd bs));
      match written with
      | Ok O | Err _ => mret (bs, false)
      | Ok n => flush_loop fuel' fd (drop n bs)
      end
  end.

(** What stays buffered, and whether the flush succeeded. *)
Definition flush_buf (self : BufWriter) : M K Z (BufWriter * bool) :=
  let bs := bw_buffered self in
  res ← flush_loop (length bs) (bw_fd self) bs;
  mret (mkBufWriter (bw_fd self) [res.1] (length res.1), res.2).

(** [write] of a slice shorter than the capacity. *)
Definition bw_write (self : BufWriter) (bs : list byte) : M K Z (BufWriter * bool) :=
  '(self', ok) ← (if (BUF_CAPACITY - bw_len self <? length bs)%nat then flush_buf self
                  else mret (self, true) : M K Z (BufWriter * bool));
  mret (if ok : bool
        then (mkBufWriter (bw_fd self') (bs :: bw_chunks self') (length bs + bw_len self'), true)
        else (self', false)).

(** [drop]: a last flush, whose error is lost. *)
Definition bw_drop (self : BufWriter) : M K Z unit := flush_buf self ;; mret tt.
End BufWriter.

(** ** Laws of files, and what buffered output preserves *)

(** [f_out k fd]: the bytes written to [fd] since it was last rewound. *)
Class KernelLaws (K : Type) `{Kernel K} := {
  f_out : K → Fd → list byte;
  seek_out : ∀ fd k k', seek_start fd k = (k', Ok tt) → f_out k' fd = [];
  write_out : ∀ fd bs k k' n, sys_write fd bs k = (k', Ok n) →
    (n ≤ length bs)%nat ∧ f_out k' fd = f_out k fd ++ take n bs;
  write_fails : ∀ fd bs k k' e, sys_write fd bs k = (k', Err e) → f_out k' fd = f_out k fd;
}.

Section BufWriterLemmas.
Context `{KernelLaws K}.

Lemma flush_loop_spec fuel fd bs k :
  ∃ k' rest ok, flush_loop fuel fd bs k = Ret (k', Ok (rest, ok)) ∧
    f_out k' fd ++ rest = f_out k fd ++ bs ∧ (ok = true → rest = []) ∧
    (length rest ≤ length bs)%nat.
Proof.
  revert bs k. induction fuel as [|fuel IH]; intros [|b bs] k; simpl.
  - by exists k, [], true.
  - by exists k, (b :: bs), false.
  - by exists k, [], true.
  - unfold_M. unfold syscall.
    destruct (sys_write fd (b :: bs) k) as [k1 [[|n]|e]] eqn:Ew.
    + apply write_out in Ew as [_ Ew]. rewrite app_nil_r in Ew.
      exists k1, (b :: bs), false. by rewrite Ew.
    + apply write_out in Ew as [Hn Ew].
      destruct (IH (drop (S n) (b :: bs)) k1) as (k2&rest&ok&->&Hout&Hok&Hlen).
      exists k2, rest, ok. split_and!; [done| |done|].
      * by rewrite Hout, Ew, <-(assoc_L (++)), take_drop.
      * rewrite length_drop in Hlen. simpl in Hlen. simpl. lia.
    + apply write_fails in Ew. exists k1, (b :: bs), false. by rewrite Ew.
Qed.

(** The bytes handed to a writer are in the file or still buffered. *)
Definition bw_wf (self : BufWriter) : Prop :=
  bw_len self = length (bw_buffered self) ∧ (bw_len self ≤ BUF_CAPACITY)%nat.

Lemma flush_buf_spec self k :
  bw_wf self →
  ∃ k' self' ok, flush_buf self k = Ret (k', Ok (self', ok)) ∧ bw_wf self' ∧
    bw_fd self' = bw_fd self ∧
    f_out k' (bw_fd self) ++ bw_buffered self' = f_out k (bw_fd self) ++ bw_buffered self ∧
    (ok = true → bw_buffered self' = []).
Proof.
  intros [Hl Hc]. unfold flush_buf.
  destruct (flush_loop_spec (length (bw_buffered self)) (bw_fd self) (bw_buffered self) k)
    as (k'&rest&ok&Hf&Hout&Hok&Hlen).
  unfold_M. rewrite Hf. cbn [fst snd].
  set (self' := mkBufWriter (bw_fd self) [rest] (length rest)).
  assert (bw_buffered self' = rest) as Hb.
  { unfold bw_buffered, self'. simpl. by rewrite app_nil_r. }
  exists k', self', ok. split; [done|]. unfold bw_wf. rewrite Hb.
  split_and!; [done|unfold self'; cbn; lia|done|done|done].
Qed.

Lemma bw_write_spec self bs k :
  bw_wf self → (length bs ≤ BUF_CAPACITY)%nat →
  ∃ k' self' ok, bw_write self bs k = Ret (k', Ok (self', ok)) ∧ bw_wf self' ∧
    bw_fd self' = bw_fd self ∧
    (ok = true → f_out k' (bw_fd self) ++ bw_buffered self' =
                 f_out k (bw_fd self) ++ bw_buffered self ++ bs).
Proof.
  intros Hwf Hbs. unfold bw_write. unfold_M.
  assert (∀ self', bw_buffered (mkBufWriter (bw_fd self') (bs :: bw_chunks self')
    (length bs + bw_len self')) = bw_buffered self' ++ bs) as Hpush.
  { intros self'. unfold bw_buffered. cbn [bw_chunks].
    rewrite reverse_cons, join_app. simpl. by rewrite app_nil_r. }
  destruct (Nat.ltb_spec (BUF_CAPACITY - bw_len self) (length bs)) as [Hlt|Hge].
  - destruct (flush_buf_spec self k Hwf) as (k'&self'&ok&->&Hwf'&Hfd&Hout&Hok).
    destruct ok; [|by exists k', self', false].
    eexists k', _, true. split; [done|]. unfold bw_wf. rewrite Hpush. cbn [bw_len bw_fd].
    rewrite (Hok eq_refl), app_nil_r in *. destruct Hwf' as [Hl _].
    rewrite (Hok eq_refl) in Hl. simpl in Hl. rewrite Hl.
    split_and!; [simpl; lia|lia|done|]. intros _. simpl. by rewrite Hout, <-(assoc_L (++)).
  - destruct Hwf as [Hl Hc]. eexists k, _, true. split; [done|]. unfold bw_wf.
    rewrite Hpush. cbn [bw_len bw_fd]. rewrite length_app.
    split_and!; [lia|lia|done|done].
Qed.

Lemma bw_drop_spec self k :
  bw_wf self →
  ∃ k' lost, bw_drop self k = Ret (k', Ok tt) ∧
    f_out k' (bw_fd self) ++ lost = f_out k (bw_fd self) ++ bw_buffered self ∧
    (length lost ≤ BUF_CAPACITY)%nat.
Proof.
  intros Hwf. destruct (flush_buf_spec self k Hwf) as (k'&self'&ok&Hf&[Hl Hc]&_&Hout&_).
  exists k', (bw_buffered self'). unfold bw_drop. unfold_M. rewrite Hf.
  split_and!; [done|done|lia].
Qed.
End BufWriterLemmas.
