(* ===== verification/SimpleDevice.v ===== *)
(** * The capture device ([device/src/devices/simple_device.rs])

    A capture device with one pixel format and one resolution, which fills its
    queued buffers with a color and hands them back.  The state of the operating
    system behind the buffers' files is a field of the device. *)

From Stdlib Require Import Strings.Byte.
From S2P Require Import Prelude RustStd Traits Mmap Bytes Protocol Io V4l2r Ioctl Runner MemFd.
#[local] Open Scope Z_scope.

Definition WIDTH : Z := 640.
Definition HEIGHT : Z := 480.
Definition FRAME_RATE : Z := 30.
Definition BYTES_PER_LINE : Z := WIDTH * 3.
Definition BUFFER_SIZE : Z := BYTES_PER_LINE * HEIGHT.

(** ** Buffers *)

Inductive BufferState := New | Incoming | Outgoing (sequence : Z).
#[global] Instance BufferState_eq_dec : EqDecision BufferState.
Proof. solve_decision. Defined.

Record Buffer `{V4l2r} := mkBuffer {
  sb_state : BufferState;
  sb_v4l2 : V4l2Buffer;
  sb_fd : MemFdBuffer;
  sb_offset : Z;
}.

(** [*get_first_plane_mut().bytesused = n] *)
Definition set_bytesused `{V4l2r} (n : Z) (b : V4l2Buffer) : V4l2Buffer :=
  let p := buf_first_plane b in
  buf_set_first_plane (mkPlane (p_length p) n (p_data_offset p) (p_backing p)) b.

(** [Buffer::set_state] *)
Definition set_state `{BuildMode} `{V4l2r} (state : BufferState) (self : Buffer) : outcome Buffer :=
  let flags := buf_flags (sb_v4l2 self) in
  '(v, flags) ←
    match state with
    | New => Ret (set_bytesused 0 (sb_v4l2 self), Z.ldiff flags FLAG_QUEUED)
    | Incoming => Ret (set_bytesused 0 (sb_v4l2 self), Z.lor flags FLAG_QUEUED)
    | Outgoing sequence =>
        let v := set_bytesused BUFFER_SIZE (sb_v4l2 self) in
        let v := buf_set_sequence sequence v in
        next ← u32_add sequence 1;
        let v := buf_set_timestamp (mkTimeval (next `div` 1000) (next `mod` 1000)) v in
        Ret (v, Z.ldiff flags FLAG_QUEUED)
    end;
  Ret (mkBuffer _ state (buf_set_flags flags v) (sb_fd self) (sb_offset self)).

(** ** Sessions and the device *)

Record SimpleCaptureDeviceSession `{V4l2r} := mkSession {
  s_id : Z;
  iteration : Z;
  s_buffers : list Buffer;
  queued_buffers : list nat;
  streaming : bool;
}.

Record SimpleCaptureDevice (Q HM K : Type) := mkDevice {
  evt_queue : Q;
  mmap_manager : MmapMappingManager HM;
  active_session : option Z;
  os : K;
}.
Arguments mkDevice {Q HM K} _ _ _ _.
Arguments evt_queue {Q HM K} _.
Arguments mmap_manager {Q HM K} _.
Arguments active_session {Q HM K} _.
Arguments os {Q HM K} _.

(** The color of frame [sequence]. *)
Definition frame_color `{BuildMode} (sequence : Z) : outcome (list byte) :=
  r ← u8_mul 0xff (as_u8 sequence `mod` 2);
  g ← u8_mul 0x55 (as_u8 sequence `mod` 3);
  b ← u8_mul 0x10 (as_u8 sequence `mod` 16);
  Ret [byte_of_Z r; byte_of_Z g; byte_of_Z b].

(** [for _ in 0..n { writer.write(&color)?; }]; on an error the writer is dropped. *)
Fixpoint write_pixels `{Kernel K} (n : nat) (color : list byte) (w : BufWriter) :
    M K Z BufWriter :=
  match n with
  | O => mret w
  | S n' =>
      '(w', ok) ← bw_write w color;
      if ok : bool then write_pixels n' color w' else bw_drop w' ;; throw EIO
  end.

(** The body of the loop that touches the file. *)
Definition write_frame `{Kernel K} (fd : Fd) (color : list byte) : M K Z unit :=
  w ← write_pixels (Z.to_nat (WIDTH * HEIGHT)) color (BufWriter_new fd);
  bw_drop w.

Section Device.
Context `{BM : BuildMode} `{V : V4l2r}.
Context {Q HM K : Type} `{!VirtioMediaEventQueue Q} `{!VirtioMediaHostMemoryMapper HM}.
Context `{!Kernel K}.
Abbreviation Dev := (SimpleCaptureDevice Q HM K).
Abbreviation Ses := SimpleCaptureDeviceSession.
Abbreviation St := (Dev * Ses)%type.

(** *** Views of the state *)

Definition set_os (k : K) (d : Dev) : Dev :=
  mkDevice (evt_queue d) (mmap_manager d) (active_session d) k.
Definition set_manager (mm : MmapMappingManager HM) (d : Dev) : Dev :=
  mkDevice (evt_queue d) mm (active_session d) (os d).
Definition set_active (a : option Z) (d : Dev) : Dev :=
  mkDevice (evt_queue d) (mmap_manager d) a (os d).
Definition set_queue (q : Q) (d : Dev) : Dev :=
  mkDevice q (mmap_manager d) (active_session d) (os d).

Definition set_buffers (l : list Buffer) (s : Ses) : Ses :=
  mkSession _ (s_id s) (iteration s) l (queued_buffers s) (streaming s).
Definition set_queued (l : list nat) (s : Ses) : Ses :=
  mkSession _ (s_id s) (iteration s) (s_buffers s) l (streaming s).
Definition set_streaming (b : bool) (s : Ses) : Ses :=
  mkSession _ (s_id s) (iteration s) (s_buffers s) (queued_buffers s) b.
Definition set_iteration (n : Z) (s : Ses) : Ses :=
  mkSession _ (s_id s) n (s_buffers s) (queued_buffers s) (streaming s).

Definition on_dev {E A} (m : M Dev E A) : M St E A := zoom fst (λ d st, (d, st.2)) m.
Definition dev_os {E A} (m : M K E A) : M Dev E A := zoom os set_os m.
Definition dev_mm {E A} (m : M (MmapMappingManager HM) E A) : M Dev E A :=
  zoom mmap_manager set_manager m.
Definition modify_session {E} (f : Ses → Ses) : M St E unit := modify (λ st, (st.1, f st.2)).
Definition modify_device {E} (f : Dev → Dev) : M St E unit := modify (λ st, (f st.1, st.2)).

(** *** [process_queued_buffers] *)

(** One round of the loop, for the buffer [buf_id] that was popped. *)
Definition process_one (buf_id : nat) : M St Z unit :=
  s ← gets snd;
  buffer ← ok_or (s_buffers s !! buf_id) EIO;
  let sequence := as_u32 (iteration s) in
  map_err (λ _, EIO) (on_dev (dev_os (syscall (seek_start (file (sb_fd buffer)))))) ;;
  color ← lift_outcome (frame_color sequence);
  on_dev (dev_os (write_frame (file (sb_fd buffer)) color)) ;;
  let buffer := mkBuffer _ (sb_state buffer) (set_bytesused BUFFER_SIZE (sb_v4l2 buffer))
                  (sb_fd buffer) (sb_offset buffer) in
  buffer ← lift_outcome (set_state (Outgoing sequence) buffer);
  modify_session (λ s, set_buffers (<[buf_id := buffer]> (s_buffers s)) s) ;;
  next ← lift_outcome (u64_add (iteration s) 1);
  modify_session (set_iteration next) ;;
  modify_device (λ d, set_queue
    (send_event (EvDequeueBuffer (DequeueBufferEvent_new (s_id s) (sb_v4l2 buffer)))
       (evt_queue d)) d).

(** The loop; every round pops an index, so the length of the queue is enough
    fuel, and running out of it is a panic. *)
Fixpoint process_loop (fuel : nat) : M St Z unit :=
  queued ← gets (λ st, queued_buffers st.2);
  match queued, fuel with
  | [], _ => mret tt
  | _, O => panic
  | buf_id :: rest, S fuel' =>
      modify_session (set_queued rest) ;;
      process_one buf_id ;;
      process_loop fuel'
  end.

Definition process_queued_buffers : M St Z unit := λ st,
  process_loop (length (queued_buffers st.2)) st.

(** *** [VirtioMediaDevice] *)

(** [SimpleCaptureDevice::new] *)
Definition SimpleCaptureDevice_new (q : Q) (hm : HM) (k : K) : Dev :=
  mkDevice q (manager_from hm) None k.

Definition simple_new_session (session_id : Z) : M Dev Z Ses :=
  mret (mkSession _ session_id 0 [] [] false).

(** [for buffer in &buffers { mmap_manager.unregister_buffer(buffer.offset); }] *)
Definition unregister_all {E} (l : list Buffer) : M Dev E unit :=
  forM_ (λ b, dev_mm (unregister_buffer (sb_offset b)) ;; mret tt) l.

Definition simple_close_session (session : Ses) (d : Dev) : outcome Dev :=
  let d := if bool_decide (active_session d = Some (s_id session)) then set_active None d else d in
  '(d, _) ← unregister_all (E := Empty_set) (s_buffers session) d;
  Ret d.

Definition simple_do_mmap (flags offset : Z) : M St Z (Z * Z) :=
  s ← gets snd;
  '(_, buffer) ← ok_or (list_find (λ b, sb_offset b = offset) (s_buffers s)) EINVAL;
  let rw := negb (Z.land flags VIRTIO_MEDIA_MMAP_FLAG_RW =? 0) in
  map_err (λ _, EINVAL)
    (on_dev (dev_mm (create_mapping offset (file (sb_fd buffer)) rw))).

Definition simple_do_munmap (guest_addr : Z) : M Dev Z unit :=
  map_err (λ _, EINVAL) (dev_mm (remove_mapping guest_addr)) ;; mret tt.

(** *** [VirtioMediaIoctlHandler] *)

Definition PIXELFORMAT : Z := fourcc_u32 "RGB3".

(** The only element of [INPUTS]. *)
Definition default_input : vstruct v4l2_input :=
  set_str "name" "Default"
    (vmk v4l2_input [("index", 0); ("type_", vconst "V4L2_INPUT_TYPE_CAMERA")]).

Definition default_fmtdesc (queue : QueueType) : vstruct v4l2_fmtdesc :=
  vmk v4l2_fmtdesc [("index", 0); ("type_", QueueType_u32 queue); ("pixelformat", PIXELFORMAT)].

Definition default_fmt (queue : QueueType) : vstruct v4l2_format :=
  vmk v4l2_format
    [("fmt.pix.width", WIDTH); ("fmt.pix.height", HEIGHT); ("fmt.pix.pixelformat", PIXELFORMAT);
     ("fmt.pix.field", vconst "V4L2_FIELD_NONE"); ("fmt.pix.bytesperline", BYTES_PER_LINE);
     ("fmt.pix.sizeimage", BUFFER_SIZE); ("fmt.pix.colorspace", vconst "V4L2_COLORSPACE_SRGB");
     ("type_", QueueType_u32 queue)].

(** The checks every ioctl of a queue starts with. *)
Definition check_queue {S} (queue : QueueType) : M S Z unit :=
  guard_err (negb (bool_decide (queue = VideoCapture))) EINVAL.

Definition enum_fmt (queue : QueueType) (index : Z) (_ : Ses) : M Dev Z (vstruct v4l2_fmtdesc) :=
  check_queue queue ;;
  guard_err (0 <? index) EINVAL ;;
  mret (default_fmtdesc queue).

Definition g_fmt (queue : QueueType) (_ : Ses) : M Dev Z (vstruct v4l2_format) :=
  check_queue queue ;; mret (default_fmt queue).

Definition s_fmt (queue : QueueType) (_ : vstruct v4l2_format) : M St Z (vstruct v4l2_format) :=
  check_queue queue ;; mret (default_fmt queue).

Definition try_fmt (queue : QueueType) (_ : vstruct v4l2_format) (_ : Ses) :
    M Dev Z (vstruct v4l2_format) :=
  check_queue queue ;; mret (default_fmt queue).

(** The capture parameters, which the guest cannot change. *)
Definition fix_capture_parm (parm : vstruct v4l2_streamparm) : vstruct v4l2_streamparm :=
  set_fld "parm.capture.timeperframe.denominator" FRAME_RATE
    (set_fld "parm.capture.timeperframe.numerator" 1
      (set_fld "parm.capture.capability" (vconst "V4L2_CAP_TIMEPERFRAME") parm)).

Definition g_parm (queue : QueueType) (_ : Ses) : M Dev Z (vstruct v4l2_streamparm) :=
  check_queue queue ;;
  mret (fix_capture_parm (vmk v4l2_streamparm [("type_", QueueType_u32 queue)])).

Definition s_parm (parm : vstruct v4l2_streamparm) : M St Z (vstruct v4l2_streamparm) :=
  guard_err (negb (fld parm "type_" =? QueueType_u32 VideoCapture)) EINVAL ;;
  mret (fix_capture_parm parm).

(** [for buffer in buffers.iter_mut() { buffer.set_state(BufferState::New); }] *)
Definition reset_buffers {E} : M St E unit :=
  s ← gets snd;
  l ← mapM_m (λ b, lift_outcome (set_state New b)) (s_buffers s);
  modify_session (set_buffers l).

Definition streamoff (queue : QueueType) : M St Z unit :=
  check_queue queue ;;
  modify_session (set_streaming false) ;;
  modify_session (set_queued []) ;;
  reset_buffers.

(** The closure that allocates buffer [i]. *)
Definition new_buffer (i : Z) : M Dev Z Buffer :=
  fd ← map_err (λ _, ENOMEM) (dev_os (MemFdBuffer_new BUFFER_SIZE));
  offset ← map_err (λ _, EINVAL) (dev_mm (register_buffer None BUFFER_SIZE));
  let v := buf_new VideoCapture i Mmap in
  v ← match buf_planes v with
      | BMmap (plane :: planes) =>
          mret (buf_set_planes
            (mkPlane BUFFER_SIZE (p_bytesused plane) (p_data_offset plane) offset :: planes) v)
      | _ => panic
      end;
  mret (mkBuffer _ New (buf_set_flags FLAG_TIMESTAMP_MONOTONIC (buf_set_field_none v)) fd offset).

(** The end of [reqbufs]: the old buffers are unregistered and replaced by
    [count] new ones. *)
Definition replace_buffers (count : Z) : M St Z unit :=
  s ← gets snd;
  on_dev (unregister_all (s_buffers s)) ;;
  buffers ← on_dev (mapM_m new_buffer (seqZ 0 count));
  modify_session (set_buffers buffers).

Definition reqbufs (queue : QueueType) (memory : MemoryType) (count : Z)
    (_ : MemoryConsistency) : M St Z (vstruct v4l2_requestbuffers) :=
  check_queue queue ;;
  guard_err (negb (bool_decide (memory = Mmap))) EINVAL ;;
  s ← gets snd;
  guard_err (streaming s) EBUSY ;;
  d ← gets fst;
  guard_err (match active_session d with Some id => negb (id =? s_id s) | None => false end)
    EBUSY ;;
  (if count =? 0 then
     modify_device (set_active None) ;;
     streamoff queue
   else
     modify_session (set_queued []) ;;
     reset_buffers ;;
     modify_device (set_active (Some (s_id s)))) ;;
  let count := Z.min count 32 in
  replace_buffers count ;;
  mret (vmk v4l2_requestbuffers
    [("count", count); ("type_", QueueType_u32 queue); ("memory", MemoryType_u32 memory);
     ("capabilities", Z.lor (vconst "SUPPORTS_MMAP") (vconst "SUPPORTS_ORPHANED_BUFS"));
     ("flags", 0)]).

Definition querybuf (queue : QueueType) (index : Z) (session : Ses) : M Dev Z V4l2Buffer :=
  check_queue queue ;;
  buffer ← ok_or (s_buffers session !! Z.to_nat index) EINVAL;
  mret (sb_v4l2 buffer).

Definition qbuf (buffer : V4l2Buffer) (_ : list (list SgEntry)) : M St Z V4l2Buffer :=
  s ← gets snd;
  let index := Z.to_nat (buf_index buffer) in
  host_buffer ← ok_or (s_buffers s !! index) EINVAL;
  guard_err (bool_decide (sb_state host_buffer = Incoming)) EINVAL ;;
  host_buffer ← lift_outcome (set_state Incoming host_buffer);
  modify_session (λ s, set_buffers (<[index := host_buffer]> (s_buffers s)) s) ;;
  modify_session (λ s, set_queued (queued_buffers s ++ [index]) s) ;;
  let buffer := sb_v4l2 host_buffer in
  (if streaming s then process_queued_buffers else mret tt) ;;
  mret buffer.

Definition streamon (queue : QueueType) : M St Z unit :=
  s ← gets snd;
  guard_err (negb (bool_decide (queue = VideoCapture)) || bool_decide (s_buffers s = [])) EINVAL ;;
  modify_session (set_streaming true) ;;
  process_queued_buffers.

Definition g_input (_ : Ses) : M Dev Z i32 := mret (mkI32 0).

Definition s_input (input : i32) : M St Z i32 :=
  guard_err (negb (i32_val input =? 0)) EINVAL ;; mret (mkI32 0).

Definition enuminput (index : Z) (_ : Ses) : M Dev Z (vstruct v4l2_input) :=
  ok_or ([default_input] !! Z.to_nat index) EINVAL.

Definition enum_framesizes (index pixel_format : Z) (_ : Ses) :
    M Dev Z (vstruct v4l2_frmsizeenum) :=
  guard_err (negb (pixel_format =? PIXELFORMAT)) EINVAL ;;
  guard_err (0 <? index) EINVAL ;;
  mret (vmk v4l2_frmsizeenum
    [("index", index); ("pixel_format", pixel_format);
     ("type_", vconst "V4L2_FRMSIZE_TYPE_DISCRETE");
     ("discrete.width", WIDTH); ("discrete.height", HEIGHT)]).

Definition enum_frameintervals (index pixel_format width height : Z) (_ : Ses) :
    M Dev Z (vstruct v4l2_frmivalenum) :=
  guard_err (negb (pixel_format =? PIXELFORMAT)) EINVAL ;;
  guard_err (negb (width =? WIDTH) || negb (height =? HEIGHT)) EINVAL ;;
  guard_err (0 <? index) EINVAL ;;
  mret (vmk v4l2_frmivalenum
    [("index", index); ("pixel_format", pixel_format); ("width", width); ("height", height);
     ("type_", vconst "V4L2_FRMIVAL_TYPE_DISCRETE");
     ("discrete.numerator", 1); ("discrete.denominator", FRAME_RATE)]).

#[export] Instance simple_handler : VirtioMediaIoctlHandler Dev Ses :=
  λ a E T c,
  match c in Call.ioctl_call a E T return method Dev Ses a E T with
  | Call.enum_fmt queue index => enum_fmt queue index
  | Call.g_fmt queue => g_fmt queue
  | Call.s_fmt queue format => s_fmt queue format
  | Call.try_fmt queue format => try_fmt queue format
  | Call.g_parm queue => g_parm queue
  | Call.s_parm parm => s_parm parm
  | Call.reqbufs queue memory count flags => reqbufs queue memory count flags
  | Call.querybuf queue index => querybuf queue index
  | Call.qbuf buffer regions => qbuf buffer regions
  | Call.streamon queue => streamon queue
  | Call.streamoff queue => streamoff queue
  | Call.g_input => g_input
  | Call.s_input input => s_input input
  | Call.enuminput index => enuminput index
  | Call.enum_framesizes index pixel_format => enum_framesizes index pixel_format
  | Call.enum_frameintervals index pixel_format width height =>
      enum_frameintervals index pixel_format width height
  | c => unhandled_ioctl c
  end.

#[export] Instance simple_device : VirtioMediaDevice Dev Ses := {|
  new_session := simple_new_session;
  close_session := simple_close_session;
  do_ioctl := virtio_media_dispatch_ioctl;
  do_mmap := simple_do_mmap;
  do_munmap := simple_do_munmap;
  process_events := default_process_events;
  poll_fd _ := None;
|}.
End Device.

(** ** Invariant *)

Section Invariant.
Context `{V : V4l2r}.
Abbreviation Ses := SimpleCaptureDeviceSession.

(** Buffer [i] describes itself to the guest: its index, its size, the offset
    to map it at, and whether it is queued. *)
Record buf_ok (i : nat) (b : Buffer) : Prop := {
  bo_index : buf_index (sb_v4l2 b) = Z.of_nat i;
  bo_plane : ∃ p ps, buf_planes (sb_v4l2 b) = BMmap (p :: ps) ∧
    p_backing p = sb_offset b ∧ p_length p = BUFFER_SIZE;
  bo_flag : Z.land (buf_flags (sb_v4l2 b)) FLAG_QUEUED =
    (if bool_decide (sb_state b = Incoming) then FLAG_QUEUED else 0);
  bo_size : size (sb_fd b) = BUFFER_SIZE;
}.

(** Queued buffers exist, are [Incoming] and are queued once. *)
Record session_wf (s : Ses) : Prop := {
  sw_buffers : ∀ i b, s_buffers s !! i = Some b → buf_ok i b;
  sw_nodup : NoDup (queued_buffers s);
  sw_queued : ∀ i, i ∈ queued_buffers s →
    ∃ b, s_buffers s !! i = Some b ∧ sb_state b = Incoming;
  sw_streaming : streaming s = true → s_buffers s ≠ [];
  sw_iteration : is_u64 (iteration s);
}.

(** A session has buffers only while it is the active session. *)
Definition session_ok (active : option Z) (id : Z) (s : Ses) : Prop :=
  s_id s = id ∧ session_wf s ∧ (s_buffers s ≠ [] → active = Some id).

Definition simple_inv {Q HM K} (n : Z) (d : SimpleCaptureDevice Q HM K) (m : gmap Z Ses) : Prop :=
  manager_ok n (mmap_manager d) ∧
  ∀ id s, m !! id = Some s → session_ok (active_session d) id s.

(** The same, from the point of view of a call on session [id]. *)
Definition hs_inv {Q HM K} (n : Z) (m : gmap Z Ses) (id : Z)
    (ds : SimpleCaptureDevice Q HM K * Ses) : Prop :=
  simple_inv n ds.1 (<[id := ds.2]> m).
End Invariant.

Section SetState.
Context `{BM : BuildMode} `{V : V4l2r} {VL : V4l2rLaws}.

Lemma set_bytesused_planes n b p ps :
  buf_planes b = BMmap (p :: ps) →
  buf_planes (set_bytesused n b) =
  BMmap (mkPlane (p_length p) n (p_data_offset p) (p_backing p) :: ps).
Proof.
  intros Hp. unfold set_bytesused. rewrite (first_plane_mmap b p ps Hp).
  by apply (planes_set_first b p).
Qed.

Lemma set_bytesused_ok n i b :
  buf_ok i b →
  ∃ p ps, buf_planes (set_bytesused n (sb_v4l2 b)) = BMmap (p :: ps) ∧
    p_backing p = sb_offset b ∧ p_length p = BUFFER_SIZE ∧ p_bytesused p = n.
Proof.
  intros [_ (p&ps&Hp&Hb&Hl) _ _]. erewrite set_bytesused_planes by done. eauto 10.
Qed.

Lemma set_bytesused_index n b : buf_index (set_bytesused n b) = buf_index b.
Proof. unfold set_bytesused. by autorewrite with v4l2r. Qed.

Lemma set_bytesused_buf_ok n i b :
  buf_ok i b →
  buf_ok i (mkBuffer _ (sb_state b) (set_bytesused n (sb_v4l2 b)) (sb_fd b) (sb_offset b)).
Proof.
  intros Hb. destruct (set_bytesused_ok n i b Hb) as (p&ps&Hp&Hbk&Hl&_).
  destruct Hb as [Hi _ Hf Hs]. split; simpl; [by rewrite set_bytesused_index|eauto| |done].
  unfold set_bytesused. by autorewrite with v4l2r.
Qed.

Lemma land_ldiff f q : Z.land (Z.ldiff f q) q = 0.
Proof.
  apply Z.bits_inj'. intros n _. rewrite Z.land_spec, Z.ldiff_spec, Z.bits_0.
  by destruct (Z.testbit f n), (Z.testbit q n).
Qed.

Lemma land_lor f q : Z.land (Z.lor f q) q = q.
Proof.
  apply Z.bits_inj'. intros n _. rewrite Z.land_spec, Z.lor_spec.
  by destruct (Z.testbit f n), (Z.testbit q n).
Qed.

(** A buffer keeps its description through every change of state. *)
Lemma set_state_ok state i b b' :
  buf_ok i b → set_state state b = Ret b' →
  buf_ok i b' ∧ sb_state b' = state ∧ sb_fd b' = sb_fd b ∧ sb_offset b' = sb_offset b.
Proof.
  intros Hb. pose proof (bo_index _ _ Hb) as Hi. pose proof (bo_size _ _ Hb) as Hsz.
  unfold set_state, mbind, outcome_bind. destruct state as [| |sequence].
  - destruct (set_bytesused_ok 0 i b Hb) as (p&ps&Hp&Hbk&Hl&_). intros [= <-].
    split; [|done]. split; simpl; autorewrite with v4l2r; rewrite ?set_bytesused_index;
      [done|eauto|apply land_ldiff|done].
  - destruct (set_bytesused_ok 0 i b Hb) as (p&ps&Hp&Hbk&Hl&_). intros [= <-].
    split; [|done]. split; simpl; autorewrite with v4l2r; rewrite ?set_bytesused_index;
      [done|eauto|apply land_lor|done].
  - destruct (set_bytesused_ok BUFFER_SIZE i b Hb) as (p&ps&Hp&Hbk&Hl&_).
    destruct (u32_add sequence 1); [|done]. intros [= <-].
    split; [|done]. split; simpl; autorewrite with v4l2r; rewrite ?set_bytesused_index;
      [done|eauto|apply land_ldiff|done].
Qed.

Lemma set_state_panics state b : set_state state b = Panic → overflow_checks = true.
Proof.
  unfold set_state, mbind, outcome_bind. destruct state as [| |sequence]; [done..|].
  destruct (u32_add sequence 1) eqn:E; [done|]. intros _. by eapply unsigned_op_panics.
Qed.

Lemma wp_set_state {S E} pn state i b (Q : result Buffer E → S → Prop) s :
  (overflow_checks = true → pn = true) → buf_ok i b →
  (∀ b', buf_ok i b' → sb_state b' = state → sb_fd b' = sb_fd b → sb_offset b' = sb_offset b →
     set_state state b = Ret b' → Q (Ok b') s) →
  wp pn (lift_outcome (set_state state b)) Q s.
Proof.
  intros Hpn Hb HQ. unfold wp. destruct (set_state state b) as [b'|] eqn:E1; simpl.
  - destruct (set_state_ok _ _ _ _ Hb E1) as (?&?&?&?). auto.
  - apply Hpn. by eapply set_state_panics.
Qed.
End SetState.

(** ** The file output never panics *)

Section Output.
Context `{BM : BuildMode} `{!Kernel K}.

Lemma wp_flush_loop fuel fd bs (k : K) : wp false (flush_loop fuel fd bs) (λ r _, is_ok r) k.
Proof.
  revert bs k. induction fuel as [|fuel IH]; intros [|b bs] k; simpl; try done.
  apply wp_bind, wp_try. unfold wp at 1, syscall.
  destruct (sys_write fd (b :: bs) k) as [k1 [[|n]|e]]; done || apply IH.
Qed.

Lemma wp_flush_buf w (k : K) :
  wp false (flush_buf w) (λ r _, is_ok r) k.
Proof.
  unfold flush_buf. apply wp_bind. eapply wp_mono, wp_flush_loop. by intros [].
Qed.

Lemma wp_bw_drop w (k : K) : wp false (bw_drop w) (λ r _, is_ok r) k.
Proof. unfold bw_drop. apply wp_bind. eapply wp_mono, wp_flush_buf. by intros []. Qed.

Lemma wp_bw_write w bs (k : K) : wp false (bw_write w bs) (λ r _, is_ok r) k.
Proof.
  unfold bw_write. apply wp_bind. case_match; [|done].
  eapply wp_mono, wp_flush_buf. by intros [[w' ok]|].
Qed.

Lemma wp_write_pixels n color w (k : K) : wp false (write_pixels n color w) (λ _ _, True) k.
Proof.
  revert w k. induction n as [|n IH]; intros w k; simpl; [done|].
  apply wp_bind. eapply wp_mono, wp_bw_write. intros [[w' [|]]|e] k' Hok; [apply IH| |done].
  apply wp_bind. eapply wp_mono, wp_bw_drop. by intros [].
Qed.

Lemma wp_write_frame fd color (k : K) : wp false (write_frame fd color) (λ _ _, True) k.
Proof.
  unfold write_frame. apply wp_bind. eapply wp_mono, wp_write_pixels.
  intros [w|e] k' _; [|done]. eapply wp_mono, wp_bw_drop. done.
Qed.

(** The arithmetic of the color stays in a [u8]. *)
Lemma frame_color_value sequence :
  frame_color sequence = Ret [byte_of_Z (0xff * (sequence `mod` 2));
    byte_of_Z (0x55 * (as_u8 sequence `mod` 3)); byte_of_Z (0x10 * (sequence `mod` 16))].
Proof.
  unfold frame_color, u8_mul, as_u8, mbind, outcome_bind.
  pose proof (Z.mod_pos_bound (sequence `mod` 256) 2 ltac:(lia)).
  pose proof (Z.mod_pos_bound (sequence `mod` 256) 3 ltac:(lia)).
  pose proof (Z.mod_pos_bound (sequence `mod` 256) 16 ltac:(lia)).
  rewrite !unsigned_op_ok by mlia. do 2 f_equal; [|do 2 f_equal]; f_equal; divlia.
Qed.
End Output.

(** ** Every operation keeps the invariant *)

Section Preservation.
Context `{BM : BuildMode} `{V : V4l2r} {VL : V4l2rLaws}.
Context {Q HM K : Type} `{!VirtioMediaEventQueue Q} `{!VirtioMediaHostMemoryMapper HM}.
Context `{!Kernel K}.
Abbreviation Dev := (SimpleCaptureDevice Q HM K).
Abbreviation Ses := SimpleCaptureDeviceSession.
Abbreviation St := (Dev * Ses)%type.
Context (n : Z) (m : gmap Z Ses) (id : Z).

Lemma wp_on_dev {E A} pn (f : M Dev E A) (P : result A E → St → Prop) (d : Dev) (s : Ses) :
  wp pn f (λ r d', P r (d', s)) d → wp pn (on_dev f) P (d, s).
Proof. intros Hf. by apply wp_zoom. Qed.

Lemma wp_dev_os {E A} pn (f : M K E A) (P : result A E → Dev → Prop) (d : Dev) :
  wp pn f (λ r k, P r (set_os k d)) (os d) → wp pn (dev_os f) P d.
Proof. intros Hf. by apply wp_zoom. Qed.

(** The parts of the device that the calls on a session may change freely. *)
Definition same_dev (d d' : Dev) : Prop :=
  mmap_manager d' = mmap_manager d ∧ active_session d' = active_session d.

Lemma hs_inv_intro (d : Dev) (s : Ses) :
  manager_ok n (mmap_manager d) → session_ok (active_session d) id s →
  (∀ j s', j ≠ id → m !! j = Some s' → session_ok (active_session d) j s') →
  hs_inv n m id (d, s).
Proof.
  intros Hm Hs Ho. split; [done|]. simpl. intros j s' Hj.
  apply lookup_insert_Some in Hj as [[<- <-]|[Hne Hj]]; [done|]. by apply Ho.
Qed.

Lemma hs_inv_elim (d : Dev) (s : Ses) :
  hs_inv n m id (d, s) →
  manager_ok n (mmap_manager d) ∧ session_ok (active_session d) id s ∧
  (∀ j s', j ≠ id → m !! j = Some s' → session_ok (active_session d) j s').
Proof.
  intros [Hm Hs]. simpl in *. split; [done|]. split.
  - apply Hs. apply lookup_insert_eq.
  - intros j s' Hne Hj. apply Hs. by rewrite lookup_insert_ne.
Qed.

(** A call that changes neither the manager nor the active session only has to
    keep its session well-formed. *)
Lemma hs_inv_session (d d' : Dev) (s s' : Ses) :
  hs_inv n m id (d, s) → same_dev d d' → s_id s' = s_id s → session_wf s' →
  (s_buffers s' = [] ↔ s_buffers s = []) →
  hs_inv n m id (d', s').
Proof.
  intros (Hm&(Hid&Hwf&Ha)&Ho)%hs_inv_elim [Hmm Hact] Hid' Hwf' Hempty.
  apply hs_inv_intro; rewrite ?Hmm, ?Hact; [done| |done].
  split; [congruence|]. split; [done|]. intros Hne. apply Ha. by rewrite <-Hempty.
Qed.

Lemma insert_nil_iff {A} (i : nat) (x : A) l : <[i := x]> l = [] ↔ l = [].
Proof. destruct l; [done|]. by destruct i. Qed.

(** Replacing a buffer by one of the right description. *)
Lemma session_wf_insert (s : Ses) i b q :
  session_wf s → (i < length (s_buffers s))%nat → buf_ok i b → NoDup q →
  (∀ j, j ∈ q → j = i ∧ sb_state b = Incoming ∨ j ≠ i ∧ j ∈ queued_buffers s) →
  session_wf (set_queued q (set_buffers (<[i := b]> (s_buffers s)) s)).
Proof.
  intros [Hb Hnd Hq Hst Hit] Hi Hok Hndq Hqq. split; simpl; [|done| |by rewrite insert_nil_iff|done].
  - intros j b'. destruct (decide (i = j)) as [<-|Hne].
    + rewrite list_lookup_insert_eq by done. intros [= <-]. done.
    + rewrite list_lookup_insert_ne by done. apply Hb.
  - intros j [[-> Hs]|[Hne Hj]]%Hqq.
    + exists b. by rewrite list_lookup_insert_eq.
    + rewrite list_lookup_insert_ne by done. by apply Hq.
Qed.

Lemma session_wf_iteration (s : Ses) k : session_wf s → is_u64 k → session_wf (set_iteration k s).
Proof. intros []. by split. Qed.

Lemma wp_process_one i (d : Dev) (s : Ses) :
  hs_inv n m id (d, s) → (i < length (s_buffers s))%nat → i ∉ queued_buffers s →
  wp overflow_checks (process_one i)
    (λ _ st, hs_inv n m id st ∧ queued_buffers st.2 = queued_buffers s) (d, s).
Proof.
  intros Hinv Hi Hq. pose proof (hs_inv_elim _ _ Hinv) as (_&(_&Hwf&_)&_).
  unfold process_one. apply wp_bind, wp_gets. cbn [snd].
  destruct (lookup_lt_is_Some_2 _ _ Hi) as [b Hb]. rewrite Hb.
  pose proof (sw_buffers _ Hwf _ _ Hb) as Hbo.
  apply wp_bind, wp_ret, wp_bind, wp_map_err, wp_on_dev, wp_dev_os. unfold wp at 1, syscall.
  destruct (seek_start _ _) as [k1 [[]|e]];
    [|split; [by eapply hs_inv_session|done]].
  rewrite frame_color_value. apply wp_bind, wp_ret, wp_bind, wp_on_dev, wp_dev_os.
  eapply wp_panic_mono, wp_mono, wp_write_frame; [done|].
  intros [[]|e] k2 _; [|split; [by eapply hs_inv_session|done]].
  apply wp_bind. eapply wp_set_state with (i := i); [done| |].
  { by apply set_bytesused_buf_ok. }
  intros b' Hbo' Hst Hfd Hoff _.
  apply wp_bind, wp_modify, wp_bind. cbn [fst snd].
  destruct (u64_add (iteration s) 1) as [k|] eqn:Ek; [|by eapply unsigned_op_panics].
  apply wp_ret, wp_bind, wp_modify, wp_modify. cbn [fst snd]. split; [|done].
  eapply hs_inv_session; [done|done|done| |simpl; apply insert_nil_iff].
  apply session_wf_iteration; [|eapply unsigned_op_range; [|done]; mlia].
  apply (session_wf_insert s i b' (queued_buffers s)); [done..|apply Hwf|].
  intros j Hj. right. split; [congruence|done].
Qed.

(** Popping the front of the queue. *)
Lemma session_wf_pop (s : Ses) i q :
  session_wf s → queued_buffers s = i :: q → session_wf (set_queued q s).
Proof.
  intros [Hb Hnd Hq Hst Hit] Hi. rewrite Hi in Hnd, Hq.
  split; simpl; [done|by apply NoDup_cons in Hnd as [_ ?]| |done|done].
  intros j Hj. apply Hq. by right.
Qed.

Lemma wp_process_loop fuel (d : Dev) (s : Ses) :
  hs_inv n m id (d, s) → (length (queued_buffers s) ≤ fuel)%nat →
  wp overflow_checks (process_loop fuel)
    (λ r st, hs_inv n m id st ∧ (is_ok r → queued_buffers st.2 = [])) (d, s).
Proof.
  revert d s. induction fuel as [|fuel IH]; intros d s Hinv Hf;
    cbn [process_loop]; apply wp_bind, wp_gets; cbn [snd];
    destruct (queued_buffers s) as [|i q] eqn:Eq; [done|simpl in Hf; lia|done|].
  pose proof (hs_inv_elim _ _ Hinv) as (_&(_&Hwf&_)&_).
  apply wp_bind, wp_modify, wp_bind. cbn [fst snd].
  pose proof (session_wf_pop s i q Hwf Eq) as Hwf'.
  destruct (sw_queued _ Hwf i) as (b&Hb&_); [rewrite Eq; by left|].
  pose proof (sw_nodup _ Hwf) as Hnd. rewrite Eq in Hnd. apply NoDup_cons in Hnd as [Hnin _].
  eapply wp_mono, wp_process_one;
    [|by eapply hs_inv_session|simpl; by eapply lookup_lt_Some|done].
  intros [[]|e] [d' s'] [Hinv' Hq']; [|done]. apply IH; [done|].
  simpl in Hq'. rewrite Hq'. simpl in Hf. lia.
Qed.

Lemma wp_process_queued_buffers (d : Dev) (s : Ses) :
  hs_inv n m id (d, s) →
  wp overflow_checks process_queued_buffers
    (λ r st, hs_inv n m id st ∧ (is_ok r → queued_buffers st.2 = [])) (d, s).
Proof. intros Hinv. by apply wp_process_loop. Qed.

Lemma wp_qbuf buffer regions (d : Dev) (s : Ses) :
  hs_inv n m id (d, s) →
  wp overflow_checks (qbuf buffer regions) (λ _ st, hs_inv n m id st) (d, s).
Proof.
  intros Hinv. pose proof (hs_inv_elim _ _ Hinv) as (_&(_&Hwf&_)&_).
  unfold qbuf. apply wp_bind, wp_gets. cbn [snd].
  set (i := Z.to_nat (buf_index buffer)).
  apply wp_bind, wp_ok_or; [intros b Hb|done].
  apply wp_bind, wp_guard; [intros Hs%bool_decide_eq_false|done].
  apply wp_bind. eapply wp_set_state; [done|by apply (sw_buffers _ Hwf)|].
  intros b' Hbo Hst _ _ _. apply wp_bind, wp_modify, wp_bind, wp_modify. cbn [fst snd].
  assert (i ∉ queued_buffers s) as Hnin.
  { intros (b0&Hb0&Hs0)%(sw_queued _ Hwf). congruence. }
  pose proof (lookup_lt_Some _ _ _ Hb) as Hi.
  assert (hs_inv n m id (d, set_queued (queued_buffers s ++ [i])
    (set_buffers (<[i := b']> (s_buffers s)) s))) as Hinv'.
  { eapply hs_inv_session; [done|done|done| |simpl; apply insert_nil_iff].
    apply session_wf_insert; [done..| |].
    - apply NoDup_app. split; [apply Hwf|]. split; [|apply NoDup_singleton].
      intros j Hj ->%list_elem_of_singleton. done.
    - intros j [Hj| ->%list_elem_of_singleton]%elem_of_app; [right|by left].
      split; [congruence|done]. }
  apply wp_bind. destruct (streaming s).
  - eapply wp_mono, wp_process_queued_buffers; [|exact Hinv'].
    by intros [[]|e] [d' s'] [Hinv2 _].
  - by apply wp_ret.
Qed.

Lemma wp_streamon queue (d : Dev) (s : Ses) :
  hs_inv n m id (d, s) →
  wp overflow_checks (streamon queue) (λ _ st, hs_inv n m id st) (d, s).
Proof.
  intros Hinv. pose proof (hs_inv_elim _ _ Hinv) as (_&(_&Hwf&_)&_).
  unfold streamon. apply wp_bind, wp_gets. cbn [snd].
  apply wp_bind, wp_guard; [intros [_ Hne%bool_decide_eq_false]%orb_false_iff|done].
  apply wp_bind, wp_modify. cbn [fst snd]. eapply wp_mono, wp_process_queued_buffers.
  { by intros r st [??]. }
  eapply hs_inv_session; [done..| |done]. destruct Hwf. by split.
Qed.

(** What is left of the invariant while [reqbufs] replaces the buffers: the
    session may have buffers without being active. *)
Definition replacing (active : option Z) (st : St) : Prop :=
  manager_ok n (mmap_manager st.1) ∧ s_id st.2 = id ∧ session_wf st.2 ∧
  active_session st.1 = active ∧ streaming st.2 = false ∧
  ∀ j s', j ≠ id → m !! j = Some s' → session_ok active j s'.

Lemma wp_reset_buffers {E} pn (s : Ses) (d : Dev) (P : result unit E → St → Prop) :
  (overflow_checks = true → pn = true) → session_wf s → queued_buffers s = [] →
  (∀ s', session_wf s' → s_id s' = s_id s → streaming s' = streaming s →
     queued_buffers s' = [] → Forall (λ b, sb_state b = New) (s_buffers s') →
     (s_buffers s' = [] ↔ s_buffers s = []) → P (Ok tt) (d, s')) →
  wp pn reset_buffers P (d, s).
Proof.
  intros Hpn Hwf Hq HP. unfold reset_buffers. apply wp_bind, wp_gets, wp_bind. cbn [snd].
  apply (wp_mono _ _ (λ r st, st = (d, s) ∧ ∃ l, r = Ok l ∧ Forall2 (λ b b' : Buffer,
    (∀ i, buf_ok i b → buf_ok i b') ∧ sb_state b' = New) (s_buffers s) l)).
  - intros r st [-> (l&->&HF)]. apply wp_modify. cbn [fst snd].
    pose proof (Forall2_length _ _ _ HF) as Hlen.
    assert (l = [] ↔ s_buffers s = []) as Hnil by (by rewrite <-!length_zero_iff_nil, Hlen).
    apply HP; [|done..| |done].
    + destruct Hwf as [Hb Hnd Hqq Hst Hit]. split; simpl; [|done| |by rewrite Hnil|done].
      * intros i b' Hb'. destruct (Forall2_lookup_r _ _ _ _ _ HF Hb') as (b&Hlb&Hok&_). auto.
      * rewrite Hq. by intros i ?%not_elem_of_nil.
    + apply Forall_forall. intros b' [i Hb']%list_elem_of_lookup.
      by destruct (Forall2_lookup_r _ _ _ _ _ HF Hb') as (b&_&_&?).
  - clear HP Hq Hwf. generalize (s_buffers s) as l. induction l as [|b l IH]; simpl.
    { apply wp_ret. eauto. }
    apply wp_bind. unfold wp at 1, set_state. simpl.
    apply wp_bind. eapply wp_mono, IH. intros r st [-> (l'&->&HF)]. apply wp_ret.
    split; [done|]. eexists. split; [done|]. constructor; [|done].
    split; [|done]. intros i Hb. by eapply (set_state_ok New).
Qed.

Lemma session_wf_clear (s : Ses) b :
  session_wf s → (b = true → s_buffers s ≠ []) → session_wf (set_queued [] (set_streaming b s)).
Proof.
  intros [] Hb. split; simpl; [done|constructor| |done|done]. by intros i ?%not_elem_of_nil.
Qed.

Lemma wp_streamoff queue (d : Dev) (s : Ses) :
  hs_inv n m id (d, s) →
  wp overflow_checks (streamoff queue) (λ _ st, hs_inv n m id st) (d, s).
Proof.
  intros Hinv. pose proof (hs_inv_elim _ _ Hinv) as (_&(_&Hwf&_)&_).
  unfold streamoff, check_queue. apply wp_bind, wp_guard; [intros _|done].
  apply wp_bind, wp_modify, wp_bind, wp_modify. cbn [fst snd].
  apply wp_reset_buffers; [done|by apply session_wf_clear|done|].
  intros s' Hwf' Hid _ _ _ Hnil. by eapply hs_inv_session.
Qed.

Lemma wp_unregister_all {E} l (P : Dev → Prop) (d : Dev) :
  manager_ok n (mmap_manager d) →
  (∀ mm, manager_ok n mm → P (set_manager mm d)) →
  wp (E := E) false (unregister_all l) (λ r d', is_ok r ∧ P d') d.
Proof.
  intros Hmm HP. assert (∀ mm, manager_ok n mm →
    wp (E := E) false (unregister_all l) (λ r d', is_ok r ∧ P d') (set_manager mm d)) as Hall.
  { induction l as [|b l IH]; intros mm Hm; [split; [done|by apply HP]|].
    unfold unregister_all in *. simpl. apply wp_bind, wp_bind, wp_zoom.
    eapply wp_mono, wp_unregister; [|done].
    intros [x|e] mm' [Hm' ?]; [|done]. simpl. by apply IH. }
  specialize (Hall _ Hmm). by destruct d.
Qed.

(** A new buffer has its description, whatever happened to the range. *)
Lemma wp_new_buffer i (d : Dev) :
  manager_ok n (mmap_manager d) → 0 ≤ i →
  wp overflow_checks (new_buffer i)
    (λ r d', (manager_ok n (mmap_manager d') ∧ active_session d' = active_session d) ∧
       match r with
       | Ok b => buf_ok (Z.to_nat i) b ∧ sb_state b = New ∧ is_u32 (sb_offset b)
       | Err _ => True
       end) d.
Proof.
  intros Hmm Hi. unfold new_buffer. apply wp_bind, wp_map_err, wp_dev_os.
  assert (∀ k : K, wp false (MemFdBuffer_new BUFFER_SIZE)
    (λ r _, match r with Ok fd => size fd = BUFFER_SIZE | Err _ => True end) k) as Hfd.
  { intros k. unfold MemFdBuffer_new. apply wp_bind, wp_guard; [intros _|done].
    unfold wp, mbind, M_bind, map_err, syscall.
    destruct (memfd_create k) as [k1 [fd|e]]; [|done].
    destruct (file_set_len fd BUFFER_SIZE k1) as [k2 [[]|e]]; [|done].
    by destruct (add_seals fd _ k2) as [k3 [[]|e]]. }
  eapply wp_panic_mono, wp_mono, Hfd; [done|]. intros [fd|e] k Hsz; [|done].
  apply wp_bind, wp_map_err, wp_zoom. cbn [mmap_manager set_os].
  eapply wp_mono, wp_register; [|vm_compute; split; congruence|done].
  intros [o|e] mm [Hm Ho]; [|done]. apply wp_bind.
  destruct (new_planes VideoCapture i) as (p&ps&Hp). rewrite Hp.
  apply wp_ret, wp_ret. split; [done|]. split; [|done]. split; simpl; autorewrite with v4l2r.
  - lia.
  - erewrite planes_set_planes by done. eauto.
  - apply monotonic_not_queued.
  - done.
Qed.

Lemma wp_new_buffers count (d : Dev) :
  manager_ok n (mmap_manager d) →
  wp overflow_checks (mapM_m new_buffer (seqZ 0 count))
    (λ r d', (manager_ok n (mmap_manager d') ∧ active_session d' = active_session d) ∧
       match r with
       | Ok l => length l = Z.to_nat count ∧ (∀ i b, l !! i = Some b → buf_ok i b) ∧
                 Forall (λ b, is_u32 (sb_offset b)) l
       | Err _ => 0 < count
       end) d.
Proof.
  intros Hmm. destruct (decide (0 < count)) as [Hpos|Hneg]; last first.
  { rewrite seqZ_nil by lia. split; [done|]. split; [simpl; lia|]. split; [done|constructor]. }
  eapply wp_mono, (wp_mapM _
    (λ d', manager_ok n (mmap_manager d') ∧ active_session d' = active_session d)
    (λ i b, buf_ok (Z.to_nat i) b ∧ is_u32 (sb_offset b))); [|done|].
  - intros [l|e] d' [Hd HF]; [|done]. split; [done|].
    pose proof (Forall2_length _ _ _ HF) as Hlen. rewrite length_seqZ in Hlen.
    split; [done|]. split.
    + intros i b Hb. destruct (Forall2_lookup_r _ _ _ _ _ HF Hb) as (z&Hz&Hok&_).
      apply lookup_seqZ in Hz as [-> _]. by rewrite Z.add_0_l, Nat2Z.id in Hok.
    + apply Forall_forall. intros b [i Hb]%list_elem_of_lookup.
      by destruct (Forall2_lookup_r _ _ _ _ _ HF Hb) as (z&_&_&?).
  - intros i d' Hi%elem_of_seqZ [Hm' Ha']. eapply wp_mono, wp_new_buffer; [|done|lia].
    intros [b|e] d2 [[? Ha2] Hb]; (split; [split; [done|congruence]|]); [|done].
    destruct Hb as (?&_&?). done.
Qed.

(** The buffers are replaced, or the old ones are kept when an allocation fails. *)
Lemma wp_replace_buffers count active (d : Dev) (s : Ses) :
  replacing active (d, s) → queued_buffers s = [] → active = Some id ∨ count = 0 →
  wp overflow_checks (replace_buffers count) (λ _ st, hs_inv n m id st) (d, s).
Proof.
  intros (Hmm&Hid&Hwf&Hact&Hst&Ho) Hq Hc. cbn [fst snd] in *.
  unfold replace_buffers. apply wp_bind, wp_gets, wp_bind, wp_on_dev. cbn [snd].
  eapply wp_panic_mono, wp_mono, (wp_unregister_all _ (λ d', active_session d' = active ∧
    manager_ok n (mmap_manager d'))); [done| |done|done].
  intros [[]|e] d1 [? [Ha1 Hm1]]; [|done]. apply wp_bind, wp_on_dev.
  eapply wp_mono, wp_new_buffers; [|done].
  intros [l|e] d2 [[Hm2 Ha2] Hl].
  - apply wp_modify. cbn [fst snd]. destruct Hl as (Hlen&Hok&_).
    apply hs_inv_intro; simpl; rewrite ?Ha2, ?Ha1; [done| |done].
    split; [done|]. split.
    + destruct Hwf. split; simpl; rewrite ?Hq; [done|constructor| |congruence|done].
      by intros i ?%not_elem_of_nil.
    + simpl. intros Hne. destruct Hc as [->| ->]; [done|].
      destruct l; [done|simpl in Hlen; lia].
  - apply hs_inv_intro; simpl; rewrite ?Ha2, ?Ha1; [done| |done].
    split; [done|]. split; [done|]. intros Hne. destruct Hc as [->| ->]; [done|lia].
Qed.

(** No other session has buffers when this one may ask for some. *)
Lemma session_ok_inactive active active' j (s : Ses) :
  session_ok active j s → active ≠ Some j → session_ok active' j s.
Proof. intros (?&?&Hb) Hne. split; [done|]. split; [done|]. intros Hs. by apply Hb in Hs. Qed.

Lemma wp_reqbufs queue memory count flags (d : Dev) (s : Ses) :
  hs_inv n m id (d, s) →
  wp overflow_checks (reqbufs queue memory count flags) (λ _ st, hs_inv n m id st) (d, s).
Proof.
  intros Hinv. pose proof (hs_inv_elim _ _ Hinv) as (Hmm&(Hid&Hwf&Ha)&Ho).
  unfold reqbufs, streamoff, check_queue.
  apply wp_bind, wp_guard; [intros Hq|done]. apply wp_bind, wp_guard; [intros _|done].
  apply wp_bind, wp_gets, wp_bind, wp_guard; [intros Hst|done]. cbn [fst snd] in *.
  apply wp_bind, wp_gets, wp_bind, wp_guard; [intros Hact|done]. cbn [fst] in *.
  assert (∀ active' j s', j ≠ id → m !! j = Some s' → session_ok active' j s') as Ho'.
  { intros active' j s' Hne Hj. eapply session_ok_inactive; [by apply Ho|].
    destruct (active_session d) as [a|]; [|done].
    apply negb_false_iff, Z.eqb_eq in Hact. congruence. }
  apply wp_bind. destruct (Z.eqb_spec count 0) as [->|Hne].
  - apply wp_bind, wp_modify, wp_bind. rewrite Hq. apply wp_ret.
    apply wp_bind, wp_modify, wp_bind, wp_modify. cbn [fst snd].
    apply wp_reset_buffers; [done|by apply session_wf_clear|done|].
    intros s' Hwf' Hid' Hst' Hq' _ _. apply wp_bind. eapply wp_mono, wp_replace_buffers.
    + by intros [[]|e] st Hst2.
    + split_and!; simpl in *; [done|congruence|done|done|done|apply Ho'].
    + done.
    + by right.
  - apply wp_bind, wp_modify. cbn [fst snd].
    assert (session_wf (set_queued [] s)) as Hwf0.
    { destruct s. by apply (session_wf_clear _ streaming0) in Hwf; [|intros ->]. }
    apply wp_bind, wp_reset_buffers; [done|done|done|].
    intros s' Hwf' Hid' Hst' Hq' _ _. apply wp_modify. cbn [fst snd].
    apply wp_bind. eapply wp_mono, wp_replace_buffers.
    + by intros [[]|e] st Hst2.
    + split_and!; simpl in *; [done|congruence|done|done|congruence|apply Ho'].
    + done.
    + left. simpl. by rewrite Hid.
Qed.

(** *** The handler and the device keep the invariant *)

#[export] Instance simple_handler_invariant :
  HandlerInvariant (H := Dev) (λ _, overflow_checks) (hs_inv n m id).
Proof.
  intros a E T c [d s] _ Hinv. destruct c; try done; unfold call; cbn [ioctl_method simple_handler].
  all: try (unfold wp, run_method; simpl; unfold enum_fmt, g_fmt, s_fmt, try_fmt, g_parm, s_parm,
    querybuf, g_input, s_input, enuminput, enum_framesizes, enum_frameintervals, check_queue;
    unfold_M; repeat (case_match; simplify_eq/=); done).
  - by apply wp_reqbufs.
  - by apply wp_qbuf.
  - by apply wp_streamon.
  - by apply wp_streamoff.
Qed.

End Preservation.

Section Contract.
Context `{BM : BuildMode} `{V : V4l2r} {VL : V4l2rLaws}.
Context {Q HM K : Type} `{!VirtioMediaEventQueue Q} `{!VirtioMediaHostMemoryMapper HM}.
Context `{!Kernel K}.
Abbreviation Dev := (SimpleCaptureDevice Q HM K).
Abbreviation Ses := SimpleCaptureDeviceSession.

(** The ioctls on which the capture device may panic: the one whose validation
    may, and any other on an overflow in a build that checks for them. *)
Definition simple_panics (ioctl : V4l2Ioctl) : bool := overflow_checks || validation_panics ioctl.

Lemma simple_inv_close n (d : Dev) m id s :
  simple_inv n d m → m !! id = Some s →
  ∃ d', simple_close_session s d = Ret d' ∧ simple_inv n d' (delete id m).
Proof.
  intros [Hmm Hm] Hs. destruct (Hm id s Hs) as (Hid&_&_). unfold simple_close_session.
  set (d1 := if bool_decide _ then _ else _).
  assert (manager_ok n (mmap_manager d1)) as Hmm1 by (unfold d1; by case_bool_decide).
  pose proof (wp_unregister_all (E := Empty_set) n (s_buffers s)
    (λ d', manager_ok n (mmap_manager d') ∧ active_session d' = active_session d1) d1 Hmm1
    ltac:(done)) as Hw.
  unfold wp in Hw. unfold mbind, outcome_bind.
  destruct (unregister_all (s_buffers s) d1) as [[d' r]|]; [|done].
  destruct Hw as (_&Hm'&Ha'). exists d'. split; [done|]. split; [done|].
  intros j s' [Hne Hj]%lookup_delete_Some. rewrite Ha'. unfold d1.
  case_bool_decide as Hact; [|by apply Hm]. simpl.
  eapply session_ok_inactive; [by apply Hm|]. congruence.
Qed.

#[export] Instance simple_contract : DeviceContract (D := Dev) simple_panics simple_inv.
Proof.
  split.
  - intros n d m [Hmm Hm]. split; [|done]. eapply manager_ok_mono; [|done]. lia.
  - intros n d m id [Hmm Hm] Hid Hnone. split; [done|]. intros j s Hj.
    apply lookup_insert_Some in Hj as [[<- <-]|[Hne Hj]]; [|by apply Hm].
    split; [done|]. split; [|done]. split; simpl; [done|constructor| |done|mlia].
    by intros i ?%not_elem_of_nil.
  - intros n d m id s. apply simple_inv_close.
  - intros n d m id s ioctl r w Hinv _ Hs _. unfold simple_panics.
    eapply wp_mono, (wp_dispatch (λ _, overflow_checks) (λ _, hs_inv n m id) (hs_inv n m id)).
    + intros res [[[d' s'] r'] w'] [[Hmm' Hm'] _].
      split; [eapply manager_ok_mono; [|done]; lia|done].
    + unfold hs_inv. simpl. by rewrite insert_id.
  - intros n d m id s flags offset [Hmm Hm] Hn Hs Hoff. simpl. unfold simple_do_mmap.
    assert (∀ mm, manager_ok (n + 1) mm →
      simple_inv (n + 1) (set_manager mm d) (<[id := s]> m)) as Hinv.
    { intros mm Hmm'. rewrite insert_id by done. by split. }
    assert (simple_inv (n + 1) d (<[id := s]> m)) as Hinv0.
    { specialize (Hinv _ (manager_ok_mono n (n + 1) _ ltac:(lia) Hmm)). by destruct d. }
    apply wp_bind, wp_gets, wp_bind, wp_ok_or; [intros [i b] _|done].
    apply wp_map_err, wp_on_dev, wp_zoom. eapply wp_mono, wp_create; [|done|done].
    intros res mm Hmm'. by apply Hinv.
  - intros n d m addr [Hmm Hm]. simpl. unfold simple_do_munmap.
    apply wp_bind, wp_map_err, wp_zoom. eapply wp_mono, wp_remove; [|done].
    by intros [x|e] mm Hmm'; split.
Qed.
End Contract.

(** ** Frames *)

(** What the guest is told of frame [seq], delivered in buffer [i]. *)
Definition frame_done `{V4l2r} (seq : Z) (i : nat) (v : V4l2Buffer) : Prop :=
  buf_index v = Z.of_nat i ∧ buf_sequence v = seq ∧ Z.land (buf_flags v) FLAG_QUEUED = 0 ∧
  ∃ p ps, buf_planes v = BMmap (p :: ps) ∧ p_bytesused p = BUFFER_SIZE.

(** Files that can be rewound and written. *)
Class WorkingFiles (K : Type) `{Kernel K} : Prop := {
  seek_works : ∀ fd k, ∃ k', seek_start fd k = (k', Ok tt);
  write_works : ∀ fd bs k, bs ≠ [] →
    ∃ k' n, sys_write fd bs k = (k', Ok (S n)) ∧ (S n ≤ length bs)%nat;
}.

Section FrameLemmas.
Context `{BM : BuildMode} `{V : V4l2r} {VL : V4l2rLaws}.
Context {Q HM K : Type} `{!VirtioMediaEventQueue Q} `{!VirtioMediaHostMemoryMapper HM}.
Context `{!Kernel K} `{!WorkingFiles K}.
Abbreviation Dev := (SimpleCaptureDevice Q HM K).
Abbreviation Ses := SimpleCaptureDeviceSession.

Lemma flush_loop_works fuel fd bs (k : K) :
  (length bs ≤ fuel)%nat → ∃ k', flush_loop fuel fd bs k = Ret (k', Ok ([], true)).
Proof.
  revert bs k. induction fuel as [|fuel IH]; intros [|b bs] k Hf; simpl in *; [eauto|lia|eauto|].
  destruct (write_works fd (b :: bs) k ltac:(done)) as (k1&n&Hw&_).
  unfold_M. unfold syscall. rewrite Hw. apply IH. rewrite length_drop. simpl. lia.
Qed.

Lemma flush_buf_works w (k : K) : ∃ k' w', flush_buf w k = Ret (k', Ok (w', true)).
Proof.
  unfold flush_buf. destruct (flush_loop_works (length (bw_buffered w)) (bw_fd w)
    (bw_buffered w) k ltac:(done)) as [k' Hf]. unfold_M. rewrite Hf. eauto.
Qed.

Lemma bw_write_works w bs (k : K) : ∃ k' w', bw_write w bs k = Ret (k', Ok (w', true)).
Proof.
  unfold bw_write. destruct (_ <? _)%nat; [|by eauto].
  unfold_M. destruct (flush_buf_works w k) as (k1&w1&->). eauto.
Qed.

Lemma write_pixels_works n color w (k : K) :
  ∃ k' w', write_pixels n color w k = Ret (k', Ok w').
Proof.
  revert w k. induction n as [|n IH]; intros w k; simpl; [by eauto|].
  unfold_M. destruct (bw_write_works w color k) as (k1&w1&->). apply IH.
Qed.

Lemma write_frame_works fd color (k : K) : ∃ k', write_frame fd color k = Ret (k', Ok tt).
Proof.
  unfold write_frame, bw_drop. unfold_M.
  destruct (write_pixels_works (Z.to_nat (WIDTH * HEIGHT)) color (BufWriter_new fd) k)
    as (k1&w1&->).
  destruct (flush_buf_works w1 k1) as (k2&w2&->). eauto.
Qed.

(** One round: the buffer becomes [Outgoing] and its event is sent. *)
Lemma process_one_run (d : Dev) (s : Ses) i b :
  s_buffers s !! i = Some b → buf_ok i b → 0 ≤ iteration s < u32_max →
  ∃ k b', process_one i (d, s) =
    Ret ((set_queue (send_event (EvDequeueBuffer (DequeueBufferEvent_new (s_id s) (sb_v4l2 b')))
            (evt_queue d)) (set_os k d),
          set_iteration (iteration s + 1) (set_buffers (<[i := b']> (s_buffers s)) s)), Ok tt) ∧
    buf_ok i b' ∧ frame_done (iteration s) i (sb_v4l2 b').
Proof.
  intros Hb Hok Hit. unfold process_one, on_dev, dev_os, zoom. unfold_M. cbn [fst snd].
  rewrite Hb. cbn [fst snd]. unfold syscall.
  destruct (seek_works (file (sb_fd b)) (os d)) as [k1 ->]. rewrite frame_color_value.
  cbn [fst snd set_os os].
  destruct (write_frame_works (file (sb_fd b)) [byte_of_Z (255 * (as_u32 (iteration s) `mod` 2));
    byte_of_Z (85 * (as_u8 (as_u32 (iteration s)) `mod` 3));
    byte_of_Z (16 * (as_u32 (iteration s) `mod` 16))] k1) as [k2 ->].
  rewrite as_u32_id by mlia. pose proof (set_bytesused_buf_ok BUFFER_SIZE i b Hok) as Hok1.
  set (b1 := mkBuffer _ _ _ _ _) in *.
  destruct (set_state (Outgoing (iteration s)) b1) as [b2|] eqn:E2; last first.
  { unfold set_state, mbind, outcome_bind, u32_add in E2. by rewrite unsigned_op_ok in E2 by mlia. }
  unfold u64_add. rewrite unsigned_op_ok by mlia. exists k2, b2. split; [done|].
  pose proof (set_state_ok _ _ _ _ Hok1 E2) as (Hok2&Hst&_&_). split; [done|].
  destruct Hok2 as [Hi _ Hf _]. rewrite Hst in Hf. split; [done|].
  destruct (set_bytesused_ok BUFFER_SIZE i b1 Hok1) as (p&ps&Hp&_&_&Hbu).
  unfold set_state, mbind, outcome_bind, u32_add in E2. rewrite unsigned_op_ok in E2 by mlia.
  inv E2. simpl in *. autorewrite with v4l2r in *. eauto 10.
Qed.

(** The events of the frames [it], [it + 1], ... in the queued buffers [q]. *)
Definition frames_done (it : Z) (q : list nat) (vs : list V4l2Buffer) : Prop :=
  length vs = length q ∧
  ∀ k i v, q !! k = Some i → vs !! k = Some v → frame_done (it + Z.of_nat k) i v.

Definition send_frames (id : Z) (vs : list V4l2Buffer) (q : Q) : Q :=
  foldl (λ q v, send_event (EvDequeueBuffer (DequeueBufferEvent_new id v)) q) q vs.

Lemma process_loop_run fuel (d : Dev) (s : Ses) :
  session_wf s → (length (queued_buffers s) ≤ fuel)%nat →
  0 ≤ iteration s → iteration s + Z.of_nat (length (queued_buffers s)) ≤ u32_max →
  ∃ d' s' vs, process_loop fuel (d, s) = Ret ((d', s'), Ok tt) ∧
    queued_buffers s' = [] ∧
    iteration s' = iteration s + Z.of_nat (length (queued_buffers s)) ∧
    frames_done (iteration s) (queued_buffers s) vs ∧
    evt_queue d' = send_frames (s_id s) vs (evt_queue d).
Proof.
  revert d s. induction fuel as [|fuel IH]; intros d s Hwf Hf H0 Hmax;
    cbn [process_loop]; unfold_M; cbn [snd];
    destruct (queued_buffers s) as [|i q] eqn:Eq; simpl in Hf, Hmax; try lia.
  1, 2: exists d, s, []; split_and!; first [done|by split|simpl; lia].
  destruct (sw_queued _ Hwf i) as (b&Hb&_); [rewrite Eq; by left|].
  pose proof (sw_nodup _ Hwf) as Hnd. rewrite Eq in Hnd. apply NoDup_cons in Hnd as [Hnin Hnd].
  change (modify_session (set_queued q) (d, s)) with (Ret ((d, set_queued q s), @Ok unit Z tt)).
  destruct (process_one_run d (set_queued q s) i b Hb (sw_buffers _ Hwf _ _ Hb)) as (k&b'&Hp&Hbo&Hdone);
    [simpl; mlia|].
  rewrite Hp. set (s1 := set_iteration _ _). set (d1 := set_queue _ _).
  assert (session_wf s1) as Hwf1.
  { apply session_wf_iteration; [|simpl; mlia].
    pose proof (session_wf_pop s i q Hwf Eq) as Hwf'.
    apply (session_wf_insert (set_queued q s) i b' q); [done|simpl; by eapply lookup_lt_Some|done..|].
    intros j Hj. right. split; [congruence|done]. }
  destruct (IH d1 s1) as (d'&s'&vs&Hrun&Hq'&Hit&[Hlen Hvs]&Hev); [done|simpl; lia|simpl; lia|simpl; lia|].
  exists d', s', (sb_v4l2 b' :: vs). split; [done|]. split; [done|]. simpl in *.
  split; [lia|]. split; [split|done].
  - simpl. by rewrite Hlen.
  - intros [|k0] j v Hj Hv; simpl in Hj, Hv.
    { simplify_eq. by rewrite Z.add_0_r. }
    replace (iteration s + Z.of_nat (S k0)) with (iteration s + 1 + Z.of_nat k0) by lia.
    by apply Hvs.
Qed.
End FrameLemmas.

(** The pixels written so far are in the file or in the writer's buffer. *)
Lemma write_pixels_out `{KernelLaws K} n color w (k : K) :
  (length color ≤ BUF_CAPACITY)%nat → bw_wf w →
  (∃ k' w', write_pixels n color w k = Ret (k', Ok w') ∧ bw_wf w' ∧ bw_fd w' = bw_fd w ∧
     f_out k' (bw_fd w) ++ bw_buffered w' =
     f_out k (bw_fd w) ++ bw_buffered w ++ mjoin (replicate n color)) ∨
  (∃ k', write_pixels n color w k = Ret (k', Err EIO)).
Proof.
  intros Hc. revert w k. induction n as [|n IH]; intros w k Hwf; simpl.
  { left. exists k, w. rewrite app_nil_r. done. }
  unfold_M. destruct (bw_write_spec w color k Hwf Hc) as (k1&w1&[|]&->&Hwf1&Hfd1&Hout1).
  - destruct (IH w1 k1 Hwf1) as [(k2&w2&->&Hwf2&Hfd2&Hout2)|(k2&->)]; [left|right; eauto].
    exists k2, w2. split_and!; [done..|congruence|]. rewrite Hfd1 in Hout2.
    rewrite Hout2, (assoc_L (++)), Hout1 by done. by rewrite <-!(assoc_L (++)).
  - right. destruct (bw_drop_spec w1 k1 Hwf1) as (k2&_&->&_). eauto.
Qed.

(** ** Properties *)

Section Properties.
Context `{BM : BuildMode} `{V : V4l2r} {VL : V4l2rLaws}.
Context {Q HM K P : Type} `{!VirtioMediaEventQueue Q} `{!VirtioMediaHostMemoryMapper HM}.
Context `{!Kernel K} `{!SessionPoller P}.
Abbreviation Dev := (SimpleCaptureDevice Q HM K).
Abbreviation Ses := SimpleCaptureDeviceSession.

(** The device needs no poller. *)
#[export] Instance simple_poller_contract : PollerContract (P := P) (D := Dev) Ses.
Proof. by split. Qed.

Lemma simple_inv_new (q : Q) (hm : HM) (k : K) : simple_inv 0 (SimpleCaptureDevice_new q hm k) ∅.
Proof.
  split; [apply manager_ok_from|]. intros id s Hs. by apply lookup_empty_Some in Hs.
Qed.

(** C12: whatever commands the guest sends, at most one session of the capture
    device has buffers, and in every session the queued buffers are distinct,
    exist, and are in the [Incoming] state; the buffers' descriptions carry
    their index, their size and the state of their queued flag. *)
Theorem capture_device_invariant (q : Q) (hm : HM) (k : K) (p : P) cmds rn :
  Z.of_nat (length cmds) ≤ u32_max →
  run_commands cmds (runner_new (SimpleCaptureDevice_new q hm k) p) = Ret rn →
  (∀ id1 id2 s1 s2, sessions rn !! id1 = Some s1 → sessions rn !! id2 = Some s2 →
     s_buffers s1 ≠ [] → s_buffers s2 ≠ [] → id1 = id2) ∧
  (∀ id s, sessions rn !! id = Some s →
     s_id s = id ∧ NoDup (queued_buffers s) ∧
     (∀ i, i ∈ queued_buffers s → ∃ b, s_buffers s !! i = Some b ∧ sb_state b = Incoming) ∧
     (∀ i b, s_buffers s !! i = Some b → buf_ok i b)).
Proof.
  intros Hlen Hrun.
  pose proof (run_commands_inv simple_panics simple_inv cmds 0
    (runner_new (SimpleCaptureDevice_new q hm k) p) rn
    (runner_new_wf simple_inv _ p (simple_inv_new q hm k)) ltac:(lia) ltac:(mlia)
    ltac:(simpl; lia) Hrun) as [[_ Hs] _].
  split.
  - intros id1 id2 s1 s2 (_&_&H1)%Hs (_&_&H2)%Hs Hb1%H1 Hb2%H2. congruence.
  - intros id s (Hid&Hwf&_)%Hs. split_and!; [done|apply Hwf..].
Qed.

(** C20: in a build without overflow checks, no sequence of commands panics the
    capture device unless it contains a [SUBSCRIBE_EVENT]. *)
Theorem capture_device_never_panics (q : Q) (hm : HM) (k : K) (p : P) cmds :
  overflow_checks = false → Z.of_nat (length cmds) ≤ u32_max →
  Forall (λ c, requested_ioctl c.1 ≠ Some VIDIOC_SUBSCRIBE_EVENT) cmds →
  ∃ rn, run_commands cmds (runner_new (SimpleCaptureDevice_new q hm k) p) = Ret rn.
Proof.
  intros Hov Hlen Hall.
  destruct (run_commands_wf simple_panics simple_inv cmds 0
    (runner_new (SimpleCaptureDevice_new q hm k) p)) as [rn [Hrn _]]; [|lia|mlia|simpl; lia| |eauto].
  - apply runner_new_wf, simple_inv_new.
  - eapply Forall_impl; [done|]. intros [r w] Hr. simpl in *. unfold may_panic, simple_panics.
    destruct (requested_ioctl r) as [ioctl|]; [|done]. rewrite Hov. by destruct ioctl.
Qed.

(** C25: with working files, processing the queue always ends, empties it, and
    sends one event per queued buffer in the order they were queued, with
    consecutive sequence numbers, full buffers and the queued flag cleared. *)
Theorem frames_are_delivered_in_order `{!WorkingFiles K} (d : Dev) (s : Ses) :
  session_wf s → 0 ≤ iteration s →
  iteration s + Z.of_nat (length (queued_buffers s)) ≤ u32_max →
  ∃ d' s' vs, process_queued_buffers (d, s) = Ret ((d', s'), Ok tt) ∧
    queued_buffers s' = [] ∧
    evt_queue d' = send_frames (s_id s) vs (evt_queue d) ∧
    length vs = length (queued_buffers s) ∧
    ∀ k i v, queued_buffers s !! k = Some i → vs !! k = Some v →
      buf_index v = Z.of_nat i ∧ buf_sequence v = iteration s + Z.of_nat k ∧
      Z.land (buf_flags v) FLAG_QUEUED = 0 ∧
      ∃ p ps, buf_planes v = BMmap (p :: ps) ∧ p_bytesused p = BUFFER_SIZE.
Proof.
  intros Hwf H0 Hmax.
  destruct (process_loop_run (length (queued_buffers s)) d s Hwf ltac:(done) H0 Hmax)
    as (d'&s'&vs&Hrun&Hq&_&[Hlen Hvs]&Hev).
  exists d', s', vs. split_and!; done.
Qed.

(** A frame that was written without an error is the pattern of its color,
    of which only the last 8 KiB, flushed when the writer is dropped, can be
    missing from the file. *)
Theorem frame_is_uniform `{!KernelLaws K} fd color (k k' : K) :
  (length color ≤ BUF_CAPACITY)%nat → f_out k fd = [] →
  write_frame fd color k = Ret (k', Ok tt) →
  ∃ lost, f_out k' fd ++ lost = mjoin (replicate (Z.to_nat (WIDTH * HEIGHT)) color) ∧
    (length lost ≤ BUF_CAPACITY)%nat.
Proof.
  intros Hc Hout. unfold write_frame. unfold_M.
  destruct (write_pixels_out (Z.to_nat (WIDTH * HEIGHT)) color (BufWriter_new fd) k Hc)
    as [(k1&w1&->&Hwf1&Hfd1&Hout1)|(k1&->)]; [by split; simpl; lia| |done].
  destruct (bw_drop_spec w1 k1 Hwf1) as (k2&lost&->&Hlost&Hlen). intros [= <-].
  exists lost. split; [|done]. cbn [BufWriter_new bw_fd] in *. rewrite Hfd1 in Hlost.
  rewrite Hlost, Hout1, Hout. by generalize (mjoin (replicate (Z.to_nat (WIDTH * HEIGHT)) color)).
Qed.
End Properties.

(** ** Witnesses *)

Module SimpleWitness.
Import V4l2r.Sample.

#[local] Instance release_build : BuildMode := false.

(** The queue records the events. *)
#[local] Instance log_queue : VirtioMediaEventQueue (list (V4l2Event buf st)) := λ e q, q ++ [e].

(** Files whose writes are recorded. *)
#[local] Instance log_kernel : Kernel (gmap Z (list byte)) := {|
  memfd_create k := (k, Ok 3);
  file_set_len _ _ k := (k, Ok tt);
  add_seals _ _ k := (k, Ok tt);
  seek_start fd k := (<[fd := []]> k, Ok tt);
  sys_write fd bs k := (<[fd := default [] (k !! fd) ++ bs]> k, Ok (length bs));
  sys_read _ _ k := (k, Ok []);
  sys_mmap _ _ k := (k, Ok 0);
  sys_munmap _ _ k := (k, Ok tt);
|}.

#[local] Instance log_kernel_laws : KernelLaws (gmap Z (list byte)).
Proof.
  refine {| f_out k fd := default [] (k !! fd) |}.
  - intros fd k k' [= <-]. by rewrite lookup_insert_eq.
  - intros fd bs k k' n [= <- <-]. split; [done|]. rewrite lookup_insert_eq. simpl.
    by rewrite firstn_all.
  - done.
Defined.

#[local] Instance log_kernel_works : WorkingFiles (gmap Z (list byte)).
Proof.
  split; [by eexists|]. intros fd [|b bs] k Hne; [done|]. by eexists _, (length bs).
Qed.

Definition device0 : SimpleCaptureDevice (list (V4l2Event buf st)) unit (gmap Z (list byte)) :=
  SimpleCaptureDevice_new [] tt ∅.

Definition ioctl_bytes (session code : Z) (payload : list byte) : list byte :=
  c_enc c_CmdHeader (mkCmdHeader VIRTIO_MEDIA_CMD_IOCTL 0) ++
  c_enc c_IoctlCmd (mkIoctlCmd session code) ++ payload.

(** OPEN, then REQBUFS of two buffers, then QBUF of the second one. *)
Definition commands : list (Reader * Writer) :=
  (λ r, (r, mkWriter [] 64)) <$>
  [c_enc c_CmdHeader (mkCmdHeader VIRTIO_MEDIA_CMD_OPEN 0);
   ioctl_bytes 0 8 (c_enc c_st ((1, 2), (0, 1)));
   ioctl_bytes 0 15 (c_enc c_st ((1, 0), (1, 1)))].

Definition after_commands : VirtioMediaDeviceRunner
    (SimpleCaptureDevice (list (V4l2Event buf st)) unit (gmap Z (list byte)))
    SimpleCaptureDeviceSession unit :=
  match run_commands commands (runner_new device0 tt) with
  | Ret rn => rn
  | Panic => runner_new device0 tt
  end.

(** One session, with two buffers, the second of which is queued. *)
Example after_commands_session :
  (λ s, (length (s_buffers s), queued_buffers s)) <$> sessions after_commands !! 0 =
  Some (2%nat, [1%nat]).
Proof. vm_compute. reflexivity. Qed.

Lemma capture_device_invariant_witness :
  ∃ s, sessions after_commands !! 0 = Some s ∧ queued_buffers s = [1%nat] ∧
    (∀ i b, s_buffers s !! i = Some b → buf_ok i b).
Proof.
  assert (run_commands commands (runner_new device0 tt) = Ret after_commands) as Hrun.
  { unfold after_commands.
    destruct (run_commands commands (runner_new device0 tt)) eqn:E; [reflexivity|].
    assert (match run_commands commands (runner_new device0 tt) with
            | Ret _ => true | Panic => false end = true) as Hok by (vm_compute; reflexivity).
    rewrite E in Hok. discriminate. }
  destruct (capture_device_invariant [] tt ∅ tt commands after_commands
    ltac:(vm_compute; congruence) Hrun) as [_ Hs].
  pose proof after_commands_session as Hq.
  destruct (sessions after_commands !! 0) as [s|] eqn:Es; [|discriminate].
  destruct (Hs 0 s Es) as (_&_&_&Hb). exists s. split; [reflexivity|]. split; [|exact Hb].
  by injection Hq.
Defined.

Lemma capture_device_never_panics_witness :
  ∃ rn, run_commands commands (runner_new device0 tt) = Ret rn.
Proof.
  apply capture_device_never_panics; [reflexivity|vm_compute; congruence|].
  repeat constructor; vm_compute; congruence.
Defined.

(** A streaming session whose only buffer is queued. *)
Definition buffer0 : Buffer :=
  mkBuffer _ Incoming
    (mkBuf 1 0 1 0 (mkTimeval 0 0) 2 [mkPlane BUFFER_SIZE 0 None 0]) (mkMemFdBuffer 3 BUFFER_SIZE) 0.
Definition session1 : SimpleCaptureDeviceSession := mkSession _ 0 7 [buffer0] [0%nat] true.

Lemma session1_wf : session_wf session1.
Proof.
  split; simpl; [|by apply NoDup_singleton| |done|mlia].
  - intros [|i] b; [|done]. intros [= <-]. split; [done|by eexists _, _|done|done].
  - intros i ->%list_elem_of_singleton. by exists buffer0.
Qed.

Lemma frames_are_delivered_in_order_witness :
  ∃ d' s' v, process_queued_buffers (device0, session1) = Ret ((d', s'), Ok tt) ∧
    evt_queue d' = [EvDequeueBuffer (DequeueBufferEvent_new 0 v)] ∧ buf_sequence v = 7.
Proof.
  destruct (frames_are_delivered_in_order device0 session1)
    as (d'&s'&vs&Hrun&_&Hev&Hlen&Hvs); [exact session1_wf|simpl; lia|vm_compute; congruence|].
  destruct vs as [|v [|v' vs]]; [discriminate| |discriminate].
  exists d', s', v. split; [exact Hrun|]. split; [exact Hev|].
  by destruct (Hvs 0%nat 0%nat v) as (_&Hseq&_).
Defined.

Lemma frame_is_uniform_witness :
  ∃ k' lost, write_frame 3 [x00; x55; x10] (∅ : gmap Z (list byte)) = Ret (k', Ok tt) ∧
    f_out k' 3 ++ lost = mjoin (replicate (Z.to_nat (WIDTH * HEIGHT)) [x00; x55; x10]).
Proof.
  destruct (write_frame_works 3 [x00; x55; x10] (∅ : gmap Z (list byte))) as [k' Hw].
  destruct (frame_is_uniform 3 [x00; x55; x10] ∅ k') as (lost&Hl&_); [| |exact Hw|].
  - apply (bool_decide_unpack _). vm_compute. exact I.
  - reflexivity.
  - exists k', lost. by split.
Defined.
End SimpleWitness.
