(* ===== verification/VideoDecoder.v ===== *)
(** * The stateful video decoder ([device/src/devices/video_decoder.rs])

    [VideoDecoder] implements the V4L2 decoder interface on top of a backend that
    does the decoding.  The backend, its sessions and the storage of the buffers
    are traits of the source, hence classes here.  Their methods run in the state
    [K] of the system, which they may change, and they may panic; what the decoder
    needs of them is stated in [DecoderBehaviour.v]. *)

From Stdlib Require Import Strings.Byte.
From S2P Require Import Prelude RustStd Traits Mmap Bytes Protocol Io V4l2r Ioctl Runner MemFd.
#[local] Open Scope Z_scope.

(** ** The traits of the backend *)

(** [VideoDecoderBufferBacking]; allocation goes through the system [K]. *)
Class VideoDecoderBufferBacking `{V4l2r} (K B : Type) := {
  backing_new : QueueType → Z → list Z → M K Z B;
  fd_for_plane : B → nat → option Fd;
}.

Inductive VideoDecoderBackendEvent :=
| StreamFormatChanged
| InputBufferDone (buffer_id error : Z)
| FrameCompleted (buffer_id : Z) (timestamp : timeval) (bytes_used : list Z) (is_last : bool).

Record StreamParams := mkStreamParams {
  min_output_buffers : Z;
  coded_size : Z * Z;
  visible_rect : v4l2_rect;
}.

(** [VideoDecoderBackendSession]; its hook [resume] is called nowhere, and the two
    other hooks change the session only. *)
Class VideoDecoderBackendSession `{V4l2r} (K S B : Type) := {
  bs_decode : B → Z → timeval → Z → M (K * S) Z unit;
  (** [use_as_output(&mut self, index, backing: &mut ..)] *)
  bs_use_as_output : Z → M (K * S * B) Z unit;
  bs_drain : M (K * S) Z unit;
  bs_clear_output_buffers : M (K * S) Z unit;
  bs_next_event : K * S → outcome (K * S * option VideoDecoderBackendEvent);
  bs_current_format : S → QueueDirection → outcome V4l2MplaneFormat;
  bs_stream_params : S → StreamParams;
  bs_buffers_allocated : QueueDirection → Z → S → S;
  bs_poll_fd : S → option Fd;
  bs_streaming_state : QueueDirection → bool → S → S;
}.

(** ** The streaming state *)

Inductive VideoDecoderStreamingState :=
| Stopped (input_streaming output_streaming : bool)
| Running
| Paused.

Definition default_state : VideoDecoderStreamingState := Stopped false false.

Definition input_streamon (self : VideoDecoderStreamingState) : VideoDecoderStreamingState :=
  match self with
  | Stopped false output => if output then Running else Stopped true output
  | Stopped true _ | Running | Paused => self
  end.

Definition input_streamoff (self : VideoDecoderStreamingState) : VideoDecoderStreamingState :=
  match self with
  | Stopped _ output => Stopped false output
  | Running | Paused => Stopped false true
  end.

Definition output_streamon (self : VideoDecoderStreamingState) : VideoDecoderStreamingState :=
  match self with
  | Stopped input false => if input then Running else Stopped input true
  | Stopped _ true | Running | Paused => self
  end.

Definition output_streamoff (self : VideoDecoderStreamingState) : VideoDecoderStreamingState :=
  match self with
  | Stopped input _ => Stopped input false
  | Running | Paused => Stopped true false
  end.

Definition is_output_streaming (self : VideoDecoderStreamingState) : bool :=
  match self with Running | Stopped _ true => true | _ => false end.

(** ** Buffers, colorspace and crop rectangle *)

Record VideoDecoderBuffer `{V4l2r} (B : Type) := mkDecBuffer { v4l2 : V4l2Buffer; backing : B }.
Arguments mkDecBuffer {_ B} _ _.
Arguments v4l2 {_ B} _.
Arguments backing {_ B} _.

Definition set_v4l2 `{V4l2r} {B} (v : V4l2Buffer) (b : VideoDecoderBuffer B) : VideoDecoderBuffer B :=
  mkDecBuffer v (backing b).

Inductive CropRectangle := Settable (r : v4l2_rect) | FromStream (r : v4l2_rect).

(** [Deref for CropRectangle] *)
Definition crop_deref (c : CropRectangle) : v4l2_rect :=
  match c with Settable r => r | FromStream r => r end.

Record V4l2FormatColorspace `{V4l2r} := mkColorspace {
  cs_colorspace : Colorspace;
  cs_xfer_func : XferFunc;
  cs_ycbcr_enc : YCbCrEncoding;
  cs_quantization : Quantization;
}.

Definition default_colorspace `{V4l2r} : V4l2FormatColorspace :=
  mkColorspace _ Rec709 XferNone E709 LimRange.

(** [V4l2FormatColorspace::apply] *)
Definition cs_apply `{V4l2r} (self : V4l2FormatColorspace)
    (pix_mp : vstruct v4l2_pix_format_mplane) : vstruct v4l2_pix_format_mplane :=
  set_fld "xfer_func" (as_u8 (XferFunc_u32 (cs_xfer_func self)))
    (set_fld "quantization" (as_u8 (Quantization_u32 (cs_quantization self)))
      (set_fld "ycbcr_enc" (as_u8 (YCbCrEncoding_u32 (cs_ycbcr_enc self)))
        (set_fld "colorspace" (Colorspace_u32 (cs_colorspace self)) pix_mp))).

(** ** Sessions and the device *)

Record VideoDecoderSession `{V4l2r} (S B : Type) := mkDecSession {
  d_id : Z;
  d_state : VideoDecoderStreamingState;
  input_buffers : list (VideoDecoderBuffer B);
  output_buffers : list (VideoDecoderBuffer B);
  pending_output_buffers : list Z;
  sequence_cpt : Z;
  src_change_subscribed : bool;
  eos_subscribed : bool;
  crop_rectangle : CropRectangle;
  colorspace : V4l2FormatColorspace;
  backend_session : S;
  format_change_pending : bool;
}.
Arguments mkDecSession {_ S B} _ _ _ _ _ _ _ _ _ _ _ _.
Arguments d_id {_ S B} _.
Arguments d_state {_ S B} _.
Arguments input_buffers {_ S B} _.
Arguments output_buffers {_ S B} _.
Arguments pending_output_buffers {_ S B} _.
Arguments sequence_cpt {_ S B} _.
Arguments src_change_subscribed {_ S B} _.
Arguments eos_subscribed {_ S B} _.
Arguments crop_rectangle {_ S B} _.
Arguments colorspace {_ S B} _.
Arguments backend_session {_ S B} _.
Arguments format_change_pending {_ S B} _.

(** [VideoDecoderBackend] *)
Class VideoDecoderBackend `{V4l2r} (D K S B : Type) := {
  be_new_session : Z → M (K * D) Z S;
  be_close_session : S → D → D;
  be_enum_formats : D → VideoDecoderSession S B → QueueDirection → Z → option (vstruct v4l2_fmtdesc);
  be_frame_sizes : D → Z → option (vstruct v4l2_frmsize_stepwise);
  be_adjust_format : D → S → QueueDirection → V4l2MplaneFormat → outcome V4l2MplaneFormat;
  be_apply_format : D → QueueDirection → V4l2MplaneFormat → S → S;
}.

Record VideoDecoder (D Q HM K : Type) := mkDecoder {
  backend : D;
  event_queue : Q;
  host_mapper : MmapMappingManager HM;
  d_os : K;
}.
Arguments mkDecoder {D Q HM K} _ _ _ _.
Arguments backend {D Q HM K} _.
Arguments event_queue {D Q HM K} _.
Arguments host_mapper {D Q HM K} _.
Arguments d_os {D Q HM K} _.

Definition set_os {D Q HM K} (k : K) (d : VideoDecoder D Q HM K) : VideoDecoder D Q HM K :=
  mkDecoder (backend d) (event_queue d) (host_mapper d) k.

Section Setters.
Context `{V : V4l2r} {S B : Type}.
Abbreviation Ses := (VideoDecoderSession S B).

Definition set_d_state x (s : Ses) : Ses :=
  mkDecSession (d_id s) x (input_buffers s) (output_buffers s) (pending_output_buffers s)
    (sequence_cpt s) (src_change_subscribed s) (eos_subscribed s) (crop_rectangle s)
    (colorspace s) (backend_session s) (format_change_pending s).
Definition set_input_buffers x (s : Ses) : Ses :=
  mkDecSession (d_id s) (d_state s) x (output_buffers s) (pending_output_buffers s)
    (sequence_cpt s) (src_change_subscribed s) (eos_subscribed s) (crop_rectangle s)
    (colorspace s) (backend_session s) (format_change_pending s).
Definition set_output_buffers x (s : Ses) : Ses :=
  mkDecSession (d_id s) (d_state s) (input_buffers s) x (pending_output_buffers s)
    (sequence_cpt s) (src_change_subscribed s) (eos_subscribed s) (crop_rectangle s)
    (colorspace s) (backend_session s) (format_change_pending s).
Definition set_pending x (s : Ses) : Ses :=
  mkDecSession (d_id s) (d_state s) (input_buffers s) (output_buffers s) x
    (sequence_cpt s) (src_change_subscribed s) (eos_subscribed s) (crop_rectangle s)
    (colorspace s) (backend_session s) (format_change_pending s).
Definition set_sequence_cpt x (s : Ses) : Ses :=
  mkDecSession (d_id s) (d_state s) (input_buffers s) (output_buffers s)
    (pending_output_buffers s) x (src_change_subscribed s) (eos_subscribed s)
    (crop_rectangle s) (colorspace s) (backend_session s) (format_change_pending s).
Definition set_src_change x (s : Ses) : Ses :=
  mkDecSession (d_id s) (d_state s) (input_buffers s) (output_buffers s)
    (pending_output_buffers s) (sequence_cpt s) x (eos_subscribed s) (crop_rectangle s)
    (colorspace s) (backend_session s) (format_change_pending s).
Definition set_eos x (s : Ses) : Ses :=
  mkDecSession (d_id s) (d_state s) (input_buffers s) (output_buffers s)
    (pending_output_buffers s) (sequence_cpt s) (src_change_subscribed s) x
    (crop_rectangle s) (colorspace s) (backend_session s) (format_change_pending s).
Definition set_crop x (s : Ses) : Ses :=
  mkDecSession (d_id s) (d_state s) (input_buffers s) (output_buffers s)
    (pending_output_buffers s) (sequence_cpt s) (src_change_subscribed s) (eos_subscribed s)
    x (colorspace s) (backend_session s) (format_change_pending s).
Definition set_colorspace x (s : Ses) : Ses :=
  mkDecSession (d_id s) (d_state s) (input_buffers s) (output_buffers s)
    (pending_output_buffers s) (sequence_cpt s) (src_change_subscribed s) (eos_subscribed s)
    (crop_rectangle s) x (backend_session s) (format_change_pending s).
Definition set_backend x (s : Ses) : Ses :=
  mkDecSession (d_id s) (d_state s) (input_buffers s) (output_buffers s)
    (pending_output_buffers s) (sequence_cpt s) (src_change_subscribed s) (eos_subscribed s)
    (crop_rectangle s) (colorspace s) x (format_change_pending s).
Definition set_format_change x (s : Ses) : Ses :=
  mkDecSession (d_id s) (d_state s) (input_buffers s) (output_buffers s)
    (pending_output_buffers s) (sequence_cpt s) (src_change_subscribed s) (eos_subscribed s)
    (crop_rectangle s) (colorspace s) (backend_session s) x.
End Setters.

Section Decoder.
Context `{BM : BuildMode} `{V : V4l2r}.
Context {D Q HM K S B : Type}.
Context `{!VirtioMediaEventQueue Q} `{!VirtioMediaHostMemoryMapper HM}.
Context `{!VideoDecoderBufferBacking K B} `{!VideoDecoderBackendSession K S B}.
Context `{!VideoDecoderBackend D K S B}.
Abbreviation Ses := (VideoDecoderSession S B).
Abbreviation Dec := (VideoDecoder D Q HM K).
Abbreviation St := (Dec * Ses)%type.
Abbreviation Buf := (VideoDecoderBuffer B).

(** *** Views of the state *)

Definition on_ses {E A} (m : M Ses E A) : M St E A := zoom snd (λ s st, (st.1, s)) m.
Definition on_dec {E A} (m : M Dec E A) : M St E A := zoom fst (λ d st, (d, st.2)) m.
Definition dec_mm {E A} (m : M (MmapMappingManager HM) E A) : M Dec E A :=
  zoom host_mapper (λ mm d, mkDecoder (backend d) (event_queue d) mm (d_os d)) m.
Definition dec_os {E A} (m : M K E A) : M Dec E A := zoom d_os set_os m.
(** A call on the session of the backend, in the state of the system. *)
Definition on_backend {E A} (m : M (K * S) E A) : M St E A :=
  zoom (λ st, (d_os st.1, backend_session st.2))
    (λ x st, (set_os x.1 st.1, set_backend x.2 st.2)) m.
Definition send {E} (e : V4l2Event V4l2Buffer (vstruct v4l2_event)) : M St E unit :=
  on_dec (modify (λ d, mkDecoder (backend d) (send_event e (event_queue d)) (host_mapper d) (d_os d))).

(** [VideoDecoder::new] *)
Definition VideoDecoder_new (b : D) (q : Q) (hm : HM) (k : K) : Dec :=
  mkDecoder b q (manager_from hm) k.

(** *** [VideoDecoderBuffer] *)

(** [VideoDecoderBuffer::new] *)
Definition VideoDecoderBuffer_new (queue : QueueType) (index : Z) (sizes : list Z)
    (mmap_offset : Z) : M Dec Z Buf :=
  storage ← dec_os (backing_new queue index sizes);
  let v := buf_new queue index Mmap in
  v ← match buf_planes v with
      | BMmap (plane :: planes) =>
          size ← unwrap (head sizes);
          mret (buf_set_planes (mkPlane (as_u32 size) (p_bytesused plane) (p_data_offset plane)
            mmap_offset :: planes) v)
      | _ => panic
      end;
  let v := buf_set_field_none (buf_set_flags FLAG_TIMESTAMP_MONOTONIC v) in
  mret (mkDecBuffer v storage).

(** The offsets of the MMAP planes of a buffer. *)
Definition plane_offsets (b : Buf) : list Z :=
  match buf_planes (v4l2 b) with BMmap planes => p_backing <$> planes | _ => [] end.

(** [for plane in planes { host_mapper.unregister_buffer(plane.mem_offset()); }] *)
Definition unregister_planes {E} (l : list Buf) : M Dec E unit :=
  forM_ (λ o, dec_mm (unregister_buffer o) ;; mret tt) (l ≫= plane_offsets).

(** *** [VideoDecoderSession] *)

Definition current_format (self : Ses) (dir : QueueDirection) : outcome V4l2MplaneFormat :=
  format ← bs_current_format (backend_session self) dir;
  Ret (mp_from dir (cs_apply (colorspace self) (mp_pix format))).

Definition session_try_decoder_cmd (self : Ses) (cmd : DecoderCmd) : result DecoderCmd Z :=
  match cmd with
  | CmdStop => Ok CmdStop
  | CmdStart => Ok CmdStart
  | CmdPause => match d_state self with Stopped _ _ => Err EINVAL | Running | Paused => Ok CmdPause end
  | CmdResume => match d_state self with Stopped _ _ => Err EINVAL | Paused | Running => Ok CmdResume end
  end.

(** One round of the loop of [try_send_pending_output_buffers]: the backend has the
    system, its session and the storage of the buffer. *)
Definition send_output_buffer (i : Z) : M St Z unit :=
  st ← get_st;
  buffer ← unwrap (output_buffers st.2 !! Z.to_nat i);
  zoom (λ st, (d_os st.1, backend_session st.2, backing buffer))
    (λ x st, (set_os x.1.1 st.1, set_backend x.1.2 (set_output_buffers
      (<[Z.to_nat i := mkDecBuffer (v4l2 buffer) x.2]> (output_buffers st.2)) st.2)))
    (bs_use_as_output (buf_index (v4l2 buffer))).

(** The [drain(..)] empties the list whether or not the loop ends early. *)
Definition try_send_pending_output_buffers : M St Z unit :=
  st ← get_st;
  if is_output_streaming (d_state st.2) then
    on_ses (modify (set_pending [])) ;;
    forM_ send_output_buffer (pending_output_buffers st.2)
  else mret tt.

(** *** [VirtioMediaDevice] *)

Definition decoder_new_session (session_id : Z) : M Dec Z Ses :=
  bs ← zoom (λ d, (d_os d, backend d))
         (λ x d, mkDecoder x.2 (event_queue d) (host_mapper d) x.1) (be_new_session session_id);
  mret (mkDecSession session_id default_state [] [] [] 0 false false
    (Settable (mkRect 0 0 0 0)) default_colorspace bs false).

Definition decoder_close_session (session : Ses) (d : Dec) : outcome Dec :=
  '(d, _) ← unregister_planes (E := Empty_set)
              (input_buffers session ++ output_buffers session) d;
  Ret (mkDecoder (be_close_session (backend_session session) (backend d)) (event_queue d)
         (host_mapper d) (d_os d)).

(** The MMAP planes of the session, with their buffer and their index. *)
Definition mmap_planes (s : Ses) : list (Buf * (nat * Plane)) :=
  (input_buffers s ++ output_buffers s) ≫= λ b,
    match buf_planes (v4l2 b) with
    | BMmap planes => (λ p, (b, p)) <$> imap pair planes
    | _ => []
    end.

Definition decoder_do_mmap (flags offset : Z) : M St Z (Z * Z) :=
  st ← get_st;
  '(_, (buffer, (plane_idx, _))) ←
    ok_or (list_find (λ x, p_backing x.2.2 = offset) (mmap_planes st.2)) EINVAL;
  let rw := negb (Z.land flags VIRTIO_MEDIA_MMAP_FLAG_RW =? 0) in
  fd ← unwrap (fd_for_plane (backing buffer) plane_idx);
  map_err (λ _, EINVAL) (on_dec (dec_mm (create_mapping offset fd rw))).

Definition decoder_do_munmap (guest_addr : Z) : M Dec Z unit :=
  map_err (λ _, EINVAL) (dec_mm (remove_mapping guest_addr)) ;; mret tt.

(** [process_events], by event. *)
Definition input_buffer_done (id error : Z) : M St Z unit :=
  st ← get_st;
  match input_buffers st.2 !! Z.to_nat id with
  | None => mret tt
  | Some buffer =>
      let v := buf_clear_flags FLAG_QUEUED (v4l2 buffer) in
      let v := if negb (error =? 0) then buf_set_flags FLAG_ERROR v else v in
      on_ses (modify (λ s, set_input_buffers
        (<[Z.to_nat id := set_v4l2 v buffer]> (input_buffers s)) s)) ;;
      send (EvDequeueBuffer (DequeueBufferEvent_new (d_id st.2) v))
  end.

Definition stream_format_changed : M St Z unit :=
  st ← get_st;
  on_ses (modify (set_crop (FromStream (visible_rect (bs_stream_params (backend_session st.2)))))) ;;
  (if src_change_subscribed st.2 then
     send (EvEvent (SessionEvent_new (d_id st.2)
       (vmk v4l2_event [("type_", vconst "V4L2_EVENT_SOURCE_CHANGE");
                        ("u.src_change.changes", vconst "SrcChanges::RESOLUTION")])))
   else mret tt) ;;
  on_ses (modify (set_format_change true)).

Definition frame_completed (id : Z) (ts : timeval) (bytes_used : list Z) (is_last : bool) :
    M St Z unit :=
  st ← get_st;
  match output_buffers st.2 !! Z.to_nat id with
  | None => mret tt
  | Some buffer =>
      let v := buf_clear_flags FLAG_QUEUED (v4l2 buffer) in
      let v := buf_set_flags FLAG_TIMESTAMP_COPY v in
      let v := if is_last then buf_set_flags FLAG_LAST v else v in
      let v := buf_set_sequence (sequence_cpt st.2) v in
      next ← lift_outcome (u32_add (sequence_cpt st.2) 1);
      on_ses (modify (set_sequence_cpt next)) ;;
      let v := buf_set_timestamp ts v in
      let p := buf_first_plane v in
      let v := buf_set_first_plane (mkPlane (p_length p) (default 0 (head bytes_used))
                 (p_data_offset p) (p_backing p)) v in
      on_ses (modify (λ s, set_output_buffers
        (<[Z.to_nat id := set_v4l2 v buffer]> (output_buffers s)) s)) ;;
      send (EvDequeueBuffer (DequeueBufferEvent_new (d_id st.2) v)) ;;
      if is_last then
        if format_change_pending st.2 then on_ses (modify (set_format_change false))
        else if eos_subscribed st.2 then
          send (EvEvent (SessionEvent_new (d_id st.2)
            (vmk v4l2_event [("type_", vconst "V4L2_EVENT_EOS")])))
        else mret tt
      else mret tt
  end.

Definition handle_event (event : VideoDecoderBackendEvent) : M St Z unit :=
  match event with
  | InputBufferDone id error => input_buffer_done id error
  | StreamFormatChanged => stream_format_changed
  | FrameCompleted id ts bytes_used is_last => frame_completed id ts bytes_used is_last
  end.

Definition decoder_process_events : M St Z unit :=
  event ← on_backend (λ st, '(st, event) ← bs_next_event st; Ret (st, Ok event));
  match event with
  | Some event => handle_event event
  | None => mret tt
  end.

(** *** [VirtioMediaIoctlHandler] *)

(** [matches!(queue, VideoOutputMplane | VideoCaptureMplane)] *)
Definition is_decoder_queue (queue : QueueType) : bool :=
  bool_decide (queue = VideoOutputMplane) || bool_decide (queue = VideoCaptureMplane).

(** [VideoDecoder::try_format] *)
Definition try_format (self : Dec) (session : Ses) (queue : QueueType)
    (format : vstruct v4l2_format) : outcome (result V4l2MplaneFormat Z) :=
  if negb (is_video_mplane queue) then Ret (Err EINVAL)
  else
    let pix_mp := format_pix_mp format in
    let cs := colorspace session in
    let new_cs :=
      match direction queue with
      | Output => mkColorspace _
          (default (cs_colorspace cs) (Colorspace_n (fld pix_mp "colorspace")))
          (default (cs_xfer_func cs) (XferFunc_n (fld pix_mp "xfer_func")))
          (default (cs_ycbcr_enc cs) (YCbCrEncoding_n (fld pix_mp "ycbcr_enc")))
          (default (cs_quantization cs) (Quantization_n (fld pix_mp "quantization")))
      | Capture => cs
      end in
    let format := mp_from (direction queue) pix_mp in
    format ← be_adjust_format (backend self) (backend_session session) (direction queue) format;
    Ret (Ok (mp_from (direction queue) (cs_apply new_cs (mp_pix format)))).

Definition enum_fmt (queue : QueueType) (index : Z) (session : Ses) :
    M Dec Z (vstruct v4l2_fmtdesc) :=
  self ← get_st;
  ok_or (if is_decoder_queue queue
         then be_enum_formats (backend self) session (direction queue) index else None) EINVAL.

Definition enum_framesizes (index pixel_format : Z) (_ : Ses) :
    M Dec Z (vstruct v4l2_frmsizeenum) :=
  guard_err (negb (index =? 0)) EINVAL ;;
  self ← get_st;
  stepwise ← ok_or (be_frame_sizes (backend self) pixel_format) EINVAL;
  mret (frmsizeenum_set_stepwise stepwise (vmk v4l2_frmsizeenum
    [("index", 0); ("pixel_format", pixel_format);
     ("type_", vconst "V4L2_FRMSIZE_TYPE_STEPWISE")])).

Definition g_fmt (queue : QueueType) (session : Ses) : M Dec Z (vstruct v4l2_format) :=
  guard_err (negb (is_decoder_queue queue)) EINVAL ;;
  format ← lift_outcome (current_format session (direction queue));
  mret (mp_format format).

Definition try_fmt (queue : QueueType) (format : vstruct v4l2_format) (session : Ses) :
    M Dec Z (vstruct v4l2_format) :=
  self ← get_st;
  res ← lift_outcome (try_format self session queue format);
  format ← lift_result res;
  mret (mp_format format).

Definition s_fmt (queue : QueueType) (format : vstruct v4l2_format) :
    M St Z (vstruct v4l2_format) :=
  st ← get_st;
  res ← lift_outcome (try_format st.1 st.2 queue format);
  format ← lift_result res;
  on_ses (modify (λ s, set_backend
    (be_apply_format (backend st.1) (direction queue) format (backend_session s)) s)) ;;
  (if bool_decide (direction queue = Output) then
     on_ses (modify (set_colorspace (mkColorspace _ (mp_colorspace format) (mp_xfer_func format)
       (mp_ycbcr_enc format) (mp_quantization format))))
   else mret tt) ;;
  match crop_rectangle st.2 with
  | Settable _ =>
      let '(width, height) := mp_size format in
      on_ses (modify (set_crop (Settable (mkRect 0 0 width height))))
  | FromStream _ => mret tt
  end ;;
  mret (mp_format format).

(** The buffers of a queue of the decoder. *)
Definition queue_buffers (queue : QueueType) (s : Ses) : option (list Buf) :=
  if bool_decide (queue = VideoOutputMplane) then Some (input_buffers s)
  else if bool_decide (queue = VideoCaptureMplane) then Some (output_buffers s) else None.

Definition set_queue_buffers (queue : QueueType) (l : list Buf) (s : Ses) : Ses :=
  if bool_decide (queue = VideoOutputMplane) then set_input_buffers l s
  else set_output_buffers l s.

(** The closure of [reqbufs] that allocates buffer [i]; [inspect_err] gives the
    offset back when the backend cannot allocate. *)
Definition new_buffer (queue : QueueType) (sizeimage i : Z) : M Dec Z Buf :=
  mmap_offset ← map_err (λ _, EINVAL) (dec_mm (register_buffer None sizeimage));
  res ← try_m (VideoDecoderBuffer_new queue (as_u32 i) [sizeimage] mmap_offset);
  match res with
  | Ok b => mret b
  | Err e => dec_mm (unregister_buffer mmap_offset) ;; throw e
  end.

Definition reqbufs (queue : QueueType) (memory : MemoryType) (count : Z)
    (flags : MemoryConsistency) : M St Z (vstruct v4l2_requestbuffers) :=
  guard_err (negb (bool_decide (memory = Mmap))) EINVAL ;;
  st ← get_st;
  buffers ← ok_or (queue_buffers queue st.2) EINVAL;
  (if count <? Z.of_nat (length buffers) then
     on_dec (unregister_planes (drop (Z.to_nat count) buffers)) ;;
     on_ses (modify (set_queue_buffers queue (take (Z.to_nat count) buffers)))
   else
     format ← lift_outcome (bs_current_format (backend_session st.2) (direction queue));
     sizeimage ← ok_or (head (mp_sizeimages format)) EINVAL;
     let len := Z.of_nat (length buffers) in
     new_buffers ← on_dec (mapM_m (new_buffer queue sizeimage) (seqZ len (count - len)));
     on_ses (modify (set_queue_buffers queue (buffers ++ new_buffers)))) ;;
  on_ses (modify (λ s, set_backend
    (bs_buffers_allocated (direction queue) count (backend_session s)) s)) ;;
  mret (vmk v4l2_requestbuffers
    [("count", count); ("type_", QueueType_u32 queue); ("memory", MemoryType_u32 memory);
     ("capabilities", Z.lor (vconst "SUPPORTS_MMAP") (vconst "SUPPORTS_ORPHANED_BUFS"));
     ("flags", MemoryConsistency_bits flags)]).

Definition querybuf (queue : QueueType) (index : Z) (session : Ses) : M Dec Z V4l2Buffer :=
  buffers ← ok_or (queue_buffers queue session) EINVAL;
  buffer ← ok_or (buffers !! Z.to_nat index) EINVAL;
  mret (v4l2 buffer).

Definition subscribe_event (event : EventType) (_ : SubscribeEventFlags) : M St Z unit :=
  if bool_decide (event = SourceChange 0) then on_ses (modify (set_src_change true))
  else if bool_decide (event = Eos) then on_ses (modify (set_eos true))
  else throw EINVAL.

Definition unsubscribe_event (event : vstruct v4l2_event_subscription) : M St Z unit :=
  let all := fld event "type_" =? 0 in
  let src := all || bool_decide (EventType_try_from event = Some (SourceChange 0)) in
  let eos := all || bool_decide (EventType_try_from event = Some Eos) in
  (if src then on_ses (modify (set_src_change false)) else mret tt) ;;
  (if eos then on_ses (modify (set_eos false)) else mret tt) ;;
  guard_err (negb (src || eos)) EINVAL.

Definition streamon (queue : QueueType) : M St Z unit :=
  st ← get_st;
  buffers ← ok_or (queue_buffers queue st.2) EINVAL;
  guard_err (bool_decide (length buffers = 0%nat)) EINVAL ;;
  on_ses (modify (λ s, set_d_state
    (match direction queue with
     | Output => input_streamon (d_state s)
     | Capture => output_streamon (d_state s)
     end) s)) ;;
  on_ses (modify (λ s, set_backend
    (bs_streaming_state (direction queue) true (backend_session s)) s)) ;;
  try_send_pending_output_buffers.

(** [buffer.v4l2_buffer.clear_flags(BufferFlags::QUEUED)] *)
Definition clear_queued (b : Buf) : Buf := set_v4l2 (buf_clear_flags FLAG_QUEUED (v4l2 b)) b.

Definition streamoff (queue : QueueType) : M St Z unit :=
  match direction queue with
  | Output =>
      on_ses (modify (λ s, set_d_state (input_streamoff (d_state s)) s)) ;;
      on_ses (modify (λ s, set_input_buffers (clear_queued <$> input_buffers s) s))
  | Capture =>
      on_backend bs_clear_output_buffers ;;
      on_ses (modify (λ s, set_pending [] (set_d_state (output_streamoff (d_state s)) s))) ;;
      on_ses (modify (λ s, set_output_buffers (clear_queued <$> output_buffers s) s))
  end ;;
  on_ses (modify (λ s, set_backend
    (bs_streaming_state (direction queue) false (backend_session s)) s)).

(** [g_selection] reads the session only. *)
Definition get_selection (session : Ses) (sel_type : SelectionType) (sel_target : SelectionTarget) :
    result v4l2_rect Z :=
  if negb (bool_decide (sel_type = SelCapture)) then Err EINVAL
  else if bool_decide (sel_target = TgtCropBounds) then
    let '(w, h) := coded_size (bs_stream_params (backend_session session)) in Ok (mkRect 0 0 w h)
  else if bool_decide (sel_target ∈
    [TgtCrop; TgtCropDefault; TgtComposeDefault; TgtComposeBounds; TgtCompose])
  then Ok (crop_deref (crop_rectangle session))
  else Err EINVAL.

Definition g_selection (sel_type : SelectionType) (sel_target : SelectionTarget) (session : Ses) :
    M Dec Z v4l2_rect :=
  lift_result (get_selection session sel_type sel_target).

Definition s_selection (sel_type : SelectionType) (sel_target : SelectionTarget)
    (sel_rect : v4l2_rect) (_ : SelectionFlags) : M St Z v4l2_rect :=
  guard_err (negb (bool_decide (sel_type = SelCapture) && bool_decide (sel_target = TgtCompose)))
    EINVAL ;;
  st ← get_st;
  match crop_rectangle st.2 with
  | Settable _ =>
      format ← lift_outcome (bs_current_format (backend_session st.2) Capture);
      let size := mp_size format in
      let l := Z.max 0 (left sel_rect) in
      let t := Z.max 0 (top sel_rect) in
      w ← lift_outcome (u32_sub (width sel_rect) (as_u32 l));
      h ← lift_outcome (u32_sub (height sel_rect) (as_u32 t));
      on_ses (modify (set_crop (Settable (mkRect l t (Z.min size.1 w) (Z.min size.1 h)))))
  | FromStream _ => mret tt
  end ;;
  st ← get_st;
  lift_result (get_selection st.2 sel_type sel_target).

(** The fields of the first plane that [qbuf] takes from the guest's buffer. *)
Definition update_first_plane (host guest : V4l2Buffer) : V4l2Buffer :=
  let hp := buf_first_plane host in
  let gp := buf_first_plane guest in
  buf_set_first_plane (mkPlane (p_length gp) (p_bytesused gp)
    (match p_data_offset hp with
     | Some _ => Some (default 0 (p_data_offset gp))
     | None => None
     end) (p_backing hp)) host.

Definition qbuf (buffer : V4l2Buffer) (_ : list (list SgEntry)) : M St Z V4l2Buffer :=
  st ← get_st;
  let queue := buf_queue buffer in
  let i := Z.to_nat (buf_index buffer) in
  buffers ← ok_or (queue_buffers queue st.2) EINVAL;
  host_buffer ← ok_or (buffers !! i) EINVAL;
  guard_err (negb (bool_decide (buf_memory buffer = buf_memory (v4l2 host_buffer)))) EINVAL ;;
  let put v := on_ses (modify (set_queue_buffers queue
    (<[i := set_v4l2 v host_buffer]> buffers))) in
  match direction queue with
  | Output =>
      let v := buf_set_timestamp (buf_timestamp buffer) (buf_set_field_none (v4l2 host_buffer)) in
      let v := update_first_plane v buffer in
      put v ;;
      let p := buf_first_plane v in
      let bytes_used := if p_bytesused p =? 0 then p_length p else p_bytesused p in
      on_backend (bs_decode (backing host_buffer) (buf_index v) (buf_timestamp v) bytes_used) ;;
      let v := buf_add_flags FLAG_QUEUED v in
      put v ;;
      mret v
  | Capture =>
      let v := buf_clear_flags FLAG_LAST (buf_add_flags FLAG_QUEUED (v4l2 host_buffer)) in
      let v := update_first_plane v buffer in
      put v ;;
      on_ses (modify (λ s, set_pending (pending_output_buffers s ++ [buf_index buffer]) s)) ;;
      try_send_pending_output_buffers ;;
      mret v
  end.

Definition try_decoder_cmd (cmd : vstruct v4l2_decoder_cmd) (session : Ses) :
    M Dec Z (vstruct v4l2_decoder_cmd) :=
  cmd ← ok_or (DecoderCmd_try_from cmd) EINVAL;
  cmd ← lift_result (session_try_decoder_cmd session cmd);
  mret (DecoderCmd_into cmd).

Definition decoder_cmd (cmd : vstruct v4l2_decoder_cmd) : M St Z (vstruct v4l2_decoder_cmd) :=
  cmd ← ok_or (DecoderCmd_try_from cmd) EINVAL;
  st ← get_st;
  cmd ← lift_result (session_try_decoder_cmd st.2 cmd);
  match cmd with
  | CmdStop =>
      match d_state st.2 with
      | Stopped _ _ => mret tt
      | Running | Paused =>
          on_ses (modify (set_d_state (Stopped true true))) ;;
          on_backend bs_drain
      end
  | CmdStart =>
      match d_state st.2 with
      | Stopped input output =>
          (if input && output then
             on_ses (modify (set_d_state Running)) ;;
             on_ses (modify (λ s, set_backend
               (bs_streaming_state Capture true (backend_session s)) s))
           else mret tt) ;;
          try_send_pending_output_buffers
      | Running | Paused => mret tt
      end
  | CmdPause =>
      match d_state st.2 with
      | Running => on_ses (modify (set_d_state Paused))
      | _ => mret tt
      end
  | CmdResume =>
      match d_state st.2 with
      | Paused => on_ses (modify (set_d_state Running))
      | _ => mret tt
      end
  end ;;
  mret (DecoderCmd_into cmd).

#[export] Instance decoder_handler : VirtioMediaIoctlHandler Dec Ses :=
  λ a E T c,
  match c in Call.ioctl_call a E T return method Dec Ses a E T with
  | Call.enum_fmt queue index => enum_fmt queue index
  | Call.enum_framesizes index pixel_format => enum_framesizes index pixel_format
  | Call.g_fmt queue => g_fmt queue
  | Call.try_fmt queue format => try_fmt queue format
  | Call.s_fmt queue format => s_fmt queue format
  | Call.reqbufs queue memory count flags => reqbufs queue memory count flags
  | Call.querybuf queue index => querybuf queue index
  | Call.subscribe_event event flags => subscribe_event event flags
  | Call.unsubscribe_event event => unsubscribe_event event
  | Call.streamon queue => streamon queue
  | Call.streamoff queue => streamoff queue
  | Call.g_selection sel_type sel_target => g_selection sel_type sel_target
  | Call.s_selection sel_type sel_target sel_rect sel_flags =>
      s_selection sel_type sel_target sel_rect sel_flags
  | Call.qbuf buffer regions => qbuf buffer regions
  | Call.try_decoder_cmd cmd => try_decoder_cmd cmd
  | Call.decoder_cmd cmd => decoder_cmd cmd
  | c => unhandled_ioctl c
  end.

#[export] Instance decoder_device : VirtioMediaDevice Dec Ses := {|
  new_session := decoder_new_session;
  close_session := decoder_close_session;
  do_ioctl := virtio_media_dispatch_ioctl;
  do_mmap := decoder_do_mmap;
  do_munmap := decoder_do_munmap;
  process_events := decoder_process_events;
  poll_fd s := bs_poll_fd (backend_session s);
|}.
End Decoder.

(** ** The streaming state as two switches *)

(** Whether the OUTPUT (input) and the CAPTURE (output) queues are streaming. *)
Definition queues (s : VideoDecoderStreamingState) : bool * bool :=
  match s with Stopped i o => (i, o) | Running | Paused => (true, true) end.

(** The calls that STREAMON and STREAMOFF make. *)
Inductive stream_op := InputOn | InputOff | OutputOn | OutputOff.

Definition run_stream_op (op : stream_op) (s : VideoDecoderStreamingState) :
    VideoDecoderStreamingState :=
  match op with
  | InputOn => input_streamon s
  | InputOff => input_streamoff s
  | OutputOn => output_streamon s
  | OutputOff => output_streamoff s
  end.

(** The abstract machine: two independent switches. *)
Definition run_switch (op : stream_op) (q : bool * bool) : bool * bool :=
  match op with
  | InputOn => (true, q.2)
  | InputOff => (false, q.2)
  | OutputOn => (q.1, true)
  | OutputOff => (q.1, false)
  end.

Lemma queues_step op s : queues (run_stream_op op s) = run_switch op (queues s).
Proof. by destruct op, s as [[] []| |]. Qed.

(** From any streaming state, sequences of STREAMON and STREAMOFF act on the
    two queues as on two independent switches. *)
Theorem streaming_state_refines_switches ops s :
  queues (foldl (λ s op, run_stream_op op s) s ops) =
  foldl (λ q op, run_switch op q) (queues s) ops.
Proof.
  revert s. induction ops as [|op ops IH]; intros s; simpl; [done|]. by rewrite IH, queues_step.
Qed.

(** From the initial state, without decoder commands, the decoder is running
    exactly when both queues are streaming. *)
Theorem running_iff_both_streaming ops :
  let s := foldl (λ s op, run_stream_op op s) default_state ops in
  (s = Running ↔ queues s = (true, true)) ∧ s ≠ Paused.
Proof.
  assert (∀ s, (∃ i o, s = Stopped i o ∧ (i, o) ≠ (true, true)) ∨ s = Running →
    let s' := foldl (λ s op, run_stream_op op s) s ops in
    (∃ i o, s' = Stopped i o ∧ (i, o) ≠ (true, true)) ∨ s' = Running) as Hinv.
  { induction ops as [|op ops IH]; intros s Hs; [done|]. simpl. apply IH.
    destruct Hs as [(i&o&->&Hne)| ->], op; try destruct i, o; simpl; naive_solver. }
  simpl. destruct (Hinv default_state) as [(i&o&->&Hne)| ->]; [naive_solver| |done].
  split; [|done]. split; [done|]. by intros [= -> ->].
Qed.

