(* ===== verification/DecoderFrame.v ===== *)
(** * What every operation of the decoder keeps

    [BackendLaws] is what the decoder relies on in a backend.  A predicate on the
    device and a session that survives the few ways in which the decoder updates a
    session ([SessionFrame]) is kept by every ioctl but REQBUFS, and by
    [process_events]; the invariants of [DecoderBehaviour.v] and
    [DecoderContract.v] are such predicates. *)

From Stdlib Require Import Strings.Byte.
From S2P Require Import Prelude RustStd Traits Mmap Bytes Protocol Io V4l2r Ioctl Runner MemFd VideoDecoder.
#[local] Open Scope Z_scope.

(** ** The laws of a backend *)

(** A value, or a panic where [pn] allows it. *)
Definition returns {A} (pn : bool) (o : outcome A) : Prop :=
  match o with Ret _ => True | Panic => pn = true end.

(** [I] holds of the sessions of the backend and [J n] of the storage of a buffer of
    [n] planes.  Decoding and draining may panic if [pd] says so, the other methods
    if [pa] does. *)
Class BackendLaws `{V : V4l2r} {D K S B : Type} `{!VideoDecoderBufferBacking K B}
    `{!VideoDecoderBackendSession K S B} `{!VideoDecoderBackend D K S B}
    (pa pd : bool) (I : S → Prop) (J : nat → B → Prop) : Prop := {
  decode_law : ∀ n b i ts used, J n b →
    keeps pd (λ st, I st.2) (bs_decode (K := K) b i ts used);
  drain_law : keeps pd (λ st, I st.2) (bs_drain (K := K));
  output_law : ∀ i n (k : K) bs b, I bs → J n b →
    wp pa (bs_use_as_output i) (λ _ st, I st.1.2 ∧ ∀ m, J m b → J m st.2) (k, bs, b);
  clear_law : keeps pa (λ st, I st.2) (bs_clear_output_buffers (K := K));
  event_law : ∀ (st : K * S), I st.2 →
    match bs_next_event st with Ret (st', _) => I st'.2 | Panic => pa = true end;
  format_law : ∀ bs dir, I bs → returns pa (bs_current_format bs dir);
  allocated_law : ∀ dir n bs, I bs → I (bs_buffers_allocated dir n bs);
  streaming_law : ∀ dir on bs, I bs → I (bs_streaming_state dir on bs);
  new_law : ∀ id (st : K * D), wp pa (be_new_session id)
    (λ r _, match r with Ok bs => I bs | Err _ => True end) st;
  adjust_law : ∀ (d : D) bs dir f, I bs → returns pa (be_adjust_format d bs dir f);
  apply_law : ∀ (d : D) dir f bs, I bs → I (be_apply_format d dir f bs);
  backing_law : ∀ queue i size ps (k : K), buf_planes (buf_new queue i Mmap) = BMmap ps →
    wp pa (backing_new queue i [size])
      (λ r _, match r with Ok b => J (length ps) b | Err _ => True end) k;
}.

(** Nothing is asked of a backend that may panic anywhere. *)
Lemma any_backend `{V : V4l2r} {D K S B : Type} `{!VideoDecoderBufferBacking K B}
    `{!VideoDecoderBackendSession K S B} `{!VideoDecoderBackend D K S B} :
  BackendLaws true true (λ _ : S, True) (λ _ (_ : B), True).
Proof.
  split; try done.
  - intros n b i ts used _ st _. by apply wp_any.
  - intros st _. by apply wp_any.
  - intros. by apply wp_any.
  - intros st _. by apply wp_any.
  - intros st _. by destruct (bs_next_event st) as [[]|].
  - intros bs dir _. unfold returns. by destruct (bs_current_format _ _).
  - intros. apply wp_any. by intros [].
  - intros d bs dir f _. unfold returns. by destruct (be_adjust_format _ _ _ _).
  - intros. apply wp_any. by intros [].
Qed.

(** ** Descriptions that keep their shape *)

Section Shape.
Context `{V : V4l2r} {VL : V4l2rLaws}.

(** [v'] has the queue and the index of [v] and, if [v] is an MMAP buffer, as many
    planes, of which only the first may have changed, and not its offset. *)
Definition same_shape (v v' : V4l2Buffer) : Prop :=
  buf_queue v' = buf_queue v ∧ buf_index v' = buf_index v ∧
  ∀ p ps, buf_planes v = BMmap (p :: ps) →
    ∃ p', buf_planes v' = BMmap (p' :: ps) ∧ p_backing p' = p_backing p.

Lemma shape_refl v : same_shape v v.
Proof. split_and!; [done..|]. by eauto. Qed.

Lemma shape_trans v v' v'' : same_shape v v' → same_shape v' v'' → same_shape v v''.
Proof.
  intros (Hq&Hi&Hp) (Hq'&Hi'&Hp'). split_and!; [congruence..|]. intros p ps Hv.
  destruct (Hp p ps Hv) as (p'&Hv'&Ho'). destruct (Hp' p' ps Hv') as (p''&Hv''&Ho'').
  exists p''. split; [done|congruence].
Qed.

Lemma shape_eq v v' v'' :
  buf_queue v'' = buf_queue v' → buf_index v'' = buf_index v' → buf_planes v'' = buf_planes v' →
  same_shape v v' → same_shape v v''.
Proof. unfold same_shape. by intros -> -> ->. Qed.

Lemma shape_add_flags f v v' : same_shape v v' → same_shape v (buf_add_flags f v').
Proof. apply shape_eq; by autorewrite with v4l2r. Qed.
Lemma shape_set_flags f v v' : same_shape v v' → same_shape v (buf_set_flags f v').
Proof. apply shape_eq; by autorewrite with v4l2r. Qed.
Lemma shape_clear_flags f v v' : same_shape v v' → same_shape v (buf_clear_flags f v').
Proof. apply shape_eq; by autorewrite with v4l2r. Qed.
Lemma shape_set_timestamp t v v' : same_shape v v' → same_shape v (buf_set_timestamp t v').
Proof. apply shape_eq; by autorewrite with v4l2r. Qed.
Lemma shape_set_sequence n v v' : same_shape v v' → same_shape v (buf_set_sequence n v').
Proof. apply shape_eq; by autorewrite with v4l2r. Qed.
Lemma shape_set_field v v' : same_shape v v' → same_shape v (buf_set_field_none v').
Proof. apply shape_eq; by autorewrite with v4l2r. Qed.

(** The first plane is replaced by one with its offset. *)
Lemma shape_set_first l u o v v' :
  same_shape v v' → same_shape v (buf_set_first_plane (mkPlane l u o (p_backing (buf_first_plane v'))) v').
Proof.
  intros (Hq&Hi&Hp). split_and!; [by autorewrite with v4l2r..|]. intros p0 ps Hv.
  destruct (Hp p0 ps Hv) as (p'&Hp'&Ho). eexists. split; [by apply (planes_set_first _ p')|]. cbn.
  by rewrite (first_plane_mmap _ p' ps).
Qed.

Lemma shape_update_first guest v v' : same_shape v v' → same_shape v (update_first_plane v' guest).
Proof. apply shape_set_first. Qed.
End Shape.
#[export] Hint Resolve shape_refl shape_add_flags shape_set_flags shape_clear_flags
  shape_set_timestamp shape_set_sequence shape_set_field shape_set_first shape_update_first : vmedia.

(** ** Frames *)

Section Frame.
Context `{BM : BuildMode} `{V : V4l2r} {VL : V4l2rLaws}.
Context {D Q HM K S B : Type}.
Context `{!VirtioMediaEventQueue Q} `{!VirtioMediaHostMemoryMapper HM}.
Context `{!VideoDecoderBufferBacking K B} `{!VideoDecoderBackendSession K S B}.
Context `{!VideoDecoderBackend D K S B}.
Abbreviation Ses := (VideoDecoderSession S B).
Abbreviation Dec := (VideoDecoder D Q HM K).
Abbreviation St := (Dec * Ses)%type.
Abbreviation Buf := (VideoDecoderBuffer B).

(** An index of the CAPTURE queue; those that wait for the backend should be. *)
Definition in_range (s : Ses) (i : Z) : Prop := (Z.to_nat i < length (output_buffers s))%nat.
Definition pending_ok (s : Ses) : Prop := Forall (in_range s) (pending_output_buffers s).

(** A buffer after its description or its storage was updated. *)
Definition evolves (J : nat → B → Prop) (b b' : Buf) : Prop :=
  same_shape (v4l2 b) (v4l2 b') ∧ ∀ n, J n (backing b) → J n (backing b').

Lemma pending_ok_evolves J (s : Ses) l :
  Forall2 (evolves J) (output_buffers s) l → pending_ok s → pending_ok (set_output_buffers l s).
Proof.
  intros Hl Hp. eapply Forall_impl; [exact Hp|]. apply Forall2_length in Hl. unfold in_range. cbn in *.
  intros j. lia.
Qed.

(** Updates of everything but the buffers, the MMAP range and the backend.  A crop
    rectangle that comes from the stream stays. *)
Definition quiet (st st' : St) : Prop :=
  host_mapper st'.1 = host_mapper st.1 ∧ d_id st'.2 = d_id st.2 ∧
  input_buffers st'.2 = input_buffers st.2 ∧ output_buffers st'.2 = output_buffers st.2 ∧
  pending_output_buffers st'.2 = pending_output_buffers st.2 ∧
  backend_session st'.2 = backend_session st.2 ∧
  ∀ r, crop_rectangle st.2 = FromStream r → crop_rectangle st'.2 = FromStream r.

(** [P] survives the updates of a session, and is strong enough for the laws of the
    backend; if [strict], also for the pending indices. *)
Class SessionFrame (I : S → Prop) (J : nat → B → Prop) (strict : bool) (P : St → Prop) : Prop := {
  frame_backend : ∀ st, P st → I (backend_session st.2);
  frame_serves : ∀ st b, P st → b ∈ input_buffers st.2 ++ output_buffers st.2 →
    ∃ n, J n (backing b);
  frame_strict : ∀ st, P st → strict = true → pending_ok st.2;
  frame_quiet : ∀ st st', P st → quiet st st' → P st';
  frame_set_backend : ∀ st k bs, P st → I bs → P (set_os k st.1, set_backend bs st.2);
  frame_input : ∀ st l, P st → Forall2 (evolves J) (input_buffers st.2) l →
    P (st.1, set_input_buffers l st.2);
  frame_output : ∀ st l, P st → Forall2 (evolves J) (output_buffers st.2) l →
    P (st.1, set_output_buffers l st.2);
  frame_sent : ∀ st, P st → P (st.1, set_pending [] st.2);
  frame_pend : ∀ st i, P st → in_range st.2 i →
    P (st.1, set_pending (pending_output_buffers st.2 ++ [i]) st.2);
}.

Lemma evolves_refl J (b : Buf) : evolves J b b.
Proof. split; [apply shape_refl|done]. Qed.

Lemma evolves_set_v4l2 J (b : Buf) v : same_shape (v4l2 b) v → evolves J b (set_v4l2 v b).
Proof. by split. Qed.

Lemma evolves_insert J (l : list Buf) i b b' :
  l !! i = Some b → evolves J b b' → Forall2 (evolves J) l (<[i := b']> l).
Proof.
  intros Hb Hev. apply Forall2_same_length_lookup_2; [by rewrite length_insert|].
  intros j x y Hx [(<-&<-&_)|[_ Hy]]%list_lookup_insert_Some; [by simplify_eq|].
  simplify_eq. apply evolves_refl.
Qed.

Lemma evolves_twice J (l : list Buf) i b v v' :
  l !! i = Some b → same_shape v v' →
  Forall2 (evolves J) (<[i := set_v4l2 v b]> l) (<[i := set_v4l2 v' b]> l).
Proof.
  intros Hb Hv. rewrite <-(list_insert_insert_eq l i (set_v4l2 v' b) (set_v4l2 v b)).
  eapply evolves_insert; [by apply list_lookup_insert_eq; eapply lookup_lt_Some|]. by split.
Qed.

Lemma evolves_fmap J (l : list Buf) f :
  (∀ b, evolves J b (f b)) → Forall2 (evolves J) l (f <$> l).
Proof. intros Hf. apply Forall2_fmap_r, Forall_Forall2_diag, Forall_true. auto. Qed.

(** The buffers of a queue of the decoder. *)
Lemma queue_buffers_output queue (s : Ses) buffers :
  queue_buffers queue s = Some buffers → direction queue = Output →
  buffers = input_buffers s ∧ set_queue_buffers queue = set_input_buffers (S := S) (B := B).
Proof.
  unfold queue_buffers, set_queue_buffers. intros Hq Hd.
  case_bool_decide; [by simplify_eq|].
  case_bool_decide as Hc; [|done]. rewrite Hc, direction_capture_mplane in Hd. done.
Qed.

Lemma queue_buffers_capture queue (s : Ses) buffers :
  queue_buffers queue s = Some buffers → direction queue = Capture →
  buffers = output_buffers s ∧ set_queue_buffers queue = set_output_buffers (S := S) (B := B).
Proof.
  unfold queue_buffers, set_queue_buffers. intros Hq Hd.
  case_bool_decide as Ho; [by rewrite Ho, direction_output_mplane in Hd|].
  case_bool_decide; [|done]. by simplify_eq.
Qed.

(** An operator of machine integers panics only on a checked overflow. *)
Lemma unsigned_op_returns pn max z : (overflow_checks = true → pn = true) → returns pn (unsigned_op max z).
Proof.
  intros Hpn. unfold returns. destruct (unsigned_op max z) eqn:E1; [done|].
  by eapply Hpn, unsigned_op_panics.
Qed.

Lemma keeps_returns {T E A} pn (P : T → Prop) (o : outcome A) :
  returns pn o → keeps pn P (lift_outcome o : M T E A).
Proof. intros Ho st HP. unfold wp, lift_outcome. by destruct o. Qed.

(** The state that [get_st] returns satisfies the invariant. *)
Lemma keeps_get {T E A} pn (P : T → Prop) (f : T → M T E A) :
  (∀ st, P st → keeps pn P (f st)) → keeps pn P (st ← get_st; f st).
Proof. intros Hf st HP. apply wp_bind, wp_get_st. by apply Hf. Qed.
End Frame.

(** ** The operations *)

Section Operations.
Context `{BM : BuildMode} `{V : V4l2r} {VL : V4l2rLaws}.
Context {D Q HM K S B : Type}.
Context `{!VirtioMediaEventQueue Q} `{!VirtioMediaHostMemoryMapper HM}.
Context `{!VideoDecoderBufferBacking K B} `{!VideoDecoderBackendSession K S B}.
Context `{!VideoDecoderBackend D K S B}.
Abbreviation Ses := (VideoDecoderSession S B).
Abbreviation Dec := (VideoDecoder D Q HM K).
Abbreviation St := (Dec * Ses)%type.
Context {pa pd : bool} {I : S → Prop} {J : nat → B → Prop} `{BL : !BackendLaws pa pd I J}.
Context {strict : bool} (P : St → Prop) `{FP : !SessionFrame I J strict P}.

(** Whether giving the pending buffers to the backend may panic. *)
Definition send_panics : bool := negb strict || pa.

Lemma keeps_ses_modify {E} pn (f : Ses → Ses) :
  (∀ d s, P (d, s) → P (d, f s)) → keeps pn P (on_ses (modify f) : M St E unit).
Proof. intros Hf [d s] HP. apply wp_zoom, wp_modify. by apply Hf. Qed.

Lemma keeps_quiet {E} pn (f : Ses → Ses) :
  (∀ (d : Dec) s, quiet (d, s) (d, f s)) → keeps pn P (on_ses (modify f) : M St E unit).
Proof. intros Hf. apply keeps_ses_modify. intros d s HP. by eapply frame_quiet. Qed.

Lemma keeps_on_backend {E A} pn (m : M (K * S) E A) :
  keeps pn (λ st, I st.2) m → keeps pn P (on_backend m).
Proof.
  intros Hm [d s] HP. apply wp_zoom. eapply wp_mono, Hm; [|by apply (frame_backend (d, s))].
  intros r [k bs] HI. by apply (frame_set_backend (d, s)).
Qed.

Lemma keeps_hook {E} pn (f : S → S) :
  (∀ bs, I bs → I (f bs)) →
  keeps pn P (on_ses (modify (λ s, set_backend (f (backend_session s)) s)) : M St E unit).
Proof.
  intros Hf. apply keeps_ses_modify. intros d s HP.
  eapply (frame_quiet (set_os (d_os d) d, _)).
  - apply (frame_set_backend (d, s) (d_os d) (f (backend_session s))); [done|].
    by apply Hf, (frame_backend (d, s)).
  - by split_and!.
Qed.

Lemma dec_keeps_send {E} pn e : keeps pn P (send e : M St E unit).
Proof. intros [d s] HP. apply wp_zoom, wp_modify, (frame_quiet (d, s)); [done|]. by split_and!. Qed.

(** *** Pending buffers *)

Lemma wp_send_output_buffer i st :
  P st → (strict = true → in_range st.2 i) →
  wp send_panics (send_output_buffer i)
    (λ _ st', P st' ∧ length (output_buffers st'.2) = length (output_buffers st.2)) st.
Proof.
  intros HP Hi. unfold send_output_buffer, send_panics. apply wp_bind, wp_get_st, wp_bind.
  unfold unwrap. destruct (output_buffers st.2 !! Z.to_nat i) as [b|] eqn:Eb.
  2: { destruct strict; [|done]. apply lookup_ge_None in Eb. specialize (Hi eq_refl).
       unfold in_range in Hi. lia. }
  destruct (frame_serves st b HP) as [n Hn].
  { apply elem_of_app. right. by eapply list_elem_of_lookup_2. }
  apply wp_ret, wp_zoom. apply (wp_panic_mono pa); [by rewrite orb_true_iff; right|].
  eapply wp_mono, (output_law _ n); [|by apply (frame_backend st)|done].
  intros r [[k bs] b'] [HI HJ]. cbn [fst snd] in *. split; [|by cbn; rewrite length_insert].
  assert (P (st.1, set_output_buffers (<[Z.to_nat i := mkDecBuffer (v4l2 b) b']>
    (output_buffers st.2)) st.2)) as HP'.
  { apply frame_output; [done|]. eapply evolves_insert; [done|]. split; [apply shape_refl|done]. }
  by apply (frame_set_backend _ k bs HP').
Qed.

Lemma keeps_try_send : keeps send_panics P try_send_pending_output_buffers.
Proof.
  intros [d s] HP. unfold try_send_pending_output_buffers. apply wp_bind, wp_get_st. cbn [snd].
  destruct (is_output_streaming _); [|done]. apply wp_bind, wp_zoom, wp_modify. cbn [fst snd].
  assert (∀ l st, P st → (strict = true → Forall (in_range st.2) l) →
    wp send_panics (forM_ send_output_buffer l) (λ _ st', P st') st) as Hloop.
  { induction l as [|i l IH]; intros st HPst Hl; simpl; [done|]. apply wp_bind.
    eapply wp_mono, wp_send_output_buffer; [|done|].
    - intros [[]|e] st' [HP' Hlen]; [|done]. apply IH; [done|]. intros Hs.
      specialize (Hl Hs). apply Forall_cons in Hl as [_ Hl]. eapply Forall_impl; [done|].
      unfold in_range. intros j. by rewrite Hlen.
    - intros Hs. by apply Hl, Forall_cons in Hs as [Hi _]. }
  apply Hloop; [by apply (frame_sent (d, s))|]. intros Hs. by apply (frame_strict (d, s)).
Qed.

(** An update of the session that every frame allows. *)
Ltac quiet_update := apply keeps_quiet; intros; split_and!.

(** *** Formats and selections *)

Lemma try_format_returns (d : Dec) (s : Ses) queue format :
  P (d, s) → returns pa (try_format d s queue format).
Proof.
  intros HP. unfold try_format. destruct (negb _); [done|]. cbn.
  pose proof (adjust_law (backend d) (backend_session s) (direction queue)
    (mp_from (direction queue) (format_pix_mp format)) (frame_backend (d, s) HP)) as Hr.
  unfold mbind, outcome_bind. by destruct (be_adjust_format _ _ _ _).
Qed.

Lemma current_format_returns (d : Dec) (s : Ses) dir : P (d, s) → returns pa (current_format s dir).
Proof.
  intros HP. pose proof (format_law (backend_session s) dir (frame_backend (d, s) HP)) as Hr.
  unfold current_format, mbind, outcome_bind. by destruct (bs_current_format _ _).
Qed.

Lemma frame_hook (d : Dec) s f : P (d, s) → (∀ bs, I bs → I (f bs)) →
  P (d, set_backend (f (backend_session s)) s).
Proof. intros HP Hf. exact (keeps_hook (E := Z) false f Hf (d, s) HP). Qed.

Lemma keeps_s_fmt queue format : keeps pa P (s_fmt queue format).
Proof.
  intros [d s] HP. unfold s_fmt. apply wp_bind, wp_get_st, wp_bind. cbn [fst snd].
  pose proof (try_format_returns d s queue format HP) as Hr. unfold wp at 1, lift_outcome.
  destruct (try_format d s queue format) as [[f|e]|]; [| |done]; cbn; [|by apply wp_bind].
  assert (P (d, set_backend (be_apply_format (backend d) (direction queue) f (backend_session s)) s))
    as HP1 by (apply frame_hook; [done|]; intros; by apply apply_law).
  unfold wp. unfold_M. unfold on_ses, zoom. cbn [fst snd].
  case_bool_decide; cbn [fst snd]; destruct (crop_rectangle s) eqn:Ec; try destruct (mp_size f);
    cbn [fst snd]; (eapply frame_quiet; [exact HP1|]);
    split_and!; try done; cbn; intros; congruence.
Qed.

Lemma keeps_s_selection pn ty tgt rect flags :
  (overflow_checks = true → pn = true) → (pa = true → pn = true) →
  keeps pn P (s_selection ty tgt rect flags).
Proof.
  intros Ho Ha [d s] HP. unfold s_selection. apply wp_bind, wp_guard; [intros _|done].
  apply wp_bind, wp_get_st, wp_bind. cbn [snd].
  assert (∀ st, P st → wp (E := Z) pn (st ← get_st; lift_result (get_selection st.2 ty tgt))
    (λ _ st', P st') st) as Hlast.
  { intros st HPst. apply wp_bind, wp_get_st. unfold wp, lift_result. by destruct (get_selection _ _ _). }
  destruct (crop_rectangle s) as [r|r] eqn:Ec; [|by apply wp_ret, Hlast].
  pose proof (format_law (backend_session s) Capture (frame_backend (d, s) HP)) as Hf.
  apply wp_bind. unfold wp at 1, lift_outcome. destruct (bs_current_format _ _) as [f|]; [|by apply Ha].
  cbn. apply wp_bind. eapply wp_mono, (keeps_returns pn (λ st, st = (d, s))), eq_refl;
    [|by apply unsigned_op_returns].
  intros [w|e] st ->; [|done]. apply wp_bind.
  eapply wp_mono, (keeps_returns pn (λ st, st = (d, s))), eq_refl; [|by apply unsigned_op_returns].
  intros [h|e] st ->; [|done]. apply wp_zoom, wp_modify, Hlast.
  eapply (frame_quiet (d, s)); [done|]. split_and!; try done. cbn. intros. congruence.
Qed.

Lemma keeps_subscribe_event pn event flags : keeps pn P (subscribe_event event flags).
Proof.
  unfold subscribe_event. repeat case_bool_decide; [by quiet_update..|apply keeps_throw].
Qed.

Lemma keeps_unsubscribe_event pn event : keeps pn P (unsubscribe_event event).
Proof.
  unfold unsubscribe_event. apply keeps_bind; [|intros _; apply keeps_bind; [|intros _; apply keeps_guard]];
    case_match; (apply keeps_ret || by quiet_update).
Qed.

(** *** Streaming and decoding *)

Lemma dec_keeps_streamon queue : keeps send_panics P (streamon queue).
Proof.
  apply keeps_bind; [apply keeps_get_st|intros st0]. apply keeps_bind; [apply keeps_ok_or|intros l].
  apply keeps_bind; [apply keeps_guard|intros _]. apply keeps_bind; [by quiet_update|intros _].
  apply keeps_bind; [|intros _; apply keeps_try_send].
  apply keeps_hook. intros. by apply streaming_law.
Qed.

Lemma evolves_clear_queued (b : VideoDecoderBuffer B) : evolves J b (clear_queued b).
Proof. apply evolves_set_v4l2. auto with vmedia. Qed.

Lemma dec_keeps_streamoff queue : keeps pa P (streamoff queue).
Proof.
  apply keeps_bind; [|intros _; apply keeps_hook; intros; by apply streaming_law].
  destruct (direction queue).
  - apply keeps_bind; [by quiet_update|intros _]. apply keeps_ses_modify.
    intros d s HP. apply (frame_input (d, s)); [done|]. apply evolves_fmap, evolves_clear_queued.
  - apply keeps_bind; [apply keeps_on_backend, clear_law|intros _].
    apply keeps_bind; [|intros _; apply keeps_ses_modify; intros d s HP;
      apply (frame_output (d, s)); [done|]; apply evolves_fmap, evolves_clear_queued].
    apply keeps_ses_modify. intros d s HP.
    eapply frame_quiet; [by apply (frame_sent (d, s))|by split_and!].
Qed.

(** DECODER_CMD drains the backend when it stops a decoder that is not stopped. *)
Definition cmd_drains (cmd : vstruct v4l2_decoder_cmd) (s : Ses) : bool :=
  match DecoderCmd_try_from cmd, d_state s with
  | Some CmdStop, (Running | Paused) => true
  | _, _ => false
  end.

Lemma wp_decoder_cmd pn cmd (d : Dec) (s : Ses) :
  P (d, s) → (send_panics = true → pn = true) →
  (cmd_drains cmd s = true → wp pn bs_drain (λ _ st, I st.2) (d_os d, backend_session s)) →
  wp pn (decoder_cmd cmd) (λ _ st, P st) (d, s).
Proof.
  intros HP Hsend Hdrain. unfold cmd_drains in Hdrain. unfold decoder_cmd.
  apply wp_bind, wp_ok_or; [intros c Hc|done]. rewrite Hc in Hdrain.
  apply wp_bind, wp_get_st, wp_bind. cbn [snd]. unfold wp at 1, lift_result.
  assert (∀ st, P st → wp pn try_send_pending_output_buffers (λ _ st', P st') st) as Hs.
  { intros st HPst. eapply wp_panic_mono, keeps_try_send, HPst. done. }
  assert (∀ x, P (d, set_d_state x s)) as Hx
    by (intros x; eapply (frame_quiet (d, s)); [done|by split_and!]).
  destruct (session_try_decoder_cmd s c) as [c'|e] eqn:Ec; [|done]. cbn.
  assert (c' = c) as -> by (unfold session_try_decoder_cmd in Ec; destruct c, (d_state s); congruence).
  apply wp_bind. apply (wp_mono _ _ (λ _ st, P st)); [by intros [[]|e] st|].
  destruct c, (d_state s) as [i o| |] eqn:Es; try by apply wp_ret.
  1, 2: apply wp_bind, wp_zoom, wp_modify, wp_zoom; (eapply wp_mono, Hdrain; [|done]);
    intros r [k bs] HI; by apply (frame_set_backend (d, set_d_state _ s) k bs).
  apply wp_bind, (wp_mono _ _ (λ _ st, P st)); [intros [[]|e] st Hst; [by apply Hs|done]|].
  destruct (i && o); [|by apply wp_ret]. apply wp_bind, wp_zoom, wp_modify.
  apply keeps_hook; [|apply Hx]. intros. by apply streaming_law.
Qed.

Lemma keeps_decoder_cmd cmd : keeps (send_panics || pd) P (decoder_cmd cmd).
Proof.
  intros [d s] HP. apply wp_decoder_cmd; [done|by intros ->|]. intros _.
  apply (wp_panic_mono pd); [intros ->; apply orb_true_r|]. by apply drain_law, (frame_backend (d, s)).
Qed.

(** The second half of QBUF on the CAPTURE queue. *)
Lemma wp_queue_capture (d : Dec) (s : Ses) i (b : VideoDecoderBuffer B) v idx :
  P (d, s) → output_buffers s !! i = Some b → i = Z.to_nat idx → same_shape (v4l2 b) v →
  wp send_panics
    (on_ses (modify (set_output_buffers (<[i := set_v4l2 v b]> (output_buffers s)))) ;;
     on_ses (modify (λ s, set_pending (pending_output_buffers s ++ [idx]) s)) ;;
     try_send_pending_output_buffers ;; mret v)
    (λ _ st, P st) (d, s).
Proof.
  intros HP Hb -> Hv. apply wp_bind, wp_zoom, wp_modify, wp_bind, wp_zoom, wp_modify, wp_bind.
  cbn [fst snd]. eapply wp_mono; [|apply keeps_try_send]; [by intros [[]|e] st HP'|].
  apply (frame_pend (d, set_output_buffers _ s)).
  - apply (frame_output (d, s)); [done|]. eapply evolves_insert; [done|]. by apply evolves_set_v4l2.
  - unfold in_range. cbn. rewrite length_insert. by eapply lookup_lt_Some.
Qed.

Lemma keeps_qbuf buffer regions : keeps (send_panics || pd) P (qbuf buffer regions).
Proof.
  intros [d s] HP. unfold qbuf. apply wp_bind, wp_get_st. cbn [snd].
  apply wp_bind, wp_ok_or; [intros l Hl|done]. apply wp_bind, wp_ok_or; [intros b Hb|done].
  apply wp_bind, wp_guard; [intros _|done].
  destruct (direction (buf_queue buffer)) eqn:Ed.
  - destruct (queue_buffers_output _ _ _ Hl Ed) as [-> ->].
    destruct (frame_serves (d, s) b HP) as [n Hn].
    { apply elem_of_app. left. by eapply list_elem_of_lookup_2. }
    set (v1 := update_first_plane _ _).
    assert (same_shape (v4l2 b) v1) as Hv1 by (subst v1; auto with vmedia).
    pose proof (frame_input (d, s) _ HP (evolves_insert _ _ _ _ _ Hb
      (evolves_set_v4l2 _ _ _ Hv1))) as HP1.
    apply wp_bind, wp_zoom, wp_modify, wp_bind, wp_zoom.
    apply (wp_panic_mono pd); [intros ->; apply orb_true_r|].
    eapply wp_mono, (decode_law n); [|done|by apply (frame_backend (d, s))].
    intros r [k bs] HI. pose proof (frame_set_backend _ k bs HP1 HI) as HP2.
    destruct r as [[]|e]; [|done]. apply wp_bind, wp_zoom, wp_modify, wp_ret.
    eapply (frame_quiet (_, set_input_buffers _ _)); [apply (frame_input _ _ HP2)|by split_and!].
    eapply evolves_twice; [done|]. auto with vmedia.
  - destruct (queue_buffers_capture _ _ _ Hl Ed) as [-> ->].
    apply (wp_panic_mono send_panics); [by intros ->|].
    apply wp_queue_capture; [done..|]. auto 6 with vmedia.
Qed.

(** *** Events *)

Lemma keeps_handle_event pn ev :
  (overflow_checks = true → pn = true) → (∀ d s c, P (d, s) → P (d, set_crop c s)) →
  keeps pn P (handle_event ev).
Proof.
  intros Ho Hcrop. destruct ev as [|id err|id ts used is_last]; simpl.
  - apply keeps_bind; [apply keeps_get_st|intros st0].
    apply keeps_bind; [by apply keeps_ses_modify; intros; apply Hcrop|intros _].
    apply keeps_bind; [destruct (src_change_subscribed _); [apply dec_keeps_send|apply keeps_ret]|intros _].
    by quiet_update.
  - intros [d s] HP. unfold input_buffer_done. apply wp_bind, wp_get_st. cbn [snd].
    destruct (input_buffers s !! _) as [b|] eqn:Eb; [|done].
    apply wp_bind, wp_zoom, wp_modify, dec_keeps_send. apply (frame_input (d, s)); [done|].
    eapply evolves_insert; [done|]. apply evolves_set_v4l2.
    destruct (negb _); auto with vmedia.
  - intros [d s] HP. unfold frame_completed. apply wp_bind, wp_get_st. cbn [snd].
    destruct (output_buffers s !! _) as [b|] eqn:Eb; [|done].
    apply wp_bind. eapply wp_mono, (keeps_returns pn (λ st, st = (d, s))), eq_refl;
      [|by apply unsigned_op_returns].
    intros [next|e] st ->; [|done]. apply wp_bind, wp_zoom, wp_modify, wp_bind, wp_zoom, wp_modify.
    cbn [fst snd]. apply wp_bind.
    eapply wp_mono; [|apply dec_keeps_send; apply (frame_output (d, set_sequence_cpt next s))].
    + intros [[]|e] st HP'; [|done]. revert st HP'.
      repeat case_match; (apply keeps_ret || apply dec_keeps_send || by quiet_update).
    + eapply (frame_quiet (d, s)); [done|by split_and!].
    + eapply evolves_insert; [done|]. apply evolves_set_v4l2. destruct is_last; auto 8 with vmedia.
Qed.

Lemma dec_keeps_process_events pn :
  (overflow_checks = true → pn = true) → (pa = true → pn = true) →
  (∀ d s c, P (d, s) → P (d, set_crop c s)) → keeps pn P decoder_process_events.
Proof.
  intros Ho Ha Hcrop. apply keeps_bind.
  - apply keeps_on_backend. intros st HI. pose proof (event_law st HI) as He. unfold wp.
    unfold mbind, outcome_bind. destruct (bs_next_event st) as [[st' ev]|]; [done|by apply Ha].
  - intros [ev|]; [by apply keeps_handle_event|apply keeps_ret].
Qed.

(** *** The calls of the dispatcher *)

Definition is_reqbufs {a E T} (c : Call.ioctl_call a E T) : bool :=
  match c with Call.reqbufs _ _ _ _ => true | _ => false end.

(** The ioctls that give work to the backend. *)
Definition sends_pending (ioctl : V4l2Ioctl) : bool :=
  match ioctl with VIDIOC_QBUF | VIDIOC_STREAMON | VIDIOC_DECODER_CMD => true | _ => false end.

(** The ioctls that may panic. *)
Definition call_panics (ioctl : V4l2Ioctl) : bool :=
  overflow_checks || pa || (sends_pending ioctl && (negb strict || pd)).

Lemma wp_by_ref {E T} pn (m : Ses → M Dec E T) :
  (∀ d s, P (d, s) → wp pn (m s) (λ _ d', d' = d) d) → keeps pn P (run_method ByRef m).
Proof.
  intros Hm [d s] HP. specialize (Hm d s HP). unfold wp in *. simpl.
  destruct (m s d) as [[d' r]|]; [by subst|done].
Qed.

Lemma keeps_g_fmt pn queue : (pa = true → pn = true) → keeps pn P (run_method ByRef (g_fmt queue)).
Proof.
  intros Ha. apply wp_by_ref. intros d s HP. apply wp_bind, wp_guard; [intros _|done]. apply wp_bind.
  pose proof (current_format_returns d s (direction queue) HP) as Hr. unfold wp, lift_outcome.
  destruct (current_format _ _); [done|by apply Ha].
Qed.

Lemma keeps_try_fmt pn queue format :
  (pa = true → pn = true) → keeps pn P (run_method ByRef (try_fmt queue format)).
Proof.
  intros Ha. apply wp_by_ref. intros d s HP. apply wp_bind, wp_get_st, wp_bind.
  pose proof (try_format_returns d s queue format HP) as Hr. unfold wp at 1, lift_outcome.
  destruct (try_format _ _ _ _) as [[f|e]|]; [done..|by apply Ha].
Qed.

Lemma dec_keeps_call {a E T} (c : Call.ioctl_call a E T) :
  is_reqbufs c = false → keeps (call_panics (Call.call_ioctl c)) P (call c).
Proof.
  intros Hc. destruct c; try done; unfold call; cbn [ioctl_method decoder_handler].
  all: unfold call_panics; cbn [Call.call_ioctl sends_pending andb]; rewrite ?orb_false_r.
  all: try by intros [d s] HP.
  all: try (apply wp_by_ref; intros d s HP; unfold wp, enum_fmt, querybuf, enum_framesizes,
    g_selection, try_decoder_cmd; unfold_M; repeat (case_match; simplify_eq/=); done).
  all: try (first [apply keeps_g_fmt | apply keeps_try_fmt | apply keeps_s_selection];
    by destruct overflow_checks, pa).
  all: try by (apply keeps_subscribe_event || apply keeps_unsubscribe_event).
  all: intros st HP; eapply wp_panic_mono;
    [|by first [apply keeps_s_fmt | apply dec_keeps_streamon | apply dec_keeps_streamoff | apply keeps_qbuf
               | apply keeps_decoder_cmd]].
  all: unfold send_panics; by destruct overflow_checks, strict, pa, pd.
Qed.
End Operations.
