(* ===== verification/DecoderBehaviour.v ===== *)
(** * What a session of the decoder does

    Between two REQBUFS no ioctl and no event panics a session; the crop rectangle
    of the stream is final; the guest gets the messages that the events of the
    backend promise; REQBUFS resizes a queue, but forgets the buffers that wait for
    the backend. *)

From Stdlib Require Import Strings.Byte.
From S2P Require Import Prelude RustStd Traits Mmap Bytes Protocol Io V4l2r Ioctl Runner MemFd VideoDecoder DecoderFrame.
#[local] Open Scope Z_scope.

(** ** The list of pending buffers *)

Section Pending.
Context `{BM : BuildMode} `{V : V4l2r} {VL : V4l2rLaws}.
Context {D Q HM K S B : Type}.
Context `{!VirtioMediaEventQueue Q} `{!VirtioMediaHostMemoryMapper HM}.
Context `{!VideoDecoderBufferBacking K B} `{!VideoDecoderBackendSession K S B}.
Context `{!VideoDecoderBackend D K S B}.
Abbreviation Ses := (VideoDecoderSession S B).
Abbreviation Dec := (VideoDecoder D Q HM K).
Abbreviation St := (Dec * Ses)%type.
Context (I : S → Prop) (J : nat → B → Prop).

(** The pending indices exist, and the backend can work with the session. *)
Definition session_safe (s : Ses) : Prop :=
  pending_ok s ∧ I (backend_session s) ∧
  ∀ b, b ∈ input_buffers s ++ output_buffers s → ∃ n, J n (backing b).

Lemma evolves_serve (l l' : list (VideoDecoderBuffer B)) :
  Forall2 (evolves J) l l' → (∀ b, b ∈ l → ∃ n, J n (backing b)) → ∀ b, b ∈ l' → ∃ n, J n (backing b).
Proof.
  intros Hl HJ b [i Hi]%list_elem_of_lookup.
  destruct (Forall2_lookup_r _ _ _ _ _ Hl Hi) as (b0&Hb0&_&Hb).
  destruct (HJ b0) as [n Hn]; [by eapply list_elem_of_lookup_2|]. eauto.
Qed.

#[export] Instance safe_frame : SessionFrame I J true (λ st : St, session_safe st.2).
Proof.
  split.
  - by intros st (_&HI&_).
  - intros st b (_&_&HJ) Hb. by apply HJ.
  - by intros st (Hp&_&_) _.
  - intros [d s] [d' s'] (Hp&HI&HJ) (_&_&Hi&Ho&Hpe&Hb&_). cbn in *.
    unfold session_safe, pending_ok, in_range. by rewrite Hi, Ho, Hpe, Hb.
  - intros [d s] k bs (Hp&HI&HJ) HI'. by split_and!.
  - intros [d s] l (Hp&HI&HJ) Hl. split_and!; [done..|]. cbn. intros b [Hb|Hb]%elem_of_app.
    + eapply evolves_serve; [done| |done]. set_solver.
    + set_solver.
  - intros [d s] l (Hp&HI&HJ) Hl. split_and!; [|done|].
    + by eapply pending_ok_evolves.
    + cbn. intros b [Hb|Hb]%elem_of_app; [set_solver|].
      eapply evolves_serve; [done| |done]. set_solver.
  - intros [d s] (Hp&HI&HJ). by split_and!; [constructor|..].
  - intros [d s] i (Hp&HI&HJ) Hi. split_and!; [|done..].
    apply Forall_app. split; [done|]. by constructor.
Qed.
End Pending.

(** ** The crop rectangle *)

Section Crop.
Context `{BM : BuildMode} `{V : V4l2r} {VL : V4l2rLaws}.
Context {D Q HM K S B : Type}.
Context `{!VirtioMediaEventQueue Q} `{!VirtioMediaHostMemoryMapper HM}.
Context `{!VideoDecoderBufferBacking K B} `{!VideoDecoderBackendSession K S B}.
Context `{!VideoDecoderBackend D K S B}.
Abbreviation Ses := (VideoDecoderSession S B).
Abbreviation Dec := (VideoDecoder D Q HM K).
Abbreviation St := (Dec * Ses)%type.
Context (r : v4l2_rect).

(** The rectangle was determined by the stream, as [r]. *)
Definition crop_is (s : Ses) : Prop := crop_rectangle s = FromStream r.
Definition crop_fixed (st : St) : Prop := crop_is st.2.

#[export] Instance crop_frame :
  SessionFrame (λ _ : S, True) (λ _ (_ : B), True) false crop_fixed.
Proof.
  split; try done.
  - intros st b _ _. by exists 0%nat.
  - intros st st' HP (_&_&_&_&_&_&Hc). by apply Hc.
Qed.

Lemma reqbufs_crop queue memory count flags :
  keeps true crop_fixed (reqbufs (D := D) (Q := Q) (HM := HM) (K := K) (S := S) (B := B)
    queue memory count flags).
Proof.
  assert (∀ l, keeps (E := Z) true crop_fixed (on_ses (D := D) (Q := Q) (HM := HM) (K := K)
    (modify (set_queue_buffers queue l)))) as Hput.
  { intros l. apply keeps_ses_modify. intros d s. unfold crop_fixed, crop_is, set_queue_buffers.
    by case_bool_decide. }
  assert (∀ {A} (m : M Dec Z A), keeps true crop_fixed (on_dec (S := S) (B := B) m)) as Hdec.
  { intros A m [d s] HP. unfold wp, on_dec, zoom. cbn [fst]. by destruct (m d) as [[]|]. }
  assert (keeps (E := Z) true crop_fixed (on_ses (D := D) (Q := Q) (HM := HM) (K := K) (modify (λ s,
    set_backend (bs_buffers_allocated (direction queue) count (backend_session s)) s)))) as Hhook
    by (by apply keeps_ses_modify).
  unfold reqbufs. keeps_walk.
Qed.

#[export] Instance crop_handler : HandlerInvariant (H := Dec) (λ _, true) crop_fixed.
Proof.
  intros a E T c hs _ HP. destruct (is_reqbufs c) eqn:Ec.
  - destruct c; try done. by apply reqbufs_crop.
  - eapply wp_panic_mono, (dec_keeps_call (BL := any_backend) crop_fixed c Ec), HP. done.
Qed.
End Crop.

(** ** The messages the backend's events promise to the guest *)

Inductive message :=
| MInput (index : nat) (error : bool)
| MFrame (index : nat) (sequence : Z) (timestamp : timeval) (bytesused : Z) (is_last : bool)
| MSourceChange
| MEos.

(** The abstract specification of [process_events]: the messages that a sequence of
    events must produce, for a session with [nin] and [nout] buffers, the
    subscriptions [src] and [eos], the next sequence number [seq], and a format
    change in progress or not.  A frame marked as the last one ends the format
    change if there is one, and the stream otherwise. *)
Fixpoint promised (nin nout : nat) (src eos : bool) (seq : Z) (changing : bool)
    (evs : list VideoDecoderBackendEvent) : list message :=
  match evs with
  | [] => []
  | InputBufferDone id error :: evs =>
      (if bool_decide (Z.to_nat id < nin)%nat then [MInput (Z.to_nat id) (negb (error =? 0))] else [])
      ++ promised nin nout src eos seq changing evs
  | StreamFormatChanged :: evs =>
      (if src then [MSourceChange] else []) ++ promised nin nout src eos seq true evs
  | FrameCompleted id ts bytes is_last :: evs =>
      if bool_decide (Z.to_nat id < nout)%nat then
        MFrame (Z.to_nat id) seq ts (default 0 (head bytes)) is_last ::
        (if is_last && negb changing && eos then [MEos] else [])
        ++ promised nin nout src eos (seq + 1) (changing && negb is_last) evs
      else promised nin nout src eos seq changing evs
  end.

Section Events.
Context `{BM : BuildMode} `{V : V4l2r} {VL : V4l2rLaws}.
Context {D Q HM K S B : Type}.
Context `{!VirtioMediaEventQueue Q} `{!VirtioMediaHostMemoryMapper HM}.
Context `{!VideoDecoderBackendSession K S B}.
Abbreviation Ses := (VideoDecoderSession S B).
Abbreviation Dec := (VideoDecoder D Q HM K).
Abbreviation St := (Dec * Ses)%type.

(** The buffers of a queue carry their queue and index and are MMAP buffers. *)
Definition buffer_wf (q : QueueType) (i : nat) (b : VideoDecoderBuffer B) : Prop :=
  buf_queue (v4l2 b) = q ∧ buf_index (v4l2 b) = Z.of_nat i ∧
  ∃ p ps, buf_planes (v4l2 b) = BMmap (p :: ps).
Definition buffers_wf (q : QueueType) (l : list (VideoDecoderBuffer B)) : Prop :=
  ∀ i b, l !! i = Some b → buffer_wf q i b.

(** The event that carries a message of session [id]. *)
Definition shows (id : Z) (m : message) (e : V4l2Event V4l2Buffer (vstruct v4l2_event)) : Prop :=
  match m with
  | MInput i error => ∃ v, e = EvDequeueBuffer (DequeueBufferEvent_new id v) ∧
      buf_queue v = VideoOutputMplane ∧ buf_index v = Z.of_nat i ∧
      (error → buf_flags v = FLAG_ERROR)
  | MFrame i seq ts bytes is_last => ∃ v, e = EvDequeueBuffer (DequeueBufferEvent_new id v) ∧
      buf_queue v = VideoCaptureMplane ∧ buf_index v = Z.of_nat i ∧
      buf_sequence v = seq ∧ buf_timestamp v = ts ∧
      p_bytesused (buf_first_plane v) = bytes ∧
      buf_flags v = (if is_last then FLAG_LAST else FLAG_TIMESTAMP_COPY)
  | MSourceChange => e = EvEvent (SessionEvent_new id (vmk v4l2_event
      [("type_", vconst "V4L2_EVENT_SOURCE_CHANGE");
       ("u.src_change.changes", vconst "SrcChanges::RESOLUTION")]))
  | MEos => e = EvEvent (SessionEvent_new id (vmk v4l2_event [("type_", vconst "V4L2_EVENT_EOS")]))
  end.

(** [n] calls of [process_events], and the events the backend gives them. *)
Fixpoint process_times (n : nat) : M St Z unit :=
  match n with 0%nat => mret tt | Datatypes.S n => decoder_process_events ;; process_times n end.

Fixpoint backend_events (n : nat) (st : K * S) : outcome (list VideoDecoderBackendEvent) :=
  match n with
  | 0%nat => Ret []
  | Datatypes.S n =>
      '(st, ev) ← bs_next_event st; evs ← backend_events n st; Ret (option_list ev ++ evs)
  end.

Definition promised_to (s : Ses) : list VideoDecoderBackendEvent → list message :=
  promised (length (input_buffers s)) (length (output_buffers s)) (src_change_subscribed s)
    (eos_subscribed s) (sequence_cpt s) (format_change_pending s).

Definition send_all (es : list (V4l2Event V4l2Buffer (vstruct v4l2_event))) (q : Q) : Q :=
  foldl (λ q e, send_event e q) q es.

Definition session_wf (s : Ses) : Prop :=
  buffers_wf VideoOutputMplane (input_buffers s) ∧ buffers_wf VideoCaptureMplane (output_buffers s).

Lemma buffers_wf_insert q l i b' :
  buffers_wf q l → buffer_wf q i b' → buffers_wf q (<[i := b']> l).
Proof.
  intros Hl Hb' j b0 [(<-&<-&_)|[_ Hj]]%list_lookup_insert_Some; [done|by apply Hl].
Qed.

(** What one event does: the messages it promises are sent, and the rest of the
    promises is that of the new session. *)
Definition event_step (ev : VideoDecoderBackendEvent) (d : Dec) (s : Ses) : Prop :=
  ∃ d' s' ms es, handle_event ev (d, s) = Ret ((d', s'), Ok tt) ∧
    event_queue d' = send_all es (event_queue d) ∧ Forall2 (shows (d_id s)) ms es ∧
    (∀ evs, promised_to s (ev :: evs) = ms ++ promised_to s' evs) ∧
    session_wf s' ∧ d_id s' = d_id s ∧ d_os d' = d_os d ∧ backend_session s' = backend_session s ∧
    0 ≤ sequence_cpt s' ≤ sequence_cpt s + 1.

Lemma lookup_in_range {A} (l : list A) i :
  bool_decide (i < length l)%nat = match l !! i with Some _ => true | None => false end.
Proof.
  case_bool_decide as Hi.
  - by destruct (lookup_lt_is_Some_2 _ _ Hi) as [x ->].
  - by rewrite (lookup_ge_None_2 l i ltac:(lia)).
Qed.

Lemma input_buffer_done_step id error (d : Dec) (s : Ses) :
  session_wf s → 0 ≤ sequence_cpt s → event_step (InputBufferDone id error) d s.
Proof.
  intros [Hi Ho] H0. unfold event_step. simpl. unfold input_buffer_done, promised_to. simpl.
  setoid_rewrite lookup_in_range. unfold_M. cbn [fst snd].
  destruct (input_buffers s !! Z.to_nat id) as [b|] eqn:Eb.
  2: { exists d, s, [], []. split_and!; [done..|lia|lia]. }
  destruct (Hi _ _ Eb) as (Hq&Hidx&p&ps&Hp). eexists _, _, [MInput (Z.to_nat id) (negb (error =? 0))], [_].
  split; [done|]. split; [done|]. split_and!.
  - constructor; [|constructor]. simpl. eexists. split; [done|].
    destruct (error =? 0); simpl; autorewrite with v4l2r; done.
  - intros evs. simpl. by rewrite length_insert.
  - split; [|done]. apply buffers_wf_insert; [done|]. split_and!; [..|exists p, ps];
      destruct (error =? 0); simpl; autorewrite with v4l2r; done.
  - done.
  - done.
  - done.
  - simpl. lia.
  - simpl. lia.
Qed.

Lemma stream_format_changed_step (d : Dec) (s : Ses) :
  session_wf s → 0 ≤ sequence_cpt s → event_step StreamFormatChanged d s.
Proof.
  intros [Hi Ho] H0. unfold event_step. simpl. unfold stream_format_changed, promised_to. simpl.
  unfold_M. cbn [fst snd]. destruct (src_change_subscribed s) eqn:Es.
  - eexists _, _, [MSourceChange], [_]. split; [done|]. simpl. rewrite Es.
    split_and!; [done|by do 2 constructor|done|by split|done|done|done|lia|lia].
  - eexists _, _, [], []. split; [done|]. simpl. rewrite Es.
    split_and!; [done|by constructor|done|by split|done|done|done|lia|lia].
Qed.

(** The description of a completed frame's buffer. *)
Lemma completed_buffer q i (b : VideoDecoderBuffer B) seq ts bytes (is_last : bool) :
  buffer_wf q i b →
  let v := buf_set_flags FLAG_TIMESTAMP_COPY (buf_clear_flags FLAG_QUEUED (v4l2 b)) in
  let v := if is_last then buf_set_flags FLAG_LAST v else v in
  let v := buf_set_timestamp ts (buf_set_sequence seq v) in
  let p := buf_first_plane v in
  let v := buf_set_first_plane (mkPlane (p_length p) bytes (p_data_offset p) (p_backing p)) v in
  buffer_wf q i (set_v4l2 v b) ∧ buf_sequence v = seq ∧ buf_timestamp v = ts ∧
  p_bytesused (buf_first_plane v) = bytes ∧
  buf_flags v = (if is_last then FLAG_LAST else FLAG_TIMESTAMP_COPY).
Proof.
  intros (Hq&Hidx&p&ps&Hp) v1 v2 v3 q0 v4.
  assert (buf_planes v3 = BMmap (p :: ps)) as Hp3.
  { subst v3 v2 v1. destruct is_last; autorewrite with v4l2r; done. }
  pose proof (planes_set_first v3 p (mkPlane (p_length q0) bytes (p_data_offset q0) (p_backing q0))
    ps Hp3) as Hp4.
  split_and!.
  - split_and!; [..|by eexists _, _]; simpl; subst v4 v3 v2 v1;
      destruct is_last; autorewrite with v4l2r; done.
  - subst v4 v3. by autorewrite with v4l2r.
  - subst v4 v3. by autorewrite with v4l2r.
  - subst v4. by rewrite (first_plane_mmap _ _ _ Hp4).
  - subst v4 v3 v2 v1. destruct is_last; by autorewrite with v4l2r.
Qed.

Lemma frame_completed_step id ts bytes is_last (d : Dec) (s : Ses) :
  session_wf s → 0 ≤ sequence_cpt s < u32_max → event_step (FrameCompleted id ts bytes is_last) d s.
Proof.
  intros [Hi Ho] H0. unfold event_step. simpl. unfold frame_completed, promised_to. simpl.
  setoid_rewrite lookup_in_range. unfold_M. cbn [fst snd].
  destruct (output_buffers s !! Z.to_nat id) as [b|] eqn:Eb.
  2: { exists d, s, [], []. split_and!; [done..|lia|lia]. }
  pose proof (completed_buffer VideoCaptureMplane (Z.to_nat id) b (sequence_cpt s) ts (default 0 (head bytes)) is_last
    (Ho _ _ Eb)) as (Hwf&Hshow).
  unfold u32_add. rewrite unsigned_op_ok by mlia. cbn [fst snd].
  set (m := MFrame (Z.to_nat id) (sequence_cpt s) ts (default 0 (head bytes)) is_last).
  set (v := buf_set_first_plane _ _) in *.
  assert (shows (d_id s) m (EvDequeueBuffer (DequeueBufferEvent_new (d_id s) v))) as Hm.
  { exists v. split_and!; [done|apply Hwf|apply Hwf|apply Hshow..]. }
  assert (buffers_wf VideoCaptureMplane (<[Z.to_nat id := set_v4l2 v b]> (output_buffers s))) as Ho'
    by (by eapply buffers_wf_insert).
  destruct is_last; [destruct (format_change_pending s) eqn:Ef; [|destruct (eos_subscribed s) eqn:Ee]|].
  2: eexists _, _, [m; MEos], [_; _].
  1, 3, 4: eexists _, _, [m], [_].
  all: split; [done|]; split; [done|]; split; [by repeat constructor|]; simpl;
    rewrite length_insert, ?Ef, ?Ee, ?andb_true_r; split_and!; [done|by split|done|done|done|lia|lia].
Qed.

Lemma handle_event_step ev (d : Dec) (s : Ses) :
  session_wf s → 0 ≤ sequence_cpt s < u32_max → event_step ev d s.
Proof.
  intros Hwf Hs. destruct ev.
  - apply stream_format_changed_step; [done|lia].
  - apply input_buffer_done_step; [done|lia].
  - by apply frame_completed_step.
Qed.

Lemma process_times_run n (d : Dec) (s : Ses) evs :
  session_wf s → 0 ≤ sequence_cpt s → sequence_cpt s + Z.of_nat n ≤ u32_max →
  backend_events n (d_os d, backend_session s) = Ret evs →
  ∃ d' s' es, process_times n (d, s) = Ret ((d', s'), Ok tt) ∧ session_wf s' ∧
    event_queue d' = send_all es (event_queue d) ∧
    Forall2 (shows (d_id s)) (promised_to s evs) es.
Proof.
  revert d s evs. induction n as [|n IH]; intros d s evs Hwf H0 Hmax; simpl.
  { intros [= <-]. exists d, s, []. by split_and!; [..|constructor]. }
  unfold decoder_process_events, on_backend, zoom. unfold_M. unfold outcome_bind. cbn [fst snd].
  destruct (bs_next_event (d_os d, backend_session s)) as [[[k bs] ev]|]; [|done]. cbn [fst snd].
  destruct (backend_events n (k, bs)) as [evs1|] eqn:Hevs; [|done]. intros [= <-].
  destruct ev as [ev|].
  - destruct (handle_event_step ev (set_os k d) (set_backend bs s)) as
      (d1&s1&ms&es&->&Hq1&Hms&Hprom&Hwf1&Hid1&Hos1&Hbs1&Hseq1); [done|simpl; mlia|].
    destruct (IH d1 s1 evs1 Hwf1) as (d2&s2&es2&->&Hwf2&Hq2&Hms2);
      [lia|simpl in *; lia|by rewrite Hos1, Hbs1|].
    exists d2, s2, (es ++ es2). split; [done|]. split; [done|]. split.
    { unfold send_all in *. by rewrite Hq2, Hq1, foldl_app. }
    change (promised_to s (option_list (Some ev) ++ evs1)) with (promised_to (set_backend bs s) (ev :: evs1)).
    rewrite Hprom. rewrite Hid1 in Hms2. by apply Forall2_app.
  - destruct (IH (set_os k d) (set_backend bs s) evs1 Hwf) as (d2&s2&es2&->&Hwf2&Hq2&Hms2);
      [done|simpl; lia|done|].
    by exists d2, s2, es2.
Qed.
End Events.

(** ** Allocation *)

Section Reqbufs.
Context `{BM : BuildMode} `{V : V4l2r} {VL : V4l2rLaws}.
Context {D Q HM K S B : Type}.
Context `{!VirtioMediaEventQueue Q} `{!VirtioMediaHostMemoryMapper HM}.
Context `{!VideoDecoderBufferBacking K B} `{!VideoDecoderBackendSession K S B}.
Context `{!VideoDecoderBackend D K S B}.
Abbreviation Ses := (VideoDecoderSession S B).
Abbreviation Dec := (VideoDecoder D Q HM K).
Abbreviation St := (Dec * Ses)%type.

(** A buffer that [reqbufs] allocates for index [i]: it describes MMAP planes, the
    first of [sizeimage] bytes, for which its storage is fit. *)
Definition fresh_buffer (J : nat → B → Prop) (queue : QueueType) (sizeimage i : Z)
    (b : VideoDecoderBuffer B) : Prop :=
  buf_queue (v4l2 b) = queue ∧ buf_index (v4l2 b) = as_u32 i ∧
  ∃ p ps, buf_planes (v4l2 b) = BMmap (p :: ps) ∧ p_length p = as_u32 sizeimage ∧
    J (Datatypes.S (length ps)) (backing b).

Lemma wp_VideoDecoderBuffer_new {pa pd I J} `{BL : !BackendLaws pa pd I J} queue i size offset (d : Dec) :
  wp pa (VideoDecoderBuffer_new queue (as_u32 i) [size] offset)
    (λ r d', host_mapper d' = host_mapper d ∧
       match r with Ok b => fresh_buffer J queue size i b | Err _ => True end) d.
Proof.
  unfold VideoDecoderBuffer_new. destruct (new_planes queue (as_u32 i)) as (p&ps&Hp).
  apply wp_bind, wp_zoom. eapply wp_mono, (backing_law _ _ _ (p :: ps)); [|done].
  intros [storage|e] k HJ; [|done]. rewrite Hp. apply wp_bind, wp_bind, wp_ret, wp_ret, wp_ret.
  split; [done|]. split_and!; simpl; autorewrite with v4l2r; [done..|]. eexists _, _.
  split; [by apply (planes_set_planes _ (p :: ps))|done].
Qed.

Lemma wp_new_decoder_buffer queue size i (d : Dec) :
  wp true (new_buffer queue size i)
    (λ r _, match r with Ok b => fresh_buffer (λ _ _, True) queue size i b | Err _ => True end) d.
Proof.
  unfold new_buffer. apply wp_bind. unfold wp at 1.
  destruct (map_err _ _ d) as [[d1 [offset|e]]|]; [|done..].
  apply wp_bind, wp_try. eapply wp_mono, (wp_VideoDecoderBuffer_new (BL := any_backend)).
  intros [b|e] d2 [_ Hb]; [by apply wp_ret|]. apply wp_bind. unfold wp at 1.
  by destruct (dec_mm _ d2) as [[d3 [o|o]]|].
Qed.

(** The size of the buffers of a queue. *)
Definition sizeimage (s : Ses) (dir : QueueDirection) : option Z :=
  match bs_current_format (backend_session s) dir with
  | Ret format => head (mp_sizeimages format)
  | Panic => None
  end.

(** How a queue changes when it is resized to [count] buffers. *)
Definition resized (queue : QueueType) (count : Z) (size : option Z)
    (l l' : list (VideoDecoderBuffer B)) : Prop :=
  Z.of_nat (length l') = count ∧
  l' = take (Z.to_nat count) l ++ drop (length l) l' ∧
  ∀ i b, l' !! i = Some b → (length l ≤ i)%nat →
    ∃ n, size = Some n ∧ fresh_buffer (λ _ _, True) queue n (Z.of_nat i) b.

Lemma resized_shrink queue count size l :
  0 ≤ count < Z.of_nat (length l) → resized queue count size l (take (Z.to_nat count) l).
Proof.
  intros Hc. split; [rewrite length_take; lia|].
  rewrite (drop_ge (take _ l)), app_nil_r by (rewrite length_take; lia). split; [done|].
  intros i b Hi%lookup_lt_Some. rewrite length_take in Hi. lia.
Qed.

Lemma resized_grow queue count size l new :
  Z.of_nat (length l) ≤ count →
  Forall2 (fresh_buffer (λ _ _, True) queue size)
    (seqZ (Z.of_nat (length l)) (count - Z.of_nat (length l))) new →
  resized queue count (Some size) l (l ++ new).
Proof.
  intros Hc Hnew. pose proof (Forall2_length _ _ _ Hnew) as Hlen. rewrite length_seqZ in Hlen.
  split; [rewrite length_app; lia|]. split; [by rewrite take_ge, drop_app_length by lia|].
  intros i b Hb Hi. exists size. split; [done|]. rewrite lookup_app_r in Hb by done.
  pose proof (lookup_lt_Some _ _ _ Hb) as Hlt.
  destruct (Forall2_lookup_r _ _ _ _ _ Hnew Hb) as (z&Hz&Hf).
  apply lookup_seqZ in Hz as [-> _]. by replace (Z.of_nat i) with
    (Z.of_nat (length l) + Z.of_nat (i - length l)) by lia.
Qed.

Lemma queue_buffers_set queue (s : Ses) l l' :
  queue_buffers queue s = Some l → queue_buffers queue (set_queue_buffers queue l' s) = Some l'.
Proof. unfold queue_buffers, set_queue_buffers. by repeat case_bool_decide. Qed.

Lemma wp_dec_reqbufs queue memory count flags (d : Dec) (s : Ses) :
  0 ≤ count →
  wp true (reqbufs queue memory count flags)
    (λ r st, match r with
     | Ok _ => ∃ l l', queue_buffers queue s = Some l ∧ queue_buffers queue st.2 = Some l' ∧
         resized queue count (sizeimage s (direction queue)) l l' ∧
         pending_output_buffers st.2 = pending_output_buffers s ∧ d_state st.2 = d_state s
     | Err _ => st.2 = s
     end) (d, s).
Proof.
  intros Hc. unfold reqbufs. apply wp_bind, wp_guard; [intros _|done].
  apply wp_bind, wp_gets. cbn [snd]. apply wp_bind, wp_ok_or; [intros l Hl|done].
  apply wp_bind. eapply (wp_mono _ _ (λ r st, match r with
    | Ok _ => ∃ l', st.2 = set_queue_buffers queue l' s ∧
        resized queue count (sizeimage s (direction queue)) l l'
    | Err _ => st.2 = s end)).
  { intros [[]|e] [d' s']; [|done]. intros (l'&Hs'&Hr). simpl in Hs'. subst s'.
    apply wp_bind, wp_zoom, wp_modify, wp_ret.
    exists l, l'. split; [done|]. split; [|split; [done|]].
    - by apply (queue_buffers_set queue s l).
    - unfold set_queue_buffers. by case_bool_decide. }
  destruct (Z.ltb_spec count (Z.of_nat (length l))).
  - apply wp_bind, wp_zoom. unfold wp at 1.
    destruct (unregister_planes _ _) as [[d1 [[]|e]]|]; [|done..].
    apply wp_zoom, wp_modify. eexists. split; [done|]. by apply resized_shrink.
  - apply wp_bind. unfold wp at 1, lift_outcome, sizeimage.
    destruct (bs_current_format _ _) as [f|]; [|done].
    apply wp_bind, wp_ok_or; [intros size Hsize|done]. rewrite Hsize.
    apply wp_bind, wp_zoom.
    eapply wp_mono, (wp_mapM true (λ _, True) (λ i b, fresh_buffer (λ _ _, True) queue size i b)).
    + intros [new|e] d1 [_ Hnew]; [|done]. apply wp_zoom, wp_modify. eexists. split; [done|].
      by apply resized_grow.
    + done.
    + intros i d1 _ _. eapply wp_mono, wp_new_decoder_buffer. by intros [b|e] d2 Hb.
Qed.
End Reqbufs.

(** ** Properties *)

Section Properties.
Context `{BM : BuildMode} `{V : V4l2r} {VL : V4l2rLaws}.
Context {D Q HM K S B : Type}.
Context `{!VirtioMediaEventQueue Q} `{!VirtioMediaHostMemoryMapper HM}.
Context `{!VideoDecoderBufferBacking K B} `{!VideoDecoderBackendSession K S B}.
Context `{!VideoDecoderBackend D K S B}.
Abbreviation Ses := (VideoDecoderSession S B).
Abbreviation Dec := (VideoDecoder D Q HM K).
Abbreviation St := (Dec * Ses)%type.

(** A step of a session: an ioctl of the guest, or [process_events]. *)
Inductive session_step :=
| StepCall {a E T} (c : Call.ioctl_call a E T)
| StepEvents.

Definition run_step (step : session_step) (st : St) : outcome St :=
  match step with
  | StepCall c => '(st, _) ← call c st; Ret st
  | StepEvents => '(st, _) ← decoder_process_events st; Ret st
  end.

Fixpoint run_steps (steps : list session_step) (st : St) : outcome St :=
  match steps with
  | [] => Ret st
  | step :: steps => st ← run_step step st; run_steps steps st
  end.

Definition step_reallocates (step : session_step) : bool :=
  match step with StepCall c => is_reqbufs c | StepEvents => false end.

(** With a backend that keeps its laws, in a build without overflow checks,
    between two REQBUFS no sequence of ioctls and of events of the backend, in any
    order, panics the decoder, and the buffers waiting to be given to the backend
    always exist. *)
Theorem decoder_session_is_safe I J `{BL : !BackendLaws false false I J} steps (d : Dec) (s : Ses) :
  overflow_checks = false → Forall (λ step, step_reallocates step = false) steps →
  session_safe I J s →
  ∃ d' s', run_steps steps (d, s) = Ret (d', s') ∧ session_safe I J s'.
Proof.
  intros Hov Hall. revert d s. induction Hall as [|step steps Hstep _ IH]; intros d s Hp; simpl.
  { by exists d, s. }
  assert (∃ d1 s1, run_step step (d, s) = Ret (d1, s1) ∧ session_safe I J s1) as (d1&s1&->&Hp1).
  2: by apply IH.
  destruct step as [a E T c|]; simpl in *.
  - pose proof (dec_keeps_call (BL := BL) (λ st : St, session_safe I J st.2) c Hstep (d, s) Hp) as Hw.
    unfold call_panics in Hw. rewrite Hov, andb_false_r in Hw. unfold wp in Hw.
    destruct (call c (d, s)) as [[[d' s'] r]|]; [|done]. by exists d', s'.
  - pose proof (dec_keeps_process_events (BL := BL) (λ st : St, session_safe I J st.2) false
      ltac:(by rewrite Hov) ltac:(done) ltac:(done) (d, s) Hp) as Hw. unfold wp in Hw.
    destruct (decoder_process_events (d, s)) as [[[d' s'] r]|]; [|done]. by exists d', s'.
Qed.

Lemma capture_buffers (s : Ses) : queue_buffers VideoCaptureMplane s = Some (output_buffers s).
Proof.
  unfold queue_buffers. rewrite (bool_decide_eq_false_2 (VideoCaptureMplane = VideoOutputMplane)).
  - by rewrite bool_decide_eq_true_2.
  - intros Heq. pose proof direction_capture_mplane as Hd. by rewrite Heq, direction_output_mplane in Hd.
Qed.

(** STREAMON gives the first pending buffer to the backend, and panics without it. *)
Lemma streamon_missing_buffer i l (d : Dec) (s : Ses) :
  pending_output_buffers s = i :: l → (length (output_buffers s) ≤ Z.to_nat i)%nat →
  output_buffers s ≠ [] → d_state s ≠ Paused →
  streamon VideoCaptureMplane (d, s) = Panic.
Proof.
  intros Hp Hi Hne Hst. unfold streamon. unfold_M. cbn [fst snd]. rewrite capture_buffers.
  cbn [fst snd]. rewrite bool_decide_eq_false_2 by (by intros ?%nil_length_inv).
  rewrite direction_capture_mplane.
  unfold try_send_pending_output_buffers, on_ses, zoom. unfold_M. cbn.
  assert (is_output_streaming (output_streamon (d_state s)) = true) as ->.
  { by destruct (d_state s) as [[] []| |]. }
  rewrite Hp. cbn. unfold send_output_buffer. unfold_M. cbn.
  by rewrite (lookup_ge_None_2 (output_buffers s)).
Qed.


(** A successful REQBUFS leaves the queue with [count] buffers: the first ones
    are the buffers it had, each of the others describes its own index and an MMAP
    plane of the size of the current format; a failed one leaves the session as
    it was. *)
Theorem reqbufs_resizes_queue queue memory count flags (d d' : Dec) (s s' : Ses) r :
  0 ≤ count → reqbufs queue memory count flags (d, s) = Ret ((d', s'), r) →
  match r with
  | Ok _ => ∃ l l', queue_buffers queue s = Some l ∧ queue_buffers queue s' = Some l' ∧
      resized queue count (sizeimage s (direction queue)) l l' ∧
      pending_output_buffers s' = pending_output_buffers s ∧ d_state s' = d_state s
  | Err _ => s' = s
  end.
Proof.
  intros Hc Hrun. pose proof (wp_dec_reqbufs queue memory count flags d s Hc) as Hw.
  unfold wp in Hw. by rewrite Hrun in Hw.
Qed.

(** Once the stream has determined the crop rectangle, no ioctl changes it. *)
Theorem crop_from_stream_is_final rect ioctl (d d' : Dec) (s s' : Ses) r w r' w' res :
  crop_is rect s →
  virtio_media_dispatch_ioctl ioctl ((d, s), r, w) = Ret (((d', s'), r', w'), res) →
  crop_is rect s'.
Proof.
  intros Hs Hrun. pose proof (wp_dispatch (λ _, true) (λ _, crop_fixed rect) (crop_fixed rect) ioctl (d, s) r w Hs) as Hw.
  unfold wp, after_dispatch in Hw. rewrite Hrun in Hw. apply Hw.
Qed.

(** C4: [n] calls of [process_events] send to the guest exactly the messages that
    the backend's events promise, in their order: the frames numbered
    consecutively, with their timestamps and sizes, and a last frame taken as the
    end of the stream only when no format change is in progress. *)
Theorem decoder_events_refine n (d : Dec) (s : Ses) evs :
  session_wf s → 0 ≤ sequence_cpt s → sequence_cpt s + Z.of_nat n ≤ u32_max →
  backend_events n (d_os d, backend_session s) = Ret evs →
  ∃ d' s' es, process_times n (d, s) = Ret ((d', s'), Ok tt) ∧
    event_queue d' = send_all es (event_queue d) ∧
    Forall2 (shows (d_id s)) (promised_to s evs) es.
Proof.
  intros Hwf H0 Hmax Hevs.
  destruct (process_times_run n d s evs Hwf H0 Hmax Hevs) as (d'&s'&es&?&_&?&?).
  by exists d', s', es.
Qed.

(** A rectangle that S_SELECTION accepts starts at non-negative coordinates,
    and both its width and its height are bounded by the width of the format. *)
Theorem selection_is_clamped rect0 ty tgt rect flags (d d' : Dec) (s s' : Ses) r :
  crop_rectangle s = Settable rect0 →
  s_selection ty tgt rect flags (d, s) = Ret ((d', s'), Ok r) →
  ∃ f, bs_current_format (backend_session s) Capture = Ret f ∧ let size := mp_size f in
  0 ≤ left r ∧ 0 ≤ top r ∧ width r ≤ size.1 ∧ height r ≤ size.1 ∧ crop_rectangle s' = Settable r.
Proof.
  intros Hs. unfold s_selection. unfold_M. cbn [fst snd].
  destruct (negb _) eqn:Eg; [done|]. apply negb_false_iff, andb_true_iff in Eg as [Ety Etgt].
  cbn [fst snd]. rewrite Hs. destruct (bs_current_format _ _) as [f|]; [|done].
  destruct (u32_sub (width rect) _) as [w|]; [|done].
  destruct (u32_sub (height rect) _) as [h|]; [|done]. unfold on_ses, zoom. cbn [fst snd].
  unfold get_selection. rewrite Ety. simpl. unfold modify.
  apply bool_decide_eq_true in Etgt as ->.
  rewrite (bool_decide_eq_false_2 _ compose_not_bounds).
  rewrite bool_decide_eq_true_2 by (rewrite !elem_of_cons; tauto).
  intros [= _ <- <-]. exists f. simpl. split_and!; [done|lia..|done].
Qed.
End Properties.

(** ** Witnesses *)

Module DecoderWitness.
Import V4l2r.Sample.

#[local] Instance release_build : BuildMode := false.
#[local] Instance log_queue : VirtioMediaEventQueue (list (V4l2Event buf st)) := λ e q, q ++ [e].

(** Buffers are descriptors, and a session of the backend is the list of the
    events it has to report. *)
#[local] Instance sample_backing : VideoDecoderBufferBacking unit Z := {|
  backing_new _ i _ k := Ret (k, Ok i);
  fd_for_plane b _ := Some b;
|}.

Definition format0 : st := ((480, 640), (0, 480)).

#[local] Instance sample_backend_session : VideoDecoderBackendSession
    unit (list VideoDecoderBackendEvent) Z := {|
  bs_decode _ i _ _ st := Ret ((st.1, st.2 ++ [InputBufferDone i 0]), Ok tt);
  bs_use_as_output _ := mret tt;
  bs_drain := mret tt;
  bs_clear_output_buffers := mret tt;
  bs_next_event st := Ret ((st.1, tail st.2), head st.2);
  bs_current_format _ _ := Ret format0;
  bs_stream_params _ := mkStreamParams 1 (640, 480) (mkRect 0 0 640 480);
  bs_buffers_allocated _ _ s := s;
  bs_poll_fd _ := None;
  bs_streaming_state _ _ s := s;
|}.

#[local] Instance sample_backend : VideoDecoderBackend unit unit (list VideoDecoderBackendEvent) Z := {|
  be_new_session _ := mret [];
  be_close_session _ d := d;
  be_enum_formats _ _ _ _ := None;
  be_frame_sizes _ _ := None;
  be_adjust_format _ _ _ f := Ret f;
  be_apply_format _ _ _ s := s;
|}.

(** This backend keeps its laws in any state. *)
#[local] Instance sample_backend_laws : BackendLaws (D := unit) (K := unit) false false
  (λ _ : list VideoDecoderBackendEvent, True) (λ _ (_ : Z), True).
Proof. split; done. Qed.

Abbreviation Dec := (VideoDecoder unit (list (V4l2Event buf st)) unit unit).
Abbreviation Ses := (VideoDecoderSession (list VideoDecoderBackendEvent) Z).

Definition decoder0 : Dec := VideoDecoder_new tt [] tt tt.

Definition ioctl_bytes (session code : Z) (payload : list byte) : list byte :=
  c_enc c_CmdHeader (mkCmdHeader VIRTIO_MEDIA_CMD_IOCTL 0) ++
  c_enc c_IoctlCmd (mkIoctlCmd session code) ++ payload.

(** OPEN, REQBUFS of two CAPTURE buffers, QBUF of the second one, REQBUFS of one. *)
Definition shrinking_commands : list (Reader * Writer) :=
  (λ r, (r, mkWriter [] 128)) <$>
  [c_enc c_CmdHeader (mkCmdHeader VIRTIO_MEDIA_CMD_OPEN 0);
   ioctl_bytes 0 8 (c_enc c_st ((9, 2), (0, 1)));
   ioctl_bytes 0 15 (c_enc c_st ((9, 1), (1, 1)) ++ c_enc c_st ((0, 480), (0, 0)));
   ioctl_bytes 0 8 (c_enc c_st ((9, 1), (0, 1)))].

(** STREAMON of the CAPTURE queue. *)
Definition streamon_command : Reader * Writer :=
  (ioctl_bytes 0 18 (c_enc c_u32 9), mkWriter [] 128).

Definition panics {A} (o : outcome A) : bool := match o with Panic => true | Ret _ => false end.

(** A guest that opens a session, allocates two CAPTURE buffers, queues the
    second, shrinks the queue to one and starts streaming panics the host. *)
Example guest_panics_decoder :
  panics (run_commands shrinking_commands (runner_new decoder0 tt)) = false ∧
  panics (run_commands (shrinking_commands ++ [streamon_command]) (runner_new decoder0 tt)) = true.
Proof. vm_compute. split; reflexivity. Qed.

(** A session with one buffer in each queue and two events to come. *)
Definition buffer0 (queue : Z) : VideoDecoderBuffer Z :=
  mkDecBuffer (mkBuf queue 0 1 0 (mkTimeval 0 0) 2 [mkPlane 480 0 None 0]) 3.
Definition events0 : list VideoDecoderBackendEvent :=
  [StreamFormatChanged; FrameCompleted 0 (mkTimeval 1 0) [480] true].
Definition session0 (pending : list Z) (crop : CropRectangle) : Ses :=
  mkDecSession 0 default_state [buffer0 10] [buffer0 9] pending 5 true true crop
    default_colorspace events0 false.

Lemma session0_wf pending crop : session_wf (session0 pending crop).
Proof. split; intros [|i] b; try done; intros [= <-]; split_and!; try done; by eexists _, _. Qed.

(** Whether a computation returned a value, and that value. *)
Definition returns_ok {T E A} (o : outcome (T * result A E)) : bool :=
  match o with Ret (_, Ok _) => true | _ => false end.

Lemma returns_ok_run {T E A} (o : outcome (T * result A E)) :
  returns_ok o = true → ∃ t a, o = Ret (t, Ok a).
Proof. destruct o as [[t [a|e]]|]; [by exists t, a|done..]. Qed.

Lemma decoder_session_is_safe_witness :
  ∃ d' s', run_steps [StepCall (Call.streamon 9); StepEvents; StepCall (Call.streamoff 9)]
    (decoder0, session0 [0] (Settable (mkRect 0 0 0 0))) = Ret (d', s') ∧
    session_safe (λ _, True) (λ _ _, True) s'.
Proof.
  apply (decoder_session_is_safe (λ _, True) (λ _ _, True) (BL := sample_backend_laws));
    [reflexivity|repeat constructor|].
  split; [|split; [exact I|intros b _; by exists 0%nat]].
  constructor; [|constructor]. unfold in_range. simpl. lia.
Defined.

(** The state that the guest above has reached before it shrinks the queue. *)
Definition before_shrinking : option (Dec * Ses) :=
  match run_commands (take 3 shrinking_commands) (runner_new decoder0 tt) with
  | Ret rn => pair (device rn) <$> sessions rn !! 0
  | Panic => None
  end.

Example before_shrinking_state :
  (λ ds, (pending_output_buffers ds.2, length (output_buffers ds.2), d_state ds.2,
     returns_ok (reqbufs VideoCaptureMplane Mmap 1 0 ds))) <$> before_shrinking =
  Some ([1], 2%nat, default_state, true).
Proof. vm_compute. reflexivity. Qed.


(** REQBUFS of three CAPTURE buffers. *)
Definition reqbufs0 : outcome ((Dec * Ses) * result st Z) :=
  reqbufs VideoCaptureMplane Mmap 3 0 (decoder0, session0 [] (Settable (mkRect 0 0 0 0))).

Lemma reqbufs_resizes_queue_witness :
  ∃ d' s' rep l', reqbufs0 = Ret ((d', s'), Ok rep) ∧
    queue_buffers VideoCaptureMplane s' = Some l' ∧ length l' = 3%nat.
Proof.
  destruct (returns_ok_run reqbufs0) as ([d' s']&rep&Hrun); [vm_compute; reflexivity|].
  destruct (reqbufs_resizes_queue (V := sample_v4l2r) VideoCaptureMplane Mmap 3 0 decoder0 d'
    (session0 [] (Settable (mkRect 0 0 0 0))) s' (Ok rep) ltac:(lia) Hrun)
    as (l&l'&_&Hl'&[Hlen _]&_&_).
  exists d', s', rep, l'. split; [exact Hrun|]. split; [exact Hl'|lia].
Defined.

(** S_FMT of the CAPTURE queue, once the stream has set the crop rectangle. *)
Definition s_fmt0 : outcome ((Dec * Ses) * Reader * Writer * result unit IoError) :=
  virtio_media_dispatch_ioctl VIDIOC_S_FMT
    ((decoder0, session0 [] (FromStream (mkRect 0 0 64 64))), c_enc c_st ((9, 320), (0, 240)),
     mkWriter [] 64).

Lemma crop_from_stream_is_final_witness :
  ∃ d' s' r' w', s_fmt0 = Ret (((d', s'), r', w'), Ok tt) ∧
    crop_rectangle s' = FromStream (mkRect 0 0 64 64).
Proof.
  destruct (returns_ok_run s_fmt0) as ([[[d' s'] r'] w']&[]&Hrun); [vm_compute; reflexivity|].
  exists d', s', r', w'. split; [exact Hrun|].
  exact (crop_from_stream_is_final (V := sample_v4l2r) (mkRect 0 0 64 64) VIDIOC_S_FMT decoder0 d'
    (session0 [] (FromStream (mkRect 0 0 64 64))) s' (c_enc c_st ((9, 320), (0, 240)))
    (mkWriter [] 64) r' w' (Ok tt) eq_refl Hrun).
Defined.

Lemma decoder_events_refine_witness :
  ∃ d' s' e v, process_times 2 (decoder0, session0 [] (Settable (mkRect 0 0 0 0))) = Ret ((d', s'), Ok tt) ∧
    event_queue d' = [e; EvDequeueBuffer (DequeueBufferEvent_new 0 v)] ∧ buf_sequence v = 5.
Proof.
  destruct (decoder_events_refine 2 decoder0 (session0 [] (Settable (mkRect 0 0 0 0))) events0)
    as (d'&s'&es&Hrun&Hq&Hes); [apply session0_wf|simpl; lia|vm_compute; congruence|reflexivity|].
  apply Forall2_cons_inv_l in Hes as (e1&es1&_&Hes&->).
  apply Forall2_cons_inv_l in Hes as (e2&es2&(v&->&_&_&Hseq&_)&Hes&->).
  apply Forall2_nil_inv_l in Hes as ->. exists d', s', e1, v.
  split; [exact Hrun|]. split; [exact Hq|exact Hseq].
Defined.

(** S_SELECTION of a rectangle of 100x1000 in a format of 640x480. *)
Definition s_selection0 : outcome ((Dec * Ses) * result v4l2_rect Z) :=
  s_selection SelCapture TgtCompose (mkRect 0 0 100 1000) 0
    (decoder0, session0 [] (Settable (mkRect 0 0 0 0))).

Lemma selection_is_clamped_witness :
  ∃ d' s' r, s_selection0 = Ret ((d', s'), Ok r) ∧ width r ≤ 640 ∧ height r ≤ 640.
Proof.
  destruct (returns_ok_run s_selection0) as ([d' s']&r&Hrun); [vm_compute; reflexivity|].
  exists d', s', r. split; [exact Hrun|].
  destruct (selection_is_clamped (V := sample_v4l2r) (mkRect 0 0 0 0) SelCapture TgtCompose (mkRect 0 0 100 1000) 0
    decoder0 d' (session0 [] (Settable (mkRect 0 0 0 0))) s' r eq_refl Hrun) as (f&[= <-]&_&_&Hw&Hh&_).
  split; [exact Hw|exact Hh].
Defined.
End DecoderWitness.
