(* ===== verification/DecoderContract.v ===== *)
(** * The decoder under a runner

    What [VideoDecoder] ([VideoDecoder.v]) promises to the runner ([Runner.v]): after
    any sequence of commands the buffers of every session describe themselves
    correctly and can be mapped, and the MMAP manager is well formed.  A REQBUFS that
    leaves removed buffers waiting for the backend makes a later ioctl panic, as
    [stale_pending_buffer_panics] shows; a guest that avoids it panics nothing. *)

From Stdlib Require Import Strings.Byte.
From S2P Require Import Prelude RustStd Traits Mmap Bytes Protocol Io V4l2r Ioctl Runner Vmm MemFd VideoDecoder DecoderFrame DecoderBehaviour.
#[local] Open Scope Z_scope.

(** ** The invariant *)

(** The storage of a buffer of [n] planes has a descriptor for each of them. *)
Class MappableStorage `{V : V4l2r} {K B : Type} `{!VideoDecoderBufferBacking K B}
    (J : nat → B → Prop) : Prop :=
  storage_fds : ∀ n b j, J n b → (j < n)%nat → is_Some (fd_for_plane b j).

Section Contract.
Context `{BM : BuildMode} `{V : V4l2r} {VL : V4l2rLaws}.
Context {D Q HM K S B : Type}.
Context `{!VirtioMediaEventQueue Q} `{!VirtioMediaHostMemoryMapper HM}.
Context `{!VideoDecoderBufferBacking K B} `{!VideoDecoderBackendSession K S B}.
Context `{!VideoDecoderBackend D K S B}.
Abbreviation Ses := (VideoDecoderSession S B).
Abbreviation Dec := (VideoDecoder D Q HM K).
Abbreviation St := (Dec * Ses)%type.
Abbreviation Buf := (VideoDecoderBuffer B).
Context {pd : bool} {I : S → Prop} {J : nat → B → Prop} `{BL : !BackendLaws false pd I J}.
Context `{MS : !MappableStorage J} {strict : bool}.

(** Buffer [i] of a queue describes its queue, its index, and MMAP planes for which
    its storage is fit. *)
Definition stored (q : QueueType) (i : nat) (b : Buf) : Prop :=
  buf_queue (v4l2 b) = q ∧ buf_index (v4l2 b) = Z.of_nat i ∧
  ∃ p ps, buf_planes (v4l2 b) = BMmap (p :: ps) ∧ J (Datatypes.S (length ps)) (backing b).
Definition all_stored (q : QueueType) (l : list Buf) : Prop :=
  ∀ i b, l !! i = Some b → stored q i b.

(** If [strict], the buffers that wait for the backend exist. *)
Definition ses_ok (id : Z) (s : Ses) : Prop :=
  d_id s = id ∧ I (backend_session s) ∧
  all_stored VideoOutputMplane (input_buffers s) ∧ all_stored VideoCaptureMplane (output_buffers s) ∧
  (strict = true → pending_ok s).

Definition dec_inv (n : Z) (d : Dec) (m : gmap Z Ses) : Prop :=
  manager_ok n (host_mapper d) ∧ ∀ id s, m !! id = Some s → ses_ok id s.

(** The same, seen from a call on session [id]. *)
Definition dec_ok (n id : Z) (st : St) : Prop :=
  manager_ok n (host_mapper st.1) ∧ ses_ok id st.2.

Lemma stored_evolves q i (b b' : Buf) : stored q i b → evolves J b b' → stored q i b'.
Proof.
  intros (Hq&Hi&p&ps&Hp&HJ) [(Hq'&Hi'&Hp') HJ']. destruct (Hp' p ps Hp) as (p'&Hv&_).
  split_and!; [congruence..|]. exists p', ps. auto.
Qed.

Lemma all_stored_evolves q (l l' : list Buf) :
  all_stored q l → Forall2 (evolves J) l l' → all_stored q l'.
Proof.
  intros Hl Hev i b Hi. destruct (Forall2_lookup_r _ _ _ _ _ Hev Hi) as (b0&Hb0&Hb).
  eapply stored_evolves, Hb. by apply Hl.
Qed.

Lemma all_stored_take q l k : all_stored q l → all_stored q (take k l).
Proof. intros Hl i b [Hi _]%lookup_take_Some. by apply Hl. Qed.

#[export] Instance dec_ok_frame n id : SessionFrame I J strict (dec_ok n id).
Proof.
  split.
  - by intros st (_&_&HI&_).
  - intros st b (_&_&_&Hi&Ho&_) [[i Hb]%list_elem_of_lookup|[i Hb]%list_elem_of_lookup]%elem_of_app.
    + destruct (Hi i b Hb) as (_&_&p&ps&_&HJ). eauto.
    + destruct (Ho i b Hb) as (_&_&p&ps&_&HJ). eauto.
  - by intros st (_&_&_&_&_&Hp) Hs; apply Hp.
  - intros [d s] [d' s'] (Hmm&Hid&HI&Hi&Ho&Hp) (Hmm'&Hid'&Hi'&Ho'&Hp'&Hb&_). cbn in *.
    unfold dec_ok, ses_ok, pending_ok, in_range. cbn. rewrite Hmm', Hid', Hi', Ho', Hp', Hb. by split_and!.
  - intros [d s] k bs (Hmm&Hid&HI&Hi&Ho&Hp) HI'. by split_and!.
  - intros [d s] l (Hmm&Hid&HI&Hi&Ho&Hp) Hl. split; [done|].
    split_and!; [done..| |done|done]. by eapply all_stored_evolves.
  - intros [d s] l (Hmm&Hid&HI&Hi&Ho&Hp) Hl. split; [done|].
    split_and!; [done..|by eapply all_stored_evolves|]. intros Hs. by eapply pending_ok_evolves, Hp.
  - intros [d s] (Hmm&Hid&HI&Hi&Ho&Hp). split; [done|]. split_and!; [done..|]. by constructor.
  - intros [d s] i (Hmm&Hid&HI&Hi&Ho&Hp) Hi'. split; [done|]. split_and!; [done..|].
    intros Hs. apply Forall_app. split; [by apply Hp|]. by constructor.
Qed.

Lemma queue_stored id queue (s : Ses) l :
  ses_ok id s → queue_buffers queue s = Some l → all_stored queue l.
Proof.
  intros (_&_&Hi&Ho&_). unfold queue_buffers. repeat case_bool_decide; intros [= <-]; by subst.
Qed.

Lemma ses_ok_put id queue (s : Ses) l l' :
  ses_ok id s → (strict = true → pending_output_buffers s = []) →
  queue_buffers queue s = Some l → all_stored queue l' →
  ses_ok id (set_queue_buffers queue l' s).
Proof.
  intros (Hid&HI&Hi&Ho&_) Hp. unfold queue_buffers, set_queue_buffers, ses_ok, pending_ok.
  repeat case_bool_decide; simplify_eq; intros; split_and!; try done;
    intros Hs; cbn; rewrite Hp by done; constructor.
Qed.

Section Methods.
Context (n id : Z).
Abbreviation Keeps := (λ _ st, dec_ok n id st) (only parsing).

(** *** Allocation *)

Lemma wp_dec_unregister {E} (l : list Buf) (d : Dec) :
  manager_ok n (host_mapper d) →
  wp (E := E) false (unregister_planes l)
    (λ r d', is_ok r ∧ manager_ok n (host_mapper d')) d.
Proof.
  unfold unregister_planes. generalize (l ≫= plane_offsets). clear l. intros l. revert d.
  induction l as [|o l IH]; intros d Hmm; simpl; [done|].
  apply wp_bind, wp_bind, wp_zoom. eapply wp_mono, wp_unregister; [|done].
  intros [b|e] mm [Hmm' Hr]; [|done]. apply wp_ret. by apply IH.
Qed.

Lemma wp_allocates queue size i (d : Dec) :
  is_u32 size → manager_ok n (host_mapper d) →
  wp overflow_checks (new_buffer queue size i)
    (λ r d', manager_ok n (host_mapper d') ∧
       match r with Ok b => fresh_buffer J queue size i b | Err _ => True end) d.
Proof.
  intros Hs Hmm. unfold new_buffer. apply wp_bind, wp_map_err, wp_zoom.
  eapply wp_mono, wp_register; [|done|done].
  intros [o|e] mm [Hmm' _]; [|done].
  apply wp_bind, wp_try. eapply wp_panic_mono, wp_mono, (wp_VideoDecoderBuffer_new (BL := BL)); [done|].
  intros [b|e] d2 [Hd2 Hb]; [apply wp_ret; by rewrite Hd2|].
  apply wp_bind, wp_zoom. rewrite Hd2.
  eapply wp_panic_mono, wp_mono, wp_unregister; [done| |done]. by intros [x|e'] mm' [Hmm2 Hr].
Qed.

Lemma all_stored_app queue size l new count :
  is_u32 count → all_stored queue l → Z.of_nat (length l) ≤ count →
  Forall2 (fresh_buffer J queue size) (seqZ (Z.of_nat (length l)) (count - Z.of_nat (length l))) new →
  all_stored queue (l ++ new).
Proof.
  intros Hc Hl Hlen Hnew i b [Hi|[Hge Hi]]%lookup_app_Some; [by apply Hl|].
  destruct (Forall2_lookup_r _ _ _ _ _ Hnew Hi) as (z&Hz&Hq&Hidx&p&ps&Hp&_&HJ).
  apply lookup_seqZ in Hz as [-> Hz]. split_and!; [done| |by eauto].
  rewrite Hidx, as_u32_id by mlia. lia.
Qed.

Lemma dec_reqbufs queue memory count flags st :
  is_u32 count → dec_ok n id st → (strict = true → pending_output_buffers st.2 = []) →
  wp overflow_checks (reqbufs queue memory count flags) Keeps st.
Proof.
  destruct st as [d s]. intros Hc Hok Hpend. unfold reqbufs. apply wp_bind, wp_guard; [intros _|done].
  apply wp_bind, wp_get_st. cbn [snd]. apply wp_bind, wp_ok_or; [intros l Hl|done].
  pose proof (queue_stored _ _ _ _ (proj2 Hok) Hl) as Hml. destruct Hok as [Hmm Hs].
  apply wp_bind. apply (wp_mono _ _ Keeps).
  { intros [[]|e] [d' s'] Hok'; [|done]. apply wp_bind.
    eapply wp_mono, (keeps_hook (dec_ok n id)), Hok'; [|intros; by apply allocated_law].
    by intros [[]|e] st' Hst'. }
  destruct (Z.ltb_spec count (Z.of_nat (length l))).
  - apply wp_bind, wp_zoom. eapply wp_panic_mono, wp_mono, wp_dec_unregister; [done| |done].
    intros [[]|e] d' [Hr Hmm']; [|done]. apply wp_zoom, wp_modify. split; [done|].
    eapply ses_ok_put; [done..|]. by apply all_stored_take.
  - pose proof (format_law (backend_session s) (direction queue) (proj1 (proj2 Hs))) as Hf.
    apply wp_bind. unfold wp at 1, lift_outcome. destruct (bs_current_format _ _) as [f|]; [|done].
    apply wp_bind, wp_ok_or; [intros size Hsize|done]. apply wp_bind, wp_zoom.
    assert (is_u32 size) as Hu.
    { pose proof (sizeimages_u32 f) as Hu.
      destruct (mp_sizeimages _); [done|]. simplify_eq/=. by apply Forall_cons in Hu as [??]. }
    eapply wp_mono, (wp_mapM overflow_checks (λ d, manager_ok n (host_mapper d))
      (fresh_buffer J queue size)); [|done|intros i d' _ Hd'; by apply wp_allocates].
    intros [new|e] d' [Hmm' Hnew]; [|done]. apply wp_zoom, wp_modify. split; [done|].
    eapply ses_ok_put; [done..|]. by apply (all_stored_app queue size l new count).
Qed.
End Methods.

(** *** The contract *)

(** The sessions on which an ioctl keeps the buffers that wait for the backend: any
    but REQBUFS does, and REQBUFS when there are none. *)
Definition spares_pending (ioctl : V4l2Ioctl) (s : Ses) : bool :=
  match ioctl with
  | VIDIOC_REQBUFS => bool_decide (pending_output_buffers s = [])
  | _ => true
  end.
Definition dec_guard (ioctl : V4l2Ioctl) (s : Ses) : bool := negb strict || spares_pending ioctl s.

(** The ioctls on which the decoder may panic. *)
Definition method_panics : V4l2Ioctl → bool := call_panics (pa := false) (pd := pd) (strict := strict).
Definition decoder_panics (ioctl : V4l2Ioctl) : bool :=
  method_panics ioctl || validation_panics ioctl.

#[export] Instance decoder_handler_spec n id :
  HandlerSpec (H := Dec) method_panics
    (λ ioctl st, dec_ok n id st ∧ dec_guard ioctl st.2 = true) (dec_ok n id).
Proof.
  split; [by intros ioctl st [Hok _]|]. intros a E T c st Hc [Hok Hg]. destruct (is_reqbufs c) eqn:Ec.
  - destruct c; try done. unfold method_panics, call_panics. cbn [Call.call_ioctl sends_pending andb].
    rewrite !orb_false_r. apply dec_reqbufs; [apply Hc|done|]. unfold dec_guard in Hg. intros ->.
    by apply bool_decide_eq_true in Hg.
  - by apply (dec_keeps_call (BL := BL) (dec_ok n id)).
Qed.

(** The planes that [do_mmap] finds can be mapped. *)
Lemma mmap_plane_fd id (s : Ses) b j p :
  ses_ok id s → (b, (j, p)) ∈ mmap_planes s → is_Some (fd_for_plane (backing b) j).
Proof.
  intros (_&_&Hi&Ho&_). unfold mmap_planes. rewrite list_elem_of_bind. intros (b0&Hin&Hb0).
  assert (∃ q i, stored q i b0) as (q&i&_&_&p0&ps&Hp&HJ).
  { apply elem_of_app in Hb0 as [[i Hb]%list_elem_of_lookup|[i Hb]%list_elem_of_lookup]; eauto. }
  rewrite Hp in Hin. apply list_elem_of_fmap in Hin as (x&[= <- <-]&Hx).
  apply elem_of_lookup_imap in Hx as (k&y&[= <- <-]&Hk). eapply storage_fds; [done|].
  by eapply lookup_lt_Some in Hk.
Qed.

Lemma decoder_mmap_keeps n id flags offset (d : Dec) (s : Ses) :
  0 ≤ n < u64_max → dec_ok n id (d, s) →
  wp false (decoder_do_mmap flags offset)
    (λ _ st, manager_ok (n + 1) (host_mapper st.1) ∧ st.2 = s) (d, s).
Proof.
  intros Hn [Hmm Hs]. unfold decoder_do_mmap. apply wp_bind, wp_gets, wp_bind, wp_ok_or.
  2: { intros _. split; [|done]. eapply manager_ok_mono; [|done]. lia. }
  intros [k [b [j p]]] Hf. apply list_find_Some in Hf as (Hk&_&_).
  apply list_elem_of_lookup_2 in Hk. cbn [snd] in Hk.
  destruct (mmap_plane_fd id s b j p Hs Hk) as [fd ->].
  apply wp_bind, wp_ret, wp_map_err, wp_zoom, wp_zoom.
  eapply wp_mono, wp_create; [|done|done]. by intros r mm Hmm'.
Qed.

#[export] Instance decoder_contract : GuardedContract (D := Dec) decoder_panics dec_guard (λ _, true) dec_inv.
Proof.
  split.
  - intros n d m [Hmm Hm]. split; [|done]. eapply manager_ok_mono; [|done]. lia.
  - intros n d m id [Hmm Hm] _ Hnone. simpl. unfold decoder_new_session.
    apply wp_bind, wp_zoom. eapply wp_mono, (new_law (BackendLaws := BL)).
    intros [bs|e] [k b] HI; [|by split]. split; [done|].
    intros j s [[<- <-]|[_ Hj]]%lookup_insert_Some; [|by apply Hm].
    split_and!; [done..|]. by constructor.
  - intros n d m id s [Hmm Hm] Hs. simpl. unfold decoder_close_session.
    pose proof (wp_dec_unregister (E := Empty_set) n (input_buffers s ++ output_buffers s) d Hmm) as Hw.
    unfold wp in Hw. unfold mbind, outcome_bind.
    destruct (unregister_planes _ d) as [[d' r]|]; [|done]. eexists. split; [done|].
    split; [apply Hw|]. intros j s' [_ Hj]%lookup_delete_Some. by apply Hm.
  - intros n d m id s ioctl r w [Hmm Hm] _ Hs Hg. unfold decoder_panics.
    eapply wp_mono, (wp_dispatch method_panics _ (dec_ok n id)); [|split; [split; [done|by apply Hm]|done]].
    intros res [[[d' s'] r'] w'] [[Hmm' Hs'] _].
    split; [eapply manager_ok_mono; [|done]; lia|].
    intros j s0 [[<- <-]|[_ Hj]]%lookup_insert_Some; [done|by apply Hm].
  - intros n d m id s flags offset [Hmm Hm] Hn Hs _. simpl.
    eapply wp_mono, (decoder_mmap_keeps n id); [|done|split; [done|by apply Hm]].
    intros r [d' s'] [Hmm' ->]. split; [done|]. intros j s0. rewrite insert_id by done. apply Hm.
  - intros n d m addr [Hmm Hm]. simpl. unfold decoder_do_munmap.
    apply wp_bind, wp_map_err, wp_zoom. eapply wp_mono, wp_remove; [|done].
    by intros [x|e] mm Hmm'; split.
Qed.

#[export] Instance decoder_events : EventContract (D := Dec) overflow_checks dec_inv.
Proof.
  intros n d m id s [Hmm Hm] _ Hs. simpl.
  eapply wp_mono, (dec_keeps_process_events (BL := BL) (dec_ok n id) overflow_checks);
    [|done|done|done|by split; [|apply Hm]].
  intros res [d' s'] [Hmm' Hs']. split; [eapply manager_ok_mono; [|done]; lia|].
  intros j s0 [[<- <-]|[_ Hj]]%lookup_insert_Some; [done|by apply Hm].
Qed.
End Contract.

(** Where pending buffers may be missing, every ioctl is expected on every session. *)
#[export] Instance decoder_device_contract `{BM : BuildMode} `{V : V4l2r} {VL : V4l2rLaws}
    {D Q HM K S B : Type} `{!VirtioMediaEventQueue Q} `{!VirtioMediaHostMemoryMapper HM}
    `{!VideoDecoderBufferBacking K B} `{!VideoDecoderBackendSession K S B}
    `{!VideoDecoderBackend D K S B} {pd : bool} {I : S → Prop} {J : nat → B → Prop}
    `{BL : !BackendLaws false pd I J} `{MS : !MappableStorage J} :
  DeviceContract (D := VideoDecoder D Q HM K) (decoder_panics (pd := pd) (strict := false))
    (dec_inv (I := I) (J := J) (strict := false)).
Proof. exact (decoder_contract (strict := false)). Qed.

(** ** Properties *)

Section Properties.
Context `{BM : BuildMode} `{V : V4l2r} {VL : V4l2rLaws}.
Context {D Q HM K S B P : Type}.
Context `{!VirtioMediaEventQueue Q} `{!VirtioMediaHostMemoryMapper HM}.
Context `{!VideoDecoderBufferBacking K B} `{!VideoDecoderBackendSession K S B}.
Context `{!VideoDecoderBackend D K S B}.
Context {pd : bool} {I : S → Prop} {J : nat → B → Prop} `{BL : !BackendLaws false pd I J}.
Context `{MS : !MappableStorage J} `{!SessionPoller P}.
Abbreviation Ses := (VideoDecoderSession S B).
Abbreviation Dec := (VideoDecoder D Q HM K).
Abbreviation Runner := (VirtioMediaDeviceRunner Dec Ses P).
Context `{!PollerContract (P := P) (D := Dec) Ses}.

Lemma dec_inv_new (strict : bool) (b : D) (q : Q) (hm : HM) (k : K) :
  dec_inv (I := I) (J := J) (strict := strict) 0 (VideoDecoder_new b q hm k) (∅ : gmap Z Ses).
Proof.
  split; [apply manager_ok_from|]. intros id s Hs. by apply lookup_empty_Some in Hs.
Qed.

(** Buffer [i] describes its queue, its index, and MMAP planes that can all be
    mapped. *)
Definition mappable (q : QueueType) (i : nat) (b : VideoDecoderBuffer B) : Prop :=
  buf_queue (v4l2 b) = q ∧ buf_index (v4l2 b) = Z.of_nat i ∧
  ∃ p ps, buf_planes (v4l2 b) = BMmap (p :: ps) ∧
    ∀ j, (j < Datatypes.S (length ps))%nat → is_Some (fd_for_plane (backing b) j).
Definition mappables (q : QueueType) (l : list (VideoDecoderBuffer B)) : Prop :=
  ∀ i b, l !! i = Some b → mappable q i b.

Lemma stored_mappables q l : all_stored (J := J) q l → mappables q l.
Proof.
  intros Hl i b Hb. destruct (Hl i b Hb) as (Hq&Hi&p&ps&Hp&HJ). split_and!; [done..|].
  exists p, ps. split; [done|]. intros j Hj. by eapply storage_fds.
Qed.

(** C6: in a build without overflow checks, over a backend that never panics, no
    guest panics the decoder that keeps away from [SUBSCRIBE_EVENT] and that calls
    [REQBUFS] only on sessions of which no CAPTURE buffer waits for the backend,
    whatever other commands it sends and whatever events the backend has; and the
    buffers that wait for the backend always exist. *)
Theorem polite_guest_never_panics {BN : BackendLaws false false I J}
    (b : D) (q : Q) (hm : HM) (k : K) (p : P) steps :
  overflow_checks = false → Z.of_nat (length steps) ≤ u32_max →
  Forall (λ step, match step with
    | Command r _ => requested_ioctl r ≠ Some VIDIOC_SUBSCRIBE_EVENT
    | Ready _ => True
    end) steps →
  polite spares_pending steps (runner_new (VideoDecoder_new b q hm k : Dec) p) = true →
  ∃ rn : Runner, run_vmm steps (runner_new (VideoDecoder_new b q hm k) p) = Ret rn ∧
    ∀ id s, sessions rn !! id = Some s → pending_ok s.
Proof.
  intros Hov Hlen Hall Hg.
  destruct (run_vmm_serves (decoder_panics (pd := false) (strict := true)) overflow_checks
    (dec_inv (I := I) (J := J) (strict := true)) _ p steps (dec_inv_new true b q hm k) Hlen Hg)
    as (rn&n&Hrun&[[_ Hm] _]).
  - eapply Forall_impl; [done|]. intros [r w|id] Hr; simpl; [|done].
    unfold may_panic, decoder_panics, method_panics, call_panics. rewrite Hov.
    destruct (requested_ioctl r) as [[]|]; done.
  - exists rn. split; [done|]. intros id s Hs. by apply (Hm id s Hs).
Qed.
End Properties.

(** ** Witnesses *)

Module ContractWitness.
Import V4l2r.Sample DecoderWitness.

#[local] Existing Instances release_build log_queue sample_backing sample_backend_session
  sample_backend sample_backend_laws.

#[local] Instance sample_storage : MappableStorage (K := unit) (λ _ (_ : Z), True).
Proof. intros n b j _ _. by eexists. Qed.

#[local] Instance sample_poller : PollerContract (P := unit) (D := Dec) Ses.
Proof. by split. Qed.

(** OPEN, REQBUFS of two, QBUF, and REQBUFS of one, then an event of the session. *)
Definition shrinking_steps : list vmm_step :=
  ((λ c, Command c.1 c.2) <$> shrinking_commands) ++ [Ready 0].

(** The same guest when it stops the CAPTURE queue before it shrinks it, and then
    starts it. *)
Definition polite_steps : list vmm_step :=
  ((λ c, Command c.1 c.2) <$> take 3 shrinking_commands ++
   [(ioctl_bytes 0 19 (c_enc c_u32 9), mkWriter [] 128)] ++ drop 3 shrinking_commands ++
   [streamon_command]) ++ [Ready 0].

(** The guest that panics the decoder is not polite, and this one is. *)
Example polite_runs :
  (polite spares_pending (shrinking_steps ++ [Command streamon_command.1 streamon_command.2])
     (runner_new decoder0 tt),
   polite spares_pending polite_steps (runner_new decoder0 tt)) = (false, true).
Proof. vm_compute. reflexivity. Qed.

Lemma polite_guest_never_panics_witness :
  ∃ rn, run_vmm polite_steps (runner_new decoder0 tt) = Ret rn ∧
    ∀ id s, sessions rn !! id = Some s → pending_ok s.
Proof.
  apply (polite_guest_never_panics (V := sample_v4l2r) (BN := sample_backend_laws)
    (MS := sample_storage) tt [] tt tt tt);
    [reflexivity|vm_compute; congruence| |exact (f_equal snd polite_runs)].
  repeat (apply Forall_cons; split; [first [exact Logic.I|vm_compute; congruence]|]).
  apply Forall_nil. exact Logic.I.
Defined.
End ContractWitness.
