(* ===== verification/DecoderOffsets.v ===== *)
(** * The MMAP offsets of the decoder's buffers

    The buffers of every session of the decoder ([VideoDecoder.v]) have offsets of
    their own, which no other buffer of any session has and at which the MMAP manager
    has a registered buffer: what QUERYBUF shows to the guest can be mapped.  This is
    an invariant next to that of [DecoderContract.v]: REQBUFS registers an offset for
    each buffer it adds and frees those of the buffers it removes, closing a session
    frees its offsets, and nothing else touches them. *)

From Stdlib Require Import Strings.Byte.
From S2P Require Import Prelude RustStd Traits Mmap Bytes Protocol Io V4l2r Ioctl Runner Vmm MemFd VideoDecoder DecoderFrame DecoderBehaviour DecoderContract.
#[local] Open Scope Z_scope.

(** ** Offsets owned in a manager *)

Section Owned.
Context {HM : Type} `{!VirtioMediaHostMemoryMapper HM}.
Implicit Types mm : MmapMappingManager HM.

(** The offsets [l] are distinct, differ from those of [others], and all of them are
    registered. *)
Definition owned (others : Z → Prop) mm (l : list Z) : Prop :=
  NoDup l ∧ (∀ o, o ∈ l → ¬ others o) ∧ (∀ o, o ∈ l ∨ others o → registered mm o = true).

#[export] Instance owned_perm others mm : Proper ((≡ₚ) ==> iff) (owned others mm).
Proof. intros l l' Hl. unfold owned. by setoid_rewrite Hl. Qed.

Lemma owned_registered others mm mm' l :
  (∀ o, registered mm' o = registered mm o) → owned others mm l → owned others mm' l.
Proof. intros Hr (Hn&Hd&Hreg). split_and!; [done..|]. intros o Ho. rewrite Hr. by apply Hreg. Qed.

(** The offsets [gone] are freed. *)
Lemma owned_free others mm mm' keep gone :
  (∀ o, registered mm' o = if decide (o ∈ gone) then false else registered mm o) →
  owned others mm (keep ++ gone) → owned others mm' keep.
Proof.
  intros Hr (Hn&Hd&Hreg). apply NoDup_app in Hn as (Hk&Hkg&_). split_and!; [done|set_solver|].
  intros o Ho. rewrite Hr, decide_False; [apply Hreg; rewrite elem_of_app; tauto|].
  intros Hg. destruct Ho as [Ho|Ho]; [by apply (Hkg o)|]. apply (Hd o); [|done]. apply elem_of_app. by right.
Qed.

(** Fresh offsets are added. *)
Lemma owned_add others mm mm' l new :
  (∀ o, o ∈ l ∨ others o → registered mm' o = true) → NoDup new →
  (∀ o, o ∈ new → ¬ (o ∈ l ∨ others o) ∧ registered mm' o = true) →
  owned others mm l → owned others mm' (l ++ new).
Proof.
  intros Hr Hn Hnew (Hl&Hd&_). split_and!.
  - apply NoDup_app. split_and!; [done| |done]. intros o Ho Ho'. destruct (Hnew o Ho') as [[]]. by left.
  - intros o [Ho|Ho]%elem_of_app; [by apply Hd|]. intros Ho'. destruct (Hnew o Ho) as [[]]. by right.
  - intros o [[Ho|Ho]%elem_of_app|Ho]; [by apply Hr; left|by apply Hnew|by apply Hr; right].
Qed.
End Owned.

(** ** The operations of the decoder *)

Section Offsets.
Context `{BM : BuildMode} `{V : V4l2r} {VL : V4l2rLaws} {OP : OnePlane}.
Context {D Q HM K S B : Type}.
Context `{!VirtioMediaEventQueue Q} `{!VirtioMediaHostMemoryMapper HM}.
Context `{!VideoDecoderBufferBacking K B} `{!VideoDecoderBackendSession K S B}.
Context `{!VideoDecoderBackend D K S B}.
Abbreviation Ses := (VideoDecoderSession S B).
Abbreviation Dec := (VideoDecoder D Q HM K).
Abbreviation St := (Dec * Ses)%type.
Abbreviation Buf := (VideoDecoderBuffer B).
Context {pd : bool} {I : S → Prop} {J : nat → B → Prop} `{BL : !BackendLaws false pd I J}.
Context `{MS : !MappableStorage J} {strict : bool}.

(** The offsets of the buffers of a session. *)
Definition session_offsets (s : Ses) : list Z :=
  (input_buffers s ++ output_buffers s) ≫= plane_offsets.

(** The offsets of the sessions other than [id]. *)
Definition others (m : gmap Z Ses) (id o : Z) : Prop :=
  ∃ id' s, id' ≠ id ∧ m !! id' = Some s ∧ o ∈ session_offsets s.

Definition offsets_inv (d : Dec) (m : gmap Z Ses) : Prop :=
  ∀ id s, m !! id = Some s → owned (others m id) (host_mapper d) (session_offsets s).

(** *** Between sessions *)

Lemma others_registered d m id o : offsets_inv d m → others m id o → registered (host_mapper d) o = true.
Proof. intros Hm (id'&s&_&Hs&Ho). apply (Hm id' s Hs). by left. Qed.

Lemma others_insert m id s o : others (<[id := s]> m) id o ↔ others m id o.
Proof.
  unfold others. split; intros (id'&s'&Hne&Hs&Ho); exists id', s'; split_and!; try done.
  - by rewrite lookup_insert_ne in Hs.
  - by rewrite lookup_insert_ne.
Qed.

(** A session is replaced by one that owns its offsets. *)
Lemma offsets_update d d' m id s :
  offsets_inv d m → owned (others m id) (host_mapper d') (session_offsets s) →
  offsets_inv d' (<[id := s]> m).
Proof.
  intros Hm (Hn&Hd&Hr) j sj [[<- <-]|[Hne Hj]]%lookup_insert_Some.
  { split_and!; [done|..]; intros o; rewrite others_insert; auto. }
  destruct (Hm j sj Hj) as (Hnj&Hdj&_). split_and!; [done|..].
  - intros o Ho (k&sk&Hkj&[[<- <-]|[Hk Hsk]]%lookup_insert_Some&Hok); [|by apply (Hdj o Ho); exists k, sk].
    apply (Hd o Hok). by exists j, sj.
  - intros o [Ho|(k&sk&Hkj&[[<- <-]|[Hk Hsk]]%lookup_insert_Some&Hok)]; apply Hr.
    + right. by exists j, sj.
    + by left.
    + right. by exists k, sk.
Qed.

Lemma offsets_delete d d' m id s :
  m !! id = Some s → offsets_inv d m →
  (∀ o, registered (host_mapper d') o =
     if decide (o ∈ session_offsets s) then false else registered (host_mapper d) o) →
  offsets_inv d' (delete id m).
Proof.
  intros Hs Hm Hr j sj [Hne Hj]%lookup_delete_Some. destruct (Hm j sj Hj) as (Hnj&Hdj&Hrj).
  assert (∀ o, others (delete id m) j o → others m j o ∧ o ∉ session_offsets s) as Ho.
  { intros o (k&sk&Hkj&[Hk Hsk]%lookup_delete_Some&Hok). split; [by exists k, sk|].
    intros Ho. apply (proj1 (proj2 (Hm k sk Hsk)) o Hok). by exists id, s. }
  split_and!; [done|..].
  - intros o Ho1 Ho2. by apply (Hdj o Ho1), Ho.
  - intros o Ho1. rewrite Hr, decide_False; [apply Hrj; destruct Ho1 as [|[]%Ho]; auto|].
    destruct Ho1 as [Ho1|[]%Ho]; [|done]. intros Ho2. apply (Hdj o Ho1). by exists id, s.
Qed.

(** *** The ioctls but REQBUFS *)

Lemma offsets_evolve q (l l' : list Buf) :
  all_stored (J := J) q l → Forall2 (evolves J) l l' → l' ≫= plane_offsets = l ≫= plane_offsets.
Proof.
  intros Hl Hev.
  assert (Forall2 (λ b b', plane_offsets b' = plane_offsets b) l l') as Hp.
  { apply Forall2_same_length_lookup_2; [by eapply Forall2_length|]. intros i b b' Hb Hb'.
    destruct (Hl i b Hb) as (_&_&p&ps&Hp&_).
    destruct (Forall2_lookup_lr _ _ _ _ _ _ Hev Hb Hb') as [(_&_&Hs) _].
    destruct (Hs p ps Hp) as (p'&Hp'&Ho). unfold plane_offsets. rewrite Hp, Hp'. cbn. by rewrite Ho. }
  clear -Hp. induction Hp as [|b b' l l' Hb _ IH]; cbn; [done|]. by rewrite Hb, IH.
Qed.

Definition offs_ok (n id : Z) (oth : Z → Prop) (st : St) : Prop :=
  dec_ok (I := I) (J := J) (strict := strict) n id st ∧
  owned oth (host_mapper st.1) (session_offsets st.2).

#[export] Instance offs_frame n id oth : SessionFrame I J strict (offs_ok n id oth).
Proof.
  pose proof (dec_ok_frame (D := D) (Q := Q) (HM := HM) (K := K) (I := I) (J := J) (strict := strict) n id) as DF. split.
  - intros st [Hok _]. by apply (frame_backend (SessionFrame := DF)).
  - intros st b [Hok _]. by apply (frame_serves (SessionFrame := DF)).
  - intros st [Hok _]. by apply (frame_strict (SessionFrame := DF)).
  - intros st st' [Hok Hof] Hq. split; [by eapply (frame_quiet (SessionFrame := DF))|].
    destruct Hq as (Hm&_&Hi&Ho&_). unfold session_offsets. by rewrite Hm, Hi, Ho.
  - intros st k bs [Hok Hof] HI. split; [by apply (frame_set_backend (SessionFrame := DF))|done].
  - intros st l [Hok Hof] Hl. split; [by apply (frame_input (SessionFrame := DF))|].
    unfold session_offsets in *. cbn. rewrite bind_app in *.
    by rewrite (offsets_evolve VideoOutputMplane _ _ (proj1 (proj2 (proj2 (proj2 Hok)))) Hl).
  - intros st l [Hok Hof] Hl. split; [by apply (frame_output (SessionFrame := DF))|].
    unfold session_offsets in *. cbn. rewrite bind_app in *.
    by rewrite (offsets_evolve VideoCaptureMplane _ _ (proj1 (proj2 (proj2 (proj2 (proj2 Hok))))) Hl).
  - intros st [Hok Hof]. split; [by apply (frame_sent (SessionFrame := DF))|done].
  - intros st i [Hok Hof] Hi. split; [by apply (frame_pend (SessionFrame := DF))|done].
Qed.

(** *** REQBUFS *)

Lemma first_size_u32 f size : head (mp_sizeimages f) = Some size → is_u32 size.
Proof.
  pose proof (sizeimages_u32 f) as Hu. destruct (mp_sizeimages f); [done|]. intros [= ->].
  by apply Forall_cons in Hu as [??].
Qed.

(** The offsets of a session, as those of a queue and those of the other one. *)
Lemma queue_offsets queue (s : Ses) l :
  queue_buffers queue s = Some l →
  ∃ rest, session_offsets s ≡ₚ rest ++ (l ≫= plane_offsets) ∧
    ∀ l', session_offsets (set_queue_buffers queue l' s) ≡ₚ rest ++ (l' ≫= plane_offsets).
Proof.
  unfold queue_buffers, set_queue_buffers, session_offsets. repeat case_bool_decide; intros [= <-].
  - exists (output_buffers s ≫= plane_offsets). cbn. split; intros; rewrite bind_app; apply Permutation_app_comm.
  - exists (input_buffers s ≫= plane_offsets). cbn. split; intros; by rewrite bind_app.
Qed.

Lemma wp_unregister_offsets {E} n (l : list Buf) (d : Dec) :
  manager_ok n (host_mapper d) →
  wp (E := E) false (unregister_planes l)
    (λ _ d', ∀ o, registered (host_mapper d') o =
       if decide (o ∈ l ≫= plane_offsets) then false else registered (host_mapper d) o) d.
Proof.
  unfold unregister_planes. generalize (l ≫= plane_offsets). clear l. intros l. revert d.
  induction l as [|o l IH]; intros d Hmm; cbn [forM_].
  { apply wp_ret. intros o. by rewrite decide_False by apply not_elem_of_nil. }
  apply wp_bind, wp_bind, wp_zoom. unfold wp at 1.
  pose proof (wp_unregister (E := E) n o (host_mapper d) Hmm) as Hu. unfold wp in Hu.
  destruct (unregister_buffer o (host_mapper d)) as [[mm r]|] eqn:Er; [|done].
  pose proof (unregister_registered _ _ _ _ (proj1 Hmm) Er) as Hr. destruct r as [b|e]; [|by destruct Hu].
  apply wp_ret. eapply wp_mono, IH; [|apply Hu]. intros r d' Hd' o'. rewrite Hd'. cbn [host_mapper].
  destruct (decide (o' ∈ l)); [by rewrite decide_True by (by right)|]. rewrite Hr. case_bool_decide.
  - subst. by rewrite decide_True by (by left).
  - rewrite decide_False; [done|]. by intros [?|?]%elem_of_cons.
Qed.

Lemma wp_offset_new queue i size offset (d : Dec) :
  wp true (VideoDecoderBuffer_new queue i [size] offset)
    (λ r d', host_mapper d' = host_mapper d ∧
       match r with Ok b => plane_offsets b = [offset] | Err _ => True end) d.
Proof.
  unfold VideoDecoderBuffer_new. destruct (new_planes queue i) as (p&ps&Hp).
  pose proof (new_one_plane _ _ _ Hp) as Hlen. destruct ps; [|done].
  apply wp_bind, wp_zoom. apply wp_any. intros [storage|e] k; [|done].
  rewrite Hp. apply wp_bind, wp_bind, wp_ret, wp_ret, wp_ret. split; [done|].
  unfold plane_offsets. simpl. autorewrite with v4l2r. by rewrite (planes_set_planes _ [p]).
Qed.

(** A new buffer has an offset that was not taken; those that were stay registered. *)
Lemma wp_new_offset n (taken : Z → Prop) queue size i (d : Dec) :
  is_u32 size → manager_ok n (host_mapper d) →
  (∀ o, taken o → registered (host_mapper d) o = true) →
  wp true (new_buffer queue size i)
    (λ r d', (∀ o, taken o → registered (host_mapper d') o = true) ∧
       match r with
       | Ok b => ∃ o, plane_offsets b = [o] ∧ ¬ taken o ∧ registered (host_mapper d') o = true
       | Err _ => True
       end) d.
Proof.
  intros Hs Hmm Ht. unfold new_buffer. apply wp_bind, wp_map_err, wp_zoom. unfold wp at 1.
  pose proof (wp_register n size (host_mapper d) Hs Hmm) as Hw. unfold wp in Hw.
  destruct (register_buffer None size (host_mapper d)) as [[mm r]|] eqn:Er; [|done].
  pose proof (register_fresh _ _ _ _ (proj1 Hmm) Er) as Hr. destruct r as [o|e]; [|].
  2: { split; [|done]. intros o Ho. cbn. rewrite Hr. by apply Ht. }
  destruct Hr as [Hfree Hr]. assert (¬ taken o) as Hno by (intros Ho; apply Ht in Ho; congruence).
  apply wp_bind, wp_try. eapply wp_mono, wp_offset_new. intros [b|e] d2 [Hd2 Hb].
  - apply wp_ret. rewrite Hd2. cbn [host_mapper]. split; [|exists o; split_and!; [done..|]].
    + intros o' Ho'. rewrite Hr. case_decide; [done|by apply Ht].
    + by rewrite Hr, decide_True.
  - apply wp_bind, wp_zoom. rewrite Hd2. cbn [host_mapper]. unfold wp at 1.
    destruct (unregister_buffer o mm) as [[mm' ru]|] eqn:Eu; [|done].
    pose proof (unregister_registered _ _ _ _ (proj1 (proj1 Hw)) Eu) as Hu.
    assert (∀ o', taken o' → registered mm' o' = true) as Ht'.
    { intros o' Ho'. rewrite Hu, Hr. case_bool_decide as Ho; [by subst|].
      by rewrite decide_False; [apply Ht|]. }
    by destruct ru.
Qed.

Lemma wp_new_offsets n (taken : Z → Prop) queue size ixs (d : Dec) :
  is_u32 size → manager_ok n (host_mapper d) →
  (∀ o, taken o → registered (host_mapper d) o = true) →
  wp true (mapM_m (new_buffer queue size) ixs)
    (λ r d', (∀ o, taken o → registered (host_mapper d') o = true) ∧
       match r with
       | Ok new => NoDup (new ≫= plane_offsets) ∧
           ∀ o, o ∈ new ≫= plane_offsets → ¬ taken o ∧ registered (host_mapper d') o = true
       | Err _ => True
       end) d.
Proof.
  intros Hs. revert taken d. induction ixs as [|i ixs IH]; intros taken d Hmm Ht; cbn [mapM_m].
  { apply wp_ret. split_and!; [done|constructor|by intros o ?%elem_of_nil]. }
  apply wp_bind. eapply wp_mono, wp_conj;
    [|eapply wp_panic_mono, (wp_allocates (BL := BL) n); [by intros|done|done]|by apply (wp_new_offset n)].
  intros [b|e] d1 [[Hmm1 _] [Ht1 Hb]]; [|done]. destruct Hb as (o&Ho&Hno&Hro).
  apply wp_bind. eapply wp_mono, (IH (λ o', taken o' ∨ o' = o)); [|done|].
  2: { intros o' [Ho'| ->]; auto. }
  intros [new|e] d2 [Ht2 Hnew]; [|split; [by auto|done]]. apply wp_ret. split; [by auto|].
  destruct Hnew as [Hn Hnew]. cbn [mbind list_bind]. rewrite Ho. split.
  - apply NoDup_cons. split; [|done]. intros Hin. destruct (Hnew o Hin) as [[] _]. by right.
  - intros o' [->|Hin]%elem_of_cons; [by split; [|apply Ht2; right]|].
    destruct (Hnew o' Hin) as [Hn' ?]. split; [|done]. intros Ho'. apply Hn'. by left.
Qed.

Lemma offs_reqbufs n id oth queue memory count flags st :
  is_u32 count → offs_ok n id oth st →
  wp true (reqbufs queue memory count flags)
    (λ _ st', owned oth (host_mapper st'.1) (session_offsets st'.2)) st.
Proof.
  destruct st as [d s]. intros Hc [[Hmm Hs] Hown]. unfold reqbufs. apply wp_bind, wp_guard; [intros _|done].
  apply wp_bind, wp_get_st. cbn [fst snd] in *. apply wp_bind, wp_ok_or; [intros l Hl|done].
  destruct (queue_offsets queue s l Hl) as (rest&Hrest&Hset).
  apply wp_bind. apply (wp_mono _ _ (λ _ st', owned oth (host_mapper st'.1) (session_offsets st'.2))).
  { intros [[]|e] [d' s'] Hown'; [|done]. by apply wp_bind, wp_zoom, wp_modify, wp_ret. }
  destruct (Z.ltb_spec count (Z.of_nat (length l))).
  - apply wp_bind, wp_zoom.
    pose proof (wp_dec_unregister (E := Z) n (drop (Z.to_nat count) l) d Hmm) as Hok.
    pose proof (wp_unregister_offsets (E := Z) n (drop (Z.to_nat count) l) d Hmm) as Hr.
    unfold wp in Hok, Hr. unfold wp at 1. cbn [fst].
    destruct (unregister_planes _ d) as [[d' [[]|e]]|]; [|by destruct Hok..]. apply wp_zoom, wp_modify. cbn [fst snd]. rewrite Hset.
    eapply owned_free; [exact Hr|]. rewrite <-(take_drop (Z.to_nat count) l), bind_app in Hrest.
    by rewrite Hrest, (assoc_L (++)) in Hown.
  - apply wp_bind. unfold wp at 1, lift_outcome. destruct (bs_current_format _ _) as [f|]; [|done].
    apply wp_bind, wp_ok_or; [intros size Hsize|done]. apply wp_bind, wp_zoom.
    eapply wp_mono, (wp_new_offsets n (λ o, o ∈ session_offsets s ∨ oth o)); [|by eapply first_size_u32|done|].
    2: { intros o Ho. by apply Hown. }
    intros [new|e] d' [Ht Hnew]; cbn [fst snd].
    + apply wp_zoom, wp_modify. cbn [fst snd]. rewrite Hset, bind_app, (assoc_L (++)), <-Hrest.
      destruct Hnew. by eapply owned_add.
    + destruct Hown as (Hn&Hd&_). by split_and!.
Qed.

(** *** The contract *)

(** A new session has no buffers. *)
Lemma wp_new_session_mapper id (d : Dec) :
  wp true (decoder_new_session id)
    (λ r d', host_mapper d' = host_mapper d ∧
       match r with Ok s => session_offsets s = [] | Err _ => True end) d.
Proof.
  unfold decoder_new_session. apply wp_bind, wp_zoom, wp_any. by intros [bs|e] x.
Qed.

(** Mapping and unmapping leave the registered offsets as they are. *)
Lemma wp_mmap_registered n flags offset (d : Dec) (s : Ses) :
  0 ≤ n < u64_max → manager_ok n (host_mapper d) →
  wp true (decoder_do_mmap flags offset)
    (λ _ st, st.2 = s ∧ ∀ o, registered (host_mapper st.1) o = registered (host_mapper d) o) (d, s).
Proof.
  intros Hn [Hwf Hc]. unfold decoder_do_mmap. apply wp_bind, wp_gets, wp_bind, wp_ok_or; [|done].
  intros [k [b [j p]]] _. destruct (fd_for_plane _ _) as [fd|]; [|done].
  apply wp_bind, wp_ret, wp_map_err, wp_zoom, wp_zoom. unfold wp. cbn [fst].
  destruct (create_mapping _ _ _ (host_mapper d)) as [[mm r]|] eqn:Er; [|done]. split; [done|].
  eapply create_registered; [done| |done]. eapply counts_mono; [done|lia].
Qed.

Lemma wp_munmap_registered n addr (d : Dec) :
  manager_ok n (host_mapper d) →
  wp true (decoder_do_munmap addr)
    (λ _ d', ∀ o, registered (host_mapper d') o = registered (host_mapper d) o) d.
Proof.
  intros [Hwf _]. unfold decoder_do_munmap. apply wp_bind, wp_map_err, wp_zoom. unfold wp at 1.
  destruct (remove_mapping _ (host_mapper d)) as [[mm r]|] eqn:Er; [|done].
  pose proof (remove_registered _ _ _ _ Hwf Er). by destruct r.
Qed.

Definition offs_inv (n : Z) (d : Dec) (m : gmap Z Ses) : Prop :=
  dec_inv (I := I) (J := J) (strict := strict) n d m ∧ offsets_inv d m.

#[export] Instance offs_handler_spec n id oth :
  HandlerSpec (H := Dec) (method_panics (pd := pd) (strict := strict))
    (λ ioctl st, offs_ok n id oth st ∧ dec_guard (strict := strict) ioctl st.2 = true)
    (offs_ok n id oth).
Proof.
  split; [by intros ioctl st [Hok _]|]. intros a E T c st Hc [Hok Hg]. destruct (is_reqbufs c) eqn:Ec.
  - destruct c; try done.
    eapply wp_conj; [|by apply (offs_reqbufs n id); [apply Hc|]].
    apply (spec_methods (HandlerSpec := decoder_handler_spec (BL := BL) n id)); [done|].
    by split; [apply Hok|].
  - by apply (dec_keeps_call (BL := BL) (offs_ok n id oth)).
Qed.

#[export] Instance offs_contract :
  GuardedContract (D := Dec) (decoder_panics (pd := pd) (strict := strict)) (dec_guard (strict := strict))
    (λ _, true) offs_inv.
Proof.
  pose proof (decoder_contract (BL := BL) (MS := MS) (strict := strict) (HM := HM) (Q := Q)) as DC. split.
  - intros n d m [Hd Ho]. split; [by apply (contract_mono (GuardedContract := DC))|done].
  - intros n d m id [Hd Ho] Hid Hnone.
    eapply wp_mono, wp_conj; [|by apply (contract_new (GuardedContract := DC) n d m id)|].
    2: { apply (wp_new_session_mapper id). }
    intros [s|e] d' [Hd' [Hmm Hs]].
    + split; [done|]. apply (offsets_update d); [done|]. rewrite Hmm, Hs. split_and!; [constructor|by intros o ?%elem_of_nil|].
      intros o [?%elem_of_nil|Hoth]; [done|]. by eapply others_registered.
    + split; [done|]. intros j sj Hj. rewrite Hmm. by apply Ho.
  - intros n d m id s [Hd Ho] Hs.
    destruct (contract_close (GuardedContract := DC) n d m id s Hd Hs) as (d'&Hc&Hd').
    exists d'. split; [done|]. split; [done|]. eapply offsets_delete; [done..|].
    pose proof (wp_unregister_offsets (E := Empty_set) n (input_buffers s ++ output_buffers s) d (proj1 Hd)) as Hr.
    unfold wp in Hr. revert Hc. simpl. unfold decoder_close_session, mbind, outcome_bind.
    destruct (unregister_planes _ d) as [[d1 r]|]; [|done]. by intros [= <-].
  - intros n d m id s ioctl r w [Hd Ho] _ Hs Hg.
    eapply wp_mono, (wp_dispatch method_panics _ (offs_ok n id (others m id)));
      [|split; [split; [split; [apply Hd|by apply (proj2 Hd)]|by apply Ho]|done]].
    intros res [[[d' s'] r'] w'] [[[Hmm' Hs'] Hown] _]. split; [split|by eapply offsets_update].
    + eapply manager_ok_mono; [|done]; lia.
    + intros j s0 [[<- <-]|[_ Hj]]%lookup_insert_Some; [done|by apply Hd].
  - intros n d m id s flags offset [Hd Ho] Hn Hs Hoff.
    eapply wp_mono, wp_conj;
      [|by apply (contract_mmap (GuardedContract := DC) n d m id s flags offset)|
        by apply (wp_mmap_registered n); [|apply Hd]].
    intros r [d' s'] [Hd' [Hs' Hr]]. cbn in Hs'. subst s'. split; [done|].
    apply (offsets_update d); [done|]. eapply owned_registered; [exact Hr|]. by apply Ho.
  - intros n d m addr [Hd Ho].
    eapply wp_mono, wp_conj; [|by apply (contract_munmap (GuardedContract := DC) n d m addr)|
      by apply (wp_munmap_registered n); apply Hd].
    intros r d' [Hd' Hr]. split; [done|]. intros j sj Hj. eapply owned_registered; [exact Hr|]. by apply Ho.
Qed.

#[export] Instance offs_events : EventContract (D := Dec) overflow_checks offs_inv.
Proof.
  intros n d m id s [Hd Ho] _ Hs.
  eapply wp_mono, (dec_keeps_process_events (BL := BL) (offs_ok n id (others m id)) overflow_checks);
    [|done|done|done|split; [split; [apply Hd|by apply (proj2 Hd)]|by apply Ho]].
  intros res [d' s'] [[Hmm' Hs'] Hown]. split; [split|by eapply offsets_update].
  - eapply manager_ok_mono; [|done]; lia.
  - intros j s0 [[<- <-]|[_ Hj]]%lookup_insert_Some; [done|by apply Hd].
Qed.

Lemma offs_inv_new (b : D) (q : Q) (hm : HM) (k : K) :
  offs_inv 0 (VideoDecoder_new b q hm k) ∅.
Proof. split; [apply dec_inv_new|]. intros id s Hs. by apply lookup_empty_Some in Hs. Qed.
End Offsets.

(** Where pending buffers may be missing, every ioctl is expected on every session. *)
#[export] Instance offs_device_contract `{BM : BuildMode} `{V : V4l2r} {VL : V4l2rLaws} {OP : OnePlane}
    {D Q HM K S B : Type} `{!VirtioMediaEventQueue Q} `{!VirtioMediaHostMemoryMapper HM}
    `{!VideoDecoderBufferBacking K B} `{!VideoDecoderBackendSession K S B}
    `{!VideoDecoderBackend D K S B} {pd : bool} {I : S → Prop} {J : nat → B → Prop}
    `{BL : !BackendLaws false pd I J} `{MS : !MappableStorage J} :
  DeviceContract (D := VideoDecoder D Q HM K) (decoder_panics (pd := pd) (strict := false))
    (offs_inv (I := I) (J := J) (strict := false)).
Proof. exact (offs_contract (strict := false)). Qed.

(** ** Properties *)

Section Properties.
Context `{BM : BuildMode} `{V : V4l2r} {VL : V4l2rLaws} {OP : OnePlane}.
Context {D Q HM K S B P : Type}.
Context `{!VirtioMediaEventQueue Q} `{!VirtioMediaHostMemoryMapper HM}.
Context `{!VideoDecoderBufferBacking K B} `{!VideoDecoderBackendSession K S B}.
Context `{!VideoDecoderBackend D K S B}.
Context {pd : bool} {I : S → Prop} {J : nat → B → Prop} `{BL : !BackendLaws false pd I J}.
Context `{MS : !MappableStorage J} `{!SessionPoller P}.
Abbreviation Ses := (VideoDecoderSession S B).
Abbreviation Dec := (VideoDecoder D Q HM K).
Abbreviation Runner := (VirtioMediaDeviceRunner Dec Ses P).
Context `{!PollerContract (P := P) (D := Dec) Ses}.

(** The offsets of session [id] are distinct and registered, and no other session
    has one of them. *)
Definition offsets_mappable (rn : Runner) (id : Z) (s : Ses) : Prop :=
  NoDup (session_offsets s) ∧
  (∀ o, o ∈ session_offsets s → registered (host_mapper (device rn)) o = true) ∧
  (∀ id' s', id' ≠ id → sessions rn !! id' = Some s' → session_offsets s ## session_offsets s').

Lemma owned_mappable (rn : Runner) id s :
  offsets_inv (device rn) (sessions rn) → sessions rn !! id = Some s → offsets_mappable rn id s.
Proof.
  intros Hm Hs. destruct (Hm id s Hs) as (Hn&Hd&Hr). split_and!; [done|by auto|].
  intros id' s' Hne Hs' o Ho Ho'. apply (Hd o Ho). by exists id', s'.
Qed.

(** C19: the decoder device over a backend that keeps its laws, with descriptions of
    one plane ([OnePlane]).  After any sequence of commands and events, the buffers
    of both queues of every session describe their queue, their index and MMAP
    planes, and each plane can be mapped: the backend has a descriptor for it, the
    MMAP manager has a registered buffer at its offset, and no other plane of this
    or another session has that offset. *)
Theorem decoder_device_invariant (b : D) (q : Q) (hm : HM) (k : K) (p : P) steps (rn : Runner) id s :
  Z.of_nat (length steps) ≤ u32_max →
  run_vmm steps (runner_new (VideoDecoder_new b q hm k) p) = Ret rn →
  sessions rn !! id = Some s →
  d_id s = id ∧ mappables VideoOutputMplane (input_buffers s) ∧
  mappables VideoCaptureMplane (output_buffers s) ∧ offsets_mappable rn id s.
Proof.
  intros Hlen Hrun Hs.
  destruct (run_vmm_inv (decoder_panics (pd := pd) (strict := false)) overflow_checks
    (offs_inv (I := I) (J := J) (strict := false)) _ _ _ _ (offs_inv_new b q hm k) Hlen Hrun)
    as (n&[[_ Hm] Ho]&_).
  destruct (Hm id s Hs) as (Hid&_&Hin&Hout&_).
  split_and!; [done|by apply (stored_mappables (J := J))..|by apply owned_mappable].
Qed.
End Properties.

(** ** Witnesses *)

Module OffsetsWitness.
Import V4l2r.Sample DecoderWitness ContractWitness.

#[local] Existing Instances release_build log_queue sample_backing sample_backend_session
  sample_backend sample_backend_laws sample_storage sample_poller.

#[local] Instance sample_one_plane : OnePlane.
Proof. intros queue i ps [_ Hp]%planes_of_mmap. cbn in Hp. by subst. Qed.

(** Two buffers are allocated, the first one is kept, and another session has one. *)
Definition two_sessions : list vmm_step :=
  shrinking_steps ++
  ((λ r, Command r (mkWriter [] 128)) <$>
   [c_enc c_CmdHeader (mkCmdHeader VIRTIO_MEDIA_CMD_OPEN 0);
    ioctl_bytes 1 8 (c_enc c_st ((9, 1), (0, 1)))]).

Definition two_sessions_run : outcome (VirtioMediaDeviceRunner Dec Ses unit) :=
  run_vmm two_sessions (runner_new decoder0 tt).

Example two_sessions_offsets :
  match two_sessions_run with
  | Ret rn => (session_offsets <$> sessions rn !! 0, session_offsets <$> sessions rn !! 1)
  | Panic => (None, None)
  end = (Some [0], Some [4096]).
Proof. vm_compute. reflexivity. Qed.

Lemma decoder_device_invariant_witness :
  ∃ rn s, two_sessions_run = Ret rn ∧ sessions rn !! 1 = Some s ∧
    mappables (K := unit) VideoCaptureMplane (output_buffers s) ∧
    session_offsets s = [4096] ∧ registered (host_mapper (device rn)) 4096 = true.
Proof.
  pose proof two_sessions_offsets as Hq.
  destruct two_sessions_run as [rn|] eqn:Hrun; [|discriminate].
  destruct (sessions rn !! 1) as [s|] eqn:Es; [|discriminate]. injection Hq as _ Hq.
  destruct (decoder_device_invariant (V := sample_v4l2r) (BL := sample_backend_laws)
    (MS := sample_storage)
    tt [] tt tt tt two_sessions rn 1 s ltac:(vm_compute; congruence) Hrun Es) as (_&_&Ho&_&Hr&_).
  exists rn, s. split; [reflexivity|]. split; [exact Es|]. split; [exact Ho|]. split; [exact Hq|].
  apply Hr. rewrite Hq. by left.
Defined.
End OffsetsWitness.
