(* ===== verification/HostDevice.v ===== *)
(** * The host side of the proxy device: [v4l2r]'s ioctls and poller

    The proxy device drives a V4L2 device of the host through [v4l2r], which is
    not part of the repository.  [HostV4l2] is the interface it uses, over the
    state [K] of the host; nothing is assumed of it.  [HostV4l2Laws] are the
    documented facts the theorems use; every call may fail.  [VirtioMediaGuestMemoryMapper] is the VMM's trait for
    linear views of guest memory ([device/src/lib.rs]). *)

From stdpp Require Export strings.
From S2P Require Import Prelude Traits Bytes Protocol V4l2r Ioctl MemFd.
#[local] Open Scope Z_scope.

(** ** Errors and events, with the variants the sources name *)

(** [v4l2r::device::poller::DeviceEvent] *)
Inductive DeviceEvent := CaptureReady | V4L2Event.
#[global] Instance DeviceEvent_eq_dec : EqDecision DeviceEvent.
Proof. solve_decision. Defined.

(** [v4l2r::device::poller::PollEvent]: a device event, or anything else. *)
Inductive PollEvent := PollDevice (e : DeviceEvent) | PollOther.
#[global] Instance PollEvent_eq_dec : EqDecision PollEvent.
Proof. solve_decision. Defined.

(** [DqEventError] and [DqBufError]; the other variants by their [into_errno()]. *)
Inductive DqEventError := DqEventNotReady | DqEventOther (errno : Z).
Inductive DqBufError := DqBufEos | DqBufNotReady | DqBufOther (errno : Z).

(** [ExtControlError], with its [into_errno()]. *)
Record ExtControlError := mkExtControlError { error_idx : Z; ext_errno : Z }.

(** [DeviceOpenError], with the error codes of its variants. *)
Inductive DeviceOpenError := OpenError (e : Z) | QueryCapError (e : Z).

(** [ExpbufFlags] *)
Inductive ExpbufFlags := RDONLY | RDWR.

(** The ioctls on extended controls. *)
Inductive ExtCtrlIoctl := Get | Set_ | Try.

(** ** [VirtioMediaGuestMemoryMapper] and [GuestMemoryRange] *)

(** [G] is the mapper, [R] its mappings.  A mapping may write back to guest memory
    when it is dropped, and note that it was handed out for writing. *)
Class VirtioMediaGuestMemoryMapper (G R : Type) := {
  new_mapping : list SgEntry → G → G * result R unit;
  as_ptr : R → Z;
  as_mut_ptr : R → R * Z;
  drop_range : R → G → G;
}.

(** ** The functions of [v4l2r::ioctl] and [v4l2r::device]

    A call returns its result or the [errno] its error converts to. *)
Class HostV4l2 `{V4l2r} (K : Type) := {
  V4l2Device : Type;
  Poller : Type;
  (** [Device::open(path, DeviceConfig::new().non_blocking_dqbuf())] *)
  device_open : string → K → K * result V4l2Device DeviceOpenError;
  (** [Poller]: an epoll instance that watches the device for the enabled events. *)
  poller_new : V4l2Device → sys K Poller;
  poller_fd : Poller → Fd;
  enable_event : DeviceEvent → sys (K * Poller) unit;
  disable_event : DeviceEvent → sys (K * Poller) unit;
  poll_now : sys (K * Poller) (list PollEvent);
  (** Buffers *)
  host_reqbufs : V4l2Device → QueueType → MemoryType → Z → MemoryConsistency →
    sys K (vstruct v4l2_requestbuffers);
  host_create_bufs : V4l2Device → Z → MemoryType → vstruct v4l2_format →
    sys K (vstruct v4l2_create_buffers);
  host_querybuf : V4l2Device → QueueType → Z → sys K V4l2Buffer;
  host_qbuf : V4l2Device → V4l2Buffer → sys K V4l2Buffer;
  host_prepare_buf : V4l2Device → V4l2Buffer → sys K V4l2Buffer;
  host_dqbuf : V4l2Device → QueueType → K → K * result V4l2Buffer DqBufError;
  host_expbuf : V4l2Device → QueueType → Z → Z → ExpbufFlags → sys K Fd;
  host_streamon : V4l2Device → QueueType → sys K unit;
  host_streamoff : V4l2Device → QueueType → sys K unit;
  (** Events *)
  host_dqevent : V4l2Device → K → K * result (vstruct v4l2_event) DqEventError;
  host_subscribe_event : V4l2Device → EventType → SubscribeEventFlags → sys K unit;
  host_unsubscribe_event : V4l2Device → EventType → sys K unit;
  host_unsubscribe_all_events : V4l2Device → sys K unit;
  (** Formats and parameters *)
  host_enum_fmt : V4l2Device → QueueType → Z → sys K (vstruct v4l2_fmtdesc);
  host_g_fmt : V4l2Device → QueueType → sys K (vstruct v4l2_format);
  host_s_fmt : V4l2Device → vstruct v4l2_format → sys K (vstruct v4l2_format);
  host_try_fmt : V4l2Device → vstruct v4l2_format → sys K (vstruct v4l2_format);
  host_g_parm : V4l2Device → QueueType → sys K (vstruct v4l2_streamparm);
  host_s_parm : V4l2Device → vstruct v4l2_streamparm → sys K (vstruct v4l2_streamparm);
  host_enum_frame_sizes : V4l2Device → Z → Z → sys K (vstruct v4l2_frmsizeenum);
  host_enum_frame_intervals : V4l2Device → Z → Z → Z → Z → sys K (vstruct v4l2_frmivalenum);
  host_g_selection : V4l2Device → SelectionType → SelectionTarget → sys K v4l2_rect;
  host_s_selection : V4l2Device → SelectionType → SelectionTarget → v4l2_rect → SelectionFlags →
    sys K v4l2_rect;
  (** Standards, inputs, outputs, tuners *)
  host_g_std : V4l2Device → sys K (vstruct v4l2_std_id);
  host_s_std : V4l2Device → vstruct v4l2_std_id → sys K unit;
  host_querystd : V4l2Device → sys K (vstruct v4l2_std_id);
  host_enumstd : V4l2Device → Z → sys K (vstruct v4l2_standard);
  host_enuminput : V4l2Device → Z → sys K (vstruct v4l2_input);
  host_enumoutput : V4l2Device → Z → sys K (vstruct v4l2_output);
  (** Indices are [usize]. *)
  host_g_input : V4l2Device → sys K Z;
  host_s_input : V4l2Device → Z → sys K Z;
  host_g_output : V4l2Device → sys K Z;
  host_s_output : V4l2Device → Z → sys K unit;
  host_g_tuner : V4l2Device → Z → sys K (vstruct v4l2_tuner);
  host_s_tuner : V4l2Device → Z → TunerMode → sys K unit;
  host_g_audio : V4l2Device → sys K (vstruct v4l2_audio);
  host_s_audio : V4l2Device → Z → option AudioMode → sys K unit;
  host_enumaudio : V4l2Device → Z → sys K (vstruct v4l2_audio);
  host_g_audout : V4l2Device → sys K (vstruct v4l2_audioout);
  host_s_audout : V4l2Device → Z → sys K unit;
  host_enumaudout : V4l2Device → Z → sys K (vstruct v4l2_audioout);
  host_g_modulator : V4l2Device → Z → sys K (vstruct v4l2_modulator);
  host_s_modulator : V4l2Device → Z → TunerTransmissionFlags → sys K unit;
  host_g_frequency : V4l2Device → Z → sys K (vstruct v4l2_frequency);
  host_s_frequency : V4l2Device → Z → TunerType → Z → sys K unit;
  (** Controls: [g_ctrl] and [s_ctrl] return the value. *)
  host_g_ctrl : V4l2Device → Z → sys K Z;
  host_s_ctrl : V4l2Device → Z → Z → sys K Z;
  host_queryctrl : V4l2Device → CtrlId → QueryCtrlFlags → sys K (vstruct v4l2_queryctrl);
  host_querymenu : V4l2Device → Z → Z → sys K (vstruct v4l2_querymenu);
  host_query_ext_ctrl : V4l2Device → CtrlId → QueryCtrlFlags → sys K (vstruct v4l2_query_ext_ctrl);
  (** [g_ext_ctrls], [s_ext_ctrls] and [try_ext_ctrls] update a slice in place. *)
  host_ext_ctrls : ExtCtrlIoctl → V4l2Device → CtrlWhich → list (vstruct v4l2_ext_control) →
    K → K * (list (vstruct v4l2_ext_control) * result unit ExtControlError);
  (** Encoders, decoders, timings *)
  host_g_enc_index : V4l2Device → sys K (vstruct v4l2_enc_idx);
  host_encoder_cmd : V4l2Device → vstruct v4l2_encoder_cmd → sys K (vstruct v4l2_encoder_cmd);
  host_try_encoder_cmd : V4l2Device → vstruct v4l2_encoder_cmd → sys K (vstruct v4l2_encoder_cmd);
  host_decoder_cmd : V4l2Device → vstruct v4l2_decoder_cmd → sys K (vstruct v4l2_decoder_cmd);
  host_try_decoder_cmd : V4l2Device → vstruct v4l2_decoder_cmd → sys K (vstruct v4l2_decoder_cmd);
  host_s_dv_timings : V4l2Device → vstruct v4l2_dv_timings → sys K (vstruct v4l2_dv_timings);
  host_g_dv_timings : V4l2Device → sys K (vstruct v4l2_dv_timings);
  host_enum_dv_timings : V4l2Device → Z → sys K (vstruct v4l2_dv_timings);
  host_query_dv_timings : V4l2Device → sys K (vstruct v4l2_dv_timings);
  (** Two queries that do not change the host. *)
  host_dv_timings_cap : V4l2Device → K → result (vstruct v4l2_dv_timings_cap) Z;
  host_enum_freq_bands : V4l2Device → Z → TunerType → Z → K →
    result (vstruct v4l2_frequency_band) Z;
  (** Views, not functions of [v4l2r]: the events and the buffers of a queue that
      are ready to be dequeued.  Loops that dequeue until there is nothing left
      take their fuel from them. *)
  pending_events : K → V4l2Device → list (vstruct v4l2_event);
  ready_buffers : K → V4l2Device → QueueType → nat;
  (** The events a poller watches, and whether it has refused to stop watching one. *)
  polled : Poller → DeviceEvent → bool;
  disable_failed : Poller → bool;
}.
Arguments V4l2Device {_} K {_}.
Arguments Poller {_} K {_}.

(** *** Laws *)
Class HostV4l2Laws `{V : V4l2r} (K : Type) `{!HostV4l2 K} : Prop := {
  (** The planes of a buffer hold 32-bit lengths and offsets. *)
  querybuf_u32 : ∀ dev q i (k k' : K) b ps, host_querybuf dev q i k = (k', Ok b) →
    buf_planes b = BMmap ps → Forall (λ p, is_u32 (p_length p) ∧ is_u32 (p_backing p)) ps;
  (** Events are dequeued in the order they were queued. *)
  dqevent_ok : ∀ dev (k k' : K) e, host_dqevent dev k = (k', Ok e) →
    pending_events k dev = e :: pending_events k' dev;
  dqevent_not_ready : ∀ dev (k k' : K), host_dqevent dev k = (k', Err DqEventNotReady) →
    pending_events k dev = [] ∧ pending_events k' dev = [];
  (** A dequeued buffer is not ready any more. *)
  dqbuf_ok : ∀ dev q (k k' : K) b, host_dqbuf dev q k = (k', Ok b) →
    (ready_buffers k' dev q < ready_buffers k dev q)%nat;
  (** The ext control ioctls work on a slice. *)
  ext_ctrls_length : ∀ op dev which l (k k' : K) l' r,
    host_ext_ctrls op dev which l k = (k', (l', r)) → length l' = length l;
  (** What a poller watches. *)
  polled_new : ∀ dev (k k' : K) p e, poller_new dev k = (k', Ok p) → polled p e = false;
  polled_enable : ∀ e (k k' : K) p p', enable_event e (k, p) = ((k', p'), Ok tt) →
    ∀ e', polled p' e' = bool_decide (e' = e) || polled p e';
  polled_enable_err : ∀ e (k k' : K) p p' err, enable_event e (k, p) = ((k', p'), Err err) →
    ∀ e', polled p' e' = polled p e';
  polled_disable : ∀ e (k k' : K) p p', disable_event e (k, p) = ((k', p'), Ok tt) →
    ∀ e', polled p' e' = negb (bool_decide (e' = e)) && polled p e';
  (** What [disable_failed] records. *)
  failed_new : ∀ dev (k k' : K) p, poller_new dev k = (k', Ok p) → disable_failed p = false;
  failed_enable : ∀ e (k k' : K) p p' r, enable_event e (k, p) = ((k', p'), r) →
    disable_failed p' = disable_failed p;
  failed_disable : ∀ e (k k' : K) p p' r, disable_event e (k, p) = ((k', p'), r) →
    disable_failed p' = disable_failed p || negb (is_ok r);
  failed_poll : ∀ (k k' : K) p p' r, poll_now (k, p) = ((k', p'), r) →
    disable_failed p' = disable_failed p;
  (** A poll reports each watched event at most once, and nothing else. *)
  poll_watched : ∀ (k k' : K) p p' evs, poll_now (k, p) = ((k', p'), Ok evs) →
    NoDup evs ∧ Forall (λ ev, ∃ e, ev = PollDevice e ∧ polled p e = true) evs;
  polled_poll : ∀ (k k' : K) p p' r, poll_now (k, p) = ((k', p'), r) →
    ∀ e, polled p' e = polled p e;
}.

(** ** A sample host

    A host with one device, on which the witnesses evaluate: buffers of one MMAP
    page at the offset of their index, that are ready as soon as they are queued.
    [k_stuck] tells that it has no resources for its pollers: they cannot be created,
    and do not stop watching an event. *)
Module SampleHost.
Import V4l2r.Sample.

Record khost := mkHost { k_events : list st; k_ready : list buf; k_stuck : bool }.

(** The watched set (capture buffers, V4L2 events), and the refusals. *)
Record kpoller := mkPoller { k_watched : bool * bool; k_refused : bool }.

Definition ok {A} (a : A) : sys khost A := λ k, (k, Ok a).
Definition nodev {A} : sys khost A := λ k, (k, Err ENODEV).

Definition watch (e : DeviceEvent) (on : bool) (p : kpoller) : kpoller :=
  let w := k_watched p in
  mkPoller (match e with CaptureReady => (on, w.2) | V4L2Event => (w.1, on) end) (k_refused p).
Definition watched (p : kpoller) (e : DeviceEvent) : bool :=
  match e with CaptureReady => (k_watched p).1 | V4L2Event => (k_watched p).2 end.

Definition page (q i : Z) : buf :=
  mkBuf q i 1 0 (mkTimeval 0 0) 0 [mkPlane 4096 0 None (as_u32 (4096 * i))].

#[export] Instance sample_host : HostV4l2 khost := {|
  V4l2Device := unit;
  Poller := kpoller;
  device_open _ k := (k, Ok tt);
  poller_new _ k := (k, if k_stuck k then Err ENOMEM else Ok (mkPoller (false, false) false));
  poller_fd _ := 7;
  enable_event e kp := ((kp.1, watch e true kp.2), Ok tt);
  disable_event e kp :=
    if k_stuck kp.1 then ((kp.1, mkPoller (k_watched kp.2) true), Err ENOMEM)
    else ((kp.1, watch e false kp.2), Ok tt);
  poll_now kp := (kp, Ok (PollDevice <$> filter (λ e, watched kp.2 e = true) [CaptureReady; V4L2Event]));
  host_reqbufs _ q m n _ :=
    ok (set "count" n (set "type_" q (set "memory" m ((0, 0), (0, 0)))));
  host_create_bufs _ n _ _ := ok (set "count" n ((0, 0), (0, 0)));
  host_querybuf _ q i := ok (page q i);
  host_qbuf _ b k := (mkHost (k_events k) (k_ready k ++ [b]) (k_stuck k), Ok b);
  host_prepare_buf _ b := ok b;
  host_dqbuf _ q k :=
    match k_ready k with
    | b :: l => (mkHost (k_events k) l (k_stuck k), Ok b)
    | [] => (k, Err DqBufNotReady)
    end;
  host_expbuf _ _ _ _ _ := ok 3;
  host_streamon _ _ := ok tt;
  host_streamoff _ _ := ok tt;
  host_dqevent _ k :=
    match k_events k with
    | e :: l => (mkHost l (k_ready k) (k_stuck k), Ok e)
    | [] => (k, Err DqEventNotReady)
    end;
  host_subscribe_event _ _ _ := ok tt;
  host_unsubscribe_event _ _ := ok tt;
  host_unsubscribe_all_events _ := ok tt;
  host_enum_fmt _ _ _ := nodev; host_g_fmt _ _ := nodev; host_s_fmt _ _ := nodev;
  host_try_fmt _ _ := nodev; host_g_parm _ _ := nodev; host_s_parm _ _ := nodev;
  host_enum_frame_sizes _ _ _ := nodev; host_enum_frame_intervals _ _ _ _ _ := nodev;
  host_g_selection _ _ _ := nodev; host_s_selection _ _ _ _ _ := nodev;
  host_g_std _ := nodev; host_s_std _ _ := nodev; host_querystd _ := nodev;
  host_enumstd _ _ := nodev; host_enuminput _ _ := nodev; host_enumoutput _ _ := nodev;
  host_g_input _ := nodev; host_s_input _ _ := nodev; host_g_output _ := nodev;
  host_s_output _ _ := nodev; host_g_tuner _ _ := nodev; host_s_tuner _ _ _ := nodev;
  host_g_audio _ := nodev; host_s_audio _ _ _ := nodev; host_enumaudio _ _ := nodev;
  host_g_audout _ := nodev; host_s_audout _ _ := nodev; host_enumaudout _ _ := nodev;
  host_g_modulator _ _ := nodev; host_s_modulator _ _ _ := nodev;
  host_g_frequency _ _ := nodev; host_s_frequency _ _ _ _ := nodev;
  host_g_ctrl _ _ := nodev; host_s_ctrl _ _ _ := nodev; host_queryctrl _ _ _ := nodev;
  host_querymenu _ _ _ := nodev; host_query_ext_ctrl _ _ _ := nodev;
  host_ext_ctrls _ _ _ l k := (k, (l, Ok tt));
  host_g_enc_index _ := nodev; host_encoder_cmd _ _ := nodev; host_try_encoder_cmd _ _ := nodev;
  host_decoder_cmd _ _ := nodev; host_try_decoder_cmd _ _ := nodev;
  host_s_dv_timings _ _ := nodev; host_g_dv_timings _ := nodev;
  host_enum_dv_timings _ _ := nodev; host_query_dv_timings _ := nodev;
  host_dv_timings_cap _ _ := Err ENODEV; host_enum_freq_bands _ _ _ _ _ := Err ENODEV;
  pending_events k _ := k_events k;
  ready_buffers k _ _ := length (k_ready k);
  polled := watched;
  disable_failed := k_refused;
|}.

#[export] Instance sample_host_laws : HostV4l2Laws khost.
Proof.
  split; cbn.
  - intros dev q i k k' b ps [= _ <-] [= <-]. constructor; [|constructor]. cbn.
    split; [mlia|apply as_u32_range].
  - intros dev k k' e. destruct (k_events k); naive_solver.
  - intros dev k k'. destruct (k_events k) eqn:Ek; [|done]. intros [= <-]. by rewrite Ek.
  - intros dev q k k' b. destruct (k_ready k); naive_solver lia.
  - by intros op dev which l k k' l' r [= _ <- _].
  - intros dev k k' p e. destruct (k_stuck k); [done|]. intros [= _ <-]. by destruct e.
  - intros e k k' p p' [= _ <-] e'. by destruct e, e', p as [[[] []] ?].
  - intros e k k' p p' err [=].
  - intros e k k' p p'. destruct (k_stuck k); [done|]. intros [= _ <-] e'.
    by destruct e, e', p as [[[] []] ?].
  - intros dev k k' p. destruct (k_stuck k); [done|]. by intros [= _ <-].
  - by intros e k k' p p' r [= _ <- _].
  - intros e k k' p p' r. destruct (k_stuck k); intros [= _ <- <-]; cbn; [by rewrite orb_true_r|].
    by rewrite orb_false_r.
  - by intros k k' p p' r [= _ <- _].
  - intros k k' p p' evs [= _ <- <-]. split.
    + destruct p as [[[] []] ?]; cbn; repeat constructor;
        (by intros [=]%list_elem_of_singleton) || (by intros ?%not_elem_of_nil).
    + destruct p as [[[] []] ?]; cbn; repeat constructor; eauto.
  - by intros k k' p p' r [= _ <- _].
Qed.

(** Guest memory mapped at increasing addresses. *)
#[export] Instance sample_mapper : VirtioMediaGuestMemoryMapper Z Z := {|
  new_mapping _ g := (g + 4096, Ok g); as_ptr r := r; as_mut_ptr r := (r, r); drop_range _ g := g;
|}.
End SampleHost.
