(* ===== verification/V4l2Proxy.v ===== *)
(** * The proxy device ([device/src/devices/v4l2_device_proxy.rs])

    Exposes a V4L2 device of the host to the guest.  Ioctls are passed on to the
    host through [HostV4l2] ([HostDevice.v]); the device keeps track of the MMAP
    buffers of every session, of the host addresses that stand for guest pointers
    in USERPTR buffers, and of whether the host must be polled for capture
    buffers.  The state of the host and of the guest memory mapper are fields of
    the device. *)

From Stdlib Require Import Strings.Byte.
From S2P Require Import Prelude RustStd Traits Mmap Bytes Protocol Io V4l2r Ioctl Runner MemFd HostDevice.
#[local] Open Scope Z_scope.

(** ** Ordered maps of the standard library *)

Definition key_le {A} (x y : Z * A) : Prop := x.1 ≤ y.1.
#[global] Instance key_le_dec {A} : RelDecision (@key_le A).
Proof. unfold key_le. solve_decision. Defined.

(** The entries of a [BTreeMap], in the order its iterators visit them. *)
Definition btree_entries {A} (m : gmap Z A) : list (Z * A) := merge_sort key_le (map_to_list m).

(** [i32 as usize] *)
Definition as_usize (z : Z) : Z := z `mod` 0x10000000000000000.

(** ** Data *)

(** [V4l2UserPlaneInfo] *)
Record V4l2UserPlaneInfo `{V4l2r} (R : Type) := mkUserPlaneInfo {
  up_queue : QueueType;
  up_index : Z;
  guest_addr : Z;
  guest_resource : R;
}.
Arguments mkUserPlaneInfo {_ R} _ _ _ _.
Arguments up_queue {_ R} _.
Arguments up_index {_ R} _.
Arguments guest_addr {_ R} _.
Arguments guest_resource {_ R} _.

(** [V4l2Session] *)
Record V4l2Session `{V4l2r} (K R : Type) `{!HostV4l2 K} := mkSession {
  ps_id : Z;
  ps_device : V4l2Device K;
  ps_poller : Poller K;
  capture_queue_type : option QueueType;
  output_queue_type : option QueueType;
  capture_streaming : bool;
  capture_num_queued : Z;
  output_streaming : bool;
  output_num_queued : Z;
  userptr_buffers : gmap Z (V4l2UserPlaneInfo R);
}.
Arguments mkSession {_ K R _} _ _ _ _ _ _ _ _ _ _.
Arguments ps_id {_ K R _} _.
Arguments ps_device {_ K R _} _.
Arguments ps_poller {_ K R _} _.
Arguments capture_queue_type {_ K R _} _.
Arguments output_queue_type {_ K R _} _.
Arguments capture_streaming {_ K R _} _.
Arguments capture_num_queued {_ K R _} _.
Arguments output_streaming {_ K R _} _.
Arguments output_num_queued {_ K R _} _.
Arguments userptr_buffers {_ K R _} _.

(** [V4l2MmapPlaneInfo] *)
Record V4l2MmapPlaneInfo `{V4l2r} := mkMmapPlaneInfo {
  pi_session_id : Z;
  pi_queue : QueueType;
  pi_index : Z;
  pi_plane : Z;
  pi_map_address : Z;
  pi_active : bool;
}.

(** [V4l2ProxyDevice] *)
Record V4l2ProxyDevice `{V4l2r} (Q G HM K : Type) := mkProxy {
  device_path : string;
  mem : G;
  evt_queue : Q;
  mmap_buffers : gmap Z V4l2MmapPlaneInfo;
  mmap_manager : MmapMappingManager HM;
  host : K;
}.
Arguments mkProxy {_ Q G HM K} _ _ _ _ _ _.
Arguments device_path {_ Q G HM K} _.
Arguments mem {_ Q G HM K} _.
Arguments evt_queue {_ Q G HM K} _.
Arguments mmap_buffers {_ Q G HM K} _.
Arguments mmap_manager {_ Q G HM K} _.
Arguments host {_ Q G HM K} _.

(** [QueueType::VideoCapture | QueueType::VideoCaptureMplane], and the output
    queues. *)
Definition is_video_capture `{V4l2r} (queue : QueueType) : bool :=
  bool_decide (queue = VideoCapture) || bool_decide (queue = VideoCaptureMplane).
Definition is_video_output `{V4l2r} (queue : QueueType) : bool :=
  bool_decide (queue = VideoOutput) || bool_decide (queue = VideoOutputMplane).

(** [plane.set_userptr(addr)] *)
Definition set_userptr (addr : Z) (p : Plane) : Plane :=
  mkPlane (p_length p) (p_bytesused p) (p_data_offset p) addr.

(** ** Guest and host buffers *)

Section Userptr.
Context `{V : V4l2r} {G R : Type} `{!VirtioMediaGuestMemoryMapper G R}.

(** Dropping a [Vec] of mappings. *)
Definition drop_ranges (l : list R) (g : G) : G := foldl (λ g r, drop_range r g) g l.

(** The loop of [guest_v4l2_buffer_to_host] over the planes of non-zero length
    zipped with the regions; an error drops the mappings made so far. *)
Fixpoint map_planes (writable : bool) (planes : list Plane) (regions : list (list SgEntry))
    (done : list Plane) (resources : list R) : M G unit (list Plane * list R) :=
  match planes with
  | [] => mret (done, resources)
  | p :: planes' =>
      if 0 <? p_length p then
        match regions with
        | [] => mret (done ++ p :: planes', resources)
        | mem_regions :: regions' =>
            res ← try_m (λ g, Ret (new_mapping mem_regions g));
            match res with
            | Err e => modify (drop_ranges resources) ;; throw e
            | Ok mapping =>
                let '(mapping, addr) :=
                  if writable then as_mut_ptr mapping else (mapping, as_ptr mapping) in
                map_planes writable planes' regions' (done ++ [set_userptr addr p])
                  (resources ++ [mapping])
            end
        end
      else map_planes writable planes' regions (done ++ [p]) resources
  end.

Definition guest_v4l2_buffer_to_host (guest_buffer : V4l2Buffer)
    (guest_regions : list (list SgEntry)) : M G unit (V4l2Buffer * list R) :=
  let writable := bool_decide (direction (buf_queue guest_buffer) = Capture) in
  match buf_planes guest_buffer with
  | BUserPtr planes =>
      '(planes, resources) ← map_planes writable planes guest_regions [] [];
      mret (buf_set_planes planes guest_buffer, resources)
  | _ => mret (guest_buffer, [])
  end.

(** The guest's pointer of a plane of the host, [None] being the error. *)
Definition restore_plane (userptrs : gmap Z (V4l2UserPlaneInfo R)) (p : Plane) : option Plane :=
  if p_backing p =? 0 then Some p
  else (λ info, set_userptr (guest_addr info) p) <$> userptrs !! p_backing p.

Definition host_v4l2_buffer_to_guest (host_buffer : V4l2Buffer)
    (userptrs : gmap Z (V4l2UserPlaneInfo R)) : option V4l2Buffer :=
  match buf_planes host_buffer with
  | BUserPtr planes =>
      planes ← mapM (restore_plane userptrs) planes;
      Some (buf_set_planes planes host_buffer)
  | _ => Some host_buffer
  end.

(** The host address, guest plane and mapping of each registration. *)
Definition userptr_pairs (host_buffer guest_buffer : V4l2Buffer) : list (Z * Plane) :=
  match buf_planes host_buffer, buf_planes guest_buffer with
  | BUserPtr host_planes, BUserPtr guest_planes =>
      filter (λ hp, hp.1 ≠ 0) (zip (p_backing <$> host_planes) guest_planes)
  | _, _ => []
  end.
End Userptr.

(** ** The device *)

Section Proxy.
Context `{BM : BuildMode} `{V : V4l2r}.
Context {Q G R HM K : Type} `{!VirtioMediaEventQueue Q} `{!VirtioMediaGuestMemoryMapper G R}.
Context `{!VirtioMediaHostMemoryMapper HM} `{!HostV4l2 K}.
Abbreviation Dev := (V4l2ProxyDevice Q G HM K).
Abbreviation Ses := (V4l2Session K R).
Abbreviation St := (Dev * Ses)%type.

(** *** Views of the state *)

Definition set_mem (g : G) (d : Dev) : Dev :=
  mkProxy (device_path d) g (evt_queue d) (mmap_buffers d) (mmap_manager d) (host d).
Definition set_evt_queue (q : Q) (d : Dev) : Dev :=
  mkProxy (device_path d) (mem d) q (mmap_buffers d) (mmap_manager d) (host d).
Definition set_mmap_buffers (m : gmap Z V4l2MmapPlaneInfo) (d : Dev) : Dev :=
  mkProxy (device_path d) (mem d) (evt_queue d) m (mmap_manager d) (host d).
Definition set_manager (mm : MmapMappingManager HM) (d : Dev) : Dev :=
  mkProxy (device_path d) (mem d) (evt_queue d) (mmap_buffers d) mm (host d).
Definition set_host (k : K) (d : Dev) : Dev :=
  mkProxy (device_path d) (mem d) (evt_queue d) (mmap_buffers d) (mmap_manager d) k.

Definition set_poller (p : Poller K) (s : Ses) : Ses :=
  mkSession (ps_id s) (ps_device s) p (capture_queue_type s) (output_queue_type s)
    (capture_streaming s) (capture_num_queued s) (output_streaming s) (output_num_queued s)
    (userptr_buffers s).
Definition set_capture_type (q : option QueueType) (s : Ses) : Ses :=
  mkSession (ps_id s) (ps_device s) (ps_poller s) q (output_queue_type s)
    (capture_streaming s) (capture_num_queued s) (output_streaming s) (output_num_queued s)
    (userptr_buffers s).
Definition set_output_type (q : option QueueType) (s : Ses) : Ses :=
  mkSession (ps_id s) (ps_device s) (ps_poller s) (capture_queue_type s) q
    (capture_streaming s) (capture_num_queued s) (output_streaming s) (output_num_queued s)
    (userptr_buffers s).
Definition set_capture (streaming : bool) (queued : Z) (s : Ses) : Ses :=
  mkSession (ps_id s) (ps_device s) (ps_poller s) (capture_queue_type s) (output_queue_type s)
    streaming queued (output_streaming s) (output_num_queued s) (userptr_buffers s).
Definition set_output (streaming : bool) (queued : Z) (s : Ses) : Ses :=
  mkSession (ps_id s) (ps_device s) (ps_poller s) (capture_queue_type s) (output_queue_type s)
    (capture_streaming s) (capture_num_queued s) streaming queued (userptr_buffers s).
Definition set_userptrs (m : gmap Z (V4l2UserPlaneInfo R)) (s : Ses) : Ses :=
  mkSession (ps_id s) (ps_device s) (ps_poller s) (capture_queue_type s) (output_queue_type s)
    (capture_streaming s) (capture_num_queued s) (output_streaming s) (output_num_queued s) m.

Definition on_dev {E A} (m : M Dev E A) : M St E A := zoom fst (λ d st, (d, st.2)) m.
Definition dev_mm {E A} (m : M (MmapMappingManager HM) E A) : M Dev E A :=
  zoom mmap_manager set_manager m.
Definition dev_mem {E A} (m : M G E A) : M Dev E A := zoom mem set_mem m.
Definition dev_host {E A} (f : K → K * result A E) : M Dev E A :=
  zoom host set_host (λ k, Ret (f k)).
Definition modify_ses {E} (f : Ses → Ses) : M St E unit := modify (λ st, (st.1, f st.2)).
Definition modify_dev {E} (f : Dev → Dev) : M St E unit := modify (λ st, (f st.1, st.2)).

(** [v4l2r::ioctl::f(&session.device, ..)], from a method that borrows the session
    immutably or mutably. *)
Definition host_ref {E A} (f : V4l2Device K → K → K * result A E) (s : Ses) : M Dev E A :=
  dev_host (f (ps_device s)).
Definition host_mut {E A} (f : V4l2Device K → K → K * result A E) : M St E A :=
  s ← gets snd; on_dev (host_ref f s).

(** A call on the session's poller. *)
Definition on_poller {A} (f : sys (K * Poller K) A) : M St Z A := λ st,
  let '((k, p), r) := f (host st.1, ps_poller st.2) in
  Ret ((set_host k st.1, set_poller p st.2), r).

(** [self.evt_queue.send_event(e)] *)
Definition send {E} (e : V4l2Event V4l2Buffer (vstruct v4l2_event)) : M St E unit :=
  modify_dev (λ d, set_evt_queue (send_event e (evt_queue d)) d).
(** [self.evt_queue.send_error(session.id, err); return Err(err)] *)
Definition fail {A} (err : Z) : M St Z A :=
  s ← gets snd;
  modify_dev (λ d, set_evt_queue (send_error (ps_id s) err (evt_queue d)) d) ;;
  throw err.

(** *** [V4l2Session] *)

(** [V4l2Session::new] *)
Definition V4l2Session_new (id : Z) (device : V4l2Device K) : M Dev Z Ses :=
  p ← try_m (dev_host (poller_new device));
  match p with
  | Err _ => panic
  | Ok p =>
      d ← get_st;
      let '((k, p), res) := enable_event V4L2Event (host d, p) in
      modify (set_host k) ;;
      match res with
      | Err _ => panic
      | Ok _ => mret (mkSession id device p None None false 0 false 0 ∅)
      end
  end.

Definition should_poll_capture (s : Ses) : bool :=
  capture_streaming s && (0 <? capture_num_queued s).

(** One registration; an overwritten entry drops its mapping. *)
Definition register_userptr {E} (guest_buffer : V4l2Buffer) (x : (Z * Plane) * R) :
    M St E unit :=
  let '((host_userptr, guest_plane), resource) := x in
  s ← gets snd;
  modify_dev (λ d, match userptr_buffers s !! host_userptr with
                   | Some old => set_mem (drop_range (guest_resource old) (mem d)) d
                   | None => d
                   end) ;;
  modify_ses (set_userptrs (<[host_userptr :=
    mkUserPlaneInfo (buf_queue guest_buffer) (as_u8 (buf_index guest_buffer))
      (p_backing guest_plane) resource]> (userptr_buffers s))).

(** The mappings that are not registered are dropped. *)
Definition register_userptr_addresses {E} (host_buffer guest_buffer : V4l2Buffer)
    (guest_resources : list R) : M St E unit :=
  let pairs := userptr_pairs host_buffer guest_buffer in
  forM_ (register_userptr guest_buffer) (zip pairs guest_resources) ;;
  modify_dev (λ d, set_mem (drop_ranges (drop (length pairs) guest_resources) (mem d)) d).

(** [session.userptr_buffers.retain(|_, v| keep(v))]: the mappings of the entries
    removed are dropped. *)
Definition retain_userptrs {E} (keep : V4l2UserPlaneInfo R → bool) : M St E unit :=
  s ← gets snd;
  let gone := filter (λ x, keep x.2 = false) (btree_entries (userptr_buffers s)) in
  modify_dev (λ d, set_mem (drop_ranges ((λ x, guest_resource x.2) <$> gone) (mem d)) d) ;;
  modify_ses (set_userptrs (filter (λ x, keep x.2 = true) (userptr_buffers s))).

(** The closure of both calls: not of queue [queue_type], or not at [index]. *)
Definition other_buffer (queue_type : option QueueType) (index : Z) (v : V4l2UserPlaneInfo R) : bool :=
  negb (bool_decide (Some (up_queue v) = queue_type)) || negb (up_index v =? as_u8 index).

(** *** [V4l2ProxyDevice] *)

(** [V4l2ProxyDevice::new] *)
Definition V4l2ProxyDevice_new (path : string) (q : Q) (g : G) (hm : HM) (k : K) : Dev :=
  mkProxy path g q ∅ (manager_from hm) k.

Definition deactivate (b : V4l2MmapPlaneInfo) : V4l2MmapPlaneInfo :=
  mkMmapPlaneInfo _ (pi_session_id b) (pi_queue b) (pi_index b) (pi_plane b)
    (pi_map_address b) false.

(** The loop over [mmap_buffers.iter_mut()] that unregisters the entries that
    satisfy [gone], and the [retain] that removes them. *)
Definition release_buffers {E} (gone : V4l2MmapPlaneInfo → bool) : M Dev E unit :=
  d ← get_st;
  forM_ (λ x, dev_mm (unregister_buffer x.1) ;;
              modify (λ d, set_mmap_buffers (<[x.1 := deactivate x.2]> (mmap_buffers d)) d))
    (filter (λ x, gone x.2 = true) (btree_entries (mmap_buffers d))) ;;
  modify (λ d, set_mmap_buffers (filter (λ x, pi_active x.2 = true) (mmap_buffers d)) d).

Definition delete_session {E} (session : Ses) : M Dev E unit :=
  release_buffers (λ b, pi_session_id b =? ps_id session).

(** The body of the loop over the planes of a MMAP buffer; [j] is the index of
    the plane. *)
Definition add_plane {E} (id : Z) (queue : QueueType) (buffer : V4l2Buffer) (x : nat * Plane) :
    M Dev E unit :=
  let offset := p_backing x.2 in
  res ← try_m (dev_mm (register_buffer (Some offset) (p_length x.2)));
  match res with
  | Err _ => panic
  | Ok _ =>
      modify (λ d, set_mmap_buffers (<[offset :=
        mkMmapPlaneInfo _ id queue (as_u8 (buf_index buffer)) (as_u8 (Z.of_nat x.1)) 0 true]>
        (mmap_buffers d)) d)
  end.

(** The body of the loop over the new buffers. *)
Definition add_buffer {E} (s : Ses) (queue : QueueType) (i : Z) : M Dev E unit :=
  res ← try_m (host_ref (λ dev, host_querybuf dev queue i) s);
  match res with
  | Err _ => mret tt
  | Ok buffer =>
      match buf_planes buffer with
      | BMmap planes => forM_ (add_plane (ps_id s) queue buffer) (imap pair planes)
      | _ => mret tt
      end
  end.

(** The range is [start..end_]. *)
Definition update_mmap_offsets {E} (queue : QueueType) (start end_ : Z) : M St E unit :=
  s ← gets snd;
  on_dev (release_buffers (λ b,
    (pi_session_id b =? ps_id s) && bool_decide (pi_queue b = queue) &&
    ((end_ <=? start) || (start <=? pi_index b)))) ;;
  on_dev (forM_ (add_buffer s queue) (seqZ start (end_ - start))) ;;
  modify_ses (λ s, if is_video_capture queue then set_capture_type (Some queue) s
                   else if is_video_output queue then set_output_type (Some queue) s else s).

(** The loop of [dequeue_events]; running out of fuel is a panic. *)
Fixpoint dequeue_events_loop (fuel : nat) : M St Z unit :=
  match fuel with
  | O => panic
  | S fuel' =>
      s ← gets snd;
      res ← try_m (host_mut host_dqevent);
      match res with
      | Ok event =>
          send (EvEvent (SessionEvent_new (ps_id s) event)) ;; dequeue_events_loop fuel'
      | Err DqEventNotReady => mret tt
      | Err (DqEventOther err) => fail err
      end
  end.

Definition dequeue_events : M St Z unit := λ st,
  dequeue_events_loop (S (length (pending_events (host st.1) (ps_device st.2)))) st.

(** The loop of [dequeue_output_buffers]. *)
Fixpoint dequeue_output_loop (fuel : nat) (queue_type : QueueType) : M St Z unit :=
  match fuel with
  | O => panic
  | S fuel' =>
      s ← gets snd;
      res ← try_m (host_mut (λ dev, host_dqbuf dev queue_type));
      match res with
      | Ok buffer =>
          retain_userptrs (other_buffer (output_queue_type s) (buf_index buffer)) ;;
          send (EvDequeueBuffer (DequeueBufferEvent_new (ps_id s) buffer)) ;;
          dequeue_output_loop fuel' queue_type
      | Err DqBufEos | Err DqBufNotReady => mret tt
      | Err (DqBufOther err) => fail err
      end
  end.

Definition dequeue_output_buffers : M St Z unit :=
  st ← get_st;
  let session := st.2 in
  match output_queue_type session with
  | None => mret tt
  | Some queue_type =>
      if negb (output_streaming session) || (output_num_queued session =? 0) then mret tt
      else dequeue_output_loop (S (ready_buffers (host st.1) (ps_device session) queue_type)) queue_type
  end.

(** [if let Err(e) = session.poller.disable_event(..) { error!(..) }] *)
Definition disable_capture {E} : M St E unit := ignore_err (on_poller (disable_event CaptureReady)).
Definition enable_capture {E} : M St E unit := ignore_err (on_poller (enable_event CaptureReady)).

Definition dequeue_capture_buffer : M St Z unit :=
  session ← gets snd;
  match capture_queue_type session with
  | None => mret tt
  | Some queue_type =>
      res ← try_m (host_mut (λ dev, host_dqbuf dev queue_type));
      match res with
      | Err DqBufEos | Err DqBufNotReady => mret tt
      | Err (DqBufOther err) => fail err
      | Ok buffer =>
          retain_userptrs (other_buffer (capture_queue_type session) (buf_index buffer)) ;;
          let capture_polling_active := should_poll_capture session in
          queued ← lift_outcome (u64_sub (capture_num_queued session) 1);
          modify_ses (λ s, set_capture (capture_streaming s) queued s) ;;
          (if (capture_polling_active && (queued =? 0)) ||
              (Z.land (buf_flags buffer) FLAG_LAST =? FLAG_LAST)
           then disable_capture else mret tt) ;;
          send (EvDequeueBuffer (DequeueBufferEvent_new (ps_id session) buffer))
      end
  end.

(** *** [perform_ext_ctrls_ioctl] *)

(** The address of the payload of a control. *)
Definition CTRL_PTR : string := "__bindgen_anon_1.ptr".

(** Maps the payloads of the controls that have one; an error is a panic. *)
Definition map_payloads {E} (ctrl_array : list (vstruct v4l2_ext_control))
    (mem_regions : list (list SgEntry)) : M Dev E (list R) :=
  mapM_m (λ x, res ← try_m (dev_mem (λ g, Ret (new_mapping x.2 g)));
               match res with Ok r => mret r | Err _ => panic end)
    (zip (filter (λ ctrl, 0 < fld ctrl "size") ctrl_array) mem_regions).

(** Replaces the pointers of the controls that have a payload by those of the
    mappings. *)
Fixpoint patch_ptrs (ctrl_array : list (vstruct v4l2_ext_control)) (payloads : list R) :
    list (vstruct v4l2_ext_control) * list R :=
  match ctrl_array with
  | [] => ([], payloads)
  | ctrl :: ctrls =>
      if 0 <? fld ctrl "size" then
        match payloads with
        | [] => (ctrl :: ctrls, [])
        | payload :: payloads' =>
            let '(payload, addr) := as_mut_ptr payload in
            let '(ctrls, payloads') := patch_ptrs ctrls payloads' in
            (set_fld CTRL_PTR addr ctrl :: ctrls, payload :: payloads')
        end
      else let '(ctrls, payloads') := patch_ptrs ctrls payloads in (ctrl :: ctrls, payloads')
  end.

(** Puts back the pointers of the backup. *)
Definition restore_ptrs (ctrl_array backup : list (vstruct v4l2_ext_control)) :
    list (vstruct v4l2_ext_control) :=
  imap (λ i ctrl, match backup !! i with
                  | Some b => if 0 <? fld b "size" then set_fld CTRL_PTR (fld b CTRL_PTR) ctrl
                              else ctrl
                  | None => ctrl
                  end) ctrl_array.

Definition perform_ext_ctrls_ioctl (ioctl : ExtCtrlIoctl) (which : CtrlWhich) (args : Call.ext_args)
    (mem_regions : list (list SgEntry)) (s : Ses) : M Dev (Z * Call.ext_args) Call.ext_args :=
  let '(ctrls, ctrl_array) := args in
  payloads ← map_payloads ctrl_array mem_regions;
  let '(patched, payloads) := patch_ptrs ctrl_array payloads in
  d ← get_st;
  let '(k, (updated, res)) := host_ext_ctrls ioctl (ps_device s) which patched (host d) in
  modify (set_host k) ;;
  let updated := restore_ptrs updated ctrl_array in
  modify (λ d, set_mem (drop_ranges payloads (mem d)) d) ;;
  match res with
  | Ok _ => mret (ctrls, updated)
  | Err e => throw (ext_errno e, (set_fld "error_idx" (error_idx e) ctrls, updated))
  end.

(** *** [VirtioMediaIoctlHandler] *)

(** [session.capture_streaming = false; session.capture_num_queued = 0;] and the
    end of polling. *)
Definition stop_capture {E} : M St E unit :=
  s ← gets snd;
  let was_polling_capture := should_poll_capture s in
  modify_ses (set_capture false 0) ;;
  if was_polling_capture then disable_capture else mret tt.

Definition reqbufs (queue : QueueType) (memory : MemoryType) (count : Z) (flags : MemoryConsistency) :
    M St Z (vstruct v4l2_requestbuffers) :=
  reqbufs ← host_mut (λ dev, host_reqbufs dev queue memory count flags);
  let reqbufs := set_fld "capabilities" (Z.ldiff (fld reqbufs "capabilities")
    (vconst "V4L2_BUF_CAP_SUPPORTS_REQUESTS")) reqbufs in
  update_mmap_offsets queue 0 (fld reqbufs "count") ;;
  (if is_video_capture queue then
     if fld reqbufs "count" =? 0 then stop_capture else mret tt
   else if is_video_output queue then
     if fld reqbufs "count" =? 0 then modify_ses (set_output false 0) else mret tt
   else mret tt) ;;
  mret reqbufs.

Definition querybuf (queue : QueueType) (index : Z) (s : Ses) : M Dev Z V4l2Buffer :=
  host_buffer ← host_ref (λ dev, host_querybuf dev queue index) s;
  ok_or (host_v4l2_buffer_to_guest host_buffer (userptr_buffers s)) EINVAL.

Definition streamon (queue : QueueType) : M St Z unit :=
  host_mut (λ dev, host_streamon dev queue) ;;
  s ← gets snd;
  if is_video_capture queue && negb (capture_streaming s) then
    modify_ses (λ s, set_capture true (capture_num_queued s) s) ;;
    s ← gets snd;
    if should_poll_capture s then enable_capture else mret tt
  else if is_video_output queue && negb (output_streaming s) then
    modify_ses (λ s, set_output true (output_num_queued s) s)
  else mret tt.

Definition streamoff (queue : QueueType) : M St Z unit :=
  host_mut (λ dev, host_streamoff dev queue) ;;
  if is_video_capture queue then stop_capture
  else if is_video_output queue then modify_ses (set_output false 0)
  else mret tt.

(** The first steps of [qbuf] and [prepare_buf]: the buffer of the host. *)
Definition import_buffer (guest_buffer : V4l2Buffer) (guest_regions : list (list SgEntry)) :
    M St Z V4l2Buffer :=
  '(host_buffer, guest_resources) ←
    map_err (λ _, EINVAL) (on_dev (dev_mem (guest_v4l2_buffer_to_host guest_buffer guest_regions)));
  register_userptr_addresses host_buffer guest_buffer guest_resources ;;
  mret host_buffer.

(** Their last step. *)
Definition export_buffer (host_out_buffer : V4l2Buffer) : M St Z V4l2Buffer :=
  s ← gets snd;
  ok_or (host_v4l2_buffer_to_guest host_out_buffer (userptr_buffers s)) EINVAL.

(** The bookkeeping of a buffer that was queued. *)
Definition count_queued (queue : QueueType) : M St Z unit :=
  s ← gets snd;
  if is_video_capture queue then
    let was_polling_capture := should_poll_capture s in
    queued ← lift_outcome (u64_add (capture_num_queued s) 1);
    modify_ses (λ s, set_capture (capture_streaming s) queued s) ;;
    s ← gets snd;
    if negb was_polling_capture && should_poll_capture s then enable_capture else mret tt
  else if is_video_output queue then
    queued ← lift_outcome (u64_add (output_num_queued s) 1);
    modify_ses (λ s, set_output (output_streaming s) queued s)
  else mret tt.

Definition qbuf (guest_buffer : V4l2Buffer) (guest_regions : list (list SgEntry)) :
    M St Z V4l2Buffer :=
  ignore_err dequeue_output_buffers ;;
  host_buffer ← import_buffer guest_buffer guest_regions;
  let queue := buf_queue host_buffer in
  host_out_buffer ← host_mut (λ dev, host_qbuf dev host_buffer);
  out_buffer ← export_buffer host_out_buffer;
  count_queued queue ;;
  mret out_buffer.

Definition prepare_buf (guest_buffer : V4l2Buffer) (guest_regions : list (list SgEntry)) :
    M St Z V4l2Buffer :=
  host_buffer ← import_buffer guest_buffer guest_regions;
  host_out_buffer ← host_mut (λ dev, host_prepare_buf dev host_buffer);
  export_buffer host_out_buffer.

Definition subscribe_event (event : EventType) (flags : SubscribeEventFlags) : M St Z unit :=
  host_mut (λ dev, host_subscribe_event dev event flags) ;;
  if contains_SEND_INITIAL flags then ignore_err dequeue_events else mret tt.

Definition unsubscribe_event (event : vstruct v4l2_event_subscription) : M St Z unit :=
  if fld event "type_" =? vconst "V4L2_EVENT_ALL" then host_mut host_unsubscribe_all_events
  else
    event ← ok_or (EventType_try_from event) EINVAL;
    host_mut (λ dev, host_unsubscribe_event dev event).

Definition create_bufs (count : Z) (queue : QueueType) (memory : MemoryType)
    (format : vstruct v4l2_format) : M St Z (vstruct v4l2_create_buffers) :=
  create_bufs ← host_mut (λ dev, host_create_bufs dev count memory format);
  (if 0 <? count then
     end_ ← lift_outcome (u32_add (fld create_bufs "index") (fld create_bufs "count"));
     update_mmap_offsets queue (fld create_bufs "index") end_
   else mret tt) ;;
  mret create_bufs.

(** [.map(|value| v4l2_control { id, value })] *)
Definition g_ctrl (id : Z) (s : Ses) : M Dev Z (vstruct v4l2_control) :=
  value ← host_ref (λ dev, host_g_ctrl dev id) s;
  mret (vmk v4l2_control [("id", id); ("value", value)]).
Definition s_ctrl (id value : Z) : M St Z (vstruct v4l2_control) :=
  value ← host_mut (λ dev, host_s_ctrl dev id value);
  mret (vmk v4l2_control [("id", id); ("value", value)]).

Definition g_input (s : Ses) : M Dev Z i32 :=
  i ← host_ref host_g_input s; mret (mkI32 (as_i32 i)).
Definition s_input (input : i32) : M St Z i32 :=
  i ← host_mut (λ dev, host_s_input dev (as_usize (i32_val input))); mret (mkI32 (as_i32 i)).
Definition g_output (s : Ses) : M Dev Z i32 :=
  o ← host_ref host_g_output s; mret (mkI32 (as_i32 o)).
Definition s_output (output : i32) : M St Z i32 :=
  host_mut (λ dev, host_s_output dev (as_usize (i32_val output))) ;; mret output.

(** Ioctls that are passed on to the host as they are. *)

Definition enum_fmt (queue : QueueType) (index : Z) (s : Ses) : M Dev Z (vstruct v4l2_fmtdesc) :=
  host_ref (λ dev, host_enum_fmt dev queue index) s.
Definition g_fmt (queue : QueueType) (s : Ses) : M Dev Z (vstruct v4l2_format) :=
  host_ref (λ dev, host_g_fmt dev queue) s.
Definition s_fmt (_queue : QueueType) (format : vstruct v4l2_format) : M St Z (vstruct v4l2_format) :=
  host_mut (λ dev, host_s_fmt dev format).
Definition try_fmt (_queue : QueueType) (format : vstruct v4l2_format) (s : Ses) : M Dev Z (vstruct v4l2_format) :=
  host_ref (λ dev, host_try_fmt dev format) s.
Definition g_parm (queue : QueueType) (s : Ses) : M Dev Z (vstruct v4l2_streamparm) :=
  host_ref (λ dev, host_g_parm dev queue) s.
Definition s_parm (parm : vstruct v4l2_streamparm) : M St Z (vstruct v4l2_streamparm) :=
  host_mut (λ dev, host_s_parm dev parm).
Definition g_std (s : Ses) : M Dev Z (vstruct v4l2_std_id) :=
  host_ref host_g_std s.
Definition s_std (std : vstruct v4l2_std_id) : M St Z unit :=
  host_mut (λ dev, host_s_std dev std).
Definition querystd (s : Ses) : M Dev Z (vstruct v4l2_std_id) :=
  host_ref host_querystd s.
Definition enumstd (index : Z) (s : Ses) : M Dev Z (vstruct v4l2_standard) :=
  host_ref (λ dev, host_enumstd dev index) s.
Definition enuminput (index : Z) (s : Ses) : M Dev Z (vstruct v4l2_input) :=
  host_ref (λ dev, host_enuminput dev index) s.
Definition enumoutput (index : Z) (s : Ses) : M Dev Z (vstruct v4l2_output) :=
  host_ref (λ dev, host_enumoutput dev index) s.
Definition g_tuner (index : Z) (s : Ses) : M Dev Z (vstruct v4l2_tuner) :=
  host_ref (λ dev, host_g_tuner dev index) s.
Definition s_tuner (index : Z) (mode : TunerMode) : M St Z unit :=
  host_mut (λ dev, host_s_tuner dev index mode).
Definition g_audio (s : Ses) : M Dev Z (vstruct v4l2_audio) :=
  host_ref host_g_audio s.
Definition s_audio (index : Z) (mode : option AudioMode) : M St Z unit :=
  host_mut (λ dev, host_s_audio dev index mode).
Definition enumaudio (index : Z) (s : Ses) : M Dev Z (vstruct v4l2_audio) :=
  host_ref (λ dev, host_enumaudio dev index) s.
Definition g_audout (s : Ses) : M Dev Z (vstruct v4l2_audioout) :=
  host_ref host_g_audout s.
Definition s_audout (index : Z) : M St Z unit :=
  host_mut (λ dev, host_s_audout dev index).
Definition enumaudout (index : Z) (s : Ses) : M Dev Z (vstruct v4l2_audioout) :=
  host_ref (λ dev, host_enumaudout dev index) s.
Definition g_modulator (index : Z) (s : Ses) : M Dev Z (vstruct v4l2_modulator) :=
  host_ref (λ dev, host_g_modulator dev index) s.
Definition s_modulator (index : Z) (flags : TunerTransmissionFlags) : M St Z unit :=
  host_mut (λ dev, host_s_modulator dev index flags).
Definition g_frequency (tuner : Z) (s : Ses) : M Dev Z (vstruct v4l2_frequency) :=
  host_ref (λ dev, host_g_frequency dev tuner) s.
Definition s_frequency (tuner : Z) (type_ : TunerType) (frequency : Z) : M St Z unit :=
  host_mut (λ dev, host_s_frequency dev tuner type_ frequency).
Definition queryctrl (id : CtrlId) (flags : QueryCtrlFlags) (s : Ses) : M Dev Z (vstruct v4l2_queryctrl) :=
  host_ref (λ dev, host_queryctrl dev id flags) s.
Definition querymenu (id : Z) (index : Z) (s : Ses) : M Dev Z (vstruct v4l2_querymenu) :=
  host_ref (λ dev, host_querymenu dev id index) s.
Definition query_ext_ctrl (id : CtrlId) (flags : QueryCtrlFlags) (s : Ses) : M Dev Z (vstruct v4l2_query_ext_ctrl) :=
  host_ref (λ dev, host_query_ext_ctrl dev id flags) s.
Definition enum_framesizes (index : Z) (pixel_format : Z) (s : Ses) : M Dev Z (vstruct v4l2_frmsizeenum) :=
  host_ref (λ dev, host_enum_frame_sizes dev index pixel_format) s.
Definition enum_frameintervals (index : Z) (pixel_format : Z) (width : Z) (height : Z) (s : Ses) : M Dev Z (vstruct v4l2_frmivalenum) :=
  host_ref (λ dev, host_enum_frame_intervals dev index pixel_format width height) s.
Definition g_enc_index (s : Ses) : M Dev Z (vstruct v4l2_enc_idx) :=
  host_ref host_g_enc_index s.
Definition encoder_cmd (cmd : vstruct v4l2_encoder_cmd) : M St Z (vstruct v4l2_encoder_cmd) :=
  host_mut (λ dev, host_encoder_cmd dev cmd).
Definition try_encoder_cmd (cmd : vstruct v4l2_encoder_cmd) (s : Ses) : M Dev Z (vstruct v4l2_encoder_cmd) :=
  host_ref (λ dev, host_try_encoder_cmd dev cmd) s.
Definition decoder_cmd (cmd : vstruct v4l2_decoder_cmd) : M St Z (vstruct v4l2_decoder_cmd) :=
  host_mut (λ dev, host_decoder_cmd dev cmd).
Definition try_decoder_cmd (cmd : vstruct v4l2_decoder_cmd) (s : Ses) : M Dev Z (vstruct v4l2_decoder_cmd) :=
  host_ref (λ dev, host_try_decoder_cmd dev cmd) s.
Definition s_dv_timings (timings : vstruct v4l2_dv_timings) : M St Z (vstruct v4l2_dv_timings) :=
  host_mut (λ dev, host_s_dv_timings dev timings).
Definition g_dv_timings (s : Ses) : M Dev Z (vstruct v4l2_dv_timings) :=
  host_ref host_g_dv_timings s.
Definition enum_dv_timings (index : Z) (s : Ses) : M Dev Z (vstruct v4l2_dv_timings) :=
  host_ref (λ dev, host_enum_dv_timings dev index) s.
Definition query_dv_timings (s : Ses) : M Dev Z (vstruct v4l2_dv_timings) :=
  host_ref host_query_dv_timings s.
Definition g_selection (sel_type : SelectionType) (sel_target : SelectionTarget) (s : Ses) : M Dev Z v4l2_rect :=
  host_ref (λ dev, host_g_selection dev sel_type sel_target) s.
Definition s_selection (sel_type : SelectionType) (sel_target : SelectionTarget) (sel_rect : v4l2_rect) (sel_flags : SelectionFlags) : M St Z v4l2_rect :=
  host_mut (λ dev, host_s_selection dev sel_type sel_target sel_rect sel_flags).
Definition dv_timings_cap (d : Dev) (s : Ses) : outcome (result (vstruct v4l2_dv_timings_cap) Z) :=
  Ret (host_dv_timings_cap (ps_device s) (host d)).
Definition enum_freq_bands (tuner : Z) (type_ : TunerType) (index : Z) (d : Dev) (s : Ses) :
    outcome (result (vstruct v4l2_frequency_band) Z) :=
  Ret (host_enum_freq_bands (ps_device s) tuner type_ index (host d)).

Definition g_ext_ctrls := perform_ext_ctrls_ioctl Get.
(** The session is borrowed mutably, and only its device is used. *)
Definition s_ext_ctrls (which : CtrlWhich) (args : Call.ext_args)
    (user_regions : list (list SgEntry)) : M St (Z * Call.ext_args) Call.ext_args :=
  s ← gets snd; on_dev (perform_ext_ctrls_ioctl Set_ which args user_regions s).
Definition try_ext_ctrls := perform_ext_ctrls_ioctl Try.

#[export] Instance proxy_handler : VirtioMediaIoctlHandler Dev Ses :=
  λ a E T c,
  match c in Call.ioctl_call a E T return method Dev Ses a E T with
  | Call.enum_fmt queue index => enum_fmt queue index
  | Call.g_fmt queue => g_fmt queue
  | Call.s_fmt queue format => s_fmt queue format
  | Call.reqbufs queue memory count flags => reqbufs queue memory count flags
  | Call.querybuf queue index => querybuf queue index
  | Call.qbuf buffer guest_regions => qbuf buffer guest_regions
  | Call.streamon queue => streamon queue
  | Call.streamoff queue => streamoff queue
  | Call.g_parm queue => g_parm queue
  | Call.s_parm parm => s_parm parm
  | Call.g_std => g_std
  | Call.s_std std => s_std std
  | Call.enumstd index => enumstd index
  | Call.enuminput index => enuminput index
  | Call.g_ctrl id => g_ctrl id
  | Call.s_ctrl id value => s_ctrl id value
  | Call.g_tuner index => g_tuner index
  | Call.s_tuner index mode => s_tuner index mode
  | Call.g_audio => g_audio
  | Call.s_audio index mode => s_audio index mode
  | Call.queryctrl id flags => queryctrl id flags
  | Call.querymenu id index => querymenu id index
  | Call.g_input => g_input
  | Call.s_input input => s_input input
  | Call.g_output => g_output
  | Call.s_output output => s_output output
  | Call.enumoutput index => enumoutput index
  | Call.g_audout => g_audout
  | Call.s_audout index => s_audout index
  | Call.g_modulator index => g_modulator index
  | Call.s_modulator index flags => s_modulator index flags
  | Call.g_frequency tuner => g_frequency tuner
  | Call.s_frequency tuner type_ frequency => s_frequency tuner type_ frequency
  | Call.querystd => querystd
  | Call.try_fmt queue format => try_fmt queue format
  | Call.enumaudio index => enumaudio index
  | Call.enumaudout index => enumaudout index
  | Call.g_ext_ctrls which args user_regions => g_ext_ctrls which args user_regions
  | Call.s_ext_ctrls which args user_regions => s_ext_ctrls which args user_regions
  | Call.try_ext_ctrls which args user_regions => try_ext_ctrls which args user_regions
  | Call.enum_framesizes index pixel_format => enum_framesizes index pixel_format
  | Call.enum_frameintervals index pixel_format width height => enum_frameintervals index pixel_format width height
  | Call.g_enc_index => g_enc_index
  | Call.encoder_cmd cmd => encoder_cmd cmd
  | Call.try_encoder_cmd cmd => try_encoder_cmd cmd
  | Call.s_dv_timings timings => s_dv_timings timings
  | Call.g_dv_timings => g_dv_timings
  | Call.subscribe_event event flags => subscribe_event event flags
  | Call.unsubscribe_event event => unsubscribe_event event
  | Call.create_bufs count queue memory format => create_bufs count queue memory format
  | Call.prepare_buf buffer guest_regions => prepare_buf buffer guest_regions
  | Call.g_selection sel_type sel_target => g_selection sel_type sel_target
  | Call.s_selection sel_type sel_target sel_rect sel_flags => s_selection sel_type sel_target sel_rect sel_flags
  | Call.decoder_cmd cmd => decoder_cmd cmd
  | Call.try_decoder_cmd cmd => try_decoder_cmd cmd
  | Call.enum_dv_timings index => enum_dv_timings index
  | Call.query_dv_timings => query_dv_timings
  | Call.dv_timings_cap => dv_timings_cap
  | Call.enum_freq_bands tuner type_ index => enum_freq_bands tuner type_ index
  | Call.query_ext_ctrl id flags => query_ext_ctrl id flags
  end.

(** *** [VirtioMediaDevice] *)

Definition proxy_new_session (session_id : Z) : M Dev Z Ses :=
  d ← get_st;
  device ← try_m (dev_host (device_open (device_path d)));
  match device with
  | Ok device => V4l2Session_new session_id device
  | Err (OpenError e) | Err (QueryCapError e) => throw e
  end.

(** The session is dropped at the end, with its mappings. *)
Definition proxy_close_session (session : Ses) (d : Dev) : outcome Dev :=
  '(d, _) ← delete_session (E := Empty_set) session d;
  Ret (set_mem (drop_ranges ((λ x, guest_resource x.2) <$> btree_entries (userptr_buffers session))
    (mem d)) d).

Definition proxy_do_mmap (flags offset : Z) : M St Z (Z * Z) :=
  let rw := negb (Z.land flags VIRTIO_MEDIA_MMAP_FLAG_RW =? 0) in
  d ← gets fst;
  plane_info ← ok_or (mmap_buffers d !! offset) EINVAL;
  exported_fd ← host_mut (λ dev, host_expbuf dev (pi_queue plane_info) (pi_index plane_info)
    (pi_plane plane_info) (if rw then RDWR else RDONLY));
  '(mapping_addr, mapping_size) ←
    map_err (λ _, EINVAL) (on_dev (dev_mm (create_mapping offset exported_fd rw)));
  modify_dev (λ d, set_mmap_buffers (<[offset :=
    mkMmapPlaneInfo _ (pi_session_id plane_info) (pi_queue plane_info) (pi_index plane_info)
      (pi_plane plane_info) mapping_addr (pi_active plane_info)]> (mmap_buffers d)) d) ;;
  mret (mapping_addr, mapping_size).

Definition proxy_do_munmap (guest_addr : Z) : M Dev Z unit :=
  map_err (λ _, EINVAL) (dev_mm (remove_mapping guest_addr)) ;; mret tt.

(** The body of the loop over the events of a poll. *)
Definition process_event (event : PollEvent) : M St Z unit :=
  match event with
  | PollDevice CaptureReady => dequeue_capture_buffer ;; dequeue_output_buffers
  | PollDevice V4L2Event => dequeue_events
  | PollOther => panic
  end.

Definition proxy_process_events : M St Z unit :=
  events ← map_err (λ _, EIO) (on_poller poll_now);
  forM_ process_event events.

#[export] Instance proxy_device : VirtioMediaDevice Dev Ses := {|
  new_session := proxy_new_session;
  close_session := proxy_close_session;
  do_ioctl := virtio_media_dispatch_ioctl;
  do_mmap := proxy_do_mmap;
  do_munmap := proxy_do_munmap;
  process_events := proxy_process_events;
  poll_fd s := Some (poller_fd (ps_poller s));
|}.
End Proxy.
