(* ===== verification/ProxyContract.v ===== *)
(** * The proxy device under a runner

    What [V4l2ProxyDevice] ([V4l2Proxy.v]) promises to the runner: after any
    sequence of commands, the offsets of its MMAP buffers are those registered
    with the MMAP manager, they belong to open sessions, and a session watches the
    capture queue of the host only while it streams with buffers queued.  The
    ioctls that allocate buffers and those on ext controls may panic; nothing else
    does, the processing of host events included. *)

From Stdlib Require Import Strings.Byte.
From S2P Require Import Prelude RustStd Traits Mmap Bytes Protocol Io V4l2r Ioctl Runner Vmm MemFd HostDevice V4l2Proxy.
#[local] Open Scope Z_scope.

(** ** Ordered maps *)

Lemma elem_of_btree {A} (m : gmap Z A) x : x ∈ btree_entries m ↔ m !! x.1 = Some x.2.
Proof.
  unfold btree_entries. rewrite merge_sort_Permutation. destruct x. apply elem_of_map_to_list.
Qed.

Section Frame.
Context `{BM : BuildMode} `{V : V4l2r}.
Context {Q G R HM K : Type} `{!VirtioMediaEventQueue Q} `{!VirtioMediaGuestMemoryMapper G R}.
Context `{!VirtioMediaHostMemoryMapper HM} `{!HostV4l2 K} `{!HostV4l2Laws K}.
Abbreviation Dev := (V4l2ProxyDevice Q G HM K).
Abbreviation Ses := (V4l2Session K R).
Abbreviation St := (Dev * Ses)%type.

(** ** Operations that leave the buffer tables alone *)

Definition same_tables (d d' : Dev) : Prop :=
  mmap_buffers d' = mmap_buffers d ∧ mmap_manager d' = mmap_manager d.

#[local] Instance same_tables_refl : Reflexive same_tables.
Proof. done. Qed.
#[local] Instance same_tables_trans : Transitive same_tables.
Proof. intros d1 d2 d3 [H1 H2] [H3 H4]. split; congruence. Qed.

(** A predicate that looks neither at the host, the guest memory and the events
    nor at the user pointers of a session. *)
Class Framed (P : St → Prop) : Prop := {
  frame_dev : ∀ d d' s, P (d, s) → same_tables d d' → P (d', s);
  frame_userptrs : ∀ d s m, P (d, s) → P (d, set_userptrs m s);
}.

(** A computation on the device that stays in the frame. *)
Definition quiet {E A} (pn : bool) (m : M Dev E A) : Prop :=
  ∀ d0, keeps pn (same_tables d0) m.

Lemma quiet_host {E A} pn (f : K → K * result A E) : quiet pn (dev_host f).
Proof.
  intros d0 d [H1 H2]. unfold wp, dev_host, zoom. by destruct (f (host d)) as [k r].
Qed.

Lemma quiet_ref {E A} pn (f : V4l2Device K → K → K * result A E) (s : Ses) :
  quiet pn (host_ref f s).
Proof. apply quiet_host. Qed.

Lemma quiet_mem {E A} pn (m : M G E A) : (∀ g, ∃ g' r, m g = Ret (g', r)) → quiet pn (dev_mem m).
Proof.
  intros Hm d0 d [H1 H2]. unfold wp, dev_mem, zoom. by destruct (Hm (mem d)) as (g'&r&->).
Qed.

Section Framed.
Context (P : St → Prop) `{!Framed P}.

Lemma keeps_on_dev {E A} pn (m : M Dev E A) : quiet pn m → keeps pn P (on_dev m).
Proof.
  intros Hm [d s] HP. apply wp_zoom. eapply wp_mono, (Hm d d); [|done].
  intros r d' Hd. by eapply frame_dev.
Qed.

(** A method that borrows the session immutably. *)
Lemma keeps_by_ref {E A} pn (m : Ses → M Dev E A) :
  (∀ s, quiet pn (m s)) → keeps pn P (run_method ByRef m).
Proof.
  intros Hm [d s] HP. pose proof (Hm s d d ltac:(done)) as Hw. unfold wp, run_method in *. simpl.
  destruct (m s d) as [[d' r]|]; [|done]. by eapply frame_dev.
Qed.

Lemma keeps_host_mut {E A} pn (f : V4l2Device K → K → K * result A E) : keeps pn P (host_mut f).
Proof. apply keeps_bind; [apply keeps_gets|]. intros s. apply keeps_on_dev, quiet_ref. Qed.

Lemma keeps_modify_dev {E} pn (f : Dev → Dev) :
  (∀ d, same_tables d (f d)) → keeps (E := E) pn P (modify_dev f).
Proof. intros Hf. apply keeps_modify. intros [d s] HP. by eapply frame_dev. Qed.

Lemma keeps_send {E} pn e : keeps (E := E) pn P (send e).
Proof. by apply keeps_modify_dev. Qed.

Lemma keeps_fail {A} pn err : keeps pn P (fail err : M St Z A).
Proof.
  apply keeps_bind; [apply keeps_gets|]. intros s.
  apply keeps_bind; [by apply keeps_modify_dev|]. intros _. apply keeps_throw.
Qed.

Lemma keeps_set_userptrs {E} pn m : keeps (E := E) pn P (modify_ses (set_userptrs m)).
Proof. apply keeps_modify. intros [d s] HP. by apply frame_userptrs. Qed.

Lemma keeps_retain {E} pn keep : keeps (E := E) pn P (retain_userptrs keep).
Proof.
  apply keeps_bind; [apply keeps_gets|]. intros s.
  apply keeps_bind; [by apply keeps_modify_dev|]. intros _. apply keeps_set_userptrs.
Qed.

Lemma keeps_register {E} pn hb gb l : keeps (E := E) pn P (register_userptr_addresses hb gb l).
Proof.
  apply keeps_bind; [|intros _; by apply keeps_modify_dev].
  apply keeps_forM. intros [[h p] r] _. apply keeps_bind; [apply keeps_gets|]. intros s.
  apply keeps_bind; [|intros _; apply keeps_set_userptrs].
  apply keeps_modify_dev. intros d. by destruct (userptr_buffers s !! h).
Qed.

(** *** The loops that dequeue

    They end: each round takes one of the events or buffers that are ready. *)

Lemma wp_dequeue_events_loop fuel st :
  P st → (length (pending_events (host st.1) (ps_device st.2)) < fuel)%nat →
  wp false (dequeue_events_loop fuel) (λ _ st', P st') st.
Proof.
  revert st. induction fuel as [|fuel IH]; intros [d s] HP Hlen; [simpl in Hlen; lia|]. simpl.
  apply wp_bind, wp_gets, wp_bind, wp_try, wp_bind, wp_gets, wp_zoom, wp_zoom. unfold wp at 1.
  cbn [fst snd] in *.
  destruct (host_dqevent (ps_device s) (host d)) as [k [e|[|err]]] eqn:Ed; cbn [fst snd].
  - apply dqevent_ok in Ed. rewrite Ed in Hlen. simpl in Hlen.
    apply wp_bind, wp_modify, IH; [by eapply frame_dev|simpl; lia].
  - apply wp_ret. by eapply frame_dev.
  - apply keeps_fail. by eapply frame_dev.
Qed.

Lemma keeps_dequeue_events : keeps false P dequeue_events.
Proof. intros st HP. apply wp_dequeue_events_loop; [done|]. lia. Qed.

Lemma wp_dequeue_output_loop fuel q st :
  P st → (ready_buffers (host st.1) (ps_device st.2) q < fuel)%nat →
  wp false (dequeue_output_loop fuel q) (λ _ st', P st') st.
Proof.
  revert st. induction fuel as [|fuel IH]; intros [d s] HP Hlen; [simpl in Hlen; lia|]. simpl.
  apply wp_bind, wp_gets, wp_bind, wp_try, wp_bind, wp_gets, wp_zoom, wp_zoom. unfold wp at 1.
  cbn [fst snd] in *.
  destruct (host_dqbuf (ps_device s) q (host d)) as [k [b|[| |err]]] eqn:Ed; cbn [fst snd].
  - apply dqbuf_ok in Ed. apply wp_bind, wp_bind, wp_gets, wp_bind, wp_modify, wp_modify.
    apply wp_bind, wp_modify, IH; [|simpl; lia]. simpl. apply frame_userptrs.
    by eapply frame_dev.
  - apply wp_ret. by eapply frame_dev.
  - apply wp_ret. by eapply frame_dev.
  - apply keeps_fail. by eapply frame_dev.
Qed.

Lemma keeps_dequeue_output : keeps false P dequeue_output_buffers.
Proof.
  intros [d s] HP. apply wp_bind. unfold wp at 1, get_st. cbn [fst snd].
  destruct (output_queue_type s) as [q|]; [|done]. destruct (_ || _); [done|].
  apply wp_dequeue_output_loop; [done|]. simpl. lia.
Qed.

(** *** USERPTR buffers *)

Lemma map_planes_total w planes regions done res (g : G) :
  ∃ g' r, map_planes (R := R) w planes regions done res g = Ret (g', r).
Proof.
  revert regions done res g.
  induction planes as [|p planes IH]; intros regions done res g; simpl; [by eexists _, _|].
  destruct (0 <? p_length p); [|apply IH]. destruct regions as [|r regions]; [by eexists _, _|].
  unfold_M. destruct (new_mapping r g) as [g' [m|e]]; [|by eexists _, _].
  destruct w; [destruct (as_mut_ptr m)|]; apply IH.
Qed.

Lemma guest_to_host_total b regions (g : G) :
  ∃ g' r, guest_v4l2_buffer_to_host (R := R) b regions g = Ret (g', r).
Proof.
  unfold guest_v4l2_buffer_to_host. destruct (buf_planes b); [by eexists _, _| |by eexists _, _].
  destruct (map_planes_total (bool_decide (direction (buf_queue b) = Capture)) planes regions [] [] g)
    as (g'&r&Hm).
  unfold_M. rewrite Hm. destruct r as [[ps res]|e]; by eexists _, _.
Qed.

Lemma keeps_import pn b regions : keeps pn P (import_buffer b regions).
Proof.
  apply keeps_bind.
  - apply keeps_map_err, keeps_on_dev, quiet_mem, guest_to_host_total.
  - intros [hb res]. apply keeps_bind; [by apply keeps_register|]. intros _. apply keeps_ret.
Qed.

Lemma keeps_export pn b : keeps pn P (export_buffer b).
Proof. apply keeps_bind; [apply keeps_gets|]. intros s. apply keeps_ok_or. Qed.

Lemma keeps_prepare_buf pn b regions : keeps pn P (prepare_buf b regions).
Proof.
  apply keeps_bind; [apply keeps_import|]. intros hb.
  apply keeps_bind; [by apply keeps_host_mut|]. intros b'. apply keeps_export.
Qed.

Lemma keeps_subscribe event flags : keeps false P (subscribe_event event flags).
Proof.
  apply keeps_bind; [by apply keeps_host_mut|]. intros _. destruct (contains_SEND_INITIAL flags).
  - apply keeps_ignore_err, keeps_dequeue_events.
  - apply keeps_ret.
Qed.

Lemma keeps_unsubscribe pn event : keeps pn P (unsubscribe_event event).
Proof.
  unfold unsubscribe_event. case_match; [by apply keeps_host_mut|].
  apply keeps_bind; [apply keeps_ok_or|]. intros e. by apply keeps_host_mut.
Qed.

(** *** Ext controls: they may panic *)

Lemma quiet_ext_ctrls op which args regions (s : Ses) :
  quiet true (perform_ext_ctrls_ioctl op which args regions s).
Proof.
  intros d0. destruct args as [ctrls arr]. apply keeps_bind.
  - apply keeps_mapM. intros [c sgs]. apply keeps_bind.
    + apply keeps_try, quiet_mem. intros g. cbn [snd]. destruct (new_mapping sgs g) as [g' r]. by exists g', r.
    + intros [r|e]; [apply keeps_ret|by apply keeps_panic].
  - intros payloads. destruct (patch_ptrs arr payloads) as [arr' payloads'].
    apply keeps_bind; [apply keeps_get_st|]. intros d.
    destruct (host_ext_ctrls _ _ _ _ _) as [k [arr'' res]].
    apply keeps_bind; [by apply keeps_modify|]. intros _.
    apply keeps_bind; [by apply keeps_modify|]. intros _.
    destruct res; [apply keeps_ret|apply keeps_throw].
Qed.

Lemma keeps_s_ext_ctrls which args regions : keeps true P (s_ext_ctrls which args regions).
Proof. apply keeps_bind; [apply keeps_gets|]. intros s. apply keeps_on_dev, quiet_ext_ctrls. Qed.
End Framed.
End Frame.

(** ** The buffer tables *)

Section Tables.
Context `{BM : BuildMode} `{V : V4l2r}.
Context {Q G R HM K : Type} `{!VirtioMediaEventQueue Q} `{!VirtioMediaGuestMemoryMapper G R}.
Context `{!VirtioMediaHostMemoryMapper HM} `{!HostV4l2 K} `{!HostV4l2Laws K}.
Abbreviation Dev := (V4l2ProxyDevice Q G HM K).
Abbreviation Ses := (V4l2Session K R).

Definition active_at (m : gmap Z V4l2MmapPlaneInfo) (o : Z) : bool :=
  match m !! o with Some b => pi_active b | None => false end.

(** The manager is well formed, the registered offsets are those of the active
    entries, and these belong to the sessions [ids]. *)
Record tracked (n : Z) (ids : gset Z) (d : Dev) : Prop := {
  tr_manager : manager_ok n (mmap_manager d);
  tr_registered : ∀ o, registered (mmap_manager d) o = active_at (mmap_buffers d) o;
  tr_sessions : ∀ o b, mmap_buffers d !! o = Some b → pi_active b = true → pi_session_id b ∈ ids;
}.

(** The same, between two operations: every entry is active, and its index is an
    unsigned number. *)
Definition tables_ok (n : Z) (ids : gset Z) (d : Dev) : Prop :=
  tracked n ids d ∧ map_Forall (λ _ b, pi_active b = true ∧ 0 ≤ pi_index b) (mmap_buffers d).

Lemma active_at_insert m o b o' :
  active_at (<[o := b]> m) o' = if bool_decide (o' = o) then pi_active b else active_at m o'.
Proof.
  unfold active_at. case_bool_decide as Ho; [subst; by rewrite lookup_insert_eq|].
  by rewrite lookup_insert_ne.
Qed.

(** Deactivating an entry unregisters it. *)
Lemma wp_deactivate {E} n ids o b (d : Dev) :
  tracked n ids d →
  wp (E := E) false (dev_mm (unregister_buffer o) ;;
    modify (λ d, set_mmap_buffers (<[o := deactivate b]> (mmap_buffers d)) d))
    (λ r d', is_ok r = true ∧ tracked n ids d' ∧
       mmap_buffers d' = <[o := deactivate b]> (mmap_buffers d)) d.
Proof.
  intros [Hmm Hreg Hs]. apply wp_bind, wp_zoom.
  destruct (unregister_total (E := E) o (mmap_manager d) (proj1 Hmm)) as (mm'&x&Hu).
  pose proof (wp_unregister (E := E) n o _ Hmm) as Hw. unfold wp in *. rewrite Hu in *.
  split; [done|]. split; [|done]. split; simpl; [apply Hw| |].
  - intros o'. rewrite (unregister_registered _ _ _ _ (proj1 Hmm) Hu), active_at_insert, Hreg.
    by case_bool_decide.
  - intros o' b' [[<- <-]|[_ Hb]]%lookup_insert_Some; [done|]. by apply (Hs o').
Qed.

Lemma wp_deactivate_all {E} n ids l (d : Dev) :
  tracked n ids d →
  wp (E := E) false (forM_ (λ x, dev_mm (unregister_buffer x.1) ;;
       modify (λ d, set_mmap_buffers (<[x.1 := deactivate x.2]> (mmap_buffers d)) d)) l)
    (λ r d', is_ok r = true ∧ tracked n ids d' ∧
       mmap_buffers d' = foldl (λ m x, <[x.1 := deactivate x.2]> m) (mmap_buffers d) l) d.
Proof.
  revert d. induction l as [|[o b] l IH]; intros d Hd; simpl; [done|]. apply wp_bind.
  eapply wp_mono, wp_deactivate; [|done]. intros [[]|e] d1 (Hr&Hd1&Hm); [|done].
  eapply wp_mono, IH; [|done]. intros r d2 (Hr2&Hd2&Hm2). by rewrite Hm2, Hm.
Qed.

Lemma foldl_deactivate l (m : gmap Z V4l2MmapPlaneInfo) o :
  (∀ x, x ∈ l → m !! x.1 = Some x.2) →
  foldl (λ m x, <[x.1 := deactivate x.2]> m) m l !! o =
  if bool_decide (o ∈ l.*1) then deactivate <$> m !! o else m !! o.
Proof.
  induction l as [|[o1 b1] l IH] using rev_ind; intros Hl; [done|].
  rewrite foldl_app, fmap_app. cbn [foldl fst snd fmap list_fmap].
  assert (m !! o1 = Some b1) as Ho1 by (apply (Hl (o1, b1)); set_solver).
  destruct (decide (o = o1)) as [->|Hne].
  - rewrite lookup_insert_eq, bool_decide_true by set_solver. by rewrite Ho1.
  - rewrite lookup_insert_ne, IH by (done || set_solver).
    rewrite (bool_decide_ext (o ∈ l.*1 ++ [o1]) (o ∈ l.*1)); [done|].
    rewrite elem_of_app, list_elem_of_singleton. tauto.
Qed.

(** The entries that are gone are removed from both tables; the others stay. *)
Lemma wp_release {E} n ids gone (d : Dev) :
  tables_ok n ids d →
  wp (E := E) false (release_buffers gone)
    (λ r d', is_ok r = true ∧ tables_ok n ids d' ∧
       mmap_buffers d' = filter (λ x, gone x.2 = false) (mmap_buffers d)) d.
Proof.
  intros [Hd Hact]. unfold release_buffers. apply wp_bind. unfold wp at 1, get_st.
  apply wp_bind. eapply wp_mono, wp_deactivate_all; [|done].
  intros [[]|e] d1 (Hr&[Hmm Hreg Hs]&Hm); [|done]. apply wp_modify. split; [done|].
  set (l := filter _ _) in Hm.
  assert (∀ o b, mmap_buffers d1 !! o = Some b → pi_active b = true →
    mmap_buffers d !! o = Some b ∧ gone b = false) as Hkept.
  { intros o b. rewrite Hm, foldl_deactivate.
    2: { intros x [_ Hx]%list_elem_of_filter. by apply elem_of_btree. }
    case_bool_decide as Hin.
    - intros (b0&_&->)%fmap_Some. by simpl.
    - intros Hb _. split; [done|]. apply not_true_is_false. intros Hg. apply Hin.
      apply list_elem_of_fmap. exists (o, b). split; [done|]. apply list_elem_of_filter.
      split; [done|]. by apply elem_of_btree. }
  assert (∀ o b, mmap_buffers d !! o = Some b → gone b = false → mmap_buffers d1 !! o = Some b) as Hstay.
  { intros o b Hb Hg. rewrite Hm, foldl_deactivate.
    2: { intros x [_ Hx]%list_elem_of_filter. by apply elem_of_btree. }
    rewrite bool_decide_false; [done|]. intros (x&->&Hx)%list_elem_of_fmap.
    apply list_elem_of_filter in Hx as [Hg' Hx]. apply elem_of_btree in Hx. congruence. }
  split.
  - split; [split; simpl; [done| |]|].
    + intros o. rewrite Hreg. unfold active_at. destruct (mmap_buffers d1 !! o) as [b|] eqn:Eb.
      * destruct (pi_active b) eqn:Ea; [by rewrite (map_lookup_filter_Some_2 _ _ o b)|].
        rewrite map_lookup_filter, Eb. simpl. rewrite option_guard_False by (simpl; congruence). done.
      * by rewrite map_lookup_filter, Eb.
    + intros o b [Hb _]%map_lookup_filter_Some. by apply (Hs o).
    + intros o b [Hb Ha]%map_lookup_filter_Some. split; [done|].
      apply (Hact o b). by apply Hkept.
  - simpl. apply map_eq. intros o. apply option_eq. intros b.
    rewrite !map_lookup_filter_Some. simpl. split.
    + intros [Hb Ha]. by apply Hkept.
    + intros [Hb Hg]. split; [by apply Hstay|]. by apply (Hact o b).
Qed.

(** A new plane is registered at its offset, or the device panics. *)
Lemma wp_add_plane {E} n ids id queue buffer j p (d : Dev) :
  is_u32 (p_length p) → is_u32 (p_backing p) → id ∈ ids → tables_ok n ids d →
  wp (E := E) true (add_plane id queue buffer (j, p)) (λ _ d', tables_ok n ids d') d.
Proof.
  intros Hl Ho Hid [[Hmm Hreg Hs] Hact]. unfold add_plane. cbn [fst snd].
  apply wp_bind, wp_try, wp_zoom.
  destruct (register_total (p_backing p) (p_length p) _ (proj1 Hmm)) as (mm'&r&Hr).
  unfold wp at 1. rewrite Hr. destruct r as [o|e]; [|done]. apply wp_modify.
  split; [split; simpl|].
  - destruct Hmm as [Hwf Hc]. split; [|by eapply register_counts].
    by apply (register_wf (Some (p_backing p)) (p_length p) (conj Ho Hl) (mmap_manager d) mm' (Ok o)).
  - intros o'. rewrite (register_registered _ _ _ _ _ (proj1 Hmm) Hr), active_at_insert, Hreg.
    simpl. by case_bool_decide.
  - intros o' b [[<- <-]|[_ Hb]]%lookup_insert_Some; [done|]. by apply (Hs o').
  - simpl. apply map_Forall_insert_2; [|done]. split; [done|]. cbn. unfold as_u8. lia.
Qed.

Lemma tables_frame n ids (d d' : Dev) : tables_ok n ids d → same_tables d d' → tables_ok n ids d'.
Proof.
  intros [[Hmm Hreg Hs] Hact] [Hb Hm]. unfold tables_ok. rewrite Hb. split; [|done].
  split; rewrite ?Hb, ?Hm; auto.
Qed.

Lemma keeps_add_buffer {E} n ids (s : Ses) queue i :
  ps_id s ∈ ids → keeps (E := E) true (tables_ok n ids) (add_buffer s queue i).
Proof.
  intros Hid d Hd. apply wp_bind, wp_try, wp_zoom. unfold wp at 1.
  destruct (host_querybuf (ps_device s) queue i (host d)) as [k [b|e]] eqn:Eq; cbn [fst snd].
  2: { apply wp_ret. by eapply tables_frame. }
  assert (tables_ok n ids (set_host k d)) as Hd1 by by eapply tables_frame.
  destruct (buf_planes b) as [ps| |] eqn:Eb; [|done..].
  pose proof (querybuf_u32 _ _ _ _ _ _ _ Eq Eb) as Hps.
  eapply keeps_forM; [|done]. intros [j p] Hj. apply elem_of_lookup_imap in Hj as (j'&p'&[= <- <-]&Hp).
  pose proof (Forall_lookup_1 _ _ _ _ Hps Hp) as [??]. intros d' Hd'. by apply wp_add_plane.
Qed.
End Tables.

(** ** The invariant *)

Section Contract.
Context `{BM : BuildMode} `{V : V4l2r} {VL : V4l2rLaws}.
Context {Q G R HM K : Type} `{!VirtioMediaEventQueue Q} `{!VirtioMediaGuestMemoryMapper G R}.
Context `{!VirtioMediaHostMemoryMapper HM} `{!HostV4l2 K} `{!HostV4l2Laws K}.
Abbreviation Dev := (V4l2ProxyDevice Q G HM K).
Abbreviation Ses := (V4l2Session K R).
Abbreviation St := (Dev * Ses)%type.

(** After [n] commands: the counters of queued buffers are bounded, and the
    capture queue is watched only while the session streams with buffers queued.
    Once the host has refused to stop watching, the count of CAPTURE buffers may be
    anything: an event that comes with no buffer queued decrements it from zero. *)
Definition polling_ok (n : Z) (s : Ses) : Prop :=
  0 ≤ output_num_queued s ≤ n ∧
  (disable_failed (ps_poller s) = true ∨
   0 ≤ capture_num_queued s ≤ n ∧
   (polled (ps_poller s) CaptureReady = true → should_poll_capture s = true)).

(** The sessions on which counting cannot panic. *)
Definition fit (s : Ses) : bool := negb overflow_checks || negb (disable_failed (ps_poller s)).

Lemma unfit_checks s : disable_failed (ps_poller s) = true → overflow_checks = true → fit s = false.
Proof. unfold fit. by intros -> ->. Qed.

Definition proxy_inv (n : Z) (d : Dev) (m : gmap Z Ses) : Prop :=
  0 ≤ n ∧ tables_ok n (dom m) d ∧ ∀ id s, m !! id = Some s → ps_id s = id ∧ polling_ok n s.

(** The same, seen from a call on session [id] among the sessions [ids]. *)
Definition proxy_ok (n : Z) (ids : gset Z) (id : Z) (st : St) : Prop :=
  tables_ok n ids st.1 ∧ ps_id st.2 = id ∧ id ∈ ids ∧ polling_ok n st.2.

Lemma tables_mono n n' ids (d : Dev) : n ≤ n' → tables_ok n ids d → tables_ok n' ids d.
Proof.
  intros Hn [[Hmm Hreg Hs] Hact]. split; [|done]. split; [|done..].
  by eapply manager_ok_mono.
Qed.

Lemma polling_mono n n' s : n ≤ n' → polling_ok n s → polling_ok n' s.
Proof. intros Hn (Ho&[Hf|[Hc Hp]]); (split; [lia|]); [by left|]. right. split; [lia|done]. Qed.

Lemma proxy_ok_mono n n' ids id st : n ≤ n' → proxy_ok n ids id st → proxy_ok n' ids id st.
Proof.
  intros Hn (Ht&Hid&Hin&Hp).
  split_and!; [by eapply tables_mono|done|done|by eapply polling_mono].
Qed.

#[local] Instance proxy_ok_framed n ids id : Framed (proxy_ok n ids id).
Proof.
  split.
  - intros d d' s (Ht&Hrest) Hd. split; [by eapply tables_frame|done].
  - intros d s m (Ht&Hid&Hin&Hp). by split_and!.
Qed.

Section Methods.
Context (n : Z) (ids : gset Z) (id : Z).
Abbreviation P := (proxy_ok n ids id).

(** Only the session changes. *)
Lemma keeps_ses {E} pn (f : Ses → Ses) :
  (∀ s, ps_id (f s) = ps_id s) → (∀ s, polling_ok n s → polling_ok n (f s)) →
  keeps (E := E) pn P (modify_ses f).
Proof.
  intros Hid Hf. apply keeps_modify. intros [d s] (Ht&His&Hin&Hp).
  split_and!; [done|simpl in *; by rewrite Hid|done|by apply Hf].
Qed.

(** What follows knows that the event is not watched, or that the host refused. *)
Lemma wp_disable {E} (Q' : result unit E → St → Prop) (d : Dev) (s : Ses) :
  (∀ k p, disable_failed p = true ∨
     polled p CaptureReady = false ∧ disable_failed (ps_poller s) = false →
     Q' (Ok tt) (set_host k d, set_poller p s)) →
  wp false disable_capture Q' (d, s).
Proof.
  intros HQ. apply wp_ignore_err. unfold wp, on_poller. cbn [fst snd].
  destruct (disable_event CaptureReady (host d, ps_poller s)) as [[k p] r] eqn:Hd; apply HQ.
  rewrite (failed_disable _ _ _ _ _ _ Hd).
  destruct (disable_failed (ps_poller s)), r as [[]|e]; [by left..| |by left].
  right. by rewrite (polled_disable _ _ _ _ _ Hd).
Qed.

(** Enabling it is fine when the session should poll. *)
Lemma wp_enable {E} (d : Dev) (s : Ses) :
  P (d, s) → should_poll_capture s = true →
  wp (E := E) false enable_capture (λ _ st, P st) (d, s).
Proof.
  intros (Ht&Hid&Hin&Ho&Hp) Hs. apply wp_ignore_err. unfold wp, on_poller. cbn [fst snd] in *.
  destruct (enable_event CaptureReady _) as [[k p] r] eqn:He.
  split_and!; [by eapply tables_frame|done|done|]. split; [done|].
  destruct Hp as [Hf|[Hc _]]; [left|right; by split]. cbn. by rewrite (failed_enable _ _ _ _ _ _ He).
Qed.

Lemma keeps_stop_capture {E} : keeps (E := E) false P stop_capture.
Proof.
  intros [d s] (Ht&Hid&Hin&Ho&Hp). apply wp_bind, wp_gets, wp_bind, wp_modify. cbn [fst snd] in *.
  destruct (should_poll_capture s) eqn:Es.
  - apply wp_disable. intros k p Hpd. split_and!; [by eapply tables_frame|done|done|].
    split; [done|]. destruct Hpd as [Hf|[Hpd _]]; [by left|]. right. split; simpl; [lia|congruence].
  - apply wp_ret. split_and!; [done..|]. split; [done|].
    destruct Hp as [Hf|[Hc Hp]]; [by left|]. right. split; simpl; [lia|].
    intros Hpd. specialize (Hp Hpd). congruence.
Qed.

Lemma keeps_update_mmap {E} queue start end_ :
  keeps (E := E) true P (update_mmap_offsets queue start end_).
Proof.
  intros [d s] (Ht&Hid&Hin&Hp). apply wp_bind, wp_gets, wp_bind, wp_zoom. cbn [fst snd] in *.
  eapply wp_panic_mono, wp_mono, wp_release; [done| |done].
  intros [[]|e] d1 (Hr&Ht1&_); [|done]. apply wp_bind, wp_zoom. cbn [fst snd].
  eapply wp_mono, (keeps_forM true (tables_ok n ids)); [|intros i _; apply keeps_add_buffer|done].
  2: by rewrite Hid.
  intros [[]|e] d2 Ht2; [|by split_and!]. apply wp_modify.
  destruct (is_video_capture queue), (is_video_output queue); by split_and!.
Qed.

Lemma keeps_reqbufs queue memory count flags :
  keeps true P (reqbufs queue memory count flags).
Proof.
  apply keeps_bind; [apply keeps_host_mut, _|]. intros r.
  apply keeps_bind; [apply keeps_update_mmap|]. intros _.
  apply keeps_bind; [|intros _; apply keeps_ret].
  repeat case_match; try apply keeps_ret; [apply keeps_panic_mono, keeps_stop_capture|].
  apply keeps_ses; [done|]. intros s (Ho&Hp). split; simpl; [lia|done].
Qed.

Lemma keeps_create_bufs count queue memory format :
  keeps true P (create_bufs count queue memory format).
Proof.
  apply keeps_bind; [apply keeps_host_mut, _|]. intros r.
  apply keeps_bind; [|intros _; apply keeps_ret]. case_match; [|apply keeps_ret].
  apply keeps_bind; [|intros e; apply keeps_update_mmap].
  intros st HP. unfold wp, lift_outcome. by destruct (u32_add _ _).
Qed.

Lemma keeps_streamon queue : keeps false P (streamon queue).
Proof.
  apply keeps_bind; [apply keeps_host_mut, _|]. intros _ [d s] HP.
  pose proof HP as (Ht&Hid&Hin&Ho&Hp). apply wp_bind, wp_gets. cbn [snd fst] in *.
  destruct (is_video_capture queue && negb (capture_streaming s)) eqn:Eq.
  - apply wp_bind, wp_modify, wp_bind, wp_gets. cbn [snd fst].
    assert (P (d, set_capture true (capture_num_queued s) s)) as HP'.
    { split_and!; [done..|]. split; [done|]. destruct Hp as [Hf|[Hc Hp]]; [by left|]. right.
      split; [done|]. intros Hpd. specialize (Hp Hpd).
      unfold should_poll_capture in *. simpl. by apply andb_true_iff in Hp as [_ ->]. }
    destruct (should_poll_capture (set_capture _ _ _)) eqn:Es; [by apply wp_enable|by apply wp_ret].
  - case_match; [|done]. apply wp_modify. split_and!; [done..|]. by split.
Qed.

Lemma keeps_streamoff queue : keeps false P (streamoff queue).
Proof.
  apply keeps_bind; [apply keeps_host_mut, _|]. intros _.
  repeat case_match; [apply keeps_stop_capture| |apply keeps_ret].
  apply keeps_ses; [done|]. intros s (Ho&Hp). split; simpl; [lia|done].
Qed.

(** One buffer more; the addition overflows only if the count was lost. *)
Lemma wp_count_queued pn queue st :
  P st → n < u64_max → (fit st.2 = false → pn = true) →
  wp pn (count_queued queue) (λ _ st', proxy_ok (n + 1) ids id st') st.
Proof.
  destruct st as [d s]. intros (Ht&Hid&Hin&Ho&Hp) Hn Hfit. apply wp_bind, wp_gets. cbn [snd fst] in *.
  apply (tables_mono n (n + 1)) in Ht; [|lia].
  destruct (is_video_capture queue); [|destruct (is_video_output queue)].
  - apply wp_bind. unfold wp at 1, lift_outcome.
    destruct (u64_add (capture_num_queued s) 1) as [queued|] eqn:Eadd; last first.
    { pose proof (unsigned_op_panics _ _ Eadd) as Hov. destruct Hp as [Hf|[Hc _]].
      - by apply Hfit, unfit_checks.
      - unfold u64_add in Eadd. by rewrite unsigned_op_ok in Eadd by lia. }
    apply wp_bind, wp_modify, wp_bind, wp_gets. cbn [fst snd].
    set (s' := set_capture _ _ s).
    assert (polling_ok (n + 1) s') as Hs'.
    { split; [simpl; lia|]. destruct Hp as [Hf|[Hc Hp]]; [by left|]. right.
      unfold u64_add in Eadd. rewrite unsigned_op_ok in Eadd by lia. injection Eadd as <-.
      split; simpl; [lia|]. intros Hpd. specialize (Hp Hpd).
      unfold should_poll_capture in *. simpl. apply andb_true_iff in Hp as [-> _]. simpl. lia. }
    apply (wp_panic_mono false); [done|].
    destruct (negb _ && should_poll_capture s') eqn:Es; [|by apply wp_ret].
    apply andb_true_iff in Es as [_ Es].
    apply wp_ignore_err. unfold wp, on_poller. cbn [fst snd].
    destruct (enable_event CaptureReady _) as [[k p] r] eqn:He.
    split_and!; [by eapply tables_frame|done|done|]. destruct Hs' as [? [Hf|[? _]]]; (split; [done|]).
    + left. cbn. by rewrite (failed_enable _ _ _ _ _ _ He).
    + right. by split.
  - apply wp_bind. eapply wp_lift_outcome; [apply unsigned_op_ok; lia|].
    apply wp_modify. split_and!; [done..|].
    split; [simpl; lia|]. destruct Hp as [Hf|[Hc Hp]]; [by left|]. right. split; simpl; [lia|done].
  - apply wp_ret. split_and!; [done..|]. apply (polling_mono n); [lia|]. by split.
Qed.

Lemma wp_proxy_qbuf pn buffer regions st :
  P st → n < u64_max → (fit st.2 = false → pn = true) →
  wp pn (qbuf buffer regions) (λ _ st', proxy_ok (n + 1) ids id st') st.
Proof.
  intros HP Hn Hfit. assert (∀ st, P st → proxy_ok (n + 1) ids id st) as Hmono.
  { intros st'. apply proxy_ok_mono. lia. }
  set (P' := λ st, P st ∧ (fit st.2 = false → pn = true)).
  assert (Framed P') as FP.
  { split.
    - intros d d' s [Hok Hf] Hd. split; [by eapply frame_dev|done].
    - intros d s m [Hok Hf]. split; [by apply frame_userptrs|done]. }
  assert (P' st) as HP' by done.
  apply wp_bind. eapply wp_mono, (keeps_ignore_err pn P'), HP';
    [|apply keeps_panic_mono, keeps_dequeue_output, _].
  intros [[]|e] st1 HP1; [|by apply Hmono, HP1].
  apply wp_bind. eapply wp_mono, (keeps_import P'), HP1. intros [hb|e] st2 HP2; [|by apply Hmono, HP2].
  apply wp_bind. eapply wp_mono, (keeps_host_mut P'), HP2. intros [hb'|e] st3 HP3; [|by apply Hmono, HP3].
  apply wp_bind. eapply wp_mono, (keeps_export P'), HP3. intros [out|e] st4 HP4; [|by apply Hmono, HP4].
  apply wp_bind. eapply wp_mono, wp_count_queued; [|by destruct HP4..]. by intros [[]|e] st5 HP5.
Qed.

(** *** Events of the host *)

(** A buffer can be counted as dequeued: one is queued, or the host has refused to
    stop watching and counting may panic. *)
Definition countable (pn : bool) (s : Ses) : Prop :=
  if disable_failed (ps_poller s) then overflow_checks = true → pn = true
  else should_poll_capture s = true.

(** The counter does not underflow when the session should poll. *)
Lemma wp_dequeue_capture pn st :
  P st → n ≤ u64_max → countable pn st.2 →
  wp pn dequeue_capture_buffer (λ _ st', P st') st.
Proof.
  destruct st as [d s]. intros HP Hn Hs. apply wp_bind, wp_gets. cbn [snd] in *.
  destruct (capture_queue_type s) as [q|] eqn:Eqt; [|done].
  apply wp_bind, wp_try, wp_bind, wp_gets, wp_zoom, wp_zoom. unfold wp at 1. cbn [fst snd] in *.
  destruct (host_dqbuf (ps_device s) q (host d)) as [k [b|[| |err]]] eqn:Ed; cbn [fst snd].
  2, 3: apply wp_ret; by eapply frame_dev.
  2: apply (keeps_fail P); by eapply frame_dev.
  apply wp_bind, wp_bind, wp_gets, wp_bind, wp_modify, wp_modify. cbn [fst snd].
  destruct HP as (Ht&Hid&Hin&Ho&Hp). unfold countable, should_poll_capture in *. cbn [fst snd] in *.
  apply wp_bind. unfold wp at 1, lift_outcome.
  destruct (u64_sub (capture_num_queued s) 1) as [queued|] eqn:Esub; last first.
  { pose proof (unsigned_op_panics _ _ Esub) as Hov. destruct (disable_failed _) eqn:Hf; [by apply Hs|].
    destruct Hp as [?|[Hc _]]; [done|]. unfold u64_sub in Esub. by rewrite unsigned_op_ok in Esub by lia. }
  apply wp_bind, wp_modify. cbn [fst snd]. apply wp_bind. apply (wp_panic_mono false); [done|].
  match goal with |- wp _ (if ?c then _ else _) _ _ => destruct c eqn:Ec end.
  - apply wp_disable. intros k' p Hpd. apply wp_modify. split_and!; [by eapply tables_frame|done|done|].
    split; [done|]. cbn in Hpd. destruct Hpd as [Hf|[Hpd Hf]]; [by left|]. right.
    rewrite Hf in Hs, Hp. destruct Hp as [?|[Hc _]]; [done|].
    unfold u64_sub in Esub. rewrite unsigned_op_ok in Esub by lia. injection Esub as <-.
    split; simpl; [lia|congruence].
  - apply wp_ret, wp_modify. split_and!; [by eapply tables_frame|done|done|]. split; [done|]. simpl.
    destruct (disable_failed (ps_poller s)) eqn:Hf; [by left|]. right. destruct Hp as [?|[Hc _]]; [done|].
    apply andb_true_iff in Hs as [Hstream Hpos].
    unfold u64_sub in Esub. rewrite unsigned_op_ok in Esub by lia. injection Esub as <-.
    rewrite Hstream, Hpos in Ec. apply orb_false_iff in Ec as [Ec _]. cbn in Ec.
    split; [simpl; lia|]. intros _. unfold should_poll_capture. simpl. rewrite Hstream. lia.
Qed.

(** The same, with what counting needs. *)
#[local] Instance countable_framed pn : Framed (λ st, P st ∧ countable pn st.2).
Proof.
  split.
  - intros d d' s [HP Hs] Hd. split; [by eapply frame_dev|done].
  - intros d s m [HP Hs]. split; [by apply frame_userptrs|done].
Qed.

Lemma wp_process_event_list pn evs st :
  P st → n ≤ u64_max → NoDup evs → PollOther ∉ evs →
  (PollDevice CaptureReady ∈ evs → countable pn st.2) →
  wp pn (forM_ process_event evs) (λ _ st', P st') st.
Proof.
  intros HP Hn Hnd Hother. revert st HP.
  induction evs as [|ev evs IH]; intros st HP Hs; simpl; [done|].
  apply NoDup_cons in Hnd as [Hev Hnd]. apply not_elem_of_cons in Hother as [Ho Hother].
  apply wp_bind. destruct ev as [[]|]; [| |done]; simpl.
  - apply wp_bind. eapply wp_mono, wp_dequeue_capture; [|done..|apply Hs; set_solver].
    intros [[]|e] st1 HP1; [|done].
    eapply wp_mono, (keeps_panic_mono pn P _ (keeps_dequeue_output P)), HP1.
    intros [[]|e] st2 HP2; [|done]. by apply IH.
  - destruct (decide (PollDevice CaptureReady ∈ evs)) as [Hc|Hc].
    + eapply wp_mono, (keeps_panic_mono pn _ _ (keeps_dequeue_events (λ st, P st ∧ countable pn st.2)));
        [|split; [done|apply Hs; set_solver]].
      intros [[]|e] st1 [HP1 Hs1]; [|done]. by apply IH.
    + eapply wp_mono, (keeps_panic_mono pn P _ (keeps_dequeue_events P)), HP.
      intros [[]|e] st1 HP1; [|done]. by apply IH.
Qed.

Lemma wp_process_events (d : Dev) (s : Ses) :
  n ≤ u64_max → P (d, s) → wp (negb (fit s)) proxy_process_events (λ _ st', P st') (d, s).
Proof.
  intros Hn HP. pose proof HP as (Ht&Hid&Hin&Ho&Hp). apply wp_bind, wp_map_err.
  unfold wp at 1, on_poller. cbn [fst snd] in *.
  destruct (poll_now (host d, ps_poller s)) as [[k p] r] eqn:Epoll.
  pose proof (polled_poll _ _ _ _ _ Epoll) as Hpolled. pose proof (failed_poll _ _ _ _ _ Epoll) as Hfailed.
  assert (P (set_host k d, set_poller p s)) as HP1.
  { split_and!; [by eapply tables_frame|done|done|]. split; [done|].
    unfold should_poll_capture in *. cbn. by rewrite Hpolled, Hfailed. }
  destruct r as [evs|e]; [|done]. destruct (poll_watched _ _ _ _ _ Epoll) as [Hnd Hall].
  apply wp_process_event_list; [done..| |].
  - intros Hbad. eapply Forall_forall in Hall; [|done]. by destruct Hall as (e&[=]&_).
  - intros Hcap. eapply Forall_forall in Hall; [|done]. destruct Hall as (e&[= <-]&He).
    unfold countable, fit. cbn. rewrite Hfailed. destruct (disable_failed (ps_poller s)); [by intros ->|].
    destruct Hp as [?|[_ Hp]]; [done|]. by apply Hp.
Qed.
End Methods.

(** *** The contract *)

(** The ioctls whose methods may panic: they register the offsets of new buffers,
    or map the payloads of controls, and unwrap the result. *)
Definition method_panics (ioctl : V4l2Ioctl) : bool :=
  match ioctl with
  | VIDIOC_REQBUFS | VIDIOC_CREATE_BUFS | VIDIOC_G_EXT_CTRLS | VIDIOC_S_EXT_CTRLS
  | VIDIOC_TRY_EXT_CTRLS => true
  | _ => false
  end.

(** The ioctls on which the proxy device may panic, if [lax] any of them. *)
Definition proxy_panics (lax : bool) (ioctl : V4l2Ioctl) : bool :=
  method_panics ioctl || lax || validation_panics ioctl.

(** The sessions on which an ioctl is expected, if [lax] all of them. *)
Definition proxy_guard (lax : bool) (_ : V4l2Ioctl) (s : Ses) : bool := lax || fit s.

Definition is_qbuf {a E T} (c : Call.ioctl_call a E T) : bool :=
  match c with Call.qbuf _ _ => true | _ => false end.

(** Methods that ask the host and convert its answer. *)
Lemma quiet_then {E A B} pn (f : V4l2Device K → K → K * result A E) (g : A → M Dev E B) (s : Ses) :
  (∀ a, quiet pn (g a)) → quiet pn (host_ref f s ≫= g).
Proof. intros Hg d0. apply keeps_bind; [apply quiet_ref|]. intros a. apply Hg. Qed.

Lemma keeps_then {E A B} pn P `{!Framed P} (f : V4l2Device K → K → K * result A E)
    (g : A → M St E B) :
  (∀ a, keeps pn P (g a)) → keeps pn P (host_mut f ≫= g).
Proof. intros Hg. by apply keeps_bind; [apply keeps_host_mut, _|]. Qed.

#[export] Instance proxy_handler_spec lax n ids id :
  n < u64_max →
  HandlerSpec (H := Dev) (λ ioctl, method_panics ioctl || lax)
    (λ ioctl st, proxy_ok n ids id st ∧ proxy_guard lax ioctl st.2 = true) (proxy_ok (n + 1) ids id).
Proof.
  intros Hn. assert (∀ st : St, proxy_ok n ids id st → proxy_ok (n + 1) ids id st) as Hmono.
  { intros st. apply proxy_ok_mono. lia. }
  split; [by intros ioctl st [HP _]; auto|]. intros a E T c st Hc [HP Hg]. destruct (is_qbuf c) eqn:Eq.
  { destruct c; try done. apply wp_proxy_qbuf; [done..|]. unfold proxy_guard in Hg. intros Hf.
    by rewrite Hf, orb_false_r in Hg. }
  apply (wp_panic_mono (method_panics (Call.call_ioctl c))); [by intros ->|].
  assert (∀ pn (m : M St E T), keeps pn (proxy_ok n ids id) m →
    wp pn m (λ _ st', proxy_ok (n + 1) ids id st') st) as Hkeeps.
  { intros pn m Hm. eapply wp_mono, Hm; [auto|done]. }
  destruct c; try done; unfold call; cbn [ioctl_method proxy_handler Call.call_ioctl method_panics].
  all: try (apply Hkeeps, keeps_by_ref; [apply _|intros s0]).
  all: try (apply Hkeeps; cbn [run_method]).
  all: try (by apply quiet_ref); try (by apply keeps_host_mut, _); try apply quiet_ext_ctrls.
  all: try (by apply quiet_then; intros x d0; (apply keeps_ret || apply keeps_ok_or)).
  all: try (by apply (keeps_then _ _); intros x; apply keeps_ret).
  - apply keeps_reqbufs.
  - apply keeps_streamon.
  - apply keeps_streamoff.
  - apply keeps_subscribe, _.
  - apply keeps_unsubscribe, _.
  - apply keeps_create_bufs.
  - apply keeps_prepare_buf, _.
  - by intros [d s].
  - by intros [d s].
Qed.

(** A session's view, from the invariant and back. *)
Lemma proxy_inv_ses n (d : Dev) m id s :
  proxy_inv n d m → m !! id = Some s → proxy_ok n (dom m) id (d, s).
Proof.
  intros (_&Ht&Hm) Hs. destruct (Hm id s Hs). split_and!; [done..| |done].
  by apply elem_of_dom_2 in Hs.
Qed.

Lemma proxy_ses_inv n n' (d d' : Dev) m id s s' :
  n ≤ n' → proxy_inv n d m → m !! id = Some s → proxy_ok n' (dom m) id (d', s') →
  proxy_inv n' d' (<[id := s']> m).
Proof.
  intros Hn (Hn0&Ht&Hm) Hs (Ht'&Hid&Hin&Hp). split_and!; [lia| |].
  - rewrite dom_insert_lookup_L by done. done.
  - intros j s0 [[<- <-]|[_ Hj]]%lookup_insert_Some; [done|]. destruct (Hm j s0 Hj). split; [done|].
    by eapply polling_mono.
Qed.

(** The host can open the device and watch it, or says that it cannot open it. *)
Definition poller_granted (d : Dev) : bool :=
  match device_open (device_path d) (host d) with
  | (k, Ok device) =>
      match poller_new device k with
      | (k, Ok p) => is_ok (enable_event V4L2Event (k, p)).2
      | (_, Err _) => false
      end
  | (_, Err _) => true
  end.

(** A new session panics exactly when the host grants no poller. *)
Lemma wp_proxy_new n (d : Dev) m id :
  proxy_inv n d m → m !! id = None →
  wp (negb (poller_granted d)) (proxy_new_session id)
    (λ r d', match r with Ok s => proxy_inv n d' (<[id := s]> m) | Err _ => proxy_inv n d' m end) d.
Proof.
  intros (Hn&Ht&Hm) Hnone. unfold poller_granted.
  apply wp_bind. unfold wp at 1, get_st. apply wp_bind, wp_try, wp_zoom.
  unfold wp at 1. destruct (device_open _ _) as [k [dev|[e|e]]].
  2, 3: split_and!; [done|by eapply tables_frame|done].
  apply wp_bind, wp_try, wp_zoom. unfold wp at 1. cbn [host set_host].
  destruct (poller_new dev k) as [k1 [p1|e]] eqn:Hpoll; [|done].
  apply wp_bind. unfold wp at 1, get_st. cbn [host set_host].
  destruct (enable_event V4L2Event (k1, p1)) as [[k2 p2] [[]|e]] eqn:Hen; [|done].
  apply wp_bind, wp_modify, wp_ret.
  split_and!; [done| |].
  - eapply (tables_frame _ _ d); [|done]. destruct Ht as [[Hmm Hreg Hs] Hact]. split; [|done].
    split; [done..|]. intros o b Hb Ha. rewrite dom_insert_L. apply elem_of_union_r. by apply (Hs o).
  - intros j s0 [[<- <-]|[_ Hj]]%lookup_insert_Some; [|by apply Hm].
    split; [done|]. split; simpl; [lia|]. right. split; [lia|].
    rewrite (polled_enable _ _ _ _ _ Hen), (polled_new _ _ _ _ _ Hpoll). done.
Qed.

(** The buffers of a session that is closed are forgotten. *)
Lemma proxy_inv_close n (d : Dev) m id s :
  proxy_inv n d m → m !! id = Some s →
  ∃ d', proxy_close_session s d = Ret d' ∧ proxy_inv n d' (delete id m).
Proof.
  intros (Hn&Ht&Hm) Hs. destruct (Hm id s Hs) as [Hid _].
  pose proof (wp_release (E := Empty_set) n (dom m) (λ b, pi_session_id b =? ps_id s) d Ht) as Hw.
  unfold proxy_close_session, delete_session. unfold wp in Hw. unfold mbind, outcome_bind.
  destruct (release_buffers _ d) as [[d' r]|]; [|done]. destruct Hw as (_&Ht'&Hb).
  eexists. split; [done|]. split_and!; [done| |].
  - eapply (tables_frame _ _ d'); [|done]. destruct Ht' as [[Hmm Hreg Hsd] Hact]. split; [|done].
    split; [done..|]. intros o b Hob Ha. specialize (Hsd o b Hob Ha).
    rewrite Hb in Hob. apply map_lookup_filter_Some in Hob as [_ Hne]. simpl in Hne.
    rewrite dom_delete_L. apply Z.eqb_neq in Hne. rewrite Hid in Hne.
    apply elem_of_difference. split; [done|]. by rewrite elem_of_singleton.
  - intros j s' [_ Hj]%lookup_delete_Some. by apply Hm.
Qed.

Lemma wp_proxy_mmap n ids id flags offset st :
  0 ≤ n < u64_max → proxy_ok n ids id st →
  wp false (proxy_do_mmap flags offset) (λ _ st', proxy_ok (n + 1) ids id st') st.
Proof.
  destruct st as [d s]. intros Hn HP. assert (proxy_ok (n + 1) ids id (d, s)) as HP'
    by (eapply proxy_ok_mono; [|done]; lia).
  apply wp_bind, wp_gets, wp_bind, wp_ok_or; [intros info Hinfo|done]. cbn [fst] in Hinfo.
  apply wp_bind, wp_bind, wp_gets, wp_zoom, wp_zoom. unfold wp at 1. cbn [fst snd].
  destruct (host_expbuf _ _ _ _ _ _) as [k [fd|e]]; cbn [fst snd]; [|by eapply frame_dev].
  destruct HP as ([[[Hwf Hcnt] Hreg Hs] Hact]&Hid&Hin&Hp). cbn [fst snd] in *.
  apply wp_bind, wp_map_err, wp_zoom, wp_zoom. cbn [fst snd mmap_manager set_host].
  set (rw := negb _).
  assert (counts_le (u64_max - 1) (mmap_manager d)) as Hc' by (eapply counts_mono; [done|lia]).
  destruct (create_total offset fd rw _ Hwf Hc') as (mm'&r&Hcr).
  pose proof (wp_create n offset fd rw _ Hn (conj Hwf Hcnt)) as Hw. unfold wp in Hw |- * at 1.
  rewrite Hcr in Hw |- *.
  assert (∀ o, registered mm' o = active_at (mmap_buffers d) o) as Hreg'.
  { intros o. by rewrite (create_registered _ _ _ _ _ _ Hwf Hc' Hcr). }
  destruct HP' as (_&_&_&Hp').
  destruct r as [[addr size]|e].
  - apply wp_bind, wp_modify, wp_ret. split_and!; [|done..]. split; simpl.
    + split; simpl; [done| |].
      * intros o. rewrite Hreg', active_at_insert. case_bool_decide as Ho; [|done]. subst o.
        unfold active_at. by rewrite Hinfo.
      * intros o b [[<- <-]|[_ Hb]]%lookup_insert_Some; [|by apply (Hs o)].
        intros Ha. by apply (Hs offset info).
    + apply map_Forall_insert_2; [|done]. by apply (Hact offset info).
  - split_and!; [|done..]. by split; [split|].
Qed.

#[export] Instance proxy_contract lax :
  GuardedContract (D := Dev) (proxy_panics lax) (proxy_guard lax) poller_granted proxy_inv.
Proof.
  split.
  - intros n d m (Hn&Ht&Hm). split_and!; [lia|eapply tables_mono; [|done]; lia|].
    intros id s Hs. destruct (Hm id s Hs). split; [done|]. eapply polling_mono; [|done]. lia.
  - intros n d m id HI _. by apply wp_proxy_new.
  - intros n d m id s. apply proxy_inv_close.
  - intros n d m id s ioctl r w HI Hn Hs Hg.
    pose proof (proxy_handler_spec lax n (dom m) id (proj2 Hn)) as HS.
    eapply wp_mono, (wp_dispatch (HandlerSpec0 := HS) _ _ (proxy_ok (n + 1) (dom m) id)).
    + intros res [[[d' s'] r'] w'] [HP' _]. eapply proxy_ses_inv; [|done..]. lia.
    + split; [by apply proxy_inv_ses|done].
  - intros n d m id s flags offset HI Hn Hs _.
    eapply wp_mono, (wp_proxy_mmap n (dom m) id); [|done|by apply proxy_inv_ses].
    intros r [d' s'] HP'. eapply proxy_ses_inv; [|done..]. lia.
  - intros n d m addr (Hn&Ht&Hm). destruct Ht as [[[Hwf Hc] Hreg Hs] Hact].
    apply wp_bind, wp_map_err, wp_zoom.
    destruct (remove_total addr _ Hwf) as (mm'&r&Hr).
    pose proof (wp_remove n addr _ (conj Hwf Hc)) as Hw. unfold wp in Hw |- * at 1. rewrite Hr in Hw |- *.
    assert (∀ o, registered mm' o = active_at (mmap_buffers d) o) as Hreg'.
    { intros o. by rewrite (remove_registered _ _ _ _ Hwf Hr). }
    destruct r as [b|e]; (split_and!; [done| |done]); (split; [|done]); by split.
Qed.
End Contract.

(** ** The proxy device under a VMM *)

Section Vmm.
Context `{BM : BuildMode} `{V : V4l2r} {VL : V4l2rLaws}.
Context {Q G R HM K P : Type} `{!VirtioMediaEventQueue Q} `{!VirtioMediaGuestMemoryMapper G R}.
Context `{!VirtioMediaHostMemoryMapper HM} `{!HostV4l2 K} `{!HostV4l2Laws K}.
Context `{!SessionPoller P}.
Abbreviation Dev := (V4l2ProxyDevice Q G HM K).
Abbreviation Ses := (V4l2Session K R).
Abbreviation Runner := (VirtioMediaDeviceRunner Dev Ses P).
Context `{!PollerContract (P := P) (D := Dev) Ses}.

(** The host does what the step needs: it grants a poller to the session that is
    opened, and in a build with overflow checks it has never refused to stop watching
    the session that is used. *)
Definition host_ready (step : vmm_step) (rn : Runner) : bool :=
  match step with
  | Command r _ =>
      negb (refused (opens := poller_granted) rn r) && guarded (guard := λ _, fit) rn r
  | Ready id => match sessions rn !! id with Some s => fit s | None => true end
  end.

(** It does so in every step of the run. *)
Fixpoint host_keeps_up (steps : list vmm_step) (rn : Runner) : bool :=
  match steps with
  | [] => true
  | step :: steps' =>
      host_ready step rn &&
      match run_vmm_step step rn with Ret rn' => host_keeps_up steps' rn' | Panic => true end
  end.

Lemma ready_step_wf id n (rn : Runner) :
  runner_wf proxy_inv n rn → 0 ≤ n < u64_max →
  match run_vmm_step (Ready id) rn with
  | Ret rn' => runner_wf proxy_inv (n + 1) rn' ∧ session_id_counter rn' = session_id_counter rn
  | Panic => host_ready (Ready id) rn = false
  end.
Proof.
  intros Hwf Hn. cbn [run_vmm_step host_ready]. destruct (sessions rn !! id) as [s|] eqn:Es.
  2: { split; [by apply (runner_wf_mono (proxy_panics true) proxy_inv)|done]. }
  destruct Hwf as (HI&Hc&Hid).
  pose proof (wp_process_events n (dom (sessions rn)) id (device rn) s ltac:(lia)
    (proxy_inv_ses _ _ _ _ _ HI Es)) as Hw.
  unfold wp in Hw. unfold mbind, outcome_bind. cbn [process_events proxy_device].
  destruct (proxy_process_events (device rn, s)) as [[[d' s'] res]|]; [|by apply negb_true_iff].
  split; [|done]. split; [|split; [done|]].
  - apply (contract_mono (GuardedContract := proxy_contract true)).
    by apply (proxy_ses_inv n n (device rn) d' (sessions rn) id s s').
  - simpl. intros j Hj. apply Hid. destruct (decide (id = j)) as [->|]; [done|]. by rewrite lookup_insert_ne in Hj.
Qed.

Lemma command_step_wf r w n (rn : Runner) lax :
  runner_wf proxy_inv n rn → 0 ≤ n < u64_max → session_id_counter rn < u32_max →
  guarded (guard := proxy_guard lax) rn r = true →
  match run_vmm_step (Command r w) rn with
  | Ret rn' => runner_wf proxy_inv (n + 1) rn' ∧ session_id_counter rn' ≤ session_id_counter rn + 1
  | Panic => may_panic (proxy_panics lax) r || refused (opens := poller_granted) rn r = true
  end.
Proof.
  intros Hwf Hn Hmax Hg.
  pose proof (wp_handle_command (proxy_panics lax) proxy_inv n rn r w Hwf Hn Hmax Hg) as Hw.
  unfold wp in Hw. cbn [run_vmm_step]. unfold mbind, outcome_bind.
  destruct (handle_command (rn, r, w)) as [[[[rn' r'] w'] res]|]; [|done].
  destruct Hw as (Hwf'&Hc&_). split; [done|]. simpl in Hc. lia.
Qed.

(** The invariant is kept whatever the host does. *)
Lemma step_keeps_wf step n (rn rn' : Runner) :
  runner_wf proxy_inv n rn → 0 ≤ n < u64_max → session_id_counter rn < u32_max →
  run_vmm_step step rn = Ret rn' →
  runner_wf proxy_inv (n + 1) rn' ∧ session_id_counter rn' ≤ session_id_counter rn + 1.
Proof.
  intros Hwf Hn Hmax Hrun. destruct step as [r w|id].
  - pose proof (command_step_wf r w n rn true Hwf Hn Hmax (guarded_always rn r)) as Hs. by rewrite Hrun in Hs.
  - pose proof (ready_step_wf id n rn Hwf Hn) as Hs. rewrite Hrun in Hs. destruct Hs. split; [done|lia].
Qed.

Lemma run_keeps_wf steps n (rn rn' : Runner) :
  runner_wf proxy_inv n rn → 0 ≤ n → n + Z.of_nat (length steps) ≤ u64_max →
  session_id_counter rn + Z.of_nat (length steps) ≤ u32_max →
  run_vmm steps rn = Ret rn' → ∃ n', runner_wf proxy_inv n' rn'.
Proof.
  revert n rn. induction steps as [|step steps IH]; intros n rn Hwf Hn Hmax Hc; cbn [run_vmm length] in *.
  { intros [= <-]. eauto. }
  unfold mbind, outcome_bind. destruct (run_vmm_step step rn) as [rn1|] eqn:E1; [|done].
  destruct (step_keeps_wf step n rn rn1 Hwf ltac:(lia) ltac:(lia) E1) as [Hwf1 Hc1].
  intros Hrun. apply (IH (n + 1) rn1 Hwf1); [lia..|done].
Qed.

(** No step panics while the host keeps up. *)
Lemma step_serves step n (rn : Runner) :
  runner_wf proxy_inv n rn → 0 ≤ n < u64_max → session_id_counter rn < u32_max →
  step_may_panic (proxy_panics false) false step = false → host_ready step rn = true →
  is_Some (match run_vmm_step step rn with Ret rn' => Some rn' | Panic => None end).
Proof.
  intros Hwf Hn Hmax Hp Hh. destruct step as [r w|id]; cbn [step_may_panic host_ready] in *.
  - apply andb_true_iff in Hh as [Hr Hg]. apply negb_true_iff in Hr.
    pose proof (command_step_wf r w n rn false Hwf Hn Hmax Hg) as Hs.
    destruct (run_vmm_step _ rn); [done|]. by rewrite Hp, Hr in Hs.
  - pose proof (ready_step_wf id n rn Hwf Hn) as Hs. cbn [host_ready] in Hs.
    destruct (run_vmm_step _ rn); [done|]. congruence.
Qed.

Lemma run_serves steps n (rn : Runner) :
  runner_wf proxy_inv n rn → 0 ≤ n → n + Z.of_nat (length steps) ≤ u64_max →
  session_id_counter rn + Z.of_nat (length steps) ≤ u32_max →
  Forall (λ step, step_may_panic (proxy_panics false) false step = false) steps →
  host_keeps_up steps rn = true → ∃ rn', run_vmm steps rn = Ret rn'.
Proof.
  revert n rn. induction steps as [|step steps IH]; intros n rn Hwf Hn Hmax Hc Hall Hh; cbn [run_vmm length] in *;
    [by eexists|].
  apply Forall_cons in Hall as [Hp Hall]. cbn [host_keeps_up] in Hh. apply andb_true_iff in Hh as [Hr Hh].
  pose proof (step_serves step n rn Hwf ltac:(lia) ltac:(lia) Hp Hr) as Hs.
  unfold mbind, outcome_bind. destruct (run_vmm_step step rn) as [rn1|] eqn:E1; [|by destruct Hs].
  destruct (step_keeps_wf step n rn rn1 Hwf ltac:(lia) ltac:(lia) E1) as [Hwf1 Hc1].
  apply (IH (n + 1) rn1 Hwf1); [lia..|done|done].
Qed.

Lemma proxy_inv_new path (q : Q) (g : G) (hm : HM) (k : K) :
  proxy_inv 0 (V4l2ProxyDevice_new path q g hm k) (∅ : gmap Z Ses).
Proof.
  split_and!; [done| |by intros id s ?%lookup_empty_Some].
  split; [|apply map_Forall_empty].
  split; [apply manager_ok_from|done|]. intros o b. simpl. by rewrite lookup_empty.
Qed.

Lemma proxy_run_inv path (q : Q) (g : G) (hm : HM) (k : K) (p : P) steps (rn : Runner) :
  Z.of_nat (length steps) ≤ u32_max →
  run_vmm steps (runner_new (V4l2ProxyDevice_new path q g hm k) p) = Ret rn →
  ∃ n, runner_wf proxy_inv n rn.
Proof.
  intros Hlen. apply (run_keeps_wf _ 0); [apply runner_new_wf, proxy_inv_new|lia|mlia|simpl; lia].
Qed.

(** C3: after any sequence of guest commands and host events, the offsets that can
    be mapped are exactly those of the buffers the device knows, and every buffer
    belongs to a session that is open. *)
Theorem proxy_buffers_are_tracked path (q : Q) (g : G) (hm : HM) (k : K) (p : P) steps (rn : Runner) :
  Z.of_nat (length steps) ≤ u32_max →
  run_vmm steps (runner_new (V4l2ProxyDevice_new path q g hm k) p) = Ret rn →
  (∀ o, registered (mmap_manager (device rn)) o = true ↔ is_Some (mmap_buffers (device rn) !! o)) ∧
  (∀ o b, mmap_buffers (device rn) !! o = Some b → is_Some (sessions rn !! pi_session_id b)).
Proof.
  intros Hlen Hrun. destruct (proxy_run_inv _ _ _ _ _ _ _ _ Hlen Hrun) as (n&(_&Ht&_)&_).
  destruct Ht as [[_ Hreg Hs] Hact]. split.
  - intros o. rewrite Hreg. unfold active_at. destruct (mmap_buffers (device rn) !! o) as [b|] eqn:Eb.
    + rewrite (proj1 (Hact o b Eb)). split; [by eexists|done].
    + split; [done|]. by intros [].
  - intros o b Hb. apply elem_of_dom, (Hs o b Hb). by apply (Hact o b).
Qed.

(** C18: after any sequence of guest commands and host events, the host's capture
    queue is watched only for sessions that stream with buffers queued, and for
    sessions whose poller has refused to stop watching an event: the device only logs
    that error. *)
Theorem proxy_polls_only_while_streaming path (q : Q) (g : G) (hm : HM) (k : K) (p : P) steps
    (rn : Runner) id s :
  Z.of_nat (length steps) ≤ u32_max →
  run_vmm steps (runner_new (V4l2ProxyDevice_new path q g hm k) p) = Ret rn →
  sessions rn !! id = Some s → polled (ps_poller s) CaptureReady = true →
  (capture_streaming s = true ∧ 0 < capture_num_queued s) ∨ disable_failed (ps_poller s) = true.
Proof.
  intros Hlen Hrun Hs Hp. destruct (proxy_run_inv _ _ _ _ _ _ _ _ Hlen Hrun) as (n&(_&_&Hm)&_).
  destruct (Hm id s Hs) as (_&_&[Hf|[_ Hpoll]]); [by right|]. left. specialize (Hpoll Hp).
  unfold should_poll_capture in Hpoll. apply andb_true_iff in Hpoll as [Hst Hq]. split; [done|lia].
Qed.

(** C15: the proxy serves any sequence of up to 2^32 - 1 guest commands and host
    events without a panic, as long as no command asks for the allocation of buffers,
    an ext control, or an event subscription, and the host keeps up with the run:
    whenever a session is opened, the host grants it a poller that watches for
    events, and, in a build with overflow checks, no session is used after its poller
    has refused to stop watching an event.  In particular the count of queued
    buffers does not underflow. *)
Theorem proxy_serves_vmm path (q : Q) (g : G) (hm : HM) (k : K) (p : P) steps :
  Z.of_nat (length steps) ≤ u32_max →
  Forall (λ step, step_may_panic (proxy_panics false) false step = false) steps →
  host_keeps_up steps (runner_new (V4l2ProxyDevice_new path q g hm k : Dev) p) = true →
  ∃ rn : Runner, run_vmm steps (runner_new (V4l2ProxyDevice_new path q g hm k) p) = Ret rn.
Proof.
  intros Hlen. apply (run_serves _ 0); [apply runner_new_wf, proxy_inv_new|lia|mlia|simpl; lia].
Qed.
End Vmm.

(** ** Witnesses *)

Module ProxyWitness.
Import V4l2r.Sample SampleHost.

#[local] Instance debug_build : BuildMode := true.
#[local] Instance log_queue : VirtioMediaEventQueue (list (V4l2Event buf st)) := λ e q, q ++ [e].

(** A VMM that maps buffers where the crate's test mapper does. *)
#[local] Instance vmm_mapper : VirtioMediaHostMemoryMapper unit := {|
  add_mapping _ _ _ offset _ := (tt, Ok (Z.lor offset 0x80000000));
  hm_remove_mapping _ _ := (tt, Ok tt);
|}.
#[local] Instance vmm_poller : SessionPoller unit := {|
  add_session _ _ _ := Ret (tt, Ok tt);
  remove_session _ _ := Ret tt;
|}.

Abbreviation Dev := (V4l2ProxyDevice (list (V4l2Event buf st)) Z unit khost).
Abbreviation Ses := (V4l2Session khost Z).

#[local] Instance vmm_poller_contract : PollerContract (P := unit) (D := Dev) Ses.
Proof. by split. Qed.

Definition proxy0 : Dev := V4l2ProxyDevice_new "/dev/video0" [] 4096 tt (mkHost [] [] false).

Definition command (bytes : list byte) : vmm_step := Command bytes (mkWriter [] 128).
Definition ioctl_command (code : Z) (payload : list byte) : vmm_step :=
  command (c_enc c_CmdHeader (mkCmdHeader VIRTIO_MEDIA_CMD_IOCTL 0) ++
           c_enc c_IoctlCmd (mkIoctlCmd 0 code) ++ payload).

Definition open_step : vmm_step := command (c_enc c_CmdHeader (mkCmdHeader VIRTIO_MEDIA_CMD_OPEN 0)).
(** REQBUFS of [n] MMAP buffers of the CAPTURE queue. *)
Definition reqbufs_step (n : Z) : vmm_step := ioctl_command 8 (c_enc c_st ((1, n), (0, 1))).
Definition qbuf_step (i : Z) : vmm_step := ioctl_command 15 (c_enc c_st ((1, 4096), (i, 1))).
Definition streamon_step : vmm_step := ioctl_command 18 (c_enc c_u32 1).

Definition streaming_steps : list vmm_step :=
  [open_step; reqbufs_step 2; qbuf_step 0; qbuf_step 1; streamon_step].

Definition run (steps : list vmm_step) : outcome (VirtioMediaDeviceRunner Dev Ses unit) :=
  run_vmm steps (runner_new proxy0 tt).

(** Two buffers known, the session polling; after a host event, one left queued. *)
Example streaming_run :
  match run (streaming_steps ++ [Ready 0]) with
  | Ret rn => (bool_decide (is_Some (mmap_buffers (device rn) !! 4096)),
               (λ s : Ses, (watched (ps_poller s) CaptureReady, capture_num_queued s,
                  k_refused (ps_poller s))) <$> sessions rn !! 0)
  | Panic => (false, None)
  end = (true, Some (true, 1, false)).
Proof. vm_compute. reflexivity. Qed.

Definition streamed : outcome (VirtioMediaDeviceRunner Dev Ses unit) :=
  run (streaming_steps ++ [Ready 0]).

Lemma proxy_buffers_are_tracked_witness :
  ∃ rn, streamed = Ret rn ∧ registered (mmap_manager (device rn)) 4096 = true.
Proof.
  pose proof streaming_run as Hrun. change (run (streaming_steps ++ [Ready 0])) with streamed in Hrun.
  destruct streamed as [rn|] eqn:Es; [|discriminate]. exists rn. split; [reflexivity|].
  destruct (proxy_buffers_are_tracked (V := sample_v4l2r) "/dev/video0" [] 4096 tt (mkHost [] [] false) tt
    (streaming_steps ++ [Ready 0]) rn ltac:(vm_compute; congruence) Es) as [Hreg _].
  apply Hreg. injection Hrun as Hb _. apply bool_decide_eq_true in Hb. exact Hb.
Defined.

Lemma proxy_polls_only_while_streaming_witness :
  ∃ rn s, streamed = Ret rn ∧ sessions rn !! 0 = Some s ∧
    capture_streaming s = true ∧ 0 < capture_num_queued s.
Proof.
  pose proof streaming_run as Hrun. change (run (streaming_steps ++ [Ready 0])) with streamed in Hrun.
  destruct streamed as [rn|] eqn:Es; [|discriminate].
  destruct (sessions rn !! 0) as [s|] eqn:Esess; [|discriminate].
  exists rn, s. split; [reflexivity|]. split; [exact Esess|].
  destruct (proxy_polls_only_while_streaming (V := sample_v4l2r) "/dev/video0" [] 4096 tt (mkHost [] [] false)
    tt (streaming_steps ++ [Ready 0]) rn 0 s ltac:(vm_compute; congruence) Es Esess) as [Hst|Hf].
  - injection Hrun as _ Hw _ _. exact Hw.
  - exact Hst.
  - injection Hrun as _ _ _ Hf'. exfalso. cbn in Hf. congruence.
Defined.

(** A host without resources for its pollers: OPEN panics.  When it runs out of them
    while a session streams, the session stays watched after STREAMOFF, and the next
    event takes its count of buffers below zero. *)
Definition stuck_proxy : Dev := V4l2ProxyDevice_new "/dev/video0" [] 4096 tt (mkHost [] [] true).

Definition returns {A} (o : outcome A) : bool := match o with Ret _ => true | Panic => false end.

Example open_without_poller_panics :
  (host_keeps_up [open_step] (runner_new (Ses := Ses) stuck_proxy tt),
   returns (run_vmm [open_step] (runner_new (Ses := Ses) stuck_proxy tt))) = (false, false).
Proof. vm_compute. reflexivity. Qed.

Definition streamoff_step : vmm_step := ioctl_command 19 (c_enc c_u32 1).

(** The runner, on a host that has run out of resources. *)
Definition stick (rn : VirtioMediaDeviceRunner Dev Ses unit) : VirtioMediaDeviceRunner Dev Ses unit :=
  set_device (set_host (mkHost (k_events (host (device rn))) (k_ready (host (device rn))) true) (device rn)) rn.

Example refused_disable_underflows :
  match run streaming_steps with
  | Ret rn =>
      match run_vmm [streamoff_step] (stick rn) with
      | Ret rn => ((λ s : Ses, (watched (ps_poller s) CaptureReady, capture_num_queued s)) <$> sessions rn !! 0,
                   host_keeps_up [Ready 0] rn, returns (run_vmm [Ready 0] rn))
      | Panic => (None, true, true)
      end
  | Panic => (None, true, true)
  end = (Some (true, 0), false, false).
Proof. vm_compute. reflexivity. Qed.

Lemma proxy_serves_vmm_witness :
  ∃ rn, run [open_step; qbuf_step 0; streamon_step; Ready 0; Ready 0] = Ret rn.
Proof.
  apply (proxy_serves_vmm (V := sample_v4l2r)); [vm_compute; congruence| |vm_compute; reflexivity].
  repeat (apply Forall_cons; split; [vm_compute; reflexivity|]). apply Forall_nil. exact I.
Defined.
End ProxyWitness.
