(* ===== verification/ProxyBehaviour.v ===== *)
(** * What the operations of the proxy device do

    User pointers survive the trip to the host and back; ext controls come back
    with the guest's addresses; events and buffers of the host are forwarded; and
    two behaviours that surprise: allocating over a buffer that is still mapped,
    and the last buffer of a stream. *)

From Stdlib Require Import Strings.Byte.
From S2P Require Import Prelude RustStd Traits Mmap Bytes Protocol Io V4l2r Ioctl Runner Vmm MemFd HostDevice V4l2Proxy ProxyContract.
#[local] Open Scope Z_scope.

(** ** User pointers *)

Section Userptr.
Context `{BM : BuildMode} `{V : V4l2r} {VL : V4l2rLaws}.
Context {Q G R HM K : Type} `{!VirtioMediaEventQueue Q} `{!VirtioMediaGuestMemoryMapper G R}.
Context `{!VirtioMediaHostMemoryMapper HM} `{!HostV4l2 K}.
Abbreviation Dev := (V4l2ProxyDevice Q G HM K).
Abbreviation Ses := (V4l2Session K R).
Abbreviation St := (Dev * Ses)%type.

(** A plane of the host: the guest's, at another address if it has a length. *)
Definition at_host (p p' : Plane) : Prop :=
  p' = set_userptr (p_backing p') p ∧ (p_length p ≤ 0 → p_backing p' = p_backing p).

Lemma at_host_refl p : at_host p p.
Proof. split; [by destruct p|done]. Qed.

(** The mappings of [regions], made one after the other. *)
Fixpoint map_all (regions : list (list SgEntry)) (g : G) : option (list R) :=
  match regions with
  | [] => Some []
  | sgs :: regions' =>
      match new_mapping sgs g with
      | (g', Ok m) => cons m <$> map_all regions' g'
      | (_, Err _) => None
      end
  end.

(** The host's address of a mapping, for writing or for reading. *)
Definition mapping_address (w : bool) (m : R) : Z := if w then (as_mut_ptr m).2 else as_ptr m.

(** The planes [ps], those with a length moved to [addrs] in this order. *)
Fixpoint place (ps : list Plane) (addrs : list Z) : list Plane :=
  match ps with
  | [] => []
  | p :: ps' =>
      if 0 <? p_length p then
        match addrs with
        | a :: addrs' => set_userptr a p :: place ps' addrs'
        | [] => p :: place ps' []
        end
      else p :: place ps' addrs
  end.

Lemma place_at_host ps addrs :
  length addrs = length (filter (λ p, 0 < p_length p) ps) → Forall2 at_host ps (place ps addrs).
Proof.
  revert addrs. induction ps as [|p ps IH]; intros addrs Hlen; simpl; [done|].
  destruct (Z.ltb_spec 0 (p_length p)) as [Hp|Hp].
  - rewrite filter_cons_True in Hlen by done. destruct addrs as [|a addrs]; [done|].
    simpl in Hlen. constructor; [|apply IH; lia]. split; [done|]. lia.
  - rewrite filter_cons_False in Hlen by lia. constructor; [apply at_host_refl|by apply IH].
Qed.

(** With non-zero addresses, every plane with a length has one. *)
Lemma place_nonzero ps addrs :
  length addrs = length (filter (λ p, 0 < p_length p) ps) → Forall (λ a, a ≠ 0) addrs →
  Forall2 (λ p p', 0 < p_length p → p_backing p' ≠ 0) ps (place ps addrs).
Proof.
  revert addrs. induction ps as [|p ps IH]; intros addrs Hlen Hnz; simpl; [done|].
  destruct (Z.ltb_spec 0 (p_length p)) as [Hp|Hp].
  - rewrite filter_cons_True in Hlen by done. destruct Hnz as [|a addrs Ha Hnz]; [done|].
    simpl in Hlen. constructor; [done|]. apply IH; [lia|done].
  - rewrite filter_cons_False in Hlen by lia. constructor; [lia|by apply IH].
Qed.

Lemma place_addresses ps addrs :
  length addrs = length (filter (λ p, 0 < p_length p) ps) → Forall (λ a, a ≠ 0) addrs →
  Forall (λ p, p_length p ≤ 0 → p_backing p = 0) ps →
  filter (λ a, a ≠ 0) (p_backing <$> place ps addrs) = addrs.
Proof.
  revert addrs. induction ps as [|p ps IH]; intros addrs Hlen Hnz Hz; simpl.
  { by destruct addrs. }
  apply Forall_cons in Hz as [Hzp Hz]. destruct (Z.ltb_spec 0 (p_length p)) as [Hp|Hp].
  - rewrite filter_cons_True in Hlen by done. destruct Hnz as [|a addrs Ha Hnz]; [done|].
    simpl in Hlen |- *. rewrite filter_cons_True by done. f_equal. apply IH; [lia|done..].
  - rewrite filter_cons_False in Hlen by lia. simpl.
    rewrite filter_cons_False by (rewrite Hzp; lia). by apply IH.
Qed.

Lemma map_all_length regions g ms : map_all regions g = Some ms → length ms = length regions.
Proof.
  revert g ms. induction regions as [|r regions IH]; intros g ms; simpl; [by intros [= <-]|].
  destruct (new_mapping r g) as [g' [m|e]]; [|done].
  destruct (map_all regions g') as [ms'|] eqn:Em; [|done]. intros [= <-]. simpl. f_equal. eauto.
Qed.

Lemma map_planes_spec w ps regions done (res : list R) (g g' : G) ps' res' :
  length regions = length (filter (λ p, 0 < p_length p) ps) →
  map_planes w ps regions done res g = Ret (g', Ok (ps', res')) →
  ∃ ms mapped, map_all regions g = Some ms ∧
    ps' = done ++ place ps (mapping_address w <$> ms) ∧ res' = res ++ mapped ∧
    length mapped = length regions.
Proof.
  revert regions done res g.
  induction ps as [|p ps IH]; intros regions done res g Hlen; simpl.
  { destruct regions; [|done]. intros [= _ <- <-]. exists [], []. by rewrite !app_nil_r. }
  destruct (Z.ltb_spec 0 (p_length p)) as [Hp|Hp].
  - rewrite filter_cons_True in Hlen by done. destruct regions as [|r regions]; [done|].
    simpl in Hlen |- *. unfold_M. destruct (new_mapping r g) as [g1 [m|e]]; [|done].
    destruct (if w then as_mut_ptr m else (m, as_ptr m)) as [m1 addr] eqn:Ea.
    intros Hm. apply IH in Hm as (ms&mapped&->&->&->&Hl); [|lia].
    exists (m :: ms), (m1 :: mapped). rewrite <-!(assoc_L (++)). split_and!; [done| |done|simpl; lia].
    assert (mapping_address w m = addr) as <- by (destruct w; simpl in *; by rewrite ?Ea; simplify_eq).
    done.
  - rewrite filter_cons_False in Hlen by lia. intros Hm.
    apply IH in Hm as (ms&mapped&->&->&->&Hl); [|done].
    exists ms, mapped. by rewrite <-(assoc_L (++)).
Qed.

(** The table after the registrations [l]. *)
Definition registers (gb : V4l2Buffer) (l : list ((Z * Plane) * R))
    (m : gmap Z (V4l2UserPlaneInfo R)) : gmap Z (V4l2UserPlaneInfo R) :=
  foldl (λ m x, <[x.1.1 := mkUserPlaneInfo (buf_queue gb) (as_u8 (buf_index gb))
                    (p_backing x.1.2) x.2]> m) m l.

Lemma register_loop_run {E} gb l (d : Dev) (s : Ses) :
  ∃ d', forM_ (register_userptr (E := E) gb) l (d, s) =
    Ret ((d', set_userptrs (registers gb l (userptr_buffers s)) s), Ok tt).
Proof.
  revert d s. induction l as [|[[h p] r] l IH]; intros d s; simpl.
  - exists d. by destruct s.
  - unfold_M. simpl.
    destruct (IH (match userptr_buffers s !! h with
                  | Some old => set_mem (drop_range (guest_resource old) (mem d)) d
                  | None => d
                  end) (set_userptrs (<[h := mkUserPlaneInfo (buf_queue gb) (as_u8 (buf_index gb))
                    (p_backing p) r]> (userptr_buffers s)) s)) as [d' Hd'].
    exists d'. by rewrite Hd'.
Qed.

(** Distinct host addresses stand for the guest addresses registered with them. *)
Lemma registers_lookup gb l m h p r :
  NoDup (l.*1.*1) → ((h, p), r) ∈ l → guest_addr <$> registers gb l m !! h = Some (p_backing p).
Proof.
  unfold registers. induction l as [|[[h1 p1] r1] l IH] using rev_ind; [set_solver|].
  rewrite !fmap_app, foldl_app. intros (Hnd&Hdis&_)%NoDup_app Hin. simpl.
  apply elem_of_app in Hin as [Hin|Hin%list_elem_of_singleton].
  - rewrite lookup_insert_ne; [by apply IH|]. intros ->. apply (Hdis h); [|by constructor].
    apply list_elem_of_fmap. exists (h, p). split; [done|]. apply list_elem_of_fmap.
    by exists ((h, p), r).
  - simplify_eq. by rewrite lookup_insert_eq.
Qed.

(** Each plane of [outs] is at the address of one of the host's planes. *)
Lemma restore_planes ps new (l : list ((Z * Plane) * R)) gb m outs :
  Forall2 at_host ps new →
  Forall (λ p, p_length p ≤ 0 → p_backing p = 0) ps →
  Forall2 (λ p p', 0 < p_length p → p_backing p' ≠ 0) ps new →
  NoDup (l.*1.*1) →
  (∀ p p', (p, p') ∈ zip ps new → p_backing p' ≠ 0 → ∃ r, ((p_backing p', p), r) ∈ l) →
  p_backing <$> outs = p_backing <$> new →
  mapM (restore_plane (registers gb l m)) outs =
  Some (zip_with (λ p out, set_userptr (p_backing p) out) ps outs).
Proof.
  intros Hnew Hz Hnz Hnd. revert outs. induction Hnew as [|p p' ps new Hp Hnew IH];
    intros outs Hl Hout; [by destruct outs|].
  destruct outs as [|out outs]; [done|]. simpl in Hout. injection Hout as Ho Hout.
  apply Forall_cons in Hz as [Hzp Hz]. apply Forall2_cons in Hnz as [Hnzp Hnz]. simpl.
  assert (restore_plane (registers gb l m) out = Some (set_userptr (p_backing p) out)) as ->.
  { unfold restore_plane. rewrite Ho. destruct (Z.eqb_spec (p_backing p') 0) as [H0|H0].
    - destruct Hp as [_ Hp]. assert (p_length p ≤ 0) by (destruct (Z.le_gt_cases (p_length p) 0); [done|];
        by destruct (Hnzp ltac:(lia))).
      rewrite (Hzp ltac:(done)), <-H0, <-Ho. by destruct out.
    - destruct (Hl p p' ltac:(set_solver) H0) as [r Hr].
      pose proof (registers_lookup gb l m _ p r Hnd Hr) as Hg.
      destruct (registers gb l m !! p_backing p') as [info|]; [|done]. simpl in *. congruence. }
  simpl. rewrite IH; [done|done|done| |done]. intros q q' Hin. apply Hl. by constructor.
Qed.

(** The registrations are those of the planes that were mapped. *)
Lemma pairs_length ps new :
  Forall2 at_host ps new →
  Forall (λ p, p_length p ≤ 0 → p_backing p = 0) ps →
  Forall2 (λ p p', 0 < p_length p → p_backing p' ≠ 0) ps new →
  length (filter (λ hp : Z * Plane, hp.1 ≠ 0) (zip (p_backing <$> new) ps)) =
  length (filter (λ p, 0 < p_length p) ps).
Proof.
  induction 1 as [|p p' ps new [_ Hp] Hnew IH]; intros Hz Hnz; [done|].
  apply Forall_cons in Hz as [Hzp Hz]. apply Forall2_cons in Hnz as [Hnzp Hnz]. simpl.
  rewrite !filter_cons. specialize (IH Hz Hnz).
  destruct (decide (0 < p_length p)) as [Hl|Hl]; simpl in *; case_decide as Hb; simpl in *.
  - f_equal. exact IH.
  - exfalso. specialize (Hnzp Hl). lia.
  - exfalso. apply Hb. rewrite Hp, Hzp; lia.
  - exact IH.
Qed.

Lemma pairs_keys new (ps : list Plane) :
  length ps = length new →
  (filter (λ hp : Z * Plane, hp.1 ≠ 0) (zip (p_backing <$> new) ps)).*1 = filter (λ a, a ≠ 0) (p_backing <$> new).
Proof.
  revert ps. induction new as [|p' new IH]; intros [|p ps] Hlen; try done. simpl in *.
  rewrite !filter_cons. simpl. case_decide; simpl; by rewrite IH by lia.
Qed.

Lemma elem_of_zip_l {A B} (x : A) (l : list A) (k : list B) :
  x ∈ l → length l = length k → ∃ y, (x, y) ∈ zip l k.
Proof.
  intros [i Hi]%list_elem_of_lookup Hlen.
  destruct (lookup_lt_is_Some_2 k i) as [y Hy]; [rewrite <-Hlen; by eapply lookup_lt_Some|].
  exists y. apply list_elem_of_lookup. exists i. by rewrite lookup_zip_with, Hi; simpl; rewrite Hy.
Qed.

Lemma elem_of_pairs ps new p p' :
  (p, p') ∈ zip ps new → p_backing p' ≠ 0 →
  (p_backing p', p) ∈ filter (λ hp : Z * Plane, hp.1 ≠ 0) (zip (p_backing <$> new) ps).
Proof.
  intros Hin Hb. apply list_elem_of_filter. split; [done|].
  apply list_elem_of_lookup in Hin as [i Hi]. apply list_elem_of_lookup. exists i.
  rewrite lookup_zip_with in Hi. rewrite lookup_zip_with, list_lookup_fmap.
  destruct (ps !! i), (new !! i); naive_solver.
Qed.

(** The buffer [out] with the pointers of [ps]. *)
Definition with_pointers_of (ps outs : list Plane) (out : V4l2Buffer) : V4l2Buffer :=
  buf_set_planes (zip_with (λ p out, set_userptr (p_backing p) out) ps outs) out.

Lemma planes_placed gb ps addrs :
  buf_planes gb = BUserPtr ps → length addrs = length (filter (λ p, 0 < p_length p) ps) →
  buf_planes (buf_set_planes (place ps addrs) gb) = BUserPtr (place ps addrs).
Proof.
  intros Hgb Hlen. apply (planes_set_userptrs _ ps); [done|].
  pose proof (place_at_host ps addrs Hlen) as Hnew. clear Hgb Hlen.
  induction Hnew as [|p p' ps' new [-> _] _ IH]; [done|].
  simpl. f_equal. exact IH.
Qed.

(** A buffer with the addresses of the registered mappings gets its pointers back. *)
Lemma registered_restore gb hb ps addrs (mapped : list R) m outs :
  length addrs = length (filter (λ p, 0 < p_length p) ps) →
  buf_planes gb = BUserPtr ps → buf_planes hb = BUserPtr (place ps addrs) →
  Forall (λ p, p_length p ≤ 0 → p_backing p = 0) ps → Forall (λ a, a ≠ 0) addrs → NoDup addrs →
  p_backing <$> outs = p_backing <$> place ps addrs → length mapped = length addrs →
  mapM (restore_plane (registers gb (zip (userptr_pairs hb gb) mapped) m)) outs = Some (zip_with (λ p out, set_userptr (p_backing p) out) ps outs).
Proof.
  intros Hlen Hgb Hhb Hz Hnz Hnd Hout Hml.
  pose proof (place_at_host ps addrs Hlen) as Hnew. pose proof (place_nonzero ps addrs Hlen Hnz) as Hnz2.
  assert (userptr_pairs hb gb =
    filter (λ hp : Z * Plane, hp.1 ≠ 0) (zip (p_backing <$> place ps addrs) ps)) as Hpairs.
  { unfold userptr_pairs. by rewrite Hhb, Hgb. }
  assert (length (userptr_pairs hb gb) = length mapped) as Hpl.
  { rewrite Hpairs, pairs_length by done. congruence. }
  rewrite (restore_planes ps (place ps addrs)); [done..| | |done].
  - rewrite fst_zip, Hpairs, pairs_keys by (lia || by eapply Forall2_length).
    by rewrite place_addresses.
  - intros p p' Hin Hb. apply (elem_of_zip_l (p_backing p', p)); [|done].
    rewrite Hpairs. by apply elem_of_pairs.
Qed.

(** C23: when a USERPTR buffer of the guest is imported, the host's buffer is the
    guest's with every plane that has a length moved to the address of a mapping of
    its regions, made in the order of the planes: writable for a capture queue,
    readable otherwise.  If moreover the planes without a length have no pointer and
    the addresses of the mappings are non-zero and distinct, then whenever the host
    returns a buffer with these addresses, whatever else it changed, the guest gets
    its own pointers back and everything else as the host left it. *)
Theorem userptr_roundtrip gb regions ps (d d' : Dev) (s s' : Ses) hb :
  buf_planes gb = BUserPtr ps → buffer_regions gb regions →
  import_buffer gb regions (d, s) = Ret ((d', s'), Ok hb) →
  ∃ ms, map_all regions (mem d) = Some ms ∧
    let addrs := mapping_address (bool_decide (direction (buf_queue gb) = Capture)) <$> ms in
    hb = buf_set_planes (place ps addrs) gb ∧ buf_planes hb = BUserPtr (place ps addrs) ∧
    (Forall (λ p, p_length p ≤ 0 → p_backing p = 0) ps → Forall (λ a, a ≠ 0) addrs → NoDup addrs →
     ∀ out outs, buf_planes out = BUserPtr outs →
       p_backing <$> outs = p_backing <$> place ps addrs →
       host_v4l2_buffer_to_guest out (userptr_buffers s') = Some (with_pointers_of ps outs out)).
Proof.
  unfold with_pointers_of. intros Hgb Hreg Himp.
  unfold buffer_regions in Hreg. rewrite Hgb in Hreg.
  assert (length regions = length (filter (λ p, 0 < p_length p) ps)) as Hlen.
  { symmetry. by eapply Forall2_length. }
  unfold import_buffer, guest_v4l2_buffer_to_host in Himp. rewrite Hgb in Himp.
  revert Himp. unfold_M. unfold on_dev, dev_mem, zoom. cbn [fst snd].
  set (w := bool_decide _).
  destruct (map_planes w ps regions [] [] (mem d)) as [[g [[ps' mapped]|e]]|] eqn:Em; [|done..].
  apply map_planes_spec in Em as (ms&mapped'&Hms&->&->&Hml); [|done]. simpl.
  set (addrs := mapping_address w <$> ms).
  assert (length addrs = length (filter (λ p, 0 < p_length p) ps)) as Hal.
  { unfold addrs. rewrite length_fmap, (map_all_length _ _ _ Hms). done. }
  unfold register_userptr_addresses. unfold_M.
  set (hb' := buf_set_planes (place ps addrs) gb).
  assert (buf_planes hb' = BUserPtr (place ps addrs)) as Hhb' by by apply planes_placed.
  destruct (register_loop_run (E := Z) gb (zip (userptr_pairs hb' gb) mapped') (set_mem g d) s)
    as [d1 ->].
  intros [= <- <- <-]. exists ms. split_and!; [done..|]. intros Hz Hnz Hnd out outs Hout Haddr.
  unfold host_v4l2_buffer_to_guest. rewrite Hout. cbn [userptr_buffers set_userptrs].
  rewrite (registered_restore _ _ ps addrs); [done..|congruence].
Qed.
End Userptr.

(** ** Operations *)

Section Operations.
Context `{BM : BuildMode} `{V : V4l2r} {VL : V4l2rLaws}.
Context {Q G R HM K : Type} `{!VirtioMediaEventQueue Q} `{!VirtioMediaGuestMemoryMapper G R}.
Context `{!VirtioMediaHostMemoryMapper HM} `{!HostV4l2 K} `{!HostV4l2Laws K}.
Abbreviation Dev := (V4l2ProxyDevice Q G HM K).
Abbreviation Ses := (V4l2Session K R).
Abbreviation St := (Dev * Ses)%type.

(** *** Ext controls *)

Lemma patch_ptrs_length (arr : list (vstruct v4l2_ext_control)) (payloads : list R) :
  length (patch_ptrs arr payloads).1 = length arr.
Proof.
  revert payloads. induction arr as [|c arr IH]; intros payloads; simpl; [done|].
  destruct (0 <? fld c "size"); [destruct payloads as [|r payloads]; [done|];
    destruct (as_mut_ptr r)|]; specialize (IH payloads);
    destruct (patch_ptrs arr payloads); simpl in *; by rewrite IH.
Qed.

(** Mapping the payloads succeeds or panics. *)
Lemma map_payloads_ok {E} arr regions (d d' : Dev) (e : E) :
  map_payloads arr regions d ≠ Ret (d', Err e).
Proof.
  apply mapM_no_err. intros [c sgs] d1 d2 e'. unfold_M. unfold dev_mem, zoom. cbn [snd].
  by destruct (new_mapping sgs (mem d1)) as [g [r|e2]].
Qed.

(** The arguments as the method leaves them. *)
Definition ext_result (r : result Call.ext_args (Z * Call.ext_args)) : Call.ext_args :=
  match r with Ok args => args | Err (_, args) => args end.

(** C24: whatever the host does with the controls, and whether it succeeds or not,
    the guest gets back as many controls as it sent, and those that had a payload
    hold the guest's address of it, not the host's. *)
Theorem ext_ctrls_restore_guest_addresses op which ctrls arr regions (s : Ses) (d d' : Dev) r :
  perform_ext_ctrls_ioctl op which (ctrls, arr) regions s d = Ret (d', r) →
  length (ext_result r).2 = length arr ∧
  ∀ i c c', arr !! i = Some c → (ext_result r).2 !! i = Some c' → 0 < fld c "size" →
    fld c' CTRL_PTR = fld c CTRL_PTR.
Proof.
  unfold perform_ext_ctrls_ioctl. unfold_M.
  destruct (map_payloads arr regions d) as [[d1 [payloads|e]]|] eqn:Em;
    [|by apply map_payloads_ok in Em|done].
  pose proof (patch_ptrs_length arr payloads) as Hlen.
  destruct (patch_ptrs arr payloads) as [patched payloads']. simpl in Hlen.
  destruct (host_ext_ctrls op (ps_device s) which patched (host d1)) as [k [updated res]] eqn:Eh.
  apply ext_ctrls_length in Eh.
  assert ((λ args : Call.ext_args, length args.2 = length arr ∧
    ∀ i c c', arr !! i = Some c → args.2 !! i = Some c' → 0 < fld c "size" →
      fld c' CTRL_PTR = fld c CTRL_PTR) (ctrls, restore_ptrs updated arr)) as Hargs.
  { unfold restore_ptrs. split; simpl; [rewrite length_imap; congruence|].
    intros i c c' Hc Hc' Hs. apply list_lookup_imap_Some in Hc' as (c0&_&->). rewrite Hc.
    rewrite (proj2 (Z.ltb_lt _ _) Hs). by autorewrite with v4l2r. }
  by destruct res; intros [= _ <-].
Qed.

(** *** Events *)

(** The queue after the events [l] of session [id]. *)
Definition forwarded (id : Z) (l : list (vstruct v4l2_event)) (q : Q) : Q :=
  foldl (λ q e, send_event (EvEvent (SessionEvent_new id e)) q) q l.

Lemma dequeue_events_loop_spec fuel (d : Dev) (s : Ses) :
  (length (pending_events (host d) (ps_device s)) < fuel)%nat →
  wp false (dequeue_events_loop fuel) (λ r st, st.2 = s ∧
    ∃ sent rest, pending_events (host d) (ps_device s) = sent ++ rest ∧
      match r with
      | Ok _ => rest = [] ∧ evt_queue st.1 = forwarded (ps_id s) sent (evt_queue d)
      | Err e => evt_queue st.1 = send_error (ps_id s) e (forwarded (ps_id s) sent (evt_queue d))
      end) (d, s).
Proof.
  revert d. induction fuel as [|fuel IH]; intros d Hlen; [lia|]. simpl.
  apply wp_bind, wp_gets, wp_bind, wp_try, wp_bind, wp_gets, wp_zoom, wp_zoom. unfold wp at 1.
  cbn [fst snd] in *.
  destruct (host_dqevent (ps_device s) (host d)) as [k [e|[|err]]] eqn:Ed; cbn [fst snd].
  - apply dqevent_ok in Ed. rewrite Ed in *. simpl in Hlen.
    set (d1 := set_evt_queue (send_event (EvEvent (SessionEvent_new (ps_id s) e)) (evt_queue d))
      (set_host k d)).
    apply wp_bind, wp_modify. eapply wp_mono, (IH d1); [|simpl; lia].
    intros r st (Hs&sent&rest&Hp&Hr). split; [done|]. exists (e :: sent), rest.
    split; [simpl; f_equal; exact Hp|]. by destruct r.
  - apply dqevent_not_ready in Ed as [Hp _]. apply wp_ret. split; [done|]. exists [], [].
    by rewrite Hp.
  - apply wp_bind, wp_gets, wp_bind, wp_modify, wp_throw. split; [done|].
    by exists [], (pending_events (host d) (ps_device s)).
Qed.

(** C35: [dequeue_events] returns; it forwards the pending events of the host to the
    guest in their order, all of them if it succeeds, and otherwise those before
    the error, followed by the error. *)
Theorem events_are_forwarded_in_order (d : Dev) (s : Ses) :
  ∃ d' r sent rest, dequeue_events (d, s) = Ret ((d', s), r) ∧
    pending_events (host d) (ps_device s) = sent ++ rest ∧
    match r with
    | Ok _ => rest = [] ∧ evt_queue d' = forwarded (ps_id s) sent (evt_queue d)
    | Err e => evt_queue d' = send_error (ps_id s) e (forwarded (ps_id s) sent (evt_queue d))
    end.
Proof.
  pose proof (dequeue_events_loop_spec
    (S (length (pending_events (host d) (ps_device s)))) d s ltac:(lia)) as Hw.
  unfold wp in Hw. unfold dequeue_events. cbn [fst snd].
  destruct (dequeue_events_loop _ (d, s)) as [[[d' s'] r]|]; [|done].
  destruct Hw as (Hs&sent&rest&Hp&Hr). simpl in *. subst s'. by exists d', r, sent, rest.
Qed.

(** *** Capture buffers *)

(** The entries of the buffer [b] of queue [q], in the order of their addresses. *)
Definition entries_of (q : QueueType) (b : V4l2Buffer) (s : Ses) : list (Z * V4l2UserPlaneInfo R) :=
  filter (λ x, other_buffer (Some q) (buf_index b) x.2 = false) (btree_entries (userptr_buffers s)).


(** Polling is off although the session should poll. *)
Definition stalled (st : St) : Prop :=
  polled (ps_poller st.2) CaptureReady = false ∧ should_poll_capture st.2 = true.

#[local] Instance stalled_framed : Framed stalled.
Proof. by split. Qed.

Lemma wp_count_stalled queue st :
  stalled st → wp true (count_queued queue)
    (λ _ st', polled (ps_poller st'.2) CaptureReady = false) st.
Proof.
  destruct st as [d s]. intros [Hp Hs]. apply wp_bind, wp_gets. cbn [fst snd] in *.
  rewrite Hs. destruct (is_video_capture queue); [|destruct (is_video_output queue); [|done]].
  - apply wp_bind. unfold wp at 1, lift_outcome. destruct (u64_add _ _); [|done].
    apply wp_bind, wp_modify, wp_bind, wp_gets. done.
  - apply wp_bind. unfold wp at 1, lift_outcome. by destruct (u64_add _ _).
Qed.

Lemma wp_qbuf_stalled buffer regions st :
  stalled st → wp true (qbuf buffer regions)
    (λ _ st', polled (ps_poller st'.2) CaptureReady = false) st.
Proof.
  intros HP. apply wp_bind. eapply wp_mono, (keeps_ignore_err true stalled), HP;
    [|by apply keeps_panic_mono, keeps_dequeue_output, _].
  intros [[]|e] st1 HP1; [|by destruct HP1].
  apply wp_bind. eapply wp_mono, (keeps_import stalled), HP1. intros [hb|e] st2 HP2; [|by destruct HP2].
  apply wp_bind. eapply wp_mono, (keeps_host_mut stalled), HP2. intros [hb'|e] st3 HP3; [|by destruct HP3].
  apply wp_bind. eapply wp_mono, (keeps_export stalled), HP3. intros [out|e] st4 HP4; [|by destruct HP4].
  apply wp_bind. eapply wp_mono, wp_count_stalled; [|done]. by intros [[]|e] st5 HP5.
Qed.

(** After the host's last buffer, polling of the capture queue stops (unless the
    poller refuses) even if the session still streams with other buffers queued,
    and queueing more buffers does not resume it. *)
Theorem last_buffer_stops_polling (d : Dev) (s : Ses) q k b :
  capture_queue_type s = Some q → host_dqbuf (ps_device s) q (host d) = (k, Ok b) →
  capture_streaming s = true → 1 < capture_num_queued s ≤ u64_max →
  Z.land (buf_flags b) FLAG_LAST = FLAG_LAST →
  ∃ st, dequeue_capture_buffer (d, s) = Ret (st, Ok tt) ∧ should_poll_capture st.2 = true ∧
    (disable_failed (ps_poller st.2) = true ∨
     polled (ps_poller st.2) CaptureReady = false ∧
     ∀ buffer regions st' r, qbuf buffer regions st = Ret (st', r) →
       polled (ps_poller st'.2) CaptureReady = false).
Proof.
  intros Hq Hdq Hst Hn Hlast. unfold dequeue_capture_buffer, retain_userptrs, host_mut, host_ref,
    dev_host, on_dev, zoom. unfold_M. cbn [fst snd]. rewrite Hq. cbn [fst snd]. rewrite Hdq. cbn [fst snd].
  unfold u64_sub. rewrite unsigned_op_ok by lia. unfold modify_ses, modify_dev. unfold_M.
  rewrite Hlast, Z.eqb_refl, orb_true_r. unfold disable_capture, on_poller. unfold_M. cbn [fst snd].
  destruct (disable_event CaptureReady _) as [[k' p] r] eqn:Hd.
  assert (∀ d' : Dev, should_poll_capture (set_poller p (set_capture (capture_streaming s)
    (capture_num_queued s - 1) (set_userptrs
      (filter (λ x, other_buffer (Some q) (buf_index b) x.2 = true) (userptr_buffers s)) s))) = true)
    as Hpoll.
  { intros _. unfold should_poll_capture. simpl. rewrite Hst. lia. }
  eexists. split; [by destruct r as [[]|e]|]. split; [apply (Hpoll d)|]. cbn [fst snd ps_poller set_poller].
  pose proof (failed_disable _ _ _ _ _ _ Hd) as Hf. destruct r as [[]|e].
  2: { left. by rewrite Hf, orb_true_r. }
  right. split; [by rewrite (polled_disable _ _ _ _ _ Hd)|]. intros buffer regions st' r Hqb.
  match type of Hqb with qbuf _ _ ?st1 = _ =>
    pose proof (wp_qbuf_stalled buffer regions st1) as Hw end.
  unfold wp in Hw. rewrite Hqb in Hw. apply Hw. split; [|apply (Hpoll d)]. simpl.
  by rewrite (polled_disable _ _ _ _ _ Hd).
Qed.

(** *** Mapping *)

(** What the host is asked before the plane [info] is mapped for a session. *)
Definition permission (flags : Z) (info : V4l2MmapPlaneInfo) (s : Ses) (k : K) : K * result Fd Z :=
  host_expbuf (ps_device s) (pi_queue info) (pi_index info) (pi_plane info)
    (if Z.testbit flags 0 then RDWR else RDONLY) k.

(** C37: a session can map a buffer only at an offset the device knows and with the
    host's permission, asked for the session's own device; when the host refuses,
    the session gets the host's error and no table changes.  With the permission,
    the answer is that of the MMAP manager for the descriptor the host gave, and
    no other buffer changes. *)
Theorem mmap_needs_host_permission flags offset (d : Dev) (s : Ses) st r :
  proxy_do_mmap flags offset (d, s) = Ret (st, r) →
  match mmap_buffers d !! offset with
  | None => r = Err EINVAL ∧ st = (d, s)
  | Some info =>
      match permission flags info s (host d) with
      | (k, Err e) => r = Err e ∧ st = (set_host k d, s)
      | (k, Ok fd) =>
          st.2 = s ∧ host st.1 = k ∧
          (∀ o, o ≠ offset → mmap_buffers st.1 !! o = mmap_buffers d !! o) ∧
          ∃ res, create_mapping offset fd (Z.testbit flags 0) (mmap_manager d)
                   = Ret (mmap_manager st.1, res) ∧
            r = match res with Ok answer => Ok answer | Err _ => Err EINVAL end
      end
  end.
Proof.
  assert (negb (Z.land flags VIRTIO_MEDIA_MMAP_FLAG_RW =? 0) = Z.testbit flags 0) as Hrw.
  { unfold VIRTIO_MEDIA_MMAP_FLAG_RW. rewrite Z.shiftl_1_l.
    change (2 ^ 0) with (Z.ones 1). rewrite Z.land_ones by lia.
    change (2 ^ 1) with 2. rewrite Z.bit0_odd, Zmod_odd. by destruct (Z.odd flags). }
  unfold proxy_do_mmap, permission. rewrite Hrw. unfold host_mut, host_ref, dev_host, dev_mm, on_dev, zoom.
  unfold_M. cbn [fst snd].
  destruct (mmap_buffers d !! offset) as [info|]; [|by intros [= <- <-]]. cbn [fst snd].
  destruct (host_expbuf _ _ _ _ _ _) as [k [fd|e]]; [|by intros [= <- <-]]. cbn [fst snd].
  cbn [mmap_manager set_host].
  destruct (create_mapping offset fd _ _) as [[mm' [[addr size]|e]]|]; [| |done].
  - intros [= <- <-]. split_and!; [done..| |by eexists].
    intros o Ho. cbn. by rewrite lookup_insert_ne.
  - intros [= <- <-]. split_and!; [done..|by eexists].
Qed.

(** *** Allocation over a mapped buffer *)

(** An offset whose buffer is mapped in the guest. *)
Definition mapped (mm : MmapMappingManager HM) (o : Z) : Prop :=
  ∃ b, abs (buffers mm) !! o = Some b ∧ is_Some (b_mapping b).

Lemma unregister_keeps_mapped {E} o o' (mm mm' : MmapMappingManager HM) (r : result bool E) :
  wf mm → mapped mm o → unregister_buffer o' mm = Ret (mm', r) → mapped mm' o.
Proof.
  intros Hwf (b&Hb&Hm). rewrite unregister_run by done. unfold mapped.
  destruct (search mm o') as [i|i] eqn:Es; [|intros [= <- _]; eauto].
  destruct (search_Ok _ (proj1 Hwf) _ _ Es) as (b'&Hi&Ho&Hb'). rewrite Hi. intros [= <- _]. simpl.
  destruct (b_mapping b') as [m|] eqn:Em.
  - rewrite (abs_upd _ (proj1 Hwf) i b'), Ho by done. destruct (decide (o' = o)) as [->|].
    + rewrite lookup_insert_eq. eexists. split; [done|]. simpl. by rewrite Em.
    + rewrite lookup_insert_ne by done. eauto.
  - rewrite (abs_rm _ (proj1 Hwf) i b'), Ho by done. rewrite lookup_delete_ne; [eauto|].
    intros ->. rewrite Hb in Hb'. injection Hb' as ->. rewrite Em in Hm. by destruct Hm.
Qed.

Definition mapped_dev (o : Z) (k : K) (d : Dev) : Prop :=
  wf (mmap_manager d) ∧ mapped (mmap_manager d) o ∧ host d = k.

Lemma release_keeps_mapped {E} o k gone : keeps (E := E) false (mapped_dev o k) (release_buffers gone).
Proof.
  apply keeps_bind; [apply keeps_get_st|]. intros d0.
  apply keeps_bind; [|intros _; by apply keeps_modify]. apply keeps_forM. intros x _.
  apply keeps_bind; [|intros _; by apply keeps_modify]. intros d (Hwf&Hm&Hk). apply wp_zoom.
  destruct (unregister_total (E := E) x.1 _ Hwf) as (mm'&b&Hu). unfold wp. rewrite Hu.
  split_and!; [by eapply unregister_wf|by eapply unregister_keeps_mapped|done].
Qed.

Lemma release_no_err {E} gone (d d' : Dev) (e : E) : release_buffers gone d ≠ Ret (d', Err e).
Proof.
  unfold release_buffers. unfold_M.
  destruct (forM_ _ _ d) as [[d1 [[]|e1]]|] eqn:Ef; [done| |done].
  apply forM_no_err in Ef; [done|]. intros x d2 d3 e2. unfold dev_mm, zoom, unregister_buffer.
  unfold_M. repeat case_match; by simplify_eq.
Qed.

Lemma add_plane_mapped_panics {E} id queue buffer j p (d : Dev) :
  wf (mmap_manager d) → mapped (mmap_manager d) (p_backing p) →
  add_plane (E := E) id queue buffer (j, p) d = Panic.
Proof.
  intros Hwf (b&Hb&_). unfold add_plane. unfold_M. unfold dev_mm, zoom. cbn [fst snd].
  destruct (register_total (p_backing p) (p_length p) _ Hwf) as (mm'&r&Hr).
  rewrite Hr. destruct r as [o|e]; [|done]. apply register_refines in Hr; [|done].
  inversion Hr as [? ? ? ? ? ? ? Hn Hreq| | | | | | | | | | | | | | | | ]; subst.
  rewrite (Hreq (p_backing p) eq_refl) in Hb. congruence.
Qed.

(** When the guest still maps the buffer at an offset that the host gives to
    the first plane of the first new buffer, REQBUFS panics. *)
Theorem reqbufs_over_mapped_buffer_panics queue memory count flags (d : Dev) (s : Ses) k r k' b p ps :
  wf (mmap_manager d) → mapped (mmap_manager d) (p_backing p) →
  host_reqbufs (ps_device s) queue memory count flags (host d) = (k, Ok r) → 0 < fld r "count" →
  host_querybuf (ps_device s) queue 0 k = (k', Ok b) → buf_planes b = BMmap (p :: ps) →
  reqbufs queue memory count flags (d, s) = Panic.
Proof.
  intros Hwf Hm Hreq Hcount Hquery Hb.
  unfold reqbufs, update_mmap_offsets, host_mut, host_ref, dev_host, on_dev, zoom. unfold_M.
  cbn [fst snd]. rewrite Hreq. cbn [fst snd]. rewrite capabilities_count.
  match goal with |- context [release_buffers ?g (set_host k d)] =>
    pose proof (release_keeps_mapped (E := Z) (p_backing p) k g (set_host k d)
      ltac:(by split_and!)) as Hw end.
  unfold wp in Hw. destruct (release_buffers _ (set_host k d)) as [[d1 [[]|e]]|] eqn:Er; [| |done].
  2: by apply release_no_err in Er.
  destruct Hw as (Hwf1&Hm1&Hk1). cbn [fst snd].
  rewrite (seqZ_cons 0) by lia. cbn [forM_]. unfold add_buffer. unfold_M.
  unfold host_ref, dev_host, zoom. rewrite Hk1, Hquery. cbn [fst snd]. rewrite Hb. cbn [imap forM_].
  unfold_M. by rewrite add_plane_mapped_panics.
Qed.
End Operations.

(** ** Witnesses *)

Module BehaviourWitness.
Import V4l2r.Sample SampleHost ProxyWitness.

#[local] Existing Instances debug_build log_queue vmm_mapper vmm_poller vmm_poller_contract.

Definition session0 (queued : Z) : Ses :=
  mkSession 0 tt (mkPoller (true, true) false) (Some 1) None true queued false 0 ∅.
Definition host_at (ready : list buf) : Dev :=
  V4l2ProxyDevice_new "/dev/video0" [] 4096 tt (mkHost [] ready false).

(** A USERPTR capture buffer of two planes, the second one empty. *)
Definition planes0 : list Plane := [mkPlane 4096 0 None 0xcafe000; mkPlane 0 0 None 0].
Definition guest_buffer : buf := mkBuf 1 0 2 0 (mkTimeval 0 0) 0 planes0.
Definition host_planes : list Plane := [mkPlane 4096 0 None 4096; mkPlane 0 0 None 0].
(** The host filled the first plane. *)
Definition host_out : buf :=
  mkBuf 1 0 2 0 (mkTimeval 0 0) 0 [mkPlane 4096 100 None 4096; mkPlane 0 0 None 0].
Definition regions0 : list (list SgEntry) := [[mkSgEntry 0 4096 0]].

Definition imported := import_buffer guest_buffer regions0 (host_at [], session0 1).

Example imported_planes :
  match imported with Ret (_, Ok hb) => Some (buf_planes hb) | _ => None end =
  Some (BUserPtr host_planes).
Proof. vm_compute. reflexivity. Qed.

Lemma userptr_roundtrip_witness :
  ∃ d' s' hb, imported = Ret ((d', s'), Ok hb) ∧ buf_planes hb = BUserPtr host_planes ∧
    host_v4l2_buffer_to_guest host_out (userptr_buffers s') =
    Some (mkBuf 1 0 2 0 (mkTimeval 0 0) 0 [mkPlane 4096 100 None 0xcafe000; mkPlane 0 0 None 0]).
Proof.
  pose proof imported_planes as Hhb.
  destruct imported as [[[d' s'] [hb|e]]|] eqn:Ei; [|discriminate..]. injection Hhb as Hhb.
  exists d', s', hb. split; [reflexivity|]. split; [exact Hhb|].
  destruct (userptr_roundtrip (V := sample_v4l2r) guest_buffer regions0 planes0 (host_at []) d'
    (session0 1) s' hb eq_refl) as (ms&Hms&_&_&Hrt); [|exact Ei|].
  - constructor; [|constructor]. split; [reflexivity || (vm_compute; congruence)|].
    intros [|k] Hk; [reflexivity|simpl in Hk; lia].
  - vm_compute in Hms. injection Hms as <-.
    apply (Hrt ltac:(repeat constructor; simpl; lia) 
      ltac:(constructor; [vm_compute; congruence|constructor])
      ltac:(constructor; [intros Hin; inversion Hin|constructor]) host_out (planes host_out));
      reflexivity.
Defined.

(** A control with a payload of 8 bytes, at the guest's address 0xabc0. *)
Definition control0 : vstruct v4l2_ext_control := ((1, 8), (0, 0xabc0)).
Definition controlled := perform_ext_ctrls_ioctl Get 0 (((0, 1), (0, 0)), [control0]) regions0
  (session0 1) (host_at []).

Example controlled_returns : match controlled with Ret (_, Ok _) => true | _ => false end = true.
Proof. vm_compute. reflexivity. Qed.

Lemma ext_ctrls_restore_guest_addresses_witness :
  ∃ d' r, controlled = Ret (d', r) ∧ length (ext_result r).2 = 1%nat ∧
    ∀ c', (ext_result r).2 !! 0%nat = Some c' → fld c' CTRL_PTR = fld control0 CTRL_PTR.
Proof.
  pose proof controlled_returns as Hc. destruct controlled as [[d' r]|] eqn:Ec; [|discriminate].
  destruct (ext_ctrls_restore_guest_addresses (V := sample_v4l2r) Get 0 ((0, 1), (0, 0)) [control0]
    regions0 (session0 1) (host_at []) d' r Ec) as [Hlen Hptr].
  exists d', r. split; [reflexivity|]. split; [exact Hlen|].
  intros c' Hc'. apply (Hptr 0%nat control0 c' eq_refl Hc'). reflexivity.
Defined.

(** A host with two events. *)
Definition events0 : list st := [((5, 1), (0, 0)); ((2, 0), (0, 1))].
Definition host_events : Dev :=
  V4l2ProxyDevice_new "/dev/video0" [] 4096 tt (mkHost events0 [] false).

Example host_events_run :
  match dequeue_events (host_events, session0 1) with Ret (_, Ok _) => true | _ => false end = true.
Proof. vm_compute. reflexivity. Qed.

Lemma events_are_forwarded_in_order_witness :
  ∃ d', dequeue_events (host_events, session0 1) = Ret ((d', session0 1), Ok tt) ∧
    evt_queue d' = forwarded 0 events0 [].
Proof.
  destruct (events_are_forwarded_in_order (V := sample_v4l2r) host_events (session0 1))
    as (d'&r&sent&rest&Hd&Hp&Hr).
  pose proof host_events_run as Hok. rewrite Hd in Hok |- *. destruct r as [[]|e]; [|discriminate].
  exists d'. split; [reflexivity|]. destruct Hr as [-> Hq]. rewrite app_nil_r in Hp.
  rewrite Hq, <- Hp. reflexivity.
Defined.

(** A buffer of the capture queue, and the last one of the stream. *)
Definition ready_buffer (flags : Z) : buf := mkBuf 1 0 1 0 (mkTimeval 0 0) flags [plane0].


Lemma last_buffer_stops_polling_witness :
  ∃ st, dequeue_capture_buffer (host_at [ready_buffer FLAG_LAST], session0 2) = Ret (st, Ok tt) ∧
    should_poll_capture st.2 = true ∧ watched (ps_poller st.2) CaptureReady = false.
Proof.
  destruct (last_buffer_stops_polling (V := sample_v4l2r) (host_at [ready_buffer FLAG_LAST])
    (session0 2) 1 (mkHost [] [] false) (ready_buffer FLAG_LAST) eq_refl eq_refl eq_refl
    ltac:(vm_compute; split; congruence) eq_refl) as (st&Hd&Hs&Hp).
  assert (match dequeue_capture_buffer (host_at [ready_buffer FLAG_LAST], session0 2) with
          | Ret (st, _) => k_refused (ps_poller st.2) | Panic => true end = false) as Hk
    by (vm_compute; reflexivity).
  exists st. split; [exact Hd|]. split; [exact Hs|]. rewrite Hd in Hk.
  destruct Hp as [Hp|[Hp _]]; [|exact Hp]. exfalso. revert Hp Hk. cbn. congruence.
Defined.

(** The device after REQBUFS of two buffers and MMAP of the first one. *)
Definition mmap_step : vmm_step :=
  command (c_enc c_CmdHeader (mkCmdHeader VIRTIO_MEDIA_CMD_MMAP 0) ++ c_enc c_MmapCmd (mkMmapCmd 0 1 0)).
Definition mapped_run : outcome (VirtioMediaDeviceRunner Dev Ses unit) :=
  run [open_step; reqbufs_step 2; mmap_step].

Definition mapping_at (rn : VirtioMediaDeviceRunner Dev Ses unit) (o : Z) : bool :=
  match abs (buffers (mmap_manager (device rn))) !! o with
  | Some b => bool_decide (is_Some (b_mapping b))
  | None => false
  end.

Example mapped_run_maps :
  match mapped_run with
  | Ret rn => mapping_at rn 0 && bool_decide (is_Some (sessions rn !! 0))
  | Panic => false
  end = true.
Proof. vm_compute. reflexivity. Qed.

Lemma mapping_at_mapped rn o : mapping_at rn o = true → mapped (mmap_manager (device rn)) o.
Proof.
  unfold mapping_at, mapped. destruct (abs _ !! o) as [b|]; [|done].
  intros Hb%bool_decide_eq_true. by exists b.
Qed.

Lemma reqbufs_over_mapped_buffer_panics_witness :
  ∃ rn s, mapped_run = Ret rn ∧ sessions rn !! 0 = Some s ∧ reqbufs 1 1 2 0 (device rn, s) = Panic.
Proof.
  pose proof mapped_run_maps as Hm. destruct mapped_run as [rn|] eqn:Er; [|discriminate].
  apply andb_true_iff in Hm as [Hm Hs]. apply bool_decide_eq_true in Hs as [s Hs].
  exists rn, s. split; [reflexivity|]. split; [exact Hs|].
  apply (reqbufs_over_mapped_buffer_panics (V := sample_v4l2r) 1 1 2 0 (device rn) s
    (host (device rn)) ((1, 2), (0, 1)) (host (device rn)) (page 1 0)
    (mkPlane 4096 0 None 0) []); [..|reflexivity|reflexivity|reflexivity|reflexivity].
  - assert (∃ n, runner_wf proxy_inv n rn) as (n&(_&Ht&_)&_).
    { apply (proxy_run_inv (V := sample_v4l2r) "/dev/video0" [] 4096 tt (mkHost [] [] false) tt
        [open_step; reqbufs_step 2; mmap_step]); [vm_compute; congruence|exact Er]. }
    destruct Ht as [[[Hwf _] _ _] _]. exact Hwf.
  - apply mapping_at_mapped, Hm.
Defined.

Definition panics {A} (o : outcome A) : bool := match o with Panic => true | Ret _ => false end.

(** A guest that maps a buffer and allocates again without unmapping it panics
    the host. *)
Example guest_panics_proxy :
  panics (run [open_step; reqbufs_step 2; mmap_step]) = false ∧
  panics (run [open_step; reqbufs_step 2; mmap_step; reqbufs_step 2]) = true.
Proof. vm_compute. split; reflexivity. Qed.

(** MMAP of the first of two buffers, by the session that allocated them. *)
Definition mapping : option (VirtioMediaDeviceRunner Dev Ses unit * Ses * outcome (Dev * Ses * result (Z * Z) Z)) :=
  match run [open_step; reqbufs_step 2] with
  | Ret rn => s ← sessions rn !! 0; Some (rn, s, proxy_do_mmap 1 0 (device rn, s))
  | Panic => None
  end.

Example mapping_succeeds :
  match mapping with
  | Some (rn, _, Ret (_, Ok _)) => bool_decide (is_Some (mmap_buffers (device rn) !! 0))
  | _ => false
  end = true.
Proof. vm_compute. reflexivity. Qed.

Lemma mmap_needs_host_permission_witness :
  ∃ rn s st a, mapping = Some (rn, s, Ret (st, Ok a)) ∧ st.2 = s ∧
    ∃ fd, create_mapping 0 fd true (mmap_manager (device rn)) = Ret (mmap_manager st.1, Ok a).
Proof.
  pose proof mapping_succeeds as Hm. unfold mapping in *.
  destruct (run [open_step; reqbufs_step 2]) as [rn|]; [|discriminate].
  destruct (sessions rn !! 0) as [s|]; [|discriminate]. cbn [mbind option_bind] in *.
  destruct (proxy_do_mmap 1 0 (device rn, s)) as [[st [a|e]]|] eqn:Em; [|discriminate..].
  apply bool_decide_eq_true in Hm as [info Hinfo].
  pose proof (mmap_needs_host_permission (V := sample_v4l2r) 1 0 (device rn) s st (Ok a) Em) as H.
  rewrite Hinfo in H. exists rn, s, st, a. split; [reflexivity|].
  destruct (permission _ _ _ _) as [k [fd|e]]; [|destruct H as [H _]; discriminate H].
  destruct H as (Hs&_&_&res&Hc&Hr). split; [exact Hs|]. exists fd.
  destruct res as [a'|e]; [|discriminate Hr]. injection Hr as ->. exact Hc.
Defined.
End BehaviourWitness.
