(* ===== verification/ProxyAllocation.v ===== *)
(** * When the proxy device can allocate buffers

    The proxy registers the offsets that the host gives to new buffers, and unwraps
    the result.  This file says exactly when that panics: the host's planes must have
    a length and an aligned offset, no two of them the same one, and none that is
    still mapped in the guest or that belongs to another queue or another session. *)

From Stdlib Require Import Strings.Byte.
From S2P Require Import Prelude RustStd Traits Mmap Bytes Protocol Io V4l2r Ioctl Runner Vmm MemFd HostDevice V4l2Proxy ProxyContract ProxyBehaviour.
#[local] Open Scope Z_scope.

Section Allocation.
Context `{BM : BuildMode} `{V : V4l2r} {VL : V4l2rLaws}.
Context {Q G R HM K : Type} `{!VirtioMediaEventQueue Q} `{!VirtioMediaGuestMemoryMapper G R}.
Context `{!VirtioMediaHostMemoryMapper HM} `{!HostV4l2 K} `{!HostV4l2Laws K}.
Abbreviation Dev := (V4l2ProxyDevice Q G HM K).
Abbreviation Ses := (V4l2Session K R).
Abbreviation St := (Dev * Ses)%type.

(** ** Offsets that are taken *)

#[export] Instance mapped_dec (mm : MmapMappingManager HM) o : Decision (mapped mm o).
Proof.
  unfold mapped. destruct (abs (buffers mm) !! o) as [b|]; [|by right; intros (?&?&?)].
  destruct (decide (is_Some (b_mapping b))); [by left; eauto|]. right. by intros (b'&[= <-]&?).
Defined.

(** By a buffer that the device knows, or by one that is only kept for its mappings. *)
Definition taken (d : Dev) (o : Z) : Prop :=
  is_Some (mmap_buffers d !! o) ∨ mapped (mmap_manager d) o.

Lemma occupied_taken n ids (d : Dev) o :
  tables_ok n ids d → is_Some (abs (buffers (mmap_manager d)) !! o) ↔ taken d o.
Proof.
  intros [[[[Hs Hwf] _] Hreg _] Hact]. specialize (Hreg o). unfold registered, reg_at, active_at in Hreg.
  split.
  - intros [b Hb]. rewrite Hb in Hreg. destruct (b_registered b) eqn:Er.
    + left. destruct (mmap_buffers d !! o); [done|discriminate].
    + right. exists b. split; [done|]. apply abs_lookup in Hb as [Hb _]; [|done].
      rewrite Forall_forall in Hwf. by apply (wf_alive b), Er; auto.
  - intros [[info Hi]|(b&Hb&_)]; [|by eexists]. rewrite Hi, (proj1 (Hact o info Hi)) in Hreg.
    destruct (abs _ !! o) as [b|]; [by eexists|done].
Qed.

(** A plane that can be registered where its offset is free. *)
Definition fits (p : Plane) : Prop := p_length p ≠ 0 ∧ aligned (p_backing p) = true.

(** Planes that can be registered one after the other. *)
Definition registrable (busy : Z → Prop) (ps : list Plane) : Prop :=
  Forall fits ps ∧ NoDup (p_backing <$> ps) ∧ Forall (λ p, ¬ busy (p_backing p)) ps.

Lemma registrable_app busy busy' ps1 ps2 :
  (∀ o, busy' o ↔ busy o ∨ o ∈ p_backing <$> ps1) →
  registrable busy (ps1 ++ ps2) ↔ registrable busy ps1 ∧ registrable busy' ps2.
Proof.
  intros Hb. unfold registrable. rewrite !Forall_app, fmap_app, NoDup_app.
  assert (Forall (λ p, ¬ busy' (p_backing p)) ps2 ↔ Forall (λ p, ¬ busy (p_backing p)) ps2 ∧
    ∀ o, o ∈ p_backing <$> ps1 → o ∉ p_backing <$> ps2) as ->; [|tauto].
  rewrite !Forall_forall. setoid_rewrite Hb. setoid_rewrite (list_elem_of_fmap _ ps2). split.
  - intros H. split; [intros p Hp Hbusy; by apply (H p Hp); left|].
    intros o Ho (p&->&Hp). apply (H p Hp). by right.
  - intros [H H'] p Hp [Hbusy|Ho]; [by apply (H p Hp)|]. apply (H' _ Ho). eauto.
Qed.

Lemma registrable_ext busy busy' ps :
  (∀ o, busy' o ↔ busy o) → registrable busy' ps ↔ registrable busy ps.
Proof. intros Hb. unfold registrable. by setoid_rewrite Hb. Qed.

(** ** Registration *)

Section Tables.
Context (n : Z) (ids : gset Z).

(** [o] is what comes of registering [ps] on [d]: all of them are registered and
    the host is in state [k], or it panics because they cannot be. *)
Definition registers_all {E} (ps : list Plane) (d : Dev) (k : K)
    (o : outcome (Dev * result unit E)) : Prop :=
  match o with
  | Ret (d', r) => r = Ok tt ∧ registrable (taken d) ps ∧ tables_ok n ids d' ∧ host d' = k ∧
      ∀ o, taken d' o ↔ taken d o ∨ o ∈ p_backing <$> ps
  | Panic => ¬ registrable (taken d) ps
  end.

Lemma registers_none {E} (d : Dev) :
  tables_ok n ids d → registers_all (E := E) [] d (host d) (Ret (d, Ok tt)).
Proof.
  intros Hd. split; [done|]. split; [by repeat constructor|]. split_and!; [done..|].
  intros o. cbn. rewrite elem_of_nil. tauto.
Qed.

Lemma registers_bind {E} ps1 ps2 (d : Dev) k k' (m m' : M Dev E unit) :
  registers_all ps1 d k (m d) →
  (∀ d', tables_ok n ids d' → host d' = k → registers_all ps2 d' k' (m' d')) →
  registers_all (ps1 ++ ps2) d k' ((m ;; m') d).
Proof.
  intros H1 H2. unfold_M. unfold registers_all in H1.
  destruct (m d) as [[d1 r]|].
  2: { intros Hr. apply H1. unfold registrable in *. rewrite !Forall_app, fmap_app, NoDup_app in Hr. tauto. }
  destruct H1 as (->&Hr1&Hd1&Hk1&Ht1). specialize (H2 d1 Hd1 Hk1). unfold registers_all in *.
  destruct (m' d1) as [[d2 r]|].
  - destruct H2 as (->&Hr2&Hd2&Hk2&Ht2). split_and!; [done| |done..|].
    + by apply (registrable_app _ _ _ _ Ht1).
    + intros o. rewrite Ht2, Ht1, fmap_app, elem_of_app. tauto.
  - rewrite (registrable_app _ _ _ _ Ht1). tauto.
Qed.

Lemma register_free o size (mm mm' : MmapMappingManager HM) r :
  wf mm → register_buffer (Some o) size mm = Ret (mm', r) →
  match r with
  | Ok _ => size ≠ 0 ∧ aligned o = true ∧ abs (buffers mm) !! o = None ∧
      abs (buffers mm') = <[o := MmapBuffer_new o size]> (abs (buffers mm))
  | Err _ => size = 0 ∨ aligned o = false ∨ is_Some (abs (buffers mm) !! o)
  end.
Proof.
  intros Hwf. unfold register_buffer. unfold_M. rewrite register_by_offset_run by done.
  destruct (Z.eqb_spec size 0); [intros [= _ <-]; auto|].
  destruct (aligned o); simpl; [|intros [= _ <-]; auto].
  destruct (search mm o) as [i|i] eqn:Es; intros [= <- <-].
  - destruct (search_Ok _ (proj1 Hwf) _ _ Es) as (b&_&_&Hb). eauto.
  - destruct (search_Err _ (proj1 Hwf) _ _ Es) as [_ Hn]. split_and!; [done..|].
    by apply (abs_insert_at _ (proj1 Hwf)).
Qed.

Lemma add_plane_registers {E} id queue buffer j p (d : Dev) :
  is_u32 (p_length p) → is_u32 (p_backing p) → id ∈ ids → tables_ok n ids d →
  registers_all (E := E) [p] d (host d) (add_plane id queue buffer (j, p) d).
Proof.
  intros Hl Ho Hid Hd. pose proof (wp_add_plane (E := E) n ids id queue buffer j p d Hl Ho Hid Hd) as Hw.
  pose proof (occupied_taken n ids d (p_backing p) Hd) as Hocc.
  revert Hw. unfold wp, add_plane. unfold_M. unfold dev_mm, zoom. cbn [fst snd].
  pose proof Hd as [[[Hwf _] _ _] _].
  destruct (register_total (p_backing p) (p_length p) _ Hwf) as (mm'&r&Hr).
  pose proof (register_free _ _ _ _ _ Hwf Hr) as Hfree. rewrite Hr. destruct r as [o|e]; cbn.
  - destruct Hfree as (Hsz&Hal&Hnone&Habs). intros Hd'. split; [done|]. split_and!; [|done..|].
    + split_and!; [by repeat constructor|apply NoDup_singleton|]. constructor; [|done].
      rewrite <-Hocc, Hnone. by intros [].
    + intros o'. unfold taken, mapped. cbn. rewrite Habs, list_elem_of_singleton.
      destruct (decide (o' = p_backing p)) as [->|]; [rewrite lookup_insert_eq; split; [by right|left; by eexists]|].
      rewrite !lookup_insert_ne by done. tauto.
  - intros _ (Hfit&_&Hbusy). apply Forall_cons in Hfit as [[Hsz Hal] _]. apply Forall_cons in Hbusy as [Hbusy _].
    destruct Hfree as [?|[?|Hocc']]; [done|congruence|]. by apply Hbusy, Hocc.
Qed.

Lemma add_planes_register {E} id queue buffer xs (d : Dev) :
  Forall (λ p, is_u32 (p_length p) ∧ is_u32 (p_backing p)) xs.*2 → id ∈ ids → tables_ok n ids d →
  registers_all (E := E) xs.*2 d (host d) (forM_ (add_plane id queue buffer) xs d).
Proof.
  intros Hxs Hid. revert d. induction xs as [|[j p] xs IH]; intros d Hd; [by apply registers_none|].
  apply Forall_cons in Hxs as [[Hl Ho] Hxs].
  change (registers_all (E := E) ([p] ++ xs.*2) d (host d)
    ((add_plane id queue buffer (j, p) ;; forM_ (add_plane id queue buffer) xs) d)).
  eapply registers_bind; [by apply add_plane_registers|].
  intros d' Hd' <-. by apply IH.
Qed.

(** ** The new buffers of the host *)

(** The MMAP planes of a buffer that the host describes. *)
Definition planes_of (r : result V4l2Buffer Z) : list Plane :=
  match r with
  | Ok b => match buf_planes b with BMmap ps => ps | _ => [] end
  | Err _ => []
  end.

(** The MMAP planes of the buffers [todo], queried one after the other, and the state
    of the host after that. *)
Fixpoint describe (dev : V4l2Device K) (queue : QueueType) (todo : list Z) (k : K) : K * list Plane :=
  match todo with
  | [] => (k, [])
  | i :: todo' =>
      let '(k1, r) := host_querybuf dev queue i k in
      let '(k2, ps) := describe dev queue todo' k1 in
      (k2, planes_of r ++ ps)
  end.

Lemma add_buffer_registers {E} (s : Ses) queue i (d : Dev) :
  ps_id s ∈ ids → tables_ok n ids d →
  registers_all (E := E) (planes_of (host_querybuf (ps_device s) queue i (host d)).2) d
    (host_querybuf (ps_device s) queue i (host d)).1 (add_buffer s queue i d).
Proof.
  intros Hid Hd. unfold add_buffer, host_ref, dev_host, zoom. unfold_M. cbn [fst snd].
  destruct (host_querybuf (ps_device s) queue i (host d)) as [k r] eqn:Eq.
  assert (tables_ok n ids (set_host k d)) as Hd1 by by eapply tables_frame.
  destruct r as [b|e]; cbn [fst snd planes_of]; [|exact (registers_none (set_host k d) Hd1)].
  destruct (buf_planes b) as [ps| |] eqn:Eb; [|exact (registers_none (set_host k d) Hd1)..].
  assert ((imap pair ps).*2 = ps) as Hps.
  { rewrite fmap_imap. apply list_eq. intros j. rewrite list_lookup_imap. by destruct (ps !! j). }
  pose proof (querybuf_u32 _ _ _ _ _ _ _ Eq Eb) as Hu. rewrite <-Hps in Hu.
  pose proof (add_planes_register (E := E) (ps_id s) queue b (imap pair ps) (set_host k d) Hu Hid Hd1) as Hw.
  by rewrite Hps in Hw.
Qed.

Lemma add_buffers_register {E} (s : Ses) queue todo (d : Dev) :
  ps_id s ∈ ids → tables_ok n ids d →
  let '(k, ps) := describe (ps_device s) queue todo (host d) in
  registers_all (E := E) ps d k (forM_ (add_buffer s queue) todo d).
Proof.
  intros Hid. revert d. induction todo as [|i todo IH]; intros d Hd; [by apply registers_none|].
  pose proof (add_buffer_registers (E := E) s queue i d Hid Hd) as H1. cbn [describe].
  destruct (host_querybuf (ps_device s) queue i (host d)) as [k1 r]. cbn [fst snd] in H1.
  destruct (describe (ps_device s) queue todo k1) as [k2 ps] eqn:Ed.
  change (registers_all (E := E) (planes_of r ++ ps) d k2 ((add_buffer s queue i ;; forM_ (add_buffer s queue) todo) d)).
  eapply registers_bind; [done|]. intros d' Hd' Hk. specialize (IH d' Hd').
  by rewrite Hk, Ed in IH.
Qed.
End Tables.

(** ** Release *)

Lemma unregister_unmapped {E} o o' (mm mm' : MmapMappingManager HM) (r : result bool E) :
  wf mm → unregister_buffer o' mm = Ret (mm', r) → mapped mm' o → mapped mm o.
Proof.
  intros Hwf. rewrite unregister_run by done. unfold mapped.
  destruct (search mm o') as [i|i] eqn:Es; [|by intros [= <- _]].
  destruct (search_Ok _ (proj1 Hwf) _ _ Es) as (b'&Hi&Ho&Hb'). rewrite Hi. intros [= <- _]. simpl.
  destruct (b_mapping b') as [m|] eqn:Em.
  - rewrite (abs_upd _ (proj1 Hwf) i b'), Ho by done. intros (b&Hb&Hm).
    apply lookup_insert_Some in Hb as [[<- <-]|[_ Hb]]; [|by eauto]. exists b'. by rewrite Em.
  - rewrite (abs_rm _ (proj1 Hwf) i b'), Ho by done. intros (b&Hb&Hm).
    apply lookup_delete_Some in Hb as [_ Hb]. eauto.
Qed.

Lemma release_keeps_unmapped {E} o gone :
  keeps (E := E) false (λ d : Dev, wf (mmap_manager d) ∧ ¬ mapped (mmap_manager d) o) (release_buffers gone).
Proof.
  apply keeps_bind; [apply keeps_get_st|]. intros d0.
  apply keeps_bind; [|intros _; by apply keeps_modify]. apply keeps_forM. intros x _.
  apply keeps_bind; [|intros _; by apply keeps_modify]. intros d (Hwf&Hm). apply wp_zoom.
  destruct (unregister_total (E := E) x.1 _ Hwf) as (mm'&b&Hu). unfold wp. rewrite Hu.
  split; [by eapply unregister_wf|]. intros Hm'. by apply Hm; eapply unregister_unmapped.
Qed.

Lemma release_keeps_host {E} k gone : keeps (E := E) true (λ d : Dev, host d = k) (release_buffers gone).
Proof.
  apply keeps_bind; [apply keeps_get_st|]. intros d0.
  apply keeps_bind; [|intros _; by apply keeps_modify]. apply keeps_forM. intros x _.
  apply keeps_bind; [|intros _; by apply keeps_modify]. intros d Hk. apply wp_zoom.
  unfold wp. by destruct (unregister_buffer x.1 (mmap_manager d)) as [[]|].
Qed.

(** What is taken after the buffers [gone] were released: the offsets of the others,
    and those that are mapped. *)
Lemma release_taken {E} n ids gone (d : Dev) :
  tables_ok n ids d →
  ∃ d', release_buffers (E := E) gone d = Ret (d', Ok tt) ∧ tables_ok n ids d' ∧ host d' = host d ∧
    ∀ o, taken d' o ↔ mapped (mmap_manager d) o ∨
      ∃ b, mmap_buffers d !! o = Some b ∧ gone b = false.
Proof.
  intros Hd. pose proof (wp_release (E := E) n ids gone d Hd) as Hw.
  pose proof (release_keeps_host (E := E) (host d) gone d eq_refl) as Hh.
  pose proof Hd as [[[Hwf _] _ _] _].
  assert (∀ o d' r, release_buffers (E := E) gone d = Ret (d', r) →
    mapped (mmap_manager d') o ↔ mapped (mmap_manager d) o) as Hmap.
  { intros o d' r Hr. split; intros Hm.
    - destruct (decide (mapped (mmap_manager d) o)) as [|Hn]; [done|]. exfalso.
      pose proof (release_keeps_unmapped (E := E) o gone d (conj Hwf Hn)) as Hu. unfold wp in Hu.
      rewrite Hr in Hu. by apply Hu.
    - pose proof (release_keeps_mapped (E := E) o (host d) gone d ltac:(by split_and!)) as Hu.
      unfold wp in Hu. rewrite Hr in Hu. apply Hu. }
  unfold wp in Hw, Hh. destruct (release_buffers gone d) as [[d' [[]|e]]|] eqn:Er; [| |done].
  2: by destruct Hw.
  destruct Hw as (_&Hd'&Hb). exists d'. split_and!; [done..|]. intros o. unfold taken.
  rewrite (Hmap o d' _ eq_refl), Hb. split.
  - intros [[b Hb']|Hm]; [|by left]. apply map_lookup_filter_Some in Hb' as [??]. eauto.
  - intros [Hm|(b&Hb'&Hg)]; [by right|]. left. exists b. by apply map_lookup_filter_Some.
Qed.

(** ** Updates of the tables *)

(** The entries that [update_mmap_offsets] removes for the buffers [start..end_]. *)
Definition deallocated (s : Ses) (queue : QueueType) (start end_ : Z) (b : V4l2MmapPlaneInfo) : bool :=
  (pi_session_id b =? ps_id s) && bool_decide (pi_queue b = queue) &&
  ((end_ <=? start) || (start <=? pi_index b)).

Lemma update_panics_exactly {E} n ids queue start end_ (d : Dev) (s : Ses) :
  tables_ok n ids d → ps_id s ∈ ids →
  let busy o := mapped (mmap_manager d) o ∨
    ∃ b, mmap_buffers d !! o = Some b ∧ deallocated s queue start end_ b = false in
  let ps := (describe (ps_device s) queue (seqZ start (end_ - start)) (host d)).2 in
  match update_mmap_offsets (E := E) queue start end_ (d, s) with
  | Ret (_, r) => r = Ok tt ∧ registrable busy ps
  | Panic => ¬ registrable busy ps
  end.
Proof.
  intros Hd Hid busy ps. unfold update_mmap_offsets, on_dev, zoom. unfold_M. cbn [fst snd].
  destruct (release_taken (E := E) n ids (deallocated s queue start end_) d Hd) as (d1&Hr&Hd1&Hk&Ht).
  unfold deallocated in Hr at 1. rewrite Hr. cbn [fst snd].
  pose proof (add_buffers_register (E := E) n ids s queue (seqZ start (end_ - start)) d1 Hid Hd1) as Hw.
  rewrite Hk in Hw. subst ps. destruct (describe _ _ _ _) as [k ps]. cbn [fst snd].
  pose proof (registrable_ext busy (taken d1) ps Ht) as Hext. unfold registers_all in Hw.
  destruct (forM_ _ _ d1) as [[d2 r]|]; [|tauto]. destruct Hw as (->&Hreg&_). cbn. tauto.
Qed.

Lemma stop_capture_returns {E} (st : St) : ∃ st', stop_capture (E := E) st = Ret (st', Ok tt).
Proof.
  unfold stop_capture, disable_capture, on_poller, modify_ses. unfold_M. cbn [fst snd].
  destruct (should_poll_capture st.2); [|by eexists]. unfold modify; cbn [fst snd].
  destruct (disable_event CaptureReady _) as [[k p] r]. by eexists.
Qed.

(** ** Properties *)

(** The offsets that the new buffers of a queue cannot have: those that the guest
    still maps, and those of other queues and of other sessions. *)
Definition kept (d : Dev) (s : Ses) (queue : QueueType) (o : Z) : Prop :=
  mapped (mmap_manager d) o ∨
  ∃ b, mmap_buffers d !! o = Some b ∧ (pi_session_id b ≠ ps_id s ∨ pi_queue b ≠ queue).

Lemma kept_busy n ids queue end_ (d : Dev) (s : Ses) :
  tables_ok n ids d → ∀ o, (mapped (mmap_manager d) o ∨
    ∃ b, mmap_buffers d !! o = Some b ∧ deallocated s queue 0 end_ b = false) ↔ kept d s queue o.
Proof.
  intros Hd o. unfold kept. apply or_iff_compat_l. split; intros (b&Hb&Hg); exists b; (split; [done|]).
  - unfold deallocated in Hg. pose proof (proj2 (proj2 Hd o b Hb)) as Hi.
    rewrite (proj2 (Z.leb_le 0 _) Hi), orb_true_r, andb_true_r in Hg.
    apply andb_false_iff in Hg as [Hg%Z.eqb_neq|Hg%bool_decide_eq_false]; auto.
  - unfold deallocated. destruct Hg as [Hg|Hg].
    + by rewrite (proj2 (Z.eqb_neq _ _) Hg).
    + by rewrite (bool_decide_eq_false_2 _ Hg), andb_false_r.
Qed.

(** C14: when the host accepts a REQBUFS, it panics the proxy exactly when the planes
    of the new buffers cannot be registered: when one is empty or not aligned, two
    have the same offset, or the offset of one is still mapped in the guest or is
    that of a buffer of another queue or of another session. *)
Theorem reqbufs_panics_exactly n ids queue memory count flags (d : Dev) (s : Ses) k r :
  tables_ok n ids d → ps_id s ∈ ids →
  host_reqbufs (ps_device s) queue memory count flags (host d) = (k, Ok r) →
  reqbufs queue memory count flags (d, s) = Panic ↔
  ¬ registrable (kept d s queue) (describe (ps_device s) queue (seqZ 0 (fld r "count")) k).2.
Proof.
  intros Hd Hid Hreq. unfold reqbufs, host_mut, host_ref, dev_host, on_dev, zoom.
  unfold_M. cbn [fst snd]. rewrite Hreq. cbn [fst snd]. rewrite capabilities_count.
  pose proof (update_panics_exactly (E := Z) n ids queue 0 (fld r "count") (set_host k d) s
    ltac:(by eapply tables_frame) Hid) as Hw.
  rewrite Z.sub_0_r in Hw. cbn [host set_host mmap_manager mmap_buffers] in Hw.
  destruct (update_mmap_offsets _ _ _ _) as [[st1 r1]|]; cbn [fst snd].
  - destruct Hw as [-> Hreg%(registrable_ext _ _ _ (kept_busy n ids queue (fld r "count") d s Hd))].
    split; [|done]. destruct (stop_capture_returns (E := Z) st1) as [st2 Hst].
    by destruct (is_video_capture queue), (fld r "count" =? 0), (is_video_output queue); rewrite ?Hst.
  - split; [|done]. intros _ Hreg. apply Hw. revert Hreg.
    by apply (registrable_ext _ _ _ (kept_busy n ids queue (fld r "count") d s Hd)).
Qed.
End Allocation.

(** ** Witnesses *)

Module AllocationWitness.
Import V4l2r.Sample SampleHost ProxyWitness BehaviourWitness.

#[local] Existing Instances debug_build log_queue vmm_mapper vmm_poller vmm_poller_contract.

(** Two sessions; the first one has allocated two buffers.  This host numbers the
    offsets of every open of the device from zero. *)
Definition two_sessions : outcome (VirtioMediaDeviceRunner Dev Ses unit) :=
  run [open_step; reqbufs_step 2; open_step].

Example two_sessions_run :
  match two_sessions with
  | Ret rn => (pi_session_id <$> mmap_buffers (device rn) !! 0, ps_id <$> sessions rn !! 1)
  | Panic => (None, None)
  end = (Some 0, Some 1).
Proof. vm_compute. reflexivity. Qed.

(** The second session cannot allocate a buffer. *)
Lemma reqbufs_panics_exactly_witness :
  ∃ rn s, two_sessions = Ret rn ∧ sessions rn !! 1 = Some s ∧ reqbufs 1 1 1 0 (device rn, s) = Panic.
Proof.
  pose proof two_sessions_run as Hrun. destruct two_sessions as [rn|] eqn:Er; [|discriminate].
  destruct (sessions rn !! 1) as [s|] eqn:Es; [|discriminate].
  destruct (mmap_buffers (device rn) !! 0) as [b|] eqn:Eb; [|discriminate].
  injection Hrun as Hb Hs. exists rn, s. split; [reflexivity|]. split; [exact Es|].
  destruct (proxy_run_inv (V := sample_v4l2r) "/dev/video0" [] 4096 tt (mkHost [] [] false) tt
    [open_step; reqbufs_step 2; open_step] rn ltac:(vm_compute; congruence) Er) as (n&(_&Ht&_)&_).
  apply (reqbufs_panics_exactly (V := sample_v4l2r) n _ 1 1 1 0 (device rn) s
    (host (device rn)) ((1, 1), (0, 1)) Ht).
  - rewrite Hs. apply elem_of_dom. eexists. exact Es.
  - reflexivity.
  - intros (_&_&Hfree). cbn in Hfree. apply Forall_cons in Hfree as [Hfree _]. apply Hfree.
    right. exists b. split; [exact Eb|]. left. rewrite Hb, Hs. discriminate.
Defined.

(** A guest that opens two sessions and allocates in both panics the host. *)
Definition reqbufs_second : vmm_step :=
  command (c_enc c_CmdHeader (mkCmdHeader VIRTIO_MEDIA_CMD_IOCTL 0) ++
           c_enc c_IoctlCmd (mkIoctlCmd 1 8) ++ c_enc c_st ((1, 1), (0, 1))).

Example two_sessions_panic_proxy :
  panics (run [open_step; reqbufs_step 2; open_step; reqbufs_second]) = true.
Proof. vm_compute. reflexivity. Qed.
End AllocationWitness.
