(* ===== verification/EventQueue.v ===== *)
(** * The queue of decoder events ([extras/ffmpeg-decoder/src/event_queue.rs])

    A FIFO whose state can be polled: the [eventfd] it owns is signalled while the
    queue holds events.  The calls on an [eventfd] are parameters ([EventFd]), with
    the behaviour documented in eventfd(2) as laws ([EventFdLaws]). *)

From S2P Require Import Prelude Traits MemFd.

(** ** The system calls *)

(** [nix::sys::eventfd::EventFd], created without flags: a counter, neither
    non-blocking nor a semaphore. *)
Class EventFd (W : Type) := {
  eventfd_new : sys W Fd;
  eventfd_write : Fd → Z → sys W Z;
  eventfd_read : Fd → sys W Z;
}.

(** eventfd(2).  A write adds to the counter; a read returns the counter and
    clears it.  Nothing is said of reading a counter that is zero: that call
    blocks.  A descriptor polls readable when its counter is positive. *)
Class EventFdLaws (W : Type) `{EventFd W} := {
  counter : W → Fd → option Z;
  eventfd_new_spec : ∀ w w' fd, eventfd_new w = (w', Ok fd) →
    counter w fd = None ∧ counter w' fd = Some 0 ∧
    ∀ fd', fd' ≠ fd → counter w' fd' = counter w fd';
  eventfd_write_spec : ∀ w fd c v, counter w fd = Some c → 0 < v → c + v < u64_max →
    ∃ w', eventfd_write fd v w = (w', Ok 8) ∧ counter w' fd = Some (c + v) ∧
    ∀ fd', fd' ≠ fd → counter w' fd' = counter w fd';
  eventfd_read_spec : ∀ w fd c, counter w fd = Some c → 0 < c →
    ∃ w', eventfd_read fd w = (w', Ok c) ∧ counter w' fd = Some 0 ∧
    ∀ fd', fd' ≠ fd → counter w' fd' = counter w fd';
}.

Definition readable `{EventFdLaws W} (w : W) (fd : Fd) : bool :=
  match counter w fd with Some c => 0 <? c | None => false end.

(** ** The queue *)

Record EventQueue (T : Type) := mkEventQueue { event : Fd; pending_events : list T }.
Arguments mkEventQueue {T} _ _.
Arguments event {T} _.
Arguments pending_events {T} _.

Section EventQueue.
Context `{EventFd W} {T : Type}.
Abbreviation St := (W * EventQueue T)%type.

Definition is_empty (l : list T) : bool := match l with [] => true | _ => false end.

Definition set_pending_events (l : list T) (q : EventQueue T) : EventQueue T :=
  mkEventQueue (event q) l.
Definition on_world {E A} (m : M W E A) : M St E A := zoom fst (λ w st, (w, st.2)) m.
Definition on_queue {E A} (m : M (EventQueue T) E A) : M St E A := zoom snd (λ q st, (st.1, q)) m.

(** [EventQueue::new] *)
Definition EventQueue_new : M W Z (EventQueue T) :=
  event ← syscall eventfd_new; mret (mkEventQueue event []).

(** [EventQueue::queue_event] *)
Definition queue_event (e : T) : M St Z unit :=
  on_queue (modify (λ q, set_pending_events (pending_events q ++ [e]) q)) ;;
  st ← get_st;
  if (length (pending_events st.2) =? 1)%nat then
    on_world (syscall (eventfd_write (event st.2) 1)) ;; mret tt
  else mret tt.

(** [let _ = self.event.read().map_err(log)] *)
Definition clear_event {E} : M St E unit :=
  st ← get_st; ignore_err (on_world (syscall (eventfd_read (event st.2)))).

(** [EventQueue::dequeue_event] *)
Definition dequeue_event {E} : M St E (option T) :=
  st ← get_st;
  match pending_events st.2 with
  | [] => mret None
  | e :: rest =>
      on_queue (modify (set_pending_events rest)) ;;
      (if is_empty rest then clear_event else mret tt) ;;
      mret (Some e)
  end.

(** [EventQueue::retain]; the predicate has no state of its own. *)
Definition retain {E} (predicate : T → bool) : M St E unit :=
  st ← get_st;
  let was_empty := is_empty (pending_events st.2) in
  let rest := filter (λ e, predicate e = true) (pending_events st.2) in
  on_queue (modify (set_pending_events rest)) ;;
  if negb was_empty && is_empty rest then clear_event else mret tt.

(** [EventQueue::len] *)
Definition EventQueue_len (q : EventQueue T) : nat := length (pending_events q).
End EventQueue.

(** ** Specification: a plain list *)

Inductive queue_op (T : Type) :=
| Queue (e : T)
| Dequeue
| Retain (predicate : T → bool).
Arguments Queue {T} _.
Arguments Dequeue {T}.
Arguments Retain {T} _.

(** The list after an operation, and the event the operation returns. *)
Definition fifo_op {T} (op : queue_op T) (l : list T) : list T * option T :=
  match op with
  | Queue e => (l ++ [e], None)
  | Dequeue => (tail l, head l)
  | Retain predicate => (filter (λ e, predicate e = true) l, None)
  end.

Fixpoint fifo_run {T} (ops : list (queue_op T)) (l : list T) : list T * list (option T) :=
  match ops with
  | [] => (l, [])
  | op :: ops' =>
      let '(l', r) := fifo_op op l in
      let '(l'', rs) := fifo_run ops' l' in (l'', r :: rs)
  end.

Section Pollable.
Context `{EventFdLaws W} {T : Type}.
Abbreviation St := (W * EventQueue T)%type.

Definition run_op (op : queue_op T) : M St Z (option T) :=
  match op with
  | Queue e => queue_event e ;; mret None
  | Dequeue => dequeue_event
  | Retain predicate => retain predicate ;; mret None
  end.

(** The counter is one while there are events, and zero otherwise. *)
Definition signalled (w : W) (q : EventQueue T) : Prop :=
  counter w (event q) = Some (if is_empty (pending_events q) then 0 else 1).

(** [w'] differs from [w] in no descriptor but [fd]. *)
Definition only_touches (fd : Fd) (w w' : W) : Prop :=
  ∀ fd', fd' ≠ fd → counter w' fd' = counter w fd'.

(** The outcome of an operation that leaves the list [l]: the descriptor follows. *)
Definition leaves {A} (st : St) (l : list T) (r : A) (o : outcome (St * result A Z)) : Prop :=
  ∃ w', o = Ret ((w', mkEventQueue (event st.2) l), Ok r) ∧
    signalled w' (mkEventQueue (event st.2) l) ∧ only_touches (event st.2) st.1 w'.

Lemma signalled_pos (w : W) (q : EventQueue T) e l :
  signalled w q → pending_events q = e :: l → counter w (event q) = Some 1.
Proof. unfold signalled. intros Hs Hq. by rewrite Hq in Hs. Qed.

Lemma queue_event_leaves e (st : St) :
  signalled st.1 st.2 → leaves st (pending_events st.2 ++ [e]) tt (queue_event e st).
Proof.
  destruct st as [w [fd l]]. unfold signalled, leaves. cbn. intros Hc.
  destruct l as [|x l]; cbn in *.
  - destruct (eventfd_write_spec w fd 0 1 Hc) as (w'&Hw&Hc'&Hf); [lia|mlia|].
    exists w'. unfold queue_event, mbind, M_bind. cbn.
    unfold on_world, zoom, syscall. cbn. by rewrite Hw.
  - exists w. split_and!; try done. unfold queue_event. cbn.
    unfold mbind, M_bind. cbn. rewrite length_app. simpl.
    by replace (length l + 1)%nat with (S (length l)) by lia.
Qed.

Lemma clear_event_leaves (w : W) fd :
  counter w fd = Some 1 →
  leaves (A := unit) (w, mkEventQueue fd []) [] tt (clear_event (w, mkEventQueue fd [])).
Proof.
  intros Hc. destruct (eventfd_read_spec w fd 1 Hc) as (w'&Hw&Hc'&Hf); [lia|].
  exists w'. unfold clear_event, mbind, M_bind, ignore_err, on_world, zoom, syscall. cbn.
  by rewrite Hw.
Qed.

Lemma run_op_leaves op (st : St) :
  signalled st.1 st.2 →
  leaves st (fifo_op op (pending_events st.2)).1 (fifo_op op (pending_events st.2)).2 (run_op op st).
Proof.
  intros Hs. destruct op as [e| |predicate].
  - destruct (queue_event_leaves e st Hs) as (w'&Hq&Hs'&Hf). exists w'. cbn [run_op].
    unfold mbind, M_bind. by rewrite Hq.
  - destruct st as [w [fd [|e l]]]; [by exists w|].
    apply signalled_pos with (e := e) (l := l) in Hs; [|done].
    destruct l as [|e' l]; [|by exists w].
    destruct (clear_event_leaves w fd Hs) as (w'&Hq&Hs'&Hf). exists w'. split; [|done].
    unfold run_op, dequeue_event, mbind, M_bind.
    cbn -[clear_event]. unfold set_pending_events. cbn [event]. by rewrite Hq.
  - destruct st as [w [fd l]]. cbn [run_op fifo_op fst snd pending_events].
    destruct l as [|x l]; [by exists w|].
    apply signalled_pos with (e := x) (l := l) in Hs; [|done].
    unfold leaves, retain, mbind, M_bind. cbn [get_st on_queue modify zoom fst snd pending_events is_empty negb andb].
    destruct (filter _ (x :: l)) as [|y l'] eqn:Hfl; [|by exists w].
    destruct (clear_event_leaves w fd Hs) as (w'&Hq&Hs'&Hf). exists w'. split; [|done].
    cbn -[clear_event]. unfold set_pending_events. cbn [event]. by rewrite Hq.
Qed.

Lemma run_ops_leaves ops (st : St) :
  signalled st.1 st.2 →
  leaves st (fifo_run ops (pending_events st.2)).1 (fifo_run ops (pending_events st.2)).2
    (mapM_m run_op ops st).
Proof.
  revert st. induction ops as [|op ops IH]; intros st Hs; [by destruct st as [w []]; exists w|].
  destruct (run_op_leaves op st Hs) as (w1&Hr&Hs1&Hf1).
  destruct (IH (w1, _) Hs1) as (w2&Hr2&Hs2&Hf2). clear IH. unfold leaves.
  cbn [mapM_m fifo_run fst snd pending_events event] in *.
  destruct (fifo_op op (pending_events st.2)) as [l1 r1]. cbn [fst snd] in *.
  destruct (fifo_run ops l1) as [l2 rs]. cbn [fst snd] in *.
  exists w2. split_and!; [|done|].
  - unfold mbind, M_bind. by rewrite Hr, Hr2.
  - intros fd Hfd. rewrite (Hf2 fd Hfd). by apply Hf1.
Qed.
End Pollable.

(** ** The theorem *)

(** C17: An event queue behaves as a plain list under any sequence of calls: events
    come back in order, whatever [retain] removed in between, and after every
    sequence its descriptor polls readable exactly when the list is not empty.  No
    read blocks, and no other descriptor is touched. *)
Theorem event_queue_is_a_pollable_fifo `{EventFdLaws W} {T} (w w1 : W) (q : EventQueue T) ops :
  EventQueue_new w = Ret (w1, Ok q) →
  let '(l, rs) := fifo_run ops [] in
  ∃ w2 q2, mapM_m run_op ops (w1, q) = Ret ((w2, q2), Ok rs) ∧
    pending_events q2 = l ∧ EventQueue_len q2 = length l ∧ event q2 = event q ∧
    readable w2 (event q2) = negb (is_empty l) ∧
    ∀ fd, fd ≠ event q → counter w2 fd = counter w fd.
Proof.
  unfold EventQueue_new, mbind, M_bind, syscall. destruct (eventfd_new w) as [w0 [fd|e]] eqn:Hn;
    [|done]. intros [= -> <-]. apply eventfd_new_spec in Hn as (Hnone&Hc&Hf).
  destruct (run_ops_leaves ops (w1, mkEventQueue fd [])) as (w2&Hr&Hs&Hf2); [done|].
  cbn [fst snd pending_events event] in *. destruct (fifo_run ops []) as [l rs].
  exists w2, (mkEventQueue fd l). split_and!; try done.
  - unfold readable. rewrite Hs. by destruct l.
  - intros fd' Hfd. rewrite (Hf2 fd' Hfd). by apply Hf.
Qed.

(** ** A sample [eventfd] *)

Module SampleEventFd.

(** The counters of the descriptors 3, 4, ... *)
#[global] Instance list_eventfd : EventFd (list Z) := {|
  eventfd_new w := (w ++ [0], Ok (3 + Z.of_nat (length w)));
  eventfd_write fd v w :=
    (alter (λ c, c + v) (Z.to_nat (fd - 3)) w, Ok 8);
  eventfd_read fd w :=
    (<[Z.to_nat (fd - 3) := 0]> w, Ok (default 0 (w !! Z.to_nat (fd - 3))));
|}.

Definition list_counter (w : list Z) (fd : Fd) : option Z :=
  if fd <? 3 then None else w !! Z.to_nat (fd - 3).

#[global, program] Instance list_eventfd_laws : EventFdLaws (list Z) := {|
  counter := list_counter;
|}.
Next Obligation.
  unfold list_counter. intros w w' fd [= <- <-].
  replace (3 + Z.of_nat (length w) <? 3) with false by lia.
  replace (Z.to_nat _) with (length w) by lia. split_and!.
  - by apply lookup_ge_None.
  - by apply list_lookup_middle.
  - intros fd' Hfd. destruct (Z.ltb_spec fd' 3); [done|]. destruct (decide (fd' - 3 < Z.of_nat (length w))).
    + by rewrite lookup_app_l by lia.
    + rewrite !lookup_ge_None_2; rewrite ?length_app; simpl; (lia || done).
Qed.
Next Obligation.
  unfold list_counter. intros w fd c v Hc Hv Hmax. eexists. split; [done|].
  destruct (Z.ltb_spec fd 3); [done|]. split.
  - rewrite list_lookup_alter_eq. by rewrite Hc.
  - intros fd' Hfd. destruct (Z.ltb_spec fd' 3); [done|]. by rewrite list_lookup_alter_ne by lia.
Qed.
Next Obligation.
  unfold list_counter. intros w fd c Hc Hpos. destruct (Z.ltb_spec fd 3); [done|].
  eexists. split; [cbn; by rewrite Hc|]. split.
  - rewrite list_lookup_insert_eq; [done|]. by eapply lookup_lt_Some.
  - intros fd' Hfd. destruct (Z.ltb_spec fd' 3); [done|]. by rewrite list_lookup_insert_ne by lia.
Qed.

(** Two events, of which one is dropped before the other is read. *)
Lemma event_queue_is_a_pollable_fifo_witness :
  ∃ w2 q2, mapM_m run_op [Queue 7; Queue 8; Retain (Z.eqb 8); Dequeue; Dequeue]
    ([5; 0], mkEventQueue (T := Z) 4 [])
    = Ret ((w2, q2), Ok [None; None; None; Some 8; None]) ∧ readable w2 4 = false.
Proof.
  destruct (event_queue_is_a_pollable_fifo (T := Z) [5] [5; 0] (mkEventQueue 4 [])
    [Queue 7; Queue 8; Retain (Z.eqb 8); Dequeue; Dequeue]) as (w2&q2&Hr&_&_&He&Hread&_);
    [reflexivity|].
  exists w2, q2. rewrite He in Hread. by split.
Defined.
End SampleEventFd.
