(* ===== verification/Avcodec.v ===== *)
(** * The wrappers of libavcodec, libavutil and libswscale

    [extras/ffmpeg-decoder/src/ffmpeg/]: [error.rs], [avutil.rs], [avcodec.rs] and
    [swscale.rs].  The C libraries are parameters: [Avutil] has their constants and
    pure functions, [Libav] the calls that change the state [W] of the process.

    An object that the Rust code owns through a pointer (a packet, a frame, a
    buffer) is represented by its value; a codec context or a scaler, whose inside
    only the library sees, by an abstract handle.  A pointer into memory is
    represented by the memory it points to ([AvData]) and an offset. *)

From Stdlib Require Import Strings.Byte.
From stdpp Require Import strings.
From S2P Require Import Prelude Traits MemFd.
#[local] Open Scope Z_scope.

(** ** Error codes ([error.rs]) *)

(** A tag is four characters, as their codes. *)
Definition FFERRTAG (t0 t1 t2 t3 : Z) : Z :=
  - (Z.lor (Z.lor (Z.lor t0 (Z.shiftl t1 8)) (Z.shiftl t2 16)) (Z.shiftl t3 24)).

(** "EOF " and "INDA" *)
Definition AVERROR_EOF : Z := FFERRTAG 69 79 70 32.
Definition AVERROR_INVALIDDATA : Z := FFERRTAG 73 78 68 65.
Definition AVERROR_EAGAIN : Z := -11.

Inductive AvError := mkAvError (code : Z).

(** [AvError::result] *)
Definition AvError_result (ret : Z) : result unit AvError :=
  if 0 <=? ret then Ok tt else Err (mkAvError ret).

(** ** Memory *)

(** What a buffer can be made of: a vector or a mapping, by [AvBufferSource]. *)
Inductive AvData := Bytes (bytes : list byte) | Mapped (mapping : MemFdMapping).

Class AvBufferSource (D : Type) := {
  as_data : D → AvData;
  src_len : D → Z;
}.

(** [AvBufferSource::is_empty] *)
Definition src_is_empty `{AvBufferSource D} (source : D) : bool := src_len source =? 0.

#[global] Instance vec_source : AvBufferSource (list byte) := {|
  as_data := Bytes;
  src_len l := Z.of_nat (length l);
|}.

(** [impl AvBufferSource for MemFdMapping] ([lib.rs]) *)
#[global] Instance mapping_source : AvBufferSource MemFdMapping := {|
  as_data := Mapped;
  src_len := MemFdMapping_size;
|}.

(** [AvBuffer]: the buffer of an [AVBufferRef], with its [size] field. *)
Record AvBuffer := mkAvBuffer { ab_data : AvData; ab_size : Z }.

(** [AVPacket], with the fields the code sets; the others are zero. *)
Record AvPacket := mkAvPacket {
  pk_buf : option AvBuffer;
  pk_pts : Z;
  pk_dts : Z;
  pk_data : option AvData;
  pk_size : Z;
  pk_pos : Z;
}.

(** [AVFrame], with the fields the code uses.  [f_data], [f_linesize] and [f_buf]
    are arrays. *)
Record AvFrame := mkAvFrame {
  f_width : Z;
  f_height : Z;
  f_format : Z;
  f_pts : Z;
  f_pict_type : Z;
  f_crop_left : Z;
  f_crop_right : Z;
  f_crop_top : Z;
  f_crop_bottom : Z;
  f_data : list (option (AvData * Z));
  f_linesize : list Z;
  f_buf : list (option AvBuffer);
}.

(** ** The C libraries *)

(** The fields of an [AVCodecContext] that the code reads or writes. *)
Inductive ctx_field :=
| ctx_width | ctx_height | ctx_coded_width | ctx_coded_height | ctx_pix_fmt
| ctx_time_base_num | ctx_time_base_den | ctx_bit_rate | ctx_rc_max_rate
| ctx_get_buffer2 | ctx_opaque.

(** [AVProfile]; the name is [None] if it is not valid UTF-8. *)
Record AVProfile := mkAVProfile { profile_id : Z; profile_name : option string }.

(** A pointer into an array: NULL, or the elements from the pointer on. *)
Definition array_ptr (A : Type) : Type := option (list A).

(** Constants, static tables and pure functions. *)
Class Avutil := {
  AV_PIX_FMT_NONE : Z;
  AV_PIX_FMT_NB : Z;
  AV_PIX_FMT_YUV420P : Z;
  AV_PIX_FMT_NV12 : Z;
  AV_CODEC_CAP_DR1 : Z;
  av_image_get_linesize : Z → Z → Z → Z;
  (** [(plane_sizes, ret)] from the format, the height and the line sizes *)
  av_image_fill_plane_sizes : Z → Z → list Z → list Z * Z;
  avcodec_pix_fmt_to_codec_tag : Z → Z;
  AVCodec : Type;
  (** The values of the pointer that [av_codec_iterate] keeps, and NULL. *)
  codec_cursor : Type;
  codec_null : codec_cursor;
  av_codec_iterate : codec_cursor → codec_cursor * option AVCodec;
  (** A view, not a function of the library: how many codecs are left at most.  The
      loop over the codecs takes its fuel from it. *)
  codecs_left : codec_cursor → nat;
  av_codec_is_decoder : AVCodec → Z;
  av_codec_is_encoder : AVCodec → Z;
  (** The field [name], unless it is not valid UTF-8. *)
  codec_name : AVCodec → option string;
  codec_capabilities : AVCodec → Z;
  AV_PROFILE_UNKNOWN : Z;
  (** The fields [profiles] and [pix_fmts]. *)
  codec_profiles : AVCodec → array_ptr AVProfile;
  codec_pix_fmts : AVCodec → array_ptr Z;
  (** [None] for NULL or a name that is not valid UTF-8. *)
  av_get_pix_fmt_name : Z → option string;
}.

(** Each codec is returned once, and then NULL. *)
Class IterateLaws `{AU : Avutil} : Prop :=
  iterate_advances : ∀ c c' codec, av_codec_iterate c = (c', Some codec) →
    (codecs_left c' < codecs_left c)%nat.

(** A call of a C library, which changes the state of the process. *)
Definition lib (W A : Type) : Type := W → W * A.
Definition call {W E A} (f : lib W A) : M W E A := λ w, Ret ((f w).1, Ok (f w).2).

Class Libav `{Avutil} (W : Type) := {
  AVCodecContext : Type;
  SwsContext : Type;
  avcodec_alloc_context3 : AVCodec → lib W (option AVCodecContext);
  avcodec_open2 : AVCodecContext → AVCodec → lib W Z;
  ctx_get : AVCodecContext → ctx_field → W → Z;
  ctx_set : AVCodecContext → ctx_field → Z → W → W;
  (** [None] is the NULL packet. *)
  avcodec_send_packet : AVCodecContext → option AvPacket → lib W Z;
  avcodec_receive_frame : AVCodecContext → AvFrame → lib W (AvFrame * Z);
  avcodec_send_frame : AVCodecContext → option AvFrame → lib W Z;
  avcodec_receive_packet : AVCodecContext → AvPacket → lib W (AvPacket * Z);
  avcodec_flush_buffers : AVCodecContext → W → W;
  av_buffer_create : AvData → Z → lib W (option AvBuffer);
  av_frame_alloc : lib W (option AvFrame);
  av_frame_is_writable : AvFrame → W → Z;
  av_frame_make_writable : AvFrame → lib W (AvFrame * Z);
  sws_getContext : Z → Z → Z → Z → Z → Z → Z → lib W (option SwsContext);
  (** Source planes and line sizes, first line, number of lines, destination *)
  sws_scale : SwsContext → list (option (AvData * Z)) → list Z → Z → Z →
    list (option (AvData * Z)) → list Z → lib W Z;
}.

(** ** Image sizes ([avutil.rs]) *)

Definition MAX_FFMPEG_PLANES : nat := 4.
(** [AV_NOPTS_VALUE as i64] *)
Definition AV_NOPTS_VALUE : Z := 0x8000000000000000.
Definition as_i64 (z : Z) : Z :=
  let u := z `mod` 0x10000000000000000 in
  if u <=? 0x7fffffffffffffff then u else u - 0x10000000000000000.
Definition as_usize (z : Z) : Z := z `mod` 0x10000000000000000.

Section Avutil.
Context `{Avutil}.

Definition av_image_line_size (format width plane : Z) : result Z AvError :=
  let i := av_image_get_linesize format (as_i32 width) (as_i32 plane) in
  if 0 <=? i then Ok i else Err (mkAvError i).

(** [let mut buf = [0; 4]], overwritten from its start. *)
Definition linesizes_buf (linesizes : list Z) : list Z :=
  let l := take MAX_FFMPEG_PLANES linesizes in l ++ replicate (MAX_FFMPEG_PLANES - length l) 0.

Definition av_image_plane_sizes (format : Z) (linesizes : list Z) (height : Z) :
    result (list Z) AvError :=
  let planes := length (take MAX_FFMPEG_PLANES linesizes) in
  let '(plane_sizes_buf, ret) :=
    av_image_fill_plane_sizes format (as_i32 height) (linesizes_buf linesizes) in
  map_ok (λ _, take planes plane_sizes_buf) (AvError_result ret).

(** [AvPixelFormat] is its number: [line_size], [plane_sizes], [fourcc] and
    [try_from]. *)
Definition unwrap_or {A E} (d : A) (r : result A E) : A := match r with Ok a => a | Err _ => d end.

Definition line_size (format width plane : Z) : Z :=
  unwrap_or 0 (av_image_line_size format width plane).

Definition plane_sizes (format : Z) (linesizes : list Z) (height : Z) : list Z :=
  unwrap_or [] (av_image_plane_sizes format linesizes height).

Definition fourcc (format : Z) : list Z :=
  let tag := avcodec_pix_fmt_to_codec_tag format in
  [as_u8 tag; as_u8 (Z.shiftr tag 8); as_u8 (Z.shiftr tag 16); as_u8 (Z.shiftr tag 24)].

Definition AvPixelFormat_try_from (value : Z) : option Z :=
  if (AV_PIX_FMT_NONE <? value) && (value <? AV_PIX_FMT_NB) then Some value else None.

(** ** Codecs *)

Definition is_decoder (self : AVCodec) : bool := negb (av_codec_is_decoder self =? 0).
Definition is_encoder (self : AVCodec) : bool := negb (av_codec_is_encoder self =? 0).
Definition name (self : AVCodec) : string := default "invalid codec"%string (codec_name self).
Definition capabilities (self : AVCodec) : Z := as_u32 (codec_capabilities self).

(** *** The arrays of a codec *)

(** [AvProfile::profile], [AvProfile::name] and [AvPixelFormat::name] *)
Definition profile (self : AVProfile) : Z := as_u32 (profile_id self).
Definition AvProfile_name (self : AVProfile) : string :=
  default "invalid profile"%string (profile_name self).
Definition AvPixelFormat_name (self : Z) : string :=
  default "invalid pixel format"%string (av_get_pix_fmt_name self).

(** [AvCodec::profile_iter] and [AvCodec::pixel_format_iter]: an iterator is its
    pointer. *)
Definition profile_iter (self : AVCodec) : array_ptr AVProfile := codec_profiles self.
Definition pixel_format_iter (self : AVCodec) : array_ptr Z := codec_pix_fmts self.

(** [AvProfileIterator::next] and [AvPixelFormatIterator::next].  A read past the
    end of the array has no defined result and is a panic here. *)
Definition array_next {A E} (is_end : A → bool) : M (array_ptr A) E (option A) := λ self,
  match self with
  | None => Ret (self, Ok None)
  | Some [] => Panic
  | Some (x :: rest) => if is_end x then Ret (self, Ok None) else Ret (Some rest, Ok (Some x))
  end.
Definition AvProfileIterator_next {E} : M (array_ptr AVProfile) E (option AVProfile) :=
  array_next (λ p, profile_id p =? AV_PROFILE_UNKNOWN).
Definition AvPixelFormatIterator_next {E} : M (array_ptr Z) E (option Z) :=
  array_next (λ pixfmt, pixfmt =? AV_PIX_FMT_NONE).

(** [Iterator::collect]: [next] until it returns [None], at most [fuel] times. *)
Fixpoint collect {S A E} (next : M S E (option A)) (fuel : nat) : M S E (list A) :=
  match fuel with
  | O => panic
  | Datatypes.S fuel' =>
      x ← next;
      match x with None => mret [] | Some a => l ← collect next fuel'; mret (a :: l) end
  end.

(** [AvCodecIterator::new] and [AvCodecIterator::next] *)
Definition AvCodecIterator_new : codec_cursor := codec_null.
Definition AvCodecIterator_next {E} : M codec_cursor E (option AVCodec) := λ self,
  let '(self', codec) := av_codec_iterate self in Ret (self', Ok codec).

(** The codecs that the iterator goes through; the empty list stands for a loop that
    does not end, which [codec_iterator_ends] excludes. *)
Definition av_codecs : list AVCodec :=
  match collect (E := Empty_set) AvCodecIterator_next (S (codecs_left AvCodecIterator_new))
      AvCodecIterator_new with
  | Ret (_, Ok l) => l
  | _ => []
  end.
End Avutil.

(** ** Contexts *)

Inductive AvCodecOpenError := ContextAllocation | ContextOpen | UnexpectedCodecType.
Inductive TryReceiveResult := Received | TryAgain | FlushCompleted.

Section Contexts.
Context {AU : Avutil} `{LA : !Libav W}.

(** A context under construction, for decoding or for encoding. *)
Record ContextBuilder := mkContextBuilder { b_codec : AVCodec; b_context : AVCodecContext }.

(** [AvCodec::alloc_context] *)
Definition alloc_context (self : AVCodec) : M W AvCodecOpenError AVCodecContext :=
  context ← call (avcodec_alloc_context3 self);
  ok_or context ContextAllocation.

Definition build_decoder (self : AVCodec) : M W AvCodecOpenError ContextBuilder :=
  guard_err (negb (is_decoder self)) UnexpectedCodecType ;;
  context ← alloc_context self;
  mret (mkContextBuilder self context).

Definition build_encoder (self : AVCodec) : M W AvCodecOpenError ContextBuilder :=
  guard_err (negb (is_encoder self)) UnexpectedCodecType ;;
  context ← alloc_context self;
  mret (mkContextBuilder self context).

Definition set_get_buffer_2 {E} (self : ContextBuilder) (get_buffer2 opaque : Z) : M W E unit :=
  modify (ctx_set (b_context self) ctx_get_buffer2 get_buffer2) ;;
  modify (ctx_set (b_context self) ctx_opaque opaque).

(** [DecoderContextBuilder::set_initial_format] *)
Definition set_initial_format {E} (self : ContextBuilder) (coded_format : Z * Z) (pix_fmt : Z) :
    M W E unit :=
  let context := b_context self in
  modify (ctx_set context ctx_width (as_i32 coded_format.1)) ;;
  modify (ctx_set context ctx_height (as_i32 coded_format.2)) ;;
  modify (ctx_set context ctx_coded_width (as_i32 coded_format.1)) ;;
  modify (ctx_set context ctx_coded_height (as_i32 coded_format.2)) ;;
  modify (ctx_set context ctx_pix_fmt pix_fmt).

Record Dimensions := mkDimensions { d_width : Z; d_height : Z }.

(** [EncoderContextBuilder::set_dimensions], [set_time_base] and [set_pix_fmt] *)
Definition encoder_set_dimensions {E} (self : ContextBuilder) (dimensions : Dimensions) : M W E unit :=
  modify (ctx_set (b_context self) ctx_width (as_i32 (d_width dimensions))) ;;
  modify (ctx_set (b_context self) ctx_height (as_i32 (d_height dimensions))).

(** [AvCodecContext::set_time_base]; an [AVRational] is its numerator and
    denominator. *)
Definition set_time_base {E} (self : AVCodecContext) (time_base : Z * Z) : M W E unit :=
  modify (ctx_set self ctx_time_base_num time_base.1) ;;
  modify (ctx_set self ctx_time_base_den time_base.2).

Definition encoder_set_time_base {E} (self : ContextBuilder) (time_base : Z * Z) : M W E unit :=
  set_time_base (b_context self) time_base.

Definition encoder_set_pix_fmt {E} (self : ContextBuilder) (fmt : Z) : M W E unit :=
  modify (ctx_set (b_context self) ctx_pix_fmt fmt).

(** [AvCodecContext::init] *)
Definition init (self : AVCodecContext) (codec : AVCodec) : M W AvCodecOpenError unit :=
  ret ← call (avcodec_open2 self codec);
  guard_err (ret <? 0) ContextOpen.

(** [DecoderContextBuilder::build], [EncoderContextBuilder::build] *)
Definition build (self : ContextBuilder) : M W AvCodecOpenError AVCodecContext :=
  init (b_context self) (b_codec self) ;; mret (b_context self).

(** *** Sending and receiving *)

(** The results of [avcodec_send_packet] and [avcodec_send_frame] *)
Definition send_result (ret : Z) : result bool AvError :=
  if ret =? AVERROR_EAGAIN then Ok false
  else if 0 <=? ret then Ok true
  else Err (mkAvError ret).

(** The results of [avcodec_receive_frame] and [avcodec_receive_packet] *)
Definition receive_result (ret : Z) : result TryReceiveResult AvError :=
  if ret =? AVERROR_EAGAIN then Ok TryAgain
  else if ret =? AVERROR_EOF then Ok FlushCompleted
  else if 0 <=? ret then Ok Received
  else Err (mkAvError ret).

Definition try_send_packet (self : AVCodecContext) (packet : AvPacket) : M W AvError bool :=
  ret ← call (avcodec_send_packet self (Some packet)); lift_result (send_result ret).

(** The frame is borrowed: its new value comes with the result. *)
Definition ctx_try_receive_frame (self : AVCodecContext) (frame : AvFrame) :
    M W AvError (AvFrame * TryReceiveResult) :=
  '(frame', ret) ← call (avcodec_receive_frame self frame);
  res ← lift_result (receive_result ret); mret (frame', res).

Definition try_send_frame (self : AVCodecContext) (frame : AvFrame) : M W AvError bool :=
  ret ← call (avcodec_send_frame self (Some frame)); lift_result (send_result ret).

Definition try_receive_packet (self : AVCodecContext) (packet : AvPacket) :
    M W AvError (AvPacket * TryReceiveResult) :=
  '(packet', ret) ← call (avcodec_receive_packet self packet);
  res ← lift_result (receive_result ret); mret (packet', res).

(** [AvCodecContext::reset] *)
Definition ctx_reset {E} (self : AVCodecContext) : M W E unit := modify (avcodec_flush_buffers self).

Definition flush_decoder (self : AVCodecContext) : M W AvError unit :=
  ret ← call (avcodec_send_packet self None); lift_result (AvError_result ret).
Definition flush_encoder (self : AVCodecContext) : M W AvError unit :=
  ret ← call (avcodec_send_frame self None); lift_result (AvError_result ret).

(** [bit_rate as _]: an [i64] *)
Definition set_bit_rate {E} (self : AVCodecContext) (bit_rate : Z) : M W E unit :=
  modify (ctx_set self ctx_bit_rate (as_i64 bit_rate)).
Definition set_max_bit_rate {E} (self : AVCodecContext) (bit_rate : Z) : M W E unit :=
  modify (ctx_set self ctx_rc_max_rate (as_i64 bit_rate)).

(** ** Buffers and packets *)

(** [AvBuffer::new] *)
Definition AvBuffer_new {E} `{AvBufferSource D} (source : D) : M W E (option AvBuffer) :=
  call (av_buffer_create (as_data source) (src_len source)).

(** The length of [AvBuffer::as_mut_slice] *)
Definition slice_len (self : AvBuffer) : Z := ab_size self.

Definition AvPacket_empty : AvPacket :=
  mkAvPacket None (as_i64 AV_NOPTS_VALUE) (as_i64 AV_NOPTS_VALUE) None 0 (-1).

(** [AvPacket::new] borrows its data. *)
Definition AvPacket_new `{AvBufferSource D} (pts : Z) (input_data : D) : AvPacket :=
  mkAvPacket None pts (as_i64 AV_NOPTS_VALUE) (Some (as_data input_data))
    (as_i32 (src_len input_data)) (-1).

Definition AvPacket_new_owned (pts : Z) (av_buffer : AvBuffer) : AvPacket :=
  mkAvPacket (Some av_buffer) pts (as_i64 AV_NOPTS_VALUE) (Some (ab_data av_buffer))
    (as_i32 (slice_len av_buffer)) (-1).
End Contexts.

(** ** Frames *)

Inductive AvFrameError :=
| FrameAllocationFailed
| DimensionOverflow
| InvalidStride
| BufferOutOfRange
| BufferTooSmall
| BufferAlias
| FrameAvError (e : AvError).

Record PlaneDescriptor := mkPlaneDescriptor { buffer_index : Z; offset : Z; stride : Z }.

(** A part of a buffer: the index of the buffer, its start and its end. *)
Definition range : Type := Z * Z * Z.

(** The order of tuples. *)
Definition range_le (a b : range) : Prop :=
  a.1.1 < b.1.1 ∨ (a.1.1 = b.1.1 ∧ (a.1.2 < b.1.2 ∨ (a.1.2 = b.1.2 ∧ a.2 ≤ b.2))).
#[global] Instance range_le_dec : RelDecision range_le.
Proof. intros a b. unfold range_le. apply _. Defined.

Definition set_width x (f : AvFrame) : AvFrame :=
  mkAvFrame x (f_height f) (f_format f) (f_pts f) (f_pict_type f) (f_crop_left f)
    (f_crop_right f) (f_crop_top f) (f_crop_bottom f) (f_data f) (f_linesize f) (f_buf f).
Definition set_height x (f : AvFrame) : AvFrame :=
  mkAvFrame (f_width f) x (f_format f) (f_pts f) (f_pict_type f) (f_crop_left f)
    (f_crop_right f) (f_crop_top f) (f_crop_bottom f) (f_data f) (f_linesize f) (f_buf f).
Definition set_frame_format x (f : AvFrame) : AvFrame :=
  mkAvFrame (f_width f) (f_height f) x (f_pts f) (f_pict_type f) (f_crop_left f)
    (f_crop_right f) (f_crop_top f) (f_crop_bottom f) (f_data f) (f_linesize f) (f_buf f).
Definition set_planes data linesize buf (f : AvFrame) : AvFrame :=
  mkAvFrame (f_width f) (f_height f) (f_format f) (f_pts f) (f_pict_type f) (f_crop_left f)
    (f_crop_right f) (f_crop_top f) (f_crop_bottom f) data linesize buf.

(** [AvFrame::set_pict_type], [AvFrame::set_pts] *)
Definition set_pict_type (ty : Z) (f : AvFrame) : AvFrame :=
  mkAvFrame (f_width f) (f_height f) (f_format f) (f_pts f) ty (f_crop_left f)
    (f_crop_right f) (f_crop_top f) (f_crop_bottom f) (f_data f) (f_linesize f) (f_buf f).
Definition set_pts (ts : Z) (f : AvFrame) : AvFrame :=
  mkAvFrame (f_width f) (f_height f) (f_format f) ts (f_pict_type f) (f_crop_left f)
    (f_crop_right f) (f_crop_top f) (f_crop_bottom f) (f_data f) (f_linesize f) (f_buf f).

(** [AvFrame::dimensions] *)
Definition dimensions (self : AvFrame) : Dimensions :=
  mkDimensions (as_u32 (f_width self)) (as_u32 (f_height self)).

Section FrameCalls.
Context {AU : Avutil} `{LA : !Libav W}.

(** [AvFrame::new], and [AvFrame::builder], whose builder is the frame. *)
Definition AvFrame_new : M W AvFrameError AvFrame :=
  frame ← call av_frame_alloc; ok_or frame FrameAllocationFailed.
Definition AvFrame_builder : M W AvFrameError AvFrame := AvFrame_new.

Definition is_writable (self : AvFrame) (w : W) : bool := negb (av_frame_is_writable self w =? 0).

Definition make_writable (self : AvFrame) : M W AvFrameError AvFrame :=
  '(frame, ret) ← call (av_frame_make_writable self);
  map_err FrameAvError (lift_result (AvError_result ret)) ;; mret frame.
End FrameCalls.

Section FrameBuilder.
Context `{BM : BuildMode} {AU : Avutil}.
Abbreviation F := (M AvFrame AvFrameError).

(** [u32::try_into::<i32>] *)
Definition try_into_i32 (z : Z) : F Z :=
  guard_err (0x7fffffff <? z) DimensionOverflow ;; mret z.

Definition set_dimensions (d : Dimensions) : F unit :=
  w ← try_into_i32 (d_width d);
  modify (set_width w) ;;
  h ← try_into_i32 (d_height d);
  modify (set_height h).

Definition set_format (format : Z) : F unit := modify (set_frame_format format).

(** [array[i] = x], which panics out of range. *)
Definition array_set {S E A} (l : list A) (i : nat) (x : A) : M S E (list A) :=
  if (i <? length l)%nat then mret (<[i := x]> l) else panic.

(** The body of the loop over the planes, up to the range that it records. *)
Definition add_plane (buffers : list AvBuffer) (sizes : list Z) (plane : nat)
    (p : PlaneDescriptor) : F range :=
  guard_err (Z.of_nat (length buffers) <? buffer_index p) BufferOutOfRange ;;
  size ← unwrap (sizes !! plane);
  end_ ← lift_outcome (u64_add (offset p) size);
  buffer ← unwrap (buffers !! Z.to_nat (buffer_index p));
  guard_err (slice_len buffer <? end_) BufferTooSmall ;;
  f ← get_st;
  guard_err (stride p <? line_size (f_format f) (d_width (dimensions f)) (Z.of_nat plane))
    InvalidStride ;;
  (if slice_len buffer <? offset p then panic else mret tt) ;;
  data ← array_set (f_data f) plane (Some (ab_data buffer, offset p));
  linesize ← array_set (f_linesize f) plane (as_i32 (stride p));
  modify (set_planes data linesize (f_buf f)) ;;
  mret (buffer_index p, offset p, end_).

(** [ranges.windows(2)] *)
Fixpoint check_aliases {S} (ranges : list range) : M S AvFrameError unit :=
  match ranges with
  | (b0, _, e0) :: (((b1, s1, _) :: _) as rest) =>
      guard_err ((b0 =? b1) && (s1 <? e0)) BufferAlias ;; check_aliases rest
  | _ => mret tt
  end.

(** [buf[i] = buffer] *)
Definition attach_buffer (i : nat) (buffer : AvBuffer) : F unit :=
  f ← get_st;
  buf ← array_set (f_buf f) i (Some buffer);
  modify (set_planes (f_data f) (f_linesize f) buf).

(** [for (i, x) in l.into_iter().enumerate()], from [i] *)
Fixpoint enumerateM {S E A B} (f : nat → A → M S E B) (i : nat) (l : list A) : M S E (list B) :=
  match l with
  | [] => mret []
  | a :: l' => b ← f i a; bs ← enumerateM f (i + 1) l'; mret (b :: bs)
  end.

(** [AvFrameBuilder::build_owned] *)
Definition build_owned (buffers : list AvBuffer) (planes : list PlaneDescriptor) : F AvFrame :=
  f ← get_st;
  let sizes := plane_sizes (f_format f) ((λ p, as_u32 (stride p)) <$> planes)
    (d_height (dimensions f)) in
  ranges ← enumerateM (add_plane buffers sizes) 0 planes;
  check_aliases (merge_sort range_le ranges) ;;
  enumerateM attach_buffer 0 buffers ;;
  get_st.
End FrameBuilder.

(** ** The scaler ([swscale.rs]) *)

Inductive ConversionError :=
| FormatMismatch (frame converter : Z)
| DimensionMismatch (src dst : Dimensions)
| NotWritable
| ConversionAvError (e : AvError).

Inductive SwConverterCreationError := CreationFailure.

#[global] Instance Dimensions_eq_dec : EqDecision Dimensions.
Proof. solve_decision. Defined.

Section Swscale.
Context {AU : Avutil} `{LA : !Libav W}.

Record SwConverter := mkSwConverter {
  sws_context : SwsContext;
  src_pix_format : Z;
  dst_pix_format : Z;
}.

(** [SwConverter::new] *)
Definition SwConverter_new (width height src_pix_format dst_pix_format : Z) :
    M W SwConverterCreationError SwConverter :=
  context ← call (sws_getContext (as_i32 width) (as_i32 height) src_pix_format
    (as_i32 width) (as_i32 height) dst_pix_format 0);
  match context with
  | None => throw CreationFailure
  | Some context => mret (mkSwConverter context src_pix_format dst_pix_format)
  end.

(** [SwConverter::convert] *)
Definition convert (self : SwConverter) (src dst : AvFrame) : M W ConversionError unit :=
  guard_err (negb (f_format src =? src_pix_format self))
    (FormatMismatch (f_format src) (src_pix_format self)) ;;
  guard_err (negb (f_format dst =? dst_pix_format self))
    (FormatMismatch (f_format dst) (dst_pix_format self)) ;;
  guard_err (negb (bool_decide (dimensions src = dimensions dst)))
    (DimensionMismatch (dimensions src) (dimensions dst)) ;;
  w ← get_st;
  guard_err (negb (is_writable dst w)) NotWritable ;;
  ret ← call (sws_scale (sws_context self) (f_data src) (f_linesize src) 0 (f_height src)
    (f_data dst) (f_linesize dst));
  map_err ConversionAvError (lift_result (AvError_result ret)).
End Swscale.

(** ** Planes that do not alias *)

(** Every two elements are related. *)
Fixpoint pairwise {A} (R : A → A → Prop) (l : list A) : Prop :=
  match l with [] => True | x :: l' => Forall (R x) l' ∧ pairwise R l' end.

Lemma pairwise_perm {A} (R : A → A → Prop) `{!Symmetric R} l l' :
  l ≡ₚ l' → pairwise R l → pairwise R l'.
Proof.
  induction 1 as [|x l l' Hp IH|x y l|l l' l'' _ IH1 _ IH2]; simpl; [done| | |by auto].
  - intros [Hx Hl]. split; [by rewrite <-Hp|by apply IH].
  - intros [[Hyx Hy]%Forall_cons [Hx Hl]]. split_and!; [|done..]. by constructor.
Qed.

(** Parts of different buffers, or of one buffer and one before the other. *)
Definition disjoint_ranges (r r' : range) : Prop :=
  r.1.1 ≠ r'.1.1 ∨ r.2 ≤ r'.1.2 ∨ r'.2 ≤ r.1.2.
#[global] Instance disjoint_ranges_sym : Symmetric disjoint_ranges.
Proof. unfold disjoint_ranges. intros ??. lia. Qed.

#[global] Instance range_le_total : Total range_le.
Proof. unfold range_le. intros ??. lia. Qed.
#[global] Instance range_le_trans : Transitive range_le.
Proof. unfold range_le. intros ???. lia. Qed.

Definition valid_range (r : range) : Prop := r.1.2 ≤ r.2.

(** On sorted ranges it is enough to compare neighbours. *)
Lemma check_aliases_sorted {S} (l : list range) (s : S) :
  StronglySorted range_le l → Forall valid_range l →
  (pairwise disjoint_ranges l ∧ check_aliases l s = Ret (s, Ok tt)) ∨
  (¬ pairwise disjoint_ranges l ∧ check_aliases l s = Ret (s, Err BufferAlias)).
Proof.
  induction l as [|[[b0 s0] e0] l IH]; intros Hs Hv; [by left|].
  apply StronglySorted_inv in Hs as [Hs Ha]. apply Forall_cons in Hv as [Hv0 Hv].
  destruct l as [|[[b1 s1] e1] l]; [by left; repeat constructor|].
  apply Forall_cons in Ha as Ha'. destruct Ha' as [H01 _].
  apply Forall_cons in Hv as Hv'. destruct Hv' as [Hv1 _].
  unfold valid_range, range_le in H01, Hv0, Hv1. cbn [fst snd] in *.
  cbn [check_aliases]. unfold guard_err, mbind, M_bind.
  destruct ((b0 =? b1) && (s1 <? e0)) eqn:Hg.
  - right. split; [|done]. intros [[Hd _]%Forall_cons _].
    unfold disjoint_ranges in Hd. cbn [fst snd] in Hd. lia.
  - destruct (IH Hs Hv) as [[Hp Hc]|[Hp Hc]]; [left|right; split; [by intros [_ ?]|done]].
    split; [|done]. split; [|done]. apply StronglySorted_inv in Hs as [_ H1].
    constructor; [unfold disjoint_ranges; cbn [fst snd]; lia|].
    apply (Forall_impl _ _ _ H1). intros [[b2 s2] e2].
    unfold range_le, disjoint_ranges. cbn [fst snd]. lia.
Qed.

Lemma check_aliases_exact {S} (l : list range) (s : S) :
  Forall valid_range l →
  (pairwise disjoint_ranges l ∧ check_aliases (merge_sort range_le l) s = Ret (s, Ok tt)) ∨
  (¬ pairwise disjoint_ranges l ∧
   check_aliases (merge_sort range_le l) s = Ret (s, Err BufferAlias)).
Proof.
  intros Hv. pose proof (merge_sort_Permutation range_le l) as Hp.
  destruct (check_aliases_sorted (merge_sort range_le l) s) as [[Hd Hc]|[Hd Hc]].
  - apply StronglySorted_merge_sort; apply _.
  - by rewrite Hp.
  - left. split; [|done]. by apply (pairwise_perm _ _ _ Hp).
  - right. split; [|done]. contradict Hd. by apply (pairwise_perm _ l).
Qed.

Section BuildOwned.
Context `{BM : BuildMode} {AU : Avutil}.
Context (buffers : list AvBuffer).

(** The part of its buffer that a plane of [size] bytes takes. *)
Definition plane_range (p : PlaneDescriptor) (size : Z) : range :=
  (buffer_index p, offset p, offset p + size).

(** A plane that names an existing buffer, of machine integers that can be added. *)
Definition plane_named (p : PlaneDescriptor) (size : Z) : Prop :=
  0 ≤ buffer_index p < Z.of_nat (length buffers) ∧
  0 ≤ offset p ∧ 0 ≤ size ∧ offset p + size ≤ u64_max.

(** The plane [i] is inside its buffer, and its rows are not longer than its stride. *)
Definition plane_fits (f : AvFrame) (i : nat) (p : PlaneDescriptor) (size : Z) : Prop :=
  ∃ b, buffers !! Z.to_nat (buffer_index p) = Some b ∧ offset p + size ≤ ab_size b ∧
    line_size (f_format f) (d_width (dimensions f)) (Z.of_nat i) ≤ stride p.

(** The frame shows plane [i] at its place. *)
Definition plane_shown (f : AvFrame) (i : nat) (p : PlaneDescriptor) : Prop :=
  ∃ b, buffers !! Z.to_nat (buffer_index p) = Some b ∧
    f_data f !! i = Some (Some (ab_data b, offset p)) ∧
    f_linesize f !! i = Some (as_i32 (stride p)).

(** [f'] is [f] with other planes. *)
Definition same_picture (f f' : AvFrame) : Prop :=
  f_format f' = f_format f ∧ dimensions f' = dimensions f ∧ f_buf f' = f_buf f ∧
  length (f_data f') = length (f_data f) ∧ length (f_linesize f') = length (f_linesize f).

Lemma fits_same f f' i p size : same_picture f f' → plane_fits f i p size ↔ plane_fits f' i p size.
Proof. unfold plane_fits. by intros (->&->&_). Qed.

Lemma array_set_ok {S E A} (l : list A) i x (s : S) :
  (i < length l)%nat → array_set (E := E) l i x s = Ret (s, Ok (<[i := x]> l)).
Proof. intros. unfold array_set. by rewrite (proj2 (Nat.ltb_lt _ _)). Qed.

Lemma add_plane_spec sizes i p size f :
  sizes !! i = Some size → plane_named p size →
  (i < length (f_data f))%nat → (i < length (f_linesize f))%nat →
  (plane_fits f i p size ∧ ∃ f', add_plane buffers sizes i p f = Ret (f', Ok (plane_range p size)) ∧
     same_picture f f' ∧ plane_shown f' i p ∧
     ∀ j, j ≠ i → f_data f' !! j = f_data f !! j ∧ f_linesize f' !! j = f_linesize f !! j) ∨
  (¬ plane_fits f i p size ∧ ∃ e, add_plane buffers sizes i p f = Ret (f, Err e)).
Proof.
  intros Hsz (Hb&Ho&Hsz0&Hmax) Hd Hl.
  destruct (lookup_lt_is_Some_2 buffers (Z.to_nat (buffer_index p))) as [b Hbuf]; [lia|].
  unfold add_plane, plane_fits, guard_err, mbind, M_bind.
  replace (Z.of_nat (length buffers) <? buffer_index p) with false by lia.
  rewrite Hsz, Hbuf. cbn [unwrap mret M_ret].
  unfold u64_add. rewrite unsigned_op_ok by mlia. cbn [lift_outcome mret M_ret]. unfold slice_len.
  destruct (Z.ltb_spec (ab_size b) (offset p + size)).
  { right. split; [|by eexists]. intros (?&[= <-]&?&?). lia. }
  cbn [mret M_ret get_st]. destruct (Z.ltb_spec (stride p) (line_size (f_format f)
    (d_width (dimensions f)) (Z.of_nat i))).
  { right. split; [|by eexists]. intros (?&[= <-]&?&?). lia. }
  left. split; [by exists b|]. replace (ab_size b <? offset p) with false by lia.
  cbn [mret M_ret]. rewrite !array_set_ok by done. eexists. split; [done|].
  split; [split_and!; cbn; by rewrite ?length_insert|]. split.
  - exists b. split_and!; [done|cbn; by rewrite list_lookup_insert_eq..].
  - intros j Hj. cbn. by rewrite !list_lookup_insert_ne by done.
Qed.

Definition all_fit (f : AvFrame) (i : nat) (planes : list PlaneDescriptor) (sizes : list Z) : Prop :=
  ∀ j p size, planes !! j = Some p → sizes !! j = Some size → plane_fits f (i + j) p size.

Lemma all_fit_cons f i p planes size sizes :
  all_fit f i (p :: planes) (size :: sizes) ↔
  plane_fits f i p size ∧ all_fit f (i + 1) planes sizes.
Proof.
  unfold all_fit. split.
  - intros Ha. split; [rewrite <-(Nat.add_0_r i); by apply (Ha 0%nat)|].
    intros j q sz Hq Hsz. rewrite <-Nat.add_assoc. by apply (Ha (S j)).
  - intros [H0 Ha] [|j] q sz Hq Hsz; simplify_eq/=; [by rewrite Nat.add_0_r|].
    replace (i + S j)%nat with (i + 1 + j)%nat by lia. by apply Ha.
Qed.

Lemma all_fit_same f f' i planes sizes :
  same_picture f f' → all_fit f i planes sizes ↔ all_fit f' i planes sizes.
Proof.
  intros Hs. unfold all_fit. split; intros Ha j p size Hp Hsz; specialize (Ha j p size Hp Hsz);
    by apply (fits_same f f').
Qed.

Lemma same_picture_trans f f' f'' : same_picture f f' → same_picture f' f'' → same_picture f f''.
Proof. unfold same_picture. intuition congruence. Qed.

Lemma add_planes_spec pre planes sizes f :
  Forall2 plane_named planes sizes →
  (length pre + length planes ≤ length (f_data f))%nat →
  (length pre + length planes ≤ length (f_linesize f))%nat →
  let loop := enumerateM (add_plane buffers (pre ++ sizes)) (length pre) planes f in
  (all_fit f (length pre) planes sizes ∧
   ∃ f', loop = Ret (f', Ok (zip_with plane_range planes sizes)) ∧ same_picture f f' ∧
     (∀ j p, planes !! j = Some p → plane_shown f' (length pre + j) p) ∧
     ∀ j, (j < length pre)%nat →
       f_data f' !! j = f_data f !! j ∧ f_linesize f' !! j = f_linesize f !! j) ∨
  (¬ all_fit f (length pre) planes sizes ∧ ∃ f' e, loop = Ret (f', Err e)).
Proof.
  intros Hn. revert pre f. induction Hn as [|p size planes sizes Hp Hn IH]; intros pre f Hd Hl loop.
  { left. split; [done|]. by exists f. }
  subst loop. simpl length in Hd, Hl. cbn [enumerateM]. unfold mbind, M_bind. rewrite all_fit_cons.
  destruct (add_plane_spec (pre ++ size :: sizes) (length pre) p size f) as [[Hf H1]|[Hf [e H1]]];
    [by apply list_lookup_middle|done|lia|lia| |].
  2:{ right. split; [by intros [? _]|]. exists f, e. by rewrite H1. }
  destruct H1 as (f1&H1&Hs1&Hsh&Hrest). rewrite H1.
  pose proof Hs1 as (_&_&_&Hdl&Hll).
  destruct (IH (pre ++ [size]) f1) as [[Ha (f2&H2&Hs2&Hsh2&Hpre2)]|[Ha (f2&e&H2)]];
    rewrite ?length_app in *; cbn [length] in *; [lia..| |];
    rewrite <-(app_assoc pre [size] sizes) in H2; cbn [app] in H2; rewrite H2.
  - left. split; [split; [done|by apply (all_fit_same f f1)]|]. exists f2. split; [done|].
    split; [by eapply same_picture_trans|]. split.
    + intros [|j] q Hq; simplify_eq/=.
      * destruct Hsh as (b&Hb&Hda&Hli). exists b. rewrite Nat.add_0_r.
        destruct (Hpre2 (length pre)) as [-> ->]; [lia|done].
      * replace (length pre + S j)%nat with (length pre + 1 + j)%nat by lia. by apply Hsh2.
    + intros j Hj. destruct (Hpre2 j) as [-> ->]; [lia|]. apply Hrest. lia.
  - right. split; [|by eexists _, _]. intros [_ Ha']. by apply Ha, (all_fit_same f f1).
Qed.

Lemma attach_buffer_ok i b f :
  (i < length (f_buf f))%nat →
  attach_buffer i b f =
    Ret (set_planes (f_data f) (f_linesize f) (<[i := Some b]> (f_buf f)) f, Ok tt).
Proof.
  intros. unfold attach_buffer, mbind, M_bind. cbn [get_st]. by rewrite array_set_ok.
Qed.

Lemma attach_buffers_spec l i f :
  (i + length l ≤ length (f_buf f))%nat →
  ∃ buf u, enumerateM attach_buffer i l f = Ret (set_planes (f_data f) (f_linesize f) buf f, Ok u) ∧
    (∀ j b, l !! j = Some b → buf !! (i + j)%nat = Some (Some b)) ∧
    ∀ j, (j < i)%nat → buf !! j = f_buf f !! j.
Proof.
  revert i f. induction l as [|b l IH]; intros i f Hlen; [by exists (f_buf f), []; destruct f|].
  cbn [enumerateM length] in *. unfold mbind, M_bind. rewrite attach_buffer_ok by lia.
  edestruct (IH (i + 1)%nat (set_planes (f_data f) (f_linesize f) (<[i := Some b]> (f_buf f)) f))
    as (buf&u&Hr&Hb&Hpre); [cbn; rewrite length_insert; lia|].
  rewrite Hr. eexists buf, _. split; [by destruct f|]. split.
  - intros [|j] b' Hj; simplify_eq/=.
    + rewrite Nat.add_0_r, Hpre by lia. cbn. apply list_lookup_insert_eq. lia.
    + replace (i + S j)%nat with (i + 1 + j)%nat by lia. by apply Hb.
  - intros j Hj. rewrite Hpre by lia. cbn. apply list_lookup_insert_ne. lia.
Qed.
End BuildOwned.

Lemma build_owned_spec `{BM : BuildMode} {AU : Avutil} buffers planes sizes f :
  plane_sizes (f_format f) ((λ p, as_u32 (stride p)) <$> planes) (d_height (dimensions f)) = sizes →
  Forall2 (plane_named buffers) planes sizes →
  (length planes ≤ length (f_data f))%nat → (length planes ≤ length (f_linesize f))%nat →
  (length buffers ≤ length (f_buf f))%nat →
  (all_fit buffers f 0 planes sizes ∧ pairwise disjoint_ranges (zip_with plane_range planes sizes) ∧
   ∃ f', build_owned buffers planes f = Ret (f', Ok f') ∧
     f_format f' = f_format f ∧ dimensions f' = dimensions f ∧
     (∀ i p, planes !! i = Some p → plane_shown buffers f' i p) ∧
     (∀ i b, buffers !! i = Some b → f_buf f' !! i = Some (Some b))) ∨
  (¬ (all_fit buffers f 0 planes sizes ∧
      pairwise disjoint_ranges (zip_with plane_range planes sizes)) ∧
   ∃ f' e, build_owned buffers planes f = Ret (f', Err e)).
Proof.
  intros Hsz Hn Hd Hl Hb. unfold build_owned, mbind, M_bind. cbn [get_st]. rewrite Hsz.
  destruct (add_planes_spec buffers [] planes sizes f Hn Hd Hl) as
    [[Ha (f1&H1&Hs1&Hsh&_)]|[Ha (f1&e&H1)]]; cbn [app length] in H1; rewrite H1.
  2:{ right. split; [by intros [? _]|by eauto]. }
  destruct (check_aliases_exact (zip_with plane_range planes sizes) f1) as [[Hp Hc]|[Hp Hc]].
  { clear -Hn. induction Hn as [|p size planes sizes (_&_&?&_) _ IH]; constructor; [|done].
    unfold valid_range. cbn. lia. }
  2:{ right. rewrite Hc. split; [by intros [_ ?]|by eauto]. }
  rewrite Hc. left. split; [done|]. split; [done|].
  destruct Hs1 as (Hf&Hdim&Hbuf&_).
  destruct (attach_buffers_spec buffers 0 f1) as (buf&u&H2&Hbs&_); [by rewrite Hbuf|].
  rewrite H2. eexists. split; [done|]. by split_and!.
Qed.

(** ** The theorems *)

(** The iterators of a codec return the elements before the end marker of their
    array and stop there: they read nothing behind it, and [next] keeps returning
    [None]. *)
Lemma array_ends_at_marker {A E} is_end (l : list A) marker rest :
  Forall (λ x, is_end x = false) l → is_end marker = true →
  collect (array_next (E := E) is_end) (S (length l)) (Some (l ++ marker :: rest)) =
    Ret (Some (marker :: rest), Ok l) ∧
  array_next (E := E) is_end (Some (marker :: rest)) = Ret (Some (marker :: rest), Ok None).
Proof.
  intros Hl Hm. split; [|cbn; by rewrite Hm].
  induction Hl as [|p l Hp Hl IH]; [cbn; unfold mbind, M_bind; cbn; by rewrite Hm|].
  cbn [length app]. revert IH. generalize (S (length l)) as n. intros n IH.
  cbn. unfold mbind, M_bind. cbn. by rewrite Hp, IH.
Qed.

(** An iterator ends if a measure bounds what it still returns. *)
Lemma collect_measured {S A E} (next : M S E (option A)) (left : S → nat) fuel s :
  (∀ s, ∃ s' r, next s = Ret (s', Ok r) ∧ (is_Some r → (left s' < left s)%nat)) →
  (left s < fuel)%nat →
  ∃ s' l, collect next fuel s = Ret (s', Ok l).
Proof.
  intros Hn. revert s. induction fuel as [|fuel IH]; intros s Hf; [lia|].
  destruct (Hn s) as (s1&r&H1&Hr). cbn. unfold mbind, M_bind. rewrite H1.
  destruct r as [a|]; [|by exists s1, []]. specialize (Hr (mk_is_Some _ _ eq_refl)).
  destruct (IH s1 ltac:(lia)) as (s2&l&->). by exists s2, (a :: l).
Qed.

(** The loop over the codecs of the library ends, and [av_codecs] are those it finds. *)
Theorem codec_iterator_ends `{AU : Avutil} {IL : IterateLaws} :
  ∃ c, collect (E := Empty_set) AvCodecIterator_next (S (codecs_left AvCodecIterator_new))
    AvCodecIterator_new = Ret (c, Ok av_codecs).
Proof.
  destruct (collect_measured (E := Empty_set) AvCodecIterator_next codecs_left
    (S (codecs_left AvCodecIterator_new)) AvCodecIterator_new) as (c&l&Hc).
  - intros s. unfold AvCodecIterator_next. destruct (av_codec_iterate s) as [s' r] eqn:E.
    exists s', r. split; [done|]. intros [codec ->]. by eapply iterate_advances.
  - lia.
  - exists c. unfold av_codecs. by rewrite Hc.
Qed.

Corollary profiles_end_at_marker `{Avutil} {E} l marker rest :
  Forall (λ p, profile_id p ≠ AV_PROFILE_UNKNOWN) l → profile_id marker = AV_PROFILE_UNKNOWN →
  collect (E := E) AvProfileIterator_next (S (length l)) (Some (l ++ marker :: rest)) =
    Ret (Some (marker :: rest), Ok l).
Proof.
  intros Hl Hm. apply array_ends_at_marker; [|by apply Z.eqb_eq].
  eapply Forall_impl; [exact Hl|]. intros p Hp. by apply Z.eqb_neq.
Qed.


(** The guard of [build_owned] on the index of the buffer lets through the
    number of buffers: a plane that names the buffer after the last one panics
    instead of getting [BufferOutOfRange]. *)
Theorem plane_past_last_buffer_panics `{BM : BuildMode} {AU : Avutil} buffers p planes f :
  buffer_index p = Z.of_nat (length buffers) →
  build_owned buffers (p :: planes) f = Panic.
Proof.
  intros Hp. unfold build_owned, mbind, M_bind. cbn [get_st enumerateM].
  unfold add_plane, guard_err, mbind, M_bind.
  rewrite Hp, Z.ltb_irrefl. cbn [mret M_ret]. destruct (plane_sizes _ _ _) as [|size sizes]; [done|].
  cbn [lookup list_lookup unwrap mret M_ret lift_outcome].
  destruct (u64_add _ _) as [e|]; [|done]. cbn [mret M_ret lift_outcome].
  by rewrite lookup_ge_None_2 by lia.
Qed.

(** ** A sample of the pure functions

    Two planes as in NV12, of which the second has half the lines. *)
Module SampleAvutil.

#[global] Instance sample_avutil : Avutil := {|
  AV_PIX_FMT_NONE := -1; AV_PIX_FMT_NB := 200; AV_PIX_FMT_YUV420P := 0; AV_PIX_FMT_NV12 := 23;
  AV_CODEC_CAP_DR1 := 2;
  av_image_get_linesize _ width _ := width;
  av_image_fill_plane_sizes _ height linesizes :=
    match linesizes with
    | l0 :: l1 :: rest => (l0 * height :: l1 * height / 2 :: rest, 0)
    | _ => (linesizes, -22)
    end;
  avcodec_pix_fmt_to_codec_tag f := f;
  AVCodec := string;
  codec_cursor := nat; codec_null := 0%nat;
  av_codec_iterate c :=
    match ["aac"; "h264"; "vp9"]%string !! c with
    | Some codec => (S c, Some codec)
    | None => (c, None)
    end;
  codecs_left c := (3 - c)%nat;
  av_codec_is_decoder _ := 1; av_codec_is_encoder _ := 0;
  codec_name := Some; codec_capabilities _ := 2;
  AV_PROFILE_UNKNOWN := -99;
  codec_profiles c :=
    if bool_decide (c = "h264"%string) then
      Some [mkAVProfile 66 (Some "Baseline"%string); mkAVProfile 77 (Some "Main"%string); mkAVProfile (-99) None]
    else None;
  codec_pix_fmts _ := None;
  av_get_pix_fmt_name f := if f =? 23 then Some "nv12"%string else None;
|}.

#[global] Instance sample_iterate : IterateLaws.
Proof.
  intros c c' codec H. destruct c as [|[|[|c]]]; cbn in H; [injection H as <- _; cbn; lia..|].
  discriminate.
Qed.

Lemma codec_iterator_ends_witness :
  ∃ c, collect (E := Empty_set) AvCodecIterator_next 4 0%nat = Ret (c, Ok ["aac"; "h264"; "vp9"]%string).
Proof. exact codec_iterator_ends. Defined.

Example h264_profiles :
  collect (E := unit) AvProfileIterator_next 3 (profile_iter "h264"%string) =
  Ret (Some [mkAVProfile (-99) None],
       Ok [mkAVProfile 66 (Some "Baseline"%string); mkAVProfile 77 (Some "Main"%string)]).
Proof. vm_compute. reflexivity. Qed.

(** An empty frame of 4 x 4 pixels. *)
Definition frame0 : AvFrame :=
  mkAvFrame 4 4 23 0 0 0 0 0 0 (replicate 8 None) (replicate 8 0) (replicate 8 None).
Definition buffer0 : AvBuffer := mkAvBuffer (Bytes (replicate 24 x00)) 24.
Definition planes0 : list PlaneDescriptor := [mkPlaneDescriptor 0 8 4; mkPlaneDescriptor 0 0 4].


Lemma plane_past_last_buffer_panics_witness :
  let _ : BuildMode := false in
  build_owned [buffer0] [mkPlaneDescriptor 1 0 4] frame0 = Panic.
Proof. intros BM. by apply (plane_past_last_buffer_panics (BM := BM)). Defined.
End SampleAvutil.
