(* ===== verification/FfmpegDecoder.v ===== *)
(** * The FFmpeg decoder backend ([extras/ffmpeg-decoder/src/lib.rs])

    A session feeds encoded buffers to libavcodec and converts the frames that come
    out into the buffers of the guest.  Its state is [(K * L) * FfmpegDecoderSession]:
    the operating system, the FFmpeg libraries, and the session.  Memory and
    descriptors released on drop stay out of the model.

    [try_receive_frame] calls itself and [try_decode] loops; both take fuel.  A run
    that the fuel does not cover has no result ([Panic]); [FfmpegBehaviour.v] shows
    that there is always enough for a codec that keeps its documented promises. *)

From Stdlib Require Import Strings.Byte.
From stdpp Require Import strings.
From S2P Require Import Prelude Traits MemFd Bytes V4l2r VideoDecoder EventQueue Avcodec.
#[local] Open Scope Z_scope.

(** ** Buffers *)

Record FfmpegDecoderBuffer := mkFfmpegBuffer { fds : list MemFdBuffer }.

Section Buffers.
Context `{V : V4l2r} `{!Kernel K}.

(** [FfmpegDecoderBuffer::new]; a [usize] is a [u64]. *)
Definition FfmpegDecoderBuffer_new (queue : QueueType) (index : Z) (sizes : list Z) :
    M K Z FfmpegDecoderBuffer :=
  l ← map_err (λ _, ENOMEM) (mapM_m MemFdBuffer_new sizes);
  mret (mkFfmpegBuffer l).

(** [FfmpegDecoderBuffer::fd_for_plane] *)
Definition FfmpegDecoderBuffer_fd_for_plane (self : FfmpegDecoderBuffer) (plane_idx : nat) : option Fd :=
  file <$> fds self !! plane_idx.
End Buffers.

(** ** Formats *)

Inductive OutputFormat := H264 | VP8 | VP9 | HEVC.
Inductive CaptureFormat := NV12.
#[global] Instance OutputFormat_eq_dec : EqDecision OutputFormat.
Proof. solve_decision. Defined.
#[global] Instance CaptureFormat_eq_dec : EqDecision CaptureFormat.
Proof. solve_decision. Defined.

(** [iter.sum::<usize>()] *)
Definition usize_sum `{BuildMode} : list Z → outcome Z :=
  foldl (λ acc x, s ← acc; u64_add s x) (Ret 0).

Section Formats.
Context `{BM : BuildMode} `{V : V4l2r} {AU : Avutil}.

(** The discriminants, and the functions [n] of [derive(N)]. *)
Definition OutputFormat_u32 (f : OutputFormat) : Z :=
  match f with
  | H264 => fourcc_u32 "H264" | VP8 => fourcc_u32 "VP80"
  | VP9 => fourcc_u32 "VP90" | HEVC => fourcc_u32 "HEVC"
  end.
(** [derive(Ord)] compares the discriminants of an enum that gives them. *)
Definition OutputFormat_cmp (f g : OutputFormat) : comparison :=
  OutputFormat_u32 f ?= OutputFormat_u32 g.
Definition OutputFormat_n (v : Z) : option OutputFormat :=
  find (λ f, OutputFormat_u32 f =? v) [H264; VP8; VP9; HEVC].
Definition CaptureFormat_u32 (f : CaptureFormat) : Z := fourcc_u32 "NV12".
Definition CaptureFormat_n (v : Z) : option CaptureFormat :=
  find (λ f, CaptureFormat_u32 f =? v) [NV12].

(** [From<CaptureFormat> for AvPixelFormat] *)
Definition AvPixelFormat_from (format : CaptureFormat) : Z :=
  match format with NV12 => AV_PIX_FMT_NV12 end.

Definition format_filler : vstruct v4l2_pix_format_mplane :=
  vmk v4l2_pix_format_mplane
    [("field", vconst "V4L2_FIELD_NONE"); ("flags", 0);
     ("colorspace", vconst "V4L2_COLORSPACE_DEFAULT");
     ("ycbcr_enc", as_u8 (vconst "V4L2_YCBCR_ENC_DEFAULT"));
     ("quantization", as_u8 (vconst "V4L2_QUANTIZATION_DEFAULT"));
     ("xfer_func", as_u8 (vconst "V4L2_XFER_FUNC_DEFAULT"))].

(** [v4l2_pix_format_mplane { .., ..format_filler() }]; both formats have one
    plane. *)
Definition one_plane_format (pixelformat : Z) (size : Z * Z) (bytesperline sizeimage : Z) :
    vstruct v4l2_pix_format_mplane :=
  foldr (λ f x, set_fld f.1 f.2 x) format_filler
    [("pixelformat"%string, pixelformat); ("width"%string, size.1); ("height"%string, size.2);
     ("plane_fmt[0].bytesperline"%string, bytesperline);
     ("plane_fmt[0].sizeimage"%string, sizeimage); ("num_planes"%string, 1)].

Definition INPUT_SIZEIMAGE : Z := 1024 * 1024.

(** [OutputFormat::into_v4l2_pix_format] *)
Definition OutputFormat_into_v4l2_pix_format (self : OutputFormat) (coded_size : Z * Z) :
    vstruct v4l2_pix_format_mplane :=
  one_plane_format (OutputFormat_u32 self) coded_size 0 INPUT_SIZEIMAGE.

(** [CaptureFormat::into_v4l2_pix_format] *)
Definition CaptureFormat_into_v4l2_pix_format (self : CaptureFormat) (coded_size : Z * Z) :
    outcome (vstruct v4l2_pix_format_mplane) :=
  let av_format := AvPixelFormat_from self in
  let line_size := as_u32 (line_size av_format coded_size.1 0) in
  sizeimage ← usize_sum (plane_sizes av_format [line_size; line_size] coded_size.2);
  Ret (one_plane_format (CaptureFormat_u32 self) coded_size line_size (as_u32 sizeimage)).

(** [format.pixelformat().to_u32()] *)
Definition pixelformat (format : V4l2MplaneFormat) : Z := fld (mp_pix format) "pixelformat".
End Formats.

(** ** Sessions *)

Inductive FfmpegDecoderJob :=
| Decode (packet : AvPacket) (input_index : Z)
| Drain.

(** The variant [None] is [NoDrain]. *)
Inductive DrainState := NoDrain | Initiated | AwaitingFinalFrame.
#[global] Instance DrainState_eq_dec : EqDecision DrainState.
Proof. solve_decision. Defined.
#[global] Instance rect_eq_dec : EqDecision v4l2_rect.
Proof. solve_decision. Defined.

Record AvailableOutputFrame := mkOutputFrame { index : Z; planes : list MemFdMapping }.

Inductive NewDecodingContextError :=
| DecoderCreation (e : AvCodecOpenError)
| NewSwConverter (e : SwConverterCreationError).

Inductive TrySendInputError :=
| SendNoContext
| SendAvError (e : AvError)
| SendEventQueue (e : Z).

Inductive TryReceiveFrameError :=
| ReceiveNoContext
| CannotCreateAvFrame (e : AvFrameError)
| DecodingError (e : AvError)
| ReceiveEventQueue (e : Z)
| ReceiveSwConverter (e : SwConverterCreationError)
| DrainFailed.

Inductive TryOutputFrameError :=
| OutputNoContext
| OutputAvFrame (e : AvFrameError)
| OutputEventQueue (e : Z)
| NotEnoughPlanes
| CannotBuild (e : AvFrameError)
| OutputConversionError (e : ConversionError).

Inductive TryDecodeError :=
| SendInput (e : TrySendInputError)
| ReceiveFrame (e : TryReceiveFrameError)
| OutputFrame (e : TryOutputFrameError).

Definition i64_add `{BuildMode} (a b : Z) : outcome Z :=
  if as_i64 (a + b) =? a + b then Ret (a + b)
  else if overflow_checks then Panic else Ret (as_i64 (a + b)).

Section Session.
Context `{BM : BuildMode} `{V : V4l2r} {AU : Avutil}.
Context {K L : Type} `{!Kernel K} `{!EventFd K} `{LA : !Libav L}.

Record DecodingContext := mkContext {
  jobs : list FfmpegDecoderJob;
  av_context : AVCodecContext;
  converter : SwConverter;
  accepting_output_buffers : bool;
  avframe : option AvFrame;
  drain_state : DrainState;
}.

Record FfmpegDecoderSession := mkFfmpegSession {
  input_format : OutputFormat * AVCodec;
  output_format : CaptureFormat;
  (** The field [coded_size] *)
  capture_size : Z * Z;
  stream_params : StreamParams;
  context : option DecodingContext;
  available_output_frames : list AvailableOutputFrame;
  events : EventQueue VideoDecoderBackendEvent;
}.
Abbreviation Ses := FfmpegDecoderSession.
Abbreviation St := (K * L * Ses)%type.

Definition set_jobs x (c : DecodingContext) : DecodingContext :=
  mkContext x (av_context c) (converter c) (accepting_output_buffers c) (avframe c) (drain_state c).
Definition set_converter x (c : DecodingContext) : DecodingContext :=
  mkContext (jobs c) (av_context c) x (accepting_output_buffers c) (avframe c) (drain_state c).
Definition set_accepting x (c : DecodingContext) : DecodingContext :=
  mkContext (jobs c) (av_context c) (converter c) x (avframe c) (drain_state c).
Definition set_avframe x (c : DecodingContext) : DecodingContext :=
  mkContext (jobs c) (av_context c) (converter c) (accepting_output_buffers c) x (drain_state c).
Definition set_drain_state x (c : DecodingContext) : DecodingContext :=
  mkContext (jobs c) (av_context c) (converter c) (accepting_output_buffers c) (avframe c) x.

Definition set_input_format x (s : Ses) : Ses :=
  mkFfmpegSession x (output_format s) (capture_size s) (stream_params s) (context s)
    (available_output_frames s) (events s).
Definition set_output_format x (s : Ses) : Ses :=
  mkFfmpegSession (input_format s) x (capture_size s) (stream_params s) (context s)
    (available_output_frames s) (events s).
Definition set_capture_size x (s : Ses) : Ses :=
  mkFfmpegSession (input_format s) (output_format s) x (stream_params s) (context s)
    (available_output_frames s) (events s).
Definition set_stream_params x (s : Ses) : Ses :=
  mkFfmpegSession (input_format s) (output_format s) (capture_size s) x (context s)
    (available_output_frames s) (events s).
Definition set_context x (s : Ses) : Ses :=
  mkFfmpegSession (input_format s) (output_format s) (capture_size s) (stream_params s) x
    (available_output_frames s) (events s).
Definition set_frames x (s : Ses) : Ses :=
  mkFfmpegSession (input_format s) (output_format s) (capture_size s) (stream_params s) (context s)
    x (events s).
Definition set_events x (s : Ses) : Ses :=
  mkFfmpegSession (input_format s) (output_format s) (capture_size s) (stream_params s) (context s)
    (available_output_frames s) x.

Definition on_os {E A} (m : M K E A) : M St E A := zoom (λ st, st.1.1) (λ k st, (k, st.1.2, st.2)) m.
Definition on_lib {E A} (m : M L E A) : M St E A := zoom (λ st, st.1.2) (λ l st, (st.1.1, l, st.2)) m.
Definition on_ses (f : Ses → Ses) {E} : M St E unit := modify (λ st, (st.1, f st.2)).
Definition on_events {E A} (m : M (K * EventQueue VideoDecoderBackendEvent) E A) : M St E A :=
  zoom (λ st, (st.1.1, events st.2)) (λ x st, (x.1, st.1.2, set_events x.2 st.2)) m.
(** [let context = self.context.as_mut()], and a change of the context. *)
Definition on_context (f : DecodingContext → DecodingContext) {E} : M St E unit :=
  on_ses (λ s, set_context (f <$> context s) s).

(** ** Decoding contexts *)

(** [DecodingContext::create_converter_from_context] *)
Definition create_converter_from_context (av_context : AVCodecContext) (output_format : CaptureFormat) :
    M L SwConverterCreationError SwConverter :=
  l ← get_st;
  SwConverter_new (as_usize (ctx_get av_context ctx_width l))
    (as_usize (ctx_get av_context ctx_height l)) (ctx_get av_context ctx_pix_fmt l)
    (AvPixelFormat_from output_format).

(** [DecodingContext::new] *)
Definition DecodingContext_new (codec : AVCodec) (output_format : CaptureFormat) (coded_size : Z * Z) :
    M L NewDecodingContextError DecodingContext :=
  av_context ← map_err DecoderCreation
    (b ← build_decoder codec;
     set_initial_format b coded_size AV_PIX_FMT_YUV420P ;;
     build b);
  converter ← map_err NewSwConverter (create_converter_from_context av_context output_format);
  mret (mkContext [] av_context converter true None NoDrain).

(** [DecodingContext::update_converter] *)
Definition update_converter (c : DecodingContext) (output_format : CaptureFormat) :
    M St SwConverterCreationError unit :=
  converter ← on_lib (create_converter_from_context (av_context c) output_format);
  on_context (set_converter converter).

(** ** Making progress *)

(** [FfmpegDecoderSession::try_send_input_job] *)
Definition try_send_input_job : M St TrySendInputError bool :=
  st ← get_st;
  c ← ok_or (context st.2) SendNoContext;
  match jobs c with
  | [] => mret false
  | next_job :: rest =>
      on_context (set_jobs rest) ;;
      match next_job with
      | Decode packet input_index =>
          sent ← on_lib (try_m (try_send_packet (av_context c) packet));
          input_consumed ← match sent with
            | Ok res => mret res
            | Err (mkAvError e) =>
                if e =? AVERROR_EOF then mret false
                else if e =? AVERROR_INVALIDDATA then mret true
                else throw (SendAvError (mkAvError e))
            end : M St TrySendInputError bool;
          (if input_consumed : bool
           then map_err SendEventQueue (on_events (queue_event (InputBufferDone input_index 0)))
           else on_context (λ c, set_jobs (next_job :: jobs c) c)) ;;
          mret input_consumed
      | Drain => on_context (set_drain_state Initiated) ;; mret true
      end
  end.

(** The visible rectangle that a received frame announces. *)
Definition frame_visible_rect {S E} (f : AvFrame) : M S E v4l2_rect :=
  w ← lift_outcome (u64_sub (f_crop_right f) (f_crop_left f));
  h ← lift_outcome (u64_sub (f_crop_bottom f) (f_crop_top f));
  mret (mkRect (as_i32 (f_crop_left f)) (as_i32 (f_crop_top f)) (as_u32 w) (as_u32 h)).

(** What happens when the resolution of the stream has changed. *)
Definition change_resolution (c : DecodingContext) (size : Z * Z) (rect : v4l2_rect) :
    M St TryReceiveFrameError unit :=
  on_ses (λ s, set_stream_params
    (mkStreamParams (min_output_buffers (stream_params s)) size rect) s) ;;
  on_ses (λ s, if ((capture_size s).1 <? size.1) || ((capture_size s).2 <? size.2)
               then set_capture_size size s else s) ;;
  st ← get_st;
  map_err ReceiveSwConverter (update_converter c (output_format st.2)) ;;
  on_ses (set_frames []) ;;
  on_context (set_accepting false) ;;
  map_err ReceiveEventQueue (on_events (queue_event StreamFormatChanged)).

(** [Ok(TryReceiveResult::Received)] *)
Definition frame_received (c : DecodingContext) (f : AvFrame) : M St TryReceiveFrameError bool :=
  let new_coded_size := (as_u32 (f_width f), as_u32 (f_height f)) in
  new_visible_rect ← frame_visible_rect f;
  st ← get_st;
  (if negb (bool_decide (new_coded_size = coded_size (stream_params st.2)))
      || negb (bool_decide (new_visible_rect = visible_rect (stream_params st.2)))
   then change_resolution c new_coded_size new_visible_rect else mret tt) ;;
  on_context (set_avframe (Some f)) ;;
  mret true.

(** [FfmpegDecoderSession::try_receive_frame] *)
Fixpoint try_receive_frame (fuel : nat) : M St TryReceiveFrameError bool :=
  match fuel with
  | O => panic
  | S fuel' =>
      st ← get_st;
      c ← ok_or (context st.2) ReceiveNoContext;
      match avframe c with
      | Some _ => mret false
      | None =>
          frame ← on_lib (map_err CannotCreateAvFrame AvFrame_new);
          received ← on_lib (try_m (ctx_try_receive_frame (av_context c) frame));
          match received with
          | Ok (frame', Received) => frame_received c frame'
          | Ok (_, TryAgain) =>
              if bool_decide (drain_state c = Initiated) then
                flushed ← on_lib (try_m (flush_decoder (av_context c)));
                match flushed with
                | Ok _ => try_receive_frame fuel'
                | Err _ => on_context (set_drain_state NoDrain) ;; throw DrainFailed
                end
              else mret false
          | Ok (_, FlushCompleted) =>
              if bool_decide (drain_state c = Initiated)
              then on_context (set_drain_state AwaitingFinalFrame) ;; mret true
              else mret false
          | Err (mkAvError e) =>
              if e =? AVERROR_INVALIDDATA then mret true else throw (DecodingError (mkAvError e))
          end
      end
  end.

(** *** Output *)

Definition push_front_frame (f : AvailableOutputFrame) {E} : M St E unit :=
  on_ses (λ s, set_frames (f :: available_output_frames s) s).

(** A step of the builder of a frame: the frame after it and its result. *)
Definition in_frame {S E E' A} (m : M AvFrame E A) (wrap : E → E') (f : AvFrame) :
    M S E' (AvFrame * A) :=
  '(f', r) ← lift_outcome (m f);
  match r with Ok a => mret (f', a) | Err e => throw (wrap e) end.

(** The frame that writes into the memory of an output buffer of [size]. *)
Definition output_avframe (size : Z * Z) (av_format : Z) (bytes_used : list Z)
    (output_frame : AvailableOutputFrame) : M St TryOutputFrameError AvFrame :=
  builder ← map_err OutputAvFrame (on_lib AvFrame_builder);
  '(builder, _) ← in_frame (set_dimensions (mkDimensions size.1 size.2)) OutputAvFrame builder;
  '(builder, _) ← in_frame (set_format av_format) OutputAvFrame builder;
  offset1 ← unwrap (head bytes_used);
  let planes_ :=
    [mkPlaneDescriptor 0 0 (line_size av_format size.1 0);
     mkPlaneDescriptor 0 offset1 (line_size av_format size.1 1)] in
  plane ← unwrap (head (planes output_frame));
  av_buffer ← on_lib (AvBuffer_new plane);
  av_buffer ← ok_or av_buffer NotEnoughPlanes;
  '(_, frame) ← in_frame (build_owned [av_buffer] planes_) CannotBuild builder;
  mret frame.

(** Converts the received frame [avframe] into [output_frame]. *)
Definition output_frame_into (c : DecodingContext) (avframe : AvFrame)
    (output_frame : AvailableOutputFrame) : M St TryOutputFrameError bool :=
  st ← get_st;
  let size := capture_size st.2 in
  let av_format := AvPixelFormat_from (output_format st.2) in
  let bytes_used := plane_sizes av_format [size.1; size.1] size.2 in
  dst_avframe ← output_avframe size av_format bytes_used output_frame;
  map_err OutputConversionError (on_lib (convert (converter c) avframe dst_avframe)) ;;
  let timestamp := mkTimeval (Z.quot (f_pts avframe) 1000000) (Z.rem (f_pts avframe) 1000000) in
  used ← lift_outcome (usize_sum bytes_used);
  map_err OutputEventQueue (on_events (queue_event
    (FrameCompleted (index output_frame) timestamp [as_u32 used] false))) ;;
  mret true.

(** [FfmpegDecoderSession::try_output_frame] *)
Definition try_output_frame : M St TryOutputFrameError bool :=
  st ← get_st;
  c ← ok_or (context st.2) OutputNoContext;
  match available_output_frames st.2 with
  | [] => mret false
  | output_frame :: rest =>
      on_ses (set_frames rest) ;;
      if bool_decide (drain_state c = AwaitingFinalFrame) then
        match avframe c with
        | Some _ => push_front_frame output_frame ;; mret false
        | None =>
            on_context (set_drain_state NoDrain) ;;
            map_err OutputEventQueue (on_events (queue_event
              (FrameCompleted (index output_frame) (mkTimeval 0 0) [] true))) ;;
            mret true
        end
      else
        match avframe c with
        | None => push_front_frame output_frame ;; mret false
        | Some f => on_context (set_avframe None) ;; output_frame_into c f output_frame
        end
  end.

(** A round of the loop: [output()? || receive()? || send()?] *)
Definition decode_round (fuel : nat) : M St TryDecodeError bool :=
  output ← map_err OutputFrame try_output_frame;
  if output : bool then mret true else
  received ← map_err ReceiveFrame (try_receive_frame fuel);
  if received : bool then mret true else
  map_err SendInput try_send_input_job.

Fixpoint decode_loop (fuel : nat) : M St TryDecodeError unit :=
  match fuel with
  | O => panic
  | S fuel' => again ← decode_round fuel; if again : bool then decode_loop fuel' else mret tt
  end.

(** [FfmpegDecoderSession::try_decode] *)
Definition try_decode (fuel : nat) : M St TryDecodeError unit :=
  st ← get_st;
  match context st.2 with None => mret tt | Some _ => decode_loop fuel end.

(** ** The operations of a session *)

Definition job_context (c : DecodingContext) (job : FfmpegDecoderJob) : DecodingContext :=
  set_jobs (jobs c ++ [job]) c.

(** [decode]: the context is made when the first input comes. *)
Definition ensure_context : M St Z unit :=
  st ← get_st;
  match context st.2 with
  | Some _ => mret tt
  | None =>
      c ← map_err (λ _, ENODEV) (on_lib (DecodingContext_new (input_format st.2).2
        (output_format st.2) (coded_size (stream_params st.2))));
      on_ses (set_context (Some c))
  end.

(** The packet with the first [bytes_used] bytes of the input. *)
Definition input_packet (input : FfmpegDecoderBuffer) (ts : timeval) (bytes_used : Z) :
    M St Z AvPacket :=
  timestamp ← lift_outcome (i64_add (as_i64 (tv_sec ts * 1000000)) (tv_usec ts));
  memfd ← ok_or (head (fds input)) EINVAL;
  map_err (λ _, EIO) (on_os (syscall (seek_start (file memfd)))) ;;
  input_data ← map_err (λ _, EIO) (on_os (read_exact (file memfd) (Z.to_nat bytes_used)));
  avbuffer ← on_lib (AvBuffer_new input_data);
  avbuffer ← ok_or avbuffer ENOMEM;
  mret (AvPacket_new_owned timestamp avbuffer).

Definition decode (fuel : nat) (input : FfmpegDecoderBuffer) (index : Z) (timestamp : timeval)
    (bytes_used : Z) : M St Z unit :=
  ensure_context ;;
  avpacket ← input_packet input timestamp bytes_used;
  on_context (λ c, job_context c (Decode avpacket index)) ;;
  map_err (λ _, EINVAL) (try_decode fuel).

Definition accepts_output (s : Ses) : bool :=
  match context s with Some c => accepting_output_buffers c | None => true end.

Definition use_as_output (index : Z) (backing : FfmpegDecoderBuffer) : M St Z unit :=
  st ← get_st;
  if negb (accepts_output st.2) then mret tt else
  planes ← map_err (λ _, ENOMEM) (on_os (mapM_m MemFdBuffer_mmap (fds backing)));
  on_ses (λ s, set_frames (available_output_frames s ++ [mkOutputFrame index planes]) s).

Definition drain (fuel : nat) : M St Z unit :=
  st ← get_st;
  match context st.2 with
  | None => mret tt
  | Some _ =>
      on_context (λ c, job_context c Drain) ;;
      map_err (λ _, EINVAL) (try_decode fuel)
  end.

Definition is_frame_completed (e : VideoDecoderBackendEvent) : bool :=
  match e with FrameCompleted _ _ _ _ => true | _ => false end.

Definition clear_output_buffers : M St Z unit :=
  on_ses (set_frames []) ;;
  on_events (retain (λ e, negb (is_frame_completed e))).

Definition next_event {E} : M St E (option VideoDecoderBackendEvent) := on_events dequeue_event.

Definition poll_fd (self : Ses) : option Fd := Some (event (events self)).

Definition current_format (self : Ses) (direction : QueueDirection) : outcome V4l2MplaneFormat :=
  match direction with
  | Output => Ret (mp_from direction (OutputFormat_into_v4l2_pix_format (input_format self).1
      (coded_size (stream_params self))))
  | Capture =>
      pix_mp ← CaptureFormat_into_v4l2_pix_format (output_format self) (capture_size self);
      Ret (mp_from direction pix_mp)
  end.

Definition streaming_state (direction : QueueDirection) (streaming : bool) (s : Ses) : Ses :=
  if bool_decide (direction = Capture) && streaming
  then set_context (set_accepting true <$> context s) s else s.
End Session.

(** ** The decoder *)

(** [BTreeMap<OutputFormat, AvCodec>]: its entries, in the order of the keys. *)
Record FfmpegDecoder {AU : Avutil} := mkFfmpegDecoder { codecs : list (OutputFormat * AVCodec) }.

Arguments mkFfmpegDecoder {AU} _.
Arguments codecs {AU} _.

(** An entry of the iterator collected into the [BTreeMap] replaces that of an equal
    key. *)
Fixpoint map_insert `{V : V4l2r} {A} (k : OutputFormat) (x : A) (l : list (OutputFormat * A)) :
    list (OutputFormat * A) :=
  match l with
  | [] => [(k, x)]
  | (k', x') :: l' =>
      match OutputFormat_cmp k k' with
      | Lt => (k, x) :: l
      | Eq => (k, x) :: l'
      | Gt => (k', x') :: map_insert k x l'
      end
  end.

(** [BTreeMap::get] *)
Definition map_get {A} (k : OutputFormat) (l : list (OutputFormat * A)) : option A :=
  snd <$> find (λ e, bool_decide (e.1 = k)) l.

Definition SUPPORTED_OUTPUT_FORMATS : list CaptureFormat := [NV12].
Definition DEFAULT_CODED_SIZE : Z * Z := (320, 240).

Section Decoder.
Context `{BM : BuildMode} `{V : V4l2r} {AU : Avutil}.

(** The format a codec is used for, if any. *)
Definition codec_format (codec : AVCodec) : option OutputFormat :=
  if negb (is_decoder codec) then None else
  format ← (if bool_decide (name codec = "h264"%string) then Some H264
            else if bool_decide (name codec = "hevc"%string) then Some HEVC
            else if bool_decide (name codec = "vp8"%string) then Some VP8
            else if bool_decide (name codec = "vp9"%string) then Some VP9
            else None);
  if Z.land (capabilities codec) AV_CODEC_CAP_DR1 =? 0 then None else Some format.

(** [FfmpegDecoder::new] *)
Definition FfmpegDecoder_new : FfmpegDecoder :=
  mkFfmpegDecoder (foldl (λ m codec,
    match codec_format codec with Some format => map_insert format codec m | None => m end)
    [] av_codecs).

Context {K L : Type} `{!EventFd K} `{LA : !Libav L}.
Abbreviation Ses := FfmpegDecoderSession.

(** [FfmpegDecoder::new_session] *)
Definition new_session (self : FfmpegDecoder) : M K Z Ses :=
  input_format ← ok_or (head (codecs self)) ENODEV;
  events ← map_err (λ _, EIO) EventQueue_new;
  mret (mkFfmpegSession input_format (default NV12 (head SUPPORTED_OUTPUT_FORMATS))
    DEFAULT_CODED_SIZE
    (mkStreamParams 4 DEFAULT_CODED_SIZE
      (mkRect 0 0 (DEFAULT_CODED_SIZE.1) (DEFAULT_CODED_SIZE.2)))
    None [] events).

(** [FfmpegDecoder::enum_formats]; the session is not used. *)
Definition enum_formats (self : FfmpegDecoder) (direction : QueueDirection) (index : Z) :
    option (vstruct v4l2_fmtdesc) :=
  pixelformat ← match direction with
    | Output => OutputFormat_u32 ∘ fst <$> codecs self !! Z.to_nat index
    | Capture => CaptureFormat_u32 <$> SUPPORTED_OUTPUT_FORMATS !! Z.to_nat index
    end;
  Some (vmk v4l2_fmtdesc
    [("index"%string, index); ("type_"%string, QueueType_u32 (mplane_queue direction));
     ("pixelformat"%string, pixelformat)]).

Definition frame_sizes (self : FfmpegDecoder) (pixel_format : Z) :
    option (vstruct v4l2_frmsize_stepwise) :=
  _ ← CaptureFormat_n pixel_format;
  Some (vmk v4l2_frmsize_stepwise
    [("min_width"%string, 32); ("max_width"%string, 4096); ("step_width"%string, 1);
     ("min_height"%string, 32); ("max_height"%string, 4096); ("step_height"%string, 1)]).

Definition adjust_format (self : FfmpegDecoder) (session : Ses) (direction : QueueDirection)
    (format : V4l2MplaneFormat) : outcome V4l2MplaneFormat :=
  pix_mp ← match direction with
    | Output =>
        let f := default (input_format session).1 (OutputFormat_n (pixelformat format)) in
        Ret (OutputFormat_into_v4l2_pix_format f (coded_size (stream_params session)))
    | Capture =>
        let f := default (output_format session) (CaptureFormat_n (pixelformat format)) in
        CaptureFormat_into_v4l2_pix_format f (capture_size session)
    end;
  Ret (mp_from direction pix_mp).

Definition apply_format (self : FfmpegDecoder) (session : Ses) (direction : QueueDirection)
    (format : V4l2MplaneFormat) : Ses :=
  match direction with
  | Output =>
      match OutputFormat_n (pixelformat format) with
      | None => session
      | Some f =>
          match map_get f (codecs self) with
          | None => session
          | Some avcodec => set_input_format (f, avcodec) session
          end
      end
  | Capture =>
      match CaptureFormat_n (pixelformat format) with
      | None => session
      | Some f => set_output_format f session
      end
  end.
End Decoder.

(** ** Sample libraries

    A codec that returns one frame of 320 x 240 pixels per packet, on an operating
    system whose files are empty and of which only the [eventfd]s have a state. *)
Module SampleFfmpeg.
Import SampleAvutil SampleEventFd.

#[global] Instance sample_kernel : Kernel (list Z) := {|
  memfd_create k := (k, Ok 3);
  file_set_len _ _ k := (k, Ok tt);
  add_seals _ _ k := (k, Ok tt);
  seek_start _ k := (k, Ok tt);
  sys_write _ bs k := (k, Ok (length bs));
  sys_read _ n k := (k, Ok (replicate n x00));
  sys_mmap _ _ k := (k, Ok 4096);
  sys_munmap _ _ k := (k, Ok tt);
|}.

Definition empty_frame : AvFrame :=
  mkAvFrame 0 0 (-1) 0 0 0 0 0 0 (replicate 8 None) (replicate 8 0) (replicate 8 None).
Definition decoded_frame (pts : Z) : AvFrame :=
  mkAvFrame 320 240 0 pts 0 0 320 0 240 (replicate 8 None) (replicate 8 320) (replicate 8 None).

(** The timestamps of the frames to return, and whether the codec was flushed. *)
Definition codec_state : Type := list Z * bool.

#[global] Instance sample_libav : Libav codec_state := {|
  AVCodecContext := unit; SwsContext := unit;
  avcodec_alloc_context3 _ (l : codec_state) := (l, Some tt);
  avcodec_open2 _ _ (l : codec_state) := (l, 0);
  ctx_get _ f (_ : codec_state) := match f with ctx_width => 320 | ctx_height => 240 | _ => 0 end;
  ctx_set _ _ _ (l : codec_state) := l;
  avcodec_send_packet _ packet (l : codec_state) :=
    if l.2 then (l, AVERROR_EOF)
    else match packet with
         | Some p => ((l.1 ++ [pk_pts p], false), 0)
         | None => ((l.1, true), 0)
         end;
  avcodec_receive_frame _ f (l : codec_state) :=
    match l.1 with
    | pts :: rest => ((rest, l.2), (decoded_frame pts, 0))
    | [] => (l, (f, if l.2 then AVERROR_EOF else AVERROR_EAGAIN))
    end;
  avcodec_send_frame _ _ (l : codec_state) := (l, -22);
  avcodec_receive_packet _ p (l : codec_state) := (l, (p, -22));
  avcodec_flush_buffers _ (_ : codec_state) := ([], false);
  av_buffer_create d n (l : codec_state) := (l, Some (mkAvBuffer d n));
  av_frame_alloc (l : codec_state) := (l, Some empty_frame);
  av_frame_is_writable _ (_ : codec_state) := 1;
  av_frame_make_writable f (l : codec_state) := (l, (f, 0));
  sws_getContext _ _ _ _ _ _ _ (l : codec_state) := (l, Some tt);
  sws_scale _ _ _ _ _ _ _ (l : codec_state) := (l, 240);
|}.

(** A buffer of one plane that fits a frame. *)
Definition plane_buffer : FfmpegDecoderBuffer := mkFfmpegBuffer [mkMemFdBuffer 3 115200].

Definition session0 : FfmpegDecoderSession (LA := sample_libav) :=
  mkFfmpegSession (VP9, "vp9"%string) NV12 (320, 240)
    (mkStreamParams 4 (320, 240) (mkRect 0 0 320 240)) None [] (mkEventQueue 3 []).

Example new_session0 :
  codecs (FfmpegDecoder_new (V := Sample.sample_v4l2r)) = [(VP9, "vp9"); (H264, "h264")]%string ∧
  new_session (FfmpegDecoder_new (V := Sample.sample_v4l2r)) [] = Ret ([0], Ok session0).
Proof. split; reflexivity. Qed.
End SampleFfmpeg.
