(* ===== verification/FfmpegMachine.v ===== *)
(** * The FFmpeg backend as a state machine

    A round of [try_decode] ([FfmpegDecoder.v]) is one step of a machine on sessions,
    whatever the libraries answer.  What a session owes its client is an invariant
    of the machine: every input and every output buffer is accounted for, and the
    end of a drain is announced at most once. *)

From Stdlib Require Import Strings.Byte.
From stdpp Require Import strings.
From S2P Require Import Prelude Traits MemFd Bytes V4l2r VideoDecoder EventQueue Avcodec FfmpegDecoder.
#[local] Open Scope Z_scope.

Section Machine.
Context `{BM : BuildMode} `{V : V4l2r} {AU : Avutil}.
Context {K L : Type} `{!Kernel K} `{!EventFd K} `{LA : !Libav L}.
Abbreviation Ses := (FfmpegDecoderSession (LA := LA)).
Abbreviation St := (K * L * Ses)%type.
Abbreviation Ctx := (DecodingContext (LA := LA)).

(** ** Steps *)

Definition post (e : VideoDecoderBackendEvent) (s : Ses) : Ses :=
  set_events (mkEventQueue (event (events s)) (pending_events (events s) ++ [e])) s.

Definition with_context (c : Ctx) (s : Ses) : Ses := set_context (Some c) s.

Definition with_size (size : Z * Z) (rect : v4l2_rect) (s : Ses) : Ses :=
  let s := set_stream_params (mkStreamParams (min_output_buffers (stream_params s)) size rect) s in
  if ((capture_size s).1 <? size.1) || ((capture_size s).2 <? size.2)
  then set_capture_size size s else s.

Definition frame_size (f : AvFrame) : Z * Z := (as_u32 (f_width f), as_u32 (f_height f)).

(** The three parts of a round. *)
Inductive part := PSend | PReceive | POutput.

Inductive decoder_step (s : Ses) (c : Ctx) : part → Ses → Prop :=
(** The codec takes the next input, or rejects it as invalid. *)
| step_input packet i rest :
    jobs c = Decode packet i :: rest →
    decoder_step s c PSend (post (InputBufferDone i 0) (with_context (set_jobs rest c) s))
(** A drain begins. *)
| step_drain rest :
    jobs c = Drain :: rest →
    decoder_step s c PSend (with_context (set_drain_state Initiated (set_jobs rest c)) s)
(** A frame comes out of the codec. *)
| step_received f :
    avframe c = None → frame_size f = coded_size (stream_params s) →
    decoder_step s c PReceive (with_context (set_avframe (Some f) c) s)
(** A frame of another resolution comes out: output buffers are dropped. *)
| step_resolution f rect conv :
    avframe c = None →
    decoder_step s c PReceive (with_context (set_avframe (Some f) (set_accepting false (set_converter conv c)))
      (post StreamFormatChanged (set_frames [] (with_size (frame_size f) rect s))))
(** The codec has no frames left to return. *)
| step_flushed :
    drain_state c = Initiated → avframe c = None →
    decoder_step s c PReceive (with_context (set_drain_state AwaitingFinalFrame c) s)
(** The codec reports invalid data. *)
| step_skip : avframe c = None → decoder_step s c PReceive s
(** A frame is copied into an output buffer. *)
| step_output f b rest used :
    drain_state c ≠ AwaitingFinalFrame → avframe c = Some f →
    available_output_frames s = b :: rest →
    decoder_step s c POutput (post (FrameCompleted (index b)
        (mkTimeval (Z.quot (f_pts f) 1000000) (Z.rem (f_pts f) 1000000)) [used] false)
      (with_context (set_avframe None c) (set_frames rest s)))
(** The end of the drain is announced. *)
| step_last b rest :
    drain_state c = AwaitingFinalFrame → avframe c = None →
    available_output_frames s = b :: rest →
    decoder_step s c POutput (post (FrameCompleted (index b) (mkTimeval 0 0) [] true)
      (with_context (set_drain_state NoDrain c) (set_frames rest s))).

(** ** Rounds are steps *)

Lemma wp_on_lib {E A} (m : M L E A) (Q : result A E → St → Prop) (st : St) :
  (∀ l r, Q r (st.1.1, l, st.2)) → wp true (on_lib m) Q st.
Proof. intros HQ. apply wp_zoom, wp_any. intros r l. apply HQ. Qed.

Lemma wp_post pn e (Q : result unit Z → St → Prop) (st : St) :
  (∀ k r, Q r (k, st.1.2, post e st.2)) → wp pn (on_events (queue_event e)) Q st.
Proof.
  intros HQ. apply wp_zoom. unfold queue_event. apply wp_bind, wp_zoom, wp_modify.
  apply wp_bind. unfold get_st. cbv beta. unfold wp at 1. cbn [fst snd pending_events].
  destruct (_ =? _)%nat; [|apply HQ].
  apply wp_bind, wp_zoom. unfold syscall, wp at 1.
  destruct (eventfd_write _ _ _) as [k [a|e1]]; [apply wp_ret|]; apply HQ.
Qed.

(** What a part of a round may do to the session. *)
Definition steps_from {E} (p : part → Prop) (s : Ses) (c : Ctx) (r : result bool E) (st' : St) : Prop :=
  match r with
  | Ok true => ∃ q, p q ∧ decoder_step s c q st'.2
  | Ok false => st'.2 = s
  | Err _ => True
  end.

Lemma send_steps (st : St) c :
  context st.2 = Some c → wp true try_send_input_job (steps_from (eq PSend) st.2 c) st.
Proof.
  destruct st as [[k l] [i o cs sp ctx fr ev]]. intros [= ->].
  unfold try_send_input_job. apply wp_bind, wp_get_st, wp_bind, wp_ok_or; [|done].
  intros c' [= <-]. destruct (jobs c) as [|[packet idx|] rest] eqn:Hj; [by apply wp_ret| |].
  - apply wp_bind, wp_modify, wp_bind, wp_on_lib. intros l' [sent|]; [|done].
    apply wp_bind. apply (wp_mono _ _ (λ r st', match r with
      | Ok _ => st' = (k, l', with_context (set_jobs rest c)
          (mkFfmpegSession i o cs sp (Some c) fr ev)) | Err _ => True end)).
    2:{ destruct sent as [b|[e]]; [by apply wp_ret|]. repeat case_match; done. }
    intros [[|]|] st' Hst'; [| |done]; subst st'; apply wp_bind.
    + apply wp_map_err, wp_post. intros k' [[]|]; [|done]. apply wp_ret. exists PSend. split; [done|]. exact (step_input _ c packet idx rest Hj).
    + apply wp_modify, wp_ret. simpl. destruct c. simpl in *. by subst.
  - apply wp_bind, wp_modify, wp_bind, wp_modify, wp_ret. exists PSend. split; [done|].
    exact (step_drain _ c rest Hj).
Qed.

(** Only libraries work on the frame of an output buffer. *)
Lemma keeps_on_lib {E A} (s : Ses) (m : M L E A) : keeps true (λ st : St, st.2 = s) (on_lib m).
Proof. intros st Hs. by apply wp_on_lib. Qed.

Lemma keeps_in_frame {S E E' A} (P : S → Prop) (m : M AvFrame E A) (wrap : E → E') f :
  keeps true P (in_frame m wrap f).
Proof.
  unfold in_frame. keeps_walk.
Qed.

#[local] Hint Resolve keeps_on_lib keeps_in_frame : vmedia.

Lemma output_avframe_session s size fmt used b :
  keeps true (λ st : St, st.2 = s) (output_avframe size fmt used b).
Proof.
  unfold output_avframe. keeps_walk.
Qed.

Lemma output_steps (st : St) c :
  context st.2 = Some c → wp true try_output_frame (steps_from (eq POutput) st.2 c) st.
Proof.
  destruct st as [[k l] [i o cs sp ctx fr ev]]. intros [= ->].
  unfold try_output_frame. apply wp_bind, wp_get_st, wp_bind, wp_ok_or; [|done].
  intros c' [= <-]. cbn [available_output_frames fst snd].
  destruct fr as [|b rest]; [by apply wp_ret|]. apply wp_bind, wp_modify.
  case_bool_decide as Hd; destruct (avframe c) as [f|] eqn:Hf.
  - by apply wp_bind, wp_modify, wp_ret.
  - apply wp_bind, wp_modify, wp_bind, wp_map_err, wp_post. intros k' [[]|]; [|done].
    apply wp_ret. exists POutput. split; [done|]. by apply step_last.
  - apply wp_bind, wp_modify. unfold output_frame_into. apply wp_bind, wp_get_st, wp_bind.
    apply (wp_mono _ _ (λ r st', st'.2 = with_context (set_avframe None c)
      (mkFfmpegSession i o cs sp (Some c) rest ev))).
    + intros [dst|] [[k1 l1] s1] Hs; [|done]. simpl in Hs. subst s1.
      apply wp_bind, wp_map_err, wp_on_lib. intros l2 [[]|]; [|done].
      apply wp_bind. destruct (usize_sum _) as [used|]; [|done].
      apply wp_ret, wp_bind, wp_map_err, wp_post. intros k2 [[]|]; [|done].
      apply wp_ret. exists POutput. split; [done|]. by eapply step_output.
    + by apply output_avframe_session.
  - by apply wp_bind, wp_modify, wp_ret.
Qed.

Lemma received_steps (k : K) (l : L) (s : Ses) c f :
  context s = Some c → avframe c = None →
  wp true (frame_received c f) (steps_from (eq PReceive) s c) (k, l, s).
Proof.
  intros Hc Hf. unfold frame_received. apply wp_bind.
  apply (wp_mono _ _ (λ r st', match r with Ok _ => st' = (k, l, s) | Err _ => True end)).
  2:{ unfold frame_visible_rect. apply wp_bind. destruct (u64_sub _ _); [|done].
      apply wp_bind. by destruct (u64_sub _ _). }
  intros [rect|] st Hst; [|done]. subst st. apply wp_bind, wp_get_st, wp_bind.
  destruct (negb _ || negb _) eqn:Hg.
  - unfold change_resolution. apply wp_bind, wp_modify, wp_bind, wp_modify, wp_bind, wp_get_st.
    apply wp_bind, wp_map_err. unfold update_converter. apply wp_bind, wp_on_lib.
    intros l' [conv|]; [|done]. apply wp_modify, wp_bind, wp_modify, wp_bind, wp_modify.
    apply wp_map_err, wp_post. intros k' [[]|]; [|done]. apply wp_bind, wp_modify, wp_ret.
    exists PReceive. split; [done|]. match goal with |- decoder_step _ _ _ ?x =>
      enough (x = with_context (set_avframe (Some f) (set_accepting false (set_converter conv c)))
        (post StreamFormatChanged (set_frames [] (with_size (frame_size f) rect s)))) as ->
    end; [by apply step_resolution|].
    destruct s as [i o [cs1 cs2] sp ctx fr ev]. simpl in Hc. subst ctx.
    unfold with_size, frame_size. cbn.
    by destruct ((cs1 <? as_u32 (f_width f)) || (cs2 <? as_u32 (f_height f))).
  - apply wp_ret, wp_bind, wp_modify, wp_ret. apply orb_false_iff in Hg as [Hg _].
    apply negb_false_iff, bool_decide_eq_true in Hg.
    cbn [steps_from]. unfold on_ses. cbn [fst snd]. rewrite Hc. exists PReceive. split; [done|].
    by apply step_received.
Qed.

Lemma receive_steps fuel (st : St) c :
  context st.2 = Some c → wp true (try_receive_frame fuel) (steps_from (eq PReceive) st.2 c) st.
Proof.
  destruct st as [[k l] s]. cbn [snd]. intros Hc. revert k l.
  induction fuel as [|fuel IH]; intros k l; [done|]. cbn [try_receive_frame].
  apply wp_bind, wp_get_st, wp_bind, wp_ok_or; [|done]. cbn [snd]. rewrite Hc. intros c' [= <-].
  destruct (avframe c) eqn:Hf; [by apply wp_ret|].
  apply wp_bind, wp_on_lib. intros l1 [frame|]; [|done].
  apply wp_bind, wp_on_lib. intros l2 [[[frame' []]|[e]]|]; [| | | |done].
  - by apply received_steps.
  - case_bool_decide as Hd; [|by apply wp_ret].
    apply wp_bind, wp_on_lib. intros l3 [[[]|[e]]|]; [apply IH| |done].
    by apply wp_bind, wp_modify, wp_throw.
  - case_bool_decide as Hd; [|by apply wp_ret].
    apply wp_bind, wp_modify, wp_ret. cbn. rewrite Hc. exists PReceive. split; [done|].
    by apply step_flushed.
  - case_match; [|done]. apply wp_ret. exists PReceive. split; [done|]. by apply step_skip.
Qed.

(** A round is a step of the machine, or the last one, which changes nothing. *)
Lemma round_steps fuel (st : St) c :
  context st.2 = Some c → wp true (decode_round fuel) (steps_from (λ _, True) st.2 c) st.
Proof.
  intros Hc. unfold decode_round. apply wp_bind, wp_map_err.
  eapply wp_mono, output_steps; [|done].
  intros [[|]|] st1 H1; [destruct H1 as (q&_&H1); by exists q| |done].
  simpl in H1. rewrite <-H1 in Hc |- *. clear H1.
  apply wp_bind, wp_map_err. eapply wp_mono, receive_steps; [|done].
  intros [[|]|] st2 H2; [destruct H2 as (q&_&H2); by exists q| |done]. simpl in H2. rewrite <-H2 in Hc |- *. clear H2.
  apply wp_map_err. eapply wp_mono, send_steps; [|done].
  intros [[|]|] st3 H3; [destruct H3 as (q&_&H3); by exists q|done..].
Qed.

(** ** Runs of the machine *)

Lemma step_has_context s c p s' : context s = Some c → decoder_step s c p s' → is_Some (context s').
Proof. intros Hc. destruct 1; cbn; eauto. Qed.

Definition ses_step (s s' : Ses) : Prop := ∃ c p, context s = Some c ∧ decoder_step s c p s'.

Lemma loop_runs fuel (st : St) :
  is_Some (context st.2) →
  wp true (decode_loop fuel)
    (λ r st', match r with Ok _ => rtc ses_step st.2 st'.2 | Err _ => True end) st.
Proof.
  revert st. induction fuel as [|fuel IH]; intros st [c Hc]; [done|]. cbn [decode_loop].
  apply wp_bind. eapply wp_mono, round_steps; [|done]. intros [[|]|] st1 H1; [| |done].
  - destruct H1 as (q&_&H1). eapply wp_mono, IH; [|by eapply step_has_context].
    intros [[]|] st2 H2; [|done]. eapply rtc_l; [by exists c, q|done].
  - apply wp_ret. simpl in H1. by rewrite H1.
Qed.

Lemma try_decode_runs fuel (st : St) :
  wp true (try_decode fuel)
    (λ r st', match r with Ok _ => rtc ses_step st.2 st'.2 | Err _ => True end) st.
Proof.
  unfold try_decode. apply wp_bind, wp_get_st. destruct (context st.2) eqn:Hc; [|by apply wp_ret].
  apply loop_runs. by rewrite Hc.
Qed.

(** ** The account of a session *)

Definition done_ids (es : list VideoDecoderBackendEvent) : list Z :=
  omap (λ e, match e with InputBufferDone i _ => Some i | _ => None end) es.
Definition frame_ids (es : list VideoDecoderBackendEvent) : list Z :=
  omap (λ e, match e with FrameCompleted i _ _ _ => Some i | _ => None end) es.
Definition last_ids (es : list VideoDecoderBackendEvent) : list Z :=
  omap (λ e, match e with FrameCompleted i _ _ true => Some i | _ => None end) es.
Definition input_ids (js : list FfmpegDecoderJob) : list Z :=
  omap (λ j, match j with Decode _ i => Some i | Drain => None end) js.
Definition drain_jobs (js : list FfmpegDecoderJob) : list unit :=
  omap (λ j, match j with Drain => Some tt | Decode _ _ => None end) js.

Definition waiting_jobs (s : Ses) : list FfmpegDecoderJob :=
  match context s with Some c => jobs c | None => [] end.
Definition draining_now (s : Ses) : nat :=
  match context s with
  | Some c => if bool_decide (drain_state c = NoDrain) then 0 else 1
  | None => 0
  end.

(** What the client asked for so far, and the events it was given. *)
Record history := mkHistory {
  submitted : list Z; offered : list Z; drains : nat; delivered : list VideoDecoderBackendEvent }.

(** Inputs are answered in order, or wait; output buffers are completed in order, at
    most once each, or wait, unless they were dropped; every final frame belongs to
    a drain. *)
Definition accounted (h : history) (s : Ses) : Prop :=
  let es := delivered h ++ pending_events (events s) in
  done_ids es ++ input_ids (waiting_jobs s) = submitted h ∧
  (frame_ids es ++ (index <$> available_output_frames s)) `sublist_of` offered h ∧
  (length (last_ids es) + length (drain_jobs (waiting_jobs s)) + draining_now s ≤ drains h)%nat.

(** The account of a session whose events, jobs, output buffers and drain are given. *)
Definition balance (h : history) (es : list VideoDecoderBackendEvent) (js : list FfmpegDecoderJob)
    (outs : list Z) (d : nat) : Prop :=
  done_ids (delivered h ++ es) ++ input_ids js = submitted h ∧
  (frame_ids (delivered h ++ es) ++ outs) `sublist_of` offered h ∧
  (length (last_ids (delivered h ++ es)) + length (drain_jobs js) + d ≤ drains h)%nat.

Lemma balance_input h es p i js outs d :
  balance h es (Decode p i :: js) outs d → balance h (es ++ [InputBufferDone i 0]) js outs d.
Proof.
  unfold balance, done_ids, frame_ids, last_ids. rewrite !(app_assoc (delivered h)), !omap_app. cbn.
  by rewrite !app_nil_r, <-!app_assoc.
Qed.

Lemma balance_drain h es js outs d :
  balance h es (Drain :: js) outs d → balance h es js outs 1.
Proof.
  intros (Hi&Ho&Hd). change (drain_jobs (Drain :: js)) with (tt :: drain_jobs js) in Hd.
  simpl length in Hd. split_and!; [done..|lia].
Qed.

Lemma balance_format h es js outs d :
  balance h es js outs d → balance h (es ++ [StreamFormatChanged]) js [] d.
Proof.
  unfold balance, done_ids, frame_ids, last_ids. rewrite !(app_assoc (delivered h)), !omap_app. cbn.
  rewrite !app_nil_r. intros (Hi&Ho&Hd). split_and!; [done| |done].
  etrans; [|exact Ho]. by apply sublist_inserts_r.
Qed.

Lemma balance_frame h es js i outs d ts used last d' :
  balance h es js (i :: outs) d → (d' + (if last : bool then 1 else 0) ≤ d)%nat →
  balance h (es ++ [FrameCompleted i ts used last]) js outs d'.
Proof.
  unfold balance, done_ids, frame_ids, last_ids. rewrite !(app_assoc (delivered h)), !omap_app. cbn.
  rewrite !app_nil_r, <-!app_assoc, !length_app. intros (Hi&Ho&Hd) Hle. split_and!; [done..|].
  destruct last; cbn; lia.
Qed.

Lemma balance_le h es js outs d d' : balance h es js outs d → (d' ≤ d)%nat → balance h es js outs d'.
Proof. intros (Hi&Ho&Hd) ?. split_and!; [done..|lia]. Qed.

Lemma with_size_events size rect s : events (with_size size rect s) = events s.
Proof. unfold with_size. by case_match. Qed.

Lemma accounted_step h s s' : accounted h s → ses_step s s' → accounted h s'.
Proof.
  intros Ha (c&p&Hc&Hstep).
  assert (balance h (pending_events (events s)) (jobs c) (index <$> available_output_frames s)
    (if bool_decide (drain_state c = NoDrain) then 0 else 1)) as Hb.
  { unfold accounted, waiting_jobs, draining_now in Ha. by rewrite Hc in Ha. }
  change (balance h (pending_events (events s')) (waiting_jobs s')
    (index <$> available_output_frames s') (draining_now s')).
  clear Ha. unfold waiting_jobs, draining_now. destruct Hstep as
    [p i rest Hj|rest Hj|f Hf Hsz|f rect conv Hf|Hd Hf|Hf|f b rest used Hd Hf Hfr|b rest Hd Hf Hfr];
    cbn -[with_size]; rewrite ?Hc; try done.
  - rewrite Hj in Hb. by eapply balance_input.
  - rewrite Hj in Hb. by eapply balance_drain.
  - rewrite with_size_events. by eapply balance_format.
  - rewrite Hd in Hb. done.
  - rewrite Hfr in Hb. eapply balance_frame; [done|]. by rewrite Nat.add_0_r.
  - rewrite Hfr, Hd in Hb. by eapply balance_frame.
Qed.

(** ** The operations of a session *)

Inductive session_op :=
| OpDecode (input : FfmpegDecoderBuffer) (i : Z) (ts : timeval) (bytes_used : Z)
| OpUseAsOutput (i : Z) (backing : FfmpegDecoderBuffer)
| OpDrain
| OpClear
| OpNextEvent
| OpStreaming (dir : QueueDirection) (streaming : bool).

Definition run_session_op (fuel : nat) (op : session_op) :
    M St Z (option VideoDecoderBackendEvent) :=
  match op with
  | OpDecode input i ts used => decode fuel input i ts used ;; mret None
  | OpUseAsOutput i b => use_as_output i b ;; mret None
  | OpDrain => drain fuel ;; mret None
  | OpClear => clear_output_buffers ;; mret None
  | OpNextEvent => next_event
  | OpStreaming dir b => on_ses (streaming_state dir b) ;; mret None
  end.

(** The history after an operation that returned [ev]. *)
Definition note (op : session_op) (ev : option VideoDecoderBackendEvent) (h : history) : history :=
  match op with
  | OpDecode _ i _ _ => mkHistory (submitted h ++ [i]) (offered h) (drains h) (delivered h)
  | OpUseAsOutput i _ => mkHistory (submitted h) (offered h ++ [i]) (drains h) (delivered h)
  | OpDrain => mkHistory (submitted h) (offered h) (drains h + 1) (delivered h)
  | OpNextEvent =>
      mkHistory (submitted h) (offered h) (drains h) (delivered h ++ option_list ev)
  | OpClear | OpStreaming _ _ => h
  end.

Lemma accounted_run h s s' : accounted h s → rtc ses_step s s' → accounted h s'.
Proof. intros Ha Hr. induction Hr as [|? ? ? Hs _ IH]; [done|]. by eapply IH, accounted_step. Qed.

(** The account only looks at the waiting jobs, the drain, the buffers and the events. *)
Lemma accounted_same h s s' :
  waiting_jobs s' = waiting_jobs s → draining_now s' = draining_now s →
  available_output_frames s' = available_output_frames s → events s' = events s →
  accounted h s → accounted h s'.
Proof. unfold accounted. by intros -> -> -> ->. Qed.

Definition job_noted (job : FfmpegDecoderJob) (h : history) : history :=
  match job with
  | Decode _ i => mkHistory (submitted h ++ [i]) (offered h) (drains h) (delivered h)
  | Drain => mkHistory (submitted h) (offered h) (drains h + 1) (delivered h)
  end.

Lemma accounted_job h s c job :
  context s = Some c → accounted h s →
  accounted (job_noted job h) (set_context ((λ c, job_context c job) <$> context s) s).
Proof.
  intros Hc (Hi&Ho&Hd). unfold accounted, waiting_jobs, draining_now in *. rewrite Hc in *.
  cbn [fmap option_fmap option_map set_context context job_context set_jobs jobs].
  unfold input_ids, drain_jobs in *. rewrite !omap_app.
  destruct job as [p i|]; cbn [job_noted submitted offered drains delivered]; split_and!;
    try exact Ho; cbn -[Nat.add]; rewrite ?app_nil_r, ?length_app.
  - by rewrite app_assoc, Hi.
  - done.
  - done.
  - cbn. rewrite (Nat.add_assoc _ _ 1). lia.
Qed.

Lemma new_context_idle codec fmt size (l : L) :
  wp true (DecodingContext_new codec fmt size)
    (λ r _, match r with Ok c => jobs c = [] ∧ drain_state c = NoDrain | Err _ => True end) l.
Proof.
  unfold DecodingContext_new. apply wp_bind, wp_any. intros [ctx|] l1; [|done].
  apply wp_bind, wp_any. by intros [conv|] l2.
Qed.

Lemma ensure_context_accounted h (st : St) :
  accounted h st.2 →
  wp true ensure_context (λ r st', match r with
    | Ok _ => accounted h st'.2 ∧ is_Some (context st'.2) | Err _ => True end) st.
Proof.
  intros Ha. unfold ensure_context. apply wp_bind, wp_get_st.
  destruct (context st.2) eqn:Hc; [apply wp_ret; by rewrite Hc|].
  apply wp_bind, wp_map_err, wp_zoom. eapply wp_mono, new_context_idle.
  intros [c|] l; [|done]. intros [Hj Hd]. apply wp_modify. cbn. split; [|done].
  revert Ha. apply accounted_same; unfold waiting_jobs, draining_now; cbn; rewrite ?Hc, ?Hd; done.
Qed.

Lemma keeps_on_os {E A} (s : Ses) (m : M K E A) : keeps true (λ st : St, st.2 = s) (on_os m).
Proof. intros st Hs. apply wp_zoom, wp_any. done. Qed.

#[local] Hint Resolve keeps_on_os : vmedia.

Lemma input_packet_session s input ts used :
  keeps true (λ st : St, st.2 = s) (input_packet input ts used).
Proof.
  unfold input_packet. keeps_walk.
Qed.

Lemma try_decode_accounted {E} (g : TryDecodeError → E) h fuel (st : St) :
  accounted h st.2 →
  wp true (map_err g (try_decode fuel))
    (λ r st', match r with Ok _ => accounted h st'.2 | Err _ => True end) st.
Proof.
  intros Ha. apply wp_map_err. eapply wp_mono, try_decode_runs.
  intros [[]|] st' Hr; [|done]. by eapply accounted_run.
Qed.

Definition with_pending (es : list VideoDecoderBackendEvent) (s : Ses) : Ses :=
  set_events (mkEventQueue (event (events s)) es) s.

Lemma wp_clear_event {E T} pn (Q : result unit E → K * EventQueue T → Prop) st :
  (∀ k, Q (Ok tt) (k, st.2)) → wp pn clear_event Q st.
Proof.
  intros HQ. unfold clear_event. apply wp_bind, wp_get_st, wp_ignore_err, wp_zoom.
  unfold syscall, wp. destruct (eventfd_read _ _). apply HQ.
Qed.

Lemma wp_next_event {E} pn (Q : result _ E → St → Prop) (st : St) :
  (pending_events (events st.2) = [] → Q (Ok None) st) →
  (∀ k e es, pending_events (events st.2) = e :: es →
     Q (Ok (Some e)) (k, st.1.2, with_pending es st.2)) →
  wp pn next_event Q st.
Proof.
  destruct st as [[k l] s]. intros H1 H2. apply wp_zoom. unfold dequeue_event.
  apply wp_bind, wp_get_st. cbn [fst snd] in *. destruct (pending_events (events s)) as [|e es].
  { apply wp_ret. specialize (H1 eq_refl). by destruct s as [????? ? []]. }
  apply wp_bind, wp_zoom, wp_modify, wp_bind. destruct (is_empty es).
  - apply wp_clear_event. intros k'. by apply wp_ret, H2.
  - by apply wp_ret, wp_ret, H2.
Qed.

Lemma wp_retain pn predicate (Q : result unit Z → St → Prop) (st : St) :
  (∀ k, Q (Ok tt) (k, st.1.2, with_pending
     (filter (λ e, predicate e = true) (pending_events (events st.2))) st.2)) →
  wp pn (on_events (retain predicate)) Q st.
Proof.
  intros HQ. apply wp_zoom. unfold retain. apply wp_bind, wp_get_st, wp_bind, wp_zoom, wp_modify.
  destruct (_ && _); [apply wp_clear_event; intros k'; apply HQ|apply wp_ret, HQ].
Qed.

Lemma omap_filter {A B} (f : A → option B) (p : A → bool) (l : list A) :
  (∀ x, p x = false → f x = None) → omap f (filter (λ x, p x = true) l) = omap f l.
Proof.
  intros Hf. induction l as [|x l IH]; [done|]. rewrite filter_cons.
  destruct (decide (p x = true)) as [Hp|Hp]; cbn; rewrite IH; [done|].
  by rewrite Hf by (by destruct (p x)).
Qed.

Lemma omap_sublist {A B} (f : A → option B) (l l' : list A) :
  l `sublist_of` l' → omap f l `sublist_of` omap f l'.
Proof.
  induction 1 as [|x l l' _ IH|x l l' _ IH]; cbn; [done| |]; destruct (f x); try done.
  - by apply sublist_skip.
  - by apply sublist_cons.
Qed.

Lemma accounted_clear h s (es := filter (λ e, negb (is_frame_completed e) = true)
    (pending_events (events s))) :
  accounted h s → accounted h (with_pending es (set_frames [] s)).
Proof.
  intros (Hi&Ho&Hd). unfold accounted, waiting_jobs, draining_now in *.
  cbn [with_pending set_events set_frames events pending_events event context
    available_output_frames fmap list_fmap] in *.
  assert (delivered h ++ es `sublist_of` delivered h ++ pending_events (events s)) as Hsub.
  { apply sublist_app; [done|]. apply sublist_filter. }
  split_and!.
  - rewrite <-Hi. f_equal. unfold done_ids. rewrite !omap_app. f_equal.
    apply omap_filter. by intros [].
  - rewrite app_nil_r. etrans; [|exact Ho]. apply sublist_inserts_r. by apply omap_sublist.
  - assert (length (last_ids (delivered h ++ es)) ≤
      length (last_ids (delivered h ++ pending_events (events s))))%nat; [|lia].
    by apply sublist_length, omap_sublist.
Qed.

Lemma op_accounted fuel op h (st : St) :
  accounted h st.2 →
  wp true (run_session_op fuel op)
    (λ r st', match r with Ok ev => accounted (note op ev h) st'.2 | Err _ => True end) st.
Proof.
  intros Ha. destruct op as [input i ts used|i b| | | |dir b]; cbn [run_session_op].
  - apply wp_bind, wp_bind. eapply wp_mono, ensure_context_accounted; [|exact Ha].
    intros [[]|] st1; [|done]. intros [Ha1 [c Hc]]. apply wp_bind.
    eapply wp_mono, input_packet_session; [|done]. intros [p|] [[k2 l2] s2] H2; [|done].
    simpl in H2. subst s2. apply wp_bind, wp_modify.
    eapply wp_mono, try_decode_accounted, (accounted_job _ _ c (Decode p i)); [|done..].
    intros [[]|] st3 H3; [|done]. by apply wp_ret.
  - apply wp_bind. unfold use_as_output. apply wp_bind, wp_get_st. destruct (negb _).
    + apply wp_ret, wp_ret. destruct Ha as (Hi&Ho&Hd). split_and!; [done| |done].
      by apply sublist_inserts_r.
    + apply wp_bind, wp_map_err, wp_zoom, wp_any. intros [planes|] k; [|done].
      apply wp_modify, wp_ret. destruct Ha as (Hi&Ho&Hd). split_and!; [done| |done].
      cbn. rewrite fmap_app, app_assoc. by apply sublist_app.
  - apply wp_bind. unfold drain. apply wp_bind, wp_get_st. destruct (context st.2) as [c|] eqn:Hc.
    + apply wp_bind, wp_modify. cbn [fst snd]. 
      eapply wp_mono, try_decode_accounted, (accounted_job _ _ c Drain); [|done..].
      intros [[]|] st3 H3; [|done]. by apply wp_ret.
    + apply wp_ret, wp_ret. destruct Ha as (Hi&Ho&Hd). split_and!; [done..|].
      cbn [note drains delivered]. lia.
  - apply wp_bind. unfold clear_output_buffers. apply wp_bind, wp_modify, wp_retain.
    intros k. apply wp_ret. exact (accounted_clear h st.2 Ha).
  - apply wp_next_event.
    + intros _. unfold accounted in *. cbn. by rewrite app_nil_r.
    + intros k e es He. unfold accounted in *. rewrite He in Ha. cbn in *.
      by rewrite <-app_assoc.
  - apply wp_bind, wp_modify, wp_ret. cbn [note fst snd]. revert Ha. unfold streaming_state.
    destruct (_ && _); [|done]. apply accounted_same; try done; unfold waiting_jobs, draining_now;
      cbn; by destruct (context st.2).
Qed.

(** *** Sequences of operations *)

Definition submitted_by (op : session_op) : option Z :=
  match op with OpDecode _ i _ _ => Some i | _ => None end.
Definition offered_by (op : session_op) : option Z :=
  match op with OpUseAsOutput i _ => Some i | _ => None end.
Definition drained_by (op : session_op) : option unit :=
  match op with OpDrain => Some tt | _ => None end.

(** The history of a sequence of operations and of the events they returned. *)
Definition history_of (ops : list session_op) (evs : list (option VideoDecoderBackendEvent)) : history :=
  mkHistory (omap submitted_by ops) (omap offered_by ops) (length (omap drained_by ops))
    (omap id evs).

(** Only [next_event] returns events. *)
Lemma op_event fuel op (st : St) :
  wp true (run_session_op fuel op)
    (λ r _, match r with Ok (Some _) => op = OpNextEvent | _ => True end) st.
Proof.
  destruct op; cbn [run_session_op]; try (by apply wp_bind, wp_any; intros [[]|]).
  apply wp_any. by intros [[]|].
Qed.

Lemma note_history ops evs op ev :
  (∀ e, ev = Some e → op = OpNextEvent) →
  note op ev (history_of ops evs) = history_of (ops ++ [op]) (evs ++ [ev]).
Proof.
  intros Hev. unfold history_of. rewrite !omap_app, length_app.
  destruct op, ev as [e|]; try (by specialize (Hev e eq_refl)); cbn; by rewrite ?app_nil_r, ?Nat.add_0_r.
Qed.

Lemma ops_accounted fuel ops ops0 evs0 (st : St) :
  accounted (history_of ops0 evs0) st.2 →
  wp true (mapM_m (run_session_op fuel) ops) (λ r st', match r with
    | Ok evs => accounted (history_of (ops0 ++ ops) (evs0 ++ evs)) st'.2 | Err _ => True end) st.
Proof.
  revert ops0 evs0 st. induction ops as [|op ops IH]; intros ops0 evs0 st Ha; cbn [mapM_m].
  { apply wp_ret. by rewrite !app_nil_r. }
  apply wp_bind. eapply wp_mono, wp_and, op_event; [|by apply op_accounted].
  intros [ev|] st1; [|done]. intros [Ha1 Hev]. rewrite note_history in Ha1 by (by intros e ->).
  apply wp_bind. eapply wp_mono, IH, Ha1. intros [evs|] st2; [|done].
  rewrite <-!app_assoc. intros Ha2. by apply wp_ret.
Qed.

Lemma new_session_accounted decoder (k k' : K) (s : Ses) :
  new_session decoder k = Ret (k', Ok s) → accounted (mkHistory [] [] 0 []) s.
Proof.
  unfold new_session, EventQueue_new, ok_or, map_err, syscall, mbind, M_bind, mret, M_ret.
  destruct (head (codecs decoder)); [|done].
  destruct (eventfd_new k) as [? [fd|]]; [|done]. intros [= _ <-]. by split_and!.
Qed.
End Machine.

(** ** The theorems *)

(** C9: A call of [try_decode] that succeeds is a run of the machine [decoder_step]:
    each round of its loop is one step (input taken or rejected, drain begun, frame
    received with or without a new resolution, codec flushed, frame copied out, end
    of the drain announced), whatever the libraries answer. *)
Theorem try_decode_refines_machine `{BM : BuildMode} {AU : Avutil} {K L : Type}
    `{!Kernel K} `{!EventFd K} `{LA : !Libav L} fuel (k k' : K) (l l' : L)
    (s s' : FfmpegDecoderSession) :
  try_decode fuel (k, l, s) = Ret ((k', l', s'), Ok tt) → rtc ses_step s s'.
Proof.
  intros Hr. pose proof (try_decode_runs fuel (k, l, s)) as Hwp. unfold wp in Hwp.
  by rewrite Hr in Hwp.
Qed.

(** C8: Whatever the libraries answer, as long as the operations of a new session
    succeed, the inputs submitted are those answered, in order, followed by those
    that wait; the output buffers completed, followed by those that wait, come in
    the order in which they were offered and none twice; and there is at most one
    final frame per drain. *)
Theorem buffers_are_accounted_for `{BM : BuildMode} {AU : Avutil} {K L : Type}
    `{!Kernel K} `{!EventFd K} `{LA : !Libav L} fuel ops decoder (k0 k1 k' : K) (l l' : L)
    (s s' : FfmpegDecoderSession) evs :
  new_session decoder k0 = Ret (k1, Ok s) →
  mapM_m (run_session_op fuel) ops (k1, l, s) = Ret ((k', l', s'), Ok evs) →
  let es := omap id evs ++ pending_events (events s') in
  done_ids es ++ input_ids (waiting_jobs s') = omap submitted_by ops ∧
  (frame_ids es ++ (index <$> available_output_frames s')) `sublist_of` omap offered_by ops ∧
  (length (last_ids es) ≤ length (omap drained_by ops))%nat.
Proof.
  intros Hn Hr es.
  pose proof (ops_accounted fuel ops [] [] (k1, l, s) (new_session_accounted _ _ _ _ Hn)) as Hwp. unfold wp in Hwp.
  rewrite Hr in Hwp. destruct Hwp as (Hi&Ho&Hd). split_and!; [done..|].
  cbn [history_of delivered drains snd app] in Hd. unfold es. lia.
Qed.

(** ** Witnesses *)

Module MachineWitness.
Import SampleAvutil SampleEventFd SampleFfmpeg.
#[local] Instance checks : BuildMode := true.

(** Two output buffers, one input, and a drain. *)
Definition ops0 : list session_op :=
  [OpUseAsOutput 0 plane_buffer; OpUseAsOutput 1 plane_buffer;
   OpDecode plane_buffer 7 (mkTimeval 2 5) 10; OpDrain; OpNextEvent; OpNextEvent; OpNextEvent].

Definition delivered0 : list (option VideoDecoderBackendEvent) :=
  [None; None; None; None; Some (InputBufferDone 7 0);
   Some (FrameCompleted 0 (mkTimeval 2 5) [115200] false);
   Some (FrameCompleted 1 (mkTimeval 0 0) [] true)].

Definition returns {T A} (o : outcome (T * result A Z)) : option A :=
  match o with Ret (_, Ok a) => Some a | _ => None end.

Lemma returns_inv {T A} (o : outcome (T * result A Z)) a :
  returns o = Some a → ∃ t, o = Ret (t, Ok a).
Proof. destruct o as [[t [a'|]]|]; intros [=]; subst; by exists t. Qed.

Example run0_delivers :
  returns (mapM_m (run_session_op 9) ops0 ([0], ([], false), session0)) = Some delivered0.
Proof. vm_compute. reflexivity. Qed.

Lemma buffers_are_accounted_for_witness :
  ∃ st, mapM_m (run_session_op 9) ops0 ([0], ([], false), session0) = Ret (st, Ok delivered0) ∧
  done_ids (omap id delivered0 ++ pending_events (events st.2)) ++ input_ids (waiting_jobs st.2)
    = omap submitted_by ops0.
Proof.
  destruct (returns_inv _ _ run0_delivers) as [[[k l] s] Hr]. exists (k, l, s). split; [exact Hr|].
  exact (proj1 (buffers_are_accounted_for 9 ops0 FfmpegDecoder_new [] [0] k ([], false) l session0 s
    delivered0 (proj2 new_session0) Hr)).
Defined.

Definition busy0 : FfmpegDecoderSession (LA := sample_libav) :=
  set_context (Some (mkContext [Drain] tt (mkSwConverter tt 0 23) true None NoDrain)) session0.

Lemma try_decode_refines_machine_witness :
  ∃ st, try_decode 9 ([0], ([], false), busy0) = Ret (st, Ok tt) ∧ rtc ses_step busy0 st.2.
Proof.
  destruct (try_decode 9 ([0], ([], false), busy0)) as [[[[k l] s] [[]|]]|] eqn:Hr;
    [|exfalso; revert Hr; vm_compute; done..].
  exists (k, l, s). split; [done|]. by apply (try_decode_refines_machine 9 [0] k ([], false) l).
Defined.
End MachineWitness.
