(* ===== verification/FfmpegBehaviour.v ===== *)
(** * The FFmpeg backend on a codec that keeps its promises

    The documented behaviour of libavcodec as laws ([CodecLaws], [SizeLaws]), and
    what follows from it: [try_decode] returns; a drained codec takes no more input;
    a frame of another size than the output buffers is lost.  Then the formats that
    the decoder offers and applies. *)

From Stdlib Require Import Strings.Byte.
From stdpp Require Import strings.
From S2P Require Import Prelude Traits MemFd Bytes V4l2r VideoDecoder EventQueue Avcodec FfmpegDecoder FfmpegMachine.
#[local] Open Scope Z_scope.

(** ** Laws of the libraries *)

(** The states of codecs.  [draining] is set once the end of the stream was sent;
    [owed] bounds the frames and decoding errors that can be received before the
    next packet. *)
Class CodecLaws {AU : Avutil} (L : Type) `{LA : !Libav L} := {
  draining : L → AVCodecContext → bool;
  owed : L → AVCodecContext → nat;
  (** avcodec_send_packet: AVERROR_EOF, the decoder has been flushed, and no new
      packets can be sent to it (also if more than one flush packet is sent). *)
  send_when_draining : ∀ l c p, draining l c = true →
    ∃ l', avcodec_send_packet c p l = (l', AVERROR_EOF) ∧ draining l' c = true;
  flush_drains : ∀ l l' c ret, avcodec_send_packet c None l = (l', ret) → 0 ≤ ret →
    draining l' c = true;
  (** avcodec_receive_frame: EAGAIN asks for more input, which is not possible once
      the decoder drains. *)
  receive_keeps_draining : ∀ l l' c f f' ret,
    avcodec_receive_frame c f l = (l', (f', ret)) → draining l' c = draining l c;
  receive_when_draining : ∀ l l' c f f' ret, draining l c = true →
    avcodec_receive_frame c f l = (l', (f', ret)) → ret ≠ AVERROR_EAGAIN;
  receive_owed : ∀ l l' c f f' ret, avcodec_receive_frame c f l = (l', (f', ret)) →
    (owed l' c ≤ owed l c)%nat ∧
    (0 ≤ ret ∨ ret = AVERROR_INVALIDDATA → (owed l' c < owed l c)%nat);
  (** Calls that are not on a codec leave codecs alone. *)
  alloc_quiet : ∀ l c, let l' := (av_frame_alloc l).1 in
    draining l' c = draining l c ∧ owed l' c = owed l c;
  create_quiet : ∀ d n l c, let l' := (av_buffer_create d n l).1 in
    draining l' c = draining l c ∧ owed l' c = owed l c;
  scaler_quiet : ∀ w h f w' h' f' flags l c, let l' := (sws_getContext w h f w' h' f' flags l).1 in
    draining l' c = draining l c ∧ owed l' c = owed l c;
  scale_quiet : ∀ sws d ls y h d' ls' l c, let l' := (sws_scale sws d ls y h d' ls' l).1 in
    draining l' c = draining l c ∧ owed l' c = owed l c;
}.

(** Frames have room for eight planes and buffers; decoded frames have a size; the
    planes of NV12 have the sizes that fit the address space. *)
Class SizeLaws {AU : Avutil} (L : Type) `{LA : !Libav L} : Prop := {
  alloc_arrays : ∀ l l' f, av_frame_alloc l = (l', Some f) →
    length (f_data f) = 8%nat ∧ length (f_linesize f) = 8%nat ∧ length (f_buf f) = 8%nat;
  received_size : ∀ l l' c f f' ret, avcodec_receive_frame c f l = (l', (f', ret)) → 0 ≤ ret →
    0 < f_width f' ≤ 0x7fffffff ∧ 0 < f_height f' ≤ 0x7fffffff;
  nv12_sizes : ∀ l0 l1 h, is_u32 l0 → is_u32 l1 → 0 < h ≤ 0x7fffffff →
    ∃ a b, plane_sizes AV_PIX_FMT_NV12 [l0; l1] h = [a; b] ∧
      0 ≤ a < 0x8000000000000000 ∧ 0 ≤ b < 0x8000000000000000;
}.

Section Laws.
Context `{BM : BuildMode} {AU : Avutil}.
Context {K L : Type} `{!Kernel K} `{!EventFd K} `{LA : !Libav L} `{CL : !CodecLaws L}.
Abbreviation Ses := (FfmpegDecoderSession (LA := LA)).
Abbreviation St := (K * L * Ses)%type.
Abbreviation Ctx := (DecodingContext (LA := LA)).

(** ** Calls that leave a codec alone *)

Definition same_codec (a : AVCodecContext) (l l' : L) : Prop :=
  draining l' a = draining l a ∧ owed l' a = owed l a.

Lemma keeps_call {E A} a l0 (f : lib L A) :
  (∀ l, same_codec a l (f l).1) → keeps true (same_codec a l0) (call f : M L E A).
Proof.
  intros Hf l [Hd Ho]. unfold wp, call. destruct (Hf l) as [Hd' Ho']. by split; congruence.
Qed.

Lemma keeps_frame_new a l0 : keeps true (same_codec a l0) AvFrame_new.
Proof.
  unfold AvFrame_new. apply keeps_bind; [apply keeps_call; intros; apply alloc_quiet|].
  auto with vmedia.
Qed.

Lemma keeps_buffer_new {E} `{AvBufferSource D} a l0 (d : D) :
  keeps true (same_codec a l0) (AvBuffer_new d : M L E _).
Proof. apply keeps_call. intros. apply create_quiet. Qed.

Lemma keeps_convert a l0 conv src dst : keeps true (same_codec a l0) (convert conv src dst).
Proof.
  assert (∀ d ls y h d' ls', keeps true (same_codec a l0)
    (call (sws_scale (sws_context conv) d ls y h d' ls') : M L ConversionError Z)).
  { intros. apply keeps_call. intros. apply scale_quiet. }
  unfold convert. keeps_walk.
Qed.

Lemma keeps_converter a l0 ctx fmt :
  keeps true (same_codec a l0) (create_converter_from_context ctx fmt).
Proof.
  assert (∀ w h f w' h' f' flags, keeps true (same_codec a l0)
    (call (sws_getContext w h f w' h' f' flags) : M L SwConverterCreationError _)).
  { intros. apply keeps_call. intros. apply scaler_quiet. }
  unfold create_converter_from_context, SwConverter_new. keeps_walk.
Qed.

(** The same, for the whole state. *)
Definition codec_is (a : AVCodecContext) (l : L) (st : St) : Prop := same_codec a l st.1.2.

Lemma keeps_lib {E A} a l (m : M L E A) :
  keeps true (same_codec a l) m → keeps true (codec_is a l) (on_lib m).
Proof. intros Hm st Hst. apply wp_zoom. by apply Hm. Qed.

Lemma keeps_ses_field a l f {E} : keeps true (codec_is a l) (on_ses f : M St E unit).
Proof. apply keeps_modify. done. Qed.

Lemma keeps_events {E A} a l (m : M (K * EventQueue VideoDecoderBackendEvent) E A) :
  keeps true (codec_is a l) (on_events m).
Proof. intros st Hst. by apply wp_zoom, wp_any. Qed.

#[local] Hint Resolve keeps_frame_new keeps_buffer_new keeps_convert keeps_converter keeps_lib
  keeps_ses_field keeps_events keeps_in_frame : vmedia.

Lemma keeps_output_avframe a l size fmt used b :
  keeps true (codec_is a l) (output_avframe size fmt used b).
Proof. unfold output_avframe, AvFrame_builder. keeps_walk. Qed.

Lemma keeps_output a l : keeps true (codec_is a l) try_output_frame.
Proof.
  pose proof (keeps_output_avframe a l). unfold try_output_frame, output_frame_into, on_context,
    push_front_frame. keeps_walk.
Qed.

Lemma keeps_resolution a l c size rect : keeps true (codec_is a l) (change_resolution c size rect).
Proof. unfold change_resolution, update_converter, on_context. keeps_walk. Qed.

Lemma keeps_received a l c f : keeps true (codec_is a l) (frame_received c f).
Proof.
  pose proof (keeps_resolution a l c). unfold frame_received, frame_visible_rect, on_context.
  keeps_walk.
Qed.

(** ** The measure of a session *)

Definition drain_rank (d : DrainState) : nat :=
  match d with NoDrain => 0 | AwaitingFinalFrame => 1 | Initiated => 2 end.

(** Waiting jobs, then the drain, then what the codec can still return, then the
    output buffers that wait. *)
Definition measure (st : St) (c : Ctx) : nat * nat * nat * nat * nat :=
  (length (jobs c), drain_rank (drain_state c), if draining st.1.2 (av_context c) then 0 else 1,
   owed st.1.2 (av_context c), length (available_output_frames st.2))%nat.

Definition mless (m m' : nat * nat * nat * nat * nat) : Prop :=
  (m.1.1.1.1 < m'.1.1.1.1 ∨ (m.1.1.1.1 = m'.1.1.1.1 ∧
  (m.1.1.1.2 < m'.1.1.1.2 ∨ (m.1.1.1.2 = m'.1.1.1.2 ∧
  (m.1.1.2 < m'.1.1.2 ∨ (m.1.1.2 = m'.1.1.2 ∧
  (m.1.2 < m'.1.2 ∨ (m.1.2 = m'.1.2 ∧ m.2 < m'.2))))))))%nat.

Lemma mless_wf : well_founded mless.
Proof.
  intros [[[[a b] c] d] e]. revert b c d e. induction (lt_wf a) as [a _ IHa].
  intros b. induction (lt_wf b) as [b _ IHb]. intros c. induction (lt_wf c) as [c _ IHc].
  intros d. induction (lt_wf d) as [d _ IHd]. intros e. induction (lt_wf e) as [e _ IHe].
  constructor. intros [[[[a' b'] c'] d'] e'] Hm. unfold mless in Hm. cbn [fst snd] in Hm.
  destruct Hm as [?|[-> [?|[-> [?|[-> [?|[-> ?]]]]]]]]; auto.
Qed.

(** The state has a context with the codec, the jobs and the drain of [c]. *)
Definition like (c : Ctx) (st : St) : Prop :=
  ∃ c', context st.2 = Some c' ∧ av_context c' = av_context c ∧ jobs c' = jobs c ∧
    drain_state c' = drain_state c.

Lemma like_frames c f {E} :
  (∀ s : Ses, context (f s) = context s) → keeps true (like c) (on_ses f : M St E unit).
Proof. intros Hf. apply keeps_modify. intros st (c'&Hc&H). exists c'. cbn. by rewrite Hf. Qed.

Lemma like_context c f {E} :
  (∀ c' : Ctx, av_context (f c') = av_context c' ∧ jobs (f c') = jobs c' ∧
     drain_state (f c') = drain_state c') →
  keeps true (like c) (on_context f : M St E unit).
Proof.
  intros Hf. apply keeps_modify. intros st (c'&Hc&Ha&Hj&Hd). exists (f c'). cbn. rewrite Hc.
  destruct (Hf c') as (->&->&->). done.
Qed.

Lemma like_lib {E A} c (m : M L E A) : keeps true (like c) (on_lib m).
Proof. intros st Hst. by apply wp_zoom, wp_any. Qed.

Lemma like_events {E A} c (m : M (K * EventQueue VideoDecoderBackendEvent) E A) :
  keeps true (like c) (on_events m).
Proof. intros st Hst. by apply wp_zoom, wp_any. Qed.

#[local] Hint Resolve like_lib like_events : vmedia.
#[local] Hint Extern 1 (keeps true (like _) (on_ses _)) =>
  apply like_frames; intros; by repeat case_match : vmedia.
#[local] Hint Extern 1 (keeps true (like _) (on_context _)) => by apply like_context : vmedia.

Lemma like_received c c0 f : keeps true (like c) (frame_received c0 f).
Proof.
  unfold frame_received, frame_visible_rect, change_resolution, update_converter. keeps_walk.
Qed.

Lemma wp_receive {E} pn a f (Q : result (result _ AvError) E → St → Prop) (st : St) :
  (∀ l' f' ret, avcodec_receive_frame a f st.1.2 = (l', (f', ret)) →
     Q (Ok match receive_result ret with Ok x => Ok (f', x) | Err e => Err e end) (st.1.1, l', st.2)) →
  wp pn (on_lib (try_m (ctx_try_receive_frame a f))) Q st.
Proof.
  intros HQ. apply wp_zoom, wp_try. unfold ctx_try_receive_frame. apply wp_bind. unfold call, wp at 1.
  destruct (avcodec_receive_frame a f st.1.2) as [l' [f' ret]] eqn:Hr. cbn.
  specialize (HQ l' f' ret eq_refl). apply wp_bind. by destruct (receive_result ret).
Qed.

Lemma wp_flush {E} pn a (Q : result (result unit AvError) E → St → Prop) (st : St) :
  (∀ l' ret, avcodec_send_packet a None st.1.2 = (l', ret) →
     Q (Ok (AvError_result ret)) (st.1.1, l', st.2)) →
  wp pn (on_lib (try_m (flush_decoder a))) Q st.
Proof.
  intros HQ. apply wp_zoom, wp_try. unfold flush_decoder. apply wp_bind. unfold call, wp at 1.
  destruct (avcodec_send_packet a None st.1.2) as [l' ret] eqn:Hr. cbn.
  specialize (HQ l' ret eq_refl). by destruct (AvError_result ret).
Qed.

Lemma receive_received ret : receive_result ret = Ok Received → 0 ≤ ret.
Proof. unfold receive_result. repeat case_match; try done. lia. Qed.
Lemma receive_again ret : receive_result ret = Ok TryAgain → ret = AVERROR_EAGAIN.
Proof. unfold receive_result. repeat case_match; try done. lia. Qed.
Lemma receive_error ret e : receive_result ret = Err (mkAvError e) → ret = e.
Proof. unfold receive_result. repeat case_match; try done. by intros [= ->]. Qed.

Definition mle (m m' : nat * nat * nat * nat * nat) : Prop := m = m' ∨ mless m m'.

Lemma mless_trans m1 m2 m3 : mless m1 m2 → mless m2 m3 → mless m1 m3.
Proof. unfold mless. lia. Qed.
Lemma mle_less m1 m2 m3 : mle m2 m3 → mless m1 m2 → mless m1 m3.
Proof. intros [->|?] ?; [done|]. by eapply mless_trans. Qed.

(** What receiving does to the measure. *)
Definition measured {E} (st : St) (c : Ctx) (r : result bool E) (st' : St) : Prop :=
  match r with
  | Ok true => ∃ c', context st'.2 = Some c' ∧ mless (measure st' c') (measure st c)
  | Ok false => mle (measure (st'.1, st.2) c) (measure st c)
  | Err _ => True
  end.

(** A codec that owes less, for the same context and session. *)
Lemma mle_owed (k k' : K) (l l' : L) (s : Ses) c :
  draining l' (av_context c) = draining l (av_context c) →
  (owed l' (av_context c) ≤ owed l (av_context c))%nat →
  mle (measure (k', l', s) c) (measure (k, l, s) c).
Proof.
  intros Hd Ho. unfold mle, mless, measure. cbn [fst snd]. rewrite Hd.
  destruct (decide (owed l' (av_context c) = owed l (av_context c))) as [->|]; [by left|right; lia].
Qed.

Lemma mless_like (k : K) (l : L) (s : Ses) (st' : St) c :
  like c st' → draining st'.1.2 (av_context c) = draining l (av_context c) →
  (owed st'.1.2 (av_context c) < owed l (av_context c))%nat →
  ∃ c', context st'.2 = Some c' ∧ mless (measure st' c') (measure (k, l, s) c).
Proof.
  intros (c'&Hc&Ha&Hj&Hd) Hdr Ho. exists c'. split; [done|]. unfold mless, measure. cbn [fst snd].
  rewrite Ha, Hj, Hd, Hdr. lia.
Qed.

Lemma receive_measured fuel (st : St) c :
  context st.2 = Some c → wp true (try_receive_frame fuel) (measured st c) st.
Proof.
  destruct st as [[k l] s]. cbn [snd]. intros Hc. revert k l.
  induction fuel as [|fuel IH]; intros k l; [done|]. cbn [try_receive_frame].
  apply wp_bind, wp_get_st, wp_bind, wp_ok_or; [|done]. cbn [snd]. rewrite Hc. intros c' [= <-].
  destruct (avframe c) eqn:Hf; [by apply wp_ret; left|]. set (a := av_context c).
  apply wp_bind, wp_zoom. eapply wp_mono; [|apply keeps_map_err with (P := same_codec a l);
    [apply keeps_frame_new|by split]].
  intros [frame|] l1 [Hd1 Ho1]; [|done]. apply wp_bind, wp_receive.
  intros l2 f2 ret Hr. cbn [fst snd] in Hr |- *. pose proof Hr as Hk.
  apply receive_keeps_draining in Hk. pose proof Hr as [Hle Hlt]%receive_owed.
  rewrite Hd1 in Hk. rewrite Ho1 in Hle, Hlt.
  destruct (receive_result ret) as [[| |]|[e]] eqn:Hres.
  - apply receive_received in Hres. specialize (Hlt (or_introl Hres)).
    eapply wp_mono, wp_and; [|apply like_received; by exists c
      |apply (keeps_received a l2); by split].
    intros [[|]|] [[k3 l3] s3] [Hl [Hd2 Ho2]]; cbn [measured fst snd] in *; [| |done].
    + apply (mless_like k l s (k3, l3, s3)); [done|cbn [fst snd]; fold a..]; [congruence|lia].
    + apply mle_owed; fold a; [congruence|lia].
  - apply receive_again in Hres. case_bool_decide as Hdr.
    2:{ apply wp_ret, mle_owed; fold a; [congruence|lia]. }
    apply wp_bind, wp_flush. intros l3 ret3 Hfl. unfold AvError_result.
    destruct (Z.leb_spec 0 ret3) as [Hpos|_]; [|by apply wp_bind, wp_modify, wp_throw].
    apply flush_drains in Hfl; [|done].
    assert (draining l a = false) as Hnd.
    { destruct (draining l a) eqn:Hda; [|done].
      by destruct (receive_when_draining _ _ _ _ _ _ Hd1 Hr). }
    assert (mless (measure (k, l3, s) c) (measure (k, l, s) c)) as Hless.
    { unfold mless, measure. cbn [fst snd]. fold a. rewrite Hfl, Hnd. lia. }
    eapply wp_mono, IH. intros [[|]|] st'; cbn [measured]; [|intros Hm; right|done].
    + intros (c'&Hc'&Hm). exists c'. split; [done|]. by eapply mless_trans.
    + cbn [fst snd] in *. destruct Hm as [->|Hm]; [done|by eapply mless_trans].
  - case_bool_decide as Hdr.
    + apply wp_bind, wp_modify, wp_ret. cbn [measured fst snd]. rewrite Hc. eexists.
      split; [done|]. unfold mless, measure. cbn [fst snd fmap option_fmap set_drain_state jobs drain_state].
      rewrite Hdr. cbn. lia.
    + apply wp_ret, mle_owed; fold a; [congruence|lia].
  - apply receive_error in Hres. subst ret. destruct (Z.eqb_spec e AVERROR_INVALIDDATA); [|done].
    apply wp_ret, (mless_like k l s (k, l2, s)); [by exists c|done|]. cbn [fst snd]. fold a.
    apply Hlt. by right.
Qed.

Lemma output_measured (k k' : K) (l l' : L) (s s' : Ses) c :
  decoder_step s c POutput s' → same_codec (av_context c) l l' →
  ∃ c', context s' = Some c' ∧ mless (measure (k', l', s') c') (measure (k, l, s) c).
Proof.
  intros Hs [Hd Ho]. inversion Hs as [| | | | | |f b rest used Hdr Hf Hfr|b rest Hdr Hf Hfr]; subst;
    (eexists; split; [done|]); unfold mless, measure; cbn; rewrite Hfr, ?Hd, ?Ho, ?Hdr; cbn; lia.
Qed.

Lemma send_measured (k k' : K) (l l' : L) (s s' : Ses) c :
  decoder_step s c PSend s' →
  ∃ c', context s' = Some c' ∧ mless (measure (k', l', s') c') (measure (k, l, s) c).
Proof.
  inversion 1 as [p i rest Hj|rest Hj| | | | | |]; subst; (eexists; split; [done|]);
    unfold mless, measure; cbn; rewrite Hj; cbn; lia.
Qed.

(** A round that asks for another one makes the measure smaller. *)
Lemma round_measured fuel (st : St) c :
  context st.2 = Some c →
  wp true (decode_round fuel) (λ r st', match r with
    | Ok true => ∃ c', context st'.2 = Some c' ∧ mless (measure st' c') (measure st c)
    | _ => True end) st.
Proof.
  destruct st as [[k l] s]. intros Hc. unfold decode_round. apply wp_bind, wp_map_err.
  eapply wp_mono, wp_and; [|by apply output_steps|apply (keeps_output (av_context c) l); by split].
  intros [[|]|] [[k1 l1] s1] [H1 Hl1]; [| |done].
  { destruct H1 as (q&<-&H1). by apply output_measured. }
  cbn in H1. subst s1. apply wp_bind, wp_map_err.
  eapply wp_mono, wp_and; [|by apply receive_steps|by apply receive_measured].
  assert (measure (k1, l1, s) c = measure (k, l, s) c) as <-.
  { destruct Hl1 as [Hd Ho]. unfold measure. cbn [fst snd] in *. by rewrite Hd, Ho. }
  intros [[|]|] [[k2 l2] s2] [H2 Hm]; [done| |done]. cbn in H2. subst s2.
  apply wp_map_err. eapply wp_mono, send_steps; [|done].
  intros [[|]|] [[k3 l3] s3] H3; [|done..]. destruct H3 as (q&<-&H3).
  destruct (send_measured k2 k3 l2 l3 s s3 c H3) as (c'&Hc'&Hm'). exists c'. split; [done|].
  by eapply mle_less.
Qed.
End Laws.

(** ** No panics

    In a build without overflow checks. *)

Section NoPanic.
#[local] Instance no_checks : BuildMode := false.
Context {AU : Avutil}.
Context {K L : Type} `{!Kernel K} `{!EventFd K} `{LA : !Libav L}.
Context `{CL : !CodecLaws L} `{SL : !SizeLaws L}.
Abbreviation Ses := (FfmpegDecoderSession (LA := LA)).
Abbreviation St := (K * L * Ses)%type.
Abbreviation Ctx := (DecodingContext (LA := LA)).

Definition is_dim (z : Z) : Prop := 0 < z ≤ 0x7fffffff.

(** Output buffers have a plane, and their size is that of an image. *)
Definition good (s : Ses) : Prop :=
  is_dim (capture_size s).1 ∧ is_dim (capture_size s).2 ∧
  Forall (λ b, planes b ≠ []) (available_output_frames s).
Definition good_st (st : St) : Prop := good st.2.

Lemma as_u32_dim z : is_dim z → as_u32 z = z.
Proof. unfold is_dim. intros. apply as_u32_id. mlia. Qed.

Lemma u64_op_ret max z : ∃ v, unsigned_op max z = Ret v.
Proof. unfold unsigned_op. cbn. case_match; eauto. Qed.

Lemma usize_sum_ret l : ∃ v, usize_sum l = Ret v.
Proof.
  unfold usize_sum. generalize 0. induction l as [|x l IH]; intros acc; cbn; [by eauto|].
  unfold u64_add. destruct (u64_op_ret u64_max (acc + x)) as [v ->]. apply IH.
Qed.

(** Library calls return, and do not touch the session. *)
Lemma call_returns {E A} (f : lib L A) : keeps false (λ _ : L, True) (call f : M L E A).
Proof. by intros l _. Qed.
#[local] Hint Resolve call_returns : vmedia.

Lemma lib_returns {E A} (m : M L E A) :
  keeps false (λ _, True) m → keeps false good_st (on_lib m).
Proof. intros Hm st Hst. apply wp_zoom. eapply wp_mono, Hm; done. Qed.

Lemma events_return {E} e (f : Z → E) :
  keeps false good_st (map_err f (on_events (queue_event e))).
Proof. intros st Hst. by apply wp_map_err, wp_post. Qed.

Lemma context_good f {E} : keeps false good_st (on_context f : M St E unit).
Proof. by apply keeps_modify. Qed.
#[local] Hint Resolve lib_returns events_return context_good : vmedia.

Lemma send_packet_returns a p : keeps false (λ _, True) (try_send_packet a p).
Proof. unfold try_send_packet. keeps_walk. Qed.
Lemma flush_returns a : keeps false (λ _, True) (flush_decoder a).
Proof. unfold flush_decoder. keeps_walk. Qed.
Lemma frame_new_returns : keeps false (λ _, True) AvFrame_new.
Proof. unfold AvFrame_new. keeps_walk. Qed.
Lemma buffer_new_returns {E} `{AvBufferSource D} (d : D) :
  keeps false (λ _, True) (AvBuffer_new d : M L E _).
Proof. unfold AvBuffer_new. keeps_walk. Qed.
Lemma converter_returns a fmt : keeps false (λ _, True) (create_converter_from_context a fmt).
Proof. unfold create_converter_from_context, SwConverter_new. keeps_walk. Qed.
Lemma convert_returns conv src dst : keeps false (λ _, True) (convert conv src dst).
Proof. unfold convert. keeps_walk. Qed.
#[local] Hint Resolve send_packet_returns flush_returns frame_new_returns buffer_new_returns
  converter_returns convert_returns : vmedia.

Lemma send_returns : keeps false good_st try_send_input_job.
Proof. unfold try_send_input_job. keeps_walk. Qed.

Lemma resolution_returns c size rect :
  is_dim size.1 → is_dim size.2 → keeps false good_st (change_resolution c size rect).
Proof.
  intros Hw Hh. unfold change_resolution, update_converter.
  apply keeps_bind; [by apply keeps_modify|intros _]. apply keeps_bind; [|intros _].
  { apply keeps_modify. intros st (Hcw&Hch&Hfr). unfold good_st. cbn. case_match; by split_and!. }
  apply keeps_bind; [apply keeps_get_st|intros st]. apply keeps_bind; [keeps_walk|intros _].
  apply keeps_bind; [|intros _; keeps_walk]. apply keeps_modify. intros st' (Hcw&Hch&_). split_and!; [done..|].
  constructor.
Qed.

Lemma received_returns c f :
  is_dim (f_width f) → is_dim (f_height f) → keeps false good_st (frame_received c f).
Proof.
  intros Hw Hh. unfold frame_received, frame_visible_rect, u64_sub.
  destruct (u64_op_ret u64_max (f_crop_right f - f_crop_left f)) as [w ->].
  destruct (u64_op_ret u64_max (f_crop_bottom f - f_crop_top f)) as [h ->].
  apply keeps_bind; [cbn; keeps_walk|intros rect]. apply keeps_bind; [apply keeps_get_st|intros st].
  apply keeps_bind; [|intros _; keeps_walk]. case_match; [|keeps_walk].
  apply resolution_returns; cbn; by rewrite as_u32_dim.
Qed.

(** Two calls are enough, and one if the codec drains. *)
Lemma receive_returns pn fuel (st : St) c :
  context st.2 = Some c → good_st st →
  pn = true ∨ (2 ≤ fuel)%nat ∨ ((1 ≤ fuel)%nat ∧ draining st.1.2 (av_context c) = true) →
  wp pn (try_receive_frame fuel) (λ _ st', good_st st') st.
Proof.
  destruct st as [[k l] s]. cbn [fst snd]. intros Hc Hg. revert k l Hg.
  induction fuel as [|fuel IH]; intros k l Hg Hfuel.
  { destruct Hfuel as [->|[?|[? _]]]; [done|lia..]. }
  cbn [try_receive_frame].
  apply wp_bind, wp_get_st, wp_bind, wp_ok_or; [|done]. cbn [snd]. rewrite Hc. intros c' [= <-].
  destruct (avframe c) eqn:Hf; [by apply wp_ret|]. set (a := av_context c) in *.
  apply wp_bind, wp_zoom. apply (wp_panic_mono false); [done|].
  eapply wp_mono; [|apply wp_and_no_panic;
    [apply keeps_map_err with (P := same_codec a l); [apply keeps_frame_new|by split]
    |apply keeps_map_err with (P := λ _ : L, True); [apply frame_new_returns|done]]].
  intros [frame|] l1 [[Hd1 _] _]; [|done]. apply wp_bind, wp_receive.
  intros l2 f2 ret Hr. cbn [fst snd] in Hr |- *.
  destruct (receive_result ret) as [[| |]|[e]] eqn:Hres.
  - apply receive_received in Hres. destruct (received_size _ _ _ _ _ _ Hr Hres).
    apply (wp_panic_mono false); [done|]. by apply received_returns.
  - apply receive_again in Hres. case_bool_decide; [|done].
    apply wp_bind, wp_flush. intros l3 ret3 Hfl. unfold AvError_result.
    destruct (Z.leb_spec 0 ret3); [|by apply wp_bind, wp_modify, wp_throw].
    apply flush_drains in Hfl; [|done]. destruct Hfuel as [->|[?|[_ Hdr]]].
    + apply IH; [done|by left].
    + apply IH; [done|]. right. right. split; [lia|done].
    + rewrite <-Hd1 in Hdr. by destruct (receive_when_draining _ _ _ _ _ _ Hdr Hr).
  - case_bool_decide; [|done]. by apply wp_bind, wp_modify, wp_ret.
  - by case_match.
Qed.

(** *** Output *)

Lemma wp_in_frame {S E E' A} pn (m : M AvFrame E A) (wrap : E → E') f f' r
    (Q : result (AvFrame * A) E' → S → Prop) s :
  m f = Ret (f', r) →
  match r with Ok a => Q (Ok (f', a)) s | Err e => Q (Err (wrap e)) s end →
  wp pn (in_frame m wrap f) Q s.
Proof. intros Hm HQ. unfold in_frame. rewrite Hm. apply wp_bind, wp_ret. by destruct r. Qed.

Lemma wp_frame_alloc pn (Q : result AvFrame AvFrameError → St → Prop) (st : St) :
  (∀ l' f, length (f_data f) = 8%nat → length (f_linesize f) = 8%nat → length (f_buf f) = 8%nat →
     Q (Ok f) (st.1.1, l', st.2)) →
  (∀ l', Q (Err FrameAllocationFailed) (st.1.1, l', st.2)) →
  wp pn (on_lib AvFrame_builder) Q st.
Proof.
  intros Hok Herr. apply wp_zoom. unfold AvFrame_builder, AvFrame_new. apply wp_bind.
  unfold call, wp at 1. destruct (av_frame_alloc st.1.2) as [l' [f|]] eqn:Ha; cbn; [|apply Herr].
  apply alloc_arrays in Ha as (?&?&?). by apply Hok.
Qed.

Lemma set_dimensions_ok w h f :
  is_dim w → is_dim h →
  set_dimensions (mkDimensions w h) f = Ret (set_height h (set_width w f), Ok tt).
Proof.
  intros [??] [??]. unfold set_dimensions, try_into_i32, guard_err, mbind, M_bind. cbn [d_width d_height].
  replace (0x7fffffff <? w) with false by lia. cbn [mret M_ret modify].
  by replace (0x7fffffff <? h) with false by lia.
Qed.

Lemma build_owned_returns buf p q f a b :
  length (f_data f) = 8%nat → length (f_linesize f) = 8%nat → length (f_buf f) = 8%nat →
  plane_sizes (f_format f) [as_u32 (stride p); as_u32 (stride q)] (d_height (dimensions f)) = [a; b] →
  plane_named [buf] p a → plane_named [buf] q b →
  ∃ f' r, build_owned [buf] [p; q] f = Ret (f', r).
Proof.
  intros Hd Hl Hb Hs Hp Hq.
  destruct (build_owned_spec [buf] [p; q] [a; b] f) as [(_&_&f'&->&_)|(_&f'&e&->)]; eauto.
  all: cbn; lia.
Qed.

Lemma output_avframe_returns (st : St) b :
  good_st st → planes b ≠ [] →
  let s := st.2 in
  let fmt := AvPixelFormat_from (output_format s) in
  wp false (output_avframe (capture_size s) fmt
    (plane_sizes fmt [(capture_size s).1; (capture_size s).1] (capture_size s).2) b)
    (λ _ st', good_st st') st.
Proof.
  intros Hg Hb s fmt. destruct Hg as (Hw&Hh&Hfr). fold s in Hw, Hh, Hfr.
  assert (fmt = AV_PIX_FMT_NV12) as -> by (unfold fmt; by destruct (output_format s)).
  assert (∀ l, good_st (st.1.1, l, s)) as Hgl by (by intros).
  destruct (nv12_sizes (capture_size s).1 (capture_size s).1 (capture_size s).2) as (a0&b0&Hsz&Ha0&Hb0);
    [unfold is_dim in *; mlia..|]. rewrite Hsz.
  unfold output_avframe. apply wp_bind, wp_map_err, wp_frame_alloc; [|done].
  intros l1 f Hda Hli Hbu. apply wp_bind. eapply wp_in_frame; [by apply set_dimensions_ok|].
  apply wp_bind. eapply wp_in_frame; [done|]. apply wp_bind, wp_ret, wp_bind.
  destruct (planes b) as [|m ms]; [done|]. apply wp_ret, wp_bind.
  eapply wp_mono; [|apply lib_returns; [apply buffer_new_returns|done]].
  intros [[buf|]|] st2 Hg2; [|done..]. apply wp_bind, wp_ret, wp_bind.
  set (l0 := as_u32 (line_size AV_PIX_FMT_NV12 (capture_size s).1 0)).
  set (l1' := as_u32 (line_size AV_PIX_FMT_NV12 (capture_size s).1 1)).
  destruct (nv12_sizes l0 l1' (capture_size s).2) as (a1&b1&Hsz1&Ha1&Hb1);
    [apply as_u32_range..|done|].
  destruct (build_owned_returns buf
    (mkPlaneDescriptor 0 0 (line_size AV_PIX_FMT_NV12 (capture_size s).1 0))
    (mkPlaneDescriptor 0 a0 (line_size AV_PIX_FMT_NV12 (capture_size s).1 1))
    (set_frame_format AV_PIX_FMT_NV12
      (set_height (capture_size s).2 (set_width (capture_size s).1 f))) a1 b1) as (f'&r&Hbuild);
    [done..| | | |eapply wp_in_frame; [exact Hbuild|by destruct r]].
  - unfold dimensions. cbn. rewrite (as_u32_dim (capture_size s).2) by done. exact Hsz1.
  - unfold plane_named. cbn. mlia.
  - unfold plane_named. cbn. mlia.
Qed.

Lemma output_returns (st : St) :
  good_st st → wp false try_output_frame (λ _ st', good_st st') st.
Proof.
  destruct st as [[k l] s]. intros Hg. unfold try_output_frame.
  apply wp_bind, wp_get_st, wp_bind, wp_ok_or; [|done]. intros c Hc. cbn [snd].
  destruct (available_output_frames s) as [|b rest] eqn:Hfr; [by apply wp_ret|].
  pose proof Hg as (Hw&Hh&Hf). cbn [snd] in Hf. rewrite Hfr in Hf. apply Forall_cons in Hf as [Hb Hf].
  assert (good (set_frames rest s)) as Hg1 by (by split_and!).
  apply wp_bind, wp_modify. cbn [fst snd]. destruct (bool_decide _), (avframe c) as [f|].
  - apply wp_bind, wp_modify, wp_ret. split_and!; [done..|]. by constructor.
  - apply wp_bind, wp_modify. apply wp_bind. eapply wp_mono, events_return; [|done]. by intros [[]|].
  - apply wp_bind, wp_modify. unfold output_frame_into. apply wp_bind, wp_get_st, wp_bind.
    eapply wp_mono, output_avframe_returns; [|done..]. intros [dst|] st2 Hg2; [|done].
    apply wp_bind. eapply wp_mono, keeps_map_err, Hg2; [|apply lib_returns, convert_returns].
    intros [[]|] st3 Hg3; [|done]. apply wp_bind. destruct (usize_sum_ret (plane_sizes
      (AvPixelFormat_from (output_format s)) [(capture_size s).1; (capture_size s).1]
      (capture_size s).2)) as [used Hu]. cbn [output_format capture_size fst snd] in *.
    eapply wp_lift_outcome; [exact Hu|]. apply wp_bind.
    eapply wp_mono, events_return; [|exact Hg3]. by intros [[]|].
  - apply wp_bind, wp_modify, wp_ret. split_and!; [done..|]. by constructor.
Qed.

(** *** Enough fuel *)

(** Two functions agree where the results of the first can occur. *)
Lemma bind_ext {S E A B} (m : M S E A) (f g : A → M S E B) s :
  wp true m (λ r s', match r with Ok a => f a s' = g a s' | Err _ => True end) s →
  (m ≫= f) s = (m ≫= g) s.
Proof. unfold wp, mbind, M_bind. by destruct (m s) as [[s' [a|e]]|]. Qed.

(** [try_receive_frame] calls itself at most once. *)
Lemma receive_fuel n (st : St) c :
  context st.2 = Some c →
  (draining st.1.2 (av_context c) = true → try_receive_frame (S n) st = try_receive_frame 1 st) ∧
  try_receive_frame (S (S n)) st = try_receive_frame 2 st.
Proof.
  destruct st as [[k l] s]. cbn [fst snd]. intros Hc.
  (* One call, when the recursive calls agree wherever they can happen. *)
  assert (∀ i j k l, (∀ k' l', (draining l (av_context c) = false ∧ draining l' (av_context c) = true) →
    try_receive_frame i (k', l', s) = try_receive_frame j (k', l', s)) →
    try_receive_frame (S i) (k, l, s) = try_receive_frame (S j) (k, l, s)) as Hone.
  { clear k l. intros i j k l Hrec. cbn [try_receive_frame].
    apply bind_ext, wp_get_st, bind_ext, wp_ok_or; [|done]. cbn [snd]. rewrite Hc. intros c' [= <-].
    destruct (avframe c); [done|]. set (a := av_context c) in *.
    apply bind_ext, wp_zoom. eapply wp_mono; [|apply keeps_map_err with (P := same_codec a l);
      [apply keeps_frame_new|by split]]. intros [frame|] l1 [Hd1 _]; [|done].
    apply bind_ext, wp_receive. intros l2 f2 ret Hr. cbn [fst snd] in Hr |- *.
    destruct (receive_result ret) as [[| |]|[e]] eqn:Hres; [done| |done..].
    apply receive_again in Hres. case_bool_decide; [|done].
    apply bind_ext, wp_flush. intros l3 ret3 Hfl. unfold AvError_result.
    destruct (Z.leb_spec 0 ret3); [|done]. apply flush_drains in Hfl; [|done].
    apply Hrec. split; [|done]. destruct (draining l a) eqn:Hda; [|done].
    by destruct (receive_when_draining _ _ _ _ _ _ Hd1 Hr). }
  split.
  - intros Hd. apply Hone. intros k' l' [Hnd _]. congruence.
  - apply Hone. intros k' l' [_ Hd]. apply Hone. intros k'' l'' [Hnd _]. congruence.
Qed.

Lemma round_fuel n (st : St) c :
  context st.2 = Some c → decode_round (S (S n)) st = decode_round 2 st.
Proof.
  intros Hc. unfold decode_round. apply bind_ext, wp_map_err. eapply wp_mono, output_steps; [|done].
  intros [[|]|] st1 H1; [done| |done]. cbn in H1. unfold mbind, M_bind, map_err.
  rewrite <-H1 in Hc. by rewrite (proj2 (receive_fuel n st1 c Hc)).
Qed.

Lemma round_returns (st : St) c :
  context st.2 = Some c → good_st st →
  wp false (decode_round 2) (λ r st', match r with
    | Ok true => ∃ c', context st'.2 = Some c' ∧ mless (measure st' c') (measure st c)
    | _ => True end ∧ good_st st') st.
Proof.
  intros Hc Hg. apply wp_and_no_panic; [by apply round_measured|].
  unfold decode_round. apply wp_bind, wp_map_err.
  eapply wp_mono; [|apply wp_and_no_panic; [by apply output_steps|by apply output_returns]].
  intros [[|]|] st1 [H1 Hg1]; [done| |done]. cbn in H1. rewrite <-H1 in Hc.
  apply wp_bind, wp_map_err. eapply wp_mono; [|by eapply receive_returns; eauto].
  intros [[|]|] st2 Hg2; [done| |done]. apply wp_map_err. eapply wp_mono, send_returns; [|done].
  by intros [].
Qed.

(** Whatever the fuel, a computation that returns leaves a good session. *)
Lemma round_good fuel : keeps true good_st (decode_round fuel).
Proof.
  intros st Hg. unfold decode_round. apply wp_bind, wp_map_err, (wp_panic_mono false); [done|].
  eapply wp_mono, output_returns, Hg. intros [[|]|] st1 Hg1; [done| |done].
  apply wp_bind, wp_map_err. eapply (wp_mono _ _ (λ _ st', good_st st')).
  - intros [[|]|] st2 Hg2; [done| |done]. apply wp_map_err, (wp_panic_mono false); [done|].
    by apply send_returns.
  - destruct (context st1.2) as [c|] eqn:Hc; [by eapply receive_returns; eauto|].
    destruct fuel; [done|]. cbn [try_receive_frame]. apply wp_bind, wp_get_st. rewrite Hc.
    by apply wp_bind.
Qed.

Lemma try_decode_good {E} (g : TryDecodeError → E) fuel :
  keeps true good_st (map_err g (try_decode fuel)).
Proof.
  assert (∀ n, keeps true good_st (decode_loop n)) as Hloop.
  { induction n as [|n IH]; [by apply keeps_panic|]. cbn [decode_loop].
    apply keeps_bind; [apply round_good|]. intros []; [done|apply keeps_ret]. }
  unfold try_decode. keeps_walk.
Qed.

(** With enough fuel, the computation returns, and always the same. *)
Definition eventually {S E A} (f : nat → M S E A) (Q : result A E → S → Prop) (s : S) : Prop :=
  ∃ n s' r, Q r s' ∧ ∀ m, (n ≤ m)%nat → f m s = Ret (s', r).

Lemma eventually_wp {S E A} (f : M S E A) Q (s : S) : wp false f Q s → eventually (λ _, f) Q s.
Proof. unfold wp. destruct (f s) as [[s' r]|] eqn:Hf; [|done]. intros HQ. by exists 0%nat, s', r. Qed.

Lemma eventually_const {S E A} (f : nat → M S E A) Q (s : S) :
  (∀ m, f m s = f 0%nat s) → wp false (f 0%nat) Q s → eventually f Q s.
Proof.
  intros Hf. unfold wp. destruct (f 0%nat s) as [[s' r]|] eqn:H0; [|done]. intros HQ.
  exists 0%nat, s', r. split; [done|]. intros m _. by rewrite Hf.
Qed.

Lemma eventually_bind {S E A B} (f : nat → M S E A) (g : nat → A → M S E B) Q (s : S) :
  eventually f (λ r s', match r with
    | Ok a => eventually (λ m, g m a) Q s' | Err e => Q (Err e) s' end) s →
  eventually (λ m, f m ≫= g m) Q s.
Proof.
  intros (n&s1&[a|e]&HQ&Hf).
  - destruct HQ as (n'&s2&r&HQ&Hg). exists (n `max` n')%nat, s2, r. split; [done|].
    intros m Hm. unfold mbind, M_bind. by rewrite Hf, Hg by lia.
  - exists n, s1, (Err e). split; [done|]. intros m Hm. unfold mbind, M_bind. by rewrite Hf by lia.
Qed.

Lemma eventually_mono {S E A} (f : nat → M S E A) (Q Q' : result A E → S → Prop) s :
  (∀ r s', Q r s' → Q' r s') → eventually f Q s → eventually f Q' s.
Proof. intros HQ (n&s'&r&H&Hf). exists n, s', r. auto. Qed.

Lemma loop_returns (st : St) c :
  context st.2 = Some c → good_st st → eventually decode_loop (λ _ st', good_st st') st.
Proof.
  remember (measure st c) as ms eqn:Hm. revert st c Hm.
  induction (mless_wf ms) as [ms _ IH]. intros st c -> Hc Hg.
  pose proof (round_returns st c Hc Hg) as Hr. unfold wp in Hr.
  assert (∀ m, (2 ≤ m)%nat → decode_round m st = decode_round 2 st) as Hm.
  { intros [|[|m]] ?; [lia..|]. by eapply round_fuel. }
  destruct (decode_round 2 st) as [[st1 [[|]|e]]|] eqn:Hround; [| | |done]; destruct Hr as [Hr Hg1].
  - destruct Hr as (c1&Hc1&Hless). destruct (IH _ Hless st1 c1 eq_refl Hc1 Hg1) as (n&st'&r&Hg'&Hn).
    exists (S (S n)), st', r. split; [done|]. intros [|m] Hle; [lia|].
    cbn [decode_loop]. unfold mbind, M_bind. rewrite Hm by lia. apply Hn. lia.
  - exists 2%nat, st1, (Ok tt). split; [done|]. intros [|m] Hle; [lia|].
    cbn [decode_loop]. unfold mbind, M_bind. by rewrite Hm by lia.
  - exists 2%nat, st1, (Err e). split; [done|]. intros [|m] Hle; [lia|].
    cbn [decode_loop]. unfold mbind, M_bind. by rewrite Hm by lia.
Qed.

Lemma try_decode_returns {E} (g : TryDecodeError → E) (st : St) :
  good_st st → eventually (λ m, map_err g (try_decode m)) (λ _ st', good_st st') st.
Proof.
  intros Hg. assert (eventually try_decode (λ _ st', good_st st') st) as (n&st'&r&Hg'&Hn).
  { unfold try_decode. apply eventually_bind, eventually_wp, wp_get_st.
    destruct (context st.2) eqn:Hc; [by eapply loop_returns|by apply eventually_wp]. }
  exists n, st', match r with Ok a => Ok a | Err e => Err (g e) end. split; [done|].
  intros m Hm. unfold map_err. rewrite Hn by done. by destruct r.
Qed.

(** *** All the operations *)

Lemma syscall_returns {A} (f : sys K A) : keeps false (λ _ : K, True) (syscall f).
Proof. intros k _. unfold wp, syscall. by destruct (f k). Qed.

Lemma os_returns {E A} (m : M K E A) : keeps false (λ _, True) m → keeps false good_st (on_os m).
Proof. intros Hm st Hst. apply wp_zoom. eapply wp_mono, Hm; done. Qed.

Lemma read_exact_returns fd n : keeps false (λ _ : K, True) (read_exact fd n).
Proof.
  unfold read_exact. generalize n at 1 as fuel. generalize (@nil byte) as bs.
  intros bs fuel. revert n bs. induction fuel as [|fuel IH]; intros [|n] bs; cbn [read_exact_loop];
    [apply keeps_ret|apply keeps_throw|apply keeps_ret|].
  apply keeps_bind; [apply keeps_map_err, syscall_returns|]. intros [|x l]; [apply keeps_throw|apply IH].
Qed.

Lemma context_new_returns codec fmt size : keeps false (λ _ : L, True) (DecodingContext_new codec fmt size).
Proof.
  unfold DecodingContext_new, build_decoder, alloc_context, set_initial_format, build, init. keeps_walk.
Qed.

Lemma mmap_returns b : keeps false (λ _ : K, True) (MemFdBuffer_mmap b).
Proof.
  pose proof (@syscall_returns). unfold MemFdBuffer_mmap. keeps_walk.
Qed.
#[local] Hint Resolve syscall_returns os_returns read_exact_returns context_new_returns
  mmap_returns keeps_mapM : vmedia.

(** The client offers output buffers that have a plane. *)
Definition op_ok (op : session_op) : Prop :=
  match op with OpUseAsOutput _ b => fds b ≠ [] | _ => True end.

Lemma i64_add_ret a b : ∃ v, i64_add a b = Ret v.
Proof. unfold i64_add. cbn. case_match; eauto. Qed.

Lemma input_packet_returns input ts used : keeps false good_st (input_packet input ts used).
Proof.
  unfold input_packet. destruct (i64_add_ret (as_i64 (tv_sec ts * 1000000)) (tv_usec ts)) as [v ->].
  cbn [lift_outcome]. keeps_walk.
Qed.

Lemma ensure_context_returns : keeps false good_st ensure_context.
Proof. unfold ensure_context. keeps_walk. Qed.

Lemma use_as_output_returns i b (st : St) :
  fds b ≠ [] → good_st st → wp false (use_as_output i b) (λ _ st', good_st st') st.
Proof.
  intros Hb Hg. unfold use_as_output. apply wp_bind, wp_get_st. case_match; [by apply wp_ret|].
  apply wp_bind, wp_map_err, wp_zoom. eapply wp_mono, (wp_mapM _ (λ _, True) (λ _ _, True)); [|done|].
  - intros [ps|] k [_ Hps]; [|done]. apply wp_modify. destruct Hg as (Hw&Hh&Hf).
    split_and!; [done..|]. cbn. apply Forall_app. split; [done|]. constructor; [|constructor]. cbn.
    by destruct Hps.
  - intros a k _ _. eapply wp_mono, mmap_returns; [|done]. by intros [].
Qed.

Lemma decode_returns input i ts used (st : St) :
  good_st st → eventually (λ m, decode m input i ts used) (λ _ st', good_st st') st.
Proof.
  intros Hg. unfold decode. apply eventually_bind, eventually_wp.
  eapply wp_mono, ensure_context_returns, Hg. intros [[]|] st1 Hg1; [|done].
  apply eventually_bind, eventually_wp. eapply wp_mono, input_packet_returns, Hg1.
  intros [p|] st2 Hg2; [|done]. apply eventually_bind, eventually_wp, wp_modify.
  by apply try_decode_returns.
Qed.

Lemma drain_returns (st : St) : good_st st → eventually drain (λ _ st', good_st st') st.
Proof.
  intros Hg. unfold drain. apply eventually_bind, eventually_wp, wp_get_st.
  destruct (context st.2); [|by apply eventually_wp].
  apply eventually_bind, eventually_wp, wp_modify. by apply try_decode_returns.
Qed.

Lemma op_returns op (st : St) :
  op_ok op → good_st st →
  eventually (λ m, run_session_op m op) (λ _ st', good_st st') st.
Proof.
  intros Hop Hg. destruct op as [input i ts used|i b| | | |dir b]; cbn [run_session_op op_ok] in *.
  - apply eventually_bind. eapply eventually_mono, decode_returns, Hg.
    intros [[]|] st3 Hg3; [by apply eventually_wp|done].
  - apply eventually_wp, wp_bind. eapply wp_mono, use_as_output_returns; [|done..]. by intros [[]|].
  - apply eventually_bind. eapply eventually_mono, drain_returns, Hg.
    intros [[]|] st3 Hg3; [by apply eventually_wp|done].
  - apply eventually_wp, wp_bind. unfold clear_output_buffers. apply wp_bind, wp_modify, wp_retain.
    intros k. destruct Hg as (Hw&Hh&_). apply wp_ret. split_and!; [done..|]. constructor.
  - apply eventually_wp, wp_next_event; [done|]. by intros k e es _.
  - apply eventually_wp, wp_bind, wp_modify, wp_ret. unfold good_st. cbn. unfold streaming_state.
    by case_match.
Qed.

Lemma ops_return ops (st : St) :
  Forall op_ok ops → good_st st →
  eventually (λ m, mapM_m (λ op, try_m (run_session_op m op)) ops : M St Z _)
    (λ r st', is_ok r = true ∧ good_st st') st.
Proof.
  intros Hops. revert st. induction Hops as [|op ops Hop Hops IH]; intros st Hg; cbn [mapM_m].
  { by apply eventually_wp. }
  apply eventually_bind. destruct (op_returns op st Hop Hg) as (n&st1&r&Hg1&Hn).
  exists n, st1, (Ok r). split; [|intros m Hm; unfold try_m; by rewrite Hn].
  apply eventually_bind. eapply eventually_mono, IH, Hg1. intros [rs|] st2 [Hok Hg2]; [|done].
  by apply eventually_wp.
Qed.
End NoPanic.

(** ** After a drain *)

Section Drained.
Context `{BM : BuildMode} {AU : Avutil}.
Context {K L : Type} `{!Kernel K} `{!EventFd K} `{LA : !Libav L} `{CL : !CodecLaws L}.
Context (a : AVCodecContext) (X : list Z).
Abbreviation Ses := (FfmpegDecoderSession (LA := LA)).
Abbreviation St := (K * L * Ses)%type.
Abbreviation Ctx := (DecodingContext (LA := LA)).

(** The codec [a] was flushed, and the inputs answered so far are those of [X]. *)
Definition drained (del : list VideoDecoderBackendEvent) (st : St) : Prop :=
  ∃ c, context st.2 = Some c ∧ av_context c = a ∧ draining st.1.2 a = true ∧
    done_ids (del ++ pending_events (events st.2)) = X.

Lemma drained_lib {E A} del (m : M L E A) :
  (∀ l, keeps true (same_codec a l) m) → keeps true (drained del) (on_lib m).
Proof.
  intros Hm st (c&Hc&Ha&Hd&Hx). apply wp_zoom. eapply wp_mono, (Hm st.1.2); [|by split].
  intros r l [Hd' _]. exists c. cbn. by rewrite Hd'.
Qed.

Lemma drained_ses del f {E} :
  (∀ s : Ses, context (f s) = context s ∧ events (f s) = events s) →
  keeps true (drained del) (on_ses f : M St E unit).
Proof.
  intros Hf. apply keeps_modify. intros st (c&Hc&Hx). exists c. cbn.
  by destruct (Hf st.2) as [-> ->].
Qed.

Lemma drained_context del f {E} :
  (∀ c : Ctx, av_context (f c) = av_context c) →
  keeps true (drained del) (on_context f : M St E unit).
Proof.
  intros Hf. apply keeps_modify. intros st (c&Hc&Ha&Hx). exists (f c). cbn. by rewrite Hc, Hf.
Qed.

Lemma drained_post del e :
  done_ids [e] = [] → keeps true (drained del) (on_events (queue_event e)).
Proof.
  intros He st (c&Hc&Ha&Hd&Hx). apply wp_post. intros k r. exists c. split_and!; [done..|].
  cbn. rewrite app_assoc. unfold done_ids in *. by rewrite omap_app, Hx, He, app_nil_r.
Qed.

#[local] Hint Resolve keeps_frame_new keeps_buffer_new keeps_convert keeps_converter drained_lib
  drained_post keeps_in_frame : vmedia.
#[local] Hint Extern 1 (keeps true (drained _) (on_ses _)) =>
  apply drained_ses; intros; by repeat case_match : vmedia.
#[local] Hint Extern 1 (keeps true (drained _) (on_context _)) => by apply drained_context : vmedia.

Lemma drained_output del : keeps true (drained del) try_output_frame.
Proof.
  unfold try_output_frame, output_frame_into, output_avframe, AvFrame_builder, push_front_frame.
  keeps_walk.
Qed.

Lemma drained_received del c f : keeps true (drained del) (frame_received c f).
Proof.
  unfold frame_received, frame_visible_rect, change_resolution, update_converter. keeps_walk.
Qed.

Lemma drained_receive del fuel : keeps true (drained del) (try_receive_frame fuel).
Proof.
  destruct fuel as [|fuel]; [by apply keeps_panic|]. intros [[k l] s] Hst. pose proof Hst as (c&Hc&Ha&Hd&Hx).
  cbn [fst snd] in *. cbn [try_receive_frame].
  apply wp_bind, wp_get_st, wp_bind, wp_ok_or; [|done]. cbn [snd]. rewrite Hc. intros c' [= <-].
  destruct (avframe c) eqn:Hf; [by apply wp_ret|]. rewrite Ha.
  apply wp_bind, wp_zoom. eapply wp_mono; [|apply keeps_map_err with (P := same_codec a l);
    [apply keeps_frame_new|by split]]. cbn [fst snd].
  assert (∀ l', draining l' a = true → drained del (k, l', s)) as Hl by (intros; by exists c).
  intros [frame|] l1 [Hd1 _]; rewrite Hd in Hd1; [|by apply Hl]. apply wp_bind, wp_receive.
  intros l2 f2 ret Hr. cbn [fst snd] in Hr |- *. pose proof (receive_keeps_draining _ _ _ _ _ _ Hr) as Hk.
  rewrite Hd1 in Hk. destruct (receive_result ret) as [[| |]|[e]] eqn:Hres.
  - by apply drained_received, Hl.
  - apply receive_again in Hres. by destruct (receive_when_draining _ _ _ _ _ _ Hd1 Hr).
  - case_bool_decide; [|by apply Hl]. apply wp_bind. by apply drained_context, Hl.
  - case_match; by apply Hl.
Qed.

Lemma drained_send del : keeps true (drained del) try_send_input_job.
Proof.
  intros [[k l] s] Hst. pose proof Hst as (c&Hc&Ha&Hd&Hx). cbn [fst snd] in *. unfold try_send_input_job.
  apply wp_bind, wp_get_st, wp_bind, wp_ok_or; [|done]. cbn [snd]. rewrite Hc. intros c' [= <-].
  destruct (jobs c) as [|[p i|] rest]; [by apply wp_ret| |].
  - apply wp_bind, wp_modify, wp_bind, wp_zoom, wp_try. unfold try_send_packet. rewrite Ha.
    apply wp_bind. unfold call, wp at 1. cbn [fst snd].
    destruct (send_when_draining l a (Some p) Hd) as (l'&->&Hd'). cbn [fst snd].
    unfold wp. cbn. rewrite Hc. cbn. eexists. by split_and!.
  - apply wp_bind, wp_modify, wp_bind, wp_modify, wp_ret. cbn. rewrite Hc. eexists. by split_and!.
Qed.

Lemma drained_try_decode del fuel : keeps true (drained del) (try_decode fuel).
Proof.
  pose proof (drained_output del). pose proof (drained_receive del). pose proof (drained_send del).
  assert (∀ n, keeps true (drained del) (decode_loop n)) as Hloop.
  { induction n as [|n IH]; [by apply keeps_panic|]. cbn [decode_loop]. unfold decode_round. keeps_walk. }
  unfold try_decode. keeps_walk.
Qed.

Lemma drained_os {E A} del (m : M K E A) : keeps true (drained del) (on_os m).
Proof. intros st Hst. by apply wp_zoom, wp_any. Qed.
#[local] Hint Resolve drained_try_decode drained_os : vmedia.

Lemma drained_ensure del : keeps true (drained del) ensure_context.
Proof.
  intros st Hst. pose proof Hst as (c&Hc&_). unfold ensure_context. apply wp_bind, wp_get_st.
  rewrite Hc. by apply wp_ret.
Qed.

Definition event_of {E} (r : result (option VideoDecoderBackendEvent) E) : option VideoDecoderBackendEvent :=
  match r with Ok ev => ev | Err _ => None end.

Lemma wp_no_event {E} del (m : M St E unit) (st : St) :
  keeps true (drained del) m → drained del st →
  wp true (m ;; mret None) (λ r st', drained (del ++ option_list (event_of r)) st') st.
Proof.
  intros Hm Hst. apply wp_bind. eapply wp_mono, Hm, Hst. intros [[]|] st' Hst'; cbn; by rewrite app_nil_r.
Qed.

Lemma drained_op fuel op del (st : St) :
  drained del st →
  wp true (run_session_op fuel op) (λ r st', drained (del ++ option_list (event_of r)) st') st.
Proof.
  intros Hst. destruct op; cbn [run_session_op]; try apply wp_no_event; try done.
  - pose proof (drained_ensure del). unfold decode, input_packet. keeps_walk.
  - unfold use_as_output. keeps_walk.
  - unfold drain. keeps_walk.
  - unfold clear_output_buffers. apply keeps_bind; [auto with vmedia|intros _].
    intros st1 (c&Hc&Ha&Hd&Hx). apply wp_retain. intros k. exists c. split_and!; [done..|].
    rewrite <-Hx. unfold done_ids. rewrite !omap_app. f_equal. apply omap_filter. by intros [].
  - apply wp_next_event; [intros _; cbn; by rewrite app_nil_r|]. intros k e es He.
    destruct Hst as (c&Hc&Ha&Hd&Hx). exists c. split_and!; [done..|]. rewrite He in Hx. cbn.
    by rewrite <-app_assoc.
  - unfold streaming_state. apply keeps_modify. intros st1 (c&Hc&Hx). cbn.
    case_match; [|by exists c]. exists (set_accepting true c). cbn. by rewrite Hc.
Qed.

Lemma drained_ops fuel ops del (st : St) :
  drained del st →
  wp true (mapM_m (E := Z) (λ op, try_m (run_session_op fuel op)) ops) (λ r st', match r with
    | Ok answers => drained (del ++ omap event_of answers) st' | Err _ => True end) st.
Proof.
  revert del st. induction ops as [|op ops IH]; intros del st Hst; cbn [mapM_m].
  { apply wp_ret. cbn. by rewrite app_nil_r. }
  apply wp_bind, wp_try. eapply wp_mono, drained_op, Hst. intros r st1 H1.
  apply wp_bind. eapply wp_mono, IH, H1. intros [answers|] st2; [|done].
  rewrite <-app_assoc. intros H2. apply wp_ret. cbn. by destruct (event_of r).
Qed.
End Drained.

Lemma mapM_length {S E A B} (f : A → M S E B) l s s' bs :
  mapM_m f l s = Ret (s', Ok bs) → length bs = length l.
Proof.
  revert s bs. induction l as [|a l IH]; intros s bs; cbn; [by intros [= _ <-]|].
  unfold mbind, M_bind. destruct (f a s) as [[s1 [b|]]|]; [|done..].
  destruct (mapM_m f l s1) as [[s2 [bs'|]]|] eqn:Hl; [|done..]. intros [= -> <-].
  cbn. f_equal. by eapply IH.
Qed.

(** ** The theorems *)

(** C10: With a codec that keeps its documented promises, and in a build without
    overflow checks, every operation of a session returns: the recursion of
    [try_receive_frame] and the loop of [try_decode] end, and nothing panics, for
    any sequence of operations in which the output buffers have a plane. *)
Theorem session_always_answers {AU : Avutil} {K L : Type} `{!Kernel K} `{!EventFd K}
    `{LA : !Libav L} `{CL : !CodecLaws L} `{SL : !SizeLaws L} ops decoder (k0 k : K) (l : L)
    (s : FfmpegDecoderSession) :
  new_session decoder k0 = Ret (k, Ok s) → Forall op_ok ops →
  ∃ fuel st' answers, length answers = length ops ∧ ∀ m, (fuel ≤ m)%nat →
    mapM_m (E := Z) (λ op, try_m (run_session_op (BM := false) m op)) ops (k, l, s)
      = Ret (st', Ok answers).
Proof.
  intros Hn Hops. assert (good s) as Hg.
  { unfold new_session, EventQueue_new, ok_or, map_err, syscall, mbind, M_bind, mret, M_ret in Hn.
    destruct (head (codecs decoder)); [|done].
    destruct (eventfd_new k0) as [? [fd|]]; [|done]. injection Hn as _ <-.
    split_and!; cbn; [unfold is_dim; lia..|constructor]. }
  destruct (ops_return ops (k, l, s) Hops Hg) as (n&st'&[answers|]&[Hok _]&Hr); [|done].
  exists n, st', answers. split; [|done]. eapply mapM_length, (Hr n). lia.
Qed.

(** Once its codec has been flushed, a session never answers another input:
    libavcodec refuses packets until the codec is reset, which the backend does not
    do, so every input submitted after a drain waits forever, whatever operations
    follow. *)
Theorem drained_session_answers_no_input `{BM : BuildMode} {AU : Avutil} {K L : Type} `{!Kernel K}
    `{!EventFd K} `{LA : !Libav L} `{CL : !CodecLaws L} fuel ops (k k' : K) (l l' : L)
    (s s' : FfmpegDecoderSession) c answers :
  context s = Some c → draining l (av_context c) = true →
  mapM_m (E := Z) (λ op, try_m (run_session_op fuel op)) ops (k, l, s)
    = Ret ((k', l', s'), Ok answers) →
  done_ids (omap event_of answers ++ pending_events (events s')) = done_ids (pending_events (events s)).
Proof.
  intros Hc Hd Hr.
  pose proof (drained_ops (av_context c) (done_ids (pending_events (events s))) fuel ops [] (k, l, s))
    as Hwp.
  unfold wp in Hwp. rewrite Hr in Hwp. destruct Hwp as (c'&_&_&_&Hx); [by exists c|done].
Qed.

(** ** Frames of another size *)

Section OtherSize.
Context `{BM : BuildMode} {AU : Avutil}.

(** Building a frame keeps its size. *)
Definition has_size (w h : Z) (f : AvFrame) : Prop := f_width f = w ∧ f_height f = h.

Lemma array_set_keeps {S E A} (P : S → Prop) (l : list A) i x :
  keeps true P (array_set l i x : M S E (list A)).
Proof. unfold array_set. case_match; [apply keeps_ret|by apply keeps_panic]. Qed.

Lemma enumerateM_keeps {S E A B} (P : S → Prop) (f : nat → A → M S E B) l i :
  (∀ i a, keeps true P (f i a)) → keeps true P (enumerateM f i l).
Proof.
  intros Hf. revert i. induction l as [|x l IH]; intros i; cbn [enumerateM]; [apply keeps_ret|].
  apply keeps_bind; [done|intros b]. apply keeps_bind; [done|intros bs]. apply keeps_ret.
Qed.

Lemma check_aliases_keeps {S} (P : S → Prop) l : keeps true P (check_aliases l).
Proof.
  induction l as [|[[b0 s0] e0] l IH]; [apply keeps_ret|]. cbn [check_aliases].
  destruct l as [|[[b1 s1] e1] l]; [apply keeps_ret|]. by apply keeps_bind; [apply keeps_guard|intros _].
Qed.

Lemma build_owned_size buffers planes w h f f' r :
  has_size w h f → build_owned buffers planes f = Ret (f', Ok r) → has_size w h r.
Proof.
  intros Hf Hb. assert (wp true (build_owned buffers planes)
    (λ r _, match r with Ok f' => has_size w h f' | Err _ => True end) f) as Hwp.
  2:{ unfold wp in Hwp. by rewrite Hb in Hwp. }
  unfold build_owned. apply wp_bind, wp_get_st, wp_bind.
  eapply wp_mono; [|apply (enumerateM_keeps (has_size w h)); [|done]].
  2:{ intros i p. unfold add_plane. pose proof (@array_set_keeps). keeps_walk.
      all: try (by apply keeps_panic); try (by apply keeps_modify). }
  intros [ranges|] f1 H1; [|done]. apply wp_bind.
  eapply wp_mono, check_aliases_keeps, H1. intros [[]|] f2 H2; [|done]. apply wp_bind.
  eapply wp_mono; [|apply (enumerateM_keeps (has_size w h)); [|exact H2]].
  2:{ intros i b. unfold attach_buffer. pose proof (@array_set_keeps). keeps_walk. }
  intros [u|] f3 H3; [|done]. exact H3.
Qed.

Context {K L : Type} `{!Kernel K} `{!EventFd K} `{LA : !Libav L}.
Abbreviation Ses := (FfmpegDecoderSession (LA := LA)).
Abbreviation St := (K * L * Ses)%type.

Lemma wp_in_frame_any {S E E' A} (m : M AvFrame E A) (wrap : E → E') f
    (Q : result (AvFrame * A) E' → S → Prop) s :
  (∀ f' a, m f = Ret (f', Ok a) → Q (Ok (f', a)) s) → (∀ e, Q (Err e) s) →
  wp true (in_frame m wrap f) Q s.
Proof.
  intros Hok Herr. unfold in_frame. apply wp_bind. destruct (m f) as [[f' [a|e]]|]; [|apply Herr|done].
  by apply Hok.
Qed.

Lemma set_dimensions_size w h f f' u :
  set_dimensions (mkDimensions w h) f = Ret (f', Ok u) → has_size w h f'.
Proof.
  unfold set_dimensions, try_into_i32, guard_err, mbind, M_bind. cbn [d_width d_height].
  destruct (0x7fffffff <? w); [done|]. cbn [mret M_ret modify].
  destruct (0x7fffffff <? h); [done|]. by intros [= <- _].
Qed.

Lemma output_avframe_size size fmt used b (st : St) :
  wp true (output_avframe size fmt used b)
    (λ r _, match r with Ok f => has_size size.1 size.2 f | Err _ => True end) st.
Proof.
  unfold output_avframe. apply wp_bind, wp_map_err, wp_on_lib. intros l [f|]; [|done].
  apply wp_bind, wp_in_frame_any; [|done]. intros f1 u Hf1%set_dimensions_size.
  apply wp_bind, wp_in_frame_any; [|done]. intros f2 u2 [= <- _].
  apply wp_bind. destruct (head used) as [off|]; [|done]. apply wp_ret, wp_bind.
  destruct (head (planes b)) as [m|]; [|done]. apply wp_ret, wp_bind, wp_on_lib.
  intros l' [[buf|]|]; [|done..]. apply wp_bind, wp_ret, wp_bind, wp_in_frame_any; [|done].
  intros f3 r Hb. apply wp_ret. by eapply build_owned_size, Hb.
Qed.

Lemma convert_size conv src dst (l : L) :
  dimensions src ≠ dimensions dst →
  wp true (convert conv src dst) (λ r _, ∃ e, r = Err e) l.
Proof.
  intros Hd. unfold convert. apply wp_bind, wp_guard; [intros _|by eauto].
  apply wp_bind, wp_guard; [intros _|by eauto]. apply wp_bind, wp_guard; [|by eauto].
  rewrite negb_false_iff, bool_decide_eq_true. done.
Qed.
End OtherSize.

(** The session without the received frame and without its first output buffer. *)
Definition lose_frame {AU : Avutil} {L : Type} `{LA : !Libav L} (c : DecodingContext)
    (rest : list AvailableOutputFrame) (s : FfmpegDecoderSession) : FfmpegDecoderSession :=
  set_context (Some (set_avframe None c)) (set_frames rest s).

(** C38: A received frame whose size differs from that of the output buffers is
    never output: the conversion fails, and both the frame and the output buffer
    are lost without an event.  A new resolution that fits into the output buffers
    leaves their size as it is ([with_size]), so that this is the fate of every frame
    of a stream that is smaller than the default 320 x 240. *)
Theorem frame_of_other_size_is_lost `{BM : BuildMode} {AU : Avutil} {K L : Type} `{!Kernel K}
    `{!EventFd K} `{LA : !Libav L} (k k' : K) (l l' : L) (s s' : FfmpegDecoderSession) c f b rest r :
  context s = Some c → drain_state c ≠ AwaitingFinalFrame → avframe c = Some f →
  available_output_frames s = b :: rest →
  is_u32 (capture_size s).1 → is_u32 (capture_size s).2 → frame_size f ≠ capture_size s →
  try_output_frame (k, l, s) = Ret ((k', l', s'), r) →
  (∃ e, r = Err e) ∧ s' = lose_frame c rest s.
Proof.
  unfold lose_frame.
  intros Hc Hd Hf Hfr Hw Hh Hsize Hr.
  assert (wp true try_output_frame (λ r st', (∃ e, r = Err e) ∧
    st'.2 = set_context (Some (set_avframe None c)) (set_frames rest s)) (k, l, s)) as Hwp.
  2:{ unfold wp in Hwp. by rewrite Hr in Hwp. }
  clear Hr. unfold try_output_frame.
  apply wp_bind, wp_get_st, wp_bind, wp_ok_or; cbn [snd]; rewrite Hc; [|done]. intros ? [= <-].
  rewrite Hfr, Hf, bool_decide_eq_false_2 by done. apply wp_bind, wp_modify, wp_bind, wp_modify.
  unfold output_frame_into. apply wp_bind, wp_get_st, wp_bind.
  eapply wp_mono; [|apply wp_and; [apply output_avframe_session; done|apply output_avframe_size]].
  cbn [fst snd context set_frames]. rewrite Hc.
  intros [dst|e] [[k1 l1] s1] [Hs Hdst]; [|by eauto]. cbn [snd] in Hs. subst s1.
  apply wp_bind, wp_map_err, wp_zoom. eapply wp_mono, convert_size; [by intros ? ? [e ->]; eauto|].
  destruct Hdst as [Hdw Hdh]. unfold dimensions. rewrite Hdw, Hdh. cbn.
  rewrite !(as_u32_id (capture_size s).1), !(as_u32_id (capture_size s).2) by done.
  intros [= H1 H2]. apply Hsize. unfold frame_size. rewrite H1, H2. by destruct (capture_size s).
Qed.

(** ** Formats and codecs *)

(** What the formats rely on: four characters are a number, and a format made from a
    structure has its pixel format. *)
Class FormatLaws `{V : V4l2r} : Prop := {
  fourcc_range : ∀ s, String.length s = 4%nat → is_u32 (fourcc_u32 s);
  fourcc_inj : ∀ s s', String.length s = 4%nat → String.length s' = 4%nat →
    fourcc_u32 s = fourcc_u32 s' → s = s';
  pixelformat_from : ∀ dir v (x : vstruct v4l2_pix_format_mplane), is_u32 v →
    pixelformat (mp_from dir (set_fld "pixelformat" v x)) = v;
}.

Lemma map_get_cons {A} k k' (x : A) l :
  map_get k ((k', x) :: l) = if decide (k' = k) then Some x else map_get k l.
Proof. unfold map_get. cbn. rewrite bool_decide_decide. by destruct (decide (k' = k)). Qed.

Lemma map_get_insert `{V : V4l2r} {A} k (x : A) l : map_get k (map_insert k x l) = Some x.
Proof.
  induction l as [|[k' x'] l IH]; cbn [map_insert]; [by rewrite map_get_cons, decide_True|].
  destruct (OutputFormat_cmp k k') eqn:Hc; [by rewrite map_get_cons, decide_True..|].
  rewrite map_get_cons, decide_False; [done|]. intros ->. unfold OutputFormat_cmp in Hc.
  by rewrite Z.compare_refl in Hc.
Qed.

Lemma output_fourcc_inj `{FormatLaws} f f' : OutputFormat_u32 f = OutputFormat_u32 f' → f = f'.
Proof.
  destruct f, f'; try done; intros Hf; cbn in Hf; apply fourcc_inj in Hf; done.
Qed.

Lemma map_get_insert_ne `{FormatLaws} {A} k k' (x : A) l :
  k ≠ k' → map_get k' (map_insert k x l) = map_get k' l.
Proof.
  intros Hk. induction l as [|[k0 x0] l IH]; cbn [map_insert]; [by rewrite map_get_cons, decide_False|].
  destruct (OutputFormat_cmp k k0) eqn:Hc; [|by rewrite (map_get_cons _ k), decide_False|].
  - apply Z.compare_eq, output_fourcc_inj in Hc as ->. by rewrite !map_get_cons, !decide_False.
  - by rewrite !map_get_cons, IH.
Qed.

Section Codecs.
Context {AU : Avutil} `{V : V4l2r}.

(** The codec stored for a format is one of the library and decodes it. *)
Definition decodes (e : OutputFormat * AVCodec) : Prop :=
  e.2 ∈ av_codecs ∧ codec_format e.2 = Some e.1.

Lemma codec_format_usable codec f :
  codec_format codec = Some f →
  is_decoder codec = true ∧ Z.land (capabilities codec) AV_CODEC_CAP_DR1 ≠ 0.
Proof.
  unfold codec_format. destruct (is_decoder codec); [|done]. cbn.
  set (format := if bool_decide _ then _ else _). destruct format; [|done]. cbn.
  by destruct (Z.eqb_spec (Z.land (capabilities codec) AV_CODEC_CAP_DR1) 0).
Qed.

Lemma insert_decodes f codec l :
  decodes (f, codec) → Forall decodes l → Forall decodes (map_insert f codec l).
Proof.
  intros Hf Hl. induction Hl as [|[k x] l Hx Hl IH]; cbn [map_insert]; [by apply Forall_singleton|].
  case_match; by repeat apply Forall_cons_2.
Qed.

Lemma new_decodes : Forall decodes (codecs FfmpegDecoder_new).
Proof.
  unfold FfmpegDecoder_new. cbn. assert (∀ l m, l ⊆ av_codecs → Forall decodes m →
    Forall decodes (foldl (λ m codec,
    match codec_format codec with Some format => map_insert format codec m | None => m end) m l)) as Hf.
  { induction l as [|codec l IH]; intros m Hl Hm; cbn; [done|]. apply IH; [intros c Hc; apply Hl; by right|].
    destruct (codec_format codec) eqn:?; [|done]. apply insert_decodes; [|done].
    split; [|done]. apply Hl. by left. }
  by apply Hf.
Qed.

Lemma get_decodes f codec l : Forall decodes l → map_get f l = Some codec → decodes (f, codec).
Proof.
  intros Hl. induction Hl as [|[k x] l Hx Hl IH]; [done|]. rewrite map_get_cons.
  destruct (decide (k = f)) as [->|]; [by intros [= <-]|done].
Qed.

(** Of the codecs for a format, the last one that the library lists is kept. *)
Lemma new_get `{!FormatLaws} f :
  map_get f (codecs FfmpegDecoder_new) = last (filter (λ c, codec_format c = Some f) av_codecs).
Proof.
  unfold FfmpegDecoder_new. cbn [codecs]. generalize av_codecs. intros l0.
  induction l0 as [|codec l IH] using rev_ind; [done|].
  rewrite foldl_app, filter_app. cbn [foldl]. rewrite (filter_cons _ codec []).
  destruct (codec_format codec) as [f'|] eqn:Hc.
  - destruct (decide (f' = f)) as [->|Hne].
    + rewrite map_get_insert, decide_True by done. by rewrite filter_nil, last_snoc.
    + rewrite map_get_insert_ne, decide_False by congruence. by rewrite filter_nil, app_nil_r.
  - rewrite decide_False by done. by rewrite filter_nil, app_nil_r.
Qed.

Context `{BM : BuildMode}.
Context {K L : Type} `{!Kernel K} `{!EventFd K} `{LA : !Libav L}.
Abbreviation Ses := (FfmpegDecoderSession (LA := LA)).
Abbreviation St := (K * L * Ses)%type.

(** *** The operations of a session do not touch its input format *)

Definition format_is (x : OutputFormat * AVCodec) (st : St) : Prop := input_format st.2 = x.

Lemma format_ses x f {E} :
  (∀ s : Ses, input_format (f s) = input_format s) →
  keeps true (format_is x) (on_ses f : M St E unit).
Proof. intros Hf. apply keeps_modify. intros st Hx. unfold format_is. cbn. by rewrite Hf. Qed.
Lemma format_lib {E A} x (m : M L E A) : keeps true (format_is x) (on_lib m).
Proof. intros st Hst. by apply wp_zoom, wp_any. Qed.
Lemma format_os {E A} x (m : M K E A) : keeps true (format_is x) (on_os m).
Proof. intros st Hst. by apply wp_zoom, wp_any. Qed.
Lemma format_events {E A} x (m : M (K * EventQueue VideoDecoderBackendEvent) E A) :
  keeps true (format_is x) (on_events m).
Proof. intros st Hst. by apply wp_zoom, wp_any. Qed.
#[local] Hint Resolve format_lib format_os format_events keeps_in_frame : vmedia.
#[local] Hint Extern 1 (keeps true (format_is _) (on_ses _)) =>
  apply format_ses; intros; by repeat case_match : vmedia.

Lemma format_receive x fuel : keeps true (format_is x) (try_receive_frame fuel).
Proof.
  induction fuel as [|fuel IH]; [by apply keeps_panic|]. cbn [try_receive_frame].
  unfold frame_received, frame_visible_rect, change_resolution, update_converter, on_context. keeps_walk.
Qed.

Lemma format_try_decode x fuel : keeps true (format_is x) (try_decode fuel).
Proof.
  pose proof (format_receive x).
  assert (∀ n, keeps true (format_is x) (decode_loop n)) as Hloop.
  { induction n as [|n IH]; [by apply keeps_panic|]. cbn [decode_loop]. unfold decode_round,
      try_output_frame, output_frame_into, output_avframe, push_front_frame, try_send_input_job, on_context.
    keeps_walk. }
  unfold try_decode. keeps_walk.
Qed.
#[local] Hint Resolve format_try_decode : vmedia.

Lemma format_op x fuel op : keeps true (format_is x) (run_session_op fuel op).
Proof.
  destruct op; cbn [run_session_op]; unfold decode, ensure_context, input_packet, use_as_output, drain,
    clear_output_buffers, next_event, streaming_state, on_context; keeps_walk.
Qed.

(** What the decoder device does with a session. *)
Inductive client_action :=
| ASession (op : session_op)
| AFormat (dir : QueueDirection) (format : V4l2MplaneFormat).

Definition run_action (fuel : nat) (decoder : FfmpegDecoder) (st : St) (act : client_action) :
    outcome St :=
  match act with
  | ASession op => '(st', _) ← run_session_op fuel op st; Ret st'
  | AFormat dir format => Ret (st.1, apply_format decoder st.2 dir format)
  end.

Lemma action_decodes fuel decoder act (st st' : St) :
  Forall decodes (codecs decoder) → decodes (input_format st.2) →
  run_action fuel decoder st act = Ret st' → decodes (input_format st'.2).
Proof.
  intros Hd Hs. destruct act as [op|dir format]; cbn [run_action].
  - pose proof (format_op (input_format st.2) fuel op st eq_refl) as Hwp. unfold wp in Hwp.
    destruct (run_session_op fuel op st) as [[st1 r]|]; [|done]. cbn. intros [= <-].
    by rewrite Hwp.
  - intros [= <-]. cbn. unfold apply_format. destruct dir; [|by case_match].
    destruct (OutputFormat_n _) as [f|]; [|done]. destruct (map_get f _) as [c|] eqn:Hc; [|done].
    by eapply get_decodes.
Qed.

(** *** Promised and applied formats *)

Lemma OutputFormat_n_u32 `{!FormatLaws} f : OutputFormat_n (OutputFormat_u32 f) = Some f.
Proof.
  assert (∀ f', (OutputFormat_u32 f' =? OutputFormat_u32 f) = bool_decide (f' = f)) as He.
  { intros f'. case_bool_decide as Hff; [subst; apply Z.eqb_refl|]. apply Z.eqb_neq.
    contradict Hff. by apply output_fourcc_inj. }
  unfold OutputFormat_n. cbn [find]. rewrite !He. by destruct f.
Qed.

Lemma CaptureFormat_n_u32 f : CaptureFormat_n (CaptureFormat_u32 f) = Some f.
Proof. unfold CaptureFormat_n. cbn. rewrite Z.eqb_refl. by destruct f. Qed.

Lemma pixelformat_output `{!FormatLaws} dir f size :
  pixelformat (mp_from dir (OutputFormat_into_v4l2_pix_format f size)) = OutputFormat_u32 f.
Proof. apply pixelformat_from. by destruct f; apply fourcc_range. Qed.

Lemma pixelformat_capture `{!FormatLaws} dir f size pix :
  CaptureFormat_into_v4l2_pix_format f size = Ret pix →
  pixelformat (mp_from dir pix) = CaptureFormat_u32 f.
Proof.
  unfold CaptureFormat_into_v4l2_pix_format, mbind, outcome_bind.
  destruct (usize_sum _); [|done]. intros [= <-]. apply pixelformat_from. by apply fourcc_range.
Qed.
End Codecs.

(** C26: In every state of a session, whatever operations and formats the client
    asked for, the codec of its input is one that the library lists, decodes the
    format that the session shows, is a decoder and can use custom buffers. *)
Theorem session_codec_decodes_its_format `{BM : BuildMode} `{V : V4l2r} {AU : Avutil} {K L : Type}
    `{!Kernel K} `{!EventFd K} `{LA : !Libav L} fuel acts (k0 k : K) (l : L)
    (s : FfmpegDecoderSession) (st' : K * L * FfmpegDecoderSession) :
  new_session FfmpegDecoder_new k0 = Ret (k, Ok s) →
  foldl (λ o act, st ← o; run_action fuel FfmpegDecoder_new st act) (Ret (k, l, s)) acts = Ret st' →
  let '(format, codec) := input_format st'.2 in
  codec ∈ av_codecs ∧ codec_format codec = Some format ∧
  is_decoder codec = true ∧ Z.land (capabilities codec) AV_CODEC_CAP_DR1 ≠ 0.
Proof.
  intros Hn. assert (decodes (input_format (k, l, s).2)) as Hs.
  { pose proof new_decodes as Hnew. revert Hn.
    unfold new_session, EventQueue_new, ok_or, map_err, syscall, mbind, M_bind, mret, M_ret.
    destruct (codecs FfmpegDecoder_new) as [|e es]; [done|]. apply Forall_cons in Hnew as [He _].
    cbn. destruct (eventfd_new k0) as [? [fd|]]; [|done]. by intros [= _ <-]. }
  intros Hr. assert (decodes (input_format st'.2)) as Hd.
  { revert Hs Hr. generalize (k, l, s) as st. clear.
    induction acts as [|act acts IH]; intros st Hs; cbn; [by intros [= <-]|].
    destruct (run_action fuel FfmpegDecoder_new st act) as [st1|] eqn:Ha.
    - apply IH. eapply action_decodes, Ha; [apply new_decodes|done].
    - intros Hr. exfalso. revert Hr. clear. induction acts; cbn; done. }
  destruct (input_format st'.2) as [format codec], Hd as [Hin Hf].
  split; [done|]. split; [done|]. by apply (codec_format_usable codec format).
Qed.

(** C27: A format that TRY_FMT promises and whose codec is available is the one that
    S_FMT leaves: after [apply_format], [current_format] is the format returned by
    [adjust_format], adjusting it again changes nothing, and the other queue keeps
    its format. *)
Theorem promised_format_is_applied `{BM : BuildMode} `{V : V4l2r} `{FL : !FormatLaws} {AU : Avutil}
    {L : Type} `{LA : !Libav L} decoder (s : FfmpegDecoderSession) dir format promised :
  map_get (input_format s).1 (codecs decoder) = Some (input_format s).2 →
  (∀ f, dir = Output → OutputFormat_n (pixelformat format) = Some f →
    is_Some (map_get f (codecs decoder))) →
  adjust_format decoder s dir format = Ret promised →
  let s' := apply_format decoder s dir promised in
  current_format s' dir = Ret promised ∧ adjust_format decoder s' dir promised = Ret promised ∧
  ∀ dir', dir' ≠ dir → current_format s' dir' = current_format s dir'.
Proof.
  intros Hs Hf Hadj s'. destruct dir; subst s'; unfold adjust_format, apply_format in *.
  - unfold mbind, outcome_bind in *. injection Hadj as <-. set (f := default _ _).
    rewrite pixelformat_output, OutputFormat_n_u32.
    assert (is_Some (map_get f (codecs decoder))) as [c Hc].
    { unfold f. destruct (OutputFormat_n (pixelformat format)) eqn:Hn; [by eapply Hf|]. by exists (input_format s).2. }
    rewrite Hc. cbn [input_format set_input_format current_format default].
    split_and!; [done..|]. by intros [].
  - unfold mbind, outcome_bind in Hadj. set (f := default _ _) in Hadj.
    destruct (CaptureFormat_into_v4l2_pix_format f (capture_size s)) as [pix|] eqn:Hp; [|done].
    injection Hadj as <-. rewrite (pixelformat_capture _ _ _ _ Hp), CaptureFormat_n_u32.
    cbn [current_format set_output_format output_format capture_size default].
    unfold mbind, outcome_bind, id. rewrite !Hp. split_and!; [done..|]. by intros [].
Qed.

(** C40: TRY_FMT and S_FMT promise a coded format that the decoder knows but for
    which it found no codec, although S_FMT leaves the format of the session as it
    was. *)
Theorem unavailable_format_is_promised `{BM : BuildMode} `{V : V4l2r} `{FL : !FormatLaws}
    {AU : Avutil} {L : Type} `{LA : !Libav L} decoder (s : FfmpegDecoderSession) format f :
  OutputFormat_n (pixelformat format) = Some f → map_get f (codecs decoder) = None →
  f ≠ (input_format s).1 →
  ∃ promised, adjust_format decoder s Output format = Ret promised ∧
    pixelformat promised = OutputFormat_u32 f ∧
    apply_format decoder s Output promised = s ∧ current_format s Output ≠ Ret promised.
Proof.
  intros Hf Hc Hne. unfold adjust_format, apply_format. rewrite Hf.
  unfold mbind, outcome_bind, default, id. eexists. split; [done|].
  rewrite pixelformat_output, OutputFormat_n_u32, Hc. split_and!; [done..|].
  intros [= He]. apply (f_equal pixelformat) in He. rewrite !pixelformat_output in He.
  by apply output_fourcc_inj in He.
Qed.

(** ** Witnesses *)

Module FfmpegWitness.
Import SampleAvutil SampleEventFd SampleFfmpeg Sample.

#[global, program] Instance sample_codec_laws : CodecLaws codec_state := {|
  draining l _ := l.2;
  owed l _ := length l.1;
|}.
Next Obligation. intros l c p Hd. exists l. cbn. by rewrite Hd. Qed.
Next Obligation.
  intros l l' c ret. cbn. destruct (l.2) eqn:Hd; [by intros [= <- <-]|]. by intros [= <- <-].
Qed.
Next Obligation. intros l l' c f f' ret. cbn. destruct l as [[|p ps] d]; cbn; by intros [= <- _ _]. Qed.
Next Obligation.
  intros l l' c f f' ret. cbn. intros Hd. rewrite Hd.
  destruct l as [[|p ps] d]; cbn; by intros [= _ _ <-].
Qed.
Next Obligation.
  intros l l' c f f' ret. cbn. destruct l as [[|p ps] d]; cbn; intros [= <- _ <-]; cbn; [|lia].
  split; [lia|]. destruct d; vm_compute; intros [|]; done.
Qed.
Next Obligation. done. Qed.
Next Obligation. done. Qed.
Next Obligation. done. Qed.
Next Obligation. done. Qed.

#[global] Instance sample_size_laws : SizeLaws codec_state.
Proof.
  split.
  - by intros l l' f [= <- <-].
  - intros l l' c f f' ret. cbn. destruct l as [[|p ps] d]; cbn; intros [= <- <- <-]; [|cbn; lia].
    by destruct d.
  - intros l0 l1 h Hl0 Hl1 Hh. exists (l0 * h), (l1 * h / 2). unfold plane_sizes, av_image_plane_sizes.
    cbn -[Z.mul Z.div]. assert (as_i32 h = h) as ->.
    { unfold as_i32. rewrite Z.mod_small by lia. by replace (h <=? 0x7fffffff) with true by lia. }
    split; [done|]. assert (∀ x, is_u32 x → 0 ≤ x * h < 0x8000000000000000) as Hb.
    { intros x Hx. unfold_ranges. nia. }
    split; [by apply Hb|]. specialize (Hb l1 Hl1). divlia.
Qed.

Lemma little_endian_range s : 0 ≤ little_endian s < 256 ^ Z.of_nat (String.length s).
Proof.
  induction s as [|c s IH]; [done|]. cbn [little_endian String.length].
  rewrite Nat2Z.inj_succ, Z.pow_succ_r by lia. pose proof (Ascii.N_ascii_bounded c). lia.
Qed.

Lemma little_endian_inj s s' :
  String.length s = String.length s' → little_endian s = little_endian s' → s = s'.
Proof.
  revert s'. induction s as [|c s IH]; intros [|c' s'] [=] He; [done|]. cbn in He.
  pose proof (Ascii.N_ascii_bounded c). pose proof (Ascii.N_ascii_bounded c').
  assert (Ascii.N_of_ascii c = Ascii.N_of_ascii c') as Hc by lia.
  rewrite <-(Ascii.ascii_N_embedding c), Hc, Ascii.ascii_N_embedding. f_equal. apply IH; [done|lia].
Qed.

#[global] Instance sample_format_laws : FormatLaws.
Proof.
  split.
  - intros s Hs. pose proof (little_endian_range s) as Hr. rewrite Hs in Hr. cbn in *. mlia.
  - intros s s' Hs Hs'. apply little_endian_inj. congruence.
  - intros dir v [[x1 x2] [x3 x4]] Hv. by apply as_u32_id.
Qed.

Definition ops0 : list session_op :=
  [OpUseAsOutput 0 plane_buffer; OpDecode plane_buffer 7 (mkTimeval 2 5) 10; OpDrain; OpNextEvent].

Lemma session_always_answers_witness :
  ∃ fuel st' answers, length answers = length ops0 ∧ ∀ m, (fuel ≤ m)%nat →
    mapM_m (E := Z) (λ op, try_m (run_session_op (BM := false) m op)) ops0 ([0], ([], false), session0)
      = Ret (st', Ok answers).
Proof.
  apply (session_always_answers ops0 FfmpegDecoder_new [] [0] ([], false) session0
    (proj2 new_session0)).
  repeat constructor. done.
Defined.

(** A session whose codec was flushed, with one answer still to be read. *)
Definition context0 (frame : option AvFrame) : DecodingContext (LA := sample_libav) :=
  mkContext [] tt (mkSwConverter tt 0 23) true frame NoDrain.
Definition drained0 : FfmpegDecoderSession (LA := sample_libav) :=
  set_events (mkEventQueue 3 [InputBufferDone 6 0]) (set_context (Some (context0 None)) session0).
Definition ops1 : list session_op :=
  [OpDecode plane_buffer 7 (mkTimeval 2 5) 10; OpNextEvent; OpNextEvent].

Definition final_events {T L E} (o : outcome ((T * L * FfmpegDecoderSession (LA := sample_libav)) * result
    (list (result (option VideoDecoderBackendEvent) Z)) E)) : option (list VideoDecoderBackendEvent) :=
  match o with Ret (st, Ok answers) => Some (omap event_of answers ++ pending_events (events st.2)) | _ => None end.

Example ops1_run :
  final_events (mapM_m (E := Z) (λ op, try_m (run_session_op (BM := true) 9 op)) ops1
    ([1], ([], true), drained0)) = Some [InputBufferDone 6 0].
Proof. vm_compute. reflexivity. Qed.

Lemma drained_session_answers_no_input_witness :
  ∃ st answers, mapM_m (E := Z) (λ op, try_m (run_session_op (BM := true) 9 op)) ops1
    ([1], ([], true), drained0) = Ret (st, Ok answers) ∧
  done_ids (omap event_of answers ++ pending_events (events st.2)) = [6].
Proof.
  pose proof ops1_run as Hrun. unfold final_events in Hrun.
  destruct (mapM_m _ ops1 _) as [[[[k l] s] [answers|]]|] eqn:Hr; [|done..].
  exists (k, l, s), answers. split; [done|].
  exact (drained_session_answers_no_input 9 ops1 [1] k ([], true) l drained0 s (context0 None) answers
    eq_refl eq_refl Hr).
Defined.

(** Output buffers of 640 x 480 pixels, and a frame of 320 x 240. *)
Definition large0 : FfmpegDecoderSession (LA := sample_libav) :=
  set_capture_size (640, 480) (set_frames [mkOutputFrame 4 [mkMemFdMapping 4096 460800]]
    (set_context (Some (context0 (Some (decoded_frame 5)))) session0)).

Definition is_ret {A} (o : outcome A) : bool := match o with Ret _ => true | Panic => false end.

Example large0_run :
  is_ret (try_output_frame (BM := true) ([0], ([], false), large0)) = true.
Proof. vm_compute. reflexivity. Qed.

Lemma frame_of_other_size_is_lost_witness :
  ∃ st e, try_output_frame (BM := true) ([0], ([], false), large0) = Ret (st, Err e) ∧
    available_output_frames st.2 = [] ∧ pending_events (events st.2) = [].
Proof.
  pose proof large0_run as Hrun. destruct (try_output_frame _) as [[[[k l] s] r]|] eqn:Hr; [|done].
  destruct (frame_of_other_size_is_lost [0] k ([], false) l large0 s (context0 (Some (decoded_frame 5)))
    (decoded_frame 5) (mkOutputFrame 4 [mkMemFdMapping 4096 460800]) [] r) as [[e ->] ->]; try done.
  by exists (k, l, set_context (Some (set_avframe None (context0 (Some (decoded_frame 5)))))
    (set_frames [] large0)), e.
Defined.

(** VP9 has a codec in the sample, HEVC has none. *)
Definition format_of (f : OutputFormat) : @V4l2MplaneFormat sample_v4l2r :=
  mp_from Output (OutputFormat_into_v4l2_pix_format f (320, 240)).

Definition acts0 : list (client_action (V := sample_v4l2r)) := [AFormat Output (format_of H264); ASession OpDrain].

Definition run_acts0 : outcome (list Z * codec_state * FfmpegDecoderSession) :=
  foldl (λ o act, st ← o; run_action (BM := true) 9 FfmpegDecoder_new st act)
    (Ret ([0], ([], false), session0)) acts0.

Lemma session_codec_decodes_its_format_witness :
  ∃ st', run_acts0 = Ret st' ∧ input_format st'.2 = (H264, "h264"%string) ∧
  let '(format, codec) := input_format st'.2 in
  codec ∈ av_codecs ∧ codec_format codec = Some format ∧
  is_decoder codec = true ∧ Z.land (capabilities codec) AV_CODEC_CAP_DR1 ≠ 0.
Proof.
  assert (∃ st', run_acts0 = Ret st' ∧ input_format st'.2 = (H264, "h264"%string)) as (st'&Hr&Hf)
    by (eexists; split; vm_compute; reflexivity).
  exists st'. split; [exact Hr|]. split; [exact Hf|].
  exact (session_codec_decodes_its_format 9 acts0 [] [0] ([], false) session0 st' (proj2 new_session0) Hr).
Defined.

Lemma promised_format_is_applied_witness :
  let _ : BuildMode := true in
  ∃ promised, adjust_format FfmpegDecoder_new session0 Output (format_of H264) = Ret promised ∧
  current_format (apply_format FfmpegDecoder_new session0 Output promised) Output = Ret promised.
Proof.
  intros BM. eexists. split; [reflexivity|].
  apply (promised_format_is_applied FfmpegDecoder_new session0 Output (format_of H264)).
  - reflexivity.
  - intros f _ Hf. assert (OutputFormat_n (pixelformat (format_of H264)) = Some H264) as Hv by reflexivity.
    rewrite Hv in Hf. injection Hf as <-. by eexists.
  - reflexivity.
Defined.

Lemma unavailable_format_is_promised_witness :
  let _ : BuildMode := true in
  ∃ promised, adjust_format FfmpegDecoder_new session0 Output (format_of HEVC) = Ret promised ∧
    current_format session0 Output ≠ Ret promised.
Proof.
  intros BM.
  destruct (unavailable_format_is_promised FfmpegDecoder_new session0 (format_of HEVC) HEVC)
    as (promised&Ha&_&_&Hc); [reflexivity|reflexivity|discriminate|].
  by exists promised.
Defined.
End FfmpegWitness.
