(* ===== verification/FfmpegDevice.v ===== *)
(** * The decoder device on the FFmpeg backend

    The FFmpeg backend ([FfmpegDecoder.v]) as an implementation of the traits of the
    video decoder ([VideoDecoder.v]), and the laws that the decoder relies on
    ([BackendLaws]) for it.  The system of the composed device is the operating
    system together with the FFmpeg libraries. *)

From Stdlib Require Import Strings.Byte.
From stdpp Require Import strings.
From S2P Require Import Prelude RustStd Traits Mmap MemFd Bytes Protocol Io V4l2r Ioctl Runner Vmm VideoDecoder DecoderFrame DecoderBehaviour DecoderContract DecoderOffsets EventQueue Avcodec FfmpegDecoder FfmpegMachine FfmpegBehaviour.
#[local] Open Scope Z_scope.

(** ** The traits *)

Section Instances.
Context `{BM : BuildMode} `{V : V4l2r} {AU : Avutil}.
Context {K L : Type} `{!Kernel K} `{!EventFd K} `{LA : !Libav L}.
Context (fuel : nat).
Abbreviation Ses := (FfmpegDecoderSession (LA := LA)).
Abbreviation World := (K * L)%type.

(** [impl VideoDecoderBufferBacking for FfmpegDecoderBuffer] *)
Definition ffmpeg_backing : VideoDecoderBufferBacking World FfmpegDecoderBuffer := {|
  backing_new queue index sizes :=
    zoom fst (λ k w, (k, w.2)) (FfmpegDecoderBuffer_new queue index sizes);
  fd_for_plane := FfmpegDecoderBuffer_fd_for_plane;
|}.

(** [impl VideoDecoderBackendSession for FfmpegDecoderSession]; [buffers_allocated]
    is the default method, which does nothing, and the storage of an output buffer
    is only read. *)
Definition ffmpeg_session : VideoDecoderBackendSession World Ses FfmpegDecoderBuffer := {|
  bs_decode := decode fuel;
  bs_use_as_output i := st ← get_st; zoom fst (λ x st, (x, st.2)) (use_as_output i st.2);
  bs_drain := drain fuel;
  bs_clear_output_buffers := clear_output_buffers;
  bs_next_event st :=
    '(st, r) ← next_event (E := Empty_set) st;
    match r with Ok event => Ret (st, event) | Err e => match e : Empty_set with end end;
  bs_current_format := current_format;
  bs_stream_params := stream_params;
  bs_buffers_allocated _ _ s := s;
  bs_poll_fd := poll_fd;
  bs_streaming_state := streaming_state;
|}.

(** [impl VideoDecoderBackend for FfmpegDecoder] *)
Definition ffmpeg_backend : VideoDecoderBackend FfmpegDecoder World Ses FfmpegDecoderBuffer := {|
  be_new_session _ :=
    st ← get_st; zoom (λ st, st.1.1) (λ k st, (k, st.1.2, st.2)) (new_session st.2);
  be_close_session _ decoder := decoder;
  be_enum_formats decoder _ := enum_formats decoder;
  be_frame_sizes := frame_sizes;
  be_adjust_format := adjust_format;
  be_apply_format decoder direction format session := apply_format decoder session direction format;
|}.
End Instances.

(** ** The laws of the backend *)

Section Laws.
#[local] Existing Instance no_checks.
Context `{V : V4l2r} {AU : Avutil}.
Context {K L : Type} `{!Kernel K} `{!EventFd K} `{LA : !Libav L}.
Context `{CL : !CodecLaws L} `{SL : !SizeLaws L} (fuel : nat).
#[local] Existing Instances ffmpeg_backing ffmpeg_backend.
Abbreviation Ses := (FfmpegDecoderSession (LA := LA)).
Abbreviation World := (K * L)%type.

Lemma decode_good input i ts used : keeps true good_st (decode (K := K) (L := L) fuel input i ts used).
Proof.
  unfold decode. apply keeps_bind; [|intros _; apply keeps_bind; [|intros p]].
  - eapply keeps_panic_mono, ensure_context_returns.
  - eapply keeps_panic_mono, input_packet_returns.
  - apply keeps_bind; [by apply keeps_modify|intros _; apply try_decode_good].
Qed.

Lemma drain_good : keeps true good_st (drain (K := K) (L := L) fuel).
Proof.
  unfold drain. apply keeps_bind; [apply keeps_get_st|intros st0].
  destruct (context st0.2); [|apply keeps_ret].
  apply keeps_bind; [by apply keeps_modify|intros _; apply try_decode_good].
Qed.

Lemma capture_format_returns f size : returns false (CaptureFormat_into_v4l2_pix_format f size).
Proof.
  unfold CaptureFormat_into_v4l2_pix_format. set (l := plane_sizes _ _ _).
  by destruct (usize_sum_ret l) as [v ->].
Qed.

Lemma new_session_good (decoder : FfmpegDecoder) (k : K) :
  wp false (new_session decoder) (λ r _, match r with Ok s => good s | Err _ => True end) k.
Proof.
  unfold new_session, EventQueue_new. apply wp_bind, wp_ok_or; [intros fmt _|done].
  apply wp_bind, wp_map_err, wp_bind. unfold wp at 1, syscall.
  destruct (eventfd_new k) as [k' [fd|e]]; [|done]. cbn.
  split_and!; cbn; [unfold is_dim; lia..|constructor].
Qed.

Lemma memfd_new_returns n : keeps false (λ _ : K, True) (MemFdBuffer_new n).
Proof. pose proof (@syscall_returns). unfold MemFdBuffer_new. keeps_walk. Qed.

Lemma buffer_new_one queue index size (k : K) :
  wp false (FfmpegDecoderBuffer_new queue index [size])
    (λ r _, match r with Ok b => length (fds b) = 1%nat | Err _ => True end) k.
Proof.
  unfold FfmpegDecoderBuffer_new. apply wp_bind, wp_map_err.
  eapply wp_mono, (wp_mapM _ (λ _, True) (λ _ _, True)); [|done|].
  - intros [l|e] k' [_ Hl]; [|done]. cbn. by apply Forall2_length in Hl.
  - intros n k' _ _. eapply wp_mono; [|apply (memfd_new_returns n)]; [by intros []|done].
Qed.

(** Formats do not concern decoding. *)
Lemma apply_format_good (decoder : FfmpegDecoder) (s : Ses) dir format :
  good s → good (apply_format decoder s dir format).
Proof. intros Hg. unfold apply_format. by repeat case_match. Qed.

Lemma streaming_state_good dir on (s : Ses) : good s → good (streaming_state dir on s).
Proof. intros Hg. unfold streaming_state. by case_match. Qed.

(** The backend keeps the laws for any description of the storage that says that
    there is a plane, and that holds of new storage. *)
Lemma ffmpeg_laws (J : nat → FfmpegDecoderBuffer → Prop) :
  (∀ n b, J n b → fds b ≠ []) →
  (∀ queue i ps b, buf_planes (buf_new queue i Mmap) = BMmap ps → length (fds b) = 1%nat →
     J (length ps) b) →
  BackendLaws (D := FfmpegDecoder) (K := World) false true (good (LA := LA)) J
    (VideoDecoderBackendSession0 := ffmpeg_session fuel).
Proof.
  intros HJ Hnew. split.
  - intros n b i ts used _. apply decode_good.
  - apply drain_good.
  - intros i n w bs b Hg Hb. apply wp_bind, wp_get_st, wp_zoom.
    eapply wp_mono, use_as_output_returns; [|by eapply HJ|done]. by intros r st Hst.
  - intros st Hg. unfold bs_clear_output_buffers. cbn. unfold clear_output_buffers.
    apply wp_bind, wp_modify, wp_retain. intros k. destruct Hg as (Hw&Hh&_).
    split_and!; [done..|constructor].
  - intros st Hg. cbn.
    assert (wp false (next_event (E := Empty_set)) (λ _ st', good_st st') st) as Hn
      by (by apply wp_next_event).
    unfold wp in Hn. unfold mbind, outcome_bind. by destruct (next_event st) as [[st' [ev|[]]]|].
  - intros bs [] Hg; cbn; [done|].
    pose proof (capture_format_returns (output_format bs) (capture_size bs)) as Hr.
    by destruct (CaptureFormat_into_v4l2_pix_format _ _).
  - done.
  - intros. by apply streaming_state_good.
  - intros id st. cbn. apply wp_bind, wp_get_st, wp_zoom.
    eapply wp_mono, new_session_good. by intros [].
  - intros d bs [] f Hg; cbn; [done|]. unfold mbind, outcome_bind.
    pose proof (capture_format_returns (default (output_format bs) (CaptureFormat_n (pixelformat f)))
      (capture_size bs)) as Hr.
    by destruct (CaptureFormat_into_v4l2_pix_format _ _).
  - intros. by apply apply_format_good.
  - intros queue i size ps w Hps. apply wp_zoom. eapply wp_mono, buffer_new_one.
    intros [b|e] k Hb; [by eapply Hnew|done].
Qed.
End Laws.

(** ** Under a VMM *)

Section Device.
#[local] Existing Instance no_checks.
Context `{V : V4l2r} {VL : V4l2rLaws} {AU : Avutil}.
Context {Q HM P K L : Type} `{!VirtioMediaEventQueue Q} `{!VirtioMediaHostMemoryMapper HM}.
Context `{!Kernel K} `{!EventFd K} `{LA : !Libav L}.
Context `{CL : !CodecLaws L} `{SL : !SizeLaws L}.
#[local] Existing Instances ffmpeg_backing ffmpeg_backend.
Abbreviation World := (K * L)%type.
Abbreviation Dec := (VideoDecoder FfmpegDecoder Q HM World).
Abbreviation Ses := (VideoDecoderSession (FfmpegDecoderSession (LA := LA)) FfmpegDecoderBuffer).
Abbreviation St := (Dec * Ses)%type.

(** Storage with a plane, and storage of exactly as many planes as it has to. *)
Definition has_plane (_ : nat) (b : FfmpegDecoderBuffer) : Prop := fds b ≠ [].
Definition has_planes (n : nat) (b : FfmpegDecoderBuffer) : Prop := n = 1%nat ∧ fds b ≠ [].

Lemma has_plane_laws fuel :
  BackendLaws (D := FfmpegDecoder) (K := World) false true (good (LA := LA)) has_plane
    (VideoDecoderBackendSession0 := ffmpeg_session fuel).
Proof.
  apply ffmpeg_laws; [done|]. intros queue i ps b _ Hb Hn. by rewrite Hn in Hb.
Qed.

Lemma has_planes_laws `{!OnePlane} fuel :
  BackendLaws (D := FfmpegDecoder) (K := World) false true (good (LA := LA)) has_planes
    (VideoDecoderBackendSession0 := ffmpeg_session fuel).
Proof.
  apply ffmpeg_laws; [by intros n b [_ Hb]|]. intros queue i ps b Hps Hb.
  split; [by eapply new_one_plane|]. intros Hn. by rewrite Hn in Hb.
Qed.

Lemma ffmpeg_storage : MappableStorage (K := World) has_planes.
Proof.
  intros n [[|f fs]] j [-> Hb] Hj; [done|]. destruct j; [|lia]. by eexists.
Qed.

(** *** Enough fuel *)

Abbreviation safe := (session_safe (good (LA := LA)) has_plane).

(** Decoding and draining end for some fuel, and give the same for any more. *)
Lemma on_backend_eventually {A} (f : nat → M (World * FfmpegDecoderSession) Z A) Post (st : St) :
  (∀ r w bs, good bs → Post r (set_os w st.1, set_backend bs st.2)) →
  eventually f (λ _ x, good_st x) (d_os st.1, backend_session st.2) →
  eventually (λ m, on_backend (f m)) Post st.
Proof.
  intros HQ (n&[w bs]&r&Hg&Hf). exists n, (set_os w st.1, set_backend bs st.2), r.
  split; [by apply HQ|]. intros m Hm. unfold on_backend, zoom. by rewrite Hf.
Qed.

(** The methods of the composed device, by the fuel. *)
Abbreviation handler_at m := (decoder_handler (VideoDecoderBackendSession0 := ffmpeg_session m)
  (D := FfmpegDecoder) (Q := Q) (HM := HM)).

Lemma qbuf_eventually buffer regions (st : St) :
  safe st.2 →
  eventually (λ m, qbuf (VideoDecoderBackendSession0 := ffmpeg_session m) buffer regions)
    (λ _ st', safe st'.2) st.
Proof.
  destruct st as [d s]. intros Hs. unfold qbuf.
  apply eventually_bind, eventually_wp, wp_get_st. cbn [snd].
  apply eventually_bind, eventually_wp, wp_ok_or; [intros l Hl|done].
  apply eventually_bind, eventually_wp, wp_ok_or; [intros b Hb|done].
  apply eventually_bind, eventually_wp, wp_guard; [intros _|done].
  destruct (direction (buf_queue buffer)) eqn:Ed.
  - destruct (queue_buffers_output _ _ _ Hl Ed) as [-> ->].
    set (v1 := update_first_plane _ _).
    assert (same_shape (v4l2 b) v1) as Hv1 by (subst v1; auto with vmedia).
    pose proof (frame_input (P := λ st : St, safe st.2) (d, s) _ Hs (evolves_insert _ _ _ _ _ Hb
      (evolves_set_v4l2 _ _ _ Hv1))) as Hs1. cbn [fst snd] in Hs1.
    apply eventually_bind, eventually_wp, wp_zoom, wp_modify, eventually_bind. cbn [fst snd].
    eapply on_backend_eventually, decode_returns; [|by apply Hs].
    intros r w bs Hg.
    pose proof (frame_set_backend (P := λ st : St, safe st.2) (d, _) w bs Hs1 Hg) as Hs2.
    destruct r as [[]|e]; [|done]. apply eventually_wp, wp_bind, wp_zoom, wp_modify, wp_ret.
    apply (frame_input (P := λ st : St, safe st.2) _ _ Hs2).
    eapply evolves_twice; [done|]. auto with vmedia.
  - destruct (queue_buffers_capture _ _ _ Hl Ed) as [-> ->]. apply eventually_const; [done|].
    eapply wp_panic_mono, (wp_queue_capture (BL := has_plane_laws 0) (λ st : St, safe st.2));
      [done..|]. auto 6 with vmedia.
Qed.

Lemma decoder_cmd_eventually cmd (st : St) :
  safe st.2 →
  eventually (λ m, decoder_cmd (VideoDecoderBackendSession0 := ffmpeg_session m) cmd)
    (λ _ st', safe st'.2) st.
Proof.
  destruct st as [d s]. intros Hs.
  destruct (cmd_drains cmd s) eqn:Hdr.
  - unfold cmd_drains in Hdr. unfold decoder_cmd. destruct (DecoderCmd_try_from cmd) as [[]|]; try done.
    apply eventually_bind, eventually_wp, wp_ret.
    apply eventually_bind, eventually_wp, wp_get_st.
    apply eventually_bind, eventually_wp, wp_ret. cbn [snd].
    assert (safe (set_d_state (Stopped true true) s)) as Hs1.
    { apply (frame_quiet (P := λ st : St, safe st.2) (d, s) (d, _)); [done|by split_and!]. }
    apply eventually_bind.
    destruct (d_state s); [done|..]; apply eventually_bind, eventually_wp, wp_zoom, wp_modify;
      (eapply on_backend_eventually, drain_returns; [|by apply Hs]); intros [[]|e] w bs Hg;
      try apply eventually_wp, wp_ret;
      by apply (frame_set_backend (P := λ st : St, safe st.2) (d, _) w bs Hs1 Hg).
  - apply eventually_const.
    + intros m. unfold cmd_drains in Hdr. unfold decoder_cmd. unfold_M. cbn [snd].
      destruct (DecoderCmd_try_from cmd) as [c|]; [|done]. unfold session_try_decoder_cmd.
      destruct c; cbn -[streaming_state]; by destruct (d_state s).
    + apply (wp_decoder_cmd (BL := has_plane_laws 0) (λ st : St, safe st.2)); [done..|].
      by rewrite Hdr.
Qed.

Lemma call_eventually {a E T} (c : Call.ioctl_call a E T) (st : St) :
  is_reqbufs c = false → safe st.2 →
  eventually (λ m, Ioctl.call (VirtioMediaIoctlHandler0 := handler_at m) c) (λ _ st', safe st'.2) st.
Proof.
  intros Hc Hs. destruct (sends_pending (Call.call_ioctl c)) eqn:Hp.
  - destruct c; try done.
    + by apply qbuf_eventually.
    + apply eventually_const; [done|].
      exact (dec_keeps_streamon (BL := has_plane_laws 0) (λ st : St, safe st.2) queue st Hs).
    + by apply decoder_cmd_eventually.
  - apply eventually_const; [by intros m; destruct c|].
    eapply wp_panic_mono, (dec_keeps_call (BL := has_plane_laws 0) (λ st : St, safe st.2) c Hc), Hs.
    unfold call_panics. by rewrite Hp.
Qed.

Lemma step_eventually (step : session_step) (st : St) :
  step_reallocates step = false → safe st.2 →
  ∃ n st', safe st'.2 ∧ ∀ m, (n ≤ m)%nat →
    run_step (VideoDecoderBackendSession0 := ffmpeg_session m) step st = Ret st'.
Proof.
  intros Hstep Hs. destruct step as [a E T c|].
  - destruct (call_eventually c st Hstep Hs) as (n&st'&r&Hs'&Hn). exists n, st'. split; [done|].
    intros m Hm. cbn [run_step]. by rewrite (Hn m Hm).
  - pose proof (dec_keeps_process_events (BM := no_checks) (BL := has_plane_laws 0) (λ st : St, safe st.2) false
      ltac:(done) ltac:(done) ltac:(done) st Hs) as Hw. unfold wp in Hw.
    destruct (decoder_process_events st) as [[st' r]|] eqn:He; [|done].
    exists 0%nat, st'. split; [done|]. intros m _.
    transitivity (run_step (VideoDecoderBackendSession0 := ffmpeg_session 0) StepEvents st); [done|].
    cbn [run_step]. by rewrite He.
Qed.

(** With a codec that keeps its documented promises, and in a build without
    overflow checks, a session of the decoder device on the FFmpeg backend answers
    every sequence of ioctls and events between two REQBUFS: with enough fuel it
    returns, always the same state, in which the sequence can go on. *)
Theorem composed_session_answers steps (d : Dec) (s : Ses) :
  Forall (λ step, step_reallocates step = false) steps → safe s →
  ∃ n d' s', safe s' ∧ ∀ m, (n ≤ m)%nat →
    run_steps (VideoDecoderBackendSession0 := ffmpeg_session m) steps (d, s) = Ret (d', s').
Proof.
  intros Hall. revert d s. induction Hall as [|step steps Hstep _ IH]; intros d s Hs.
  { by exists 0%nat, d, s. }
  destruct (step_eventually step (d, s) Hstep Hs) as (n1&[d1 s1]&Hs1&H1).
  destruct (IH d1 s1 Hs1) as (n2&d2&s2&Hs2&H2). exists (n1 `max` n2)%nat, d2, s2.
  split; [done|]. intros m Hm. cbn [run_steps]. rewrite H1 by lia. cbn. apply H2. lia.
Qed.
End Device.

Section Vmm.
#[local] Existing Instance no_checks.
Context `{V : V4l2r} {VL : V4l2rLaws} {AU : Avutil} `{!OnePlane}.
Context {Q HM P K L : Type} `{!VirtioMediaEventQueue Q} `{!VirtioMediaHostMemoryMapper HM}.
Context `{!Kernel K} `{!EventFd K} `{LA : !Libav L}.
Context `{CL : !CodecLaws L} `{SL : !SizeLaws L} `{!SessionPoller P} (fuel : nat).
Abbreviation World := (K * L)%type.
Abbreviation Dec := (VideoDecoder FfmpegDecoder Q HM World).
Abbreviation Ses := (VideoDecoderSession (FfmpegDecoderSession (LA := LA)) FfmpegDecoderBuffer).
#[local] Existing Instances ffmpeg_backing ffmpeg_backend.
#[local] Instance session_at : VideoDecoderBackendSession World FfmpegDecoderSession
  FfmpegDecoderBuffer := ffmpeg_session fuel.
Context `{!PollerContract (P := P) (D := Dec) Ses}.

(** Whether a step gives work to the backend or subscribes to an event. *)
Definition works (step : vmm_step) : bool :=
  match step with
  | Command r _ =>
      match requested_ioctl r with
      | Some VIDIOC_SUBSCRIBE_EVENT => true
      | Some ioctl => sends_pending ioctl
      | None => false
      end
  | Ready _ => false
  end.

(** C13: the decoder device on the FFmpeg backend, in a build without overflow
    checks and whatever the fuel, for libraries that keep their documented promises
    ([CodecLaws]) and report dimensions that fit ([SizeLaws]), and for descriptions of
    one plane ([OnePlane]): any sequence of commands and events leaves every session
    with a backend session fit for decoding and with buffers that describe themselves
    and can be mapped, their planes having a descriptor and a registered offset that
    no other plane has; or else it panics and contains a QBUF, STREAMON, DECODER_CMD
    or SUBSCRIBE_EVENT. *)
Theorem composed_device_invariant decoder (q : Q) (hm : HM) (w : World) (p : P) steps :
  Z.of_nat (length steps) ≤ u32_max →
  let o := run_vmm steps (runner_new (VideoDecoder_new decoder q hm w : Dec) p) in
  (∀ rn id s, o = Ret rn → sessions rn !! id = Some s → d_id s = id ∧ good (backend_session s) ∧
     mappables (K := World) VideoOutputMplane (input_buffers s) ∧
     mappables (K := World) VideoCaptureMplane (output_buffers s) ∧ offsets_mappable rn id s) ∧
  (o = Panic → existsb works steps = true).
Proof.
  intros Hlen o. pose proof (has_planes_laws (K := K) fuel) as BL. pose proof (ffmpeg_storage (K := K) (L := L)) as MS.
  pose proof (run_vmm_new (decoder_panics (pd := true) (strict := false)) overflow_checks
    (offs_inv (I := good (LA := LA)) (J := has_planes) (strict := false)) _ p steps
    (offs_inv_new decoder q hm w) Hlen
    (polite_always _ _)) as Hw.
  fold o in Hw. split.
  - intros rn id s Ho Hs. rewrite Ho in Hw. destruct Hw as (n&[[_ Hm] Hof]&_).
    destruct (Hm id s Hs) as (Hid&Hg&Hin&Hout&_).
    split_and!; [done..|by apply (stored_mappables (J := has_planes))|
      by apply (stored_mappables (J := has_planes))|by apply owned_mappable].
  - intros Ho. rewrite Ho in Hw. rewrite <-Hw. clear. induction steps as [|step steps IH]; [done|]. cbn [existsb]. rewrite IH.
    f_equal. destruct step as [r w|id]; [|done]. cbn. unfold may_panic, decoder_panics, method_panics.
    by destruct (requested_ioctl r) as [[]|].
Qed.
End Vmm.

(** ** Witnesses *)

Module DeviceWitness.
Import V4l2r.Sample SampleAvutil SampleEventFd SampleFfmpeg FfmpegWitness.
#[local] Existing Instances no_checks ffmpeg_backing ffmpeg_backend.

#[local] Instance log_queue : VirtioMediaEventQueue (list (V4l2Event buf st)) := λ e q, q ++ [e].
#[local] Instance vmm_poller : SessionPoller unit := {|
  add_session _ _ _ := Ret (tt, Ok tt);
  remove_session _ _ := Ret tt;
|}.
#[local] Instance sample_one_plane : OnePlane.
Proof. intros queue i ps [_ Hp]%planes_of_mmap. cbn in Hp. by subst. Qed.

#[local] Instance session9 : VideoDecoderBackendSession (list Z * codec_state) FfmpegDecoderSession
  FfmpegDecoderBuffer := ffmpeg_session 9.
Abbreviation Dec := (VideoDecoder FfmpegDecoder (list (V4l2Event buf st)) unit (list Z * codec_state)).
Abbreviation Ses := (VideoDecoderSession (FfmpegDecoderSession (LA := sample_libav)) FfmpegDecoderBuffer).

Definition device0 : Dec := VideoDecoder_new FfmpegDecoder_new [] tt ([], ([], false)).

Definition command (bytes : list byte) : vmm_step := Command bytes (mkWriter [] 128).
Definition ioctl_step (code : Z) (payload : list byte) : vmm_step :=
  command (c_enc c_CmdHeader (mkCmdHeader VIRTIO_MEDIA_CMD_IOCTL 0) ++
           c_enc c_IoctlCmd (mkIoctlCmd 0 code) ++ payload).
Definition reqbufs_step (queue n : Z) : vmm_step := ioctl_step 8 (c_enc c_st ((queue, n), (0, 1))).
Definition streamon_step (queue : Z) : vmm_step := ioctl_step 18 (c_enc c_u32 queue).
Definition qbuf_step (queue i : Z) : vmm_step :=
  ioctl_step 15 (c_enc c_st ((queue, 1), (i, 1)) ++ c_enc c_st ((0, 16), (0, 0))).
Definition stop_step : vmm_step := ioctl_step 96 (c_enc c_st ((1, 0), (0, 0))).

(** A guest that decodes one frame and drains the decoder. *)
Definition decoding_steps : list vmm_step :=
  [command (c_enc c_CmdHeader (mkCmdHeader VIRTIO_MEDIA_CMD_OPEN 0));
   reqbufs_step 10 1; reqbufs_step 9 2; streamon_step 10; streamon_step 9;
   qbuf_step 9 0; qbuf_step 9 1; qbuf_step 10 0; stop_step; Ready 0; Ready 0; Ready 0].

Definition decoding_run : outcome (VirtioMediaDeviceRunner Dec Ses unit) :=
  run_vmm decoding_steps (runner_new device0 tt).

(** The queue, the index and the flags of a buffer that the guest gets back. *)
Definition returned (e : V4l2Event buf st) : option (Z * Z * Z) :=
  match e with
  | EvDequeueBuffer x =>
      Some (queue (dq_v4l2_buffer x), Sample.index (dq_v4l2_buffer x), flags (dq_v4l2_buffer x))
  | _ => None
  end.

(** The guest gets back its input buffer, the frame, and the empty last buffer of
    the drain. *)
Example decoding_run_messages :
  match decoding_run with
  | Ret rn => (omap returned (event_queue (device rn)), length <$> (output_buffers <$> sessions rn !! 0))
  | Panic => ([], None)
  end = ([(10, 0, FLAG_TIMESTAMP_MONOTONIC); (9, 0, FLAG_TIMESTAMP_COPY); (9, 1, FLAG_LAST)], Some 2%nat).
Proof. vm_compute. reflexivity. Qed.

#[local] Instance sample_poller : PollerContract (P := unit) (D := Dec) Ses.
Proof. by split. Qed.

Lemma composed_device_invariant_witness :
  ∃ rn s, decoding_run = Ret rn ∧ sessions rn !! 0 = Some s ∧
    mappables (K := list Z * codec_state) VideoCaptureMplane (output_buffers s) ∧
    offsets_mappable rn 0 s.
Proof.
  pose proof decoding_run_messages as Hq.
  destruct decoding_run as [rn|] eqn:Hrun; [|discriminate].
  destruct (sessions rn !! 0) as [s|] eqn:Es; [|discriminate].
  destruct (composed_device_invariant (V := sample_v4l2r) 9 FfmpegDecoder_new [] tt ([], ([], false)) tt
    decoding_steps ltac:(vm_compute; congruence)) as [Hinv _].
  destruct (Hinv rn 0 s Hrun Es) as (_&_&_&Ho&Hof).
  exists rn, s. split; [reflexivity|]. split; [exact Es|]. split; [exact Ho|exact Hof].
Defined.

(** A session with one OUTPUT and two CAPTURE buffers, and a guest that decodes. *)
Definition buffer_at (q i : Z) : buf := mkBuf q i 1 0 (mkTimeval 0 0) 0 [mkPlane 115200 16 None 0].
Definition session1 : Ses :=
  mkDecSession 0 default_state [mkDecBuffer (buffer_at 10 0) plane_buffer]
    [mkDecBuffer (buffer_at 9 0) plane_buffer; mkDecBuffer (buffer_at 9 1) plane_buffer]
    [] 0 false false (Settable (mkRect 0 0 0 0)) default_colorspace session0 false.
Definition steps1 : list session_step :=
  [StepCall (Call.streamon 10); StepCall (Call.streamon 9); StepCall (Call.qbuf (buffer_at 9 0) []);
   StepCall (Call.qbuf (buffer_at 9 1) []); StepCall (Call.qbuf (buffer_at 10 0) []);
   StepCall (Call.decoder_cmd ((1, 0), (0, 0))); StepEvents; StepEvents; StepEvents].

Lemma composed_session_answers_witness :
  ∃ n d s, ∀ m, (n ≤ m)%nat →
    run_steps (VideoDecoderBackendSession0 := ffmpeg_session m) steps1 (device0, session1) = Ret (d, s).
Proof.
  destruct (composed_session_answers (V := sample_v4l2r) steps1 device0 session1) as (n&d&s&_&Hn).
  - repeat constructor.
  - split; [constructor|]. split.
    + split_and!; cbn; [unfold is_dim; lia..|constructor].
    + intros b Hb. exists 0%nat. unfold has_plane.
      cbn in Hb. rewrite !elem_of_cons, elem_of_nil in Hb. by destruct Hb as [->|[->|[->|[]]]].
  - exists n, d, s. exact Hn.
Defined.
End DeviceWitness.
