(* ===== verification/FfmpegGuest.v ===== *)
(** * What the guest sees of the FFmpeg backend

    Every ioctl and every event of a session of the decoder device acts on its
    FFmpeg session through the operations of [FfmpegMachine.v], and sends the guest
    the buffers that the events of the backend name ([effect]).  So what those
    operations guarantee reaches the guest: the buffers it queued are accounted for,
    and after a drain it gets no input buffer back. *)

From Stdlib Require Import Strings.Byte.
From stdpp Require Import strings.
From S2P Require Import Prelude RustStd Traits Mmap MemFd Bytes Protocol Io V4l2r Ioctl Runner VideoDecoder DecoderFrame DecoderBehaviour EventQueue Avcodec FfmpegDecoder FfmpegMachine FfmpegBehaviour FfmpegDevice.
#[local] Open Scope Z_scope.

Section Guest.
Context `{BM : BuildMode} `{V : V4l2r} {VL : V4l2rLaws} {AU : Avutil}.
Context {HM K L : Type} `{!VirtioMediaHostMemoryMapper HM}.
Context `{!Kernel K} `{!EventFd K} `{LA : !Libav L} (fuel : nat).
Abbreviation World := (K * L)%type.
Abbreviation FSes := (FfmpegDecoderSession (LA := LA)).
Abbreviation Ev := (V4l2Event V4l2Buffer (vstruct v4l2_event)).
Abbreviation Dec := (VideoDecoder FfmpegDecoder (list Ev) HM World).
Abbreviation Ses := (VideoDecoderSession FSes FfmpegDecoderBuffer).
Abbreviation St := (Dec * Ses)%type.
#[local] Existing Instances ffmpeg_backing ffmpeg_backend.
#[local] Instance ffmpeg_session_at : VideoDecoderBackendSession World FSes FfmpegDecoderBuffer :=
  ffmpeg_session fuel.

(** A guest that records the events it is sent. *)
#[local] Instance guest_log : VirtioMediaEventQueue (list Ev) := λ e q, q ++ [e].

(** The buffers of queue [q] that the guest gets back. *)
Definition dequeued_by (q : QueueType) (e : Ev) : option Z :=
  match e with
  | EvDequeueBuffer x =>
      if bool_decide (buf_queue (dq_v4l2_buffer x) = q) then Some (buf_index (dq_v4l2_buffer x)) else None
  | _ => None
  end.
Definition dequeued (q : QueueType) (es : list Ev) : list Z := omap (dequeued_by q) es.

(** ** Calls on the session of the backend *)

Inductive backend_call :=
| BOp (op : session_op)
| BFormat (decoder : FfmpegDecoder) (dir : QueueDirection) (format : V4l2MplaneFormat).

Definition run_backend_call (c : backend_call) : M (World * FSes) Z (option VideoDecoderBackendEvent) :=
  match c with
  | BOp op => run_session_op fuel op
  | BFormat decoder dir format =>
      modify (λ st, (st.1, apply_format decoder st.2 dir format)) ;; mret None
  end.

(** Calls with their results. *)
Abbreviation trace := (list (backend_call * result (option VideoDecoderBackendEvent) Z)).

Fixpoint performs (tr : trace) (st st' : World * FSes) : Prop :=
  match tr with
  | [] => st' = st
  | (c, r) :: tr => ∃ st1, run_backend_call c st = Ret (st1, r) ∧ performs tr st1 st'
  end.

Lemma performs_app tr tr' st st1 st' :
  performs tr st st1 → performs tr' st1 st' → performs (tr ++ tr') st st'.
Proof.
  revert st. induction tr as [|[c r] tr IH]; intros st; [by intros ->|].
  intros (st2&Hc&Htr) Htr'. exists st2. eauto.
Qed.

Definition op_of (x : backend_call * result (option VideoDecoderBackendEvent) Z) : option session_op :=
  match x.1 with BOp op => Some op | BFormat _ _ _ => None end.
(** What the calls submit and offer, and the events they return. *)
Definition tr_submitted (tr : trace) : list Z := omap submitted_by (omap op_of tr).
Definition tr_offered (tr : trace) : list Z := omap offered_by (omap op_of tr).
Definition tr_events (tr : trace) : list VideoDecoderBackendEvent := omap (event_of ∘ snd) tr.

(** ** Effects *)

(** The index of a buffer, which the decoder uses [as usize]. *)
Definition position (i : Z) : Z := Z.of_nat (Z.to_nat i).

Definition view (st : St) : World * FSes := (d_os st.1, backend_session st.2).

(** The buffers of [l] that a queue of [n] buffers has. *)
Definition existing (n : nat) (l : list Z) : list Z :=
  position <$> filter (λ i, (Z.to_nat i < n)%nat) l.

(** From [st] to [st'] the session of the backend goes through some calls, and the
    guest gets the buffers that their events name.  If [ok], all calls succeed and
    submit the inputs [qi], the buffers of [qi] and [qo] exist, and the buffers
    offered, followed by those that wait, are among those that waited, followed by
    [qo]. *)
Definition effect (ok : bool) (qi qo : list Z) (st st' : St) : Prop :=
  session_wf st'.2 ∧
  length (input_buffers st'.2) = length (input_buffers st.2) ∧
  length (output_buffers st'.2) = length (output_buffers st.2) ∧
  ∃ tr es, performs tr (view st) (view st') ∧ event_queue st'.1 = event_queue st.1 ++ es ∧
    dequeued VideoOutputMplane es = existing (length (input_buffers st.2)) (done_ids (tr_events tr)) ∧
    dequeued VideoCaptureMplane es = existing (length (output_buffers st.2)) (frame_ids (tr_events tr)) ∧
    (ok = true → Forall (λ x, is_ok x.2 = true) tr ∧ tr_submitted tr = qi ∧
      Forall (λ i, 0 ≤ i < Z.of_nat (length (input_buffers st.2))) qi ∧
      Forall (λ i, 0 ≤ i < Z.of_nat (length (output_buffers st.2))) qo ∧
      tr_offered tr ++ (position <$> pending_output_buffers st'.2)
        `sublist_of` (position <$> pending_output_buffers st.2) ++ qo).

Lemma effect_false ok qi qo qi' qo' st st' : effect ok qi qo st st' → effect false qi' qo' st st'.
Proof. intros (?&?&?&tr&es&?&?&?&?&_). split_and!; [done..|]. by exists tr, es. Qed.

Lemma effect_trans ok ok' qi qo qi' qo' st st1 st' :
  effect ok qi qo st st1 → effect ok' qi' qo' st1 st' →
  effect (ok && ok') (qi ++ qi') (qo ++ qo') st st'.
Proof.
  intros (_&Hi&Ho&tr&es&Hp&He&Hdi&Hdo&Hok) (Hwf&Hi'&Ho'&tr'&es'&Hp'&He'&Hdi'&Hdo'&Hok').
  split_and!; [done|congruence..|]. exists (tr ++ tr'), (es ++ es'). split_and!.
  - by eapply performs_app.
  - by rewrite He', He, app_assoc.
  - unfold dequeued, existing, done_ids, tr_events in *. rewrite Hi in Hdi'.
    by rewrite !omap_app, filter_app, fmap_app, Hdi, Hdi'.
  - unfold dequeued, existing, frame_ids, tr_events in *. rewrite Ho in Hdo'.
    by rewrite !omap_app, filter_app, fmap_app, Hdo, Hdo'.
  - intros [Hk Hk']%andb_prop. destruct (Hok Hk) as (Hall&Hs&Hqi&Hqo&Hof).
    destruct (Hok' Hk') as (Hall'&Hs'&Hqi'&Hqo'&Hof'). rewrite Hi in Hqi'. rewrite Ho in Hqo'.
    split_and!; [by apply Forall_app| |by apply Forall_app..|].
    + unfold tr_submitted in *. by rewrite !omap_app, Hs, Hs'.
    + unfold tr_offered in *. rewrite !omap_app, <-app_assoc.
      etrans; [apply sublist_app; [reflexivity|exact Hof']|]. rewrite !app_assoc.
      by apply sublist_app.
Qed.

(** A state that differs in nothing that an effect looks at. *)
Definition same_view (st st' : St) : Prop :=
  view st' = view st ∧ event_queue st'.1 = event_queue st.1 ∧
  input_buffers st'.2 = input_buffers st.2 ∧ output_buffers st'.2 = output_buffers st.2 ∧
  pending_output_buffers st'.2 = pending_output_buffers st.2.

Lemma effect_same ok st st' : session_wf st.2 → same_view st st' → effect ok [] [] st st'.
Proof.
  intros Hwf (Hv&He&Hi&Ho&Hp). split; [unfold session_wf; by rewrite Hi, Ho|]. rewrite Hi, Ho, Hp.
  split_and!; [done..|]. exists [], []. rewrite !app_nil_r. split_and!; [done..|].
  intros _. by split_and!.
Qed.

(** One call on the backend, without events. *)
Lemma effect_call c r (st st' : St) :
  session_wf st'.2 →
  length (input_buffers st'.2) = length (input_buffers st.2) →
  length (output_buffers st'.2) = length (output_buffers st.2) →
  event_queue st'.1 = event_queue st.1 →
  run_backend_call c (view st) = Ret (view st', r) → event_of r = None →
  Forall (λ i, 0 ≤ i < Z.of_nat (length (input_buffers st.2))) (tr_submitted [(c, r)]) →
  Forall (λ i, 0 ≤ i < Z.of_nat (length (output_buffers st.2))) (tr_offered [(c, r)]) →
  tr_offered [(c, r)] ++ (position <$> pending_output_buffers st'.2)
    `sublist_of` (position <$> pending_output_buffers st.2) ++ tr_offered [(c, r)] →
  effect (is_ok r) (tr_submitted [(c, r)]) (tr_offered [(c, r)]) st st'.
Proof.
  intros Hwf Hi Ho He Hc Hev Hqi Hqo Hp. split_and!; [done..|]. exists [(c, r)], [].
  assert (tr_events [(c, r)] = []) as -> by (unfold tr_events; cbn; by rewrite Hev).
  rewrite app_nil_r. split_and!; [by exists (view st')|done..|]. intros Hr.
  by split_and!; [repeat constructor|..].
Qed.

Definition acts {E A} (qi qo : list Z) (m : M St E A) : Prop :=
  ∀ st, session_wf st.2 → wp true m (λ r st', effect (is_ok r) qi qo st st') st.

Lemma acts_bind {E A B} qi qo qi' qo' (m : M St E A) (f : A → M St E B) :
  acts qi qo m → (∀ a, acts qi' qo' (f a)) → acts (qi ++ qi') (qo ++ qo') (m ≫= f).
Proof.
  intros Hm Hf st Hwf. apply wp_bind. eapply wp_mono, Hm, Hwf. intros [a|e] st1 H1.
  - eapply wp_mono, Hf, H1. intros r st2 H2. by eapply (effect_trans true).
  - by eapply effect_false.
Qed.

Lemma acts_seq {E A B} qi qo (m : M St E A) (f : A → M St E B) :
  acts [] [] m → (∀ a, acts qi qo (f a)) → acts qi qo (m ≫= f).
Proof. apply (acts_bind [] []). Qed.

(** The same for a computation whose errors come before it has any effect. *)
Definition settles {E A} (m : M St E A) : Prop :=
  ∀ st, session_wf st.2 → wp true m (λ _ st', effect true [] [] st st') st.

Lemma settles_acts {E A} (m : M St E A) : settles m → acts [] [] m.
Proof.
  intros Hm st Hwf. eapply wp_mono, Hm, Hwf. intros [a|e] st' H1; [done|by eapply effect_false].
Qed.

Lemma settles_bind {E A B} (m : M St E A) (f : A → M St E B) :
  settles m → (∀ a, settles (f a)) → settles (m ≫= f).
Proof.
  intros Hm Hf st Hwf. apply wp_bind. eapply wp_mono, Hm, Hwf. intros [a|e] st1 H1; [|done].
  eapply wp_mono, Hf, H1. intros r st2 H2. by apply (effect_trans true true [] [] [] [] st st1 st2).
Qed.

Lemma settles_same {E A} (m : M St E A) :
  (∀ st, wp true m (λ _ st', same_view st st') st) → settles m.
Proof. intros Hm st Hwf. eapply wp_mono, Hm. intros r st' H1. by apply effect_same. Qed.

Lemma settles_pure {E A} (m : M St E A) :
  (∀ st, wp true m (λ _ st', st' = st) st) → settles m.
Proof. intros Hm. apply settles_same. intros st. eapply wp_mono, Hm. by intros r st' ->. Qed.

Lemma acts_pure {E A} (m : M St E A) :
  (∀ st, wp true m (λ _ st', st' = st) st) → acts [] [] m.
Proof. intros Hm. by apply settles_acts, settles_pure. Qed.

Lemma acts_ret {E A} (a : A) : acts [] [] (mret a : M St E A).
Proof. by apply acts_pure. Qed.

(** ** The operations *)

(** A method of the backend that a [session_op] stands for. *)
Lemma wp_call_backend op (m : M (World * FSes) Z unit) (st : St) :
  run_session_op fuel op = (m ;; mret None) → offered_by op = None → session_wf st.2 →
  Forall (λ i, 0 ≤ i < Z.of_nat (length (input_buffers st.2))) (option_list (submitted_by op)) →
  wp true (on_backend m)
    (λ r st', effect (is_ok r) (option_list (submitted_by op)) [] st st') st.
Proof.
  destruct st as [d s]. intros Hop Hoff Hwf Hqi. apply wp_zoom. unfold wp. cbn [fst snd] in *.
  destruct (m (d_os d, backend_session s)) as [[[w bs] r]|] eqn:Hm; [|done].
  set (r' := map_ok (λ _ : unit, None : option VideoDecoderBackendEvent) r).
  assert (run_backend_call (BOp op) (view (d, s)) = Ret ((w, bs), r')) as Hc.
  { cbn [run_backend_call]. rewrite Hop. unfold mbind, M_bind, view. cbn [fst snd]. rewrite Hm.
    by destruct r. }
  assert (tr_offered [(BOp op, r')] = []) as Ho by (unfold tr_offered; cbn; by rewrite Hoff).
  assert (tr_submitted [(BOp op, r')] = option_list (submitted_by op)) as Hs
    by (unfold tr_submitted; cbn; by destruct (submitted_by op)).
  replace (is_ok r) with (is_ok r') by (by destruct r). rewrite <-Hs, <-Ho.
  apply (effect_call (BOp op) r'); rewrite ?Hs, ?Ho; try done; [by destruct r|]. by rewrite app_nil_r.
Qed.

Lemma acts_on_backend op (m : M (World * FSes) Z unit) :
  run_session_op fuel op = (m ;; mret None) → offered_by op = None → submitted_by op = None →
  acts [] [] (on_backend m : M St Z unit).
Proof.
  intros Hop Hoff Hs st Hwf. pose proof (wp_call_backend op m st Hop Hoff Hwf) as Hw.
  rewrite Hs in Hw. by apply Hw.
Qed.

Lemma acts_streaming {E} dir on :
  acts [] [] (VideoDecoder.on_ses (modify (λ s : Ses, set_backend
    (bs_streaming_state dir on (backend_session s)) s)) : M St E unit).
Proof.
  intros [d s] Hwf. apply wp_zoom, wp_modify.
  apply (effect_call (BOp (OpStreaming dir on)) (Ok None)); try done. by rewrite app_nil_r.
Qed.

Lemma wp_send_output i (st : St) :
  session_wf st.2 → pending_output_buffers st.2 = [] →
  wp true (send_output_buffer i) (λ r st', effect (is_ok r) [] [position i] st st' ∧
    pending_output_buffers st'.2 = []) st.
Proof.
  destruct st as [d s]. intros Hwf Hp. unfold send_output_buffer. apply wp_bind, wp_get_st, wp_bind.
  cbn [snd]. unfold unwrap. destruct (output_buffers s !! Z.to_nat i) as [b|] eqn:Hb; [|done].
  apply wp_ret, wp_zoom. cbn [bs_use_as_output ffmpeg_session_at ffmpeg_session fst snd].
  apply wp_bind, wp_get_st, wp_zoom. cbn [fst snd]. destruct (proj2 Hwf _ _ Hb) as (_&Hidx&_).
  rewrite Hidx. unfold wp.
  destruct (use_as_output _ _ _) as [[[w bs] r]|] eqn:Hu; [|done].
  cbn [fst snd]. split; [|done]. rewrite list_insert_id by (by rewrite Hb; destruct b).
  assert (run_backend_call (BOp (OpUseAsOutput (position i) (backing b))) (view (d, s))
    = Ret ((w, bs), map_ok (λ _, None) r)) as Hc.
  { cbn [run_backend_call run_session_op]. unfold mbind, M_bind, view, position. cbn [fst snd].
    rewrite Hu. by destruct r. }
  replace (is_ok r) with (is_ok (map_ok (λ _, None : option VideoDecoderBackendEvent) r))
    by (by destruct r).
  eapply (effect_call (BOp (OpUseAsOutput (position i) (backing b))) _ (d, s)); try done;
    [by destruct r|..].
  - apply lookup_lt_Some in Hb. unfold position. constructor; [cbn; lia|constructor].
  - cbn [fst snd] in Hp. cbn. by rewrite Hp.
Qed.

Lemma acts_try_send : acts [] [] (try_send_pending_output_buffers : M St Z unit).
Proof.
  assert (∀ l (st : St), session_wf st.2 → pending_output_buffers st.2 = [] →
    wp true (forM_ send_output_buffer l) (λ r st', effect (is_ok r) [] (position <$> l) st st') st)
    as Hloop.
  { induction l as [|i l IH]; intros st Hwf Hp; cbn [forM_]; [by apply wp_ret, effect_same|].
    apply wp_bind. eapply wp_mono, wp_send_output; [|done..]. intros [[]|e] st1 [H1 Hp1].
    - eapply wp_mono, IH; [|apply H1|done]. intros r st2 H2. by apply (effect_trans true _ [] [_] [] _ _ st1).
    - by eapply effect_false. }
  intros [d s] Hwf. unfold try_send_pending_output_buffers. apply wp_bind, wp_get_st. cbn [snd].
  destruct (is_output_streaming _); [|by apply wp_ret, effect_same].
  apply wp_bind, wp_zoom, wp_modify. cbn [fst snd].
  eapply wp_mono, Hloop; [|done..]. intros r st (Hwf'&Hi&Ho&tr&es&Hpf&He&Hdi&Hdo&Hok).
  split_and!; [done..|]. exists tr, es. split_and!; [done..|]. intros Hr.
  destruct (Hok Hr) as (Hall&Hs&_&_&Hof). split_and!; [done..|]. by rewrite app_nil_r.
Qed.

(** Updates of the session that leave the backend alone. *)
Lemma effect_modify ok (d : Dec) (s s' : Ses) :
  session_wf s' → length (input_buffers s') = length (input_buffers s) →
  length (output_buffers s') = length (output_buffers s) → backend_session s' = backend_session s →
  pending_output_buffers s' `sublist_of` pending_output_buffers s →
  effect ok [] [] (d, s) (d, s').
Proof.
  intros Hwf Hi Ho Hb Hp. split_and!; [done..|]. exists [], []. rewrite !app_nil_r.
  split_and!; [by unfold view; cbn; rewrite Hb|done..|]. intros _. split_and!; [done..|].
  by apply fmap_sublist.
Qed.

Lemma settles_modify {E} (f : Ses → Ses) :
  (∀ s, session_wf s → session_wf (f s) ∧ length (input_buffers (f s)) = length (input_buffers s) ∧
     length (output_buffers (f s)) = length (output_buffers s) ∧
     backend_session (f s) = backend_session s ∧
     pending_output_buffers (f s) `sublist_of` pending_output_buffers s) →
  settles (VideoDecoder.on_ses (modify f) : M St E unit).
Proof.
  intros Hf [d s] Hwf. apply wp_zoom, wp_modify. destruct (Hf s Hwf) as (?&?&?&?&?).
  by apply effect_modify.
Qed.

Lemma clear_queued_wf q (l : list (VideoDecoderBuffer FfmpegDecoderBuffer)) :
  buffers_wf q l → buffers_wf q (clear_queued <$> l).
Proof.
  intros Hl i b. rewrite list_lookup_fmap. destruct (l !! i) as [b0|] eqn:Hb; [|done].
  intros [= <-]. destruct (Hl i b0 Hb) as (Hq&Hidx&p&ps&Hp).
  split_and!; [..|exists p, ps]; cbn; by autorewrite with v4l2r.
Qed.

Lemma acts_streamon queue : acts [] [] (streamon queue : M St Z unit).
Proof.
  apply acts_seq; [by apply acts_pure|intros st0].
  apply acts_seq; [apply acts_pure; by destruct (queue_buffers _ _)|intros l].
  apply acts_seq; [apply acts_pure; by destruct (bool_decide _)|intros _].
  apply acts_seq; [by apply settles_acts, settles_modify|intros _].
  apply acts_seq; [apply acts_streaming|intros _; apply acts_try_send].
Qed.

Lemma acts_streamoff queue : acts [] [] (streamoff queue : M St Z unit).
Proof.
  apply acts_seq; [|intros _; apply acts_streaming]. destruct (direction queue).
  - apply acts_seq; [by apply settles_acts, settles_modify|intros _]. apply settles_acts, settles_modify.
    intros s [Hi Ho]. cbn. split_and!; [|by rewrite length_fmap|done..].
    split; [by apply clear_queued_wf|done].
  - apply acts_seq; [by apply (acts_on_backend OpClear)|intros _].
    apply acts_seq.
    { apply settles_acts, settles_modify. intros s Hs. split_and!; try done. apply sublist_nil_l. }
    intros _. apply settles_acts, settles_modify. intros s [Hi Ho]. cbn. split_and!; [|done|by rewrite length_fmap|done..].
    split; [done|by apply clear_queued_wf].
Qed.

Lemma acts_decoder_cmd cmd : acts [] [] (decoder_cmd cmd : M St Z (vstruct v4l2_decoder_cmd)).
Proof.
  apply acts_seq; [apply acts_pure; by destruct (DecoderCmd_try_from cmd)|intros c].
  apply acts_seq; [by apply acts_pure|intros st0].
  apply acts_seq; [apply acts_pure; by destruct (session_try_decoder_cmd _ _)|intros c'].
  apply acts_seq; [|intros _; apply acts_ret].
  destruct c', (d_state st0.2) as [i o| |]; try apply acts_ret; try (by apply settles_acts, settles_modify).
  1, 2: apply acts_seq; [by apply settles_acts, settles_modify|intros _]; by apply (acts_on_backend OpDrain).
  apply acts_seq; [|intros _; apply acts_try_send].
  destruct (i && o); [|apply acts_ret].
  apply acts_seq; [by apply settles_acts, settles_modify|intros _; apply acts_streaming].
Qed.

(** *** Calls that give no work to the backend *)

Lemma settles_s_fmt queue format : settles (s_fmt queue format : M St Z (vstruct v4l2_format)).
Proof.
  apply settles_bind; [by apply settles_pure|intros st0].
  apply settles_bind; [apply settles_pure; by destruct (try_format _ _ _ _)|intros res].
  apply settles_bind; [apply settles_pure; by destruct res|intros f].
  apply settles_bind.
  { intros [d s] Hwf. apply wp_zoom, wp_modify.
    apply (effect_call (BFormat (backend st0.1) (direction queue) f) (Ok None)); try done.
    by rewrite app_nil_r. }
  intros _. apply settles_bind; [|intros _; apply settles_bind; [|intros _; by apply settles_pure]].
  - case_bool_decide; [by apply settles_modify|by apply settles_pure].
  - destruct (crop_rectangle _); [|by apply settles_pure]. destruct (mp_size f). by apply settles_modify.
Qed.

Lemma settles_s_selection ty tgt rect flags : settles (s_selection ty tgt rect flags : M St Z v4l2_rect).
Proof.
  assert (settles (st ← get_st; lift_result (get_selection st.2 ty tgt) : M St Z v4l2_rect)) as Hlast.
  { apply settles_pure. intros st. apply wp_bind, wp_get_st. unfold wp, lift_result.
    by destruct (get_selection _ _ _). }
  apply settles_bind; [apply settles_pure; by destruct (negb _)|intros _].
  apply settles_bind; [by apply settles_pure|intros st0].
  apply settles_bind; [|by intros _]. destruct (crop_rectangle _); [|by apply settles_pure].
  apply settles_bind; [apply settles_pure; by destruct (bs_current_format _ _)|intros f].
  apply settles_bind; [apply settles_pure; by destruct (u32_sub _ _)|intros w].
  apply settles_bind; [apply settles_pure; by destruct (u32_sub _ _)|intros h].
  by apply settles_modify.
Qed.

Lemma settles_by_ref {E T} (m : Ses → M Dec E T) :
  (∀ s d, wp true (m s) (λ _ d', d' = d) d) → settles (run_method ByRef m).
Proof.
  intros Hm. apply settles_pure. intros [d s]. specialize (Hm s d). unfold wp in *. cbn.
  destruct (m s d) as [[d' r]|]; [by subst|done].
Qed.

Lemma settles_subscribe event flags : settles (subscribe_event event flags : M St Z unit).
Proof.
  unfold subscribe_event. repeat case_bool_decide; [by apply settles_modify..|by apply settles_pure].
Qed.

Lemma settles_unsubscribe event : settles (unsubscribe_event event : M St Z unit).
Proof.
  unfold unsubscribe_event. apply settles_bind; [|intros _; apply settles_bind].
  1, 2: case_match; [by apply settles_modify|by apply settles_pure].
  intros _. apply settles_pure. by destruct (negb _).
Qed.

(** The ioctls that give work to the backend. *)
Definition uses_backend (ioctl : V4l2Ioctl) : bool :=
  match ioctl with
  | VIDIOC_QBUF | VIDIOC_STREAMON | VIDIOC_STREAMOFF | VIDIOC_DECODER_CMD => true
  | _ => false
  end.

Lemma settles_call {a E T} (c : Call.ioctl_call a E T) :
  is_reqbufs c = false → uses_backend (Call.call_ioctl c) = false → settles (Ioctl.call c : M St E T).
Proof.
  intros Hc Hu. destruct c; try done; unfold Ioctl.call; cbn [ioctl_method decoder_handler].
  all: try by apply settles_pure.
  all: try by first [apply settles_s_fmt | apply settles_s_selection | apply settles_subscribe
    | apply settles_unsubscribe].
  all: try (apply settles_by_ref; by intros s d).
  all: try (apply settles_by_ref; intros s d; unfold wp, enum_fmt, querybuf, enum_framesizes,
    g_selection, try_decoder_cmd; unfold_M; repeat (case_match; simplify_eq/=); done).
  all: apply settles_by_ref; intros s d.
  - apply wp_bind, wp_guard; [intros _|done]. apply wp_bind. unfold wp at 1, lift_outcome.
    by destruct (VideoDecoder.current_format _ _).
  - apply wp_bind, wp_get_st, wp_bind. unfold wp at 1, lift_outcome.
    by destruct (try_format _ _ _ _) as [[f|e]|].
Qed.

(** *** QBUF *)

(** The buffer that a step queues in direction [dir]. *)
Definition queued_call {a E T} (dir : QueueDirection) (c : Call.ioctl_call a E T) : list Z :=
  match c with
  | Call.qbuf buffer _ =>
      if bool_decide (direction (buf_queue buffer) = dir) then [position (buf_index buffer)] else []
  | _ => []
  end.

Lemma shape_wf q i (b : VideoDecoderBuffer FfmpegDecoderBuffer) v :
  buffer_wf q i b → same_shape (v4l2 b) v → buffer_wf q i (set_v4l2 v b).
Proof.
  intros (Hq&Hi&p&ps&Hp) (Hq'&Hi'&Hp'). split_and!; cbn; [congruence..|].
  destruct (Hp' p ps Hp) as (p'&->&_). by exists p', ps.
Qed.

Lemma effect_put_input ok (d : Dec) (s : Ses) l i b v :
  session_wf s → length (input_buffers s) = length l → buffers_wf VideoOutputMplane l →
  l !! i = Some b → same_shape (v4l2 b) v →
  effect ok [] [] (d, s) (d, set_input_buffers (<[i := set_v4l2 v b]> l) s).
Proof.
  intros [Hi Ho] Hlen Hl Hb Hv. apply effect_modify; try done; [|cbn; by rewrite length_insert].
  split; [|done]. apply buffers_wf_insert; [done|]. by apply shape_wf; [apply Hl|].
Qed.

Lemma acts_queue_input (d : Dec) (s : Ses) i b v v' ts used :
  session_wf s → input_buffers s !! i = Some b → same_shape (v4l2 b) v → same_shape (v4l2 b) v' →
  let put v := VideoDecoder.on_ses (modify (set_input_buffers (<[i := set_v4l2 v b]> (input_buffers s)))) in
  wp true (put v ;; on_backend (bs_decode (backing b) (buf_index v) ts used) ;; put v' ;; mret v' : M St Z V4l2Buffer)
    (λ r st', effect (is_ok r) [Z.of_nat i] [] (d, s) st') (d, s).
Proof.
  intros Hwf Hb Hv Hv' put. destruct (proj1 Hwf _ _ Hb) as (_&Hidx&_).
  assert (buf_index v = Z.of_nat i) as -> by (destruct Hv as (_&Hv&_); congruence).
  apply wp_bind, wp_zoom, wp_modify, wp_bind. cbn [fst snd].
  pose proof (effect_put_input true d s (input_buffers s) i b v Hwf eq_refl (proj1 Hwf) Hb Hv) as H1.
  eapply wp_mono, (wp_call_backend (OpDecode (backing b) (Z.of_nat i) ts used)); [|done|done|apply H1|].
  2: { apply lookup_lt_Some in Hb. constructor; [|constructor]. cbn. rewrite length_insert. lia. }
  intros r [d2 s2] H2. pose proof (effect_trans true _ _ _ _ _ _ _ _ H1 H2) as H12.
  destruct r as [[]|e]; [|done]. apply wp_bind, wp_zoom, wp_modify, wp_ret. cbn [fst snd].
  eapply (effect_trans true true [_] [] [] []); [exact H12|].
  apply effect_put_input; [apply H12|apply H12|apply Hwf|done..].
Qed.

Lemma acts_qbuf buffer regions :
  acts (queued_call Output (Call.qbuf buffer regions)) (queued_call Capture (Call.qbuf buffer regions))
    (qbuf buffer regions : M St Z V4l2Buffer).
Proof.
  intros [d s] Hwf. unfold qbuf. apply wp_bind, wp_get_st. cbn [snd].
  assert (∀ qi qo, effect false qi qo (d, s) (d, s)) as Hrefl
    by (intros; by eapply effect_false, (effect_same true)).
  apply wp_bind, wp_ok_or; [intros l Hl|by intros _].
  apply wp_bind, wp_ok_or; [intros b Hb|by intros _].
  apply wp_bind, wp_guard; [intros _|by intros _].
  cbn [queued_call]. destruct (direction (buf_queue buffer)) eqn:Ed; cbn.
  - destruct (queue_buffers_output _ _ _ Hl Ed) as [-> ->]. apply acts_queue_input; auto 8 with vmedia.
  - destruct (queue_buffers_capture _ _ _ Hl Ed) as [-> ->].
    set (v := update_first_plane _ _). assert (same_shape (v4l2 b) v) as Hv by (subst v; auto 6 with vmedia).
    apply wp_bind, wp_zoom, wp_modify, wp_bind, wp_zoom, wp_modify. cbn [fst snd].
    set (s1 := set_pending _ _).
    assert (effect true [] [position (buf_index buffer)] (d, s) (d, s1)) as H1.
    { split_and!; [|done|by cbn; rewrite length_insert|].
      - split; [apply Hwf|]. apply buffers_wf_insert; [apply Hwf|].
        by apply shape_wf; [apply Hwf|].
      - exists [], []. rewrite app_nil_r. split_and!; [done..|]. intros _.
        split_and!; [done..| |cbn; by rewrite fmap_app].
        apply lookup_lt_Some in Hb. unfold position. constructor; [cbn; lia|constructor]. }
    rewrite bool_decide_false, bool_decide_true by done.
    eapply wp_mono, (acts_seq [] [] try_send_pending_output_buffers (λ _, mret v) acts_try_send
      (λ _, acts_ret v) (d, s1)); [|apply H1].
    intros r st2 H2. by eapply (effect_trans true _ [] [_] [] []).
Qed.

(** ** The events *)

(** A message of the decoder about buffer [v]. *)
Lemma dequeued_message q q' id v :
  buf_queue v = q' →
  dequeued q [EvDequeueBuffer (DequeueBufferEvent_new id v)] =
    if bool_decide (q' = q) then [buf_index v] else [].
Proof. intros <-. unfold dequeued. cbn. by case_bool_decide. Qed.

Lemma mplane_queues_differ : VideoOutputMplane ≠ VideoCaptureMplane.
Proof.
  intros H. pose proof direction_output_mplane as H1. by rewrite H, direction_capture_mplane in H1.
Qed.

(** The messages of one event. *)
Definition event_effect (ev : VideoDecoderBackendEvent) (st st' : St) : Prop :=
  session_wf st'.2 ∧ length (input_buffers st'.2) = length (input_buffers st.2) ∧
  length (output_buffers st'.2) = length (output_buffers st.2) ∧ view st' = view st ∧
  pending_output_buffers st'.2 = pending_output_buffers st.2 ∧
  ∃ es, event_queue st'.1 = event_queue st.1 ++ es ∧
    dequeued VideoOutputMplane es = existing (length (input_buffers st.2)) (done_ids [ev]) ∧
    dequeued VideoCaptureMplane es = existing (length (output_buffers st.2)) (frame_ids [ev]).

Lemma existing_one n i :
  existing n [i] = if decide (Z.to_nat i < n)%nat then [position i] else [].
Proof. unfold existing. rewrite filter_cons. by destruct (decide _). Qed.

Lemma input_done_effect id error (st : St) :
  session_wf st.2 →
  wp true (input_buffer_done id error) (λ _ st', event_effect (InputBufferDone id error) st st') st.
Proof.
  destruct st as [d s]. intros [Hi Ho]. unfold input_buffer_done. apply wp_bind, wp_get_st.
  unfold event_effect. cbn [snd done_ids frame_ids omap list_omap]. rewrite existing_one.
  destruct (input_buffers s !! Z.to_nat id) as [b|] eqn:Hb.
  2: { apply lookup_ge_None in Hb. apply wp_ret. split_and!; [done..|]. exists [].
       rewrite app_nil_r, decide_False by lia. done. }
  apply wp_bind, wp_zoom, wp_modify, wp_zoom, wp_modify. cbn [fst snd].
  set (v := if negb (error =? 0) then _ else _).
  assert (same_shape (v4l2 b) v) as Hv by (subst v; destruct (negb _); auto with vmedia).
  pose proof (shape_wf _ _ _ _ (Hi _ _ Hb) Hv) as Hvw. split_and!.
  - split; [by apply buffers_wf_insert|done].
  - cbn. by rewrite length_insert.
  - done.
  - done.
  - done.
  - eexists. split; [done|]. destruct Hvw as (Hq&Hidx&_). cbn in Hq, Hidx.
    rewrite !(dequeued_message _ _ _ _ Hq), Hidx.
    rewrite decide_True by (by eapply lookup_lt_Some).
    rewrite bool_decide_true, bool_decide_false by (done || apply mplane_queues_differ). done.
Qed.

Lemma format_changed_effect (st : St) :
  session_wf st.2 →
  wp true stream_format_changed (λ _ st', event_effect StreamFormatChanged st st') st.
Proof.
  destruct st as [d s]. intros Hwf. unfold stream_format_changed. apply wp_bind, wp_get_st.
  apply wp_bind, wp_zoom, wp_modify, wp_bind. cbn [fst snd].
  destruct (src_change_subscribed s); [apply wp_zoom, wp_modify|apply wp_ret];
    apply wp_zoom, wp_modify; (split_and!; [done..|]); [by eexists [_]|].
  exists []. by rewrite app_nil_r.
Qed.

Lemma frame_completed_effect id ts bytes is_last (st : St) :
  session_wf st.2 →
  wp true (frame_completed id ts bytes is_last)
    (λ _ st', event_effect (FrameCompleted id ts bytes is_last) st st') st.
Proof.
  destruct st as [d s]. intros [Hi Ho]. unfold frame_completed. apply wp_bind, wp_get_st.
  unfold event_effect. cbn [snd done_ids frame_ids omap list_omap]. rewrite existing_one.
  destruct (output_buffers s !! Z.to_nat id) as [b|] eqn:Hb.
  2: { apply lookup_ge_None in Hb. apply wp_ret. split_and!; [done..|]. exists [].
       rewrite app_nil_r, decide_False by lia. done. }
  apply wp_bind. unfold lift_outcome. destruct (u32_add _ _) as [next|]; [|done].
  apply wp_ret, wp_bind, wp_zoom, wp_modify, wp_bind, wp_zoom, wp_modify, wp_bind, wp_zoom, wp_modify.
  cbn [fst snd].
  pose proof (completed_buffer VideoCaptureMplane (Z.to_nat id) b (sequence_cpt s) ts
    (default 0 (head bytes)) is_last (Ho _ _ Hb)) as (Hvw&_).
  set (v := buf_set_first_plane _ _) in *. destruct Hvw as (Hq&Hidx&p&ps&Hp).
  rewrite decide_True by (by eapply lookup_lt_Some).
  assert (∀ es, dequeued VideoCaptureMplane es = [] → dequeued VideoOutputMplane es = [] →
    dequeued VideoOutputMplane (EvDequeueBuffer (DequeueBufferEvent_new (d_id s) v) :: es) = [] ∧
    dequeued VideoCaptureMplane (EvDequeueBuffer (DequeueBufferEvent_new (d_id s) v) :: es)
      = [position id]) as Hes.
  { intros es H1 H2. unfold dequeued in *. cbn in Hq, Hidx |- *. rewrite H1, H2, Hq, Hidx.
    by rewrite bool_decide_false, bool_decide_true by (done || apply not_eq_sym, mplane_queues_differ). }
  set (s1 := set_output_buffers _ _).
  assert (session_wf s1) as Hwf1.
  { split; [done|]. apply buffers_wf_insert; [done|]. split_and!; [done..|by exists p, ps]. }
  assert (length (output_buffers s1) = length (output_buffers s)) as Hlen by (cbn; by rewrite length_insert).
  destruct is_last; [destruct (format_change_pending s); [|destruct (eos_subscribed s)]|].
  all: first [apply wp_ret | apply wp_zoom, wp_modify]; (split_and!; [done..|]).
  2: exists [EvDequeueBuffer (DequeueBufferEvent_new (d_id s) v); EvEvent (SessionEvent_new (d_id s)
       (vmk v4l2_event [("type_", vconst "V4L2_EVENT_EOS")]))];
    split; [exact (eq_sym (app_assoc _ [_] [_]))|by apply Hes].
  all: eexists [_]; split; [done|by apply Hes].
Qed.

(** [next_event] never fails. *)
Lemma next_event_total (st : World * FSes) :
  ∃ st' ev, ∀ E, next_event (E := E) st = Ret (st', Ok ev).
Proof.
  destruct st as [[k l] s].
  unfold next_event, on_events, dequeue_event, clear_event, on_world, on_queue, zoom, syscall.
  unfold_M. cbn [fst snd]. destruct (pending_events (events s)) as [|e es]; [by eexists _, _|].
  cbn [fst snd]. destruct (is_empty es); [|by eexists _, _]. cbn [fst snd].
  destruct (eventfd_read (event (events s)) k) as [k' r] eqn:Hr. eexists _, _.
  intros E. cbn. by rewrite Hr.
Qed.

Lemma handle_event_effect ev (st : St) :
  session_wf st.2 → wp true (handle_event ev) (λ _ st', event_effect ev st st') st.
Proof.
  destruct ev; [apply format_changed_effect|apply input_done_effect|apply frame_completed_effect].
Qed.

Lemma acts_process_events : acts [] [] (decoder_process_events : M St Z unit).
Proof.
  intros [d s] Hwf. unfold decoder_process_events. apply wp_bind, wp_zoom. unfold wp at 1.
  cbn [bs_next_event ffmpeg_session_at ffmpeg_session fst snd].
  destruct (next_event_total (d_os d, backend_session s)) as ([w bs]&ev&Hn).
  rewrite Hn. cbn [mbind outcome_bind fst snd].
  assert (performs [(BOp OpNextEvent, Ok ev)] (view (d, s)) (w, bs)) as Hp by (by exists (w, bs)).
  destruct ev as [ev|].
  - eapply wp_mono, handle_event_effect; [|done].
    intros r st' (Hwf'&Hi&Ho&Hv&Hpe&es&He&Hdi&Hdo). split_and!; [done..|].
    eexists _, es. rewrite Hv. split_and!; [exact Hp|done..|]. intros _. rewrite Hpe, app_nil_r.
    split_and!; [by repeat constructor|done..].
  - apply wp_ret. split_and!; [done..|]. eexists _, []. rewrite !app_nil_r.
    split_and!; [exact Hp|done..|]. intros _. split_and!; [by repeat constructor|done..].
Qed.

(** ** Sequences of steps *)

Lemma acts_call {a E T} (c : Call.ioctl_call a E T) :
  is_reqbufs c = false →
  acts (queued_call Output c) (queued_call Capture c) (Ioctl.call c : M St E T).
Proof.
  intros Hc. destruct (uses_backend (Call.call_ioctl c)) eqn:Hu.
  - destruct c; try done; [apply acts_qbuf|apply acts_streamon|apply acts_streamoff|apply acts_decoder_cmd].
  - assert (queued_call Output c = [] ∧ queued_call Capture c = []) as [-> ->] by (by destruct c).
    by apply settles_acts, settles_call.
Qed.

(** A step whose errors matter only if it gives work to the backend. *)
Definition guest_step (step : session_step) : M St Z unit :=
  match step with
  | StepCall c =>
      if uses_backend (Call.call_ioctl c)
      then map_err (λ _, EINVAL) (Ioctl.call c) ;; mret tt
      else ignore_err (Ioctl.call c)
  | StepEvents => decoder_process_events
  end.

Definition queued (dir : QueueDirection) (step : session_step) : list Z :=
  match step with StepCall c => queued_call dir c | StepEvents => [] end.

Lemma acts_step step :
  step_reallocates step = false → acts (queued Output step) (queued Capture step) (guest_step step).
Proof.
  intros Hstep. destruct step as [a E T c|]; [|apply acts_process_events]. cbn [guest_step queued].
  destruct (uses_backend (Call.call_ioctl c)) eqn:Hu.
  - intros st Hwf. apply wp_bind, wp_map_err. eapply wp_mono, acts_call, Hwf; [|done].
    by intros [x|e] st' H1; [apply wp_ret|].
  - assert (queued_call Output c = [] ∧ queued_call Capture c = []) as [-> ->] by (by destruct c).
    intros st Hwf. apply wp_ignore_err. by eapply wp_mono, settles_call.
Qed.

Lemma acts_steps steps :
  Forall (λ step, step_reallocates step = false) steps →
  acts (steps ≫= queued Output) (steps ≫= queued Capture) (forM_ guest_step steps).
Proof.
  induction 1 as [|step steps Hstep _ IH]; cbn [forM_ mbind list_bind]; [apply acts_ret|].
  apply acts_bind; [by apply acts_step|done].
Qed.

(** The steps, whatever their results. *)
Definition run_guest (steps : list session_step) (st : St) : outcome St := run_steps steps st.

Lemma run_guest_effect steps (st st' : St) :
  Forall (λ step, step_reallocates step = false) steps → session_wf st.2 →
  run_guest steps st = Ret st' → effect false [] [] st st'.
Proof.
  unfold run_guest. intros Hall. revert st. induction Hall as [|step steps Hstep _ IH]; intros st Hwf; cbn [run_steps].
  { intros [= <-]. by apply effect_same. }
  destruct (run_step step st) as [st1|] eqn:Hs; [|done]. cbn. intros Hr.
  assert (effect false [] [] st st1) as H1.
  { destruct step as [a E T c|]; cbn [run_step] in Hs.
    - pose proof (acts_call c Hstep st Hwf) as Hw. unfold wp in Hw.
      destruct (Ioctl.call c st) as [[st2 r]|]; [|done]. injection Hs as <-. by eapply effect_false.
    - pose proof (acts_process_events st Hwf) as Hw. unfold wp in Hw.
      destruct (decoder_process_events st) as [[st2 r]|]; [|done]. injection Hs as <-. by eapply effect_false. }
  apply (effect_trans false false [] [] [] [] st st1 st'); [done|]. by apply IH; [apply H1|].
Qed.

(** ** What the backend accounts for *)

Lemma format_accounted h decoder (s : FSes) dir format :
  accounted h s → accounted h (apply_format decoder s dir format).
Proof. unfold apply_format. repeat case_match; try done; by apply accounted_same. Qed.

Lemma trace_accounted tr h (st st' : World * FSes) :
  performs tr st st' → Forall (λ x, is_ok x.2 = true) tr → accounted h st.2 →
  ∃ n, accounted (mkHistory (submitted h ++ tr_submitted tr) (offered h ++ tr_offered tr) n
    (delivered h ++ tr_events tr)) st'.2.
Proof.
  revert h st. induction tr as [|[c r] tr IH]; intros h st.
  { intros -> _ Ha. exists (drains h). cbn. rewrite !app_nil_r. by destruct h. }
  intros (st1&Hc&Htr) [Hr Hall]%Forall_cons Ha. cbn in Hr. destruct r as [ev|]; [|done].
  assert (∃ n, accounted (mkHistory (submitted h ++ tr_submitted [(c, Ok ev)])
    (offered h ++ tr_offered [(c, Ok ev)]) n (delivered h ++ tr_events [(c, Ok ev)])) st1.2) as (n1&Ha1).
  2: { destruct (IH _ st1 Htr Hall Ha1) as (n&Hn). exists n. revert Hn.
       cbn [submitted offered delivered]. rewrite <-!app_assoc.
       unfold tr_submitted, tr_offered, tr_events.
       by rewrite <-!omap_app. }
  clear IH. destruct c as [op|decoder dir format]; cbn [run_backend_call] in Hc.
  - pose proof (op_accounted fuel op h st Ha) as Hw. pose proof (op_event fuel op st) as Hev.
    unfold wp in Hw, Hev. rewrite Hc in Hw, Hev. exists (drains (note op ev h)).
    enough (mkHistory (submitted h ++ tr_submitted [(BOp op, Ok ev)])
      (offered h ++ tr_offered [(BOp op, Ok ev)]) (drains (note op ev h))
      (delivered h ++ tr_events [(BOp op, Ok ev)]) = note op ev h) as -> by done.
    destruct h, op, ev as [e|]; try done; cbn; by rewrite ?app_nil_r.
  - injection Hc as <- <-. exists (drains h). cbn. rewrite !app_nil_r. destruct h. by apply format_accounted.
Qed.

Lemma existing_all n l : Forall (λ i, 0 ≤ i < Z.of_nat n) l → existing n l = l.
Proof.
  unfold existing. induction 1 as [|i l Hi _ IH]; [done|]. rewrite filter_cons, decide_True by lia.
  cbn. rewrite IH. unfold position. f_equal. lia.
Qed.

Lemma Forall_sublist {A} (P : A → Prop) l l' : l `sublist_of` l' → Forall P l' → Forall P l.
Proof.
  induction 1 as [|x l l' _ IH|x l l' _ IH]; intros Hl; [done|..]; apply Forall_cons in Hl as [Hx Hl]; auto.
Qed.

(** C7: Consider a session of the decoder device that has allocated its buffers and
    has queued none: its backend session is new and no message is in the queue.  The
    guest then does anything but reallocate its buffers: the steps contain no REQBUFS
    ([step_reallocates]).  As long as the ioctls that give work to the backend
    succeed, the buffers that it queues are accounted for: the OUTPUT buffers it gets
    back, followed by those whose answer is on its way and those that wait for the
    codec, are those it queued, in order; the CAPTURE buffers it gets back, followed
    by those that are on their way, that wait in the backend, and that wait in the
    device, come in the order in which they were queued, and none twice. *)
Theorem guest_buffers_are_accounted_for steps decoder (k0 k : K) (d d' : Dec) (s s' : Ses) :
  new_session decoder k0 = Ret (k, Ok (backend_session s)) →
  session_wf s → pending_output_buffers s = [] → event_queue d = [] →
  Forall (λ step, step_reallocates step = false) steps →
  forM_ guest_step steps (d, s) = Ret ((d', s'), Ok tt) →
  let bs := backend_session s' in
  let es := pending_events (events bs) in
  dequeued VideoOutputMplane (event_queue d') ++ done_ids es ++ input_ids (waiting_jobs bs)
    = steps ≫= queued Output ∧
  dequeued VideoCaptureMplane (event_queue d') ++ frame_ids es
    ++ (index <$> available_output_frames bs) ++ (position <$> pending_output_buffers s')
    `sublist_of` steps ≫= queued Capture.
Proof.
  intros Hnew Hwf Hpend Hq Hall Hr bs es.
  pose proof (acts_steps steps Hall (d, s) Hwf) as Hw. unfold wp in Hw. rewrite Hr in Hw.
  destruct Hw as (_&_&_&tr&msgs&Hp&He&Hdi&Hdo&Hok). cbn [fst snd] in *.
  destruct (Hok eq_refl) as (Htr&Hs&Hqi&Hqo&Hof). rewrite Hpend in Hof. cbn in Hof.
  destruct (trace_accounted tr (mkHistory [] [] 0 []) _ _ Hp Htr) as (n&Hi&Ho&_).
  { unfold view. cbn [snd]. by eapply new_session_accounted. }
  cbn [submitted offered delivered app view snd] in Hi, Ho. rewrite Hq in He. cbn in He. subst msgs.
  rewrite Hdi, Hdo. unfold done_ids, frame_ids in *. rewrite omap_app, <-app_assoc in Hi, Ho.
  rewrite Hs in Hi.
  rewrite existing_all, existing_all.
  - split; [done|]. etrans; [|exact Hof]. rewrite !app_assoc. apply sublist_app; [|done].
    rewrite <-!app_assoc. exact Ho.
  - eapply Forall_sublist; [|exact Hqo]. etrans; [|exact Hof].
    apply sublist_inserts_r. etrans; [|exact Ho]. by apply sublist_inserts_r.
  - eapply Forall_sublist; [|exact Hqi]. rewrite <-Hi. by apply sublist_inserts_r.
Qed.

(** ** After a drain *)

Lemma trace_drained `{CL : !CodecLaws L} a X tr del (st st' : World * FSes) :
  performs tr st st' → drained a X del st → drained a X (del ++ tr_events tr) st'.
Proof.
  revert del st. induction tr as [|[c r] tr IH]; intros del st.
  { intros -> Hd. cbn. by rewrite app_nil_r. }
  intros (st1&Hc&Htr) Hd.
  replace (del ++ tr_events ((c, r) :: tr)) with ((del ++ option_list (event_of r)) ++ tr_events tr).
  2: { rewrite <-app_assoc. unfold tr_events. cbn. by destruct (event_of r). }
  apply (IH _ st1); [done|]. destruct c as [op|decoder dir format]; cbn [run_backend_call] in Hc.
  - pose proof (drained_op a X fuel op del st Hd) as Hw. unfold wp in Hw. by rewrite Hc in Hw.
  - injection Hc as <- <-. cbn. rewrite app_nil_r. destruct Hd as (c&Hctx&Ha&Hdr&HX). exists c.
    cbn [fst snd]. unfold apply_format. by repeat case_match.
Qed.

Lemma existing_sublist n l l' : l `sublist_of` l' → existing n l `sublist_of` position <$> l'.
Proof. intros Hl. apply fmap_sublist. etrans; [apply sublist_filter|done]. Qed.

(** C39: Once the codec of a session was flushed, which a drain does, the guest gets
    no OUTPUT buffer back but those whose answer was on its way: whatever ioctls
    other than REQBUFS ([step_reallocates]) and whatever events follow, decoder START
    commands and failed ioctls included, every other input buffer it has queued or
    queues is lost to it. *)
Theorem drained_guest_gets_no_input `{CL : !CodecLaws L} steps c (k : K) (l : L) (d d' : Dec) (s s' : Ses) :
  d_os d = (k, l) → context (backend_session s) = Some c → draining l (av_context c) = true →
  session_wf s → Forall (λ step, step_reallocates step = false) steps →
  run_guest steps (d, s) = Ret (d', s') →
  dequeued VideoOutputMplane (event_queue d') `sublist_of`
    dequeued VideoOutputMplane (event_queue d)
    ++ (position <$> done_ids (pending_events (events (backend_session s)))).
Proof.
  intros Hos Hc Hd Hwf Hall Hr.
  destruct (run_guest_effect steps (d, s) (d', s') Hall Hwf Hr) as (_&_&_&tr&msgs&Hp&He&Hdi&_).
  destruct (trace_drained (av_context c) (done_ids (pending_events (events (backend_session s))))
    tr [] _ _ Hp) as (c'&_&_&_&Hx).
  { exists c. unfold view. cbn. by rewrite Hos. }
  cbn [fst snd app] in *. rewrite He. unfold dequeued in *. rewrite omap_app. apply sublist_app; [done|].
  rewrite Hdi. apply existing_sublist. rewrite <-Hx. unfold done_ids. rewrite omap_app.
  by apply sublist_inserts_r.
Qed.
End Guest.

(** ** Witnesses *)

Module GuestWitness.
Import V4l2r.Sample SampleAvutil SampleEventFd SampleFfmpeg FfmpegWitness DeviceWitness.
#[local] Existing Instance no_checks.

Definition device1 : Dec := VideoDecoder_new FfmpegDecoder_new [] tt ([0], ([], false)).

Lemma guest_session_wf : session_wf session1.
Proof.
  split; intros [|[|i]] b; try done; intros [= <-]; split_and!; try done; by eexists _, _.
Qed.

Abbreviation decoding := (forM_ (guest_step 9) steps1 (device1, session1)).

Definition guest_sees (o : outcome ((Dec * Ses) * result unit Z)) : option (list (Z * Z * Z)) :=
  match o with Ret ((d, _), Ok _) => Some (omap returned (event_queue d)) | _ => None end.

Example decoding_sees :
  guest_sees decoding =
    Some [(10, 0, 0); (9, 0, FLAG_TIMESTAMP_COPY); (9, 1, FLAG_LAST)].
Proof. vm_compute. reflexivity. Qed.

Lemma guest_buffers_are_accounted_for_witness :
  ∃ d s, decoding = Ret ((d, s), Ok tt) ∧
    dequeued VideoOutputMplane (event_queue d)
      ++ done_ids (pending_events (events (backend_session s)))
      ++ input_ids (waiting_jobs (backend_session s)) = steps1 ≫= queued Output.
Proof.
  pose proof decoding_sees as Hs.
  destruct decoding as [[[d s] [[]|e]]|] eqn:Hr; [|discriminate..].
  exists d, s. split; [reflexivity|].
  destruct (guest_buffers_are_accounted_for (BM := no_checks) (V := sample_v4l2r) (L := codec_state) 9
    steps1 FfmpegDecoder_new [] [0] device1 d session1 s (proj2 new_session0) guest_session_wf
    eq_refl eq_refl ltac:(repeat constructor) Hr) as [Hi _]. exact Hi.
Defined.

(** The same session once the codec was flushed: one more input, and START. *)
Definition flushed1 : Ses :=
  set_backend (set_context (Some (context0 None)) session0) session1.
Definition device2 : Dec := VideoDecoder_new FfmpegDecoder_new [] tt ([0], ([], true)).
Definition steps2 : list session_step :=
  [StepCall (Call.streamon 10); StepCall (Call.streamon 9);
   StepCall (Call.decoder_cmd ((0, 0), (0, 0))); StepCall (Call.qbuf (buffer_at 10 0) []); StepEvents].

Abbreviation after_drain := (run_guest 9 steps2 (device2, flushed1)).

Example after_drain_returns : is_ret after_drain = true.
Proof. vm_compute. reflexivity. Qed.

Lemma drained_guest_gets_no_input_witness :
  ∃ d s, after_drain = Ret (d, s) ∧ dequeued VideoOutputMplane (event_queue d) = [].
Proof.
  pose proof after_drain_returns as Hs. destruct after_drain as [[d s]|] eqn:Hr; [|discriminate].
  exists d, s. split; [reflexivity|]. apply sublist_nil_r.
  exact (drained_guest_gets_no_input (BM := no_checks) (V := sample_v4l2r) (L := codec_state) 9
    steps2 (context0 None) [0] ([], true) device2 d flushed1 s eq_refl eq_refl eq_refl guest_session_wf
    ltac:(repeat constructor) Hr).
Defined.
End GuestWitness.
