(* ===== verification/FfmpegVmm.v ===== *)
(** * The decoder device on the FFmpeg backend, from the bytes of the guest

    The whole stack: the runner and the dispatcher, the decoder device, the FFmpeg
    backend, over the kernel and the FFmpeg libraries.  Only QBUF and DECODER_CMD run
    the decode loop; for everything else the fuel does not matter. *)

From Stdlib Require Import Strings.Byte.
From stdpp Require Import strings.
From S2P Require Import Prelude RustStd Traits Mmap MemFd Bytes Protocol Io V4l2r Ioctl Runner Vmm VideoDecoder DecoderFrame DecoderBehaviour DecoderContract EventQueue Avcodec FfmpegDecoder FfmpegMachine FfmpegBehaviour FfmpegDevice.
#[local] Open Scope Z_scope.

(** ** Enough fuel, through the layers *)

Section Eventually.
Context {E : Type}.

Lemma eventually_zoom {S T A} (get : S → T) (set : T → S → S) (f : nat → M T E A) Post (s : S) :
  eventually f (λ r t, Post r (set t s)) (get s) → eventually (λ m, zoom get set (f m)) Post s.
Proof.
  intros (n&t&r&HQ&Hf). exists n, (set t s), r. split; [done|]. intros m Hm.
  unfold zoom. by rewrite Hf.
Qed.

Lemma eventually_try {S A E'} (f : nat → M S E' A) (Post : result (result A E') E → S → Prop) s :
  eventually f (λ r s', Post (Ok r) s') s → eventually (λ m, try_m (f m)) Post s.
Proof.
  intros (n&s'&r&HQ&Hf). exists n, s', (Ok r). split; [done|]. intros m Hm.
  unfold try_m. by rewrite Hf.
Qed.

Lemma eventually_map_err {S A E'} (g : E' → E) (f : nat → M S E' A) Post (s : S) :
  eventually f (λ r s', Post (match r with Ok a => Ok a | Err e => Err (g e) end) s') s →
  eventually (λ m, map_err g (f m)) Post s.
Proof.
  intros (n&s'&r&HQ&Hf). exists n, s', (match r with Ok a => Ok a | Err e => Err (g e) end).
  split; [done|]. intros m Hm. unfold map_err. rewrite Hf by done. by destruct r.
Qed.
End Eventually.

(** An ioctl returns if the method it runs does. *)
Lemma wr_ioctl_eventually {HS I O} `{FromDescriptorChain I} `{ChainBytes O} ioctl
    (process : nat → I → M HS Z O) hs r w :
  (∀ r : Reader, wp false read_from_chain (λ _ _, True) r) →
  (∀ i, eventually (λ m, process m i) (λ _ _, True) hs) →
  eventually (λ m, wr_ioctl ioctl (process m)) (λ _ _, True) (hs, r, w).
Proof.
  intros Hread Hproc. unfold wr_ioctl, wr_ioctl_with_err_payload.
  apply eventually_bind, eventually_try, eventually_zoom, eventually_wp. cbn [fst snd].
  eapply wp_mono, Hread. intros [i|e] r' _.
  2: { apply eventually_wp. eapply wp_mono, (wp_err_response false (λ _, True) true); done. }
  apply eventually_bind, eventually_try, eventually_zoom, eventually_map_err. cbn [fst snd].
  eapply eventually_mono, Hproc. intros [o|e] hs' _; apply eventually_wp.
  - eapply wp_mono, (wp_respond false (λ _, True) true 0 (Some o)); done.
  - eapply wp_mono, (wp_respond (O := O) false (λ _, True) true e None); done.
Qed.

Section Vmm.
#[local] Existing Instance no_checks.
Context `{V : V4l2r} {VL : V4l2rLaws} {AU : Avutil} `{!OnePlane}.
Context {Q HM P K L : Type} `{!VirtioMediaEventQueue Q} `{!VirtioMediaHostMemoryMapper HM}.
Context `{!Kernel K} `{!EventFd K} `{LA : !Libav L}.
Context `{CL : !CodecLaws L} `{SL : !SizeLaws L} `{!SessionPoller P}.
#[local] Existing Instances ffmpeg_backing ffmpeg_backend.
Abbreviation World := (K * L)%type.
Abbreviation Dec := (VideoDecoder FfmpegDecoder Q HM World).
Abbreviation Ses := (VideoDecoderSession (FfmpegDecoderSession (LA := LA)) FfmpegDecoderBuffer).
Abbreviation Runner := (VirtioMediaDeviceRunner Dec Ses P).

(** The device by its fuel. *)
Abbreviation device_at m := (decoder_device (VideoDecoderBackendSession0 := ffmpeg_session m)
  (D := FfmpegDecoder) (Q := Q) (HM := HM)).
Abbreviation handler_at m := (decoder_handler (VideoDecoderBackendSession0 := ffmpeg_session m)
  (D := FfmpegDecoder) (Q := Q) (HM := HM)).
Abbreviation safe := (session_safe (good (LA := LA)) has_plane).

Context {PC : PollerContract (P := P) (D := Dec) (VirtioMediaDevice0 := device_at 0) Ses}.

(** *** Ioctls *)

Lemma read_buffer_returns (r : Reader) : wp false read_buffer_from_chain (λ _ _, True) r.
Proof. eapply wp_mono, wp_read_buffer. by intros []. Qed.

(** The ioctls that give work to the backend; the others do not run the decode loop. *)
Lemma dispatch_eventually ioctl (d : Dec) (s : Ses) r w :
  sends_pending ioctl = true → safe s →
  eventually (λ m, virtio_media_dispatch_ioctl (VirtioMediaIoctlHandler0 := handler_at m) ioctl)
    (λ _ _, True) ((d, s), r, w).
Proof.
  intros Hi Hs. destruct ioctl; try done; cbn [virtio_media_dispatch_ioctl].
  - apply wr_ioctl_eventually; [exact read_buffer_returns|]. intros [b regions].
    apply eventually_bind. eapply eventually_mono, (call_eventually (Call.qbuf b regions) (d, s)); [|done..].
    intros [b'|e] st _; [|done]. by apply eventually_wp.
  - apply wr_ioctl_eventually; [intros r'; apply wp_read_obj|]. intros input.
    apply eventually_bind, eventually_wp, wp_ok_or; [intros queue _|done].
    eapply eventually_mono, (call_eventually (Call.streamon queue) (d, s)); done.
  - apply wr_ioctl_eventually; [intros r'; apply wp_read_obj|]. intros cmd.
    eapply eventually_mono, (call_eventually (Call.decoder_cmd cmd) (d, s)); done.
Qed.

Lemma dispatch_const ioctl m :
  sends_pending ioctl = false →
  virtio_media_dispatch_ioctl (VirtioMediaIoctlHandler0 := handler_at m) ioctl =
  virtio_media_dispatch_ioctl (VirtioMediaIoctlHandler0 := handler_at 0) ioctl.
Proof. intros Hi. by destruct ioctl. Qed.

(** *** Commands *)

Abbreviation inv := (dec_inv (I := good (LA := LA)) (J := has_planes) (strict := true)).

Lemma ses_ok_safe id (s : Ses) :
  ses_ok (I := good (LA := LA)) (J := has_planes) (strict := true) id s → safe s.
Proof.
  intros (_&Hg&Hi&Ho&Hp). split; [by apply Hp|]. split; [done|].
  intros b [[i Hb]%list_elem_of_lookup|[i Hb]%list_elem_of_lookup]%elem_of_app; exists 0%nat.
  - destruct (Hi i b Hb) as (_&_&p&ps&_&_&HJ). exact HJ.
  - destruct (Ho i b Hb) as (_&_&p&ps&_&_&HJ). exact HJ.
Qed.

(** The contract of the device holds for any fuel. *)
Lemma contract_at m : GuardedContract (D := Dec) (VirtioMediaDevice0 := device_at m)
  (decoder_panics (pd := true) (strict := true)) (dec_guard (strict := true)) (λ _, true) inv.
Proof.
  pose proof (has_planes_laws (K := K) (L := L) m) as BL. pose proof (ffmpeg_storage (K := K) (L := L)) as MS.
  exact (decoder_contract (BL := BL) (MS := MS) (strict := true)).
Qed.

Lemma session_io_eventually {E A} id (s : Ses) (f : nat → M (Dec * Ses * Reader * Writer) E A) (rn : Runner) r w :
  eventually f (λ _ _, True) (device rn, s, r, w) →
  eventually (λ m, on_session_io id s (f m)) (λ _ _, True) (rn, r, w).
Proof.
  intros (n&[[[d s'] r'] w']&res&_&Hf). exists n. eexists _, res. split; [done|]. intros m Hm.
  unfold on_session_io. cbn [fst snd]. by rewrite Hf.
Qed.

Lemma write_returns {T} `{VmediaType T} (x : T) (rn : Runner) (r : Reader) w :
  wp false (on_writer (write_response x)) (λ _ _, True) (rn, r, w).
Proof.
  apply wp_zoom. unfold wp, write_response, write_obj. cbn [fst snd].
  by destruct (write_all_total (c_enc vmedia (from_le (to_le x))) w) as (w'&res&->).
Qed.

Lemma cmd_ioctl_eventually n (rn : Runner) r w :
  runner_wf inv n rn → 0 ≤ n < u64_max →
  (∀ c s ioctl, parse (T := IoctlCmd) r = Some c → sessions rn !! ic_session_id c = Some s →
     V4l2Ioctl_n (ic_code c) = Some ioctl →
     spares_pending ioctl s = true ∧ ioctl ≠ VIDIOC_SUBSCRIBE_EVENT) →
  eventually (λ m, cmd_ioctl (VirtioMediaDevice0 := device_at m)) (λ _ _, True) (rn, r, w).
Proof.
  intros ([Hmm Hm]&_) Hn Hg. unfold cmd_ioctl.
  apply eventually_bind, eventually_wp, wp_zoom. unfold wp. cbn [fst snd]. rewrite read_obj_parse.
  destruct (parse r) as [c|] eqn:Hp; [|done].
  apply eventually_bind, eventually_wp, wp_gets. cbn [fst snd].
  destruct (sessions rn !! ic_session_id c) as [s|] eqn:Es; [|apply eventually_wp, write_returns].
  destruct (V4l2Ioctl_n (ic_code c)) as [ioctl|] eqn:Ei; [|apply eventually_wp, write_returns].
  destruct (Hg c s ioctl eq_refl Es Ei) as [Hsp Hsub]. apply session_io_eventually.
  destruct (sends_pending ioctl) eqn:Hw.
  - apply dispatch_eventually; [done|]. eapply ses_ok_safe, Hm, Es.
  - apply eventually_const; [intros m; exact (f_equal (λ f, f _) (dispatch_const ioctl m Hw))|].
    eapply wp_mono, wp_panic_mono, (contract_ioctl (GuardedContract := contract_at 0) n (device rn) (sessions rn));
      [done| |done..].
    unfold decoder_panics, method_panics, call_panics. rewrite Hw. by destruct ioctl.
Qed.

Lemma dispatch_cmd_eventually n (rn : Runner) r w hdr :
  runner_wf inv n rn → 0 ≤ n < u64_max → session_id_counter rn < u32_max → parse r = Some hdr →
  guarded (guard := spares_pending) rn r = true → requested_ioctl r ≠ Some VIDIOC_SUBSCRIBE_EVENT →
  eventually (λ m, dispatch_cmd (VirtioMediaDevice0 := device_at m) (cmd hdr)) (λ _ _, True)
    (rn, drop (size_of CmdHeader) r, w).
Proof.
  intros Hwf Hn Hmax Hh Hg Hsub. destruct (decide (cmd hdr = VIRTIO_MEDIA_CMD_IOCTL)) as [Hc|Hc].
  - rewrite Hc. apply (cmd_ioctl_eventually n); [done..|]. intros c s ioctl Hp Hs Hi.
    assert (requested_ioctl r = Some ioctl) as Hr.
    { unfold requested_ioctl. rewrite Hh. cbn [mbind option_bind]. by rewrite Hc, Z.eqb_refl, Hp. }
    assert (named_session r = Some (ic_session_id c)) as Hnam.
    { unfold named_session. rewrite Hh. cbn [mbind option_bind]. rewrite Hc.
      change (VIRTIO_MEDIA_CMD_IOCTL =? VIRTIO_MEDIA_CMD_CLOSE) with false. by rewrite Z.eqb_refl, Hp. }
    unfold guarded in Hg. rewrite Hr, Hnam in Hg. cbn [mbind option_bind] in Hg. rewrite Hs in Hg.
    split; [done|congruence].
  - apply eventually_const.
    + intros m. unfold dispatch_cmd. rewrite (proj2 (Z.eqb_neq _ _) Hc). reflexivity.
    + eapply wp_mono, wp_panic_mono, (wp_dispatch_cmd _ inv (GC := contract_at 0) (PollerContract0 := PC) n); [done| |done..].
      rewrite refused_never. unfold may_panic, requested_ioctl. rewrite Hh. cbn [mbind option_bind].
      by rewrite (proj2 (Z.eqb_neq _ _) Hc).
Qed.

Lemma handle_eventually n (rn : Runner) r w :
  runner_wf inv n rn → 0 ≤ n < u64_max → session_id_counter rn < u32_max →
  guarded (guard := spares_pending) rn r = true → requested_ioctl r ≠ Some VIDIOC_SUBSCRIBE_EVENT →
  eventually (λ m, handle_command (VirtioMediaDevice0 := device_at m)) (λ _ _, True) (rn, r, w).
Proof.
  intros Hwf Hn Hmax Hg Hsub. unfold handle_command.
  apply eventually_bind, eventually_try, eventually_zoom, eventually_wp. unfold wp. cbn [fst snd].
  rewrite read_obj_parse. destruct (parse r) as [hdr|] eqn:Eh.
  2: { apply eventually_wp, wp_ignore_err, write_returns. }
  apply eventually_bind, eventually_try.
  eapply eventually_mono, (dispatch_cmd_eventually n); [|done..].
  intros [[]|e] [[rn' r'] w'] _; apply eventually_wp; [done|]. apply wp_ignore_err, write_returns.
Qed.

(** *** Runs *)

Lemma poller_at m : PollerContract (P := P) (D := Dec) (VirtioMediaDevice0 := device_at m) Ses.
Proof. split; [exact (@poller_adds _ _ _ _ _ PC)|exact (@poller_removes _ _ _ _ _ PC)]. Qed.

Lemma events_at m : EventContract (D := Dec) (VirtioMediaDevice0 := device_at m) overflow_checks inv.
Proof.
  pose proof (has_planes_laws (K := K) (L := L) m) as BL.
  exact (decoder_events (BL := BL) (strict := true)).
Qed.

Lemma step_at_wf m step n (rn rn' : Runner) :
  runner_wf inv n rn → 0 ≤ n < u64_max → session_id_counter rn < u32_max →
  match step with Command r _ => guarded (guard := spares_pending) rn r = true | Ready _ => True end →
  run_vmm_step (VirtioMediaDevice0 := device_at m) step rn = Ret rn' →
  runner_wf inv (n + 1) rn' ∧ session_id_counter rn' ≤ session_id_counter rn + 1.
Proof.
  intros Hwf Hn Hmax Hg Hr.
  pose proof (run_vmm_step_wf (decoder_panics (pd := true) (strict := true)) overflow_checks inv
    (GC := contract_at m) (EventContract0 := events_at m) (PollerContract0 := poller_at m)
    step n rn Hwf Hn Hmax Hg) as Hw. by rewrite Hr in Hw.
Qed.

Lemma vmm_step_eventually step n (rn : Runner) :
  runner_wf inv n rn → 0 ≤ n < u64_max → session_id_counter rn < u32_max →
  match step with
  | Command r _ => guarded (guard := spares_pending) rn r = true ∧
      requested_ioctl r ≠ Some VIDIOC_SUBSCRIBE_EVENT
  | Ready _ => True
  end →
  ∃ k rn', runner_wf inv (n + 1) rn' ∧ session_id_counter rn' ≤ session_id_counter rn + 1 ∧
    ∀ m, (k ≤ m)%nat → run_vmm_step (VirtioMediaDevice0 := device_at m) step rn = Ret rn'.
Proof.
  intros Hwf Hn Hmax Hg.
  assert (∃ k rn', ∀ m, (k ≤ m)%nat →
    run_vmm_step (VirtioMediaDevice0 := device_at m) step rn = Ret rn') as (k&rn'&Hk).
  { destruct step as [r w|id].
    - destruct Hg as [Hg Hsub].
      destruct (handle_eventually n rn r w Hwf Hn Hmax Hg Hsub) as (k&[[rn' r'] w']&res&_&Hk).
      exists k, rn'. intros m Hm. cbn [run_vmm_step]. by rewrite Hk.
    - pose proof (run_vmm_step_wf (decoder_panics (pd := true) (strict := true)) overflow_checks inv
        (GC := contract_at 0) (EventContract0 := events_at 0) (PollerContract0 := poller_at 0)
        (Ready id) n rn Hwf Hn Hmax Hg) as Hw.
      destruct (run_vmm_step (VirtioMediaDevice0 := device_at 0) (Ready id) rn) as [rn'|] eqn:Er; [|done].
      exists 0%nat, rn'. intros m _. exact Er. }
  exists k, rn'. destruct (step_at_wf k step n rn rn') as [Hwf' Hc]; [done..| |by apply Hk|by split_and!].
  destruct step; [apply Hg|done].
Qed.

(** A step that the guest may take without fear: it subscribes to no event. *)
Definition no_subscription (step : vmm_step) : Prop :=
  match step with
  | Command r _ => requested_ioctl r ≠ Some VIDIOC_SUBSCRIBE_EVENT
  | Ready _ => True
  end.

(** With enough fuel, the guest is polite. *)
Definition finally_polite (steps : list vmm_step) (rn : Runner) : Prop :=
  ∃ k, ∀ m, (k ≤ m)%nat →
    polite (VirtioMediaDevice0 := device_at m) spares_pending steps rn = true.

Lemma run_eventually steps n (rn : Runner) :
  runner_wf inv n rn → 0 ≤ n → n + Z.of_nat (length steps) ≤ u64_max →
  session_id_counter rn + Z.of_nat (length steps) ≤ u32_max →
  Forall no_subscription steps → finally_polite steps rn →
  ∃ k rn' n', runner_wf inv n' rn' ∧
    ∀ m, (k ≤ m)%nat → run_vmm (VirtioMediaDevice0 := device_at m) steps rn = Ret rn'.
Proof.
  revert n rn. induction steps as [|step steps IH]; intros n rn Hwf Hn Hmax Hc Hsub [k0 Hg].
  { by exists 0%nat, rn, n. }
  apply Forall_cons in Hsub as [Hs1 Hsub]. cbn [length] in Hmax, Hc.
  destruct (vmm_step_eventually step n rn) as (k1&rn1&Hwf1&Hc1&Hk1); [done|lia|lia| |].
  { specialize (Hg k0 ltac:(lia)). cbn [polite] in Hg. apply andb_true_iff in Hg as [Hg _].
    by destruct step. }
  destruct (IH (n + 1) rn1) as (k2&rn2&n2&Hwf2&Hk2); [done|lia|lia|lia|done| |].
  { exists (k0 `max` k1)%nat. intros m Hm. specialize (Hg m ltac:(lia)). cbn [polite] in Hg.
    apply andb_true_iff in Hg as [_ Hg]. by rewrite (Hk1 m ltac:(lia)) in Hg. }
  exists (k1 `max` k2)%nat, rn2, n2. split; [done|]. intros m Hm. cbn [run_vmm].
  rewrite Hk1 by lia. apply Hk2. lia.
Qed.

(** ** Properties *)

(** C5: no guest panics or hangs the decoder device on the FFmpeg backend that keeps
    away from [SUBSCRIBE_EVENT] and calls [REQBUFS] only on sessions of which no CAPTURE
    buffer waits for the backend: with a codec that keeps its documented promises, in
    a build without overflow checks, any sequence of commands, whatever their bytes,
    and of events returns for enough fuel, always in the same state.  In it, the
    pending buffers of every session exist, its backend is fit for decoding, and
    every plane of its buffers has a descriptor. *)
Theorem composed_guest_never_panics decoder (q : Q) (hm : HM) (w : World) (p : P) steps :
  Z.of_nat (length steps) ≤ u32_max → Forall no_subscription steps →
  finally_polite steps (runner_new (VideoDecoder_new decoder q hm w) p) →
  ∃ k rn, (∀ m, (k ≤ m)%nat → run_vmm (VirtioMediaDevice0 := device_at m) steps
      (runner_new (VideoDecoder_new decoder q hm w) p) = Ret rn) ∧
    ∀ id s, sessions rn !! id = Some s → d_id s = id ∧ pending_ok s ∧ good (backend_session s) ∧
      mappables (K := World) VideoOutputMplane (input_buffers s) ∧
      mappables (K := World) VideoCaptureMplane (output_buffers s).
Proof.
  intros Hlen Hsub Hg. pose proof (ffmpeg_storage (K := K) (L := L)) as MS.
  destruct (run_eventually steps 0 (runner_new (VideoDecoder_new decoder q hm w) p))
    as (k&rn&n&[[_ Hm] _]&Hk); [|lia|mlia|simpl; lia|done..|].
  { apply runner_new_wf, dec_inv_new. }
  exists k, rn. split; [done|]. intros id s Hs. destruct (Hm id s Hs) as (Hid&Hgood&Hi&Ho&Hp).
  split_and!; [done|by apply Hp|done|by apply (stored_mappables (J := has_planes))|
    by apply (stored_mappables (J := has_planes))].
Qed.
End Vmm.

(** ** Witnesses *)

Module VmmWitness.
Import V4l2r.Sample SampleAvutil SampleEventFd SampleFfmpeg FfmpegWitness DeviceWitness.
#[local] Existing Instances no_checks ffmpeg_backing ffmpeg_backend log_queue vmm_poller sample_one_plane.

(** The guest that decodes a frame and drains, and then stops the CAPTURE queue,
    allocates anew and starts again. *)
Definition polite_steps : list vmm_step :=
  decoding_steps ++ [ioctl_step 19 (c_enc c_u32 9); reqbufs_step 9 1; streamon_step 9; qbuf_step 9 0].

#[local] Instance poller0 : PollerContract (P := unit) (D := Dec) Ses
  (VirtioMediaDevice0 := decoder_device (VideoDecoderBackendSession0 := ffmpeg_session 0)).
Proof. by split. Qed.

Lemma polite_steps_polite :
  finally_polite (V := sample_v4l2r) (AU := sample_avutil) (L := codec_state) polite_steps
    (runner_new device0 tt).
Proof.
  exists 9%nat. intros m Hm. do 9 (destruct m as [|m]; [lia|]). vm_compute. reflexivity.
Qed.

Lemma composed_guest_never_panics_witness :
  ∃ k rn, ∀ m, (k ≤ m)%nat →
    run_vmm (VirtioMediaDevice0 := decoder_device (VideoDecoderBackendSession0 := ffmpeg_session m))
      polite_steps (runner_new device0 tt) = Ret rn.
Proof.
  destruct (composed_guest_never_panics (V := sample_v4l2r) (L := codec_state)
    (PC := poller0) FfmpegDecoder_new [] tt ([], ([], false)) tt polite_steps)
    as (k&rn&Hk&_).
  - vm_compute. congruence.
  - repeat (apply Forall_cons; split; [first [exact I|vm_compute; congruence]|]). apply Forall_nil. exact I.
  - exact polite_steps_polite.
  - exists k, rn. exact Hk.
Defined.
End VmmWitness.
